(* ===== verification/_CoqProject ===== *)
-Q . S2P
Prelude.v
Debias.v
Amls.v
Utilities.v
Posix.v
Daemon.v
DaemonSpec.v
DaemonProofs.v
DaemonTheorems.v
DaemonInvariant.v
DaemonSignals.v
SerialTools.v
Avr.v
Endpoint.v
EndpointStream.v
Within.v
Device.v
Descriptors.v
Cdc.v
Rng.v
RngProofs.v
ControlProofs.v
DeviceProofs.v
CdcProofs.v
FirmwareTypes.v
Rndis.v
RndisProofs.v
BulkHost.v
Midi.v
Audio.v
HidDevice.v
MassStorage.v
MassStorageProofs.v
Printer.v
HidParser.v
HidProofs.v
Board.v
Flash.v
HexLoader.v
HexProofs.v
PrinterLoader.v
DownloadHost.v
DfuLoader.v
DfuProofs.v
DfuImage.v
CdcLoader.v
CdcSession.v
HidLoader.v
VirtualFat.v
DiskLoader.v
DiskSpec.v
DiskMedium.v
DiskProofs.v
DiskSafety.v
FatProofs.v
HexFile.v
HidCli.v
LibUsb.v
HidCliProofs.v
HidProgram.v
