(* ===== verification/Prelude.v ===== *)
(** * Verification of the K7NVH random number generator

    The program is a hardware random number generator and the software around it:
    a USB device whose firmware samples a noise pin and sends each sample as the
    character '0' or '1' over a virtual serial port (firmware/RNG on the LUFA USB
    library, firmware/LUFA), a daemon that reads any number of such devices,
    removes their bias and writes the result to a file or to the kernel's entropy
    pool (software/k7nvh_rng.c), and command line utilities for the same steps
    (utilities/).  Paths below are relative to src/; LUFA is
    firmware/LUFA/LUFA/Drivers/USB.

    ** How the parts interact

    Firmware: main samples PINC and calls the CDC driver, the driver fills the bank
    of endpoint 3 through the endpoint functions, and hands it to the controller
    when it is full or when its task flushes it.  Control requests arrive in the
    USB_COM interrupt (or in USB_USBTask), are offered to the application, which
    passes them to the CDC driver, and are then answered by the standard request
    handlers.  USB_GEN handles reset, suspend and wake-up.  The character Ctrl-^ makes
    the firmware jump to the bootloader, which programs a new firmware into the flash
    memory; the library has five, and all are modelled, and for one of them the program
    on the host that talks to it.
    Daemon: main forks, opens log, pid file, devices and output, then loops; each
    round reports statistics if SIGALRM asked for it, then reads 128 characters
    from every device that has them; every 512 bits go through amls, the result is
    packed into a 1024-byte buffer, and a full buffer is mixed by exclusive or of
    its halves and written out byte by byte.

    ** Files

    - [Prelude]: faults, the C evaluation monad [res], machine integers with their
      wrap-around, arrays as cells that may be indeterminate, shared lemmas.
    - [Debias]: the specification of the Advanced Multi-Level Strategy on bit lists
      ([debias]) and the proof that it removes bias.
    - [Amls]: amls of k7nvh_rng.c on arrays ([amls_scan], [amls_append], [amls]).
    - [Utilities]: ascii_hex_to_bin.c, ascii_to_bin.c, distribution.c, vonneumann.c,
      xor512.c and amls.c of utilities/ as functions from their input to their output.
    - [Posix]: system calls, the program monad [prog] (return, exit, fault), [wp].
    - [Daemon]: k7nvh_rng.c; [daemon] holds its globals, the world and the trace of
      calls, and there is one definition for each function and each part of main
      ([daemonize], [write_pidfile], [open_devices], [open_output], [statistics],
      [read_device], [process_buffer], [whiten_bit], [flush_whitened], ...), for
      both platforms and both settings of file_output.
    - [DaemonSpec]: the abstract pipeline: states, steps and the relation [refines].
    - [DaemonProofs]: each part of the daemon implements the abstract pipeline.
    - [DaemonTheorems]: the theorems about the daemon, and the closed form of its
      output for a device that feeds it ([SerialFeed]).
    - [DaemonInvariant]: what holds in every reachable state of the daemon.
    - [DaemonSignals]: signals that arrive at any point of the daemon ([Signals]).
    - [SerialTools]: read_serial_port.c and ent_pool.c.
    - [Avr]: registers of the microcontroller, the class [Hardware], the state [usb],
      and [Interrupts], what runs before each access to a register or a global.
    - [Endpoint]: LUFA Core/AVR8/Endpoint_AVR8.h and .c.
    - [EndpointStream]: LUFA Core/AVR8/EndpointStream_AVR8.c and its three templates.
    - [Within]: what a program does to the globals at most ([within], [walk]).
    - [Device]: LUFA Core/DeviceStandardReq.c, Core/USBTask.c, Core/AVR8/Device_AVR8,
      USBController_AVR8 and USBInterrupt_AVR8.
    - [Descriptors]: firmware/RNG/Descriptors.c and .h, LUFA Core/ConfigDescriptors.c.
    - [Cdc]: LUFA Class/Device/CDCClassDevice.c.
    - [Rng]: firmware/RNG/RNG.c and its interrupt handlers, which preempt the main
      loop and each other ([Requests], [preempt]).
    - [RngProofs]: what can reach the wire ([EndpointSelect]).
    - [ControlProofs]: control transfers against a host ([ControlHost]).
    - [DeviceProofs]: the wait loop ([FrameClock]), SetConfiguration, unknown requests.
    - [CdcProofs]: the serial port against a host that reads it ([SerialHost]).
    - [FirmwareTypes]: what the firmware does to registers and globals at most
      ([may_write], [ByteRegisters]).
    - [Rndis]: LUFA Class/Device/RNDISClassDevice.c, and [RndisProofs] its theorems.
    - [BulkHost]: a pair of bulk endpoints with a host, for the next drivers.
    - [Midi], [Audio], [HidDevice], [Printer]: LUFA Class/Device/MIDIClassDevice.c,
      AudioClassDevice.c and .h, HIDClassDevice.c and PrinterClassDevice.c, each with
      its theorem.
    - [MassStorage]: LUFA Class/Device/MassStorageClassDevice.c, and
      [MassStorageProofs] its theorem, against what the callback promises ([Medium]).
    - [HidParser]: LUFA Class/Common/HIDParser.c, and [HidProofs] its theorems.
    - [Board], [Flash]: what the bootloaders share: the LEDs of their board, and the
      self-programming of the flash memory ([FlashMemory]).
    - [HexLoader]: the Intel HEX parser of firmware/LUFA/Bootloaders/Printer, and
      [HexProofs] its theorems; [PrinterLoader]: the rest of that bootloader, on
      [Printer], and its theorem.
    - [DownloadHost]: a host that sends the data stage of a request in packets.
    - [DfuLoader]: firmware/LUFA/Bootloaders/DFU, [DfuProofs] its secure mode, and
      [DfuImage] programming by such a host.
    - [HidLoader]: firmware/LUFA/Bootloaders/HID, and its theorem.
    - [CdcLoader]: firmware/LUFA/Bootloaders/CDC, and [CdcSession] a dialogue with it
      ([PortHost]).
    - [VirtualFat]: Lib/VirtualFAT.c and .h and BootloaderAPI.c of
      firmware/LUFA/Bootloaders/MassStorage, and [DiskLoader] its Lib/SCSI.c and
      BootloaderMassStorage.c, on [MassStorage].  [DiskSpec] and [DiskMedium] give its
      blocks and commands as functions, and the instance of [Medium] that composes the
      bootloader with the driver; [DiskProofs], [DiskSafety] and [FatProofs] hold its
      theorems.
    - [HexFile], [HidCli], [LibUsb]: the host program of the HID bootloader,
      HostLoaderApp/hid_bootloader_cli.c: the Intel HEX reader, the options and main, and
      the USB access on Linux.  The main program uses the USB access through [UsbAccess];
      [HidCliProofs] holds the lemmas on files, and [HidProgram] the theorems, against
      [UsbDevice], which [libusb_device] discharges for a libusb with a device
      ([HidAttached]); the reports go to the bootloader of [HidLoader].

    ** What the theorems show

    - Whitening: amls refines [debias] and never leaves its arrays; the output is
      unbiased for every source in which only the number of ones matters; a cell
      that is no bit ends the input.
    - Daemon: every run on every operating system with a writable log refines the
      abstract pipeline or ends with a documented exit code, with no memory error;
      the output for a feeding device is given in closed form; each part (start-up,
      reading, statistics, signals) has its own specification with all branches, and
      its buffers, cursors and counters are well formed in every reachable state.
      Signals may arrive before any system call or access to a global variable, also
      in a handler: such a run corresponds to a run with signals between rounds, up to
      the point at which a signal ends it, and refines the same pipeline.
    - Utilities: each computes a specified function of its input, round trips of
      the text decoders and their errors included.
    - Firmware: whatever hardware, host and preempting interrupts do, only '0' and
      '1' are written to the serial endpoint, the noise pin stays an input, and no
      register is written that should not be or with a value that it should not have;
      descriptors are consistent and are delivered as asked; bytes sent on an open port
      arrive completely, in order, in packets that end the transfer; requests nobody
      handles are stalled; the wait loop ends after 101 frames.
    - Class drivers of the library: the RNDIS driver implements its message protocol
      and delivers its responses; the Mass Storage driver implements the bulk-only
      protocol; the HID driver sends a report exactly when it is due, in a new frame; events pass
      through the MIDI driver unchanged, and 8-bit and 16-bit samples through the
      audio driver.
    - HID parser: it is memory safe on complete descriptors without PUSH and its
      output is well formed; the value of an item is read as its bits.
    - Bootloaders: a HEX file that is printed, an image that is downloaded by DFU, a page
      in a HID report and a block that is sent to the serial port end up in the flash
      memory, and the block can be read back; in secure mode nothing is read or written
      before everything is erased.  HEX files are those with records of even length from
      address 0 on.
      Blocks that are written to the file of the virtual disk are in the flash memory and
      are read back, the file system that a host sees leads to exactly those blocks, and
      no host can make the bootloader touch memory outside the two files.
      The host program and the HID bootloader together bring the image of a HEX file into
      the flash memory, and a file with a damaged record is refused before the device is
      touched.
    - Flaws that the models show: unbounded recursion of log_message, estimates that
      are not numbers, a read past the end of a configuration descriptor, a size
      mask loop that does not end, the state after SetConfiguration(0), the HID
      parser's PUSH and its truncated items, values it does not write, the RNDIS list
      that overruns its buffer, the printer's status that is never sent, the byte
      order of 24-bit audio samples, the byte order of extended addresses, HEX files that
      overwrite the boot section, the configuration number that is read again after its
      check, the filler bytes that the DFU bootloader
      keeps, the addresses above 32 KB of the serial bootloader, and the entry after the
      last cluster in the table of the virtual disk, the addresses that the host program
      sends to parts of 64 KB, and the lines of a HEX file that make it leave its arrays or
      read an unset variable.

    ** Assumptions, bounds and fuel

    The operating system and the microcontroller are parameters: a function from a
    call and a world to a result and a world, and the class [Hardware].  What a
    theorem needs of them is a named hypothesis or class ([log_writable],
    [read_reports], [pid_bounded], [SerialFeed], [ControlHost], [FrameClock],
    [SerialHost], [EndpointSelect], [ByteRegisters], [BulkHost], [Medium], [creates],
    [FlashMemory], [DownloadHost], [PortHost], [UsbDevice], [HidAttached]), and each has an
    instance on which the witnesses run.  The hardware also decides
    which interrupts are pending; they are taken before any access to a register or
    a global variable, nest to any depth.  Every read of a field of USB_ControlRequest in
    the source is an access of its own, so that a handler may change the request between
    two reads; its bytes are stored one at a time; a field is read as a whole.
    The theorems about single drivers are about code that is not interrupted.
    Recursion that is not structural takes fuel: amls recurses on arrays at most
    half as long, so ten levels are enough for 512 bits ([amls_depth]); the nesting
    of log_message is bounded by [log_fuel], of which 1 is enough when the log can
    be written; loops that wait for hardware take [fuel], and the theorems say how
    much is enough or hold for every amount.  The HID parser needs one round for each
    item; the host program needs 512 rounds for the blocks of the largest part, and one for
    each delay before the device appears.  Integers have their C width and signed ones wrap as gcc's do; char is
    signed in the daemon (gcc on x86) and unsigned in the firmware (-funsigned-char).

    ** Not modelled

    The text of log messages and times (sprintf, strftime; messages are values of an
    inductive type), the debug log lines, malloc failures, what a handler does to errno
    and to the buffer of a message that the daemon is formatting, signals between the
    four calls of signal, an interrupt between the bytes of a global variable,
    avr-libc's watchdog and clock set-up, the waits for the end of a self-programming
    operation.  Of the host program of the HID bootloader: what it prints, and the USB
    access on Windows, Mac OS and BSD, which the Linux build leaves out.  Of the library: host mode, which the controller of this device does not
    have, the code for other architectures, and the demonstrations and projects, which
    are programs of their own.

    ** State of the development

    Modelled: everything the firmware, the daemon and the utilities execute, and all
    class drivers for devices, the HID parser and the bootloaders of the library, with
    the host program of one.  A next step is the suspend and wake-up cycle of the device
    as a state machine over several interrupts. *)

From Stdlib Require Import ZArith Lia Bool.
From stdpp Require Import base tactics list numbers.

(** * Faults and the C evaluation monad *)

(** What the C program may not do: access an array outside its bounds, read
    a cell that was never written; and, for the model only, run out of fuel. *)
Inductive fault : Type :=
  | OutOfBounds
  | Indeterminate
  | OutOfFuel.

Inductive res (A : Type) : Type :=
  | Ok (a : A)
  | Fault (f : fault).
Arguments Ok {A} _.
Arguments Fault {A} _.

#[export] Instance fault_eq_dec : EqDecision fault.
Proof. solve_decision. Defined.

#[export] Instance res_eq_dec {A} `{EqDecision A} : EqDecision (res A).
Proof. solve_decision. Defined.

#[export] Instance res_ret : MRet res := fun A a => Ok a.

#[export] Instance res_bind : MBind res :=
  fun A B k m => match m with Ok a => k a | Fault f => Fault f end.

(** * Machine integers *)

(** Reduction of a mathematical integer to an unsigned [w]-bit object. *)
Definition wrapu (w : Z) (z : Z) : Z := z mod 2 ^ w.

(** Conversion to a signed [w]-bit object, two's complement as gcc does it. *)
Definition wraps (w : Z) (z : Z) : Z :=
  (z + 2 ^ (w - 1)) mod 2 ^ w - 2 ^ (w - 1).

Abbreviation u8 := (wrapu 8).
Abbreviation u16 := (wrapu 16).
Abbreviation u32 := (wrapu 32).
Abbreviation u64 := (wrapu 64).
Abbreviation s8 := (wraps 8).
Abbreviation s16 := (wraps 16).
Abbreviation s32 := (wraps 32).

(** * Arrays: cells that may be indeterminate *)

Abbreviation cells := (list (option Z)).

Definition load (a : cells) (i : nat) : res Z :=
  match a !! i with
  | Some (Some z) => Ok z
  | Some None => Fault Indeterminate
  | None => Fault OutOfBounds
  end.

Definition store (a : cells) (i : nat) (z : Z) : res cells :=
  match a !! i with
  | Some _ => Ok (<[i := Some z]> a)
  | None => Fault OutOfBounds
  end.

(** * Tactics *)

(** The function at the head of an application; the tactics on programs unfold it. *)
Ltac head_of t := lazymatch t with ?f _ => head_of f | _ => t end.

(** * Generic lemmas *)

Lemma wrapu_range w z : (0 <= w)%Z -> (0 <= wrapu w z < 2 ^ w)%Z.
Proof. intros. unfold wrapu. apply Z.mod_pos_bound. lia. Qed.

(** Induction two elements at a time. *)
Lemma list_pair_ind {A} (P : list A -> Prop) :
  P [] -> (forall x, P [x]) -> (forall x y r, P r -> P (x :: y :: r)) -> forall l, P l.
Proof.
  intros H0 H1 H2. assert (forall l, P l /\ forall x, P (x :: l)) as H.
  { induction l as [|x l [IH1 IH2]]; split; auto. }
  intros l. apply H.
Qed.

Lemma res_bind_ok {A B} (a : A) (k : A -> res B) : (Ok a ≫= k) = k a.
Proof. done. Qed.

Lemma res_bind_fault {A B} f (k : A -> res B) : (Fault f ≫= k) = Fault f.
Proof. done. Qed.

(** * Bytes *)

Definition is_byte (z : Z) : Prop := (0 <= z < 256)%Z.

#[export] Instance is_byte_dec z : Decision (is_byte z).
Proof. unfold is_byte. apply _. Defined.

(** A decidable property of all bytes is checked by computation. *)
Lemma byte_forall (P : Z -> bool) :
  forallb P (seqZ 0 256) = true -> forall b, is_byte b -> P b = true.
Proof.
  intros H b Hb. rewrite forallb_forall in H. apply H, list_elem_of_In, elem_of_seqZ.
  unfold is_byte in Hb. lia.
Qed.

Lemma u8_small z : is_byte z -> wrapu 8 z = z.
Proof. intros. unfold wrapu. by apply Z.mod_small. Qed.

Lemma u8_is_byte z : is_byte (wrapu 8 z).
Proof. apply wrapu_range. lia. Qed.

Lemma u8_junk junk c : wrapu 8 (junk * 256 + c) = wrapu 8 c.
Proof.
  unfold wrapu. change (2 ^ 8)%Z with 256%Z. by rewrite Z.add_comm, Z.mod_add by lia.
Qed.

Lemma u8_testbit z n : (0 <= n)%Z -> Z.testbit (wrapu 8 z) n = ((n <? 8)%Z && Z.testbit z n).
Proof.
  intros. unfold wrapu. destruct (Z.ltb_spec n 8).
  - by rewrite Z.mod_pow2_bits_low by lia.
  - by rewrite Z.mod_pow2_bits_high by lia.
Qed.

(** Bits that do not overlap are added. *)
Lemma lor_shiftl a b n : (0 <= n)%Z -> (0 <= b < 2 ^ n)%Z -> Z.lor (Z.shiftl a n) b = (a * 2 ^ n + b)%Z.
Proof.
  intros Hn Hb. pose proof (Z.add_lor_land (Z.shiftl a n) b) as Hsum.
  assert (Z.land (Z.shiftl a n) b = 0%Z) as Hl.
  { apply Z.bits_inj'. intros m Hm. rewrite Z.land_spec, Z.bits_0. destruct (Z.ltb_spec m n).
    - by rewrite Z.shiftl_spec_low.
    - rewrite <- (Z.mod_small b (2 ^ n)), Z.mod_pow2_bits_high by lia. apply andb_false_r. }
  rewrite Hl in Hsum. rewrite Z.shiftl_mul_pow2 in * by done. lia.
Qed.

(** Access to the cell between two parts of an array. *)
Lemma load_middle pre z post : load (pre ++ Some z :: post) (length pre) = Ok z.
Proof. unfold load. by rewrite list_lookup_middle. Qed.

Lemma store_middle pre c post z :
  store (pre ++ c :: post) (length pre) z = Ok (pre ++ Some z :: post).
Proof.
  unfold store. rewrite list_lookup_middle by done.
  by rewrite insert_app_r_alt, Nat.sub_diag by lia.
Qed.

Lemma u8_s8_byte v : is_byte v -> u8 (s8 v) = v.
Proof.
  intros Hv. apply Z.eqb_eq. revert v Hv. apply (byte_forall (fun v => (u8 (s8 v) =? v)%Z)). by vm_compute.
Qed.
