(* ===== verification/Debias.v ===== *)
(** The Advanced Multi-Level Strategy on lists of bits.

    This file is the reference semantics of the whitening stage: what
    [amls] of software/k7nvh_rng.c is meant to compute, as a function on bit
    lists, and why its output is unbiased.  [debias] splits the input in pairs;
    unequal pairs give a von Neumann bit ([vn_bits]), the sequence of
    "equal or not" ([level_a_bits]) and the sequence of the values of the equal
    pairs ([level_1_bits]) are debiased in turn.

    Unbiasedness is shown by an explicit group action: [retarget m] permutes
    the inputs of a given length and number of ones and xors [m] into the
    output, so every output of a given length has the same weight under every
    exchangeable source. *)

From Stdlib Require Import Lia Bool Permutation.
From Equations Require Import Equations.
From stdpp Require Import base tactics list numbers.
From S2P Require Import Prelude.

(** * Splitting a bit list into pairs *)

Fixpoint vn_bits (l : list bool) : list bool :=
  match l with
  | a :: b :: r => if Bool.eqb a b then vn_bits r else a :: vn_bits r
  | _ => []
  end.

Fixpoint level_a_bits (l : list bool) : list bool :=
  match l with
  | a :: b :: r => xorb a b :: level_a_bits r
  | _ => []
  end.

Fixpoint level_1_bits (l : list bool) : list bool :=
  match l with
  | a :: b :: r => if Bool.eqb a b then a :: level_1_bits r else level_1_bits r
  | _ => []
  end.

(** The unpaired last bit, if any. *)
Fixpoint leftover (l : list bool) : list bool :=
  match l with
  | _ :: _ :: r => leftover r
  | _ => l
  end.

Fixpoint ones (l : list bool) : nat :=
  match l with
  | [] => 0
  | b :: r => Nat.b2n b + ones r
  end.

Lemma length_level_a l : 2 * length (level_a_bits l) <= length l.
Proof. induction l using list_pair_ind; simpl in *; lia. Qed.

Lemma length_level_1 l : 2 * length (level_1_bits l) <= length l.
Proof.
  induction l as [|x|x y r IH] using list_pair_ind; simpl; [lia..|].
  destruct (Bool.eqb x y); simpl; lia.
Qed.

(** * The debiasing function *)

Equations? debias (l : list bool) : list bool by wf (length l) lt :=
  debias [] := [];
  debias [_] := [];
  debias (a :: b :: r) :=
    vn_bits (a :: b :: r) ++
    (debias (level_a_bits (a :: b :: r)) ++ debias (level_1_bits (a :: b :: r))).
Proof.
  - pose proof (length_level_a r). simpl. lia.
  - pose proof (length_level_1 r). simpl. destruct (Bool.eqb a b); simpl; lia.
Qed.

(** * The group action behind unbiasedness *)

(** Exclusive or with a mask; the mask is extended with zeros. *)
Fixpoint xor_mask (m l : list bool) : list bool :=
  match l, m with
  | b :: l', x :: m' => xorb x b :: xor_mask m' l'
  | l, [] => l
  | [], _ => []
  end.

(** Rebuild the bit list from its von Neumann bits [v], its equal/unequal
    sequence [a], the values [s] of its equal pairs and its leftover [t]. *)
Fixpoint unsplit (v a s t : list bool) : list bool :=
  match a with
  | [] => t
  | true :: a' => let x := default false (head v) in
                  x :: negb x :: unsplit (tail v) a' s t
  | false :: a' => let x := default false (head s) in
                   x :: x :: unsplit v a' (tail s) t
  end.

Equations? retarget (m l : list bool) : list bool by wf (length l) lt :=
  retarget m [] := [];
  retarget m [x] := [x];
  retarget m (a :: b :: r) :=
    unsplit
      (xor_mask m (vn_bits (a :: b :: r)))
      (retarget (drop (length (vn_bits (a :: b :: r))) m) (level_a_bits (a :: b :: r)))
      (retarget (drop (length (vn_bits (a :: b :: r)) +
                       length (debias (level_a_bits (a :: b :: r)))) m)
                (level_1_bits (a :: b :: r)))
      (leftover (a :: b :: r)).
Proof.
  - pose proof (length_level_a r). simpl. lia.
  - pose proof (length_level_1 r). simpl. destruct (Bool.eqb a b); simpl; lia.
Qed.

(** All bit lists of a given length. *)
Fixpoint all_bits (n : nat) : list (list bool) :=
  match n with
  | 0 => [[]]
  | S n' => map (cons false) (all_bits n') ++ map (cons true) (all_bits n')
  end.

(** Sum of a weight that depends only on the number of ones, over the inputs of
    length [n] accepted by [f]. *)
Definition weight (n : nat) (w : nat -> Z) (f : list bool -> bool) : Z :=
  foldr Z.add 0%Z (map (fun l => w (ones l)) (base.filter (fun l => f l = true) (all_bits n))).

(** Well-formedness of the four parts of a split list. *)
Definition parts_ok (v a s t : list bool) : Prop :=
  length v = ones a /\ length s + ones a = length a /\ length t <= 1.

(** * Equations and induction *)

Lemma debias_levels l :
  debias l = vn_bits l ++ (debias (level_a_bits l) ++ debias (level_1_bits l)).
Proof. destruct l as [|a [|b r]]; simp debias; reflexivity. Qed.

Lemma retarget_levels m l :
  retarget m l =
  unsplit (xor_mask m (vn_bits l))
          (retarget (drop (length (vn_bits l)) m) (level_a_bits l))
          (retarget (drop (length (vn_bits l) + length (debias (level_a_bits l))) m)
                    (level_1_bits l))
          (leftover l).
Proof. destruct l as [|a [|b r]]; simp retarget; reflexivity. Qed.

Lemma levels_ind (P : list bool -> Prop) :
  (forall l, length l < 2 -> P l) ->
  (forall l, 2 <= length l -> P (level_a_bits l) -> P (level_1_bits l) -> P l) ->
  forall l, P l.
Proof.
  intros H0 H2 l. induction l as [l IH] using (induction_ltof1 _ length).
  unfold ltof in IH. destruct (decide (length l < 2)) as [?|Hl]; [auto|].
  pose proof (length_level_a l). pose proof (length_level_1 l).
  apply H2; [lia | apply IH; lia | apply IH; lia].
Qed.

Lemma ones_le_length l : ones l <= length l.
Proof. induction l as [|[] l IH]; simpl; lia. Qed.

(** * Splitting and rebuilding are inverse *)

Lemma length_vn_bits l : length (vn_bits l) = ones (level_a_bits l).
Proof.
  induction l as [|x|x y r IH] using list_pair_ind; simpl; [lia..|].
  destruct x, y; simpl; lia.
Qed.

Lemma length_level_1_bits l :
  length (level_1_bits l) + ones (level_a_bits l) = length (level_a_bits l).
Proof.
  induction l as [|x|x y r IH] using list_pair_ind; simpl; [lia..|].
  destruct x, y; simpl; lia.
Qed.

Lemma ones_split l :
  ones l = ones (level_a_bits l) + 2 * ones (level_1_bits l) + ones (leftover l).
Proof.
  induction l as [|x|x y r IH] using list_pair_ind; simpl; [lia..|].
  destruct x, y; simpl; lia.
Qed.

Lemma length_leftover l : length (leftover l) <= 1.
Proof. induction l using list_pair_ind; simpl; lia. Qed.

Lemma unsplit_split l :
  unsplit (vn_bits l) (level_a_bits l) (level_1_bits l) (leftover l) = l.
Proof.
  induction l as [|x|x y r IH] using list_pair_ind; simpl; [done..|].
  destruct x, y; simpl; by rewrite IH.
Qed.

Lemma split_parts_ok l :
  parts_ok (vn_bits l) (level_a_bits l) (level_1_bits l) (leftover l).
Proof. split_and!; [apply length_vn_bits | apply length_level_1_bits | apply length_leftover]. Qed.

Lemma split_unsplit v a s t :
  parts_ok v a s t ->
  vn_bits (unsplit v a s t) = v /\ level_a_bits (unsplit v a s t) = a /\
  level_1_bits (unsplit v a s t) = s /\ leftover (unsplit v a s t) = t.
Proof.
  revert v s. induction a as [|[] a IH]; intros v s (Hv & Hs & Ht); simpl in *.
  - destruct v, s; simpl in *; try lia. by destruct t as [|? [|]]; simpl in *; try lia.
  - destruct v as [|x v]; simpl in *; [lia|].
    destruct (IH v s) as (-> & -> & -> & ->); [split_and!; lia|]. by destruct x.
  - pose proof (ones_le_length a). destruct s as [|x s]; simpl in *; [lia|].
    destruct (IH v s) as (-> & -> & -> & ->); [split_and!; lia|]. by destruct x.
Qed.

Lemma length_unsplit v a s t : length (unsplit v a s t) = 2 * length a + length t.
Proof. revert v s. induction a as [|[] a IH]; intros; simpl; rewrite ?IH; lia. Qed.

Lemma length_split l : length l = 2 * length (level_a_bits l) + length (leftover l).
Proof. induction l using list_pair_ind; simpl; lia. Qed.

(** * Masks *)

Lemma length_xor_mask m l : length (xor_mask m l) = length l.
Proof. revert m. induction l; intros []; simpl; auto. Qed.

Lemma xor_mask_involutive m l : xor_mask m (xor_mask m l) = l.
Proof.
  revert m. induction l as [|b l IH]; intros [|x m]; simpl; auto.
  rewrite IH. by destruct x, b.
Qed.

Lemma xor_mask_app m l1 l2 :
  xor_mask m (l1 ++ l2) = xor_mask m l1 ++ xor_mask (drop (length l1) m) l2.
Proof.
  revert m. induction l1 as [|b l1 IH]; intros [|x m]; simpl; auto.
  - by destruct l2.
  - by rewrite IH.
Qed.

(** The mask that turns one list into another of the same length. *)
Lemma xor_mask_exists l l' : length l = length l' -> xor_mask (xor_mask l l') l = l'.
Proof.
  revert l'. induction l as [|b l IH]; intros [|b' l']; simpl; try lia; auto.
  intros. rewrite IH by lia. by destruct b, b'.
Qed.

(** * [retarget] is a length- and ones-preserving involution that xors the output *)

Lemma retarget_short m l : length l < 2 -> retarget m l = l.
Proof. destruct l as [|x [|y l]]; simpl; intros; [done..|lia]. Qed.

Lemma retarget_invariants m l :
  ones (retarget m l) = ones l /\ length (retarget m l) = length l.
Proof.
  revert m. induction l as [l Hl|l Hl IHa IH1] using levels_ind; intros m.
  { by rewrite retarget_short. }
  rewrite retarget_levels. set (v' := xor_mask _ _).
  set (ma := drop (length _) m). set (ms := drop (_ + _) m).
  destruct (IHa ma) as [Oa La], (IH1 ms) as [Os Ls], (split_parts_ok l) as (Pv & Ps & Pt).
  assert (parts_ok v' (retarget ma (level_a_bits l)) (retarget ms (level_1_bits l)) (leftover l)) as Hok.
  { unfold parts_ok, v'. rewrite length_xor_mask, Oa, La, Ls. auto. }
  pose proof (split_unsplit _ _ _ _ Hok) as (_ & Ha & Hs & Ht).
  rewrite (ones_split (unsplit _ _ _ _)), length_unsplit, Ha, Hs, Ht, Oa, La, Os.
  split; [by rewrite <- ones_split | by rewrite <- length_split].
Qed.

Lemma ones_retarget m l : ones (retarget m l) = ones l.
Proof. apply retarget_invariants. Qed.

Lemma length_retarget m l : length (retarget m l) = length l.
Proof. apply retarget_invariants. Qed.

Lemma retarget_parts_ok m l :
  parts_ok (xor_mask m (vn_bits l))
           (retarget (drop (length (vn_bits l)) m) (level_a_bits l))
           (retarget (drop (length (vn_bits l) + length (debias (level_a_bits l))) m)
                     (level_1_bits l))
           (leftover l).
Proof.
  unfold parts_ok. rewrite length_xor_mask, ones_retarget, !length_retarget.
  apply split_parts_ok.
Qed.

Lemma debias_retarget m l : debias (retarget m l) = xor_mask m (debias l).
Proof.
  revert m. induction l as [l Hl|l Hl IHa IH1] using levels_ind; intros m.
  { rewrite retarget_short by done. by destruct l as [|x [|]]; simpl in *; try lia; destruct m. }
  destruct (split_unsplit _ _ _ _ (retarget_parts_ok m l)) as (Hv & Ha & Hs & _).
  rewrite <- retarget_levels in Hv, Ha, Hs.
  rewrite (debias_levels (retarget m l)), Hv, Ha, Hs, IHa, IH1.
  rewrite (debias_levels l), !xor_mask_app. by rewrite drop_drop.
Qed.

Lemma retarget_involutive m l : retarget m (retarget m l) = l.
Proof.
  revert m. induction l as [l Hl|l Hl IHa IH1] using levels_ind; intros m.
  { by rewrite !retarget_short by (rewrite ?retarget_short; done). }
  destruct (split_unsplit _ _ _ _ (retarget_parts_ok m l)) as (Hv & Ha & Hs & Ht).
  rewrite <- retarget_levels in Hv, Ha, Hs, Ht.
  rewrite (retarget_levels m (retarget m l)), Hv, Ha, Hs, Ht.
  rewrite debias_retarget, !length_xor_mask, xor_mask_involutive, IHa, IH1.
  apply unsplit_split.
Qed.

(** * Counting *)

Lemma elem_of_all_bits n l : l ∈ all_bits n <-> length l = n.
Proof.
  revert l. induction n as [|n IH]; intros l; simpl.
  - rewrite list_elem_of_singleton. by destruct l.
  - rewrite elem_of_app, !list_elem_of_fmap. setoid_rewrite IH. split.
    + by intros [(? & -> & <-)|(? & -> & <-)].
    + destruct l as [|[] l]; simpl; intros; [lia|right|left]; exists l; auto.
Qed.

Lemma NoDup_all_bits n : NoDup (all_bits n).
Proof.
  induction n as [|n IH]; simpl; [apply NoDup_singleton|].
  apply list.NoDup_app. split_and!; [by apply NoDup_fmap_2; [intros ??[=]|] | |
    by apply NoDup_fmap_2; [intros ??[=]|]].
  intros x. rewrite !list_elem_of_fmap. by intros (? & -> & _) (? & ? & _).
Qed.

Lemma retarget_permutes m n : map (retarget m) (all_bits n) ≡ₚ all_bits n.
Proof.
  apply NoDup_Permutation.
  - apply NoDup_fmap_2; [|apply NoDup_all_bits].
    intros x y E. by rewrite <- (retarget_involutive m x), E, retarget_involutive.
  - apply NoDup_all_bits.
  - intros l. rewrite list_elem_of_fmap, elem_of_all_bits. split.
    + intros (x & -> & ?%elem_of_all_bits). by rewrite length_retarget.
    + intros <-. exists (retarget m l). rewrite retarget_involutive, elem_of_all_bits.
      by rewrite length_retarget.
Qed.

Lemma foldr_add_permutation (l1 l2 : list Z) :
  l1 ≡ₚ l2 -> foldr Z.add 0%Z l1 = foldr Z.add 0%Z l2.
Proof. induction 1; simpl; lia. Qed.

Lemma weight_cond n w f :
  weight n w f =
  foldr Z.add 0%Z (map (fun l => if f l then w (ones l) else 0%Z) (all_bits n)).
Proof.
  unfold weight. induction (all_bits n) as [|l L IH]; [done|].
  simpl. rewrite filter_cons. case_decide as E; simpl.
  - by rewrite E, IH.
  - destruct (f l); [done|]. simpl. lia.
Qed.

Lemma weight_retarget n w f m :
  weight n w f = weight n w (fun l => f (retarget m l)).
Proof.
  rewrite !weight_cond.
  rewrite (foldr_add_permutation _ _ (fmap_Permutation _ _ _ (symmetry (retarget_permutes m n)))).
  f_equal. rewrite <- list_fmap_compose. apply list_fmap_ext. intros i l _. simpl.
  by rewrite ones_retarget.
Qed.

(** Every output of a given length has the same weight, whatever the bias. *)
Lemma debias_uniform n w y y' :
  length y = length y' ->
  weight n w (fun l => bool_decide (debias l = y)) =
  weight n w (fun l => bool_decide (debias l = y')).
Proof.
  intros Hy. rewrite (weight_retarget _ _ _ (xor_mask y y')), !weight_cond.
  f_equal. apply list_fmap_ext. intros i l _. rewrite debias_retarget.
  assert (xor_mask (xor_mask y y') (debias l) = y <-> debias l = y') as E.
  { split.
    - intros E. rewrite <- (xor_mask_involutive (xor_mask y y') (debias l)), E.
      by apply xor_mask_exists.
    - intros ->. rewrite <- (xor_mask_exists y y') at 2 by done. apply xor_mask_involutive. }
  by rewrite (bool_decide_ext _ _ E).
Qed.

(** * Size of the output *)

Lemma length_debias l : length (debias l) <= length l - 1.
Proof.
  induction l as [l Hl|l Hl IHa IH1] using levels_ind.
  { by destruct l as [|x [|]]; simpl in *; try lia. }
  rewrite debias_levels, !length_app, length_vn_bits.
  pose proof (length_level_1_bits l). pose proof (length_level_a l). lia.
Qed.

Lemma weight_ext n w f g :
  (forall l, length l = n -> f l = g l) -> weight n w f = weight n w g.
Proof.
  intros H. rewrite !weight_cond. f_equal. apply list_fmap_ext. intros i l Hi.
  rewrite H; [done|]. apply elem_of_all_bits. by eapply list_elem_of_lookup_2.
Qed.

Lemma vn_bits_app_even l1 l2 :
  Nat.Even (length l1) -> vn_bits (l1 ++ l2) = vn_bits l1 ++ vn_bits l2.
Proof.
  induction l1 as [|x|x y l1 IH] using list_pair_ind; intros Hl; [done| |].
  - destruct Hl as [k Hk]. simpl in Hk. lia.
  - simpl. rewrite IH; [by destruct (eqb x y)|]. destruct Hl as [k Hk]. exists (pred k). simpl in Hk. lia.
Qed.
