(* ===== verification/Amls.v ===== *)
(** The array implementation of the Advanced Multi-Level Strategy.

    [amls] translates the function of the same name of software/k7nvh_rng.c
    (and its copy in utilities/amls.c, where the element type is int8_t):
    three malloc'ed arrays of [amls_array_len] cells, of which only [result] is
    initialised, cursors into them, a scan of the input two bits at a time, two
    recursive calls and two copy loops that stop at the end marker -1.  Cells
    are [option Z], [None] being indeterminate memory; every access is checked.

    The theorems show that no access is out of bounds or indeterminate, that the
    recursion ends, and that the array returned encodes [debias] of the input.
    [char] is taken as a signed 8-bit type (as gcc has it on the platforms the
    daemon targets) and malloc as always succeeding. *)

From Stdlib Require Import Lia.
From stdpp Require Import base tactics list numbers.
From S2P Require Import Prelude Debias.

Definition amls_array_len : nat := 512.

(** Locals of the scanning loop. *)
Record amls_state : Type := mk_amls {
  result : cells;
  result_pos : nat;
  level_1 : cells;
  level_1_pos : nat;
  level_a : cells;
  level_a_pos : nat;
  bit_0 : Z }.

(** One iteration of the scan, on input [d], a 0 or a 1. *)
Definition amls_step (d : Z) (st : amls_state) : res amls_state :=
  if (bit_0 st =? -1)%Z then
    mret (mk_amls (result st) (result_pos st) (level_1 st) (level_1_pos st)
                  (level_a st) (level_a_pos st) d)
  else if (bit_0 st =? d)%Z then
    la ← store (level_a st) (level_a_pos st) 0;
    l1 ← store (level_1 st) (level_1_pos st) (bit_0 st);
    mret (mk_amls (result st) (result_pos st) l1 (S (level_1_pos st))
                  la (S (level_a_pos st)) (-1))
  else
    la ← store (level_a st) (level_a_pos st) 1;
    r ← store (result st) (result_pos st) (bit_0 st);
    mret (mk_amls r (S (result_pos st)) (level_1 st) (level_1_pos st)
                  la (S (level_a_pos st)) (-1)).

(** [for (int i = ...; i < data_len; i++)], [k] iterations left. *)
Fixpoint amls_scan (k i : nat) (data : cells) (st : amls_state) : res amls_state :=
  match k with
  | 0 => mret st
  | S k' =>
      d ← load data i;
      if negb (d =? 0)%Z && negb (d =? 1)%Z then mret st
      else st' ← amls_step d st; amls_scan k' (S i) data st'
  end.

(** The copy of a sub-result behind [result], up to its end marker. *)
Fixpoint amls_append (k i : nat) (src : cells) (dst : cells) (pos : nat) : res (cells * nat) :=
  match k with
  | 0 => mret (dst, pos)
  | S k' =>
      z ← load src i;
      if (z =? -1)%Z then mret (dst, pos)
      else dst' ← store dst pos z; amls_append k' (S i) src dst' (S pos)
  end.

Fixpoint amls (fuel : nat) (data : cells) (data_len : nat) : res cells :=
  match fuel with
  | 0 => Fault OutOfFuel
  | S fuel' =>
      let result_0 := replicate amls_array_len (Some (-1)%Z) in
      let level_1_0 := replicate amls_array_len None in
      let level_a_0 := replicate amls_array_len None in
      if data_len <? 2 then mret result_0
      else
        st ← amls_scan data_len 0 data (mk_amls result_0 0 level_1_0 0 level_a_0 0 (-1));
        level_a_result ← amls fuel' (level_a st) (level_a_pos st);
        level_1_result ← amls fuel' (level_1 st) (level_1_pos st);
        r1 ← amls_append amls_array_len 0 level_a_result (result st) (result_pos st);
        r2 ← amls_append amls_array_len 0 level_1_result r1.1 r1.2;
        mret r2.1
  end.

(** Recursion depth that suffices for a full array (see [amls_refines_debias]). *)
Definition amls_depth : nat := 10.

(** * Encoding of bit lists in arrays *)

Definition bitZ (b : bool) : Z := Z.b2z b.

Definition bit_cells (l : list bool) : cells := map (fun b => Some (bitZ b)) l.

(** An array of [amls_array_len] cells that starts with [l] and is padded with [d]. *)
Definition padded (d : option Z) (l : list bool) : cells :=
  bit_cells l ++ replicate (amls_array_len - length l) d.

(** The representation of a bit list in a [result] array: bits, then -1. *)
Definition encode (l : list bool) : cells := padded (Some (-1)%Z) l.

(** * Lemmas on the encoding *)

Lemma length_padded d l : length l <= amls_array_len -> length (padded d l) = amls_array_len.
Proof. intros. unfold padded, bit_cells. rewrite length_app, length_fmap, length_replicate. lia. Qed.

Lemma padded_nil d : padded d [] = replicate amls_array_len d.
Proof. done. Qed.


Lemma store_padded d l b :
  length l < amls_array_len ->
  store (padded d l) (length l) (bitZ b) = Ok (padded d (l ++ [b])).
Proof.
  intros Hl. unfold store, padded, bit_cells. rewrite length_app. simpl.
  replace (amls_array_len - length l) with (S (amls_array_len - (length l + 1))) by lia.
  simpl. rewrite (list_lookup_middle _ _ _ (length l)) by (by rewrite length_fmap).
  f_equal. rewrite fmap_app, <- app_assoc. simpl.
  by rewrite insert_app_r_alt, length_fmap, Nat.sub_diag by (rewrite length_fmap; lia).
Qed.

Lemma load_padded_bit d l i b : l !! i = Some b -> load (padded d l) i = Ok (bitZ b).
Proof.
  intros Hi. unfold load, padded, bit_cells.
  rewrite lookup_app_l by (rewrite length_fmap; by eapply lookup_lt_Some).
  by rewrite list_lookup_fmap, Hi.
Qed.

Lemma load_encode_bit l i b : l !! i = Some b -> load (encode l) i = Ok (bitZ b).
Proof. apply load_padded_bit. Qed.

Lemma store_encode l b :
  length l < amls_array_len -> store (encode l) (length l) (bitZ b) = Ok (encode (l ++ [b])).
Proof. apply store_padded. Qed.

Lemma load_encode_end l : length l < amls_array_len -> load (encode l) (length l) = Ok (-1)%Z.
Proof.
  intros Hl. unfold load, encode, padded, bit_cells.
  rewrite lookup_app_r, length_fmap, Nat.sub_diag by (rewrite length_fmap; lia).
  rewrite lookup_replicate_2 by lia. done.
Qed.

Lemma encode_inj l l' :
  length l < amls_array_len -> length l' < amls_array_len -> encode l = encode l' -> l = l'.
Proof.
  unfold encode, padded. generalize amls_array_len as n. intros n. revert n l'.
  induction l as [|b l IH]; intros n [|b' l'] Hl Hl' E; simpl in *; [done| | |].
  - destruct n; simpl in E; [lia|]. by destruct b'.
  - destruct n; simpl in E; [lia|]. by destruct b.
  - destruct n as [|n]; [lia|]. simpl in E. injection E as Eb E.
    f_equal; [by destruct b, b'|]. apply (IH n); lia || done.
Qed.

(** * The scanning loop *)

(** The locals after the pairs read so far gave the lists [v], [a], [s]. *)
Definition scan_state (v a s : list bool) (b0 : Z) : amls_state :=
  mk_amls (encode v) (length v) (padded None s) (length s) (padded None a) (length a) b0.

Lemma scan_bit k i pre b post st :
  i = length pre ->
  amls_scan (S k) i (pre ++ Some (bitZ b) :: post) st =
  (amls_step (bitZ b) st ≫= amls_scan k (S i) (pre ++ Some (bitZ b) :: post)).
Proof. intros ->. simpl. rewrite load_middle. by destruct b. Qed.

Lemma step_first x v a s :
  amls_step (bitZ x) (scan_state v a s (-1)) = Ok (scan_state v a s (bitZ x)).
Proof. done. Qed.

Lemma step_second x y v a s :
  length v < amls_array_len -> length a < amls_array_len -> length s < amls_array_len ->
  amls_step (bitZ y) (scan_state v a s (bitZ x)) =
  Ok (scan_state (v ++ vn_bits [x; y]) (a ++ level_a_bits [x; y])
                 (s ++ level_1_bits [x; y]) (-1)).
Proof.
  intros Hv Ha Hs.
  pose proof (store_padded None a (xorb x y) Ha) as A. pose proof (store_padded None s x Hs) as S0.
  pose proof (store_padded (Some (-1)%Z) v x Hv) as V0.
  unfold amls_step, scan_state, encode.
  destruct x, y; cbn in A, S0, V0 |- *; rewrite A; cbn; rewrite ?S0, ?V0; cbn;
    rewrite !app_nil_r, !length_app; cbn; repeat f_equal; lia.
Qed.

Lemma scan_pair k pre x y post v a s :
  length v < amls_array_len -> length a < amls_array_len -> length s < amls_array_len ->
  amls_scan (S (S k)) (length pre) (pre ++ Some (bitZ x) :: Some (bitZ y) :: post)
            (scan_state v a s (-1)) =
  amls_scan k (length (pre ++ [Some (bitZ x); Some (bitZ y)]))
            ((pre ++ [Some (bitZ x); Some (bitZ y)]) ++ post)
            (scan_state (v ++ vn_bits [x; y]) (a ++ level_a_bits [x; y])
                        (s ++ level_1_bits [x; y]) (-1)).
Proof.
  intros Hv Ha Hs. rewrite scan_bit by done.
  replace (pre ++ Some (bitZ x) :: Some (bitZ y) :: post)
    with ((pre ++ [Some (bitZ x)]) ++ Some (bitZ y) :: post) by (by rewrite <- app_assoc).
  rewrite step_first, res_bind_ok. rewrite scan_bit by (rewrite length_app; simpl; lia).
  rewrite step_second, res_bind_ok by done.
  by rewrite !length_app, <- !app_assoc; simpl; rewrite Nat.add_comm.
Qed.

(** Where the scan stops: the input is exhausted, or the next cell is neither 0 nor 1. *)
Definition scan_stops (k : nat) (l : list bool) (post : cells) : Prop :=
  k = length l \/
  (length l < k /\ exists z post', post = Some z :: post' /\ z <> 0%Z /\ z <> 1%Z).

Lemma scan_stop k pre post st :
  scan_stops k [] post -> amls_scan k (length pre) (pre ++ post) st = Ok st.
Proof.
  intros [->|(Hk & z & post' & -> & Hz0 & Hz1)]; [done|].
  destruct k as [|k]; [simpl in Hk; lia|]. simpl. rewrite load_middle, res_bind_ok.
  by destruct (Z.eqb_spec z 0), (Z.eqb_spec z 1).
Qed.

Lemma scan_stops_cons k x l post :
  scan_stops k (x :: l) post -> exists k', k = S k' /\ scan_stops k' l post.
Proof.
  unfold scan_stops. simpl. intros [->|[? ?]]; [eauto|]. destruct k as [|k]; [lia|].
  exists k. split; [done|right]. split; [lia|done].
Qed.

Lemma scan_bits l : forall k pre post v a s,
  scan_stops k l post ->
  length v + length l <= amls_array_len -> length a + length l <= amls_array_len ->
  length s + length l <= amls_array_len ->
  exists b0, amls_scan k (length pre) (pre ++ bit_cells l ++ post) (scan_state v a s (-1)) =
             Ok (scan_state (v ++ vn_bits l) (a ++ level_a_bits l) (s ++ level_1_bits l) b0).
Proof.
  induction l as [|x|x y r IH] using list_pair_ind; intros k pre post v a s Hk Hv Ha Hs.
  - exists (-1)%Z. simpl. rewrite !app_nil_r. by apply scan_stop.
  - destruct (scan_stops_cons _ _ _ _ Hk) as (k' & -> & Hk'). exists (bitZ x). cbn [bit_cells map app].
    rewrite scan_bit, step_first, res_bind_ok by done. simpl. rewrite !app_nil_r.
    replace (pre ++ Some (bitZ x) :: post) with ((pre ++ [Some (bitZ x)]) ++ post)
      by (by rewrite <- app_assoc).
    replace (S (length pre)) with (length (pre ++ [Some (bitZ x)]))
      by (rewrite length_app; simpl; lia).
    by apply scan_stop.
  - destruct (scan_stops_cons _ _ _ _ Hk) as (k1 & -> & Hk1).
    destruct (scan_stops_cons _ _ _ _ Hk1) as (k2 & -> & Hk2).
    simpl in Hv, Ha, Hs.
    change (bit_cells (x :: y :: r)) with (Some (bitZ x) :: Some (bitZ y) :: bit_cells r).
    cbn [app]. rewrite scan_pair by lia.
    destruct (IH k2 (pre ++ [Some (bitZ x); Some (bitZ y)]) post
                (v ++ vn_bits [x; y]) (a ++ level_a_bits [x; y]) (s ++ level_1_bits [x; y]))
      as [b0 E]; [done | destruct x, y; rewrite length_app; simpl; lia..|].
    exists b0. rewrite E, <- !app_assoc. by destruct x, y.
Qed.

(** * The copy loops *)

Lemma append_spec y : forall z v k,
  length (z ++ y) < amls_array_len -> length y < k -> length v + length y <= amls_array_len ->
  amls_append k (length z) (encode (z ++ y)) (encode v) (length v) =
  Ok (encode (v ++ y), length (v ++ y)).
Proof.
  induction y as [|b y IH]; intros z v [|k] Hz Hk Hv; simpl in Hk, Hv; try lia; cbn [amls_append].
  - rewrite !app_nil_r in *. by rewrite load_encode_end, res_bind_ok.
  - rewrite (load_encode_bit _ _ b) by (by apply list_lookup_middle).
    rewrite res_bind_ok, (proj2 (Z.eqb_neq _ _)) by (by destruct b).
    rewrite store_encode, res_bind_ok by lia.
    replace (z ++ b :: y) with ((z ++ [b]) ++ y) in * by (by rewrite <- app_assoc).
    replace (S (length z)) with (length (z ++ [b])) by (rewrite length_app; simpl; lia).
    replace (S (length v)) with (length (v ++ [b])) by (rewrite length_app; simpl; lia).
    rewrite IH; [by rewrite <- app_assoc | done | lia |].
    rewrite length_app. simpl. lia.
Qed.

Lemma append_all y v :
  length y < amls_array_len -> length v + length y <= amls_array_len ->
  amls_append amls_array_len 0 (encode y) (encode v) (length v) =
  Ok (encode (v ++ y), length (v ++ y)).
Proof. intros. by apply (append_spec y []). Qed.

(** * The function computes [debias] *)

Lemma amls_debias fuel : forall l n post,
  0 < fuel -> n < 2 ^ fuel -> length l <= amls_array_len -> scan_stops n l post ->
  amls fuel (bit_cells l ++ post) n = Ok (encode (debias l)).
Proof.
  induction fuel as [|fuel IH]; intros l n post H0 Hf Hl Hn; [lia|].
  cbn [amls]. rewrite Nat.pow_succ_r' in Hf.
  assert (length l <= n) as Hln by (destruct Hn as [->|[? _]]; lia).
  destruct (Nat.ltb_spec n 2) as [Hn2|Hn2].
  { by destruct l as [|x [|]]; simpl in *; try lia. }
  destruct (scan_bits l n [] post [] [] [] Hn) as [b0 E]; [simpl; lia..|].
  change (mk_amls _ 0 _ 0 _ 0 (-1)) with (scan_state [] [] [] (-1)).
  change (bit_cells l ++ post) with ([] ++ bit_cells l ++ post). cbn [length] in E. rewrite E, res_bind_ok.
  pose proof (length_level_a l). pose proof (length_level_1 l). pose proof (length_debias l) as Hd.
  rewrite debias_levels in Hd |- *. rewrite !length_app in Hd.
  assert (0 < amls_array_len) by (unfold amls_array_len; lia).
  assert (0 < fuel) by (destruct fuel; simpl in *; lia).
  cbn [scan_state result result_pos level_1 level_1_pos level_a level_a_pos app]. unfold padded.
  rewrite (IH (level_a_bits l)), res_bind_ok by (lia || by left).
  rewrite (IH (level_1_bits l)), res_bind_ok by (lia || by left).
  rewrite append_all, res_bind_ok by lia. cbn [fst snd].
  rewrite append_all, res_bind_ok by (rewrite ?length_app; lia). by rewrite <- app_assoc.
Qed.

Lemma amls_refines_debias_aux l post :
  length l <= amls_array_len ->
  amls amls_depth (bit_cells l ++ post) (length l) = Ok (encode (debias l)) /\
  length (debias l) < amls_array_len.
Proof.
  intros Hl. pose proof (length_debias l) as Hd. unfold amls_array_len in *. split; [|lia].
  apply amls_debias; [unfold amls_depth; lia | | done | by left].
  change (2 ^ amls_depth) with 1024. lia.
Qed.

Lemma amls_result_iff n l post y :
  n <= amls_array_len -> length l = n -> length y < amls_array_len ->
  amls amls_depth (bit_cells l ++ post) n = Ok (encode y) <-> debias l = y.
Proof.
  intros Hn Hl Hy. subst n. destruct (amls_refines_debias_aux l post Hn) as (-> & Hd). split.
  - intros [= E]. by apply encode_inj.
  - by intros ->.
Qed.

(** * Properties *)

(** C2: on an array that holds [l] (at most 512 bits) followed by anything, the
    array implementation returns, without an out-of-bounds access, without
    reading indeterminate memory and within the recursion depth [amls_depth],
    an array of 512 cells that holds exactly [debias l] and then -1 up to its
    end; the last cell is always the end marker. *)
Theorem amls_refines_debias l post :
  length l <= amls_array_len ->
  amls amls_depth (bit_cells l ++ post) (length l) = Ok (encode (debias l)) /\
  length (encode (debias l)) = amls_array_len /\
  encode (debias l) !! (amls_array_len - 1) = Some (Some (-1)%Z).
Proof.
  intros Hl. destruct (amls_refines_debias_aux l post Hl) as [E Hd]. split_and!; [done| |].
  - apply length_padded. lia.
  - unfold encode, padded, bit_cells.
    rewrite lookup_app_r, length_fmap by (rewrite length_fmap; lia).
    apply lookup_replicate_2. lia.
Qed.

(** Witness of C2: a full array of alternating bits. *)
Lemma amls_refines_debias_witness :
  amls amls_depth (bit_cells (concat (replicate 256 [true; false])) ++ []) 512 =
  Ok (encode (replicate 256 true)).
Proof.
  refine (eq_trans (proj1 (amls_refines_debias (concat (replicate 256 [true; false])) [] _)) _).
  - vm_compute. lia.
  - vm_compute. reflexivity.
Defined.

(** C3: the whitened bits are unbiased.  Give every input of length [n] any
    weight that depends only on its number of ones, such as the probability
    p^k (1-p)^(n-k) of a biased but independent source: the inputs for which
    [amls] returns [y] and those for which it returns [y'] have the same total
    weight, for all outputs [y], [y'] of the same length. *)
Theorem amls_unbiased n w y y' post :
  n <= amls_array_len -> length y = length y' -> length y < amls_array_len ->
  weight n w (fun l => bool_decide (amls amls_depth (bit_cells l ++ post) n = Ok (encode y))) =
  weight n w (fun l => bool_decide (amls amls_depth (bit_cells l ++ post) n = Ok (encode y'))).
Proof.
  intros Hn Hy Hl.
  assert (forall z, length z < amls_array_len ->
    weight n w (fun l => bool_decide (amls amls_depth (bit_cells l ++ post) n = Ok (encode z))) =
    weight n w (fun l => bool_decide (debias l = z))) as E.
  { intros z Hz. apply weight_ext. intros l ?. by apply bool_decide_ext, amls_result_iff. }
  rewrite !E by lia. by apply debias_uniform.
Qed.

(** Witness of C3: 4 input bits, a source with P(1) = 3/4 scaled by 4^4. *)
Lemma amls_unbiased_witness :
  let w := fun k => (3 ^ Z.of_nat k)%Z in
  let sum y := weight 4 w (fun l => bool_decide (amls amls_depth (bit_cells l ++ []) 4 = Ok (encode y))) in
  sum [false; true; true] = sum [true; false; false].
Proof.
  apply (amls_unbiased 4 (fun k => (3 ^ Z.of_nat k)%Z) [false; true; true] [true; false; false] []);
    vm_compute; (reflexivity || lia).
Defined.

(** A cell that is neither 0 nor 1 ends the input: whatever follows it, and
    however large the announced length, only the bits before it are used. *)
Theorem amls_stops_at_invalid l z post n :
  length l < n -> n <= amls_array_len -> z <> 0%Z -> z <> 1%Z ->
  amls amls_depth (bit_cells l ++ Some z :: post) n = Ok (encode (debias l)).
Proof.
  intros. apply amls_debias; [unfold amls_depth; lia | | lia |].
  - change (2 ^ amls_depth) with 1024. unfold amls_array_len in *. lia.
  - right. eauto 6.
Qed.

(** At a concrete input: a line feed after four bits. *)
Lemma amls_stops_at_invalid_witness :
  amls amls_depth (bit_cells [true; false; true; true] ++ Some 10%Z :: [Some 1%Z]) 6 =
  Ok (encode [true; true]).
Proof.
  refine (eq_trans (amls_stops_at_invalid [true; false; true; true] 10 [Some 1%Z] 6 _ _ _ _) _);
    vm_compute; (reflexivity || lia).
Defined.
