(* ===== verification/Utilities.v ===== *)
(** The stream filters of utilities/.

    Each program of utilities/ that maps standard input (or a file) to standard
    output is a function from the list of input bytes to the bytes written and
    the exit status: ascii_hex_to_bin.c ([hex_main]), ascii_to_bin.c
    ([bin_main]), distribution.c ([dist_main]), vonneumann.c ([vn_main]),
    xor512.c ([xor_main]) and amls.c ([util_amls_main]).  A byte is an integer in
    [0, 256); reading past the end is EOF.  Where the source reads one byte
    into an int it never initialises, the model takes the other three bytes as
    an argument [junk], and the theorems hold for all of them.

    The theorems are round trips with printers of hexadecimal and binary text,
    exact counts, and equalities with reference functions on bit lists. *)

From Stdlib Require Import ZArith Lia Bool.
From stdpp Require Import base tactics list numbers.
From S2P Require Import Prelude Debias Amls.

Local Open Scope Z_scope.

Definition EOF : Z := -1.

(** How a program ends: by returning from main, or by abort(). *)
Inductive status : Type :=
  | Exited (code : Z)
  | Aborted.

(** * ascii_hex_to_bin.c *)

(** The value of a hexadecimal digit; [None] is the branch that aborts. *)
Definition hexval (c : Z) : option Z :=
  if (48 <=? c) && (c <=? 57) then Some (u8 (c - 48))
  else if (65 <=? c) && (c <=? 70) then Some (u8 (c - 65 + 10))
  else if (97 <=? c) && (c <=? 102) then Some (u8 (c - 97 + 10))
  else None.

(** printf("Error: %c", c) *)
Definition hex_error (c : Z) : list Z := [69; 114; 114; 111; 114; 58; 32; u8 c].

(** The bytes passed to stdout and the end of the program.  C does not say which of
    the two hexval calls runs first; here it is the left one. *)
Fixpoint hex_main (stdin : list Z) : list Z * status :=
  match stdin with
  | [] => ([], Exited 0)
  | c1 :: rest =>
      let byte1 := s8 c1 in
      if byte1 =? EOF then ([], Exited 0)
      else
        match rest with
        | [] => ([], Exited 0)
        | c2 :: rest' =>
            let byte2 := s8 c2 in
            if byte2 =? EOF then ([], Exited 0)
            else
              match hexval (u8 byte1), hexval (u8 byte2) with
              | Some h1, Some h2 =>
                  let num := u8 (Z.shiftl h1 4 + h2) in
                  let (out, st) := hex_main rest' in (num :: out, st)
              | None, _ => (hex_error (u8 byte1), Aborted)
              | Some _, None => (hex_error (u8 byte2), Aborted)
              end
        end
  end.

(** * ascii_to_bin.c *)

(** [k] iterations of the loop of [read_uint8]; the flag is [*reached_eof]. *)
Fixpoint read_uint8 (k : nat) (value : Z) (stdin : list Z) : Z * bool * list Z :=
  match k with
  | O => (value, false, stdin)
  | S k' =>
      match stdin with
      | [] => (value, true, [])
      | c :: rest =>
          let bit := if c =? 48 then 0 else 1 in
          read_uint8 k' (u8 (Z.lor (Z.shiftl value 1) bit)) rest
      end
  end.

(** The [while (1)] of main; [fuel] bounds the iterations. *)
Fixpoint bin_loop (fuel : nat) (stdin : list Z) : res (list Z) :=
  match fuel with
  | O => Fault OutOfFuel
  | S fuel' =>
      let '(byte, reached_eof, rest) := read_uint8 8 0 stdin in
      if (reached_eof : bool) then mret []
      else out ← bin_loop fuel' rest; mret (byte :: out)
  end.

(** Every iteration but the last consumes input. *)
Definition bin_main (stdin : list Z) : res (list Z) := bin_loop (S (length stdin)) stdin.

(** * distribution.c *)

(** The bins after the whole file was read; the counters are unsigned long. *)
Fixpoint dist_loop (file : list Z) (distribution : list Z) : list Z :=
  match file with
  | [] => distribution
  | byte1 :: rest =>
      dist_loop rest
        (alter (fun n => u64 (n + 1)) (Z.to_nat (u8 byte1)) distribution)
  end.

(** The numbers the program prints, in order. *)
Definition dist_main (file : list Z) : list Z := dist_loop file (replicate 256 0).

(** * vonneumann.c *)

Record vn_state : Type := mk_vn { vn_output : Z; vn_count : Z }.

(** One iteration of the inner loop: the pair of bits 7-2i and 6-2i of [input]. *)
Definition vn_pair (input : Z) (i : Z) (st : vn_state) : vn_state * list Z :=
  let c1 := Z.land (Z.shiftr input (7 - i * 2)) 1 in
  let c2 := Z.land (Z.shiftr input (6 - i * 2)) 1 in
  let st1 := if (c1 =? 0) && (c2 =? 1)
             then mk_vn (vn_output st) (vn_count st + 1) else st in
  let st2 := if (c1 =? 1) && (c2 =? 0)
             then mk_vn (Z.lor (vn_output st1) (Z.shiftl 1 (7 - vn_count st1))) (vn_count st1 + 1)
             else st1 in
  if 8 <=? vn_count st2 then (mk_vn 0 0, [u8 (vn_output st2)]) else (st2, []).

(** [for (int i = 0; i < 4; i++)] *)
Definition vn_byte (input : Z) (st : vn_state) : vn_state * list Z :=
  let '(st0, o0) := vn_pair input 0 st in
  let '(st1, o1) := vn_pair input 1 st0 in
  let '(st2, o2) := vn_pair input 2 st1 in
  let '(st3, o3) := vn_pair input 3 st2 in
  (st3, o0 ++ o1 ++ o2 ++ o3).

Fixpoint vn_loop (junk : Z) (stdin : list Z) (st : vn_state) : list Z :=
  match stdin with
  | [] => []
  | c :: rest =>
      let input := junk * 256 + c in
      let '(st', out) := vn_byte input st in
      out ++ vn_loop junk rest st'
  end.

Definition vn_main (junk : Z) (stdin : list Z) : list Z := vn_loop junk stdin (mk_vn 0 0).

(** * xor512.c *)

(** The first inner loop: fill [buf] from index [i]; [None] when EOF is met. *)
Fixpoint xor_fill (k i : nat) (junk : Z) (stdin : list Z) (buf : list Z) : option (list Z * list Z) :=
  match k with
  | O => Some (buf, stdin)
  | S k' =>
      match stdin with
      | [] => None
      | c :: rest => xor_fill k' (S i) junk rest (<[i := junk * 256 + c]> buf)
      end
  end.

(** The second inner loop: the bytes written, and the rest unless EOF is met. *)
Fixpoint xor_emit (k i : nat) (junk : Z) (stdin : list Z) (buf : list Z) : list Z * option (list Z) :=
  match k with
  | O => ([], Some stdin)
  | S k' =>
      match stdin with
      | [] => ([], None)
      | c :: rest =>
          let (out, r) := xor_emit k' (S i) junk rest buf in
          (u8 (Z.lxor (nth i buf 0) (junk * 256 + c)) :: out, r)
      end
  end.

Fixpoint xor_loop (fuel : nat) (junk : Z) (stdin : list Z) (buf : list Z) : res (list Z) :=
  match fuel with
  | O => Fault OutOfFuel
  | S fuel' =>
      match xor_fill 512 0 junk stdin buf with
      | None => mret []
      | Some (buf', rest) =>
          match xor_emit 512 0 junk rest buf' with
          | (out, None) => mret out
          | (out, Some rest') => more ← xor_loop fuel' junk rest' buf'; mret (out ++ more)
          end
      end
  end.

Definition xor_main (junk : Z) (stdin : list Z) : res (list Z) :=
  xor_loop (S (length stdin)) junk stdin (replicate 512 0).

(** * amls.c *)

(** The copy of [amls] in utilities/amls.c: same text, over int8_t. *)
Definition util_amls (data : cells) (data_len : nat) : res cells := amls amls_depth data data_len.

(** Fill the 512 bytes of [buf]; [None] when EOF is met. *)
Fixpoint util_amls_read (k i : nat) (junk : Z) (stdin : list Z) (buf : cells) : option (cells * list Z) :=
  match k with
  | O => Some (buf, stdin)
  | S k' =>
      match stdin with
      | [] => None
      | c :: rest =>
          let working := junk * 256 + c in
          util_amls_read k' (S i) junk rest (<[i := Some (s8 (working - 48))]> buf)
      end
  end.

(** fputc of the result up to the end marker. *)
Fixpoint util_amls_print (k i : nat) (result : cells) : res (list Z) :=
  match k with
  | O => mret []
  | S k' =>
      z ← load result i;
      if z =? -1 then mret []
      else out ← util_amls_print k' (S i) result; mret (u8 (z + 48) :: out)
  end.

Fixpoint util_amls_loop (fuel : nat) (junk : Z) (stdin : list Z) (buf : cells) : res (list Z) :=
  match fuel with
  | O => Fault OutOfFuel
  | S fuel' =>
      match util_amls_read 512 0 junk stdin buf with
      | None => mret []
      | Some (buf', rest) =>
          result ← util_amls buf' 512;
          out ← util_amls_print 512 0 result;
          more ← util_amls_loop fuel' junk rest buf';
          mret (out ++ more)
      end
  end.

Definition util_amls_main (junk : Z) (stdin : list Z) : res (list Z) :=
  util_amls_loop (S (length stdin)) junk stdin (replicate 512 None).

(** * Reference functions *)

Definition hex_digit (h : Z) : Z := if h <? 10 then 48 + h else 65 + (h - 10).

Definition hex_text (bs : list Z) : list Z :=
  concat (map (fun b => [hex_digit (b / 16); hex_digit (b mod 16)]) bs).

(** The bits of a byte, most significant first. *)
Definition byte_bits (b : Z) : list bool :=
  map (fun n => Z.testbit b n) [7; 6; 5; 4; 3; 2; 1; 0].

Definition ascii_bit (x : bool) : Z := 48 + Z.b2z x.

Definition bin_text (bs : list Z) : list Z := concat (map (fun b => map ascii_bit (byte_bits b)) bs).

(** The value of bits placed from bit position [k] downwards. *)
Fixpoint bits_from (k : Z) (p : list bool) : Z :=
  match p with
  | [] => 0
  | x :: p' => Z.lor (Z.shiftl (Z.b2z x) k) (bits_from (k - 1) p')
  end.

(** Groups of eight bits as bytes, a last incomplete group dropped. *)
Fixpoint pack_bytes (n : nat) (l : list bool) : list Z :=
  match n with
  | O => []
  | S n' => if decide (8 <= length l)%nat
            then bits_from 7 (take 8 l) :: pack_bytes n' (drop 8 l)
            else []
  end.

Definition pack (l : list bool) : list Z := pack_bytes (length l) l.

(** How often [v] occurs. *)
Definition occurrences (v : Z) (l : list Z) : Z := Z.of_nat (length (base.filter (fun x => x = v) l)).

(** * ascii_hex_to_bin.c: lemmas *)

Definition hex_pair_ok (b : Z) : bool :=
  let d1 := hex_digit (b / 16) in
  let d2 := hex_digit (b mod 16) in
  negb (s8 d1 =? EOF) && negb (s8 d2 =? EOF) &&
  match hexval (u8 (s8 d1)), hexval (u8 (s8 d2)) with
  | Some h1, Some h2 => u8 (Z.shiftl h1 4 + h2) =? b
  | _, _ => false
  end.

Lemma hex_pairs_ok b : is_byte b -> hex_pair_ok b = true.
Proof. apply byte_forall. by vm_compute. Qed.

Lemma hex_main_text bs rest :
  Forall is_byte bs ->
  hex_main (hex_text bs ++ rest) = (bs ++ (hex_main rest).1, (hex_main rest).2).
Proof.
  induction 1 as [|b bs Hb _ IH]; [cbn; by destruct (hex_main rest)|].
  change (hex_text (b :: bs)) with
    (hex_digit (b / 16) :: hex_digit (b mod 16) :: hex_text bs).
  pose proof (hex_pairs_ok b Hb) as H. unfold hex_pair_ok in H. cbn [hex_main app].
  destruct (s8 (hex_digit (b / 16)) =? EOF); [done|].
  destruct (s8 (hex_digit (b mod 16)) =? EOF); [done|].
  destruct (hexval (u8 (s8 (hex_digit (b / 16))))) as [h1|]; [|done].
  destruct (hexval (u8 (s8 (hex_digit (b mod 16))))) as [h2|]; [|done].
  apply Z.eqb_eq in H. by rewrite IH, H.
Qed.

Lemma s8_u8 c : u8 (s8 c) = u8 c.
Proof.
  unfold wrapu, wraps. change (2 ^ (8 - 1)) with 128. change (2 ^ 8) with 256.
  rewrite Zminus_mod_idemp_l. f_equal. lia.
Qed.

Lemma s8_eof c : is_byte c -> (s8 c =? EOF) = (c =? 255).
Proof.
  intros Hc. apply eqb_prop.
  apply (byte_forall (fun c => eqb (s8 c =? EOF) (c =? 255))); [by vm_compute|done].
Qed.

(** * ascii_to_bin.c: lemmas *)

Lemma read_uint8_bits p : forall k v rest,
  length p = k ->
  read_uint8 k v (map ascii_bit p ++ rest) =
  (foldl (fun acc x => u8 (Z.lor (Z.shiftl acc 1) (Z.b2z x))) v p, false, rest).
Proof.
  induction p as [|x p IH]; intros k v rest <-; [done|]. simpl.
  rewrite IH by done. by destruct x.
Qed.

Lemma byte_bits_value b :
  is_byte b -> foldl (fun acc x => u8 (Z.lor (Z.shiftl acc 1) (Z.b2z x))) 0 (byte_bits b) = b.
Proof.
  intros Hb. apply Z.eqb_eq. revert b Hb.
  apply (byte_forall (fun b =>
    foldl (fun acc x => u8 (Z.lor (Z.shiftl acc 1) (Z.b2z x))) 0 (byte_bits b) =? b)).
  by vm_compute.
Qed.

Lemma read_uint8_eof tail : forall k v,
  (length tail < k)%nat -> (read_uint8 k v tail).1.2 = true.
Proof.
  induction tail as [|c tail IH]; intros [|k] v Hk; simpl in *; try lia.
  apply IH. lia.
Qed.

Lemma bin_loop_text bs tail : Forall is_byte bs -> (length tail < 8)%nat ->
  forall fuel, (length bs < fuel)%nat -> bin_loop fuel (bin_text bs ++ tail) = Ok bs.
Proof.
  intros Hbs Ht. induction Hbs as [|b bs Hb _ IH]; intros [|fuel] Hf; simpl in Hf; try lia.
  - cbn [bin_loop]. pose proof (read_uint8_eof tail 8 0 Ht) as H. change (bin_text [] ++ tail) with tail.
    destruct (read_uint8 8 0 tail) as [[v e] r]. cbn in H. by subst e.
  - cbn [bin_loop]. change (bin_text (b :: bs)) with (map ascii_bit (byte_bits b) ++ bin_text bs).
    rewrite <- app_assoc, read_uint8_bits, byte_bits_value by done.
    by rewrite IH by lia.
Qed.

(** * distribution.c: lemmas *)

Lemma length_dist_loop file d : length (dist_loop file d) = length d.
Proof.
  revert d. induction file as [|b file IH]; intros d; [done|]. simpl. by rewrite IH, length_alter.
Qed.

Lemma dist_loop_lookup file d v n :
  Forall is_byte file -> is_byte v -> d !! Z.to_nat v = Some (u64 n) ->
  dist_loop file d !! Z.to_nat v = Some (u64 (n + occurrences v file)).
Proof.
  intros Hf Hv. revert d n. induction Hf as [|b file Hb _ IH]; intros d n Hd; simpl.
  { rewrite Hd. f_equal. unfold occurrences. simpl. f_equal. lia. }
  rewrite u8_small by done. unfold occurrences. rewrite filter_cons. case_decide as E.
  - subst b. rewrite (IH _ (n + 1)).
    + f_equal. unfold occurrences. simpl. f_equal. lia.
    + rewrite list_lookup_alter_eq, Hd. simpl. f_equal. unfold wrapu.
      by rewrite Zplus_mod_idemp_l.
  - rewrite (IH _ n); [done|]. rewrite list_lookup_alter_ne; [done|].
    unfold is_byte in *. lia.
Qed.

(** * vonneumann.c: lemmas *)

(** The loop variables when the bits [p] of an unfinished byte are pending. *)
Definition vn_pending (p : list bool) : vn_state := mk_vn (bits_from 7 p) (Z.of_nat (length p)).

Lemma bits_from_app k p x :
  bits_from k (p ++ [x]) = Z.lor (bits_from k p) (Z.shiftl (Z.b2z x) (k - Z.of_nat (length p))).
Proof.
  revert k. induction p as [|y p IH]; intros k; simpl.
  - by rewrite Z.lor_0_r, Z.sub_0_r.
  - rewrite IH, Z.lor_assoc. do 2 f_equal. lia.
Qed.

Lemma bits_from_byte p : length p = 8%nat -> is_byte (bits_from 7 p).
Proof.
  intros Hp%elem_of_all_bits. apply (bool_decide_unpack _).
  assert (forallb (fun p => bool_decide (is_byte (bits_from 7 p))) (all_bits 8) = true) as H
    by (by vm_compute).
  rewrite forallb_forall in H. specialize (H p (proj1 (list_elem_of_In _ _) Hp)). by rewrite H.
Qed.

Lemma testbit_land1 z n : 0 <= n -> Z.land (Z.shiftr z n) 1 = Z.b2z (Z.testbit z n).
Proof.
  intros Hn. change 1 with (Z.ones 1). rewrite Z.land_ones by lia.
  change (2 ^ 1) with 2. rewrite <- Z.bit0_mod, Z.shiftr_spec by lia. by rewrite Z.add_0_l.
Qed.

Definition vn_flush (p : list bool) : vn_state * list Z :=
  if decide (8 <= length p)%nat then (vn_pending [], [bits_from 7 p]) else (vn_pending p, []).

Lemma vn_pair_spec input i p :
  0 <= i <= 3 -> (length p < 8)%nat ->
  vn_pair input i (vn_pending p) =
  vn_flush (p ++ vn_bits [Z.testbit input (7 - i * 2); Z.testbit input (6 - i * 2)]).
Proof.
  intros Hi Hp. unfold vn_pair. rewrite !testbit_land1 by lia.
  pose proof (bits_from_app 7 p true) as E1. pose proof (bits_from_app 7 p false) as E0.
  cbn [Z.b2z] in E1, E0. rewrite Z.shiftl_0_l, Z.lor_0_r in E0.
  assert (length p = 7%nat -> forall x, u8 (bits_from 7 (p ++ [x])) = bits_from 7 (p ++ [x])) as F.
  { intros ? x. apply u8_small, bits_from_byte. rewrite length_app. simpl. lia. }
  unfold vn_flush, vn_pending.
  destruct (Z.testbit input (7 - i * 2)), (Z.testbit input (6 - i * 2)); cbn [vn_bits eqb].
  1, 4: rewrite app_nil_r, decide_False by lia; simpl; by rewrite (proj2 (Z.leb_gt _ _)) by lia.
  all: rewrite length_app; cbn [vn_output vn_count Z.b2z Z.eqb Pos.eqb andb length].
  all: rewrite <- ?E1, <- ?E0; destruct (decide (8 <= length p + 1)%nat).
  1, 3: rewrite (proj2 (Z.leb_le _ _)), F by lia; done.
  all: rewrite (proj2 (Z.leb_gt _ _)) by lia; do 2 f_equal; lia.
Qed.

(** Bits pending, then more bits: the bytes that leave and what stays pending. *)
Fixpoint vn_feed (p : list bool) (l : list bool) : list bool * list Z :=
  match l with
  | [] => (p, [])
  | x :: l' =>
      if decide (8 <= length (p ++ [x]))%nat
      then let (q, o) := vn_feed [] l' in (q, bits_from 7 (p ++ [x]) :: o)
      else vn_feed (p ++ [x]) l'
  end.

Lemma vn_feed_app p l1 l2 :
  vn_feed p (l1 ++ l2) =
  let (q, o1) := vn_feed p l1 in let (r, o2) := vn_feed q l2 in (r, o1 ++ o2).
Proof.
  revert p. induction l1 as [|x l1 IH]; intros p; cbn [vn_feed app].
  { by destruct (vn_feed p l2). }
  case_decide; rewrite IH; [destruct (vn_feed [] l1) as [q o]|destruct (vn_feed (p ++ [x]) l1) as [q o]];
    by destruct (vn_feed q l2).
Qed.

Lemma length_vn_feed p l : (length p < 8)%nat -> (length (vn_feed p l).1 < 8)%nat.
Proof.
  revert p. induction l as [|x l IH]; intros p Hp; cbn [vn_feed]; [done|].
  case_decide as E; [|by apply IH; lia].
  specialize (IH [] ltac:(simpl; lia)). by destruct (vn_feed [] l).
Qed.

Lemma vn_pair_feed input i p :
  0 <= i <= 3 -> (length p < 8)%nat ->
  vn_pair input i (vn_pending p) =
  let (q, o) := vn_feed p (vn_bits [Z.testbit input (7 - i * 2); Z.testbit input (6 - i * 2)]) in
  (vn_pending q, o).
Proof.
  intros Hi Hp. rewrite vn_pair_spec by done. unfold vn_flush.
  destruct (vn_bits _) as [|x [|y l]] eqn:E.
  - rewrite app_nil_r, decide_False by lia. done.
  - cbn [vn_feed]. by case_decide.
  - exfalso. clear - E. destruct (Z.testbit _ _), (Z.testbit _ _); by simpl in E.
Qed.

Lemma vn_byte_feed input p :
  (length p < 8)%nat ->
  vn_byte input (vn_pending p) =
  let (q, o) := vn_feed p (vn_bits (byte_bits input)) in (vn_pending q, o).
Proof.
  intros Hp. unfold vn_byte.
  assert (vn_bits (byte_bits input) =
    vn_bits [Z.testbit input 7; Z.testbit input 6] ++ vn_bits [Z.testbit input 5; Z.testbit input 4] ++
    vn_bits [Z.testbit input 3; Z.testbit input 2] ++ vn_bits [Z.testbit input 1; Z.testbit input 0]) as ->.
  { by rewrite <- !vn_bits_app_even by (by exists 1%nat). }
  rewrite !vn_feed_app, (vn_pair_feed _ 0) by (done || lia).
  change (7 - 0 * 2) with 7. change (6 - 0 * 2) with 6.
  pose proof (length_vn_feed p (vn_bits [Z.testbit input 7; Z.testbit input 6]) Hp) as H0.
  destruct (vn_feed p _) as [p0 o0]. cbn [fst] in H0. rewrite (vn_pair_feed _ 1) by (done || lia).
  change (7 - 1 * 2) with 5. change (6 - 1 * 2) with 4. rewrite !vn_feed_app.
  pose proof (length_vn_feed p0 (vn_bits [Z.testbit input 5; Z.testbit input 4]) H0) as H1.
  destruct (vn_feed p0 _) as [p1 o1]. cbn [fst] in H1. rewrite (vn_pair_feed _ 2) by (done || lia).
  change (7 - 2 * 2) with 3. change (6 - 2 * 2) with 2. rewrite !vn_feed_app.
  pose proof (length_vn_feed p1 (vn_bits [Z.testbit input 3; Z.testbit input 2]) H1) as H2.
  destruct (vn_feed p1 _) as [p2 o2]. cbn [fst] in H2. rewrite (vn_pair_feed _ 3) by (done || lia).
  change (7 - 3 * 2) with 1. change (6 - 3 * 2) with 0.
  by destruct (vn_feed p2 _).
Qed.

Lemma byte_bits_junk junk c : byte_bits (junk * 256 + c) = byte_bits c.
Proof.
  unfold byte_bits. cbn [map].
  assert (forall n, 0 <= n < 8 -> Z.testbit (junk * 256 + c) n = Z.testbit c n) as E.
  { intros n Hn. pose proof (u8_testbit (junk * 256 + c) n ltac:(lia)) as E1.
    rewrite u8_junk, u8_testbit, (proj2 (Z.ltb_lt _ _)) in E1 by lia. by symmetry. }
  by rewrite !E by lia.
Qed.

Lemma vn_loop_feed junk bs : forall p,
  (length p < 8)%nat ->
  vn_loop junk bs (vn_pending p) = (vn_feed p (vn_bits (concat (map byte_bits bs)))).2.
Proof.
  induction bs as [|b bs IH]; intros p Hp; [done|]. cbn [vn_loop map concat].
  rewrite vn_byte_feed, byte_bits_junk by done.
  rewrite vn_bits_app_even, vn_feed_app by (by exists 4%nat). pose proof (length_vn_feed p (vn_bits (byte_bits b)) Hp) as Hq.
  destruct (vn_feed p (vn_bits (byte_bits b))) as [q o]. rewrite IH by done.
  by destruct (vn_feed q _).
Qed.

Lemma vn_feed_pack l : forall p n,
  (length p < 8)%nat -> (length (p ++ l) <= n)%nat -> (vn_feed p l).2 = pack_bytes n (p ++ l).
Proof.
  induction l as [|x l IH]; intros p n Hp Hn.
  - rewrite app_nil_r. destruct n; [done|]. cbn [pack_bytes]. by rewrite decide_False by lia.
  - cbn [vn_feed]. replace (p ++ x :: l) with ((p ++ [x]) ++ l) in * by (by rewrite <- app_assoc).
    case_decide as E; [|by apply IH; lia].
    assert (length (p ++ [x]) = 8%nat) as E8 by (rewrite length_app in *; simpl in *; lia).
    rewrite length_app, E8 in Hn. destruct n as [|n]; [lia|]. cbn [pack_bytes].
    rewrite decide_True by (rewrite length_app; lia).
    rewrite take_app_length', drop_app_length' by done.
    specialize (IH [] n ltac:(simpl; lia) ltac:(simpl; lia)). simpl in IH.
    destruct (vn_feed [] l). cbn [snd] in *. by rewrite IH.
Qed.

(** * xor512.c: lemmas *)

Lemma xor_fill_block a : forall k pre old junk rest,
  length a = k -> length old = k ->
  xor_fill k (length pre) junk (a ++ rest) (pre ++ old) =
  Some (pre ++ map (fun c => junk * 256 + c) a, rest).
Proof.
  induction a as [|c a IH]; intros k pre old junk rest <- Ho; simpl.
  - apply nil_length_inv in Ho as ->. done.
  - destruct old as [|o old]; [done|]. simpl in Ho.
    rewrite insert_app_r_alt, Nat.sub_diag by lia. simpl.
    replace (pre ++ junk * 256 + c :: old) with ((pre ++ [junk * 256 + c]) ++ old)
      by (by rewrite <- app_assoc).
    replace (S (length pre)) with (length (pre ++ [junk * 256 + c]))
      by (rewrite length_app; simpl; lia).
    rewrite IH by lia. by rewrite <- app_assoc.
Qed.

Lemma xor_fill_full a junk rest buf :
  length a = 512%nat -> length buf = 512%nat ->
  xor_fill 512 0 junk (a ++ rest) buf = Some (map (fun c => junk * 256 + c) a, rest).
Proof. intros. by apply (xor_fill_block a 512 []). Qed.

Lemma xor_fill_eof a : forall k i junk buf,
  (length a < k)%nat -> xor_fill k i junk a buf = None.
Proof.
  induction a as [|c a IH]; intros [|k] i junk buf Hk; simpl in *; try lia; [done|].
  apply IH. lia.
Qed.

Lemma u8_lxor_junk junk a c :
  is_byte a -> is_byte c -> u8 (Z.lxor (junk * 256 + a) (junk * 256 + c)) = Z.lxor a c.
Proof.
  intros Ha Hc. apply Z.bits_inj'. intros n Hn. rewrite u8_testbit, !Z.lxor_spec by lia.
  pose proof (u8_testbit (junk * 256 + a) n Hn) as Ea. pose proof (u8_testbit (junk * 256 + c) n Hn) as Ec.
  rewrite u8_junk, u8_small in Ea, Ec by done. rewrite Ea, Ec.
  by destruct (n <? 8), (Z.testbit (junk * 256 + a) n), (Z.testbit (junk * 256 + c) n).
Qed.

Lemma xor_emit_spec b : forall k i junk rest a,
  (length b <= k)%nat -> (length b = k \/ rest = []) -> Forall is_byte a -> Forall is_byte b ->
  (i + k)%nat = length a ->
  xor_emit k i junk (b ++ rest) (map (fun c => junk * 256 + c) a) =
  (zip_with Z.lxor (drop i a) b, if decide (length b = k) then Some rest else None).
Proof.
  induction b as [|c b IH]; intros k i junk rest a Hk Hr Ha Hb Hi; simpl in *.
  - rewrite zip_with_nil_r. destruct k; [done|]. destruct Hr as [?| ->]; [lia|]. done.
  - destruct k as [|k]; [lia|]. apply Forall_cons_iff in Hb as [Hc Hb]. simpl.
    destruct (lookup_lt_is_Some_2 a i) as [x Hx]; [lia|].
    rewrite IH by (auto; lia || (destruct Hr; auto; left; lia)).
    rewrite (drop_S a x i) by done. cbn [zip_with]. f_equal; [|repeat case_decide; done || lia].
    f_equal. rewrite (nth_lookup_Some _ _ _ (junk * 256 + x)) by (by rewrite list_lookup_fmap, Hx).
    apply u8_lxor_junk; [|done]. by eapply (list.Forall_lookup_1 is_byte a).
Qed.

Lemma xor_loop_blocks ps tail junk :
  Forall (fun p => length p.1 = 512%nat /\ length p.2 = 512%nat) ps ->
  Forall is_byte (concat (map (fun p => p.1 ++ p.2) ps) ++ tail) -> (length tail < 1024)%nat ->
  forall fuel buf, (length ps < fuel)%nat -> length buf = 512%nat ->
  xor_loop fuel junk (concat (map (fun p => p.1 ++ p.2) ps) ++ tail) buf =
  Ok (concat (map (fun p => zip_with Z.lxor p.1 p.2) ps) ++
      zip_with Z.lxor (take 512 tail) (drop 512 tail)).
Proof.
  intros Hps Hb Ht. induction Hps as [|[a b] ps [Ha Hab] _ IH]; intros [|fuel] buf Hf Hbuf;
    cbn [length] in Hf; try lia; cbn [xor_loop map concat].
  - rewrite !app_nil_l in *. destruct (decide (length tail < 512)%nat) as [Hs|Hs].
    + rewrite xor_fill_eof, drop_ge, zip_with_nil_r by lia. done.
    + rewrite <- (take_drop 512 tail) at 1. rewrite xor_fill_full by (rewrite ?length_take; lia).
      rewrite <- (take_drop 512 tail) in Hb. apply Forall_app in Hb as [H1 H2].
      rewrite <- (app_nil_r (drop 512 tail)) at 1. cbn [app].
      rewrite xor_emit_spec by (rewrite ?length_drop, ?length_take; auto; lia).
      rewrite decide_False by (rewrite length_drop; lia). by rewrite drop_0.
  - cbn [map concat fst snd] in *. rewrite <- !app_assoc in *. rewrite xor_fill_full by done.
    apply Forall_app in Hb as [H1 Hb]. apply Forall_app in Hb as [H2 Hb]. cbn [app].
    rewrite xor_emit_spec by (auto; lia). rewrite decide_True by done.
    rewrite IH, res_bind_ok by (auto; rewrite ?length_fmap; lia). by rewrite drop_0.
Qed.

(** * amls.c: lemmas *)

Lemma util_read_block l : forall k pre old junk rest,
  length l = k -> length old = k ->
  util_amls_read k (length pre) junk (map ascii_bit l ++ rest) (pre ++ old) =
  Some (pre ++ bit_cells l, rest).
Proof.
  induction l as [|x l IH]; intros k pre old junk rest <- Ho; simpl.
  - apply nil_length_inv in Ho as ->. done.
  - destruct old as [|o old]; [done|]. simpl in Ho.
    rewrite insert_app_r_alt, Nat.sub_diag by lia. simpl.
    assert (s8 (junk * 256 + ascii_bit x - 48) = bitZ x) as ->.
    { unfold wraps. replace (junk * 256 + ascii_bit x - 48 + 2 ^ (8 - 1))
        with (ascii_bit x + 80 + junk * 2 ^ 8) by (change (2 ^ 8) with 256; change (2 ^ (8 - 1)) with 128; lia).
      rewrite Z.mod_add by lia. by destruct x. }
    replace (pre ++ Some (bitZ x) :: old) with ((pre ++ [Some (bitZ x)]) ++ old)
      by (by rewrite <- app_assoc).
    replace (S (length pre)) with (length (pre ++ [Some (bitZ x)]))
      by (rewrite length_app; simpl; lia).
    rewrite IH by lia. by rewrite <- app_assoc.
Qed.

Lemma util_read_full l junk rest buf :
  length l = 512%nat -> length buf = 512%nat ->
  util_amls_read 512 0 junk (map ascii_bit l ++ rest) buf = Some (bit_cells l, rest).
Proof. intros. by apply (util_read_block l 512 []). Qed.

Lemma util_read_eof t : forall k i junk buf,
  (length t < k)%nat -> util_amls_read k i junk t buf = None.
Proof.
  induction t as [|c t IH]; intros [|k] i junk buf Hk; simpl in *; try lia; [done|].
  apply IH. lia.
Qed.

Lemma util_print_spec y : forall z k,
  (length (z ++ y) < amls_array_len)%nat -> (length y < k)%nat ->
  util_amls_print k (length z) (encode (z ++ y)) = Ok (map ascii_bit y).
Proof.
  induction y as [|b y IH]; intros z [|k] Hz Hk; simpl in Hk; try lia; cbn [util_amls_print].
  - rewrite app_nil_r in *. by rewrite load_encode_end, res_bind_ok.
  - rewrite (load_encode_bit _ _ b), res_bind_ok, (proj2 (Z.eqb_neq _ _))
      by (by apply list_lookup_middle || by destruct b).
    replace (z ++ b :: y) with ((z ++ [b]) ++ y) in * by (by rewrite <- app_assoc).
    replace (S (length z)) with (length (z ++ [b])) by (rewrite length_app; simpl; lia).
    rewrite IH, res_bind_ok by (done || lia). by destruct b.
Qed.

Lemma util_print_full y :
  (length y < amls_array_len)%nat -> util_amls_print 512 0 (encode y) = Ok (map ascii_bit y).
Proof. intros. by apply (util_print_spec y []). Qed.

Lemma util_amls_loop_blocks blocks tail junk :
  Forall (fun l => length l = 512%nat) blocks -> (length tail < 512)%nat ->
  forall fuel buf, (length blocks < fuel)%nat -> length buf = 512%nat ->
  util_amls_loop fuel junk (concat (map (map ascii_bit) blocks) ++ tail) buf =
  Ok (concat (map (fun l => map ascii_bit (debias l)) blocks)).
Proof.
  intros Hbs Ht. induction Hbs as [|l blocks Hl _ IH]; intros [|fuel] buf Hf Hbuf;
    cbn [length] in Hf; try lia; cbn [util_amls_loop map concat].
  - by rewrite util_read_eof by (cbn [app]; lia).
  - rewrite <- app_assoc, util_read_full by done.
    destruct (amls_refines_debias_aux l []) as [E Hd]; [by rewrite Hl|].
    unfold util_amls. rewrite Hl, app_nil_r in E. rewrite E, res_bind_ok.
    rewrite util_print_full, res_bind_ok by done.
    rewrite IH, res_bind_ok by (auto; unfold bit_cells; rewrite ?length_fmap; lia). done.
Qed.

(** * Properties *)

(** C31: ascii_hex_to_bin.c decodes upper-case hexadecimal text back to the bytes
    it was printed from; text that goes on after them is decoded next. *)
Theorem hex_roundtrip bs rest :
  Forall is_byte bs ->
  hex_main (hex_text bs) = (bs, Exited 0) /\
  hex_main (hex_text bs ++ rest) = (bs ++ (hex_main rest).1, (hex_main rest).2).
Proof.
  intros H. split; [|by apply hex_main_text].
  pose proof (hex_main_text bs [] H) as E. by rewrite !app_nil_r in E.
Qed.

(** Witness of C31: the example of utilities/README.md, "K7NVH RNG". *)
Lemma hex_roundtrip_witness :
  hex_main (hex_text [75; 55; 78; 86; 72; 32; 82; 78; 71]) =
  ([75; 55; 78; 86; 72; 32; 82; 78; 71], Exited 0).
Proof.
  refine (proj1 (hex_roundtrip [75; 55; 78; 86; 72; 32; 82; 78; 71] [] _)).
  repeat constructor; by vm_compute.
Defined.

(** The first character that is not a hexadecimal digit, in either place of a
    pair whose other character is one, aborts the program after the bytes before
    it and the report with this character were passed to the output stream; but
    the byte 255, which the signed char makes equal to EOF, ends it with 0 and
    without a report, as the end of input does. *)
Theorem hex_invalid bs c c2 bad rest :
  Forall is_byte bs -> is_byte c -> is_byte c2 ->
  (hexval c = None /\ is_Some (hexval c2) /\ bad = c \/ is_Some (hexval c) /\ hexval c2 = None /\ bad = c2) ->
  hex_main (hex_text bs ++ c :: c2 :: rest) =
  if bad =? 255 then (bs, Exited 0) else (bs ++ hex_error bad, Aborted).
Proof.
  intros Hb Hc Hc2 Hbad. rewrite hex_main_text by done. cbn [hex_main].
  rewrite !s8_eof, !s8_u8, !(u8_small c), !(u8_small c2) by done.
  destruct Hbad as [(Hn & [v Hv] & ->)|([v Hv] & Hn & ->)]; rewrite ?Hn, ?Hv;
    destruct (Z.eqb_spec c 255) as [->|]; destruct (Z.eqb_spec c2 255) as [->|];
    try (by vm_compute in Hv); by rewrite ?app_nil_r.
Qed.

(** An instance: a letter outside A-F after one good pair. *)
Lemma hex_invalid_witness :
  hex_main (hex_text [171] ++ 71 :: 48 :: []) = ([171] ++ hex_error 71, Aborted).
Proof.
  refine (hex_invalid [171] 71 48 71 [] _ _ _ _); [repeat constructor; by vm_compute..|].
  left. split; [done|]. split; [by eexists|done].
Defined.

(** Ascii_to_bin.c decodes the binary text of any bytes to these bytes; up to
    seven characters after the last complete group are dropped. *)
Theorem bin_roundtrip bs tail :
  Forall is_byte bs -> (length tail < 8)%nat -> bin_main (bin_text bs ++ tail) = Ok bs.
Proof.
  intros Hb Ht. apply bin_loop_text; [done..|]. rewrite length_app.
  enough (length bs <= length (bin_text bs))%nat by lia.
  clear. induction bs as [|b bs IH]; [done|].
  change (bin_text (b :: bs)) with (map ascii_bit (byte_bits b) ++ bin_text bs).
  rewrite length_app. simpl. lia.
Qed.

(** An instance: the example of utilities/README.md, "HI". *)
Lemma bin_roundtrip_witness : bin_main (bin_text [72; 73] ++ [48; 49]) = Ok [72; 73].
Proof. apply (bin_roundtrip [72; 73] [48; 49]); repeat constructor; by vm_compute. Defined.

(** Distribution.c prints 256 numbers, the number at position [v] being how
    often the byte [v] occurs in the file, modulo 2^64 (an unsigned long). *)
Theorem dist_counts file v :
  Forall is_byte file -> is_byte v ->
  length (dist_main file) = 256%nat /\
  dist_main file !! Z.to_nat v = Some (u64 (occurrences v file)).
Proof.
  intros Hf Hv. split; [apply length_dist_loop|]. unfold dist_main.
  rewrite (dist_loop_lookup file _ v 0); [done..|].
  rewrite lookup_replicate_2; [done|]. unfold is_byte in Hv. lia.
Qed.

(** At a concrete input: a file of five bytes. *)
Lemma dist_counts_witness : dist_main [7; 0; 7; 255; 7] !! Z.to_nat 7 = Some 3.
Proof.
  refine (eq_trans (proj2 (dist_counts [7; 0; 7; 255; 7] 7 _ _)) _);
    repeat constructor; by vm_compute.
Defined.

(** C30: vonneumann.c writes the von Neumann bits of the input stream, most
    significant bit first, eight to a byte, an incomplete last byte dropped,
    whatever the uninitialised bytes of its input variable hold. *)
Theorem vn_main_spec junk bs :
  vn_main junk bs = pack (vn_bits (concat (map byte_bits bs))).
Proof.
  unfold vn_main, pack. change (mk_vn 0 0) with (vn_pending []).
  rewrite vn_loop_feed by (simpl; lia). by apply vn_feed_pack; simpl; lia.
Qed.

(** Xor512.c writes the exclusive or of the two halves of every 1024-byte
    block, and of what there is of the second half of a last incomplete block. *)
Theorem xor_main_spec junk ps tail :
  Forall (fun p => length p.1 = 512%nat /\ length p.2 = 512%nat) ps ->
  Forall is_byte (concat (map (fun p => p.1 ++ p.2) ps) ++ tail) -> (length tail < 1024)%nat ->
  xor_main junk (concat (map (fun p => p.1 ++ p.2) ps) ++ tail) =
  Ok (concat (map (fun p => zip_with Z.lxor p.1 p.2) ps) ++
      zip_with Z.lxor (take 512 tail) (drop 512 tail)).
Proof.
  intros Hp Hb Ht. apply xor_loop_blocks; [done..| |by rewrite length_replicate].
  rewrite length_app. enough (length ps <= length (concat (map (fun p => p.1 ++ p.2) ps)))%nat by lia.
  clear Hb. induction Hp as [|[a b] ps [Ha Hb] _ IH]; [done|]. cbn [map concat fst snd] in *.
  rewrite !length_app. cbn [length]. lia.
Qed.

(** An instance: one block and three bytes of the next second half. *)
Lemma xor_main_spec_witness :
  xor_main 3 ((replicate 512 5 ++ replicate 512 6) ++ replicate 515 9) =
  Ok (replicate 512 3 ++ [0; 0; 0]).
Proof.
  refine (eq_trans (xor_main_spec 3 [(replicate 512 5, replicate 512 6)] (replicate 515 9) _ _ _) _).
  - repeat constructor; by vm_compute.
  - apply (bool_decide_unpack _). by vm_compute.
  - rewrite length_replicate. lia.
  - by vm_compute.
Defined.

(** Amls.c writes, for every complete block of 512 bits read as text, the text
    of the debiased block, and drops an incomplete last block. *)
Theorem util_amls_main_spec junk blocks tail :
  Forall (fun l => length l = 512%nat) blocks -> (length tail < 512)%nat ->
  util_amls_main junk (concat (map (map ascii_bit) blocks) ++ tail) =
  Ok (concat (map (fun l => map ascii_bit (debias l)) blocks)).
Proof.
  intros Hb Ht. apply util_amls_loop_blocks; [done..| |by rewrite length_replicate].
  rewrite length_app. enough (length blocks <= length (concat (map (map ascii_bit) blocks)))%nat by lia.
  clear Ht. induction Hb as [|l blocks Hl _ IH]; [done|]. cbn [map concat].
  rewrite length_app, length_map, Hl. cbn [length]. lia.
Qed.

(** An instance: one block of alternating bits. *)
Lemma util_amls_main_spec_witness :
  util_amls_main 0 (concat (map (map ascii_bit) [concat (replicate 256 [true; false])]) ++ [10]) =
  Ok (replicate 256 49).
Proof.
  refine (eq_trans (util_amls_main_spec 0 [concat (replicate 256 [true; false])] [10] _ _) _).
  - repeat constructor.
  - simpl. lia.
  - by vm_compute.
Defined.
