(* ===== verification/Posix.v ===== *)
(** System calls and effectful programs.

    The host programs (software/k7nvh_rng.c, utilities/read_serial_port.c,
    utilities/ent_pool.c) talk to the operating system.  The operating system is
    not part of the repository: it is a parameter [sys] that maps a call and the
    state of the world to a result and a new world.  A program is a function on a
    state that carries the world and the trace of the calls made; it ends by
    returning a value, by exit(), or by a fault.  [wp] is the weakest
    precondition of such a program, the tool of the proofs about them. *)

From Stdlib Require Import ZArith Lia String.
From stdpp Require Import base tactics list numbers.
From S2P Require Import Prelude.

Local Open Scope Z_scope.

(** * Calls *)

(** struct termios, as far as the programs use it. *)
Record termios : Type := mk_termios {
  c_iflag : Z;
  c_oflag : Z;
  c_cflag : Z;
  c_lflag : Z }.

Inductive ioctl_req : Type :=
  | FIONREAD
  | TIOCSDTR
  | TIOCCDTR
  | TIOCMBIC (bits : Z)
  | TIOCMBIS (bits : Z)
  | RNDGETENTCNT
  | RNDADDENTROPY (ent_count size : Z) (data : list Z).

(** [M] is the type of the log entries of the program. *)
Inductive syscall (M : Type) : Type :=
  | Fork
  | Umask (mask : Z)
  | Open (path : string) (flags : list string) (mode : Z)
  | Close (fd : Z)
  | Write (fd : Z) (bytes : list Z)
  | WriteLog (fd : Z) (pid : Z) (msg : M)
  | Printf (msg : M)
  | Read (fd : Z) (n : Z)
  | Setsid
  | Chdir (path : string)
  | Lockf (fd : Z)
  | Getpid
  | Signal (sig : Z)
  | Alarm (seconds : Z)
  | Tcgetattr (fd : Z)
  | Tcsetattr (fd : Z) (tty : termios)
  | Ioctl (fd : Z) (req : ioctl_req)
  | Usleep (us : Z).
Arguments Fork {M}.
Arguments Umask {M} _.
Arguments Open {M} _ _ _.
Arguments Close {M} _.
Arguments Write {M} _ _.
Arguments WriteLog {M} _ _ _.
Arguments Printf {M} _.
Arguments Read {M} _ _.
Arguments Setsid {M}.
Arguments Chdir {M} _.
Arguments Lockf {M} _.
Arguments Getpid {M}.
Arguments Signal {M} _.
Arguments Alarm {M} _.
Arguments Tcgetattr {M} _.
Arguments Tcsetattr {M} _ _.
Arguments Ioctl {M} _ _.
Arguments Usleep {M} _.

(** What a call gives back: the return value, errno, bytes or integers stored
    through a pointer argument, and the attributes stored by tcgetattr. *)
Record sysret : Type := mk_sysret {
  ret : Z;
  errno : Z;
  data : list Z;
  attrs : termios }.

(** * Programs *)

Inductive outcome (A : Type) : Type :=
  | Done (a : A)
  | Exit (code : Z)
  | Crash (f : fault).
Arguments Done {A} _.
Arguments Exit {A} _.
Arguments Crash {A} _.

Definition prog (S A : Type) : Type := S -> outcome A * S.

#[export] Instance prog_ret {S} : MRet (prog S) := fun A a s => (Done a, s).

#[export] Instance prog_bind {S} : MBind (prog S) :=
  fun A B k m s =>
    match m s with
    | (Done a, s') => k a s'
    | (Exit c, s') => (Exit c, s')
    | (Crash f, s') => (Crash f, s')
    end.

Definition exits {S A} (code : Z) : prog S A := fun s => (Exit code, s).

Definition gets {S A} (f : S -> A) : prog S A := fun s => (Done (f s), s).

Definition modify {S} (f : S -> S) : prog S unit := fun s => (Done tt, f s).

Definition when {S} (b : bool) (m : prog S unit) : prog S unit := if b then m else mret tt.

(** A checked computation inside a program. *)
Definition lift {S A} (r : res A) : prog S A :=
  fun s => match r with Ok a => (Done a, s) | Fault f => (Crash f, s) end.

(** [k] times, with the index counting up from [i]. *)
Fixpoint for_range {S} (k i : nat) (body : nat -> prog S unit) : prog S unit :=
  match k with
  | O => mret tt
  | Datatypes.S k' => body i ;; for_range k' (Datatypes.S i) body
  end.

(** The attributes that the programs set on a serial device; the flag values are
    those of <termios.h> on Linux. *)
Definition serial_attrs (tty : termios) : termios :=
  let CSIZE := 48 in let CS8 := 48 in let IGNBRK := 1 in
  let IXON := 1024 in let IXOFF := 4096 in let IXANY := 2048 in
  let CLOCAL := 2048 in let CREAD := 128 in
  let PARENB := 256 in let PARODD := 512 in let CSTOPB := 64 in let CRTSCTS := 2147483648 in
  let cflag1 := Z.lor (Z.ldiff (c_cflag tty) CSIZE) CS8 in
  let iflag1 := Z.ldiff (c_iflag tty) IGNBRK in
  let iflag2 := Z.ldiff iflag1 (Z.lor IXON (Z.lor IXOFF IXANY)) in
  let cflag2 := Z.lor cflag1 (Z.lor CLOCAL CREAD) in
  let cflag3 := Z.ldiff cflag2 (Z.lor PARENB PARODD) in
  let cflag4 := Z.ldiff cflag3 CSTOPB in
  let cflag5 := Z.ldiff cflag4 CRTSCTS in
  mk_termios iflag2 0 cflag5 0.

(** * Weakest preconditions *)

(** [wp m Q E s]: started in [s], [m] does not crash; if it returns, [Q] holds of
    the value and the state, and if it exits, [E] of the code and the state. *)
Definition wp {S A} (m : prog S A) (Q : A -> S -> Prop) (E : Z -> S -> Prop) (s : S) : Prop :=
  match m s with
  | (Done a, s') => Q a s'
  | (Exit c, s') => E c s'
  | (Crash _, _) => False
  end.

Section wp_rules.
Context {S A B : Type}.
Implicit Types (E : Z -> S -> Prop) (s : S).

Lemma wp_ret (a : A) (Q : A -> S -> Prop) E s : Q a s -> wp (mret a) Q E s.
Proof. done. Qed.

Lemma wp_bind (m : prog S A) (k : A -> prog S B) (Q : B -> S -> Prop) E s :
  wp m (fun a => wp (k a) Q E) E s -> wp (m ≫= k) Q E s.
Proof. unfold wp, mbind, prog_bind. by destruct (m s) as [[]]. Qed.

Lemma wp_mono (m : prog S A) (Q Q' : A -> S -> Prop) (E E' : Z -> S -> Prop) s :
  wp m Q E s -> (forall a s', Q a s' -> Q' a s') -> (forall c s', E c s' -> E' c s') -> wp m Q' E' s.
Proof. unfold wp. destruct (m s) as [[]]; naive_solver. Qed.

Lemma wp_conseq (m : prog S A) (Q Q' : A -> S -> Prop) E s :
  wp m Q E s -> (forall a s', Q a s' -> Q' a s') -> wp m Q' E s.
Proof. intros H HQ. by eapply wp_mono. Qed.

Lemma wp_exits c (Q : A -> S -> Prop) E s : E c s -> wp (exits c) Q E s.
Proof. done. Qed.

Lemma wp_gets (f : S -> A) (Q : A -> S -> Prop) E s : Q (f s) s -> wp (gets f) Q E s.
Proof. done. Qed.

Lemma wp_modify (f : S -> S) (Q : unit -> S -> Prop) E s : Q tt (f s) -> wp (modify f) Q E s.
Proof. done. Qed.

Lemma wp_lift (r : res A) a (Q : A -> S -> Prop) E s : r = Ok a -> Q a s -> wp (lift r) Q E s.
Proof. by intros ->. Qed.
End wp_rules.

(** A loop with an invariant indexed by the counter. *)
Lemma wp_for_range {S} (I : nat -> S -> Prop) (body : nat -> prog S unit) (E : Z -> S -> Prop) k : forall i s,
  I i s ->
  (forall j s', (i <= j < i + k)%nat -> I j s' -> wp (body j) (fun _ => I (Datatypes.S j)) E s') ->
  wp (for_range k i body) (fun _ => I (i + k)%nat) E s.
Proof.
  induction k as [|k IH]; intros i s Hi Hb; simpl.
  - apply wp_ret. by replace (i + 0)%nat with i by lia.
  - apply wp_bind. eapply wp_mono; [apply Hb; [lia|done]| |done].
    intros [] s' Hs'. replace (i + Datatypes.S k)%nat with (Datatypes.S i + k)%nat by lia.
    apply IH; [done|]. intros j s'' Hj. apply Hb. lia.
Qed.
(** A run that returns or exits satisfies its weakest precondition. *)
Lemma wp_run {S A} (m : prog S A) Q E s :
  wp m Q E s ->
  exists o s', m s = (o, s') /\
    ((exists a, o = Done a /\ Q a s') \/ (exists c, o = Exit c /\ E c s')).
Proof. unfold wp. destruct (m s) as [[] s']; naive_solver. Qed.

(** * A law of read() *)

(** read() stores as many bytes as it says, at most as many as asked for. *)
Definition read_reports {M W : Type} (sys : syscall M -> W -> sysret * W) : Prop :=
  forall fd n w, ret (sys (Read fd n) w).1 <= n /\
    Forall is_byte (data (sys (Read fd n) w).1) /\
    (0 <= ret (sys (Read fd n) w).1 ->
     Z.of_nat (length (data (sys (Read fd n) w).1)) = ret (sys (Read fd n) w).1).

(** The bytes that read() puts into the buffer. *)
Fixpoint store_bytes (a : cells) (i : nat) (bytes : list Z) : res cells :=
  match bytes with
  | [] => mret a
  | b :: rest => a' ← store a i (s8 b); store_bytes a' (S i) rest
  end.

Definition raw_cells (bytes : list Z) : cells := map (fun b => Some (s8 b)) bytes.

Lemma store_bytes_spec bytes : forall pre old,
  (length bytes <= length old)%nat ->
  store_bytes (pre ++ old) (length pre) bytes =
  Ok (pre ++ raw_cells bytes ++ drop (length bytes) old).
Proof.
  induction bytes as [|b bytes IH]; intros pre old Hl; simpl in Hl; [done|]. cbn [store_bytes].
  destruct old as [|o old]; simpl in Hl; [lia|].
  unfold store. rewrite list_lookup_middle by done. rewrite insert_app_r_alt, Nat.sub_diag by lia.
  rewrite res_bind_ok. cbn.
  replace (pre ++ Some (s8 b) :: old) with ((pre ++ [Some (s8 b)]) ++ old) by (by rewrite <- app_assoc).
  replace (S (length pre)) with (length (pre ++ [Some (s8 b)])) by (rewrite length_app; simpl; lia).
  rewrite IH by lia. by rewrite <- app_assoc.
Qed.
