(* ===== verification/Daemon.v ===== *)
(** The entropy gathering daemon, software/k7nvh_rng.c.

    The global variables are the records [files], [inbuf], [white] and [estim]
    (one per group of globals in the source), the arrays local to main are
    [devs], and [daemon] is all of them with the world and the trace of the system
    calls made.  Every function of the source is a program over this state:
    [exit_cleanup], [log_message], [signal_handler], the start-up of main
    ([main_init] and what it calls) and one round of "The Big Loop"
    ([main_round]); [main_loop] repeats it.  The preprocessor switches
    [file_output] and the platform are the parameter [config]; the debug log
    lines, which the source compiles out, are left out.  Log messages are values
    of [log_msg], with the arguments of the format strings but without the text.
    Floating point is IEEE 754 single and double as in [SpecFloat]; [log2] of
    libm is a parameter. *)

From Stdlib Require Import ZArith Lia String SpecFloat.
From stdpp Require Import base tactics list numbers.
From S2P Require Import Prelude Debias Amls Posix.

Local Open Scope Z_scope.

(** * Configuration and messages *)

Inductive platform : Type := Linux | Apple.

Record config : Type := mk_config {
  file_output : bool;
  target : platform }.

Definition SLEEP_TIME : Z := 1000.
Definition ent_est_interval : Z := 60.

Definition pidfile : string := "/tmp/k7nvh_rng.pid".
Definition logfile : string := "/var/log/k7nvh_rng.log".
Definition outfile : string := "/tmp/k7nvh_rng_out".
Definition rndfile : string := "/dev/random".
Definition rundir : string := "/".

(** The messages of printf and log_message, by their first words. *)
Inductive log_msg : Type :=
  | MUsage
  | MNoLogFile (errno : Z)
  | MStarting
  | MNoSID
  | MNoChdir
  | MNoPidFile
  | MPidNotLocked
  | MPidWriteError (errno : Z)
  | MNoTTY (path : string) (errno : Z)
  | MNoGetAttr (errno : Z)
  | MNoSetAttr (errno : Z)
  | MNoAssertDTR (errno : Z)
  | MNoClearDTR (errno : Z)
  | MSavingTo (path : string)
  | MNoOutFile (errno : Z)
  | MToKernelPool
  | MNoRndFile (path : string) (errno : Z)
  | MNextEstimation (seconds : Z)
  | MStarted
  | MStats (bits : Z) (average est_ent : spec_float) (bytes seconds : Z)
  | MDeviceStats (path : string) (bits : Z) (biased_average : spec_float)
  | MNoEntropyCount (errno : Z)
  | MEntropyAvailable (count : Z)
  | MReadError (path : string) (received errno : Z)
  | MInvalidInput (path : string) (value : Z)
  | MOutWriteError (errno : Z)
  | MRndWriteError (path : string) (errno : Z)
  | MNoAddEntropy (errno : Z)
  | MLogWriteError (errno : Z)
  | MSigHup
  | MSigTerm
  | MUnhandledSignal (sig : Z).

(** * State *)

Record files : Type := mk_files {
  pidFileHandle : Z;
  logFileHandle : Z;
  outFileHandle : Z;
  rndFileHandle : Z }.

(** Buffer and state regarding reading from serial device. *)
Record inbuf : Type := mk_inbuf {
  buf : cells;
  buf_pos : nat;
  num_bytes : Z }.

(** Buffer and state regarding whitening data. *)
Record white : Type := mk_white {
  buf_whitened : cells;
  buf_whitened_pos : nat;
  buf_whitened_bit : Z }.

(** Entropy estimation variables. *)
Record estim : Type := mk_estim {
  test_ent : Z;
  num_ones : Z;
  num_zeros : Z;
  average : spec_float;
  est_ent : spec_float;
  ent_count : Z }.

(** entFileHandles and deviceCounters, by device: [(zeros, ones)]. *)
Record devs : Type := mk_devs {
  entFileHandles : list Z;
  deviceCounters : list (Z * Z) }.

Record daemon (W : Type) : Type := mk_daemon {
  d_files : files;
  d_in : inbuf;
  d_white : white;
  d_est : estim;
  d_devs : devs;
  d_world : W;
  d_trace : list (syscall log_msg) }.
Arguments mk_daemon {W} _ _ _ _ _ _ _.
Arguments d_files {W} _.
Arguments d_in {W} _.
Arguments d_white {W} _.
Arguments d_est {W} _.
Arguments d_devs {W} _.
Arguments d_world {W} _.
Arguments d_trace {W} _.

Definition files_init : files := mk_files 0 0 0 0.
Definition inbuf_init : inbuf := mk_inbuf (replicate 512 (Some 0)) 0 0.
Definition white_init : white := mk_white (replicate 1024 (Some 0)) 0 0.
Definition estim_init : estim := mk_estim 0 0 0 (S754_zero false) (S754_zero false) 0.
Definition devs_init : devs := mk_devs [] [].

Definition daemon_init {W} (w : W) : daemon W :=
  mk_daemon files_init inbuf_init white_init estim_init devs_init w [].

Definition on_files {W} (f : files -> files) (s : daemon W) : daemon W :=
  mk_daemon (f (d_files s)) (d_in s) (d_white s) (d_est s) (d_devs s) (d_world s) (d_trace s).
Definition on_in {W} (f : inbuf -> inbuf) (s : daemon W) : daemon W :=
  mk_daemon (d_files s) (f (d_in s)) (d_white s) (d_est s) (d_devs s) (d_world s) (d_trace s).
Definition on_white {W} (f : white -> white) (s : daemon W) : daemon W :=
  mk_daemon (d_files s) (d_in s) (f (d_white s)) (d_est s) (d_devs s) (d_world s) (d_trace s).
Definition on_est {W} (f : estim -> estim) (s : daemon W) : daemon W :=
  mk_daemon (d_files s) (d_in s) (d_white s) (f (d_est s)) (d_devs s) (d_world s) (d_trace s).
Definition on_devs {W} (f : devs -> devs) (s : daemon W) : daemon W :=
  mk_daemon (d_files s) (d_in s) (d_white s) (d_est s) (f (d_devs s)) (d_world s) (d_trace s).

(** * Arithmetic of the estimates *)

(** (float)n, (double)n and the conversions between the two formats. *)
Definition int_to_float (n : Z) : spec_float := binary_normalize 24 128 n 0 false.
Definition int_to_double (n : Z) : spec_float := binary_normalize 53 1024 n 0 false.

Definition to_format (prec emax : Z) (x : spec_float) : spec_float :=
  match x with
  | S754_finite sg m e => binary_normalize prec emax (if sg then Zneg m else Zpos m) e sg
  | _ => x
  end.

(** (float)ones / (float)(ones + zeros) *)
Definition float_average (ones total : Z) : spec_float :=
  SFdiv 24 128 (int_to_float ones) (int_to_float total).

(** 1.0 * n / total, in double precision *)
Definition double_share (n total : Z) : spec_float :=
  SFdiv 53 1024 (SFmul 53 1024 (int_to_double 1) (int_to_double n)) (int_to_double total).

(** est_ent -= p * log2(p): computed in double, stored in a float *)
Definition subtract_term (log2 : spec_float -> spec_float) (est p : spec_float) : spec_float :=
  to_format 24 128
    (SFsub 53 1024 (to_format 53 1024 est) (SFmul 53 1024 p (log2 p))).

Definition shannon_estimate (log2 : spec_float -> spec_float) (zeros ones : Z) : spec_float :=
  let e0 := S754_zero false in
  let total := s32 (zeros + ones) in
  let e1 := subtract_term log2 e0 (double_share zeros total) in
  subtract_term log2 e1 (double_share ones total).

(** sprintf(str, "%d\n", n): the digits of a non-negative int and a line feed. *)
Fixpoint decimal (fuel : nat) (n : Z) (acc : list Z) : list Z :=
  match fuel with
  | O => acc
  | S fuel' =>
      let acc' := (48 + n mod 10) :: acc in
      if n <? 10 then acc' else decimal fuel' (n / 10) acc'
  end.

Definition pid_text (pid : Z) : list Z := decimal 10 pid [] ++ [10].

(** * The functions of the daemon *)

(** What runs when the process is about to access memory or to make a system call: the
    handlers of the signals that arrive there.  [no_signals] is a process that
    receives none. *)
Class Signals (W : Type) : Type := deliver : prog (daemon W) unit.

#[export] Instance no_signals W : Signals W | 100 := mret tt.

Section daemon_programs.
Context {W : Type} (sys : syscall log_msg -> W -> sysret * W) `{SG : !Signals W}.
Context (cfg : config) (log2 : spec_float -> spec_float).
(** The device arguments of the command line, argv[1] and following. *)
Context (argv : list string).
(** Bound on the nesting of log_message (it calls itself when a write fails). *)
Context (log_fuel : nat).

Abbreviation run := (prog (daemon W)).

(** One system call: it is recorded in the trace. *)
Definition call_now (c : syscall log_msg) : run sysret :=
  fun s =>
    let (r, w') := sys c (d_world s) in
    (Done r, mk_daemon (d_files s) (d_in s) (d_white s) (d_est s) (d_devs s) w' (d_trace s ++ [c])).

(** System calls and accesses to global variables, before which signals may arrive. *)
Definition call (c : syscall log_msg) : run sysret := deliver ;; call_now c.
Definition get_var {A} (f : daemon W -> A) : run A := deliver ;; gets f.
Definition set_var (f : daemon W -> daemon W) : run unit := deliver ;; modify f.

Definition close_if_open (fd : Z) : run unit := when (0 <? fd) (call (Close fd) ;; mret tt).

(** Close out file handles before exiting. *)
Definition exit_cleanup {A} (value : Z) : run A :=
  f ← get_var d_files;
  close_if_open (pidFileHandle f) ;;
  close_if_open (logFileHandle f) ;;
  (if file_output cfg then close_if_open (outFileHandle f) else close_if_open (rndFileHandle f)) ;;
  exits value.

Fixpoint log_message_rec (fuel : nat) (message : log_msg) : run unit :=
  match fuel with
  | O => lift (Fault OutOfFuel)
  | S fuel' =>
      pid ← call Getpid;
      f ← get_var d_files;
      m ← call (WriteLog (logFileHandle f) (ret pid) message);
      if ret m <? 0 then
        log_message_rec fuel' (MLogWriteError (errno m)) ;;
        exit_cleanup (-12)
      else mret tt
  end.

Definition log_message (message : log_msg) : run unit := log_message_rec log_fuel message.

(** Log a message and leave, as every error branch does. *)
Definition fail_with {A} (message : log_msg) (code : Z) : run A :=
  log_message message ;; exit_cleanup code.

Definition SIGHUP : Z := 1.
Definition SIGINT : Z := 2.
Definition SIGALRM : Z := 14.
Definition SIGTERM : Z := 15.

Definition set_test_ent (v : Z) (e : estim) : estim :=
  mk_estim v (num_ones e) (num_zeros e) (average e) (est_ent e) (ent_count e).

(** Handles external signals to the process. *)
Definition signal_handler (sig : Z) : run unit :=
  call (Signal sig) ;;
  if sig =? SIGALRM then set_var (on_est (set_test_ent 1))
  else if sig =? SIGHUP then log_message MSigHup
  else if (sig =? SIGINT) || (sig =? SIGTERM) then
    log_message MSigTerm ;; exit_cleanup 0
  else log_message (MUnhandledSignal sig).

(** ** Start-up *)

(** The DTR line: two ioctl calls, per platform. *)
Definition pulse_dtr (fd : Z) : run unit :=
  match target cfg with
  | Apple =>
      a ← call (Ioctl fd TIOCSDTR);
      when (negb (ret a =? 0)) (fail_with (MNoAssertDTR (errno a)) (-16)) ;;
      b ← call (Ioctl fd TIOCCDTR);
      when (negb (ret b =? 0)) (fail_with (MNoClearDTR (errno b)) (-17))
  | Linux =>
      let setdtr := 2 in
      a ← call (Ioctl fd (TIOCMBIC setdtr));
      when (negb (ret a =? 0)) (fail_with (MNoAssertDTR (errno a)) (-16)) ;;
      b ← call (Ioctl fd (TIOCMBIS setdtr));
      when (negb (ret b =? 0)) (fail_with (MNoClearDTR (errno b)) (-17))
  end.

(** One iteration of the loop that opens the tty devices. *)
Definition open_device (path : string) : run unit :=
  h ← call (Open path ["O_RDONLY"; "O_NONBLOCK"; "O_NOCTTY"]%string 0);
  set_var (on_devs (fun d => mk_devs (entFileHandles d ++ [ret h]) (deviceCounters d ++ [(0, 0)]))) ;;
  when (ret h <? 0) (fail_with (MNoTTY path (errno h)) (-8)) ;;
  t ← call (Tcgetattr (ret h));
  when (negb (ret t =? 0)) (fail_with (MNoGetAttr (errno t)) (-13)) ;;
  u ← call (Tcsetattr (ret h) (serial_attrs (attrs t)));
  when (negb (ret u =? 0)) (fail_with (MNoSetAttr (errno u)) (-14)) ;;
  pulse_dtr (ret h).

Fixpoint open_devices (paths : list string) : run unit :=
  match paths with
  | [] => mret tt
  | p :: rest => open_device p ;; open_devices rest
  end.

(** The file or the kernel device that takes the output. *)
Definition open_output : run unit :=
  if file_output cfg then
    log_message (MSavingTo outfile) ;;
    h ← call (Open outfile ["O_RDWR"; "O_CREAT"; "O_APPEND"]%string 420);
    set_var (on_files (fun f => mk_files (pidFileHandle f) (logFileHandle f) (ret h) (rndFileHandle f))) ;;
    when (ret h <? 0) (fail_with (MNoOutFile (errno h)) (-11))
  else
    log_message MToKernelPool ;;
    h ← call (Open rndfile ["O_RDWR"]%string 0);
    set_var (on_files (fun f => mk_files (pidFileHandle f) (logFileHandle f) (outFileHandle f) (ret h))) ;;
    when (ret h <? 0) (fail_with (MNoRndFile rndfile (errno h)) (-18)).

(** Fork, log file, session, working directory. *)
Definition daemonize : run unit :=
  pid ← call Fork;
  when (ret pid <? 0) (exit_cleanup (-2)) ;;
  when (0 <? ret pid) (exit_cleanup 0) ;;
  call (Umask 0) ;;
  h ← call (Open logfile ["O_RDWR"; "O_CREAT"; "O_APPEND"]%string 420);
  set_var (on_files (fun f => mk_files (pidFileHandle f) (ret h) (outFileHandle f) (rndFileHandle f))) ;;
  when (ret h <? 0) (call (Printf (MNoLogFile (errno h))) ;; exit_cleanup (-1)) ;;
  log_message MStarting ;;
  sid ← call Setsid;
  when (ret sid <? 0) (fail_with MNoSID (-3)) ;;
  c ← call (Chdir rundir);
  when (ret c <? 0) (fail_with MNoChdir (-4)).

(** The pid file: created, locked, and the pid written to it ([str] has 10 bytes). *)
Definition write_pidfile : run unit :=
  h ← call (Open pidfile ["O_RDWR"; "O_CREAT"]%string 384);
  set_var (on_files (fun f => mk_files (ret h) (logFileHandle f) (outFileHandle f) (rndFileHandle f))) ;;
  when (ret h <? 0) (fail_with MNoPidFile (-5)) ;;
  l ← call (Lockf (ret h));
  when (ret l <? 0) (fail_with MPidNotLocked (-6)) ;;
  pid ← call Getpid;
  when (10 <? Z.of_nat (length (pid_text (ret pid))) + 1) (lift (Fault OutOfBounds)) ;;
  o ← call (Write (ret h) (pid_text (ret pid)));
  when (ret o <? 0) (fail_with (MPidWriteError (errno o)) (-13)).

(** main, up to the installation of the signal handlers. *)
Definition main_start : run unit :=
  when (Z.of_nat (length argv) + 1 <? 2) (call (Printf MUsage) ;; exit_cleanup (-7)) ;;
  daemonize ;;
  write_pidfile ;;
  call (Close 0) ;; call (Close 1) ;; call (Close 2) ;;
  call (Signal SIGALRM) ;; call (Signal SIGHUP) ;; call (Signal SIGINT) ;; call (Signal SIGTERM) ;;
  mret tt.

(** main, from there up to The Big Loop. *)
Definition main_open : run unit :=
  open_devices argv ;;
  open_output ;;
  call (Alarm ent_est_interval) ;;
  log_message (MNextEstimation ent_est_interval) ;;
  log_message MStarted.

Definition main_init : run unit := main_start ;; main_open.

(** ** The Big Loop: statistics *)

(** Log the per-device statistics of device [i] and reset its counters. *)
Definition device_stats (i : nat) : run unit :=
  d ← get_var d_devs;
  c ← lift (match deviceCounters d !! i with Some c => Ok c | None => Fault OutOfBounds end);
  let total := u64 (c.2 + c.1) in
  log_message (MDeviceStats (nth i argv ""%string) (wraps 64 (u64 (c.1 + c.2)))
                            (float_average c.2 total)) ;;
  set_var (on_devs (fun d => mk_devs (entFileHandles d) (<[i := (0, 0)]> (deviceCounters d)))).

(** On Linux, when the output goes to the kernel: read the state of the pool. *)
Definition pool_stats : run unit :=
  match target cfg, file_output cfg with
  | Linux, false =>
      f ← get_var d_files;
      r ← call (Ioctl (rndFileHandle f) RNDGETENTCNT);
      when (ret r <? 0) (fail_with (MNoEntropyCount (errno r)) (-20)) ;;
      log_message (MEntropyAvailable (nth 0 (data r) 0))
  | _, _ => mret tt
  end.

Definition statistics : run unit :=
  e ← get_var d_est;
  let avg := float_average (num_ones e) (s32 (num_ones e + num_zeros e)) in
  let ent := shannon_estimate log2 (num_zeros e) (num_ones e) in
  set_var (on_est (fun e => mk_estim (test_ent e) (num_ones e) (num_zeros e) avg ent (ent_count e))) ;;
  log_message (MStats (s32 (num_zeros e + num_ones e)) avg ent (ent_count e) ent_est_interval) ;;
  for_range (length argv) 0 device_stats ;;
  pool_stats ;;
  call (Alarm ent_est_interval) ;;
  set_var (on_est (fun e => mk_estim 0 0 0 (average e) (est_ent e) 0)).

(** ** The Big Loop: whitening and output *)

Definition count_bit (z : Z) (e : estim) : estim :=
  if z =? 0
  then mk_estim (test_ent e) (num_ones e) (s32 (num_zeros e + 1)) (average e) (est_ent e) (ent_count e)
  else mk_estim (test_ent e) (s32 (num_ones e + 1)) (num_zeros e) (average e) (est_ent e) (ent_count e).

Definition count_byte (e : estim) : estim :=
  mk_estim (test_ent e) (num_ones e) (num_zeros e) (average e) (est_ent e) (s32 (ent_count e + 1)).

(** Output the data: to the file, or to the kernel, per platform. *)
Definition output_byte (value : Z) : run unit :=
  f ← get_var d_files;
  if file_output cfg then
    m ← call (Write (outFileHandle f) [u8 value]);
    when (ret m <? 0) (fail_with (MOutWriteError (errno m)) (-15))
  else
    match target cfg with
    | Apple =>
        m ← call (Write (rndFileHandle f) [u8 value]);
        when (ret m <? 0) (fail_with (MRndWriteError rndfile (errno m)) (-21))
    | Linux =>
        m ← call (Ioctl (rndFileHandle f) (RNDADDENTROPY 8 1 [u8 value]));
        when (ret m <? 0) (fail_with (MNoAddEntropy (errno m)) (-19))
    end.

(** XOR mix the debiased data: byte [l] of the first half with the second half. *)
Definition mix_byte (l : nat) : run unit :=
  w ← get_var d_white;
  a ← lift (load (buf_whitened w) l);
  b ← lift (load (buf_whitened w) (l + 512));
  let value := s8 (Z.lxor a b) in
  set_var (on_est count_byte) ;;
  output_byte value.

(** The whitened buffer is full: mix, write out, and reset. *)
Definition flush_whitened : run unit :=
  for_range 512 0 mix_byte ;;
  set_var (on_white (fun w => mk_white (replicate 1024 (Some 0)) 0 (buf_whitened_bit w))).

(** One bit of AMLS output: count it, collect it into a byte, flush when full. *)
Definition whiten_bit (z : Z) : run unit :=
  set_var (on_est (count_bit z)) ;;
  w ← get_var d_white;
  old ← lift (load (buf_whitened w) (buf_whitened_pos w));
  b ← lift (store (buf_whitened w) (buf_whitened_pos w)
                  (u8 (Z.lor old (Z.shiftl z (buf_whitened_bit w)))));
  let bit := buf_whitened_bit w + 1 in
  let full := 7 <? bit in
  let bit' := if full then 0 else bit in
  let pos' := if full then S (buf_whitened_pos w) else buf_whitened_pos w in
  set_var (on_white (fun _ => mk_white b pos' bit')) ;;
  when (1024 <=? pos')%nat flush_whitened.

(** The loop over the AMLS result, up to its end marker. *)
Fixpoint whiten_result (k i : nat) (amls_result : cells) : run unit :=
  match k with
  | O => mret tt
  | S k' =>
      z ← lift (load amls_result i);
      if negb (z =? 0) && negb (z =? 1) then mret tt
      else whiten_bit z ;; whiten_result k' (S i) amls_result
  end.

(** If the buffer is full, do some processing. *)
Definition process_buffer : run unit :=
  b ← get_var d_in;
  when (512 <=? buf_pos b)%nat (
    amls_result ← lift (amls amls_depth (buf b) 512);
    whiten_result 512 0 amls_result ;;
    set_var (on_in (fun b => mk_inbuf (buf b) 0 (num_bytes b)))).

(** ** The Big Loop: reading the devices *)

Definition bump (i : nat) (one : bool) (d : devs) : devs :=
  mk_devs (entFileHandles d)
    (alter (fun c : Z * Z => if one then (c.1, u64 (c.2 + 1)) else (u64 (c.1 + 1), c.2))
           i (deviceCounters d)).

(** Check one character, count it for its device, and convert it to an int. *)
Definition convert_char (i j : nat) : run unit :=
  b ← get_var d_in;
  c ← lift (load (buf b) (buf_pos b + j));
  when (negb (c =? 48) && negb (c =? 49))
       (fail_with (MInvalidInput (nth i argv ""%string) c) (-11)) ;;
  let one := negb (c =? 48) in
  set_var (on_devs (bump i one)) ;;
  b' ← lift (store (buf b) (buf_pos b + j) (if one then 1 else 0));
  set_var (on_in (fun b => mk_inbuf b' (buf_pos b) (num_bytes b))).

(** Read 128 bytes from a device that has them, convert, and process. *)
Definition read_chunk (i : nat) (fd : Z) : run unit :=
  b ← get_var d_in;
  n ← call (Read fd 128);
  a ← lift (store_bytes (buf b) (buf_pos b) (take (Z.to_nat (Z.min (ret n) 128)) (data n)));
  set_var (on_in (fun b => mk_inbuf a (buf_pos b) (num_bytes b))) ;;
  when (negb (ret n =? 128))
       (fail_with (MReadError (nth i argv ""%string) (ret n) (errno n)) (-9)) ;;
  for_range 128 0 (convert_char i) ;;
  set_var (on_in (fun b => mk_inbuf (buf b) (buf_pos b + 128) (num_bytes b))) ;;
  process_buffer.

(** One iteration of "Read from each rng device". *)
Definition read_device (i : nat) : run unit :=
  set_var (on_in (fun b => mk_inbuf (buf b) (buf_pos b) 0)) ;;
  d ← get_var d_devs;
  fd ← lift (match entFileHandles d !! i with Some fd => Ok fd | None => Fault OutOfBounds end);
  q ← call (Ioctl fd FIONREAD);
  when (0 <=? ret q) (set_var (on_in (fun b => mk_inbuf (buf b) (buf_pos b) (nth 0 (data q) 0)))) ;;
  b ← get_var d_in;
  when (128 <=? num_bytes b) (read_chunk i fd).

(** One round of The Big Loop. *)
Definition main_round : run unit :=
  e ← get_var d_est;
  when (negb (test_ent e =? 0)) statistics ;;
  for_range (length argv) 0 read_device ;;
  call (Usleep SLEEP_TIME) ;;
  mret tt.

(** What happens to the process, one thing after another: a round of the loop, or
    a signal. *)
Inductive event : Type :=
  | Round
  | Signalled (sig : Z).

Definition main_event (ev : event) : run unit :=
  match ev with
  | Round => main_round
  | Signalled sig => signal_handler sig
  end.

Fixpoint main_loop (evs : list event) : run unit :=
  match evs with
  | [] => mret tt
  | ev :: rest => main_event ev ;; main_loop rest
  end.

Definition main_run (evs : list event) : run unit := main_init ;; main_loop evs.
End daemon_programs.

(** * Signals that arrive anywhere *)

Section preempted.
Context {W : Type} (sys : syscall log_msg -> W -> sysret * W).
Context (cfg : config) (log2 : spec_float -> spec_float) (argv : list string) (log_fuel : nat).
(** The signals that have arrived; the operating system decides. *)
Context (arrivals : W -> list Z * W).

Abbreviation run := (prog (daemon W)).

Definition take_signals : run (list Z) :=
  fun s =>
    let (sigs, w') := arrivals (d_world s) in
    (Done sigs, mk_daemon (d_files s) (d_in s) (d_white s) (d_est s) (d_devs s) w' (d_trace s)).

Fixpoint handle_all (handler : Z -> run unit) (sigs : list Z) : run unit :=
  match sigs with
  | [] => mret tt
  | sig :: rest => handler sig ;; handle_all handler rest
  end.

(** The handlers of the signals that have arrived; they are interrupted themselves,
    to a nesting of [depth]. *)
Fixpoint arriving (depth : nat) : Signals W :=
  match depth with
  | O => mret tt
  | S d =>
      sigs ← take_signals;
      handle_all (signal_handler (SG := arriving d) sys cfg log_fuel) sigs
  end.

(** main, with signals from the installation of the handlers on: up to The Big Loop,
    and [n] rounds of it. *)
Definition preempted_init (depth : nat) : run unit :=
  main_start sys cfg argv log_fuel ;;
  main_open (SG := arriving depth) sys cfg argv log_fuel.

Definition main_preempted (depth n : nat) : run unit :=
  preempted_init depth ;;
  main_loop (SG := arriving depth) sys cfg log2 argv log_fuel (replicate n Round).
End preempted.
