(* ===== verification/DaemonSpec.v ===== *)
(** What the daemon promises: an abstract whitening pipeline.

    The abstract state is the bits read and not yet whitened, the whitened bits
    not yet written, the statistics, and the bytes written.  [abs_chunk] is the
    effect of 128 bits from a device: when 512 bits are there they are debiased
    and every whitened bit goes through [abs_bit], which after 8192 bits writes
    512 bytes, each the exclusive or of a byte of the first and of the second
    half.  The bits of a byte are collected least significant first. *)

From Stdlib Require Import ZArith Lia SpecFloat.
From stdpp Require Import base tactics list numbers.
From S2P Require Import Prelude Debias Amls Daemon.

Local Open Scope Z_scope.

(** The value of bits placed from bit position [k] upwards. *)
Fixpoint bits_up (k : Z) (p : list bool) : Z :=
  match p with
  | [] => 0
  | x :: p' => Z.lor (Z.shiftl (Z.b2z x) k) (bits_up (k + 1) p')
  end.

(** The [k]-th byte of a bit sequence. *)
Definition byte_at (q : list bool) (k : nat) : Z := bits_up 0 (take 8 (drop (8 * k) q)).

(** The 1024 cells of the whitening buffer that hold the bits [q]. *)
Definition white_cells (q : list bool) : cells := map (fun k => Some (byte_at q k)) (seq 0 1024).

(** The bytes written for a full buffer of 8192 bits. *)
Definition mix (q : list bool) : list Z :=
  map (fun l => Z.lxor (byte_at q l) (byte_at q (l + 512))) (seq 0 512).

Record abs : Type := mk_abs {
  a_in : list bool;
  a_white : list bool;
  a_est : estim;
  a_out : list Z }.

Definition whitened_capacity : nat := 8 * 1024.

(** ent_count++, [n] times. *)
Definition count_bytes (n : nat) (e : estim) : estim := Nat.iter n count_byte e.

Definition abs_bit (a : abs) (x : bool) : abs :=
  let q := a_white a ++ [x] in
  let e := count_bit (bitZ x) (a_est a) in
  if decide (length q = whitened_capacity)
  then mk_abs (a_in a) [] (count_bytes 512 e) (a_out a ++ mix q)
  else mk_abs (a_in a) q e (a_out a).

Definition abs_bits (a : abs) (l : list bool) : abs := foldl abs_bit a l.

Definition abs_chunk (a : abs) (c : list bool) : abs :=
  let p := a_in a ++ c in
  if decide (512 <= length p)%nat
  then let a' := abs_bits a (debias p) in mk_abs [] (a_white a') (a_est a') (a_out a')
  else mk_abs p (a_white a) (a_est a) (a_out a).

(** Statistics are computed, logged and reset. *)
Definition estim_reset (avg ent : spec_float) : estim := mk_estim 0 0 0 avg ent 0.

Definition with_est (a : abs) (e : estim) : abs := mk_abs (a_in a) (a_white a) e (a_out a).

(** Steps of the abstract daemon: 128 bits from a device, the alarm, and the
    statistics that the alarm asks for. *)
Inductive abs_step (log2 : spec_float -> spec_float) : abs -> abs -> Prop :=
  | step_chunk a c : length c = 128%nat -> abs_step log2 a (abs_chunk a c)
  | step_alarm a : abs_step log2 a (with_est a (set_test_ent 1 (a_est a)))
  | step_stats a : test_ent (a_est a) <> 0 ->
      abs_step log2 a
        (with_est a (estim_reset
          (float_average (num_ones (a_est a)) (s32 (num_ones (a_est a) + num_zeros (a_est a))))
          (shannon_estimate log2 (num_zeros (a_est a)) (num_ones (a_est a))))).

Definition abs_init : abs := mk_abs [] [] estim_init [].

(** The per-device counters of zeros and ones (unsigned long). *)
Definition tally (c : Z * Z) (x : bool) : Z * Z :=
  if x then (c.1, u64 (c.2 + 1)) else (u64 (c.1 + 1), c.2).

(** The characters a device sends. *)
Definition ascii_of_bit (x : bool) : Z := 48 + Z.b2z x.

(** * Lemmas on the collected bytes *)

Lemma bits_up_app k p x :
  bits_up k (p ++ [x]) = Z.lor (bits_up k p) (Z.shiftl (Z.b2z x) (k + Z.of_nat (length p))).
Proof.
  revert k. induction p as [|y p IH]; intros k; simpl.
  - by rewrite Z.lor_0_r, Z.add_0_r.
  - rewrite IH, Z.lor_assoc. do 2 f_equal. lia.
Qed.

Lemma bits_up_byte p : (length p <= 8)%nat -> is_byte (bits_up 0 p).
Proof.
  intros Hp. apply (bool_decide_unpack _).
  assert (forallb (fun n => forallb (fun p => bool_decide (is_byte (bits_up 0 p))) (all_bits n))
                  (seq 0 9) = true) as H by (by vm_compute).
  assert (In (length p) (seq 0 9)) as Hin by (apply in_seq; lia).
  rewrite forallb_forall in H. specialize (H _ Hin).
  rewrite forallb_forall in H.
  specialize (H p (proj1 (list_elem_of_In _ _) (proj2 (elem_of_all_bits _ _) eq_refl))). by rewrite H.
Qed.

Lemma byte_at_byte q k : is_byte (byte_at q k).
Proof. apply bits_up_byte. rewrite length_take. lia. Qed.

Lemma byte_at_nil k : byte_at [] k = 0.
Proof. unfold byte_at. by rewrite drop_nil. Qed.

Lemma byte_at_snoc_eq q x :
  byte_at (q ++ [x]) (length q / 8) =
  Z.lor (byte_at q (length q / 8)) (Z.shiftl (Z.b2z x) (Z.of_nat (length q mod 8))).
Proof.
  pose proof (Nat.div_mod_eq (length q) 8) as E. pose proof (Nat.mod_upper_bound (length q) 8 ltac:(lia)).
  unfold byte_at. rewrite drop_app_le by lia. rewrite !take_ge by (rewrite ?length_app, ?length_drop; cbn [length]; lia).
  rewrite bits_up_app, length_drop. do 2 f_equal. lia.
Qed.

Lemma byte_at_snoc_ne q x k : k <> (length q / 8)%nat -> byte_at (q ++ [x]) k = byte_at q k.
Proof.
  intros Hk. pose proof (Nat.div_mod_eq (length q) 8). pose proof (Nat.mod_upper_bound (length q) 8 ltac:(lia)).
  unfold byte_at. destruct (decide (length q < 8 * k)%nat).
  - by rewrite !drop_ge by (rewrite ?length_app; cbn [length]; lia).
  - assert (8 * k + 8 <= length q)%nat by lia. rewrite drop_app_le by lia.
    by rewrite take_app_le by (rewrite length_drop; lia).
Qed.

Lemma a_in_abs_bits a l : a_in (abs_bits a l) = a_in a.
Proof.
  revert a. induction l as [|x l IH]; intros a; [done|]. cbn. rewrite IH. unfold abs_bit. by case_decide.
Qed.

Lemma abs_bits_cons a x l : abs_bits a (x :: l) = abs_bits (abs_bit a x) l.
Proof. done. Qed.

Lemma length_mix q : length (mix q) = 512%nat.
Proof. unfold mix. by rewrite length_map, length_seq. Qed.

Lemma length_abs_white a x :
  (length (a_white a) < whitened_capacity)%nat ->
  (length (a_white (abs_bit a x)) < whitened_capacity)%nat.
Proof.
  intros H. unfold abs_bit. case_decide as E; simpl; [by compute; lia|].
  rewrite length_app in *. simpl in *. lia.
Qed.

Lemma lookup_mix q j :
  (j < 512)%nat -> mix q !! j = Some (Z.lxor (byte_at q j) (byte_at q (j + 512))).
Proof. intros Hj. unfold mix. by rewrite list_lookup_fmap, lookup_seq_lt by lia. Qed.

Lemma load_white q l :
  (l < 1024)%nat -> load (white_cells q) l = Ok (byte_at q l).
Proof.
  intros Hl. unfold load, white_cells. rewrite list_lookup_fmap, lookup_seq_lt by done. done.
Qed.

Lemma length_white_cells q : length (white_cells q) = 1024%nat.
Proof. unfold white_cells. by rewrite length_map, length_seq. Qed.

Lemma white_cells_insert q x pos :
  (length q < whitened_capacity)%nat -> pos = (length q / 8)%nat ->
  store (white_cells q) pos
        (u8 (Z.lor (byte_at q pos) (Z.shiftl (bitZ x) (Z.of_nat (length q mod 8))))) =
  Ok (white_cells (q ++ [x])).
Proof.
  intros Hq ->. assert (length q / 8 < 1024)%nat as Hlt.
  { apply Nat.Div0.div_lt_upper_bound. unfold whitened_capacity in Hq. lia. }
  change (bitZ x) with (Z.b2z x). unfold white_cells.
  rewrite <- byte_at_snoc_eq, u8_small by apply byte_at_byte.
  unfold store. rewrite list_lookup_fmap, lookup_seq_lt by done. simpl fmap. f_equal.
  apply list_eq. intros i. destruct (decide (i < 1024)%nat) as [Hi|Hi].
  - rewrite (list_lookup_fmap _ (seq 0 1024) i), lookup_seq_lt by done. simpl fmap.
    destruct (decide (i = length q / 8)%nat) as [->|Hne].
    + rewrite list_lookup_insert_eq; [done|]. by rewrite length_fmap, length_seq.
    + rewrite list_lookup_insert_ne, list_lookup_fmap, lookup_seq_lt by done. simpl fmap.
      by rewrite byte_at_snoc_ne.
  - rewrite !lookup_ge_None_2; [done|rewrite length_fmap, length_seq; lia|].
    rewrite length_insert, length_fmap, length_seq. lia.
Qed.

Lemma white_zero : replicate 1024 (Some 0) = white_cells [].
Proof. by vm_compute. Qed.

Lemma count_bytes_S n e : count_bytes (S n) e = count_byte (count_bytes n e).
Proof. done. Qed.
