(* ===== verification/DaemonProofs.v ===== *)
(** The daemon implements its abstract pipeline.

    [refines] relates the arrays and cursors of k7nvh_rng.c to the abstract state
    of [DaemonSpec].  The operating system is arbitrary but for two documented
    facts: read() reports the number of bytes it stored, and the log file can be
    written (a daemon whose log cannot be written does not stop, see
    [log_message_diverges]).  Nothing is assumed about which calls fail. *)

From Stdlib Require Import ZArith Lia String SpecFloat.
From stdpp Require Import base tactics list numbers relations.
From S2P Require Import Prelude Debias Amls Posix Daemon DaemonSpec.

Local Open Scope Z_scope.

#[local] Opaque mix white_cells count_bytes.

(** Projections of the state records, and nothing else. *)
Ltac dcbn :=
  cbn [d_files d_in d_white d_est d_devs d_world d_trace
       on_files on_in on_white on_est on_devs
       a_in a_white a_est a_out buf buf_pos num_bytes
       buf_whitened buf_whitened_pos buf_whitened_bit
       entFileHandles deviceCounters
       pidFileHandle logFileHandle outFileHandle rndFileHandle fst snd] in *.

(** * Simulation relation *)

Definition in_ok (b : inbuf) (p : list bool) : Prop :=
  exists rest, buf b = bit_cells p ++ rest /\ length (buf b) = 512%nat /\
    buf_pos b = length p /\ exists k, length p = (128 * k)%nat /\ (k < 4)%nat.

Definition white_ok (w : white) (q : list bool) : Prop :=
  buf_whitened w = white_cells q /\
  buf_whitened_pos w = (length q / 8)%nat /\
  buf_whitened_bit w = Z.of_nat (length q mod 8) /\
  (length q < whitened_capacity)%nat.

(** The bytes that a piece of the trace wrote to the output of the configuration. *)
Definition out_of (cfg : config) (f : files) (c : syscall log_msg) : list Z :=
  match c with
  | Write fd bytes =>
      if file_output cfg then (if fd =? outFileHandle f then bytes else [])
      else match target cfg with
           | Apple => if fd =? rndFileHandle f then bytes else []
           | Linux => []
           end
  | Ioctl fd (RNDADDENTROPY _ _ bytes) =>
      if file_output cfg then []
      else match target cfg with
           | Linux => if fd =? rndFileHandle f then bytes else []
           | Apple => []
           end
  | _ => []
  end.

Definition outputs (cfg : config) (f : files) (t : list (syscall log_msg)) : list Z :=
  concat (map (out_of cfg f) t).

(** The exit code of a failed output, per configuration. *)
Definition output_error (cfg : config) : Z :=
  if file_output cfg then -15 else match target cfg with Apple => -21 | Linux => -19 end.

(** [s] implements the output side of [a]; [t0] is the trace when the output of
    [a] was empty. *)
Definition refines_out {W} (cfg : config) (t0 : list (syscall log_msg)) (s : daemon W) (a : abs) : Prop :=
  white_ok (d_white s) (a_white a) /\ d_est s = a_est a /\
  exists t, d_trace s = t0 ++ t /\ outputs cfg (d_files s) t = a_out a.

Definition refines {W} (cfg : config) (t0 : list (syscall log_msg)) (s : daemon W) (a : abs) : Prop :=
  in_ok (d_in s) (a_in a) /\ refines_out cfg t0 s a.

(** The exit codes of the main loop. *)
Definition loop_exit (cfg : config) (c : Z) : Prop :=
  c = 0 \/ c = -9 \/ c = -11 \/ c = -20 \/ c = output_error cfg.

(** * Laws of the operating system *)

Section os.
Context {W : Type} (sys : syscall log_msg -> W -> sysret * W).

(** The log file can be written. *)
Definition log_writable : Prop :=
  forall fd pid m w, 0 <= ret (sys (WriteLog fd pid m) w).1.

End os.

Section proofs.
Context {W : Type} (sys : syscall log_msg -> W -> sysret * W).
Context (cfg : config) (log2 : spec_float -> spec_float) (argv : list string) (log_fuel : nat).
Context (Hlog : log_writable sys) (Hfuel : (0 < log_fuel)%nat) (Hread : read_reports sys).
(** A part of the world that only read() changes. *)
Context {V : Type} (view : W -> V).
Context (Hview : forall c w, (match c with Read _ _ => false | _ => true end) = true ->
                             view (sys c w).2 = view w).

Abbreviation run := (prog (daemon W)).
Implicit Types (s : daemon W) (Q : unit -> daemon W -> Prop) (C : Z -> Prop).

(** The state after a call. *)
Definition called (c : syscall log_msg) (w' : W) (s : daemon W) : daemon W :=
  mk_daemon (d_files s) (d_in s) (d_white s) (d_est s) (d_devs s) w' (d_trace s ++ [c]).

Lemma call_run c s : call sys c s = (Done (sys c (d_world s)).1, called c (sys c (d_world s)).2 s).
Proof. change (call sys c s) with (call_now sys c s). unfold call_now, called. by destruct (sys c (d_world s)). Qed.

Lemma wp_call c (Q : sysret -> daemon W -> Prop) E s :
  Q (sys c (d_world s)).1 (called c (sys c (d_world s)).2 s) -> wp (call sys c) Q E s.
Proof. unfold wp. by rewrite call_run. Qed.

Lemma get_var_run {A} (f : daemon W -> A) s : get_var f s = (Done (f s), s).
Proof. done. Qed.

(** Accesses to variables of a process that receives no signals. *)
Lemma wp_get_var {A} (f : daemon W -> A) (Q : A -> daemon W -> Prop) E s : Q (f s) s -> wp (get_var f) Q E s.
Proof. done. Qed.

Lemma wp_set_var f Q E s : Q tt (f s) -> wp (set_var f) Q E s.
Proof. done. Qed.

(** The same when the result does not matter. *)
Lemma wp_call_any c (Q : sysret -> daemon W -> Prop) E s :
  (forall r w', Q r (called c w' s)) -> wp (call sys c) Q E s.
Proof. intros H. by apply wp_call. Qed.

Lemma wp_close_if_open fd Q E s :
  Q tt s -> (forall w', Q tt (called (Close fd) w' s)) -> wp (close_if_open sys fd) Q E s.
Proof.
  intros H1 H2. unfold close_if_open, when. case_match; [|done].
  apply wp_bind, wp_call, wp_ret, H2.
Qed.

Lemma wp_exit_cleanup {A} v (Q : A -> daemon W -> Prop) C s :
  C v -> wp (exit_cleanup sys cfg v) Q (fun c _ => C c) s.
Proof.
  intros HC. unfold exit_cleanup. apply wp_bind, wp_get_var.
  assert (forall fd (k : run A) s, (forall s', wp k Q (fun c _ => C c) s') ->
    wp (close_if_open sys fd ≫= fun _ => k) Q (fun c _ => C c) s) as H.
  { intros fd k s1 Hk. apply wp_bind, wp_close_if_open; [apply Hk|]. intros. apply Hk. }
  apply H. intros s1. apply H. intros s2. destruct (file_output cfg); apply H; intros s3; by apply wp_exits.
Qed.

(** A log message changes the world and the trace, by calls that are not output. *)
Lemma wp_log_message m Q E s :
  (forall w1 w2 pid, view w2 = view (d_world s) ->
     Q tt (called (WriteLog (logFileHandle (d_files s)) pid m) w2 (called Getpid w1 s))) ->
  wp (log_message sys cfg log_fuel m) Q E s.
Proof.
  intros H. unfold log_message. destruct log_fuel as [|f]; [lia|]. cbn [log_message_rec].
  apply wp_bind, wp_call, wp_bind, wp_get_var, wp_bind, wp_call. cbn [called d_files].
  rewrite (proj2 (Z.ltb_ge _ _)) by (apply Hlog). apply wp_ret, H. rewrite Hview by done. by apply Hview.
Qed.

Lemma wp_fail_with {A} m v (Q : A -> daemon W -> Prop) C s :
  C v -> wp (fail_with sys cfg log_fuel m v) Q (fun c _ => C c) s.
Proof. intros HC. unfold fail_with. apply wp_bind, wp_log_message. intros. by apply wp_exit_cleanup. Qed.

Lemma wp_when_fail (b : bool) m v Q C s :
  (b = true -> C v) -> (b = false -> Q tt s) ->
  wp (when b (fail_with sys cfg log_fuel m v)) Q (fun c _ => C c) s.
Proof. intros H1 H2. destruct b; simpl; [apply wp_fail_with; auto | apply wp_ret; auto]. Qed.

(** * Traces and output *)

Lemma outputs_app f t1 t2 : outputs cfg f (t1 ++ t2) = outputs cfg f t1 ++ outputs cfg f t2.
Proof. unfold outputs. by rewrite map_app, concat_app. Qed.

Lemma outputs_silent f c t : out_of cfg f c = [] -> outputs cfg f (t ++ [c]) = outputs cfg f t.
Proof. intros H. rewrite outputs_app. unfold outputs. simpl. by rewrite H, !app_nil_r. Qed.

(** A call that is not output leaves the abstract state as it is. *)
Lemma refines_called t0 s a c w' :
  out_of cfg (d_files s) c = [] -> refines_out cfg t0 s a -> refines_out cfg t0 (called c w' s) a.
Proof.
  intros Hc (H2 & H3 & t & Ht & Ho). split_and!; [done..|]. exists (t ++ [c]). simpl.
  rewrite Ht, app_assoc. split; [done|]. by rewrite outputs_silent.
Qed.

(** The call that writes a byte, and the reason for the exit of a failed output. *)
Definition output_call (f : files) (v : Z) : syscall log_msg :=
  if file_output cfg then Write (outFileHandle f) [v]
  else match target cfg with
       | Apple => Write (rndFileHandle f) [v]
       | Linux => Ioctl (rndFileHandle f) (RNDADDENTROPY 8 1 [v])
       end.

Definition output_failed (c : Z) : Prop :=
  c = output_error cfg /\ exists f v w, ret (sys (output_call f v) w).1 < 0.

Lemma wp_output_byte v Q s :
  (forall c w', out_of cfg (d_files s) c = [u8 v] -> view w' = view (d_world s) -> Q tt (called c w' s)) ->
  wp (output_byte sys cfg log_fuel v) Q (fun c _ => output_failed c) s.
Proof.
  intros H. unfold output_byte. apply wp_bind, wp_get_var.
  unfold output_failed, output_error, output_call in *.
  destruct (file_output cfg) eqn:E1; [|destruct (target cfg) eqn:E2];
    apply wp_bind, wp_call, wp_when_fail;
    try (intros Hr%Z.ltb_lt; split; [done|]; by exists (d_files s), (u8 v), (d_world s));
    intros _; apply H; try (by apply Hview); simpl; by rewrite E1, ?E2, Z.eqb_refl.
Qed.

(** * Whitening *)

(** Files, input and devices are left alone. *)
Definition frame s s' : Prop :=
  d_files s' = d_files s /\ d_in s' = d_in s /\ d_devs s' = d_devs s /\
  view (d_world s') = view (d_world s).

(** The trace grew by calls that wrote [bytes]. *)
Definition emits s s' (bytes : list Z) : Prop :=
  exists t, d_trace s' = d_trace s ++ t /\ outputs cfg (d_files s) t = bytes.

Lemma lxor_byte a b : is_byte a -> is_byte b -> is_byte (Z.lxor a b).
Proof.
  intros Ha Hb. apply (bool_decide_unpack _). revert b Hb.
  assert (forallb (fun b => bool_decide (is_byte (Z.lxor a b))) (seqZ 0 256) = true) as H.
  { revert a Ha. apply byte_forall. by vm_compute. }
  intros b Hb. by rewrite (byte_forall _ H b Hb).
Qed.

Lemma wp_flush_whitened q s :
  buf_whitened (d_white s) = white_cells q ->
  wp (flush_whitened sys cfg log_fuel)
     (fun _ s' => frame s s' /\ d_white s' = mk_white (white_cells []) 0 (buf_whitened_bit (d_white s)) /\
        d_est s' = count_bytes 512 (d_est s) /\ emits s s' (mix q))
     (fun c _ => output_failed c) s.
Proof.
  intros Hq. unfold flush_whitened. apply wp_bind.
  eapply wp_conseq; [apply (wp_for_range (fun j s' => frame s s' /\ d_white s' = d_white s /\
      d_est s' = count_bytes j (d_est s) /\ emits s s' (take j (mix q))))|].
  - split_and!; [done..|]. exists []. by rewrite app_nil_r.
  - intros j s1 Hj ((Hf & Hi & Hd & Hvw) & Hw & He & t & Ht & Ho). unfold mix_byte.
    apply wp_bind, wp_get_var. rewrite Hw, Hq.
    apply wp_bind. eapply wp_lift; [apply load_white; lia|].
    apply wp_bind. eapply wp_lift; [apply load_white; lia|].
    apply wp_bind, wp_set_var, wp_output_byte. intros c w' Hc Hv. unfold frame, called. dcbn.
    rewrite count_bytes_S, He, Hf, Hv. split_and!; [done..|]. exists (t ++ [c]). dcbn. rewrite Ht, app_assoc.
    split; [done|]. rewrite outputs_app, Ho. unfold outputs. simpl. rewrite app_nil_r, <- Hf, Hc.
    rewrite u8_s8_byte by (apply lxor_byte; apply byte_at_byte).
    symmetry. by apply take_S_r, lookup_mix; lia.
  - intros [] s1 (Hf & Hw & He & Ho). apply wp_set_var. dcbn. rewrite white_zero, Hw.
    split_and!; [done..|]. by rewrite (take_ge (mix q)) in Ho by (rewrite length_mix; lia).
Qed.

(** Position and bit counter after one more bit. *)
Lemma cursor_snoc (q : list bool) x :
  let n := length q in
  (if 7 <? Z.of_nat (n mod 8) + 1 then S (n / 8) else (n / 8)%nat) = (length (q ++ [x]) / 8)%nat /\
  (if 7 <? Z.of_nat (n mod 8) + 1 then 0 else Z.of_nat (n mod 8) + 1) =
  Z.of_nat (length (q ++ [x]) mod 8).
Proof.
  intros n. rewrite length_app. cbn [length]. fold n.
  pose proof (Nat.div_mod_eq n 8). pose proof (Nat.div_mod_eq (n + 1) 8).
  pose proof (Nat.mod_upper_bound n 8 ltac:(lia)). pose proof (Nat.mod_upper_bound (n + 1) 8 ltac:(lia)).
  destruct (Z.ltb_spec 7 (Z.of_nat (n mod 8) + 1)); split; lia.
Qed.

Lemma wp_whiten_bit x t0 a s :
  refines_out cfg t0 s a ->
  wp (whiten_bit sys cfg log_fuel (bitZ x))
     (fun _ s' => frame s s' /\ refines_out cfg t0 s' (abs_bit a x)) (fun c _ => output_failed c) s.
Proof.
  intros ((Hb & Hp & Hbit & Hq) & He & t & Ht & Ho). unfold whiten_bit.
  apply wp_bind, wp_set_var, wp_bind, wp_get_var. cbn [on_est d_white]. rewrite Hb, Hp, Hbit.
  assert (length (a_white a) / 8 < 1024)%nat as Hlt.
  { apply Nat.Div0.div_lt_upper_bound. unfold whitened_capacity in Hq. lia. }
  apply wp_bind. eapply wp_lift; [by apply load_white|].
  apply wp_bind. eapply wp_lift; [by apply white_cells_insert|].
  apply wp_bind, wp_set_var. cbn [on_white].
  destruct (cursor_snoc (a_white a) x) as [-> ->]. set (q := a_white a ++ [x]).
  assert (length q = S (length (a_white a))) as Hl by (unfold q; rewrite length_app; simpl; lia).
  unfold when, abs_bit. fold q. destruct (Nat.leb_spec 1024 (length q / 8)) as [Hge|Hge].
  - assert (length q = whitened_capacity) as E.
    { pose proof (Nat.Div0.mul_div_le (length q) 8). unfold whitened_capacity in *. lia. }
    rewrite decide_True by done. eapply wp_conseq; [by apply (wp_flush_whitened q)|].
    intros [] s1 ((Hf & Hi & Hd & Hvw) & Hw & He' & t1 & Ht1 & Ho1). dcbn.
    split; [done|]. rewrite E in Hw. split_and!; dcbn.
    + rewrite Hw. split_and!; [done..|]. unfold whitened_capacity. simpl. lia.
    + rewrite He', He. reflexivity.
    + exists (t ++ t1). rewrite Ht1, Ht, app_assoc. split; [done|].
      by rewrite Hf, outputs_app, Ho, Ho1.
  - rewrite decide_False by (intros E; rewrite E in Hge; compute in Hge; lia).
    apply wp_ret. split; [done|]. split_and!; dcbn; [|by rewrite He|eauto].
    split_and!; [done..|]. unfold whitened_capacity in *.
    pose proof (Nat.div_mod_eq (length q) 8). pose proof (Nat.mod_upper_bound (length q) 8 ltac:(lia)). lia.
Qed.

Lemma frame_trans s1 s2 s3 : frame s1 s2 -> frame s2 s3 -> frame s1 s3.
Proof. unfold frame. intros (-> & -> & -> & <-) (-> & -> & -> & ->). done. Qed.

Lemma wp_whiten_result y t0 : forall z k a s,
  refines_out cfg t0 s a -> (length (z ++ y) < amls_array_len)%nat -> (length y < k)%nat ->
  wp (whiten_result sys cfg log_fuel k (length z) (encode (z ++ y)))
     (fun _ s' => frame s s' /\ refines_out cfg t0 s' (abs_bits a y)) (fun c _ => output_failed c) s.
Proof.
  induction y as [|b y IH]; intros z [|k] a s Ha Hz Hk; simpl in Hk; try lia; cbn [whiten_result].
  - rewrite app_nil_r in *. apply wp_bind. eapply wp_lift; [by apply load_encode_end|]. by apply wp_ret.
  - apply wp_bind. eapply wp_lift; [apply load_encode_bit; by apply list_lookup_middle|].
    assert (negb (bitZ b =? 0) && negb (bitZ b =? 1) = false) as -> by (by destruct b).
    apply wp_bind. eapply wp_conseq; [by apply wp_whiten_bit|]. intros [] s1 [Hf1 Hr1].
    replace (z ++ b :: y) with ((z ++ [b]) ++ y) in * by (by rewrite <- app_assoc).
    replace (S (length z)) with (length (z ++ [b])) by (rewrite length_app; simpl; lia).
    eapply wp_conseq; [by apply IH; [..|lia]|]. intros [] s2 [Hf2 Hr2].
    split; [by eapply frame_trans|done].
Qed.

(** * The input buffer *)

(** [in_ok] without the guarantee that there is room. *)
Definition in_any (b : inbuf) (p : list bool) : Prop :=
  exists rest, buf b = bit_cells p ++ rest /\ length (buf b) = 512%nat /\
    buf_pos b = length p /\ exists k, length p = (128 * k)%nat /\ (k <= 4)%nat.

Lemma wp_process_buffer t0 a c s :
  in_any (d_in s) (a_in a ++ c) -> refines_out cfg t0 s a ->
  wp (process_buffer sys cfg log_fuel)
     (fun _ s' => d_files s' = d_files s /\ d_devs s' = d_devs s /\
        view (d_world s') = view (d_world s) /\ refines cfg t0 s' (abs_chunk a c))
     (fun c _ => output_failed c) s.
Proof.
  intros (rest & Hb & Hl & Hp & k & Hk & Hk4) Ho. unfold process_buffer, abs_chunk.
  set (p := a_in a ++ c) in *. apply wp_bind, wp_get_var. rewrite Hp. unfold when.
  destruct (Nat.leb_spec 512 (length p)) as [Hge|Hlt].
  - rewrite decide_True by done. assert (length p = 512%nat) as E by lia.
    destruct (amls_refines_debias_aux p rest) as [Ea Hd]; [by rewrite E|]. rewrite E, <- Hb in Ea.
    apply wp_bind. eapply wp_lift; [done|]. apply wp_bind.
    eapply wp_conseq; [by apply (wp_whiten_result (debias p) t0 [] 512 a s Ho)|].
    intros [] s1 [(Hf & Hi & Hd' & Hvw) Hr]. apply wp_set_var. dcbn. split_and!; [done..|].
    split; [|done]. dcbn. rewrite Hi. exists (buf (d_in s)). split_and!; [done..|].
    exists 0%nat. split; [done|lia].
  - rewrite decide_False by lia. apply wp_ret. split_and!; [done..|]. split; dcbn; [|done].
    exists rest. split_and!; [done..|]. exists k. split; [done|lia].
Qed.

(** * Reading a device *)

Lemma length_bit_cells l : length (bit_cells l) = length l.
Proof. apply length_fmap. Qed.

Lemma s8_ascii b : is_byte b ->
  (s8 b = 48 -> b = ascii_of_bit false) /\ (s8 b = 49 -> b = ascii_of_bit true).
Proof.
  intros Hb. assert (negb (s8 b =? 48) || (b =? 48) = true /\ negb (s8 b =? 49) || (b =? 49) = true) as [H1 H2].
  { split; revert b Hb;
      [apply (byte_forall (fun b => negb (s8 b =? 48) || (b =? 48)))
      |apply (byte_forall (fun b => negb (s8 b =? 49) || (b =? 49)))]; by vm_compute. }
  split; intros E; rewrite E in *; simpl in *; by apply Z.eqb_eq.
Qed.

(** A character the daemon accepts. *)
Definition ascii_bit (b : Z) : Prop := b = 48 \/ b = 49.

(** The state of the conversion loop after [length c] characters. *)
Definition converting (i : nat) (p : list bool) (bytes : list Z) (old : cells)
    (s s' : daemon W) (c : list bool) : Prop :=
  take (length c) bytes = map ascii_of_bit c /\
  s' = on_devs (fun d => mk_devs (entFileHandles d)
                          (alter (fun zo => foldl tally zo c) i (deviceCounters d)))
       (on_in (fun b => mk_inbuf (bit_cells (p ++ c) ++ raw_cells (drop (length c) bytes) ++ old)
                                 (buf_pos b) (num_bytes b)) s).

Lemma wp_convert_char i p bytes old s s1 c :
  Forall is_byte bytes -> (length c < length bytes)%nat -> buf_pos (d_in s) = length p ->
  converting i p bytes old s s1 c ->
  wp (convert_char sys cfg argv log_fuel i (length c))
     (fun _ s2 => exists x, converting i p bytes old s s2 (c ++ [x]))
     (fun e _ => e = -11 /\ ~ Forall ascii_bit bytes) s1.
Proof.
  intros Hb Hc Hp [Ht ->]. unfold convert_char. apply wp_bind, wp_get_var. dcbn. rewrite Hp.
  destruct (lookup_lt_is_Some_2 bytes (length c) Hc) as [b Hlk].
  assert (is_byte b) as Hbb by (by eapply (list.Forall_lookup_1 is_byte bytes)).
  rewrite (drop_S bytes b) by done.
  change (raw_cells (b :: drop (S (length c)) bytes)) with (Some (s8 b) :: raw_cells (drop (S (length c)) bytes)).
  assert (length p + length c = length (bit_cells (p ++ c)))%nat as ->
    by (rewrite length_bit_cells, length_app; lia).
  apply wp_bind. eapply wp_lift; [apply load_middle|]. apply wp_bind, wp_when_fail.
  { intros E. split; [done|]. intros Hall.
    destruct (list.Forall_lookup_1 ascii_bit bytes _ _ Hall Hlk) as [-> | ->]; discriminate. }
  intros Hv.
  destruct (s8_ascii b Hbb) as [H48 H49].
  assert (exists x, b = ascii_of_bit x /\ negb (s8 b =? 48) = x) as (x & -> & Hx).
  { destruct (Z.eqb_spec (s8 b) 48) as [E|E]; [exists false; auto|].
    destruct (Z.eqb_spec (s8 b) 49) as [E'|E']; [exists true; auto|done]. }
  rewrite Hx. apply wp_bind, wp_set_var, wp_bind. dcbn.
  eapply wp_lift; [apply store_middle|]. apply wp_set_var. exists x. split.
  - rewrite length_app. simpl. rewrite Nat.add_1_r. erewrite take_S_r by done. by rewrite Ht, map_app.
  - unfold on_devs, on_in. dcbn. f_equal.
    + f_equal. rewrite length_app. cbn [length]. rewrite Nat.add_1_r, app_assoc.
      unfold bit_cells. rewrite !map_app, <- !app_assoc. by destruct x.
    + unfold bump. dcbn. f_equal. rewrite list_alter_alter_eq. apply list_alter_ext; [|done].
      intros zo _. rewrite foldl_app. by destruct x.
Qed.

Lemma wp_convert_chunk i p bytes old s :
  Forall is_byte bytes -> length bytes = 128%nat -> buf_pos (d_in s) = length p ->
  buf (d_in s) = bit_cells p ++ raw_cells bytes ++ old ->
  wp (for_range 128 0 (convert_char sys cfg argv log_fuel i))
     (fun _ s' => exists c, length c = 128%nat /\ converting i p bytes old s s' c)
     (fun e _ => e = -11 /\ ~ Forall ascii_bit bytes) s.
Proof.
  intros Hb Hl Hp Hbuf.
  apply (wp_for_range (fun j s' => exists c, length c = j /\ converting i p bytes old s s' c)).
  - exists []. split; [done|]. split; [done|]. rewrite app_nil_r. cbn [length foldl]. rewrite drop_0.
    destruct s as [f b w e d wo tr]. unfold on_devs, on_in. dcbn. rewrite <- Hbuf. f_equal.
    + by destruct b.
    + destruct d as [h cs]. dcbn. f_equal. symmetry. by apply list_alter_id.
  - intros j s1 Hj (c & <- & Hc).
    eapply wp_conseq; [by apply (wp_convert_char i p bytes old s); [..|lia| |]|].
    intros [] s2 [x Hx]. exists (c ++ [x]). split; [|done]. rewrite length_app. simpl. lia.
Qed.

(** The number of bytes FIONREAD makes the daemon believe in. *)
Definition available (r : sysret) : Z := if 0 <=? ret r then nth 0 (data r) 0 else 0.

(** Why reading a device may end the program: a short read, a character that is
    not a bit, or a failed output. *)
Definition read_exit (r : sysret) (c : Z) : Prop :=
  (c = -9 /\ ret r <> 128) \/ (c = -11 /\ ~ Forall ascii_bit (data r)) \/ output_failed c.

(** What a round of reading device [i] does. *)
Definition device_read (i : nat) (fd : Z) (t0 : list (syscall log_msg)) (a : abs)
    (s s' : daemon W) : Prop :=
  let q := sys (Ioctl fd FIONREAD) (d_world s) in
  d_files s' = d_files s /\ entFileHandles (d_devs s') = entFileHandles (d_devs s) /\
  view (d_world s') = view (if 128 <=? available q.1 then (sys (Read fd 128) q.2).2 else q.2) /\
  if 128 <=? available q.1 then
    exists c, data (sys (Read fd 128) q.2).1 = map ascii_of_bit c /\ length c = 128%nat /\
      refines cfg t0 s' (abs_chunk a c) /\
      deviceCounters (d_devs s') =
        alter (fun zo => foldl tally zo c) i (deviceCounters (d_devs s))
  else refines cfg t0 s' a /\ deviceCounters (d_devs s') = deviceCounters (d_devs s).

Lemma wp_store_available (r : sysret) Q E s :
  num_bytes (d_in s) = 0 ->
  Q tt (on_in (fun b => mk_inbuf (buf b) (buf_pos b) (available r)) s) ->
  wp (when (0 <=? ret r) (set_var (on_in (fun b => mk_inbuf (buf b) (buf_pos b) (nth 0 (data r) 0))))) Q E s.
Proof.
  intros Hs HQ. unfold available, when in *. destruct (0 <=? ret r); [by apply wp_set_var|].
  apply wp_ret. destruct s as [f [b p n] w e d wo tr]. dcbn. subst n. exact HQ.
Qed.

Lemma wp_read_chunk i fd t0 a s :
  refines cfg t0 s a ->
  wp (read_chunk sys cfg argv log_fuel i fd)
     (fun _ s' => d_files s' = d_files s /\ entFileHandles (d_devs s') = entFileHandles (d_devs s) /\
        view (d_world s') = view (sys (Read fd 128) (d_world s)).2 /\
        exists c, data (sys (Read fd 128) (d_world s)).1 = map ascii_of_bit c /\ length c = 128%nat /\
          refines cfg t0 s' (abs_chunk a c) /\
          deviceCounters (d_devs s') = alter (fun zo => foldl tally zo c) i (deviceCounters (d_devs s)))
     (fun c _ => read_exit (sys (Read fd 128) (d_world s)).1 c) s.
Proof.
  intros [(rest & Hb & Hl & Hp & k & Hk & Hk4) Ho]. unfold read_chunk.
  apply wp_bind, wp_get_var, wp_bind, wp_call. unfold called. dcbn.
  destruct (Hread fd 128 (d_world s)) as (Hr1 & Hr2 & Hr3).
  set (r := (sys (Read fd 128) (d_world s)).1) in *.
  set (bytes := take (Z.to_nat (Z.min (ret r) 128)) (data r)).
  assert (length rest = 512 - length (a_in a))%nat as Hrest
    by (rewrite Hb, length_app, length_bit_cells in Hl; lia).
  rewrite Hb, Hp, <- (length_bit_cells (a_in a)). apply wp_bind. eapply wp_lift.
  { apply store_bytes_spec. unfold bytes. rewrite length_take. lia. }
  apply wp_bind, wp_set_var, wp_bind, wp_when_fail.
  { intros E%negb_true_iff%Z.eqb_neq. by left. }
  intros E%negb_false_iff%Z.eqb_eq.
  specialize (Hr3 ltac:(lia)). assert (bytes = data r) as -> by (apply take_ge; lia).
  set (s1 := on_in _ _). apply wp_bind.
  eapply wp_mono; [apply (wp_convert_chunk i (a_in a) (data r) (drop (length (data r)) rest) s1);
    [done|lia|by rewrite <- Hp|done]| |intros c s' H; right; by left].
  intros [] s2 (c & Hc & Ht & ->). apply wp_bind, wp_set_var.
  rewrite take_ge in Ht by lia. rewrite (drop_ge (data r)) by lia.
  eapply wp_mono; [apply (wp_process_buffer t0 a c)| |intros c' s' H; by do 2 right].
  - exists (drop (length (data r)) rest). unfold s1. dcbn. split_and!; [done| | |exists (S k)].
    + rewrite !length_app, length_bit_cells, length_app, length_drop. simpl. lia.
    + rewrite length_app. lia.
    + rewrite length_app. lia.
  - unfold s1. apply (refines_called t0 s a (Read fd 128)); done.
  - intros [] s3 (Hf & Hd & Hvw & Hr). split_and!; [done|by rewrite Hd|by rewrite Hvw|].
    exists c. split_and!; [done..|]. by rewrite Hd.
Qed.

Lemma wp_read_device i fd t0 a s :
  entFileHandles (d_devs s) !! i = Some fd -> refines cfg t0 s a ->
  wp (read_device sys cfg argv log_fuel i) (fun _ => device_read i fd t0 a s)
     (fun c _ => let q := sys (Ioctl fd FIONREAD) (d_world s) in
                 128 <= available q.1 /\ read_exit (sys (Read fd 128) q.2).1 c) s.
Proof.
  intros Hfd [Hi Ho]. unfold read_device, device_read.
  apply wp_bind, wp_set_var, wp_bind, wp_get_var. dcbn. rewrite Hfd.
  apply wp_bind, (wp_lift _ fd); [done|]. apply wp_bind, wp_call. unfold called. dcbn.
  set (q := sys (Ioctl fd FIONREAD) (d_world s)).
  apply wp_bind, wp_store_available; [done|]. apply wp_bind, wp_get_var. dcbn.
  assert (forall n, refines cfg t0
    (mk_daemon (d_files s) (mk_inbuf (buf (d_in s)) (buf_pos (d_in s)) n) (d_white s) (d_est s)
       (d_devs s) q.2 (d_trace s ++ [Ioctl fd FIONREAD])) a) as Href.
  { intros n. split; [done|]. by apply (refines_called t0 s a (Ioctl fd FIONREAD) q.2). }
  unfold when. destruct (Z.leb_spec 128 (available q.1)) as [Hge|]; [|apply wp_ret; split_and!; [done..|apply Href|done]].
  eapply wp_mono; [apply (wp_read_chunk i fd t0 a), Href| |].
  - intros [] s' H. exact H.
  - intros c s' H. split; [done|exact H].
Qed.

(** * A round of the main loop *)

Definition devs_ok s : Prop :=
  length (entFileHandles (d_devs s)) = length argv /\
  length (deviceCounters (d_devs s)) = length argv.

Lemma refines_logged t0 s a m pid w1 w2 :
  refines cfg t0 s a ->
  refines cfg t0 (called (WriteLog (logFileHandle (d_files s)) pid m) w2 (called Getpid w1 s)) a.
Proof.
  intros [Hi Ho]. split; [done|]. apply refines_called; [done|]. by apply refines_called.
Qed.

Lemma refines_on_devs t0 s a f : refines cfg t0 s a -> refines cfg t0 (on_devs f s) a.
Proof. done. Qed.

Lemma wp_device_stats i t0 a s :
  (i < length argv)%nat -> devs_ok s -> refines cfg t0 s a ->
  wp (device_stats sys cfg argv log_fuel i)
     (fun _ s' => d_files s' = d_files s /\ devs_ok s' /\ refines cfg t0 s' a /\
        entFileHandles (d_devs s') = entFileHandles (d_devs s) /\
        deviceCounters (d_devs s') = <[i := (0, 0)]> (deviceCounters (d_devs s)))
     (fun c _ => c = -20) s.
Proof.
  intros Hi [Hd1 Hd2] Hr. unfold device_stats. apply wp_bind, wp_get_var.
  destruct (lookup_lt_is_Some_2 (deviceCounters (d_devs s)) i) as [zo Hzo]; [lia|]. rewrite Hzo.
  apply wp_bind, (wp_lift _ zo); [done|]. apply wp_bind, wp_log_message. intros w1 w2 pid Hv.
  apply wp_set_var. split_and!; [done| |by apply refines_on_devs, refines_logged|done..].
  split; dcbn; [done|]. by rewrite length_insert.
Qed.

Lemma wp_pool_stats t0 a s :
  refines cfg t0 s a ->
  wp (pool_stats sys cfg log_fuel)
     (fun _ s' => d_files s' = d_files s /\ d_devs s' = d_devs s /\ refines cfg t0 s' a)
     (fun c _ => c = -20) s.
Proof.
  intros Hr. unfold pool_stats. destruct (target cfg), (file_output cfg); try by apply wp_ret.
  apply wp_bind, wp_get_var, wp_bind, wp_call, wp_bind, wp_when_fail; [done|]. intros _.
  apply wp_log_message. intros w1 w2 pid Hv. split_and!; [done..|].
  apply refines_logged. destruct Hr. split; [done|]. by apply refines_called.
Qed.

Lemma wp_statistics t0 a s :
  devs_ok s -> refines cfg t0 s a ->
  wp (statistics sys cfg log2 argv log_fuel)
     (fun _ s' => d_files s' = d_files s /\ devs_ok s' /\
        entFileHandles (d_devs s') = entFileHandles (d_devs s) /\
        deviceCounters (d_devs s') = replicate (length argv) (0, 0) /\
        refines cfg t0 s' (with_est a (estim_reset
          (float_average (num_ones (a_est a)) (s32 (num_ones (a_est a) + num_zeros (a_est a))))
          (shannon_estimate log2 (num_zeros (a_est a)) (num_ones (a_est a))))))
     (fun c _ => c = -20) s.
Proof.
  intros Hd Hr. pose proof (proj1 (proj2 (proj2 Hr))) as He. unfold statistics.
  apply wp_bind, wp_get_var, wp_bind, wp_set_var, wp_bind, wp_log_message. intros w1 w2 pid Hv.
  set (avg := float_average _ _). set (ent := shannon_estimate _ _ _). set (s1 := called _ w2 _).
  set (a1 := with_est a (mk_estim (test_ent (a_est a)) (num_ones (a_est a)) (num_zeros (a_est a)) avg ent
                                  (ent_count (a_est a)))).
  assert (refines cfg t0 s1 a1) as Hr1.
  { apply refines_logged. destruct Hr as [? (? & _ & ?)]. split; [done|]. split_and!; [done| |done].
    dcbn. by rewrite He. }
  apply wp_bind. eapply wp_conseq; [apply (wp_for_range (fun j s' => d_files s' = d_files s /\ devs_ok s' /\
     entFileHandles (d_devs s') = entFileHandles (d_devs s) /\ refines cfg t0 s' a1 /\
     take j (deviceCounters (d_devs s')) = replicate j (0, 0)))|].
  - split_and!; [done..|]. by destruct (deviceCounters (d_devs s1)).
  - intros j s2 Hj (Hf & Hd2 & Hh & Hr2 & Ht).
    eapply wp_conseq; [apply (wp_device_stats j t0 a1); [lia|done..]|].
    intros [] s3 (Hf3 & Hd3 & Hr3 & Hh3 & Hc3). split_and!; [congruence|done|congruence|done|].
    rewrite Hc3. destruct Hd2 as [_ Hl2].
    rewrite (take_S_r _ _ (0, 0)) by (apply list_lookup_insert_eq; lia).
    by rewrite take_insert_ge, Ht, replicate_S_end by lia.
  - intros [] s2 (Hf & Hd2 & Hh & Hr2 & Ht). apply wp_bind.
    eapply wp_conseq; [by apply (wp_pool_stats t0 a1)|]. intros [] s3 (Hf3 & Hd3 & Hr3).
    apply wp_bind, wp_call, wp_set_var. unfold devs_ok, called. dcbn. rewrite Hd3.
    rewrite take_ge in Ht by (destruct Hd2; lia).
    split_and!; [congruence|apply Hd2..|done|done|]. destruct Hr3 as [Hi3 Ho3]. split; [done|].
    destruct (refines_called t0 s3 a1 (Alarm ent_est_interval)
      (sys (Alarm ent_est_interval) (d_world s3)).2 eq_refl Ho3) as (Hw3 & He3 & Ht3).
    split_and!; [done| |done]. unfold called in He3. dcbn. by rewrite He3.
Qed.

Lemma wp_read_devices t0 a s :
  devs_ok s -> refines cfg t0 s a ->
  wp (for_range (length argv) 0 (read_device sys cfg argv log_fuel))
     (fun _ s' => d_files s' = d_files s /\ devs_ok s' /\
        exists cs, Forall (fun c => length c = 128%nat) cs /\ (length cs <= length argv)%nat /\
          refines cfg t0 s' (foldl abs_chunk a cs))
     (fun c _ => loop_exit cfg c) s.
Proof.
  intros Hd Hr.
  apply (wp_for_range (fun j s' => d_files s' = d_files s /\ devs_ok s' /\
        exists cs, Forall (fun c => length c = 128%nat) cs /\ (length cs <= j)%nat /\
          refines cfg t0 s' (foldl abs_chunk a cs))).
  - split_and!; [done..|]. by exists [].
  - intros j s1 Hj (Hf & Hd1 & cs & Hcs & Hl & Hr1).
    destruct (lookup_lt_is_Some_2 (entFileHandles (d_devs s1)) j) as [fd Hfd]; [destruct Hd1; lia|].
    eapply wp_mono; [by apply (wp_read_device j fd t0 (foldl abs_chunk a cs))| |].
    2: { intros c _ [_ [[-> _]|[[-> _]|[-> _]]]]; unfold loop_exit; auto. }
    intros [] s2 (Hf2 & He2 & _ & H). unfold devs_ok. rewrite He2. case_match.
    + destruct H as (c & _ & Hc & Hr2 & Hdc). rewrite Hdc, length_alter.
      split_and!; [congruence|apply Hd1|apply Hd1|]. exists (cs ++ [c]).
      rewrite foldl_app, length_app. split_and!; [|simpl; lia|done].
      apply Forall_app. auto.
    + destruct H as [Hr2 Hdc]. rewrite Hdc. split_and!; [congruence|apply Hd1|apply Hd1|].
      exists cs. split_and!; [done|lia|done].
Qed.

(** Every step of the abstract daemon is allowed by [abs_step]. *)
Abbreviation abs_steps := (rtc (abs_step log2)).

Lemma chunks_steps cs : forall a,
  Forall (fun c => length c = 128%nat) cs -> abs_steps a (foldl abs_chunk a cs).
Proof.
  induction cs as [|c cs IH]; intros a H; [done|]. apply Forall_cons_iff in H as [Hc Hcs].
  cbn [foldl]. eapply rtc_l; [by apply step_chunk|]. by apply IH.
Qed.

(** What an event does: the state stays well formed and implements an abstract
    state reachable from the one before. *)
Definition event_post (t0 : list (syscall log_msg)) (a : abs) (s s' : daemon W) : Prop :=
  d_files s' = d_files s /\ devs_ok s' /\ exists a', abs_steps a a' /\ refines cfg t0 s' a'.

Lemma wp_main_round t0 a s :
  devs_ok s -> refines cfg t0 s a ->
  wp (main_round sys cfg log2 argv log_fuel) (fun _ => event_post t0 a s) (fun c _ => loop_exit cfg c) s.
Proof.
  intros Hd Hr. unfold main_round. apply wp_bind, wp_get_var, wp_bind.
  assert (wp (when (negb (test_ent (d_est s) =? 0)) (statistics sys cfg log2 argv log_fuel))
    (fun _ => event_post t0 a s) (fun c _ => c = -20) s) as Hs.
  { unfold when. destruct (Z.eqb_spec (test_ent (d_est s)) 0) as [E|E]; cbn [negb].
    - apply wp_ret. split_and!; [done..|]. by exists a.
    - eapply wp_conseq; [by apply wp_statistics|]. intros [] s1 (Hf & Hd1 & _ & _ & Hr1).
      split_and!; [done..|]. eexists. split; [|done]. apply rtc_once, step_stats.
      destruct Hr as (_ & _ & <- & _). done. }
  eapply wp_mono; [exact Hs| |by intros c _ ->; do 3 right; left].
  intros [] s1 (Hf1 & Hd1 & a1 & Ha1 & Hr1). apply wp_bind.
  eapply wp_conseq; [by apply (wp_read_devices t0 a1)|].
  intros [] s2 (Hf2 & Hd2 & cs & Hcs & _ & Hr2). apply wp_bind, wp_call, wp_ret.
  split_and!; [by rewrite <- Hf1|done|]. exists (foldl abs_chunk a1 cs). split.
  - etrans; [done|]. by apply chunks_steps.
  - destruct Hr2. split; [done|]. by apply refines_called.
Qed.

Lemma wp_signal_handler sig t0 a s :
  devs_ok s -> refines cfg t0 s a ->
  wp (signal_handler sys cfg log_fuel sig) (fun _ => event_post t0 a s) (fun c _ => loop_exit cfg c) s.
Proof.
  intros Hd Hr. unfold signal_handler. apply wp_bind, wp_call.
  assert (refines cfg t0 (called (Signal sig) (sys (Signal sig) (d_world s)).2 s) a) as Hr1
    by (destruct Hr; split; [done|by apply refines_called]).
  repeat case_match.
  - apply wp_set_var. split_and!; [done..|]. eexists. split; [apply rtc_once, step_alarm|].
    destruct Hr1 as (? & ? & He & ?). split; [done|]. split_and!; [done| |done]. dcbn. by rewrite <- He.
  - apply wp_log_message. intros. split_and!; [done..|]. exists a. split; [done|]. by apply refines_logged.
  - apply wp_bind, wp_log_message. intros. apply wp_exit_cleanup. by left.
  - apply wp_log_message. intros. split_and!; [done..|]. exists a. split; [done|]. by apply refines_logged.
Qed.

Lemma wp_main_loop t0 evs : forall a s,
  devs_ok s -> refines cfg t0 s a ->
  wp (main_loop sys cfg log2 argv log_fuel evs) (fun _ => event_post t0 a s) (fun c _ => loop_exit cfg c) s.
Proof.
  induction evs as [|ev evs IH]; intros a s Hd Hr; cbn [main_loop].
  - apply wp_ret. split_and!; [done..|]. by exists a.
  - apply wp_bind. eapply wp_conseq.
    + destruct ev; [by apply wp_main_round|by apply wp_signal_handler].
    + intros [] s1 (Hf1 & Hd1 & a1 & Ha1 & Hr1).
      eapply wp_conseq; [by apply IH|]. intros [] s2 (Hf2 & Hd2 & a2 & Ha2 & Hr2).
      split_and!; [congruence|done|]. exists a2. split; [by etrans|done].
Qed.

(** * Start-up *)

(** The codes with which the start-up ends; 0 is the parent after fork(). *)
Definition startup_exit (c : Z) : Prop :=
  c ∈ [0; -1; -2; -3; -4; -5; -6; -7; -8; -13; -14; -16; -17; if file_output cfg then -11 else -18].

(** Buffers and statistics are left alone. *)
Definition idle s s' : Prop := d_in s' = d_in s /\ d_white s' = d_white s /\ d_est s' = d_est s.

Lemma startup_exit_in c :
  existsb (Z.eqb c) [0; -1; -2; -3; -4; -5; -6; -7; -8; -13; -14; -16; -17] = true -> startup_exit c.
Proof.
  intros H. apply existsb_exists in H as (d & Hd & E%Z.eqb_eq). subst d.
  apply list_elem_of_In. cbn [In] in *. tauto.
Qed.

(** One step of straight-line start-up code. *)
Ltac wp_step :=
  lazymatch goal with
  | |- wp (_ ≫= _) _ _ _ => apply wp_bind
  | |- wp (get_var _) _ _ _ => apply wp_get_var
  | |- wp (set_var _) _ _ _ => apply wp_set_var
  | |- wp (call _ _) _ _ _ => apply wp_call
  | |- wp (mret _) _ _ _ => apply wp_ret
  | |- wp (when _ (fail_with _ _ _ _ _)) _ _ _ =>
      apply wp_when_fail; [intros _; by apply startup_exit_in|intros ?]
  | |- wp (when ?b (exit_cleanup _ _ _)) _ _ _ =>
      destruct b eqn:?; cbn [when]; [apply wp_exit_cleanup; by apply startup_exit_in|apply wp_ret]
  | |- wp (log_message _ _ _ _) _ _ _ => apply wp_log_message; intros ? ? ? _
  end.

Lemma wp_daemonize s :
  wp (daemonize sys cfg log_fuel)
     (fun _ s' => idle s s' /\ d_devs s' = d_devs s /\ 0 <= logFileHandle (d_files s'))
     (fun c _ => startup_exit c) s.
Proof.
  unfold daemonize. repeat wp_step.
  match goal with |- wp (when ?b _) _ _ _ => destruct b eqn:E end; cbn [when].
  { repeat wp_step. apply wp_exit_cleanup. by apply startup_exit_in. }
  repeat wp_step. split_and!; [done..|]. dcbn. by apply Z.ltb_ge.
Qed.

Lemma length_decimal fuel : forall n acc,
  0 <= n < 10 ^ Z.of_nat fuel -> (0 < fuel)%nat -> (length (decimal fuel n acc) <= fuel + length acc)%nat.
Proof.
  induction fuel as [|fuel IH]; intros n acc Hn Hf; [lia|]. cbn [decimal].
  destruct (Z.ltb_spec n 10); [simpl; lia|]. destruct fuel as [|f]; [simpl in Hn; lia|].
  etrans; [apply IH|simpl; lia]; [|lia]. rewrite Nat2Z.inj_succ, Z.pow_succ_r in Hn by lia.
  split; [by apply Z.div_pos; lia|]. apply Z.div_lt_upper_bound; lia.
Qed.

Lemma decimal_more fuel : forall n acc k,
  0 <= n < 10 ^ Z.of_nat fuel -> (0 < fuel)%nat -> decimal (fuel + k) n acc = decimal fuel n acc.
Proof.
  induction fuel as [|fuel IH]; intros n acc k Hn Hf; [lia|]. simpl Nat.add. cbn [decimal].
  destruct (Z.ltb_spec n 10); [done|]. destruct fuel as [|f]; [simpl in Hn; lia|].
  apply IH; [|lia]. rewrite Nat2Z.inj_succ, Z.pow_succ_r in Hn by lia.
  split; [by apply Z.div_pos; lia|]. apply Z.div_lt_upper_bound; lia.
Qed.

(** The pid and its line feed fit into the 10 bytes of [str]. *)
Lemma pid_text_fits pid : 0 <= pid < 10 ^ 8 -> (length (pid_text pid) <= 9)%nat.
Proof.
  intros H. unfold pid_text. change 10%nat with (8 + 2)%nat.
  rewrite length_app, (decimal_more 8 pid [] 2) by (simpl; lia).
  pose proof (length_decimal 8 pid [] H ltac:(lia)). simpl length in *. lia.
Qed.

(** Process identifiers have at most eight digits (on Linux they are below 2^22). *)
Definition pid_bounded : Prop := forall w, 0 <= ret (sys Getpid w).1 < 10 ^ 8.

Lemma wp_write_pidfile s :
  pid_bounded ->
  wp (write_pidfile sys cfg log_fuel)
     (fun _ s' => idle s s' /\ d_devs s' = d_devs s /\ 0 <= pidFileHandle (d_files s') /\
                  logFileHandle (d_files s') = logFileHandle (d_files s))
     (fun c _ => startup_exit c) s.
Proof.
  intros Hpid. unfold write_pidfile. repeat wp_step.
  match goal with |- context [pid_text (ret (sys Getpid ?w).1)] => specialize (Hpid w) end.
  rewrite (proj2 (Z.ltb_ge _ _)) by (pose proof (pid_text_fits _ Hpid); lia). cbn [when].
  repeat wp_step. split_and!; [done..| |done]. dcbn. by apply Z.ltb_ge.
Qed.

Lemma wp_open_device path s :
  wp (open_device sys cfg log_fuel path)
     (fun _ s' => idle s s' /\ d_files s' = d_files s /\
        exists fd, 0 <= fd /\ d_devs s' = mk_devs (entFileHandles (d_devs s) ++ [fd])
                                                 (deviceCounters (d_devs s) ++ [(0, 0)]))
     (fun c _ => startup_exit c) s.
Proof.
  unfold open_device, pulse_dtr. repeat wp_step.
  destruct (target cfg); repeat wp_step;
    (split_and!; [done..|]; eexists; split; [by apply Z.ltb_ge|done]).
Qed.

(** The device arrays while the devices are opened. *)
Definition devs_open (n : nat) s : Prop :=
  length (entFileHandles (d_devs s)) = n /\ deviceCounters (d_devs s) = replicate n (0, 0) /\
  Forall (Z.le 0) (entFileHandles (d_devs s)).

Lemma wp_open_devices paths : forall n s,
  devs_open n s ->
  wp (open_devices sys cfg log_fuel paths)
     (fun _ s' => idle s s' /\ d_files s' = d_files s /\ devs_open (n + length paths) s')
     (fun c _ => startup_exit c) s.
Proof.
  induction paths as [|p paths IH]; intros n s Hn; cbn [open_devices].
  - apply wp_ret. rewrite Nat.add_0_r. done.
  - apply wp_bind. eapply wp_conseq; [apply wp_open_device|].
    intros [] s1 (Hi1 & Hf1 & fd & Hfd & Hd1). eapply wp_conseq; [apply (IH (S n))|].
    + unfold devs_open in *. rewrite Hd1. dcbn. destruct Hn as (Hl & Hc & Hp).
      rewrite length_app, Hl, Hc, replicate_S_end. split_and!; [simpl; lia|done|].
      apply Forall_app. auto.
    + intros [] s2 (Hi2 & Hf2 & Hd2). unfold idle in *. destruct_and!. simpl length.
      split_and!; [congruence..|]. by replace (n + S (length paths))%nat with (S n + length paths)%nat by lia.
Qed.

(** The handle that takes the output. *)
Definition output_handle (f : files) : Z := if file_output cfg then outFileHandle f else rndFileHandle f.

Lemma wp_open_output s :
  wp (open_output sys cfg log_fuel)
     (fun _ s' => idle s s' /\ d_devs s' = d_devs s /\ 0 <= output_handle (d_files s') /\
        logFileHandle (d_files s') = logFileHandle (d_files s) /\
        pidFileHandle (d_files s') = pidFileHandle (d_files s))
     (fun c _ => startup_exit c) s.
Proof.
  unfold open_output, output_handle. destruct (file_output cfg) eqn:E; repeat wp_step.
  all: try (apply wp_when_fail;
    [intros _; apply list_elem_of_In; rewrite E; cbn [In]; tauto|intros Hh%Z.ltb_ge]).
  all: split_and!; done.
Qed.

(** What the start-up establishes. *)
Definition started s s' : Prop :=
  idle s s' /\ devs_open (length argv) s' /\ 0 <= logFileHandle (d_files s') /\
  0 <= pidFileHandle (d_files s') /\ 0 <= output_handle (d_files s') /\ argv <> [].

Lemma wp_main_init s :
  pid_bounded -> d_devs s = devs_init ->
  wp (main_init sys cfg argv log_fuel) (fun _ => started s) (fun c _ => startup_exit c) s.
Proof.
  intros Hpid Hd. unfold main_init, main_start. apply wp_bind, wp_bind.
  destruct (Z.ltb_spec (Z.of_nat (length argv) + 1) 2) as [Hlt|Hge]; cbn [when].
  { repeat wp_step. apply wp_exit_cleanup. by apply startup_exit_in. }
  apply wp_ret, wp_bind. eapply wp_conseq; [apply wp_daemonize|]. intros [] s1 (Hi1 & Hd1 & Hl1).
  apply wp_bind. eapply wp_conseq; [by apply wp_write_pidfile|]. intros [] s2 (Hi2 & Hd2 & Hp2 & Hl2).
  do 7 (apply wp_bind, wp_call_any; intros ? ?). set (s3 := called _ _ _).
  apply wp_ret. unfold main_open. apply wp_bind.
  eapply wp_conseq; [apply (wp_open_devices argv 0)|].
  { unfold devs_open, s3, called. dcbn. by rewrite Hd2, Hd1, Hd. }
  intros [] s4 (Hi4 & Hf4 & Hd4). apply wp_bind.
  eapply wp_conseq; [apply wp_open_output|]. intros [] s5 (Hi5 & Hd5 & Ho5 & Hl5 & Hp5).
  apply wp_bind, wp_call_any. intros ? ?. repeat wp_step. unfold s3, started, idle, devs_open, called in *. dcbn. destruct_and!.
  rewrite Hd5, Hl5, Hp5, Hf4, Hl2.
  split_and!; try done; [congruence..|by intros ->].
Qed.
End proofs.
