(* ===== verification/DaemonTheorems.v ===== *)
(** What the daemon does, for the operating systems it may run on.

    The first part is about every operating system that satisfies the two or three
    laws named in the statements: start-up, the main loop, signals, statistics
    and the log.  The second part adds a serial line: the class [SerialFeed] says
    that FIONREAD and read() serve a queue of bytes per handle and that output
    succeeds; [sim_feed] is an instance.  Under it the bytes that the daemon writes
    are a function of the bits the devices send, in closed form. *)

From Stdlib Require Import ZArith Lia String SpecFloat.
From stdpp Require Import base tactics list numbers relations gmap.
From S2P Require Import Prelude Debias Amls Posix Daemon DaemonSpec DaemonProofs.

Local Open Scope Z_scope.

#[local] Opaque mix white_cells count_bytes.

(** * Closed form of the abstract pipeline *)

(** The first [k] pieces of [n] elements. *)
Definition pieces {A} (n k : nat) (l : list A) : list (list A) :=
  map (fun i => take n (drop (n * i) l)) (seq 0 k).

Definition full_buffers (w : list bool) : nat := (length w / whitened_capacity)%nat.

(** The bytes written for the whitened bits [w], and the bits left over. *)
Definition stream_out (w : list bool) : list Z :=
  concat (map mix (pieces whitened_capacity (full_buffers w) w)).

Definition stream_rest (w : list bool) : list bool := drop (whitened_capacity * full_buffers w) w.

(** The whitened bits of [k] full input buffers. *)
Definition whitened (k : nat) (b : list bool) : list bool := concat (map debias (pieces 512 k b)).

Lemma pieces_S {A} n k (l : list A) : pieces n (S k) l = pieces n k l ++ [take n (drop (n * k) l)].
Proof. unfold pieces. by rewrite seq_S, map_app. Qed.

Lemma pieces_app {A} n k (l l' : list A) : (n * k <= length l)%nat -> pieces n k (l ++ l') = pieces n k l.
Proof.
  intros H. apply map_ext_in. intros i [_ Hi]%in_seq.
  rewrite drop_app_le by nia. rewrite take_app_le; [done|]. rewrite length_drop. nia.
Qed.

Lemma pieces_head {A} n k (l : list A) : pieces n (S k) l = take n l :: pieces n k (drop n l).
Proof.
  unfold pieces. cbn [seq map]. rewrite Nat.mul_0_r, drop_0. f_equal.
  rewrite <- seq_shift, map_map. apply map_ext. intros i. rewrite drop_drop. do 2 f_equal. lia.
Qed.

Lemma length_pieces {A} n k (l : list A) : (n * k <= length l)%nat -> Forall (fun c => length c = n) (pieces n k l).
Proof.
  intros H. apply List.Forall_forall. intros c (i & <- & [_ Hi]%in_seq)%in_map_iff.
  rewrite length_take, length_drop. nia.
Qed.

Lemma full_buffers_snoc w x :
  (length (stream_rest w ++ [x]) = whitened_capacity /\ full_buffers (w ++ [x]) = S (full_buffers w)) \/
  (length (stream_rest w ++ [x]) <> whitened_capacity /\ full_buffers (w ++ [x]) = full_buffers w).
Proof.
  unfold stream_rest, full_buffers. rewrite !length_app, length_drop. cbn [length].
  set (C := whitened_capacity). assert (0 < C)%nat by (unfold C, whitened_capacity; lia). clearbody C.
  pose proof (Nat.div_mod_eq (length w) C). pose proof (Nat.mod_upper_bound (length w) C ltac:(lia)).
  destruct (decide (S (length w mod C) = C)) as [E|E]; [left|right].
  - split; [nia|]. symmetry. apply (Nat.div_unique _ _ _ 0); nia.
  - split; [nia|]. symmetry. apply (Nat.div_unique _ _ _ (length w mod C + 1)); nia.
Qed.

Lemma full_buffers_le w : (whitened_capacity * full_buffers w <= length w)%nat.
Proof. apply Nat.Div0.mul_div_le. Qed.

(** The abstract pipeline keeps its output and rest equal to the closed form. *)
Lemma stream_bit a w x :
  a_white a = stream_rest w -> a_out a = stream_out w ->
  a_white (abs_bit a x) = stream_rest (w ++ [x]) /\ a_out (abs_bit a x) = stream_out (w ++ [x]).
Proof.
  intros Hw Ho. unfold abs_bit. rewrite Hw, Ho. pose proof (full_buffers_le w).
  unfold stream_out, stream_rest in *.
  destruct (full_buffers_snoc w x) as [[E F]|[E F]]; unfold stream_rest in E; rewrite F.
  - rewrite decide_True by done. cbn [a_white a_out].
    assert (length (w ++ [x]) = whitened_capacity * S (full_buffers w))%nat as L.
    { rewrite length_app, length_drop in E. rewrite length_app. lia. }
    split; [symmetry; apply drop_ge; lia|].
    rewrite pieces_S, map_app, concat_app, pieces_app by done. cbn [map concat].
    rewrite app_nil_r, drop_app_le, take_ge by (rewrite ?E; lia). done.
  - rewrite decide_False by done. cbn [a_white a_out].
    by rewrite drop_app_le, pieces_app by done.
Qed.

Lemma stream_bits l : forall a w,
  a_white a = stream_rest w -> a_out a = stream_out w ->
  a_white (abs_bits a l) = stream_rest (w ++ l) /\ a_out (abs_bits a l) = stream_out (w ++ l).
Proof.
  induction l as [|x l IH]; intros a w Hw Ho; [by rewrite app_nil_r|]. rewrite abs_bits_cons.
  replace (w ++ x :: l) with ((w ++ [x]) ++ l) by (by rewrite <- app_assoc).
  by apply IH; apply stream_bit.
Qed.

Lemma abs_chunk_short a c :
  (length (a_in a ++ c) < 512)%nat -> abs_chunk a c = mk_abs (a_in a ++ c) (a_white a) (a_est a) (a_out a).
Proof. intros H. unfold abs_chunk. by rewrite decide_False by lia. Qed.

(** Four chunks are one input buffer. *)
Lemma stream_buffer a w c1 c2 c3 c4 :
  Forall (fun c => length c = 128%nat) [c1; c2; c3; c4] ->
  a_in a = [] -> a_white a = stream_rest w -> a_out a = stream_out w ->
  let a' := foldl abs_chunk a [c1; c2; c3; c4] in
  let w' := w ++ debias (c1 ++ c2 ++ c3 ++ c4) in
  a_in a' = [] /\ a_white a' = stream_rest w' /\ a_out a' = stream_out w'.
Proof.
  intros Hl Ha Hw Ho. rewrite !Forall_cons_iff in Hl. destruct Hl as (H1 & H2 & H3 & H4 & _).
  cbn [foldl]. rewrite (abs_chunk_short a) by (rewrite Ha; simpl; lia).
  rewrite (abs_chunk_short _ c2) by (cbn [a_in]; rewrite Ha, length_app; simpl; lia).
  rewrite (abs_chunk_short _ c3) by (cbn [a_in]; rewrite Ha, !length_app; simpl; lia).
  unfold abs_chunk at 1 2 3. cbn [a_in a_white a_est a_out]. rewrite Ha, app_nil_l, <- !app_assoc.
  rewrite decide_True by (rewrite !length_app; lia). cbn zeta.
  destruct (stream_bits (debias (c1 ++ c2 ++ c3 ++ c4)) (mk_abs (c1 ++ c2 ++ c3) (a_white a) (a_est a) (a_out a)) w)
    as [E1 E2]; [done..|]. cbn [a_in a_white a_out]. by rewrite E1, E2.
Qed.

Lemma take_drop_app4 (b : list bool) :
  take 128 b ++ take 128 (drop 128 b) ++ take 128 (drop 256 b) ++ take 128 (drop 384 b) = take 512 b.
Proof.
  change 512%nat with (128 + (128 + (128 + 128)))%nat. by rewrite <- !take_take_drop, !drop_drop.
Qed.

Lemma foldl_4 {A B} (f : A -> B -> A) a c1 c2 c3 c4 l :
  foldl f a (c1 :: c2 :: c3 :: c4 :: l) = foldl f (foldl f a [c1; c2; c3; c4]) l.
Proof. done. Qed.

Lemma stream_chunks k : forall b a w,
  length b = (512 * k)%nat -> a_in a = [] -> a_white a = stream_rest w -> a_out a = stream_out w ->
  let a' := foldl abs_chunk a (pieces 128 (4 * k) b) in
  a_in a' = [] /\ a_white a' = stream_rest (w ++ whitened k b) /\ a_out a' = stream_out (w ++ whitened k b).
Proof.
  induction k as [|k IH]; intros b a w Hb Ha Hw Ho; [simpl; by rewrite app_nil_r|].
  replace (4 * S k)%nat with (S (S (S (S (4 * k))))) by lia. rewrite !pieces_head, !drop_drop.
  cbn [Nat.add]. unfold whitened. rewrite pieces_head. cbn [map concat].
  rewrite foldl_4.
  destruct (stream_buffer a w (take 128 b) (take 128 (drop 128 b)) (take 128 (drop 256 b)) (take 128 (drop 384 b)))
    as (E1 & E2 & E3); [|done..|].
  { repeat constructor; rewrite length_take, ?length_drop; lia. }
  rewrite take_drop_app4 in E2, E3. rewrite app_assoc.
  apply (IH (drop 512 b)); [rewrite length_drop; lia|done..].
Qed.

(** Statistics are only asked for by the alarm. *)
Lemma test_ent_bits l : forall a, test_ent (a_est (abs_bits a l)) = test_ent (a_est a).
Proof.
  assert (forall n e, test_ent (count_bytes n e) = test_ent e) as Hc.
  { induction n as [|n IH]; intros e; [done|]. rewrite count_bytes_S. simpl. apply IH. }
  induction l as [|x l IH]; intros a; [done|]. rewrite abs_bits_cons, IH. unfold abs_bit.
  case_decide; cbn [a_est]; rewrite ?Hc; by destruct x.
Qed.

Lemma test_ent_chunk a c : test_ent (a_est (abs_chunk a c)) = test_ent (a_est a).
Proof. unfold abs_chunk. case_decide; [apply test_ent_bits|done]. Qed.

(** * Devices that feed a queue *)

(** The operating system as the daemon sees a serial line: bytes wait in a queue
    per handle, FIONREAD tells how many, read() takes them, nothing else does; the
    log and the output can be written. *)
Class SerialFeed {W : Type} (sys : syscall log_msg -> W -> sysret * W) : Type := {
  feed_view : Type;
  view_of : W -> feed_view;
  waiting : feed_view -> Z -> list Z;
  feed_log : log_writable sys;
  feed_reads : read_reports sys;
  feed_kept : forall c w, (match c with Read _ _ => false | _ => true end) = true ->
                          view_of (sys c w).2 = view_of w;
  feed_available : forall fd w,
    available (sys (Ioctl fd FIONREAD) w).1 = Z.of_nat (length (waiting (view_of w) fd));
  feed_read : forall fd w, (128 <= length (waiting (view_of w) fd))%nat ->
    ret (sys (Read fd 128) w).1 = 128 /\
    data (sys (Read fd 128) w).1 = take 128 (waiting (view_of w) fd) /\
    forall fd', waiting (view_of (sys (Read fd 128) w).2) fd' =
                if decide (fd' = fd) then drop 128 (waiting (view_of w) fd) else waiting (view_of w) fd';
  feed_output : forall cfg f v w, 0 <= ret (sys (output_call cfg f v) w).1 }.

(** The abstract effect of one round: a chunk from every device that has one. *)
Fixpoint abs_round (a : abs) (qs : list (list bool)) : abs * list (list bool) :=
  match qs with
  | [] => (a, [])
  | q :: qs' =>
      let full := (128 <=? length q)%nat in
      let r := abs_round (if full then abs_chunk a (take 128 q) else a) qs' in
      (r.1, (if full then drop 128 q else q) :: r.2)
  end.

Fixpoint abs_rounds (n : nat) (a : abs) (qs : list (list bool)) : abs * list (list bool) :=
  match n with
  | O => (a, qs)
  | S n' => let r := abs_round a qs in abs_rounds n' r.1 r.2
  end.

Lemma abs_round_app qs1 : forall a qs2,
  abs_round a (qs1 ++ qs2) =
  (let r1 := abs_round a qs1 in let r2 := abs_round r1.1 qs2 in (r2.1, r1.2 ++ r2.2)).
Proof. induction qs1 as [|q qs1 IH]; intros a qs2; cbn; [by destruct (abs_round a qs2)|]. by rewrite IH. Qed.

Lemma length_abs_round qs : forall a, length (abs_round a qs).2 = length qs.
Proof. induction qs as [|q qs IH]; intros a; simpl; [done|]. by rewrite IH. Qed.

Lemma test_ent_round qs : forall a, test_ent (a_est (abs_round a qs).1) = test_ent (a_est a).
Proof. induction qs as [|q qs IH]; intros a; [done|]. cbn. rewrite IH. case_match; [apply test_ent_chunk|done]. Qed.

Lemma abs_rounds_single k : forall a b,
  length b = (128 * k)%nat -> abs_rounds k a [b] = (foldl abs_chunk a (pieces 128 k b), [[]]).
Proof.
  induction k as [|k IH]; intros a b Hb; cbn [abs_rounds].
  - by destruct b; [|simpl in Hb; lia].
  - rewrite pieces_head. cbn [foldl abs_round]. rewrite (proj2 (Nat.leb_le _ _)) by lia.
    apply IH. rewrite length_drop. lia.
Qed.

Section feed.
Context {W : Type} (sys : syscall log_msg -> W -> sysret * W) `{HF : !SerialFeed sys}.
Context (cfg : config) (log2 : spec_float -> spec_float) (argv : list string) (log_fuel : nat).
Context (Hfuel : (0 < log_fuel)%nat).
Implicit Types (s : daemon W) (qs : list (list bool)).

Definition bits_waiting (w : W) (fd : Z) (q : list bool) : Prop :=
  waiting (view_of w) fd = map ascii_of_bit q.

(** The devices have the bits [qs] waiting. *)
Definition feeding s qs : Prop :=
  NoDup (entFileHandles (d_devs s)) /\ length argv = length qs /\
  length (deviceCounters (d_devs s)) = length argv /\
  Forall2 (bits_waiting (d_world s)) (entFileHandles (d_devs s)) qs.

Lemma ascii_bits q : Forall ascii_bit (map ascii_of_bit q).
Proof. apply List.Forall_forall. intros b (x & <- & _)%in_map_iff. destruct x; [right|left]; done. Qed.

Lemma ascii_of_bit_inj q q' : map ascii_of_bit q = map ascii_of_bit q' -> q = q'.
Proof.
  revert q'. induction q as [|x q IH]; intros [|y q'] E; try done. simpl in E. injection E as E1 E2.
  f_equal; [by destruct x, y|auto].
Qed.

(** One device of a round. *)
Lemma feed_device i fd q t0 a s :
  entFileHandles (d_devs s) !! i = Some fd -> bits_waiting (d_world s) fd q -> refines cfg t0 s a ->
  let full := (128 <=? length q)%nat in
  wp (read_device sys cfg argv log_fuel i)
     (fun _ s' => entFileHandles (d_devs s') = entFileHandles (d_devs s) /\
        length (deviceCounters (d_devs s')) = length (deviceCounters (d_devs s)) /\
        refines cfg t0 s' (if full then abs_chunk a (take 128 q) else a) /\
        bits_waiting (d_world s') fd (if full then drop 128 q else q) /\
        forall fd', fd' <> fd -> waiting (view_of (d_world s')) fd' = waiting (view_of (d_world s)) fd')
     (fun _ _ => False) s.
Proof.
  intros Hfd Hq Hr full.
  pose proof (feed_available fd (d_world s)) as Ha. pose proof (feed_kept (Ioctl fd FIONREAD) (d_world s) eq_refl) as Hk.
  unfold bits_waiting in *. rewrite Hq, length_map in Ha.
  eapply wp_mono; [apply (wp_read_device sys cfg argv log_fuel feed_log Hfuel feed_reads view_of feed_kept i fd t0 a s Hfd Hr)| |].
  - intros [] s' (Hf & He & Hv & H). unfold full. rewrite Ha in *.
    destruct (Z.leb_spec 128 (Z.of_nat (length q))) as [L|L].
    + rewrite (proj2 (Nat.leb_le _ _)) by lia.
      destruct (feed_read fd (sys (Ioctl fd FIONREAD) (d_world s)).2) as (_ & Hd & Hw);
        [rewrite Hk, Hq, length_map; lia|].
      destruct H as (c & Hc & _ & Hr' & Hdc). rewrite Hd, Hk, Hq in Hc.
      assert (c = take 128 q) as -> by (apply ascii_of_bit_inj; by rewrite <- Hc, firstn_map).
      rewrite Hv, Hdc, length_alter. split_and!; [done..| |].
      * by rewrite Hw, decide_True, Hk, Hq, skipn_map by done.
      * intros fd' Hne. by rewrite Hw, decide_False, Hk by done.
    + rewrite (proj2 (Nat.leb_gt _ _)) by lia. destruct H as [Hr' Hdc].
      rewrite Hv, Hk, Hdc. by split_and!.
  - intros c s' [L H]. rewrite Ha in L.
    destruct (feed_read fd (sys (Ioctl fd FIONREAD) (d_world s)).2) as (Hn & Hd & _);
      [rewrite Hk, Hq, length_map; lia|].
    destruct H as [[_ H]|[[_ H]|(_ & f & v & w & H)]]; [done| |pose proof (feed_output cfg f v w); lia].
    apply H. rewrite Hd, Hk, Hq, firstn_map. apply ascii_bits.
Qed.

(** The queues while a round is at device [j]. *)
Definition round_queues (j : nat) (a : abs) qs : list (list bool) := (abs_round a (take j qs)).2 ++ drop j qs.

Lemma round_at j a qs q :
  qs !! j = Some q ->
  let a1 := (abs_round a (take j qs)).1 in
  let full := (128 <=? length q)%nat in
  (abs_round a (take (S j) qs)).1 = (if full then abs_chunk a1 (take 128 q) else a1) /\
  round_queues (S j) a qs = <[j := if full then drop 128 q else q]> (round_queues j a qs).
Proof.
  intros Hq. pose proof (lookup_lt_Some _ _ _ Hq). unfold round_queues.
  rewrite (take_S_r _ _ q) by done. rewrite abs_round_app. cbn. split; [done|].
  rewrite (drop_S qs q j) by done.
  assert (j = length (abs_round a (take j qs)).2) as E by (rewrite length_abs_round, length_take; lia).
  rewrite insert_app_r_alt by lia. rewrite <- E, Nat.sub_diag. by rewrite <- app_assoc.
Qed.

Lemma feed_round t0 a s qs :
  feeding s qs -> refines cfg t0 s a -> test_ent (a_est a) = 0 ->
  wp (main_round sys cfg log2 argv log_fuel)
     (fun _ s' => feeding s' (abs_round a qs).2 /\ refines cfg t0 s' (abs_round a qs).1)
     (fun _ _ => False) s.
Proof.
  intros (Hnd & Hla & Hlc & Hqs) Hr Ht. pose proof (proj1 (proj2 (proj2 Hr))) as He.
  unfold main_round. apply wp_bind, wp_get_var. rewrite He, Ht. apply wp_bind, wp_ret, wp_bind.
  eapply wp_conseq; [apply (wp_for_range (fun j s' =>
    entFileHandles (d_devs s') = entFileHandles (d_devs s) /\
    length (deviceCounters (d_devs s')) = length argv /\
    refines cfg t0 s' (abs_round a (take j qs)).1 /\
    forall k fd q, entFileHandles (d_devs s) !! k = Some fd -> round_queues j a qs !! k = Some q ->
                   bits_waiting (d_world s') fd q))|].
  - split_and!; [done..|]. unfold round_queues. rewrite take_0, drop_0. intros k fd q H1 H2.
    by apply (Forall2_lookup_lr _ _ _ _ _ _ Hqs H1 H2).
  - intros j s1 Hj (He1 & Hl1 & Hr1 & Hw1).
    destruct (lookup_lt_is_Some_2 qs j) as [q Hq]; [lia|].
    destruct (Forall2_lookup_r _ _ _ _ _ Hqs Hq) as (fd & Hfd & _).
    assert (round_queues j a qs !! j = Some q) as Hqj.
    { unfold round_queues. rewrite lookup_app_r by (rewrite length_abs_round, length_take; lia).
      rewrite length_abs_round, length_take, lookup_drop, <- Hq. f_equal. lia. }
    destruct (round_at j a qs q Hq) as [-> ->].
    eapply wp_conseq; [apply (feed_device j fd q t0 (abs_round a (take j qs)).1 s1); [by rewrite He1|by eauto|done]|].
    intros [] s2 (He2 & Hl2 & Hr2 & Hw2 & Ho2). split_and!; [congruence..|done|].
    intros k fd' q' Hk Hq'. destruct (decide (k = j)) as [->|Hne].
    + rewrite list_lookup_insert_eq in Hq' by (by eapply lookup_lt_Some). by simplify_eq.
    + rewrite list_lookup_insert_ne in Hq' by done. unfold bits_waiting. rewrite Ho2; [by eapply Hw1|].
      intros ->. by apply Hne, (list.NoDup_lookup _ _ _ _ Hnd Hk Hfd).
  - intros [] s1 (He1 & Hl1 & Hr1 & Hw1). apply wp_bind, wp_call, wp_ret. simpl Nat.add in *.
    assert (round_queues (length argv) a qs = (abs_round a qs).2) as E.
    { unfold round_queues. by rewrite take_ge, drop_ge, app_nil_r by lia. }
    rewrite E in Hw1. rewrite take_ge in Hr1 by lia. split; [|destruct Hr1; split; [done|by apply refines_called]].
    unfold feeding, called. cbn. rewrite He1, length_abs_round. split_and!; [done..|].
    apply Forall2_same_length_lookup_2; [by rewrite length_abs_round, (Forall2_length _ _ _ Hqs)|].
    intros k fd q Hk Hq. unfold bits_waiting. rewrite feed_kept by done. by eapply Hw1.
Qed.

Lemma feed_rounds t0 n : forall a s qs,
  feeding s qs -> refines cfg t0 s a -> test_ent (a_est a) = 0 ->
  wp (main_loop sys cfg log2 argv log_fuel (replicate n Round))
     (fun _ s' => feeding s' (abs_rounds n a qs).2 /\ refines cfg t0 s' (abs_rounds n a qs).1)
     (fun _ _ => False) s.
Proof.
  induction n as [|n IH]; intros a s qs Hf Hr Ht; cbn [replicate main_loop abs_rounds]; [by apply wp_ret|].
  apply wp_bind. eapply wp_conseq; [by apply (feed_round t0 a s qs)|]. intros [] s1 [Hf1 Hr1].
  apply IH; [done..|]. by rewrite test_ent_round.
Qed.
End feed.

(** A state with the initial buffers implements the initial abstract state. *)
Lemma refines_init {W} cfg (s : daemon W) :
  d_in s = inbuf_init -> d_white s = white_init -> d_est s = estim_init ->
  refines cfg (d_trace s) s abs_init.
Proof.
  intros Hi Hw He. split; [|split_and!].
  - exists (replicate 512 (Some 0)). rewrite Hi. split_and!; [done..|]. exists 0%nat. split; [done|lia].
  - rewrite Hw. unfold white_init. rewrite white_zero. split_and!; [done..|]. unfold whitened_capacity. simpl. lia.
  - by rewrite He.
  - exists []. by rewrite app_nil_r.
Qed.

(** * A simulated operating system *)

(** Queues of bytes per handle, and the next handle that open() gives. *)
Record sim_world : Type := mk_sim { sim_queues : gmap Z (list Z); sim_next : Z }.

Definition sim_tty : termios := mk_termios 1280 5 3261 35387.

Definition sim_waiting (q : gmap Z (list Z)) (fd : Z) : list Z := map u8 (default [] (q !! fd)).

Definition sim_ok (n : Z) (d : list Z) : sysret := mk_sysret n 0 d sim_tty.

Definition sim_sys (c : syscall log_msg) (w : sim_world) : sysret * sim_world :=
  match c with
  | Open _ _ _ => (sim_ok (sim_next w) [], mk_sim (sim_queues w) (sim_next w + 1))
  | Getpid => (sim_ok 4242 [], w)
  | Ioctl fd FIONREAD => (sim_ok 0 [Z.of_nat (length (sim_waiting (sim_queues w) fd))], w)
  | Read fd n =>
      let d := take (Z.to_nat n) (sim_waiting (sim_queues w) fd) in
      (sim_ok (if n <? 0 then n else Z.of_nat (length d)) d,
       mk_sim (<[fd := drop (Z.to_nat n) (default [] (sim_queues w !! fd))]> (sim_queues w)) (sim_next w))
  | _ => (sim_ok 0 [], w)
  end.

#[export] Instance sim_feed : SerialFeed sim_sys.
Proof.
  refine {| view_of := sim_queues; waiting := sim_waiting |}.
  - intros fd pid m w. simpl. lia.
  - intros fd n w. cbn. rewrite length_take. split_and!.
    + destruct (Z.ltb_spec n 0); lia.
    + apply list.Forall_take. apply List.Forall_forall. intros b (x & <- & _)%in_map_iff. apply u8_is_byte.
    + destruct (Z.ltb_spec n 0); lia.
  - intros [] w H; try done. by destruct req.
  - done.
  - intros fd w H. cbn. change (Z.to_nat 128) with 128%nat. split_and!; [rewrite length_take; lia|done|].
    intros fd'. unfold sim_waiting. case_decide as E.
    + subst fd'. by rewrite lookup_insert_eq, skipn_map.
    + by rewrite lookup_insert_ne.
  - intros cfg f v w. unfold output_call. destruct (file_output cfg), (target cfg); simpl; lia.
Defined.

Lemma sim_pid : pid_bounded sim_sys.
Proof. intros w. simpl. lia. Qed.

Definition no_log2 : spec_float -> spec_float := fun _ => S754_nan.

(** The world before the daemon starts; the device [argv[1]] will have handle 5. *)
Definition sim_start (bits : list bool) : sim_world := mk_sim {[5 := map ascii_of_bit bits]} 3.

(** The state after the start-up with one device. *)
Definition sim_started (bits : list bool) : daemon sim_world :=
  (main_init sim_sys (mk_config true Linux) ["/dev/ttyACM0"%string] 1 (daemon_init (sim_start bits))).2.

Lemma sim_started_state bits :
  feeding sim_sys ["/dev/ttyACM0"%string] (sim_started bits) [bits] /\
  refines (mk_config true Linux) (d_trace (sim_started bits)) (sim_started bits) abs_init.
Proof.
  assert (d_devs (sim_started bits) = mk_devs [5] [(0, 0)]) as Hd by (by vm_compute).
  assert (d_world (sim_started bits) = mk_sim {[5 := map ascii_of_bit bits]} 7) as Hw by (by vm_compute).
  split.
  - unfold feeding, bits_waiting. rewrite Hd, Hw. split_and!; [|done..|].
    + apply NoDup_singleton.
    + apply Forall2_cons_2; [|by apply Forall2_nil_2]. cbn [view_of waiting sim_feed sim_queues].
      unfold sim_waiting. rewrite lookup_singleton_eq. cbn. rewrite map_map. apply map_ext. by intros [].
  - apply refines_init; by vm_compute.
Qed.

(** * The theorems *)

Lemma started_refines {W} (s s' : daemon W) cfg argv :
  started cfg argv s s' -> d_in s = inbuf_init -> d_white s = white_init -> d_est s = estim_init ->
  devs_ok argv s' /\ refines cfg (d_trace s') s' abs_init.
Proof.
  intros ((Hi & Hw & He) & (Hl & Hc & _) & _) Hi0 Hw0 He0. split.
  - split; [done|]. by rewrite Hc, length_replicate.
  - apply refines_init; congruence.
Qed.

(** Runs of main from its start. *)
Lemma main_run_ok {W} (sys : syscall log_msg -> W -> sysret * W) cfg log2 argv log_fuel evs w :
  (0 < log_fuel)%nat -> log_writable sys -> read_reports sys -> pid_bounded sys ->
  match main_run sys cfg log2 argv log_fuel evs (daemon_init w) with
  | (Done _, s) =>
      exists s1 a, main_init sys cfg argv log_fuel (daemon_init w) = (Done tt, s1) /\
        rtc (abs_step log2) abs_init a /\ refines cfg (d_trace s1) s a /\ devs_ok argv s
  | (Exit c, _) => startup_exit cfg c \/ loop_exit cfg c
  | (Crash _, _) => False
  end.
Proof.
  intros Hf Hl Hr Hp. unfold main_run, mbind, prog_bind.
  pose proof (wp_main_init sys cfg argv log_fuel Hl Hf (fun _ => tt) ltac:(done) (daemon_init w) Hp eq_refl) as H1.
  unfold wp in H1. destruct (main_init sys cfg argv log_fuel (daemon_init w)) as [[[]|c|f] s1]; [|by left|done].
  destruct (started_refines _ _ _ _ H1) as [Hd1 Hr1]; [done..|].
  pose proof (wp_main_loop sys cfg log2 argv log_fuel Hl Hf Hr (fun _ => tt) ltac:(done) (d_trace s1) evs abs_init s1) as H2.
  unfold wp in H2. destruct (main_loop sys cfg log2 argv log_fuel evs s1) as [[[]|c|f] s2];
    [|right; by apply H2|by apply H2].
  destruct H2 as (_ & Hd2 & a & Ha & Hr2); [done..|]. by exists s1, a.
Qed.



(** C4: end to end on one device.  When the device has sent 512 k bits as the
    characters '0' and '1', 4 k rounds of the main loop return, leave the queue
    empty, and write exactly the bytes of the closed form: the bits are debiased
    512 at a time, the results are concatenated, and each full 8192 bits give 512
    bytes, each the exclusive or of the two halves' bytes. *)
Theorem single_device_stream {W} (sys : syscall log_msg -> W -> sysret * W) `{!SerialFeed sys}
    cfg log2 path log_fuel (s : daemon W) b k :
  (0 < log_fuel)%nat -> length b = (512 * k)%nat ->
  feeding sys [path] s [b] -> refines cfg (d_trace s) s abs_init ->
  exists s' t, main_loop sys cfg log2 [path] log_fuel (replicate (4 * k) Round) s = (Done tt, s') /\
    d_trace s' = d_trace s ++ t /\
    outputs cfg (d_files s') t = stream_out (whitened k b) /\
    feeding sys [path] s' [[]].
Proof.
  intros Hf Hb Hfd Hr.
  destruct (wp_run _ _ _ _ (feed_rounds sys cfg log2 [path] log_fuel Hf (d_trace s) (4 * k) abs_init s [b] Hfd Hr eq_refl))
    as (o & s' & E & [([] & -> & Hfd' & _ & _ & _ & t & Ht & Ho)|(c & _ & [])]).
  exists s', t. assert (length b = (128 * (4 * k))%nat) as Hb' by (rewrite Hb; lia).
  rewrite (abs_rounds_single (4 * k) abs_init b Hb') in Hfd', Ho. cbn [fst snd] in *.
  destruct (stream_chunks k b abs_init [] Hb) as (_ & _ & Es); [done..|]. rewrite Es in Ho. done.
Qed.

(** Witness of C4: the simulated system after start-up with 512 waiting bits. *)
Lemma single_device_stream_witness :
  let b := replicate 512 true in
  exists s' t, main_loop sim_sys (mk_config true Linux) no_log2 ["/dev/ttyACM0"%string] 1
                 (replicate (4 * 1) Round) (sim_started b) = (Done tt, s') /\
    d_trace s' = d_trace (sim_started b) ++ t /\
    outputs (mk_config true Linux) (d_files s') t = stream_out (whitened 1 b) /\
    feeding sim_sys ["/dev/ttyACM0"%string] s' [[]].
Proof.
  intros b. apply single_device_stream; [lia|done|apply (sim_started_state b)..].
Defined.

(** C8: with any number of devices whose handles are distinct, [n] rounds of the
    main loop return and take, in every round and in the order of the devices, one
    128-bit chunk from each device that has one waiting; the abstract pipeline
    processes these chunks in this order, and what is not taken stays queued. *)
Theorem rounds_serve_devices {W} (sys : syscall log_msg -> W -> sysret * W) `{!SerialFeed sys}
    cfg log2 argv log_fuel t0 a (s : daemon W) qs n :
  (0 < log_fuel)%nat -> feeding sys argv s qs -> refines cfg t0 s a -> test_ent (a_est a) = 0 ->
  exists s', main_loop sys cfg log2 argv log_fuel (replicate n Round) s = (Done tt, s') /\
    feeding sys argv s' (abs_rounds n a qs).2 /\ refines cfg t0 s' (abs_rounds n a qs).1.
Proof.
  intros Hf Hq Hr Ht.
  destruct (wp_run _ _ _ _ (feed_rounds sys cfg log2 argv log_fuel Hf t0 n a s qs Hq Hr Ht))
    as (o & s' & E & [([] & -> & H)|(c & _ & [])]). eauto.
Qed.

(** Witness of C8. *)
Lemma rounds_serve_devices_witness :
  let b := replicate 200 false in
  exists s', main_loop sim_sys (mk_config true Linux) no_log2 ["/dev/ttyACM0"%string] 1
               (replicate 2 Round) (sim_started b) = (Done tt, s') /\
    feeding sim_sys ["/dev/ttyACM0"%string] s' (abs_rounds 2 abs_init [b]).2 /\
    refines (mk_config true Linux) (d_trace (sim_started b)) s' (abs_rounds 2 abs_init [b]).1.
Proof. intros b. apply rounds_serve_devices; [lia|apply (sim_started_state b)..|done]. Defined.

(** C6: reading one device, for every operating system whose log can be written
    and whose read() reports what it stored.  If FIONREAD reports fewer than 128
    bytes nothing is read; otherwise the 128 characters read are '0' or '1', they
    are counted for this device, and the pipeline takes them as one chunk.  The
    program exits only for a reason: -9 for a read of another length, -11 for a
    character that is not a bit, or the code of the output that failed. *)
Theorem read_device_correct {W} (sys : syscall log_msg -> W -> sysret * W) cfg argv log_fuel i fd t0 a (s : daemon W) :
  (0 < log_fuel)%nat -> log_writable sys -> read_reports sys ->
  entFileHandles (d_devs s) !! i = Some fd -> refines cfg t0 s a ->
  let q := sys (Ioctl fd FIONREAD) (d_world s) in
  let r := sys (Read fd 128) q.2 in
  match read_device sys cfg argv log_fuel i s with
  | (Done _, s') =>
      if 128 <=? available q.1 then
        exists c, data r.1 = map ascii_of_bit c /\ length c = 128%nat /\
          refines cfg t0 s' (abs_chunk a c) /\
          deviceCounters (d_devs s') = alter (fun zo => foldl tally zo c) i (deviceCounters (d_devs s))
      else refines cfg t0 s' a /\ deviceCounters (d_devs s') = deviceCounters (d_devs s)
  | (Exit c, _) => 128 <= available q.1 /\ read_exit sys cfg r.1 c
  | (Crash _, _) => False
  end.
Proof.
  intros Hf Hl Hr Hfd Href q r.
  pose proof (wp_read_device sys cfg argv log_fuel Hl Hf Hr (fun _ => tt) ltac:(done) i fd t0 a s Hfd Href) as H.
  unfold wp in H. destruct (read_device _ _ _ _ _ _) as [[] s']; [|exact H|done].
  by destruct H as (_ & _ & _ & H).
Qed.

(** Witness of C6. *)
Lemma read_device_correct_witness :
  let s := sim_started (replicate 130 true) in
  let q := sim_sys (Ioctl 5 FIONREAD) (d_world s) in
  let r := sim_sys (Read 5 128) q.2 in
  match read_device sim_sys (mk_config true Linux) ["/dev/ttyACM0"%string] 1 0 s with
  | (Done _, s') =>
      if 128 <=? available q.1 then
        exists c, data r.1 = map ascii_of_bit c /\ length c = 128%nat /\
          refines (mk_config true Linux) (d_trace s) s' (abs_chunk abs_init c) /\
          deviceCounters (d_devs s') = alter (fun zo => foldl tally zo c) 0%nat (deviceCounters (d_devs s))
      else refines (mk_config true Linux) (d_trace s) s' abs_init /\
           deviceCounters (d_devs s') = deviceCounters (d_devs s)
  | (Exit c, _) => 128 <= available q.1 /\ read_exit sim_sys (mk_config true Linux) r.1 c
  | (Crash _, _) => False
  end.
Proof.
  apply (read_device_correct sim_sys (mk_config true Linux) ["/dev/ttyACM0"%string] 1 0 5);
    [lia|apply feed_log|apply feed_reads|by vm_compute|apply (sim_started_state (replicate 130 true))].
Defined.

(** C7: the start-up, for every operating system with a writable log and pids of
    at most eight digits.  It never overruns the 10-byte pid string.  If it
    returns, every device was opened in order with counters at zero, the log, pid
    and output handles are open, and the buffers and statistics are as initialised;
    otherwise it exits with a documented code. *)
Theorem startup_correct {W} (sys : syscall log_msg -> W -> sysret * W) cfg argv log_fuel w :
  (0 < log_fuel)%nat -> log_writable sys -> pid_bounded sys ->
  match main_init sys cfg argv log_fuel (daemon_init w) with
  | (Done _, s) => started cfg argv (daemon_init w) s
  | (Exit c, _) => startup_exit cfg c
  | (Crash _, _) => False
  end.
Proof.
  intros Hf Hl Hp.
  pose proof (wp_main_init sys cfg argv log_fuel Hl Hf (fun _ => tt) ltac:(done) (daemon_init w) Hp eq_refl) as H.
  unfold wp in H. by destruct (main_init _ _ _ _ _) as [[] s'].
Qed.

(** Witness of C7. *)
Lemma startup_correct_witness :
  match main_init sim_sys (mk_config false Apple) ["/dev/cu.usbmodem1"; "/dev/cu.usbmodem2"]%string 1
          (daemon_init (sim_start [])) with
  | (Done _, s) => started (mk_config false Apple) ["/dev/cu.usbmodem1"; "/dev/cu.usbmodem2"]%string
                           (daemon_init (sim_start [])) s
  | (Exit c, _) => startup_exit (mk_config false Apple) c
  | (Crash _, _) => False
  end.
Proof. apply startup_correct; [lia|apply feed_log|apply sim_pid]. Defined.

(** The periodic statistics.  They leave the pipeline (pending bits, whitened
    bits, output) as it is, store the average and the entropy estimate of the
    counts, and reset the flag, the counts and all per-device counters; the only
    exit is -20, when the kernel's entropy count cannot be read. *)
Theorem statistics_correct {W} (sys : syscall log_msg -> W -> sysret * W) cfg log2 argv log_fuel t0 a (s : daemon W) :
  (0 < log_fuel)%nat -> log_writable sys -> devs_ok argv s -> refines cfg t0 s a ->
  match statistics sys cfg log2 argv log_fuel s with
  | (Done _, s') =>
      deviceCounters (d_devs s') = replicate (length argv) (0, 0) /\
      refines cfg t0 s' (with_est a (estim_reset
        (float_average (num_ones (a_est a)) (s32 (num_ones (a_est a) + num_zeros (a_est a))))
        (shannon_estimate log2 (num_zeros (a_est a)) (num_ones (a_est a)))))
  | (Exit c, _) => c = -20
  | (Crash _, _) => False
  end.
Proof.
  intros Hf Hl Hd Hr.
  pose proof (wp_statistics sys cfg log2 argv log_fuel Hl Hf (fun _ => tt) ltac:(done) t0 a s Hd Hr) as H.
  unfold wp in H. destruct (statistics _ _ _ _ _ _) as [[] s']; [|done..]. by destruct H as (_ & _ & _ & H).
Qed.

(** An instance. *)
Lemma statistics_correct_witness :
  let s := sim_started [] in
  match statistics sim_sys (mk_config true Linux) no_log2 ["/dev/ttyACM0"%string] 1 s with
  | (Done _, s') =>
      deviceCounters (d_devs s') = replicate 1 (0, 0) /\
      refines (mk_config true Linux) (d_trace s) s' (with_est abs_init (estim_reset
        (float_average 0 (s32 (0 + 0))) (shannon_estimate no_log2 0 0)))
  | (Exit c, _) => c = -20
  | (Crash _, _) => False
  end.
Proof.
  intros s.
  apply (statistics_correct sim_sys (mk_config true Linux) no_log2 ["/dev/ttyACM0"%string] 1 (d_trace s) abs_init s);
    [lia|apply feed_log|by vm_compute|apply (sim_started_state [])].
Defined.

(** C40: if writing the log fails every time, log_message never returns: for no
    number of nested calls does it come back, although each failed write is meant
    to be followed by exit code -12. *)
Theorem log_message_diverges {W} (sys : syscall log_msg -> W -> sysret * W) cfg n m (s : daemon W) :
  (forall fd pid msg w, ret (sys (WriteLog fd pid msg) w).1 < 0) ->
  (log_message sys cfg n m s).1 = Crash OutOfFuel.
Proof.
  intros H. unfold log_message. revert m s. induction n as [|n IH]; intros m s; [done|]. cbn [log_message_rec].
  unfold call, get_var, call_now, gets, deliver, no_signals, mret, prog_ret, mbind, prog_bind. destruct (sys Getpid (d_world s)) as [pid w1]. cbn.
  specialize (H (logFileHandle (d_files s)) (ret pid) m w1).
  destruct (sys (WriteLog _ _ _) w1) as [r w2]. cbn in H. rewrite (proj2 (Z.ltb_lt _ _)) by done.
  match goal with |- context [log_message_rec sys cfg n ?m' ?s'] => specialize (IH m' s');
    destruct (log_message_rec sys cfg n m' s') as [o s3] end. cbn in IH. by subst o.
Qed.

(** Witness of C40: a system on which every write to the log fails. *)
Lemma log_message_diverges_witness :
  (log_message (fun c w => (mk_sysret (-1) 28 [] sim_tty, w)) (mk_config true Linux) 7 MStarted
     (daemon_init tt)).1 = Crash OutOfFuel.
Proof. apply log_message_diverges. intros. simpl. lia. Defined.

Lemma close_if_open_run {W} (sys : syscall log_msg -> W -> sysret * W) fd (s : daemon W) :
  exists s', close_if_open sys fd s = (Done tt, s') /\ d_files s' = d_files s /\
    d_trace s' = d_trace s ++ map Close (List.filter (Z.ltb 0) [fd]).
Proof.
  unfold close_if_open, when. simpl. destruct (0 <? fd).
  - unfold call, call_now, mbind, prog_bind. cbn [deliver no_signals mret prog_ret]. destruct (sys _ _) as [r w']. by eexists.
  - exists s. by rewrite app_nil_r.
Qed.

(** exit_cleanup makes no call but the close() of the handles that are open. *)
Lemma exit_cleanup_run {W A} (sys : syscall log_msg -> W -> sysret * W) cfg v (s : daemon W) :
  exists s', exit_cleanup (A := A) sys cfg v s = (Exit v, s') /\
    d_trace s' = d_trace s ++ map Close (List.filter (Z.ltb 0)
      [pidFileHandle (d_files s); logFileHandle (d_files s); output_handle cfg (d_files s)]).
Proof.
  unfold exit_cleanup, mbind, prog_bind, exits. rewrite get_var_run.
  destruct (close_if_open_run sys (pidFileHandle (d_files s)) s) as (s1 & -> & Hf1 & Ht1).
  destruct (close_if_open_run sys (logFileHandle (d_files s)) s1) as (s2 & -> & Hf2 & Ht2).
  destruct (close_if_open_run sys (output_handle cfg (d_files s)) s2) as (s3 & E & Hf3 & Ht3).
  exists s3. unfold output_handle in *. destruct (file_output cfg); rewrite E; (split; [done|]);
    rewrite Ht3, Ht2, Ht1, <- !app_assoc, <- !map_app; cbn [List.filter];
    by repeat match goal with |- context [0 <? ?x] => destruct (0 <? x) end.
Qed.

(** SIGINT and SIGTERM end the daemon with exit code 0 after logging it and
    closing, in this order, the pid file, the log file and the output if they are
    open; no other call is made. *)
Theorem sigterm_exits_cleanly {W} (sys : syscall log_msg -> W -> sysret * W) cfg log_fuel sig (s : daemon W) :
  (0 < log_fuel)%nat -> log_writable sys -> sig = SIGINT \/ sig = SIGTERM ->
  exists s' pid, signal_handler sys cfg log_fuel sig s = (Exit 0, s') /\
    d_trace s' = d_trace s ++ [Signal sig; Getpid; WriteLog (logFileHandle (d_files s)) pid MSigTerm] ++
      map Close (List.filter (Z.ltb 0)
        [pidFileHandle (d_files s); logFileHandle (d_files s); output_handle cfg (d_files s)]).
Proof.
  intros Hf Hl Hsig. unfold signal_handler.
  assert ((sig =? SIGALRM) = false /\ (sig =? SIGHUP) = false /\ (sig =? SIGINT) || (sig =? SIGTERM) = true)
    as (-> & -> & ->) by (by destruct Hsig as [-> | ->]).
  destruct log_fuel as [|n]; [lia|]. unfold log_message. cbn [log_message_rec].
  unfold mbind, prog_bind. rewrite !call_run, get_var_run, call_run. cbn [called d_files d_world].
  rewrite (proj2 (Z.ltb_ge _ _)) by apply Hl. cbn [mret prog_ret].
  match goal with |- context [exit_cleanup sys cfg 0 ?s1] =>
    destruct (exit_cleanup_run (A := unit) sys cfg 0 s1) as (s' & -> & Ht) end.
  exists s'. eexists. split; [done|]. rewrite Ht. cbn [d_trace d_files called]. by rewrite <- !app_assoc.
Qed.

(** An instance: SIGTERM to the started daemon closes handles 4, 3 and 6. *)
Lemma sigterm_exits_cleanly_witness :
  let s := sim_started [] in
  exists s' pid, signal_handler sim_sys (mk_config true Linux) 1 SIGTERM s = (Exit 0, s') /\
    d_trace s' = d_trace s ++ [Signal SIGTERM; Getpid; WriteLog (logFileHandle (d_files s)) pid MSigTerm] ++
      map Close (List.filter (Z.ltb 0)
        [pidFileHandle (d_files s); logFileHandle (d_files s); output_handle (mk_config true Linux) (d_files s)]).
Proof. intros s. apply sigterm_exits_cleanly; [lia|apply feed_log|by right]. Defined.

Lemma zero_share n : 0 < n <= 4096 -> double_share 0 (s32 n) = S754_zero false.
Proof.
  intros Hn.
  assert (forallb (fun n => match double_share 0 (s32 n) with S754_zero false => true | _ => false end)
                  (seqZ 1 4096) = true) as H by (by vm_compute).
  rewrite forallb_forall in H. specialize (H n). rewrite <- list_elem_of_In, elem_of_seqZ in H.
  specialize (H ltac:(lia)). by destruct (double_share 0 (s32 n)) as [[]| | |].
Qed.

Lemma subtract_term_zero log2 est :
  (forall sg, log2 (S754_zero sg) = S754_infinity true) -> subtract_term log2 est (S754_zero false) = S754_nan.
Proof. intros H. unfold subtract_term. rewrite H. by destruct (to_format 53 1024 est) as [[]|[]| |[]]. Qed.

(** The logged estimates without bits.  If no bit was produced since the last
    report, average and entropy estimate are not numbers, whatever log2 is.  If
    only one of the two values was seen (up to 4096 times), the entropy estimate is
    not a number for every log2 that maps zero to minus infinity, as libm's does. *)
Theorem estimates_not_numbers log2 n :
  (forall sg, log2 (S754_zero sg) = S754_infinity true) -> 0 < n <= 4096 ->
  float_average 0 (s32 (0 + 0)) = S754_nan /\ shannon_estimate log2 0 0 = S754_nan /\
  shannon_estimate log2 0 n = S754_nan /\ shannon_estimate log2 n 0 = S754_nan.
Proof.
  intros Hlog Hn. split; [done|]. split; [done|].
  unfold shannon_estimate. rewrite (Z.add_0_l n), (Z.add_0_r n), (zero_share n Hn).
  by rewrite !subtract_term_zero by done.
Qed.

(** An instance: 37 equal bits, with a log2 that is right at zero. *)
Lemma estimates_not_numbers_witness :
  let log2 := fun x => match x with S754_zero _ => S754_infinity true | _ => S754_zero false end in
  float_average 0 (s32 (0 + 0)) = S754_nan /\ shannon_estimate log2 0 0 = S754_nan /\
  shannon_estimate log2 0 37 = S754_nan /\ shannon_estimate log2 37 0 = S754_nan.
Proof. intros log2. apply estimates_not_numbers; [done|lia]. Defined.

(** A property of a bit index and a bit, by cases over the bits of a flag word. *)
Lemma flag_cases (P : Z -> bool -> Prop) i x :
  Forall (fun i => P i true /\ P i false) (seqZ 0 32) -> (i < 0 \/ 32 <= i -> P i x) -> P i x.
Proof.
  intros H Hout. destruct (decide (0 <= i < 32)) as [Hi|Hi]; [|apply Hout; lia].
  rewrite List.Forall_forall in H. specialize (H i). rewrite <- list_elem_of_In, elem_of_seqZ in H.
  destruct (H ltac:(lia)). by destruct x.
Qed.

Lemma mask_outside m i : 0 <= m < 2 ^ 32 -> i < 0 \/ 32 <= i -> Z.testbit m i = false.
Proof.
  intros Hm [Hi|Hi]; [by apply Z.testbit_neg_r|]. rewrite <- (Z.mod_small m (2 ^ 32)) by done.
  by apply Z.mod_pow2_bits_high.
Qed.

(** The attributes set on a serial device.  Whatever they were, the device is
    set to raw 8N1: local and output modes are cleared, character size is 8 bits,
    the receiver is enabled and modem lines are ignored, parity, second stop bit
    and hardware flow control are off, breaks are not ignored and software flow
    control is off; every other input and control flag keeps its value. *)
Theorem serial_attrs_raw t i :
  c_lflag (serial_attrs t) = 0 /\ c_oflag (serial_attrs t) = 0 /\
  Z.testbit (c_cflag (serial_attrs t)) i =
    (if bool_decide (i ∈ [4; 5; 7; 11]) then true
     else if bool_decide (i ∈ [6; 8; 9; 31]) then false else Z.testbit (c_cflag t) i) /\
  Z.testbit (c_iflag (serial_attrs t)) i =
    (if bool_decide (i ∈ [0; 10; 11; 12]) then false else Z.testbit (c_iflag t) i).
Proof.
  split_and!; [done..| |]; cbn [serial_attrs c_cflag c_iflag];
    rewrite ?Z.ldiff_spec, ?Z.lor_spec, ?Z.ldiff_spec, ?Z.lor_spec, ?Z.ldiff_spec;
    [generalize (Z.testbit (c_cflag t) i)|generalize (Z.testbit (c_iflag t) i)]; intros x; pattern i, x;
    (apply flag_cases; [vm_compute; by repeat constructor|]);
    intros Ho; rewrite !mask_outside by (simpl; lia);
    rewrite !bool_decide_eq_false_2 by (rewrite !not_elem_of_cons; repeat split; try lia; apply not_elem_of_nil);
    by rewrite ?andb_true_r, ?orb_false_r, ?andb_true_r.
Qed.
