(* ===== verification/DaemonInvariant.v ===== *)
(** An invariant of the daemon's global state.

    [reachable] are the states in which the main loop starts a round: those after a
    start-up that returned, and those after a round or a signal handler that
    returned.  [daemon_ok] is the type of the global variables there: array lengths,
    cursors, the bits that are set in the partly filled byte, the counters. *)

From Stdlib Require Import ZArith Lia String SpecFloat.
From stdpp Require Import base tactics list numbers relations gmap.
From S2P Require Import Prelude Debias Amls Posix Daemon DaemonSpec DaemonProofs DaemonTheorems.

Local Open Scope Z_scope.

#[local] Opaque mix white_cells count_bytes.

(** * The invariant *)

(** buf holds [buf_pos] bits, a whole number of chunks, and has room for one more. *)
Record inbuf_ok (b : inbuf) : Prop := {
  buf_length : length (buf b) = 512%nat;
  buf_chunks : exists k, buf_pos b = (128 * k)%nat /\ (k < 4)%nat;
  buf_bits : forall j, (j < buf_pos b)%nat -> load (buf b) j = Ok 0 \/ load (buf b) j = Ok 1 }.

(** buf_whitened holds bytes; the byte at the cursor has no bit from
    buf_whitened_bit on, and the bytes after it are zero, so that bits can be added
    with an or. *)
Record white_typed (w : white) : Prop := {
  whitened_length : length (buf_whitened w) = 1024%nat;
  whitened_cursor : (buf_whitened_pos w < 1024)%nat;
  whitened_bit : 0 <= buf_whitened_bit w < 8;
  whitened_bytes : forall j, (j < 1024)%nat -> exists v, load (buf_whitened w) j = Ok v /\ is_byte v;
  whitened_free : exists v, load (buf_whitened w) (buf_whitened_pos w) = Ok v /\ v < 2 ^ buf_whitened_bit w;
  whitened_zero : forall j, (buf_whitened_pos w < j < 1024)%nat -> load (buf_whitened w) j = Ok 0 }.

(** The statistics are ints, the flag is a truth value, and ent_count grows by
    whole buffers. *)
Record estim_ok (e : estim) : Prop := {
  flag_bool : test_ent e = 0 \/ test_ent e = 1;
  ones_int : - 2 ^ 31 <= num_ones e < 2 ^ 31;
  zeros_int : - 2 ^ 31 <= num_zeros e < 2 ^ 31;
  count_buffers : ent_count e mod 512 = 0 }.

Record daemon_ok {W} (argv : list string) (s : daemon W) : Prop := {
  ok_in : inbuf_ok (d_in s);
  ok_white : white_typed (d_white s);
  ok_est : estim_ok (d_est s);
  ok_devs : devs_ok argv s }.

(** * The collected bits *)

Lemma bits_up_bound p : (length p <= 8)%nat -> bits_up 0 p < 2 ^ Z.of_nat (length p).
Proof.
  intros Hp.
  assert (forallb (fun n => forallb (fun p => bits_up 0 p <? 2 ^ Z.of_nat n) (all_bits n)) (seq 0 9) = true) as H
    by (by vm_compute).
  rewrite forallb_forall in H. specialize (H (length p) ltac:(apply in_seq; lia)). rewrite forallb_forall in H.
  specialize (H p (proj1 (list_elem_of_In _ _) (proj2 (elem_of_all_bits _ _) eq_refl))). by apply Z.ltb_lt.
Qed.

Lemma byte_at_cursor q : byte_at q (length q / 8) < 2 ^ Z.of_nat (length q mod 8).
Proof.
  pose proof (Nat.div_mod_eq (length q) 8). pose proof (Nat.mod_upper_bound (length q) 8 ltac:(lia)).
  unfold byte_at. rewrite take_ge by (rewrite length_drop; lia).
  replace (length q mod 8)%nat with (length (drop (8 * (length q / 8)) q)) by (rewrite length_drop; lia).
  apply bits_up_bound. rewrite length_drop. lia.
Qed.

Lemma byte_at_beyond q k : (length q <= 8 * k)%nat -> byte_at q k = 0.
Proof. intros Hk. unfold byte_at. by rewrite drop_ge. Qed.

Lemma white_ok_typed w q : white_ok w q -> white_typed w.
Proof.
  intros (Hb & Hp & Hbit & Hq). unfold whitened_capacity in Hq.
  pose proof (Nat.div_mod_eq (length q) 8). pose proof (Nat.mod_upper_bound (length q) 8 ltac:(lia)).
  assert (length q / 8 < 1024)%nat by (apply Nat.Div0.div_lt_upper_bound; lia).
  split; rewrite ?Hb, ?Hp, ?Hbit; try lia.
  - apply length_white_cells.
  - intros j Hj. rewrite load_white by done. eexists. split; [done|]. apply byte_at_byte.
  - rewrite load_white by done. eexists. split; [done|]. apply byte_at_cursor.
  - intros j Hj. rewrite load_white, byte_at_beyond by lia. done.
Qed.

(** The input buffer of a refined state. *)
Lemma in_ok_typed b p : in_ok b p -> inbuf_ok b.
Proof.
  intros (rest & Hb & Hl & Hp & k & Hk & Hk4). split; [done|exists k; by rewrite Hp|].
  intros j Hj. rewrite Hp in Hj. unfold load, bit_cells in *.
  destruct (lookup_lt_is_Some_2 p j Hj) as [x Hx].
  rewrite Hb, lookup_app_l by (by rewrite length_map). rewrite list_lookup_fmap, Hx. destruct x; [by right|by left].
Qed.

(** * The statistics *)

Lemma wraps_range w z : 0 < w -> - 2 ^ (w - 1) <= wraps w z < 2 ^ (w - 1).
Proof.
  intros Hw. unfold wraps. pose proof (Z.mod_pos_bound (z + 2 ^ (w - 1)) (2 ^ w) ltac:(lia)).
  assert (2 ^ w = 2 * 2 ^ (w - 1)) by (rewrite <- Z.pow_succ_r by lia; f_equal; lia). lia.
Qed.

Lemma s32_mod512 z : s32 z mod 512 = z mod 512.
Proof.
  unfold wraps. change (2 ^ (32 - 1)) with 2147483648. change (2 ^ 32) with 4294967296.
  pose proof (Z.div_mod (z + 2147483648) 4294967296 ltac:(lia)) as E.
  replace ((z + 2147483648) mod 4294967296 - 2147483648)
    with (z + (- ((z + 2147483648) / 4294967296) * 8388608) * 512) by lia.
  apply Z.mod_add. lia.
Qed.

Lemma count_bytes_ok n e :
  test_ent (count_bytes n e) = test_ent e /\ num_ones (count_bytes n e) = num_ones e /\
  num_zeros (count_bytes n e) = num_zeros e /\
  ent_count (count_bytes n e) mod 512 = (ent_count e + Z.of_nat n) mod 512.
Proof.
  induction n as [|n (H1 & H2 & H3 & H4)]; [by rewrite Z.add_0_r|]. rewrite count_bytes_S. cbn.
  split_and!; [done..|]. rewrite s32_mod512, Zplus_mod, H4, <- Zplus_mod. f_equal. lia.
Qed.

Lemma estim_ok_bit z e : estim_ok e -> estim_ok (count_bit z e).
Proof. intros []. unfold count_bit. case_match; split; cbn; auto; apply (wraps_range 32); lia. Qed.

Lemma estim_ok_bytes e : estim_ok e -> estim_ok (count_bytes 512 e).
Proof.
  intros [H1 H2 H3 H4]. destruct (count_bytes_ok 512 e) as (E1 & E2 & E3 & E4).
  split; rewrite ?E1, ?E2, ?E3; auto. rewrite E4. change (Z.of_nat 512) with (1 * 512). by rewrite Z.mod_add.
Qed.
#[local] Hint Resolve estim_ok_bit estim_ok_bytes : core.

Lemma estim_ok_bits l : forall a, estim_ok (a_est a) -> estim_ok (a_est (abs_bits a l)).
Proof.
  induction l as [|x l IH]; intros a Ha; [done|]. rewrite abs_bits_cons. apply IH. unfold abs_bit.
  case_decide; cbn; auto.
Qed.

Lemma estim_ok_step log2 a a' : abs_step log2 a a' -> estim_ok (a_est a) -> estim_ok (a_est a').
Proof.
  intros [? c Hc|?|? Ht] Ha; cbn.
  - unfold abs_chunk. case_decide; cbn; [by apply estim_ok_bits|done].
  - destruct Ha. split; cbn; auto.
  - split; cbn; auto; lia.
Qed.

Lemma estim_ok_steps log2 a : rtc (abs_step log2) abs_init a -> estim_ok (a_est a).
Proof.
  intros Hr. assert (estim_ok (a_est abs_init)) as H0 by (split; cbn; auto; lia).
  revert H0. induction Hr as [|a1 a2 a3 H1 _ IH]; [done|]. intros H2. by eapply IH, estim_ok_step.
Qed.

Lemma refines_ok {W} cfg log2 argv t0 (s : daemon W) a :
  rtc (abs_step log2) abs_init a -> refines cfg t0 s a -> devs_ok argv s -> daemon_ok argv s.
Proof.
  intros Ha (Hi & Hw & He & _) Hd. split; [by eapply in_ok_typed|by eapply white_ok_typed| |done].
  rewrite He. by eapply estim_ok_steps.
Qed.

(** * Reachable states *)

Section reachable.
Context {W : Type} (sys : syscall log_msg -> W -> sysret * W).
Context (cfg : config) (log2 : spec_float -> spec_float) (argv : list string) (log_fuel : nat).

Inductive reachable (w : W) : daemon W -> Prop :=
  | reach_start s : main_init sys cfg argv log_fuel (daemon_init w) = (Done tt, s) -> reachable w s
  | reach_event ev s s' : reachable w s -> main_event sys cfg log2 argv log_fuel ev s = (Done tt, s') -> reachable w s'.

Lemma reach_first w : (main_init sys cfg argv log_fuel (daemon_init w)).1 = Done tt ->
  reachable w (main_init sys cfg argv log_fuel (daemon_init w)).2.
Proof. intros E. apply reach_start. rewrite <- E. apply surjective_pairing. Qed.

Lemma reach_next w ev s : reachable w s -> (main_event sys cfg log2 argv log_fuel ev s).1 = Done tt ->
  reachable w (main_event sys cfg log2 argv log_fuel ev s).2.
Proof. intros Hr E. eapply reach_event; [done|]. rewrite <- E. apply surjective_pairing. Qed.

Context (Hfuel : (0 < log_fuel)%nat) (Hlog : log_writable sys) (Hread : read_reports sys) (Hpid : pid_bounded sys).

Lemma reachable_refines w s : reachable w s ->
  devs_ok argv s /\ exists t0 a, rtc (abs_step log2) abs_init a /\ refines cfg t0 s a.
Proof.
  induction 1 as [s E|ev s s' _ (Hd & t0 & a & Ha & Hr) E].
  - pose proof (wp_main_init sys cfg argv log_fuel Hlog Hfuel (fun _ => tt) ltac:(done) (daemon_init w) Hpid eq_refl) as H1.
    unfold wp in H1. rewrite E in H1. destruct (started_refines _ _ _ _ H1) as [Hd Hr]; [done..|].
    split; [done|]. by exists (d_trace s), abs_init.
  - assert (wp (main_event sys cfg log2 argv log_fuel ev) (fun _ => event_post cfg log2 argv t0 a s) (fun c _ => loop_exit cfg c) s) as H1.
    { destruct ev.
      - exact (wp_main_round sys cfg log2 argv log_fuel Hlog Hfuel Hread (fun _ => tt) (fun _ _ _ => eq_refl) t0 a s Hd Hr).
      - exact (wp_signal_handler sys cfg log2 argv log_fuel Hlog Hfuel (fun _ => tt) (fun _ _ _ => eq_refl) sig t0 a s Hd Hr). }
    unfold wp in H1. rewrite E in H1. destruct H1 as (_ & Hd' & a' & Ha' & Hr').
    split; [done|]. exists t0, a'. split; [by etrans|done].
Qed.
End reachable.

(** C15: the invariant of the daemon.  For every operating system whose log can be
    written, whose read() reports what it stored and whose pids have at most eight
    digits, in every state that the main loop reaches, by any sequence of rounds and
    signals: buf has its 512 cells, buf_pos is 0, 128, 256 or 384 and the cells below
    it hold bits; buf_whitened has its 1024 cells, all bytes, its cursor and bit
    number are in range, and no bit from the cursor on is set; the statistics are
    ints, the flag of the alarm is 0 or 1 and ent_count is a multiple of 512; there
    is a handle and a pair of counters per device. *)
Theorem daemon_invariant {W} (sys : syscall log_msg -> W -> sysret * W) cfg log2 argv log_fuel w s :
  (0 < log_fuel)%nat -> log_writable sys -> read_reports sys -> pid_bounded sys ->
  reachable sys cfg log2 argv log_fuel w s -> daemon_ok argv s.
Proof.
  intros Hf Hl Hr Hp Hs. destruct (reachable_refines sys cfg log2 argv log_fuel Hf Hl Hr Hp w s Hs) as (Hd & t0 & a & Ha & Href).
  by eapply refines_ok.
Qed.

(** The simulated daemon after a round that reads 128 of 300 bits, and after an alarm. *)
Definition sim_event (e : event) (s : daemon sim_world) : daemon sim_world :=
  (main_event sim_sys (mk_config true Linux) no_log2 ["/dev/ttyACM0"%string] 1 e s).2.
Definition sim_round : daemon sim_world := sim_event Round (sim_started (replicate 300 true)).
Definition sim_alarmed : daemon sim_world := sim_event (Signalled SIGALRM) sim_round.

Lemma sim_alarmed_reachable :
  reachable sim_sys (mk_config true Linux) no_log2 ["/dev/ttyACM0"%string] 1 (sim_start (replicate 300 true)) sim_alarmed.
Proof.
  refine (reach_next sim_sys _ no_log2 _ 1 _ (Signalled SIGALRM) sim_round _ _); [|by vm_compute].
  refine (reach_next sim_sys _ no_log2 _ 1 _ Round (sim_started (replicate 300 true)) _ _); [|by vm_compute].
  refine (reach_first sim_sys _ no_log2 _ 1 _ _). by vm_compute.
Qed.

(** Witness of C15: the simulated daemon after the alarm. *)
Lemma daemon_invariant_witness :
  buf_pos (d_in sim_alarmed) = 128%nat /\ test_ent (d_est sim_alarmed) = 1 /\
  daemon_ok ["/dev/ttyACM0"%string] sim_alarmed.
Proof.
  split; [by vm_compute|]. split; [by vm_compute|].
  exact (daemon_invariant sim_sys (mk_config true Linux) no_log2 ["/dev/ttyACM0"%string] 1 (sim_start (replicate 300 true))
    sim_alarmed ltac:(lia) feed_log feed_reads sim_pid sim_alarmed_reachable).
Defined.
