(* ===== verification/DaemonSignals.v ===== *)
(** Signals inside a round.

    A signal handler may run before any system call and any access to a global
    variable of the daemon, and handlers may interrupt handlers ([arriving]).  They
    change nothing of the daemon's memory but the flag of the alarm ([calm]).  A run
    with such signals is therefore simulated by a run that takes signals only between
    rounds ([sim]), on an operating system that replays what the calls of the first
    run answered ([replay]); what was proved of all runs of the second kind holds of
    the first kind too. *)

From Stdlib Require Import ZArith Lia String SpecFloat.
From stdpp Require Import base tactics list numbers relations.
From S2P Require Import Prelude Debias Amls Posix Daemon DaemonSpec DaemonProofs DaemonTheorems.

Local Open Scope Z_scope.

#[local] Opaque mix white_cells count_bytes.

(** * What handlers leave alone *)

(** The messages that handlers log. *)
Definition handler_msg (m : log_msg) : bool :=
  match m with MSigHup | MSigTerm | MUnhandledSignal _ => true | _ => false end.

(** The kinds of call that handlers make: signal, getpid, close, and writing one of
    their messages to the log. *)
Definition quiet_call (c : syscall log_msg) : bool :=
  match c with Signal _ | Getpid | Close _ => true | WriteLog _ _ m => handler_msg m | _ => false end.

(** The other calls, which only the main program makes. *)
Definition visible (t : list (syscall log_msg)) : list (syscall log_msg) := List.filter (fun c => negb (quiet_call c)) t.

Lemma visible_app t1 t2 : visible (t1 ++ t2) = visible t1 ++ visible t2.
Proof. apply List.filter_app. Qed.

(** The flag of the alarm is a truth value. *)
Definition flag_ok {W} (s : daemon W) : Prop := test_ent (d_est s) = 0 \/ test_ent (d_est s) = 1.

(** The same memory up to the flag of the alarm, and the same visible calls. *)
Record same {W V} (s : daemon W) (t : daemon V) : Prop := mk_same {
  same_files : d_files s = d_files t;
  same_in : d_in s = d_in t;
  same_white : d_white s = d_white t;
  same_devs : d_devs s = d_devs t;
  same_flags : flag_ok s /\ flag_ok t;
  same_est : set_test_ent 0 (d_est s) = set_test_ent 0 (d_est t);
  same_trace : visible (d_trace s) = visible (d_trace t) }.

Lemma same_refl {W} (s : daemon W) : flag_ok s -> same s s.
Proof. by split. Qed.

Lemma same_trans {W V U} (s : daemon W) (t : daemon V) (u : daemon U) : same s t -> same t u -> same s u.
Proof. intros [] []. destruct_and!. split; [congruence..|done|congruence|congruence]. Qed.

Lemma same_sym {W V} (s : daemon W) (t : daemon V) : same s t -> same t s.
Proof. intros []. destruct_and!. by split. Qed.

(** The trace only grows. *)
Definition grows {W A} (m : prog (daemon W) A) : Prop := forall t, d_trace t `prefix_of` d_trace (m t).2.

Lemma grows_bind {W A B} (m : prog (daemon W) A) (k : A -> prog (daemon W) B) :
  grows m -> (forall a, grows (k a)) -> grows (m ≫= k).
Proof.
  intros Hm Hk t. specialize (Hm t). unfold mbind, prog_bind. destruct (m t) as [[a|c|f] t1]; [|done..].
  etrans; [exact Hm|apply Hk].
Qed.

Create HintDb grows.

Section grows.
Context {W : Type} (sys : syscall log_msg -> W -> sysret * W) (cfg : config) (log_fuel : nat).

Lemma grows_ret {A} (a : A) : grows (mret a : prog (daemon W) A).
Proof. by intros t. Qed.

Lemma grows_exits {A} c : grows (exits c : prog (daemon W) A).
Proof. by intros t. Qed.

Lemma grows_lift {A} (r : res A) : grows (lift r : prog (daemon W) A).
Proof. intros t. by destruct r. Qed.

Lemma grows_when b (m : prog (daemon W) unit) : grows m -> grows (when b m).
Proof. destruct b; [done|intros _; apply grows_ret]. Qed.

Lemma grows_call_now c : grows (call_now sys c).
Proof. intros t. unfold call_now. destruct (sys c (d_world t)). by eexists. Qed.

Context `{SG : !Signals W} (HG : grows (deliver : prog (daemon W) unit)).

Lemma grows_call c : grows (call sys c).
Proof. apply grows_bind; [done|]. intros _. apply grows_call_now. Qed.

Lemma grows_get {A} (f : daemon W -> A) : grows (get_var f).
Proof. apply grows_bind; [done|]. by intros _ t. Qed.

Lemma grows_set f : (forall s, d_trace (f s) = d_trace s) -> grows (set_var f).
Proof. intros Hf. apply grows_bind; [done|]. intros _ t. cbn. by rewrite Hf. Qed.
#[local] Hint Resolve grows_ret grows_exits grows_lift grows_call grows_get : grows.

Ltac grow :=
  repeat match goal with
  | |- grows (_ ≫= _) => apply grows_bind; [|intros ?]
  | |- grows (when _ _) => apply grows_when
  | |- grows (match ?x with _ => _ end) => destruct x
  | |- _ => by auto with grows
  end.

Lemma grows_close fd : grows (close_if_open sys fd).
Proof. unfold close_if_open. grow. Qed.
#[local] Hint Resolve grows_close : grows.

Lemma grows_exit {A} c : grows (exit_cleanup (A := A) sys cfg c).
Proof. unfold exit_cleanup. grow. Qed.
#[local] Hint Resolve grows_exit : grows.

Lemma grows_log m : grows (log_message sys cfg log_fuel m).
Proof. unfold log_message. revert m. induction log_fuel; intros m; cbn [log_message_rec]; grow. Qed.
#[local] Hint Resolve grows_log : grows.

Lemma grows_handler sig : grows (signal_handler sys cfg log_fuel sig).
Proof. unfold signal_handler. grow. by apply grows_set. Qed.
End grows.

Lemma grows_arriving {W} (sys : syscall log_msg -> W -> sysret * W) cfg log_fuel arrivals depth :
  grows (arriving sys cfg log_fuel arrivals depth).
Proof.
  induction depth as [|d IH]; [apply grows_ret|]. cbn [arriving]. apply grows_bind.
  - intros s. unfold take_signals. by destruct (arrivals (d_world s)).
  - intros sigs. induction sigs as [|sig sigs IHs]; [apply grows_ret|]. cbn [handle_all].
    apply grows_bind; [by apply grows_handler|by intros _].
Qed.

(** A program that, at most, logs, sets the flag, and ends the process with 0. *)
Definition calm {W A} (m : prog (daemon W) A) : Prop :=
  forall s, flag_ok s ->
            match m s with
            | (Done _, s') => same s s'
            | (Exit c, s') => c = 0 /\ same s s'
            | (Crash _, _) => False
            end.

Section calm.
Context {W : Type} (sys : syscall log_msg -> W -> sysret * W) (cfg : config) (log_fuel : nat).
Context (Hlog : log_writable sys) (Hfuel : (0 < log_fuel)%nat).

Lemma calm_ret {A} (a : A) : calm (mret a : prog (daemon W) A).
Proof. intros s. apply same_refl. Qed.

Lemma calm_bind {A B} (m : prog (daemon W) A) (k : A -> prog (daemon W) B) :
  calm m -> (forall a, calm (k a)) -> calm (m ≫= k).
Proof.
  intros Hm Hk s Hf. specialize (Hm s Hf). unfold mbind, prog_bind. destruct (m s) as [[a|c|f] s1]; [|done..].
  specialize (Hk a s1 (proj2 (same_flags _ _ Hm))). destruct (k a s1) as [[b|c|f] s2]; [|destruct Hk as [? Hk]; split; [done|]|done]; by eapply same_trans.
Qed.

Lemma calm_no_signals : calm (no_signals W).
Proof. apply calm_ret. Qed.

(** Programs interrupted by calm handlers. *)
Section interrupted.
Context `{SG : !Signals W} (HS : calm (deliver : prog (daemon W) unit)).

Lemma calm_call c : quiet_call c = true -> calm (call sys c).
Proof.
  intros Hc. apply calm_bind; [done|]. intros _ s Hf. unfold call_now. destruct (sys c (d_world s)) as [r w'].
  split; try done. cbn. rewrite visible_app. cbn. rewrite Hc. by rewrite app_nil_r.
Qed.

Lemma calm_get {A} (f : daemon W -> A) : calm (get_var f).
Proof. apply calm_bind; [done|]. intros _ s. apply same_refl. Qed.

Lemma calm_log m : handler_msg m = true -> calm (log_message sys cfg log_fuel m).
Proof.
  intros Hm. unfold log_message. destruct log_fuel as [|n]; [lia|]. cbn [log_message_rec].
  apply calm_bind; [by apply calm_call|]. intros pid. apply calm_bind; [apply calm_get|]. intros f s Hs.
  unfold mbind, prog_bind. pose proof (calm_call (WriteLog (logFileHandle f) (ret pid) m) Hm s Hs) as Hw.
  destruct (call sys _ s) as [[r|c|e] s1] eqn:Ec; [|done..].
  assert (0 <= ret r) as Hr.
  { unfold call, mbind, prog_bind in Ec. destruct (deliver s) as [[[]|c|e] s2]; try done. unfold call_now in Ec.
    pose proof (Hlog (logFileHandle f) (ret pid) m (d_world s2)) as Hp. destruct (sys _ (d_world s2)). by injection Ec as <- _. }
  rewrite (proj2 (Z.ltb_ge _ _)) by done. done.
Qed.

Lemma calm_close fd : calm (close_if_open sys fd).
Proof. unfold close_if_open, when. destruct (0 <? fd); [|apply calm_ret]. apply calm_bind; [by apply calm_call|]. intros _. apply calm_ret. Qed.

Lemma calm_exit {A} : calm (exit_cleanup (A := A) sys cfg 0).
Proof.
  unfold exit_cleanup. apply calm_bind; [apply calm_get|]. intros f. do 2 (apply calm_bind; [apply calm_close|]; intros _).
  apply calm_bind; [destruct (file_output cfg); apply calm_close|]. intros _ s Hf. split; [done|by apply same_refl].
Qed.

Lemma calm_handler sig : calm (signal_handler sys cfg log_fuel sig).
Proof.
  unfold signal_handler. apply calm_bind; [by apply calm_call|]. intros _.
  destruct (sig =? SIGALRM); [|destruct (sig =? SIGHUP); [by apply calm_log|destruct (_ || _); [|by apply calm_log]]].
  - apply calm_bind; [done|]. intros _ s Hf. split; try done. split; [done|by right].
  - apply calm_bind; [by apply calm_log|]. intros _. apply calm_exit.
Qed.
End interrupted.

Lemma calm_arriving arrivals depth : calm (arriving sys cfg log_fuel arrivals depth).
Proof.
  induction depth as [|d IH]; [apply calm_ret|]. cbn [arriving]. apply calm_bind.
  - intros s Hf. unfold take_signals. destruct (arrivals (d_world s)). by split.
  - intros sigs. induction sigs as [|sig sigs IHs]; [apply calm_ret|]. cbn [handle_all].
    apply calm_bind; [|intros _; apply IHs]. by apply calm_handler.
Qed.
End calm.

(** * Simulation *)

(** An operating system that answers each call as [sys] did in the next world of a
    tape, and in [w0] at its end. *)
Definition replay {W} (sys : syscall log_msg -> W -> sysret * W) (w0 : W) (c : syscall log_msg) (tape : list W) : sysret * list W :=
  match tape with
  | w :: rest => ((sys c w).1, rest)
  | [] => ((sys c w0).1, [])
  end.

Lemma visible_prefix t1 t2 : t1 `prefix_of` t2 -> visible t1 `prefix_of` visible t2.
Proof. intros [u ->]. rewrite visible_app. by eexists. Qed.

(** What a run goes on to, after its first part. *)
Definition chain {S A B} (r : outcome A * S) (k : A -> prog S B) : outcome B * S :=
  match r with
  | (Done a, s) => k a s
  | (Exit c, s) => (Exit c, s)
  | (Crash f, s) => (Crash f, s)
  end.

Lemma bind_run {S A B} (m : prog S A) (k : A -> prog S B) s : (m ≫= k) s = chain (m s) k.
Proof. done. Qed.

Section sim.
Context {W : Type} (sys : syscall log_msg -> W -> sysret * W) (w0 : W) (cfg : config) (log_fuel : nat).
Context `{SG : !Signals W} (HS : calm (deliver : prog (daemon W) unit)) (HG : grows (deliver : prog (daemon W) unit)).

Abbreviation tape_os := (replay sys w0).

(** [m2] without signals does what [m1] does, on a tape that [m1] determines: it ends
    in the same way, unless a signal has ended [m1] before.  The flag of the alarm is
    [v] before and [v'] after [m2]. *)
Definition simulates {A} (v' : Z) (m2 : prog (daemon (list W)) A) (r1 : outcome A * daemon W) (t : daemon (list W)) (rest : list W) : Prop :=
  match r1 with
  | (Done a, s') => exists t', m2 t = (Done a, t') /\ same s' t' /\ test_ent (d_est t') = v' /\ d_world t' = rest
  | (Exit c, s') => (exists t', m2 t = (Exit c, t') /\ same s' t') \/
                    (c = 0 /\ visible (d_trace s') `prefix_of` visible (d_trace (m2 t).2))
  | (Crash f, _) => exists t', m2 t = (Crash f, t')
  end.

Definition sim_at {A} (v v' : Z) (s : daemon W) (m1 : prog (daemon W) A) (m2 : prog (daemon (list W)) A) : Prop :=
  exists l, forall t rest, same s t -> test_ent (d_est t) = v -> d_world t = l ++ rest ->
    simulates v' m2 (m1 s) t rest.

Definition sim {A} (v v' : Z) (m1 : prog (daemon W) A) (m2 : prog (daemon (list W)) A) : Prop :=
  grows m1 /\ grows m2 /\ forall s, sim_at v v' s m1 m2.

Lemma sim_ret {A} v (a : A) : sim v v (mret a) (mret a).
Proof. split_and!; [apply grows_ret..|]. intros s. exists []. intros t rest Hs Hv Hw. by exists t. Qed.

Lemma sim_exits {A} v v' c : sim (A := A) v v' (exits c) (exits c).
Proof. split_and!; [apply grows_exits..|]. intros s. exists []. intros t rest Hs Hv Hw. left. by exists t. Qed.

Lemma sim_lift {A} v (r : res A) : sim v v (lift r) (lift r).
Proof.
  split_and!; [apply grows_lift..|]. intros s. exists []. intros t rest Hs Hv Hw. unfold simulates, lift. destruct r; by exists t.
Qed.

Lemma sim_at_bind {A B} v1 v2 v3 s (m1 : prog (daemon W) A) m2 (k1 : A -> prog (daemon W) B) k2 :
  sim_at v1 v2 s m1 m2 -> (forall a, grows (k2 a)) ->
  (forall a s1, m1 s = (Done a, s1) -> sim_at v2 v3 s1 (k1 a) (k2 a)) ->
  sim_at v1 v3 s (m1 ≫= k1) (m2 ≫= k2).
Proof.
  intros [l1 Hl1] Gk Hk. unfold sim_at, simulates in *. rewrite bind_run. destruct (m1 s) as [[a|c|f] s1] eqn:E1; cbn [chain].
  - destruct (Hk a s1 eq_refl) as [l2 Hl2]. exists (l1 ++ l2). intros t rest Hs Hv Hw.
    destruct (Hl1 t (l2 ++ rest) Hs Hv) as (t1 & E2 & Hs1 & Hv1 & Hw1); [by rewrite app_assoc|].
    rewrite bind_run, E2. exact (Hl2 t1 rest Hs1 Hv1 Hw1).
  - exists l1. intros t rest Hs Hv Hw. rewrite bind_run. destruct (Hl1 t rest Hs Hv Hw) as [(t1 & -> & Hs1)|[-> Hp]].
    + left. by exists t1.
    + right. split; [done|]. etrans; [exact Hp|]. destruct (m2 t) as [[a|c|f] t1]; [|done..].
      cbn. apply visible_prefix, Gk.
  - exists l1. intros t rest Hs Hv Hw. destruct (Hl1 t rest Hs Hv Hw) as [t1 E2]. exists t1. by rewrite bind_run, E2.
Qed.

Lemma sim_bind {A B} v1 v2 v3 (m1 : prog (daemon W) A) m2 (k1 : A -> prog (daemon W) B) k2 :
  sim v1 v2 m1 m2 -> (forall a, sim v2 v3 (k1 a) (k2 a)) -> sim v1 v3 (m1 ≫= k1) (m2 ≫= k2).
Proof.
  intros (Gm1 & Gm2 & Hm) Hk. split_and!; [apply grows_bind; [done|intros a; apply Hk]..|]. intros s.
  apply (sim_at_bind v1 v2); [done|intros a; apply Hk|intros a s1 _; apply Hk].
Qed.

(** The handlers that run first can be left out. *)
Lemma sim_at_deliver {A} v v' s (m1 : prog (daemon W) A) m2 :
  grows m2 -> (forall s1, deliver s = (Done tt, s1) -> same s s1 -> sim_at v v' s1 m1 m2) -> sim_at v v' s (deliver ;; m1) m2.
Proof.
  intros Gm Hm. unfold sim_at, simulates in *. rewrite bind_run. destruct (decide (flag_ok s)) as [Hf|Hf].
  2: { exists []. intros t rest [? ? ? ? [] ? ?]. done. }
  pose proof (HS s Hf) as Hd. destruct (deliver s) as [[[]|c|f] s1]; cbn [chain]; [| |done].
  - destruct (Hm s1 eq_refl Hd) as [l Hl]. exists l. intros t rest Hs. apply Hl. eapply same_trans; [by apply same_sym|done].
  - destruct Hd as [-> Hd]. exists []. intros t rest Hs _ _. right. split; [done|].
    rewrite <- (same_trace _ _ Hd), (same_trace _ _ Hs). apply visible_prefix, Gm.
Qed.

Lemma sim_deliver {A} v v' (m1 : prog (daemon W) A) m2 : sim v v' m1 m2 -> sim v v' (deliver ;; m1) m2.
Proof.
  intros (Gm1 & Gm2 & Hm). split_and!; [apply grows_bind; [done|by intros _]|done|]. intros s. apply sim_at_deliver; auto.
Qed.

Lemma sim_call v c : sim v v (call sys c) (call tape_os c).
Proof.
  apply sim_deliver. split_and!; [apply grows_call_now|apply grows_call, grows_ret|].
  intros s. exists [d_world s]. intros t rest Hs Hv Hw. unfold call_now at 1. destruct (sys c (d_world s)) as [r w'] eqn:Es.
  exists (mk_daemon (d_files t) (d_in t) (d_white t) (d_est t) (d_devs t) rest (d_trace t ++ [c])).
  change (call tape_os c t) with (call_now tape_os c t). unfold call_now. rewrite Hw. cbn. rewrite Es. split; [done|].
  destruct Hs. split; [|done]. split; try done. cbn. rewrite !visible_app. congruence.
Qed.

Lemma sim_set v v' f1 f2 :
  (forall s t, same s t -> test_ent (d_est t) = v ->
     same (f1 s) (f2 t) /\ test_ent (d_est (f2 t)) = v' /\ d_world (f2 t) = d_world t) ->
  (forall s, d_trace (f1 s) = d_trace s) -> (forall t, d_trace (f2 t) = d_trace t) ->
  sim v v' (set_var f1) (set_var f2).
Proof.
  intros Hf H1 H2. apply sim_deliver. split_and!; [intros t; cbn; by rewrite H1|by apply grows_set; [apply grows_ret|]|].
  intros s. exists []. intros t rest Hs Hv Hw. exists (f2 t). destruct (Hf s t Hs Hv) as (H3 & H4 & H5).
  split_and!; try done. by rewrite H5.
Qed.

(** Reading a variable that handlers leave alone. *)
Lemma sim_get {A B} v v' (f1 : daemon W -> A) f2 (k1 : A -> prog (daemon W) B) k2 :
  (forall s t, same s t -> f1 s = f2 t) -> (forall a, sim v v' (k1 a) (k2 a)) ->
  sim v v' (get_var f1 ≫= k1) (get_var f2 ≫= k2).
Proof.
  intros Hf Hk. apply (sim_bind v v v'); [|done]. apply sim_deliver. split_and!; [by intros t..|].
  intros s. exists []. intros t rest Hs Hv Hw. exists t. cbn. rewrite (Hf s t Hs). done.
Qed.

(** Reading the statistics: all but the flag of the alarm. *)
Lemma sim_at_get_est {B} v v' s (k1 : estim -> prog (daemon W) B) k2 :
  (forall e, grows (k2 e)) ->
  (forall s1, deliver s = (Done tt, s1) -> sim_at v v' s1 (k1 (d_est s1)) (k2 (set_test_ent v (d_est s1)))) ->
  sim_at v v' s (get_var d_est ≫= k1) (get_var d_est ≫= k2).
Proof.
  intros Gk Hk. cut (sim_at v v' s (deliver ;; gets d_est ≫= k1) (get_var d_est ≫= k2)).
  { unfold sim_at, simulates, get_var. rewrite !bind_run. by destruct (deliver s) as [[]]. }
  apply sim_at_deliver; [apply grows_bind; [by intros t|done]|]. intros s1 E Hd. destruct (Hk s1 E) as [l Hl].
  exists l. intros t rest Hs Hv Hw.
  assert (set_test_ent v (d_est s1) = d_est t) as Ee
    by (rewrite <- Hv; pose proof (same_est _ _ Hs) as Ee; destruct (d_est s1), (d_est t); by injection Ee as -> -> -> -> ->).
  rewrite Ee in Hl. exact (Hl t rest Hs Hv Hw).
Qed.

Lemma sim_get_est {B} v v' (k1 : estim -> prog (daemon W) B) k2 :
  (forall e1 e2, set_test_ent 0 e1 = set_test_ent 0 e2 -> sim v v' (k1 e1) (k2 e2)) ->
  sim v v' (get_var d_est ≫= k1) (get_var d_est ≫= k2).
Proof.
  intros Hk. assert (forall e, grows (k1 e) /\ grows (k2 e)) as Gk by (intros e; destruct (Hk e e eq_refl) as (? & ? & _); done).
  split_and!; [apply grows_bind; [by apply grows_get|apply Gk]|apply grows_bind; [by intros t|apply Gk]|]. intros s. apply sim_at_get_est; [apply Gk|].
  intros s1 _. by apply Hk.
Qed.

Lemma sim_when v b m1 m2 : (b = true -> sim v v m1 m2) -> sim v v (when b m1) (when b m2).
Proof. destruct b; intros H; [by apply H|apply sim_ret]. Qed.

Lemma sim_for_range v k : forall i (b1 : nat -> prog (daemon W) unit) b2,
  (forall j, sim v v (b1 j) (b2 j)) -> sim v v (for_range k i b1) (for_range k i b2).
Proof.
  induction k as [|k IH]; intros i b1 b2 Hb; [apply sim_ret|]. cbn [for_range].
  apply (sim_bind v v v); [apply Hb|]. intros _. by apply IH.
Qed.

(** ** Writing variables *)

Lemma sim_on_files v f : sim v v (set_var (on_files f)) (set_var (on_files f)).
Proof. apply sim_set; [|done..]. intros s t [] Hv. split_and!; try done. split; cbn; try done. by f_equal. Qed.

Lemma sim_on_in v f : sim v v (set_var (on_in f)) (set_var (on_in f)).
Proof. apply sim_set; [|done..]. intros s t [] Hv. split_and!; try done. split; cbn; try done. by f_equal. Qed.

Lemma sim_on_white v f : sim v v (set_var (on_white f)) (set_var (on_white f)).
Proof. apply sim_set; [|done..]. intros s t [] Hv. split_and!; try done. split; cbn; try done. by f_equal. Qed.

Lemma sim_on_devs v f : sim v v (set_var (on_devs f)) (set_var (on_devs f)).
Proof. apply sim_set; [|done..]. intros s t [] Hv. split_and!; try done. split; cbn; try done. by f_equal. Qed.

Lemma sim_on_est v v' f :
  (forall e, test_ent (f (set_test_ent v e)) = v') ->
  (forall e, test_ent (f e) = test_ent e \/ test_ent (f e) = 0) ->
  (forall e e', set_test_ent 0 e = set_test_ent 0 e' -> set_test_ent 0 (f e) = set_test_ent 0 (f e')) ->
  sim v v' (set_var (on_est f)) (set_var (on_est f)).
Proof.
  intros Hv' H0 Hf. apply sim_set; [|done..]. intros s t [? ? ? ? Hfl ? ?] Hv. split_and!; try done.
  { split; cbn; auto. unfold flag_ok in *. cbn. destruct (H0 (d_est s)) as [-> | ->], (H0 (d_est t)) as [-> | ->]; tauto. }
  cbn. rewrite <- (Hv' (d_est t)). do 2 f_equal. rewrite <- Hv. by destruct (d_est t).
Qed.
End sim.

Create HintDb sim.
#[export] Hint Resolve sim_ret sim_exits sim_lift sim_call sim_on_files sim_on_in sim_on_white sim_on_devs : sim.

(** One step of a simulation proof. *)
Ltac sim_step :=
  match goal with
  | |- sim _ _ (get_var d_est ≫= _) _ => apply sim_get_est; [done..|]; intros ???
  | |- sim _ _ (get_var _ ≫= _) _ => apply sim_get; [done..|by intros ?? []|]; intros ?
  | |- sim ?v _ (_ ≫= _) _ => apply (sim_bind v v); [|intros ?]
  | |- sim _ _ (when _ _) _ => apply sim_when; intros ?
  | |- sim _ _ (for_range _ _ _) _ => apply sim_for_range; intros ?
  | |- sim _ _ (match ?x with _ => _ end) _ => destruct x
  | |- _ => progress cbv zeta
  | |- _ => by auto with sim
  end.
Ltac sim_steps := repeat sim_step.

(** * The daemon *)

Section programs.
Context {W : Type} (sys : syscall log_msg -> W -> sysret * W) (w0 : W).
Context (cfg : config) (log2 : spec_float -> spec_float) (argv : list string) (log_fuel : nat).
Context `{SG : !Signals W} (HS : calm (deliver : prog (daemon W) unit)) (HG : grows (deliver : prog (daemon W) unit)).

Abbreviation tape_os := (replay sys w0).

Lemma sim_close v fd : sim v v (close_if_open sys fd) (close_if_open tape_os fd).
Proof. unfold close_if_open. sim_steps. Qed.
#[local] Hint Resolve sim_close : sim.

Lemma sim_exit_cleanup {A} v c : sim v v (exit_cleanup (A := A) sys cfg c) (exit_cleanup tape_os cfg c).
Proof. unfold exit_cleanup. sim_steps. Qed.
#[local] Hint Resolve sim_exit_cleanup : sim.

Lemma sim_log v m : sim v v (log_message sys cfg log_fuel m) (log_message tape_os cfg log_fuel m).
Proof.
  unfold log_message. revert m. induction log_fuel as [|n IH]; intros m; cbn [log_message_rec]; sim_steps.
Qed.
#[local] Hint Resolve sim_log : sim.

Lemma sim_fail {A} v m c : sim v v (fail_with (A := A) sys cfg log_fuel m c) (fail_with tape_os cfg log_fuel m c).
Proof. unfold fail_with. sim_steps. Qed.
#[local] Hint Resolve sim_fail : sim.

(** ** Start-up *)

Lemma sim_pulse_dtr v fd : sim v v (pulse_dtr sys cfg log_fuel fd) (pulse_dtr tape_os cfg log_fuel fd).
Proof. unfold pulse_dtr. sim_steps. Qed.
#[local] Hint Resolve sim_pulse_dtr : sim.

Lemma sim_open_device v p : sim v v (open_device sys cfg log_fuel p) (open_device tape_os cfg log_fuel p).
Proof. unfold open_device. sim_steps. Qed.
#[local] Hint Resolve sim_open_device : sim.

Lemma sim_open_devices v ps : sim v v (open_devices sys cfg log_fuel ps) (open_devices tape_os cfg log_fuel ps).
Proof. induction ps; cbn [open_devices]; sim_steps. Qed.
#[local] Hint Resolve sim_open_devices : sim.

Lemma sim_open_output v : sim v v (open_output sys cfg log_fuel) (open_output tape_os cfg log_fuel).
Proof. unfold open_output. sim_steps. Qed.
#[local] Hint Resolve sim_open_output : sim.

Lemma sim_daemonize v : sim v v (daemonize sys cfg log_fuel) (daemonize tape_os cfg log_fuel).
Proof. unfold daemonize. sim_steps. Qed.

Lemma sim_write_pidfile v : sim v v (write_pidfile sys cfg log_fuel) (write_pidfile tape_os cfg log_fuel).
Proof. unfold write_pidfile. sim_steps. Qed.
#[local] Hint Resolve sim_daemonize sim_write_pidfile : sim.

Lemma sim_main_start v : sim v v (main_start sys cfg argv log_fuel) (main_start tape_os cfg argv log_fuel).
Proof. unfold main_start. sim_steps. Qed.

Lemma sim_main_open v : sim v v (main_open sys cfg argv log_fuel) (main_open tape_os cfg argv log_fuel).
Proof. unfold main_open. sim_steps. Qed.

(** ** The Big Loop *)

Lemma sim_device_stats v i : sim v v (device_stats sys cfg argv log_fuel i) (device_stats tape_os cfg argv log_fuel i).
Proof. unfold device_stats. sim_steps. Qed.

Lemma sim_pool_stats v : sim v v (pool_stats sys cfg log_fuel) (pool_stats tape_os cfg log_fuel).
Proof. unfold pool_stats. sim_steps. Qed.
#[local] Hint Resolve sim_device_stats sim_pool_stats : sim.

(** The statistics reset the flag, whatever it was. *)
Lemma sim_statistics v : sim v 0 (statistics sys cfg log2 argv log_fuel) (statistics tape_os cfg log2 argv log_fuel).
Proof.
  unfold statistics. apply sim_get_est; [done..|]. intros [] [] E. injection E as -> -> -> -> ->. cbn [num_ones num_zeros ent_count].
  apply (sim_bind v v); [apply sim_on_est; [done|done|done|by left|intros [] [] E; by injection E as -> -> -> -> ->]|intros _].
  do 4 (apply (sim_bind v v); [sim_steps|intros _]).
  apply sim_on_est; [done|done|done|by right|]. intros [] [] E. by injection E as -> -> -> -> ->.
Qed.

Lemma sim_output_byte v b : sim v v (output_byte sys cfg log_fuel b) (output_byte tape_os cfg log_fuel b).
Proof. unfold output_byte. sim_steps. Qed.
#[local] Hint Resolve sim_output_byte : sim.

Lemma sim_count_byte v : sim v v (set_var (on_est count_byte)) (set_var (on_est count_byte)).
Proof. apply sim_on_est; [done|done|done|by left|]. intros [] [] E. by injection E as -> -> -> -> ->. Qed.

Lemma sim_count_bit v z : sim v v (set_var (on_est (count_bit z))) (set_var (on_est (count_bit z))).
Proof.
  apply sim_on_est; [done|done|intros e; unfold count_bit; by case_match|intros e; left; unfold count_bit; by case_match|].
  intros [] [] E. injection E as -> -> -> -> ->. unfold count_bit. by case_match.
Qed.
#[local] Hint Resolve sim_count_byte sim_count_bit : sim.

Lemma sim_mix_byte v l : sim v v (mix_byte sys cfg log_fuel l) (mix_byte tape_os cfg log_fuel l).
Proof. unfold mix_byte. sim_steps. Qed.
#[local] Hint Resolve sim_mix_byte : sim.

Lemma sim_flush v : sim v v (flush_whitened sys cfg log_fuel) (flush_whitened tape_os cfg log_fuel).
Proof. unfold flush_whitened. sim_steps. Qed.
#[local] Hint Resolve sim_flush : sim.

Lemma sim_whiten_bit v z : sim v v (whiten_bit sys cfg log_fuel z) (whiten_bit tape_os cfg log_fuel z).
Proof. unfold whiten_bit. sim_steps. Qed.
#[local] Hint Resolve sim_whiten_bit : sim.

Lemma sim_whiten_result v k : forall i r,
  sim v v (whiten_result sys cfg log_fuel k i r) (whiten_result tape_os cfg log_fuel k i r).
Proof. induction k as [|k IH]; intros i r; cbn [whiten_result]; sim_steps. Qed.
#[local] Hint Resolve sim_whiten_result : sim.

Lemma sim_process_buffer v : sim v v (process_buffer sys cfg log_fuel) (process_buffer tape_os cfg log_fuel).
Proof. unfold process_buffer. sim_steps. Qed.

Lemma sim_convert_char v i j : sim v v (convert_char sys cfg argv log_fuel i j) (convert_char tape_os cfg argv log_fuel i j).
Proof. unfold convert_char. sim_steps. Qed.
#[local] Hint Resolve sim_process_buffer sim_convert_char : sim.

Lemma sim_read_chunk v i fd : sim v v (read_chunk sys cfg argv log_fuel i fd) (read_chunk tape_os cfg argv log_fuel i fd).
Proof. unfold read_chunk. sim_steps. Qed.
#[local] Hint Resolve sim_read_chunk : sim.

Lemma sim_read_device v i : sim v v (read_device sys cfg argv log_fuel i) (read_device tape_os cfg argv log_fuel i).
Proof. unfold read_device. sim_steps. Qed.
#[local] Hint Resolve sim_read_device : sim.

(** The round, after the flag has been read. *)
Lemma sim_rest v :
  sim v v (for_range (length argv) 0 (read_device sys cfg argv log_fuel) ;; call sys (Usleep SLEEP_TIME) ;; mret tt)
          (for_range (length argv) 0 (read_device tape_os cfg argv log_fuel) ;; call tape_os (Usleep SLEEP_TIME) ;; mret tt).
Proof. sim_steps. Qed.

(** ** Rounds *)

(** What the flag says in each round: an alarm before it, or not. *)
Definition with_alarms (alarms : list bool) : list event :=
  mjoin ((fun alarm : bool => if alarm then [Signalled SIGALRM; Round] else [Round]) <$> alarms).

Lemma grows_read_flag b :
  grows (when b (statistics tape_os cfg log2 argv log_fuel) ;;
         for_range (length argv) 0 (read_device tape_os cfg argv log_fuel) ;; call tape_os (Usleep SLEEP_TIME) ;; mret tt).
Proof.
  apply grows_bind; [|intros _; apply (sim_rest 0)]. destruct b; [apply (sim_statistics 0)|by intros t].
Qed.

Lemma grows_round_signals : grows (main_round sys cfg log2 argv log_fuel).
Proof.
  apply grows_bind; [by apply grows_get|]. intros e. apply grows_bind; [|intros _; apply (sim_rest 0)].
  destruct (negb _); [apply (sim_statistics 0)|apply grows_ret].
Qed.

Lemma grows_round : grows (main_round tape_os cfg log2 argv log_fuel).
Proof. apply grows_bind; [by intros t|]. intros e. apply grows_read_flag. Qed.

Lemma grows_alarm : grows (signal_handler tape_os cfg log_fuel SIGALRM).
Proof.
  apply grows_bind; [apply grows_call, grows_ret|]. intros _ t. cbn. done.
Qed.

Lemma grows_loop alarms : grows (main_loop tape_os cfg log2 argv log_fuel (with_alarms alarms)).
Proof.
  induction alarms as [|[] alarms IH]; [by intros t| |]; cbn [with_alarms fmap list_fmap mjoin list_join app main_loop main_event].
  - apply grows_bind; [apply grows_alarm|intros _]. apply grows_bind; [apply grows_round|by intros _].
  - apply grows_bind; [apply grows_round|by intros _].
Qed.

(** A round that reads the flag as 0 needs no alarm. *)
Lemma sim_round_quiet s :
  (forall s1, deliver s = (Done tt, s1) -> test_ent (d_est s1) = 0) ->
  sim_at 0 0 s (main_round sys cfg log2 argv log_fuel) (main_round tape_os cfg log2 argv log_fuel).
Proof.
  intros H0. apply sim_at_get_est; [done|intros e; apply grows_read_flag|]. intros s1 E. rewrite (H0 s1 E). cbn [test_ent set_test_ent Z.eqb negb when].
  apply (sim_bind 0 0); [apply sim_ret|]. intros _. apply sim_rest.
Qed.

(** A round that reads another value follows the statistics. *)
Lemma sim_round_alarmed s :
  (forall s1, deliver s = (Done tt, s1) -> test_ent (d_est s1) <> 0) ->
  sim_at 1 0 s (main_round sys cfg log2 argv log_fuel) (main_round tape_os cfg log2 argv log_fuel).
Proof.
  intros H0. apply sim_at_get_est; [done|intros e; apply grows_read_flag|]. intros s1 E. rewrite (proj2 (Z.eqb_neq _ _) (H0 s1 E)). cbn [test_ent set_test_ent Z.eqb negb when].
  apply (sim_bind 1 0); [apply sim_statistics|]. intros _. apply sim_rest.
Qed.

(** The alarm before the round. *)
Lemma sim_at_alarm s (m1 : prog (daemon W) unit) m2 :
  sim_at 1 0 s m1 m2 -> sim_at 0 0 s m1 (signal_handler tape_os cfg log_fuel SIGALRM ;; m2).
Proof.
  intros [l Hl]. exists (w0 :: l). intros t rest Hs Hv Hw.
  set (t1 := on_est (set_test_ent 1) (mk_daemon (d_files t) (d_in t) (d_white t) (d_est t) (d_devs t) (l ++ rest) (d_trace t ++ [Signal SIGALRM]))).
  assert (signal_handler tape_os cfg log_fuel SIGALRM t = (Done tt, t1)) as E.
  { unfold signal_handler. rewrite bind_run, call_run. cbn -[replay]. unfold called. rewrite Hw. done. }
  assert (same s t1) as Hs1.
  { destruct Hs. split; try done; [split; [tauto|by right]|]. cbn. rewrite visible_app. cbn. by rewrite app_nil_r. }
  specialize (Hl t1 rest Hs1 eq_refl eq_refl). unfold simulates in *. rewrite bind_run, E. exact Hl.
Qed.

(** Rounds with signals are rounds with alarms between them. *)
Lemma sim_rounds n : forall s, exists alarms, length alarms = n /\
  sim_at 0 0 s (main_loop sys cfg log2 argv log_fuel (replicate n Round)) (main_loop tape_os cfg log2 argv log_fuel (with_alarms alarms)).
Proof.
  induction n as [|n IH]; intros s; [exists []; split; [done|apply sim_ret]|].
  assert (exists alarms, length alarms = n /\ forall s1, main_round sys cfg log2 argv log_fuel s = (Done tt, s1) ->
    sim_at 0 0 s1 (main_loop sys cfg log2 argv log_fuel (replicate n Round)) (main_loop tape_os cfg log2 argv log_fuel (with_alarms alarms)))
    as (alarms & Hn & Hrest).
  { destruct (main_round sys cfg log2 argv log_fuel s) as [[[]|c|f] s1];
      [destruct (IH s1) as (alarms & Hn & Ha); exists alarms; split; [done|]; by intros ? [= <-]|
       exists (replicate n false); split; [apply length_replicate|done]..]. }
  assert ((forall s1, deliver s = (Done tt, s1) -> test_ent (d_est s1) = 0) \/
          (forall s1, deliver s = (Done tt, s1) -> test_ent (d_est s1) <> 0)) as [H0|H0].
  { destruct (deliver s) as [[[]|c|f] s1]; [|by left..].
    destruct (decide (test_ent (d_est s1) = 0)); [left|right]; by intros ? [= <-]. }
  - exists (false :: alarms). split; [by f_equal/=|].
    apply (sim_at_bind 0 0); [by apply sim_round_quiet|intros _; apply grows_loop|]. intros []. apply Hrest.
  - exists (true :: alarms). split; [by f_equal/=|]. apply sim_at_alarm.
    apply (sim_at_bind 1 0); [by apply sim_round_alarmed|intros _; apply grows_loop|]. intros []. apply Hrest.
Qed.
End programs.

(** * The theorems *)

Section preempted.
Context {W : Type} (sys : syscall log_msg -> W -> sysret * W) (cfg : config) (log2 : spec_float -> spec_float).
Context (argv : list string) (log_fuel : nat) (arrivals : W -> list Z * W) (depth : nat).
Context (Hlog : log_writable sys) (Hfuel : (0 < log_fuel)%nat).

Lemma sim_preempted_init w0 :
  sim 0 0 (preempted_init sys cfg argv log_fuel arrivals depth) (main_init (replay sys w0) cfg argv log_fuel).
Proof.
  apply (sim_bind 0 0); [|intros _].
  - apply sim_main_start; [apply calm_no_signals|apply grows_ret].
  - apply (sim_main_open sys w0 cfg argv log_fuel (calm_arriving sys cfg log_fuel Hlog Hfuel arrivals depth)
      (grows_arriving sys cfg log_fuel arrivals depth)).
Qed.

(** The run up to The Big Loop and the rounds after it, with their tape. *)
Lemma preempted_simulated w n : exists tape alarms, length alarms = n /\
  simulates 0 (main_run (replay sys w) cfg log2 argv log_fuel (with_alarms alarms))
    (main_preempted sys cfg log2 argv log_fuel arrivals depth n (daemon_init w)) (daemon_init tape) [].
Proof.
  assert (exists alarms, length alarms = n /\
    forall a s1, preempted_init sys cfg argv log_fuel arrivals depth (daemon_init w) = (Done a, s1) ->
      sim_at 0 0 s1 (main_loop (SG := arriving sys cfg log_fuel arrivals depth) sys cfg log2 argv log_fuel (replicate n Round))
        (main_loop (replay sys w) cfg log2 argv log_fuel (with_alarms alarms))) as (alarms & Hn & Hrest).
  { destruct (preempted_init _ _ _ _ _ _ _) as [[a|c|f] s1].
    - destruct (sim_rounds sys w cfg log2 argv log_fuel (calm_arriving sys cfg log_fuel Hlog Hfuel arrivals depth)
        (grows_arriving sys cfg log_fuel arrivals depth) n s1) as (alarms & Hn & Ha).
      exists alarms. split; [done|]. by intros ?? [= _ <-].
    - exists (replicate n false). split; [apply length_replicate|done].
    - exists (replicate n false). split; [apply length_replicate|done]. }
  assert (sim_at 0 0 (daemon_init w) (main_preempted sys cfg log2 argv log_fuel arrivals depth n)
            (main_run (replay sys w) cfg log2 argv log_fuel (with_alarms alarms))) as [l Hl].
  { apply (sim_at_bind 0 0); [apply sim_preempted_init|intros _; apply (grows_loop sys w cfg log2 argv log_fuel)|done].
    - apply calm_no_signals. - apply grows_ret. }
  exists l, alarms. split; [done|]. apply Hl; [|done|by rewrite app_nil_r]. split; try done. split; by left.
Qed.

(** The same, cut at the start of The Big Loop. *)
Lemma preempted_rounds_simulated w n s1 :
  preempted_init sys cfg argv log_fuel arrivals depth (daemon_init w) = (Done tt, s1) ->
  exists tape alarms t1, main_init (replay sys w) cfg argv log_fuel (daemon_init tape) = (Done tt, t1) /\ same s1 t1 /\
    simulates 0 (main_loop (replay sys w) cfg log2 argv log_fuel (with_alarms alarms))
      (main_loop (SG := arriving sys cfg log_fuel arrivals depth) sys cfg log2 argv log_fuel (replicate n Round) s1) t1 [].
Proof.
  intros E1. destruct (sim_preempted_init w) as (_ & _ & H1). destruct (H1 (daemon_init w)) as [l1 Hl1].
  destruct (sim_rounds sys w cfg log2 argv log_fuel (calm_arriving sys cfg log_fuel Hlog Hfuel arrivals depth)
    (grows_arriving sys cfg log_fuel arrivals depth) n s1) as (alarms & Hn & l2 & Hl2).
  exists (l1 ++ l2), alarms. unfold simulates at 1 in Hl1. rewrite E1 in Hl1.
  destruct (Hl1 (daemon_init (l1 ++ l2)) l2) as (t1 & Et & Hs & Hv & Hw); [|done..|].
  { split; try done. split; by left. }
  exists t1. split_and!; [done..|]. apply Hl2; [done..|]. by rewrite app_nil_r.
Qed.

Lemma grows_rounds n :
  grows (main_loop (SG := arriving sys cfg log_fuel arrivals depth) sys cfg log2 argv log_fuel (replicate n Round)).
Proof.
  induction n as [|n IH]; [apply grows_ret|]. cbn [replicate main_loop main_event]. apply grows_bind; [|by intros _].
  intros t. apply (grows_round_signals sys (d_world t) cfg log2 argv log_fuel (calm_arriving sys cfg log_fuel Hlog Hfuel arrivals depth)
    (grows_arriving sys cfg log_fuel arrivals depth)).
Qed.
End preempted.

(** The hypotheses on the operating system hold of a replay. *)
Lemma replay_log {W} (sys : syscall log_msg -> W -> sysret * W) w0 : log_writable sys -> log_writable (replay sys w0).
Proof. intros H fd pid m [|w tape]; apply H. Qed.

Lemma replay_read {W} (sys : syscall log_msg -> W -> sysret * W) w0 : read_reports sys -> read_reports (replay sys w0).
Proof. intros H fd n [|w tape]; apply H. Qed.

Lemma replay_pid {W} (sys : syscall log_msg -> W -> sysret * W) w0 : pid_bounded sys -> pid_bounded (replay sys w0).
Proof. intros H [|w tape]; apply H. Qed.

(** Handlers make no output. *)
Lemma outputs_visible cfg f t : outputs cfg f (visible t) = outputs cfg f t.
Proof.
  unfold outputs. induction t as [|c t IH]; [done|]. cbn [visible List.filter map concat].
  destruct (quiet_call c) eqn:E; cbn [negb]; [|by cbn; rewrite <- IH].
  replace (out_of cfg f c) with (@nil Z) by (by destruct c). done.
Qed.

(** A state that is the same as one that implements [a] implements [a], or [a] after
    an alarm. *)
Lemma same_refines {W V} cfg log2 (s1 s : daemon W) (t1 t : daemon V) a :
  same s1 t1 -> same s t -> d_trace s1 `prefix_of` d_trace s -> test_ent (d_est t) = 0 ->
  refines cfg (d_trace t1) t a -> exists a', rtc (abs_step log2) a a' /\ refines cfg (d_trace s1) s a'.
Proof.
  intros H1 [Ef Ei Ew Ed [Hf _] Ee Et] [u Hu] Hv (Hi & Hw & He & u' & Hu' & Ho).
  assert (visible u = visible u') as Evu.
  { rewrite Hu, Hu', !visible_app, (same_trace _ _ H1) in Et. by apply app_inv_head in Et. }
  assert (forall e, d_est s = e -> refines cfg (d_trace s1) s (with_est a e)) as Hr.
  { intros e Hs. split; cbn; [by rewrite Ei|]. split_and!; [by rewrite Ew|done|]. exists u. split; [done|].
    cbn [with_est a_out]. rewrite <- Ho, Ef, <- (outputs_visible _ _ u), Evu. apply outputs_visible. }
  destruct Hf as [H0|H0].
  - exists a. split; [done|]. replace a with (with_est a (a_est a)) by (by destruct a). apply Hr.
    rewrite <- He. destruct (d_est s), (d_est t); cbn in *. injection Ee. congruence.
  - exists (with_est a (set_test_ent 1 (a_est a))). split; [apply rtc_once, step_alarm|]. apply Hr.
    rewrite <- He. destruct (d_est s), (d_est t); cbn in *. injection Ee. by intros -> -> -> -> ->; subst.
Qed.


(** A hangup before every step of the start-up and an alarm before every step after it. *)
Definition noisy (w : sim_world) : list Z * sim_world := ([if sim_next w =? 7 then SIGALRM else SIGHUP], w).


(** The state of a run that returned. *)
Lemma preempted_done {W} (sys : syscall log_msg -> W -> sysret * W) cfg log2 argv log_fuel arrivals depth n w s :
  (0 < log_fuel)%nat -> log_writable sys -> read_reports sys -> pid_bounded sys ->
  main_preempted sys cfg log2 argv log_fuel arrivals depth n (daemon_init w) = (Done tt, s) ->
  exists s1 a, preempted_init sys cfg argv log_fuel arrivals depth (daemon_init w) = (Done tt, s1) /\
    rtc (abs_step log2) abs_init a /\ refines cfg (d_trace s1) s a /\ devs_ok argv s.
Proof.
  intros Hf Hl Hr Hp E. unfold main_preempted in E. rewrite bind_run in E.
  destruct (preempted_init _ _ _ _ _ _ _) as [[[]|c|f] s1] eqn:E1; [|done..]. cbn [chain] in E. exists s1.
  destruct (preempted_rounds_simulated sys cfg log2 argv log_fuel arrivals depth Hl Hf w n s1 E1) as (tape & alarms & t1 & Et1 & Hs1 & H).
  pose proof (grows_rounds sys cfg log2 argv log_fuel arrivals depth Hl Hf n s1) as Hg.
  unfold simulates in H. rewrite E in H, Hg. destruct H as (t & Et & Hs & Hv & _).
  pose proof (main_run_ok (replay sys w) cfg log2 argv log_fuel (with_alarms alarms) tape Hf
    (replay_log _ _ Hl) (replay_read _ _ Hr) (replay_pid _ _ Hp)) as Hok.
  unfold main_run in Hok. rewrite bind_run, Et1 in Hok. cbn [chain] in Hok. rewrite Et in Hok.
  destruct Hok as (t1' & a & [= <-] & Ha & Href & Hd).
  destruct (same_refines cfg log2 s1 s t1 t a Hs1 Hs Hg Hv Href) as (a' & Ha' & Href').
  exists a'. split_and!; [done|by etrans|done|..]; unfold devs_ok in *; rewrite (same_devs _ _ Hs); apply Hd.
Qed.


