(* ===== verification/SerialTools.v ===== *)
(** The two utilities that talk to devices: utilities/read_serial_port.c, which
    copies a serial device to the standard output, and utilities/ent_pool.c, which
    tries the kernel's entropy pool.  Both are programs over the system calls of
    [Posix]; fwrite() to the standard output is [Write 1]. *)

From Stdlib Require Import ZArith Lia String.
From stdpp Require Import base tactics list numbers sets.
From S2P Require Import Prelude Posix.

Local Open Scope Z_scope.

(** * State *)

(** The messages of printf. *)
Inductive tool_msg : Type :=
  | TUsage
  | TNoDevice (path : string) (errno : Z)
  | TNoGetAttr (errno : Z)
  | TNoSetAttr (errno : Z)
  | TNoAssertDTR (errno : Z)
  | TNoClearDTR (errno : Z)
  | TReadError (errno : Z)
  | TShortRead (n : Z)
  | TReadBytes (n : Z)
  | TWriteError (errno : Z)
  | TShortWrite (n : Z)
  | TWroteBytes (n : Z)
  | TNoCount (errno : Z)
  | TPoolSize (count : Z)
  | TNoAdd (errno : Z).

Record tool (W : Type) : Type := mk_tool {
  entFileHandle : Z;
  t_buf : cells;
  t_world : W;
  t_trace : list (syscall tool_msg) }.
Arguments mk_tool {W} _ _ _ _.
Arguments entFileHandle {W} _.
Arguments t_buf {W} _.
Arguments t_world {W} _.
Arguments t_trace {W} _.

Inductive host : Type := HostLinux | HostApple.

(** The global handle starts at 0; the buffer on the stack is indeterminate. *)
Definition tool_init {W} (n : nat) (w : W) : tool W := mk_tool 0 (replicate n None) w [].

Section tools.
Context {W : Type} (sys : syscall tool_msg -> W -> sysret * W) (os : host).

Abbreviation run := (prog (tool W)).

Definition tcall (c : syscall tool_msg) : run sysret :=
  fun s => let (r, w') := sys c (t_world s) in
           (Done r, mk_tool (entFileHandle s) (t_buf s) w' (t_trace s ++ [c])).

(** printf() followed by a return from main, or by exit_cleanup. *)
Definition serial_exit_cleanup {A} (value : Z) : run A :=
  h ← gets entFileHandle;
  when (0 <? h) (tcall (Close h) ;; mret tt) ;;
  exits value.

Definition say_cleanup {A} (m : tool_msg) (value : Z) : run A := tcall (Printf m) ;; serial_exit_cleanup value.
Definition say_return {A} (m : tool_msg) (value : Z) : run A := tcall (Printf m) ;; exits value.

(** ** read_serial_port.c *)

Definition serial_dtr (fd : Z) : run unit :=
  let requests := match os with
                  | HostApple => (TIOCSDTR, TIOCCDTR)
                  | HostLinux => (TIOCMBIC 2, TIOCMBIS 2)
                  end in
  a ← tcall (Ioctl fd requests.1);
  when (negb (ret a =? 0)) (say_cleanup (TNoAssertDTR (errno a)) (-16)) ;;
  b ← tcall (Ioctl fd requests.2);
  when (negb (ret b =? 0)) (say_cleanup (TNoClearDTR (errno b)) (-17)).

(** main, up to its loop. *)
Definition serial_open (argv : list string) : run unit :=
  match argv with
  | [] => say_return TUsage 1
  | path :: _ =>
      h ← tcall (Open path ["O_RDONLY"; "O_NONBLOCK"; "O_NOCTTY"]%string 0);
      modify (fun s => mk_tool (ret h) (t_buf s) (t_world s) (t_trace s)) ;;
      when (ret h <? 0) (say_cleanup (TNoDevice path (errno h)) (-8)) ;;
      t ← tcall (Tcgetattr (ret h));
      when (negb (ret t =? 0)) (say_cleanup (TNoGetAttr (errno t)) (-5)) ;;
      u ← tcall (Tcsetattr (ret h) (serial_attrs (attrs t)));
      when (negb (ret u =? 0)) (say_cleanup (TNoSetAttr (errno u)) (-6)) ;;
      serial_dtr (ret h)
  end.

(** fwrite(&buf[i], 1, 1, stdout) *)
Definition put_byte (i : nat) : run unit :=
  b ← gets t_buf;
  c ← lift (load b i);
  tcall (Write 1 [u8 c]) ;;
  mret tt.

(** One iteration of the loop of main. *)
Definition serial_round : run unit :=
  h ← gets entFileHandle;
  q ← tcall (Ioctl h FIONREAD);
  let num_bytes := if 0 <=? ret q then nth 0 (data q) 0 else 0 in
  if 128 <=? num_bytes then
    n ← tcall (Read h 128);
    b ← gets t_buf;
    b' ← lift (store_bytes b 0 (take (Z.to_nat (ret n)) (data n)));
    modify (fun s => mk_tool (entFileHandle s) b' (t_world s) (t_trace s)) ;;
    when (ret n <? 0) (say_return (TReadError (errno n)) 3) ;;
    when (ret n <? 128) (say_return (TShortRead (ret n)) 4) ;;
    for_range (Z.to_nat (ret n)) 0 put_byte
  else tcall (Usleep 100000) ;; mret tt.

(** main with [k] iterations of its loop. *)
Definition serial_main (argv : list string) (k : nat) : run unit :=
  serial_open argv ;; for_range k 0 (fun _ => serial_round).

(** ** ent_pool.c *)

Definition ent_pool_apple (fd : Z) : run unit :=
  n ← tcall (Read fd 1);
  b ← gets t_buf;
  b' ← lift (store_bytes b 0 (take (Z.to_nat (ret n)) (data n)));
  modify (fun s => mk_tool (entFileHandle s) b' (t_world s) (t_trace s)) ;;
  when (ret n <? 0) (say_return (TReadError (errno n)) 3) ;;
  when (ret n <? 1) (say_return (TShortRead (ret n)) 4) ;;
  tcall (Printf (TReadBytes (ret n))) ;;
  c ← lift (load b' 0);
  m ← tcall (Write fd [u8 c]);
  when (ret m <? 0) (say_return (TWriteError (errno m)) 3) ;;
  when (ret m <? 1) (say_return (TShortWrite (ret m)) 4) ;;
  tcall (Printf (TWroteBytes (ret m))) ;;
  mret tt.

(** Read the entropy count and print it. *)
Definition pool_count (fd : Z) : run unit :=
  r ← tcall (Ioctl fd RNDGETENTCNT);
  when (ret r <? 0) (say_return (TNoCount (errno r)) 2) ;;
  tcall (Printf (TPoolSize (nth 0 (data r) 0))) ;;
  mret tt.

Definition ent_pool_linux (fd : Z) : run unit :=
  pool_count fd ;;
  a ← tcall (Ioctl fd (RNDADDENTROPY 8 1 [42]));
  when (ret a <? 0) (say_return (TNoAdd (errno a)) 5) ;;
  pool_count fd.

Definition ent_pool_main : run Z :=
  h ← tcall (Open "/dev/random" ["O_RDWR"]%string 0);
  when (ret h <? 0) (say_return (TNoDevice "/dev/random" (errno h)) 1) ;;
  match os with HostApple => ent_pool_apple (ret h) | HostLinux => ent_pool_linux (ret h) end ;;
  tcall (Close (ret h)) ;;
  mret 0.
End tools.

(** * Properties *)

Section tool_proofs.
Context {W : Type} (sys : syscall tool_msg -> W -> sysret * W) (os : host).
Implicit Types (s : tool W).

Definition tcalled (c : syscall tool_msg) (w' : W) s : tool W :=
  mk_tool (entFileHandle s) (t_buf s) w' (t_trace s ++ [c]).

Lemma wp_tcall c (Q : sysret -> tool W -> Prop) E s :
  Q (sys c (t_world s)).1 (tcalled c (sys c (t_world s)).2 s) -> wp (tcall sys c) Q E s.
Proof. unfold wp, tcall, tcalled. by destruct (sys c (t_world s)). Qed.

(** The same when all that matters is that there was a result. *)
Lemma wp_tcall_any c (Q : sysret -> tool W -> Prop) E s :
  (forall r w', Q r (tcalled c w' s)) -> wp (tcall sys c) Q E s.
Proof. intros H. by apply wp_tcall. Qed.

(** Only the world and the trace matter to the caller of a failing branch. *)
Lemma wp_say_return {A} m v (Q : A -> tool W -> Prop) (C : Z -> Prop) s :
  C v -> wp (say_return sys m v) Q (fun c _ => C c) s.
Proof. intros H. unfold say_return. by apply wp_bind, wp_tcall, wp_exits. Qed.

Lemma wp_say_cleanup {A} m v (Q : A -> tool W -> Prop) (C : Z -> Prop) s :
  C v -> wp (say_cleanup sys m v) Q (fun c _ => C c) s.
Proof.
  intros H. unfold say_cleanup, serial_exit_cleanup. apply wp_bind, wp_tcall, wp_bind, wp_gets, wp_bind.
  unfold when. case_match; [apply wp_bind, wp_tcall, wp_ret|apply wp_ret]; by apply wp_exits.
Qed.

Lemma wp_when_return (b : bool) m v (Q : unit -> tool W -> Prop) (C : Z -> Prop) s :
  (b = true -> C v) -> (b = false -> Q tt s) -> wp (when b (say_return sys m v)) Q (fun c _ => C c) s.
Proof. intros H1 H2. destruct b; cbn [when]; [apply wp_say_return; auto|apply wp_ret; auto]. Qed.

Lemma wp_when_cleanup (b : bool) m v (Q : unit -> tool W -> Prop) (C : Z -> Prop) s :
  (b = true -> C v) -> (b = false -> Q tt s) -> wp (when b (say_cleanup sys m v)) Q (fun c _ => C c) s.
Proof. intros H1 H2. destruct b; cbn [when]; [apply wp_say_cleanup; auto|apply wp_ret; auto]. Qed.


(** The bytes of a full buffer go out one by one, in order. *)
Lemma wp_put_bytes bytes (C : Z -> Prop) s :
  Forall is_byte bytes -> t_buf s = raw_cells bytes ->
  wp (for_range (length bytes) 0 (put_byte sys))
     (fun _ s' => entFileHandle s' = entFileHandle s /\ t_buf s' = t_buf s /\
                  t_trace s' = t_trace s ++ map (fun b => Write 1 [b]) bytes)
     (fun c _ => C c) s.
Proof.
  intros Hb Hs. eapply wp_conseq; [apply (wp_for_range (fun j s' =>
    entFileHandle s' = entFileHandle s /\ t_buf s' = t_buf s /\
    t_trace s' = t_trace s ++ map (fun b => Write 1 [b]) (take j bytes)))|].
  - by rewrite take_0, app_nil_r.
  - intros j s1 Hj (Hh & Hs1 & Ht). destruct (lookup_lt_is_Some_2 bytes j) as [b Hbj]; [lia|].
    unfold put_byte. apply wp_bind, wp_gets. rewrite Hs1, Hs. apply wp_bind.
    eapply wp_lift; [unfold load, raw_cells; by rewrite list_lookup_fmap, Hbj|].
    apply wp_bind, wp_tcall, wp_ret. unfold tcalled. cbn. split_and!; [done|congruence|].
    rewrite (take_S_r _ _ b), map_app, Ht, <- app_assoc by done.
    by rewrite u8_s8_byte by (by apply (list.Forall_lookup_1 is_byte bytes j)).
  - intros [] s1 (Hh & Hs1 & Ht). by rewrite take_ge in Ht by lia.
Qed.
End tool_proofs.

(** A system that serves 130 bytes whenever asked, and counts the calls. *)
Definition tool_sim (c : syscall tool_msg) (n : Z) : sysret * Z :=
  let ok r d := (mk_sysret r 0 d (mk_termios 0 0 0 0), n + 1) in
  match c with
  | Open _ _ _ => ok 3 []
  | Ioctl _ FIONREAD => ok 0 [130]
  | Ioctl _ RNDGETENTCNT => ok 0 [256]
  | Read _ k => ok k (replicate (Z.to_nat k) 65)
  | Write _ d => ok (Z.of_nat (length d)) []
  | _ => ok 0 []
  end.

Lemma tool_sim_reads : read_reports tool_sim.
Proof.
  intros fd n w. simpl. split; [lia|]. split; [by apply Forall_replicate|].
  intros Hn. rewrite length_replicate. lia.
Qed.

(** One iteration of read_serial_port's loop.  Fewer than 128 bytes waiting:
    it sleeps and changes nothing else.  A full read: the 128 bytes read, and
    nothing else, go to the standard output in order.  A failed read ends the
    program with 3, a short one with 4. *)
Theorem serial_round_copies {W} (sys : syscall tool_msg -> W -> sysret * W) (s : tool W) :
  read_reports sys -> length (t_buf s) = 128%nat ->
  let h := entFileHandle s in
  let q := sys (Ioctl h FIONREAD) (t_world s) in
  let r := sys (Read h 128) q.2 in
  let waits := 128 <=? (if 0 <=? ret q.1 then nth 0 (data q.1) 0 else 0) in
  match serial_round sys s with
  | (Done _, s') =>
      entFileHandle s' = h /\ length (t_buf s') = 128%nat /\
      t_trace s' = t_trace s ++ Ioctl h FIONREAD ::
        (if waits then Read h 128 :: map (fun b => Write 1 [b]) (data r.1) else [Usleep 100000]) /\
      (waits = true -> length (data r.1) = 128%nat)
  | (Exit c, _) => waits = true /\ (c = 3 /\ ret r.1 < 0 \/ c = 4 /\ 0 <= ret r.1 < 128)
  | (Crash _, _) => False
  end.
Proof.
  intros Hr Hl h q r waits.
  cut (wp (serial_round sys)
    (fun _ s' => entFileHandle s' = h /\ length (t_buf s') = 128%nat /\
      t_trace s' = t_trace s ++ Ioctl h FIONREAD ::
        (if waits then Read h 128 :: map (fun b => Write 1 [b]) (data r.1) else [Usleep 100000]) /\
      (waits = true -> length (data r.1) = 128%nat))
    (fun c _ => waits = true /\ (c = 3 /\ ret r.1 < 0 \/ c = 4 /\ 0 <= ret r.1 < 128)) s).
  { unfold wp. by destruct (serial_round sys s) as [[] ?]. }
  unfold serial_round. apply wp_bind, wp_gets, wp_bind, wp_tcall. unfold tcalled. cbn [t_world].
  fold h q. fold waits. destruct waits.
  - apply wp_bind, wp_tcall. unfold tcalled. cbn [entFileHandle t_buf t_world t_trace]. fold r.
    destruct (Hr h 128 q.2) as (H1 & H2 & H3). fold r in H1, H2, H3.
    apply wp_bind, wp_gets, wp_bind. cbn [t_buf].
    assert (length (take (Z.to_nat (ret r.1)) (data r.1)) <= 128)%nat as Hlen by (rewrite length_take; lia).
    eapply wp_lift; [apply (store_bytes_spec _ [] (t_buf s)); by rewrite Hl|].
    apply wp_bind, wp_modify, wp_bind, wp_when_return; [intros E%Z.ltb_lt; auto|intros E1%Z.ltb_ge].
    apply wp_bind, wp_when_return; [intros E%Z.ltb_lt; auto|intros E2%Z.ltb_ge].
    assert (ret r.1 = 128) as E by lia. rewrite E in *. specialize (H3 ltac:(lia)).
    change (Z.to_nat 128) with 128%nat in *. rewrite take_ge, drop_ge, app_nil_r by lia.
    replace 128%nat with (length (data r.1)) at 1 by lia.
    eapply wp_conseq; [by apply wp_put_bytes|]. cbn [entFileHandle t_buf t_trace].
    intros [] s' (-> & -> & ->). split_and!; [done|cbn; unfold raw_cells; rewrite length_map; lia| |lia].
    by rewrite <- !app_assoc.
  - apply wp_bind, wp_tcall, wp_ret. unfold tcalled. cbn. split_and!; try done. by rewrite <- app_assoc.
Qed.

(** At a concrete input. *)
Lemma serial_round_copies_witness :
  let s := mk_tool 3 (replicate 128 None) 0 [] in
  let q := tool_sim (Ioctl 3 FIONREAD) 0 in
  let r := tool_sim (Read 3 128) q.2 in
  let waits := 128 <=? (if 0 <=? ret q.1 then nth 0 (data q.1) 0 else 0) in
  match serial_round tool_sim s with
  | (Done _, s') =>
      entFileHandle s' = 3 /\ length (t_buf s') = 128%nat /\
      t_trace s' = [] ++ Ioctl 3 FIONREAD ::
        (if waits then Read 3 128 :: map (fun b => Write 1 [b]) (data r.1) else [Usleep 100000]) /\
      (waits = true -> length (data r.1) = 128%nat)
  | (Exit c, _) => waits = true /\ (c = 3 /\ ret r.1 < 0 \/ c = 4 /\ 0 <= ret r.1 < 128)
  | (Crash _, _) => False
  end.
Proof. apply (serial_round_copies tool_sim (mk_tool 3 (replicate 128 None) 0 [])); [apply tool_sim_reads|done]. Defined.

(** On Linux ent_pool either ends with 1, 2 or 5 or returns 0 after exactly
    these calls: open, count, print, add the byte 42 with 8 bits of entropy,
    count, print, close.  It never faults. *)
Theorem ent_pool_linux_trace {W} (sys : syscall tool_msg -> W -> sysret * W) (w : W) :
  match ent_pool_main sys HostLinux (tool_init 1 w) with
  | (Done v, s) => v = 0 /\ exists fd n1 n2, 0 <= fd /\
      t_trace s = [Open "/dev/random" ["O_RDWR"]%string 0;
                   Ioctl fd RNDGETENTCNT; Printf (TPoolSize n1); Ioctl fd (RNDADDENTROPY 8 1 [42]);
                   Ioctl fd RNDGETENTCNT; Printf (TPoolSize n2); Close fd]
  | (Exit c, _) => c ∈ [1; 2; 5]
  | (Crash _, _) => False
  end.
Proof.
  cut (wp (ent_pool_main sys HostLinux)
    (fun v s => v = 0 /\ exists fd n1 n2, 0 <= fd /\
      t_trace s = [Open "/dev/random" ["O_RDWR"]%string 0;
                   Ioctl fd RNDGETENTCNT; Printf (TPoolSize n1); Ioctl fd (RNDADDENTROPY 8 1 [42]);
                   Ioctl fd RNDGETENTCNT; Printf (TPoolSize n2); Close fd])
    (fun c _ => c ∈ [1; 2; 5]) (tool_init 1 w)).
  { unfold wp. by destruct (ent_pool_main _ _ _) as [[] ?]. }
  unfold ent_pool_main, ent_pool_linux, pool_count.
  repeat lazymatch goal with
  | |- wp (_ ≫= _) _ _ _ => apply wp_bind
  | |- wp (tcall _ _) _ _ _ => apply wp_tcall_any; intros ? ?
  | |- wp (mret _) _ _ _ => apply wp_ret
  | |- wp (when _ _) _ _ _ =>
      apply (wp_when_return sys _ _ _ _ (fun c => c ∈ [1; 2; 5])); [intros _; set_solver|intros ?%Z.ltb_ge]
  end.
  split; [done|]. do 3 eexists. split; [|reflexivity]. done.
Qed.
