(* ===== verification/Avr.v ===== *)
(** The microcontroller under the firmware: registers, firmware state, programs.

    The firmware runs on an ATmega16U2.  Its registers are the type [reg]; what the
    hardware does when one is read or written is not in the repository and is the
    class [Hardware], an arbitrary state machine.  Two kinds of memory are shared
    with interrupt handlers: the volatile variable USB_DeviceState is a [reg] too,
    so that any access may see a change made by an interrupt or by the bus.  The
    other globals of the USB library are the record [core]; [A] is the state of the
    application (class driver and RNG.c).  [usb] adds the log of register writes,
    by which the theorems talk about what reaches the bus.

    Programs are those of [Posix] on this state: they return, stop (a jump to the
    bootloader), or fault.  Loops that wait for the hardware take fuel. *)

From Stdlib Require Import ZArith Lia.
From stdpp Require Import base tactics list numbers.
From S2P Require Import Prelude Posix.

Local Open Scope Z_scope.

(** * Registers and hardware *)

Inductive reg : Type :=
  | UENUM | UERST | UECFG0X | UECFG1X | UECONX | UESTA0X | UEINTX | UEIENX | UEDATX | UEBCLX | UEINT
  | UDADDR | UDFNUM | UDINT | UDIEN | UDCON | USBCON | PLLCSR | REGCR
  | MCUSR | MCUCR | PORTD | DDRD | PIND | DDRC | PINC | SREG | TIMSK1 | TCCR1B
  | USB_DeviceState.

#[export] Instance reg_eq_dec : EqDecision reg.
Proof. solve_decision. Defined.

Class Hardware (H : Type) : Type := {
  rd : reg -> H -> Z * H;
  wr : reg -> Z -> H -> H }.

(** Bit numbers of the registers, from the data sheet. *)
Definition TXINI : Z := 0.
Definition RXOUTI : Z := 2.
Definition RXSTPI : Z := 3.
Definition RWAL : Z := 5.
Definition FIFOCON : Z := 7.
Definition EPEN : Z := 0.
Definition RSTDT : Z := 3.
Definition STALLRQC : Z := 4.
Definition STALLRQ : Z := 5.
Definition EPDIR : Z := 0.
Definition EPTYPE0 : Z := 6.
Definition ALLOC : Z := 1.
Definition EPBK0 : Z := 2.
Definition EPSIZE0 : Z := 4.
Definition CFGOK : Z := 7.
Definition ADDEN : Z := 7.
Definition DETACH : Z := 0.
Definition RMWKUP : Z := 1.
Definition SUSPI : Z := 0.
Definition SOFI : Z := 2.
Definition EORSTI : Z := 3.
Definition WAKEUPI : Z := 4.
Definition RXSTPE : Z := 3.
Definition USBE : Z := 7.
Definition FRZCLK : Z := 5.
Definition PLLP0 : Z := 2.
Definition PLLE : Z := 1.
Definition PLOCK : Z := 0.
Definition REGDIS : Z := 0.
Definition WDRF : Z := 3.

(** * State *)

(** USB_Request_Header_t *)
Record request : Type := mk_request {
  bmRequestType : Z;
  bRequest : Z;
  wValue : Z;
  wIndex : Z;
  wLength : Z }.

(** The globals of the library. *)
Record core : Type := mk_core {
  USB_IsInitialized : bool;
  USB_ControlRequest : request;
  USB_Device_ConfigurationNumber : Z;
  USB_Device_CurrentlySelfPowered : bool;
  USB_Device_RemoteWakeupEnabled : bool }.

Definition core_init : core := mk_core false (mk_request 0 0 0 0 0) 0 false false.

Record usb (H A : Type) : Type := mk_usb {
  hw : H;
  lib : core;
  app : A;
  io : list (reg * Z) }.
Arguments mk_usb {H A} _ _ _ _.
Arguments hw {H A} _.
Arguments lib {H A} _.
Arguments app {H A} _.
Arguments io {H A} _.

Definition on_lib {H A} (f : core -> core) (s : usb H A) : usb H A := mk_usb (hw s) (f (lib s)) (app s) (io s).
Definition on_app {H A} (f : A -> A) (s : usb H A) : usb H A := mk_usb (hw s) (lib s) (f (app s)) (io s).

Definition set_request (r : request) (c : core) : core :=
  mk_core (USB_IsInitialized c) r (USB_Device_ConfigurationNumber c)
          (USB_Device_CurrentlySelfPowered c) (USB_Device_RemoteWakeupEnabled c).
Definition set_configuration (n : Z) (c : core) : core :=
  mk_core (USB_IsInitialized c) (USB_ControlRequest c) n
          (USB_Device_CurrentlySelfPowered c) (USB_Device_RemoteWakeupEnabled c).
Definition set_wakeup (b : bool) (c : core) : core :=
  mk_core (USB_IsInitialized c) (USB_ControlRequest c) (USB_Device_ConfigurationNumber c)
          (USB_Device_CurrentlySelfPowered c) b.
Definition set_selfpowered (b : bool) (c : core) : core :=
  mk_core (USB_IsInitialized c) (USB_ControlRequest c) (USB_Device_ConfigurationNumber c)
          b (USB_Device_RemoteWakeupEnabled c).
Definition set_initialized (b : bool) (c : core) : core :=
  mk_core b (USB_ControlRequest c) (USB_Device_ConfigurationNumber c)
          (USB_Device_CurrentlySelfPowered c) (USB_Device_RemoteWakeupEnabled c).

(** * Register access *)

(** What runs when code is about to access memory: the handlers of the interrupts
    that arrive there.  Code that runs with interrupts disabled has [no_interrupts]. *)
Class Interrupts (H A : Type) : Type := interrupt : prog (usb H A) unit.

#[export] Instance no_interrupts H A : Interrupts H A | 100 := mret tt.

Section access.
Context {H A : Type} `{Hardware H} `{!Interrupts H A}.

Definition load_reg (r : reg) : prog (usb H A) Z :=
  fun s => let (v, h) := rd r (hw s) in (Done v, mk_usb h (lib s) (app s) (io s)).

Definition store_reg (r : reg) (v : Z) : prog (usb H A) unit :=
  fun s => (Done tt, mk_usb (wr r v (hw s)) (lib s) (app s) (io s ++ [(r, v)])).

(** An access by code that may be interrupted before it. *)
Definition read_reg (r : reg) : prog (usb H A) Z := interrupt ;; load_reg r.
Definition write_reg (r : reg) (v : Z) : prog (usb H A) unit := interrupt ;; store_reg r v.

(** The same for global variables. *)
Definition get_mem {B} (f : usb H A -> B) : prog (usb H A) B := interrupt ;; gets f.
Definition set_mem (f : usb H A -> usb H A) : prog (usb H A) unit := interrupt ;; modify f.

(** r |= mask, r &= ~mask, r ^= mask: a read and a write of the 8-bit register. *)
Definition set_bits (r : reg) (mask : Z) : prog (usb H A) unit :=
  v ← read_reg r; write_reg r (u8 (Z.lor v mask)).
Definition clear_bits (r : reg) (mask : Z) : prog (usb H A) unit :=
  v ← read_reg r; write_reg r (u8 (Z.ldiff v mask)).
Definition toggle_bits (r : reg) (mask : Z) : prog (usb H A) unit :=
  v ← read_reg r; write_reg r (u8 (Z.lxor v mask)).

(** (r & (1 << n)) ? true : false *)
Definition bit_of (r : reg) (n : Z) : prog (usb H A) bool :=
  v ← read_reg r; mret (Z.testbit v n).

(** while (!(ready)) { if (stop) return; } : [true] when ready, [false] when stopped. *)
Fixpoint wait_until (fuel : nat) (ready stop : prog (usb H A) bool) : prog (usb H A) bool :=
  match fuel with
  | O => lift (Fault OutOfFuel)
  | S fuel' =>
      r ← ready;
      if (r : bool) then mret true
      else
        b ← stop;
        if (b : bool) then mret false else wait_until fuel' ready stop
  end.

Definition never : prog (usb H A) bool := mret false.
End access.

(** Accesses of code that is not interrupted. *)
Section undisturbed.
Context {H A : Type} `{Hardware H}.

Lemma read_reg_run r (s : usb H A) :
  read_reg r s = (Done (rd r (hw s)).1, mk_usb (rd r (hw s)).2 (lib s) (app s) (io s)).
Proof. change (read_reg r s) with (load_reg r s). unfold load_reg. by destruct (rd r (hw s)). Qed.

Lemma write_reg_run r v (s : usb H A) :
  write_reg r v s = (Done tt, mk_usb (wr r v (hw s)) (lib s) (app s) (io s ++ [(r, v)])).
Proof. done. Qed.

Lemma get_mem_run {B} (f : usb H A -> B) s : get_mem f s = (Done (f s), s).
Proof. done. Qed.

Lemma set_mem_run f (s : usb H A) : set_mem f s = (Done tt, f s).
Proof. done. Qed.
Lemma wp_read_reg r (Q : Z -> usb H A -> Prop) E (s : usb H A) :
  Q (rd r (hw s)).1 (mk_usb (rd r (hw s)).2 (lib s) (app s) (io s)) -> wp (read_reg r) Q E s.
Proof. unfold wp. by rewrite read_reg_run. Qed.

Lemma wp_write_reg r v (Q : unit -> usb H A -> Prop) E (s : usb H A) :
  Q tt (mk_usb (wr r v (hw s)) (lib s) (app s) (io s ++ [(r, v)])) -> wp (write_reg r v) Q E s.
Proof. done. Qed.

Lemma wp_get_mem {B} (f : usb H A -> B) (Q : B -> usb H A -> Prop) E (s : usb H A) : Q (f s) s -> wp (get_mem f) Q E s.
Proof. done. Qed.
End undisturbed.

(** * Values of USB_DeviceState *)

Definition DEVICE_STATE_Unattached : Z := 0.
Definition DEVICE_STATE_Powered : Z := 1.
Definition DEVICE_STATE_Default : Z := 2.
Definition DEVICE_STATE_Addressed : Z := 3.
Definition DEVICE_STATE_Configured : Z := 4.
Definition DEVICE_STATE_Suspended : Z := 5.
