(* ===== verification/Endpoint.v ===== *)
(** Endpoints of the USB device controller.

    Core/AVR8/Endpoint_AVR8.h (the inline functions on the endpoint registers) and
    Core/AVR8/Endpoint_AVR8.c.  Every function is a program on [usb]; the wait
    loops take fuel, and a wait that the hardware never ends is a run out of fuel. *)

From Stdlib Require Import ZArith Lia.
From stdpp Require Import base tactics list numbers.
From S2P Require Import Prelude Posix Avr.

Local Open Scope Z_scope.

Definition ENDPOINT_EPNUM_MASK : Z := 15.
Definition ENDPOINT_DIR_IN : Z := 128.
Definition ENDPOINT_DIR_OUT : Z := 0.
Definition ENDPOINT_CONTROLEP : Z := 0.
Definition ENDPOINT_TOTAL_ENDPOINTS : Z := 5.
Definition USB_Device_ControlEndpointSize : Z := 8.
Definition USB_STREAM_TIMEOUT_MS : Z := 100.
Definition REQDIR_DEVICETOHOST : Z := 128.

Definition EP_TYPE_CONTROL : Z := 0.
Definition EP_TYPE_BULK : Z := 2.
Definition EP_TYPE_INTERRUPT : Z := 3.

(** Endpoint_WaitUntilReady_ErrorCodes_t *)
Definition ENDPOINT_READYWAIT_NoError : Z := 0.
Definition ENDPOINT_READYWAIT_EndpointStalled : Z := 1.
Definition ENDPOINT_READYWAIT_DeviceDisconnected : Z := 2.
Definition ENDPOINT_READYWAIT_BusSuspended : Z := 3.
Definition ENDPOINT_READYWAIT_Timeout : Z := 4.

(** USB_Endpoint_Table_t *)
Record endpoint_table : Type := mk_ep {
  ep_Address : Z;
  ep_Size : Z;
  ep_Type : Z;
  ep_Banks : Z }.

(** The loop that finds the size mask: 16-bit CheckBytes, 8-bit MaskVal. *)
Fixpoint bytes_to_mask (fuel : nat) (MaskVal CheckBytes Bytes : Z) : res Z :=
  match fuel with
  | O => Fault OutOfFuel
  | S fuel' =>
      if CheckBytes <? Bytes
      then bytes_to_mask fuel' (u8 (MaskVal + 1)) (u16 (Z.shiftl CheckBytes 1)) Bytes
      else Ok (u8 (Z.shiftl MaskVal EPSIZE0))
  end.

Definition Endpoint_BytesToEPSizeMask (fuel : nat) (Bytes : Z) : res Z := bytes_to_mask fuel 0 8 Bytes.

Section endpoint.
Context {H A : Type} `{Hardware H} `{!Interrupts H A}.
Context (fuel : nat).

Abbreviation run := (prog (usb H A)).

(** ** Inline functions of Endpoint_AVR8.h *)

Definition Endpoint_BytesInEndpoint : run Z := read_reg UEBCLX.

Definition Endpoint_GetEndpointDirection : run Z :=
  b ← bit_of UECFG0X EPDIR; mret (if (b : bool) then ENDPOINT_DIR_IN else ENDPOINT_DIR_OUT).

Definition Endpoint_GetCurrentEndpoint : run Z :=
  n ← read_reg UENUM;
  d ← Endpoint_GetEndpointDirection;
  mret (Z.lor (Z.land n ENDPOINT_EPNUM_MASK) d).

Definition Endpoint_SelectEndpoint (Address : Z) : run unit := write_reg UENUM (Z.land Address ENDPOINT_EPNUM_MASK).

Definition Endpoint_ResetEndpoint (Address : Z) : run unit :=
  write_reg UERST (u8 (Z.shiftl 1 (Z.land Address ENDPOINT_EPNUM_MASK))) ;; write_reg UERST 0.

Definition Endpoint_EnableEndpoint : run unit := set_bits UECONX (2 ^ EPEN).
Definition Endpoint_DisableEndpoint : run unit := clear_bits UECONX (2 ^ EPEN).
Definition Endpoint_IsEnabled : run bool := bit_of UECONX EPEN.
Definition Endpoint_GetBusyBanks : run Z := v ← read_reg UESTA0X; mret (Z.land v 3).

Definition Endpoint_AbortPendingIN : run unit :=
  wait_until fuel
    (b ← Endpoint_GetBusyBanks; mret (b =? 0))
    (set_bits UEINTX (2 ^ RXOUTI) ;;
     wait_until fuel (b ← bit_of UEINTX RXOUTI; mret (negb b)) never ;;
     mret false) ;;
  mret tt.

Definition Endpoint_IsReadWriteAllowed : run bool := bit_of UEINTX RWAL.
Definition Endpoint_IsConfigured : run bool := bit_of UESTA0X CFGOK.
Definition Endpoint_GetEndpointInterrupts : run Z := read_reg UEINT.
Definition Endpoint_HasEndpointInterrupted (Address : Z) : run bool :=
  v ← Endpoint_GetEndpointInterrupts; mret (Z.testbit v (Z.land Address ENDPOINT_EPNUM_MASK)).
Definition Endpoint_IsINReady : run bool := bit_of UEINTX TXINI.
Definition Endpoint_IsOUTReceived : run bool := bit_of UEINTX RXOUTI.
Definition Endpoint_IsSETUPReceived : run bool := bit_of UEINTX RXSTPI.
Definition Endpoint_ClearSETUP : run unit := clear_bits UEINTX (2 ^ RXSTPI).
Definition Endpoint_ClearIN : run unit := clear_bits UEINTX (Z.lor (2 ^ TXINI) (2 ^ FIFOCON)).
Definition Endpoint_ClearOUT : run unit := clear_bits UEINTX (Z.lor (2 ^ RXOUTI) (2 ^ FIFOCON)).
Definition Endpoint_StallTransaction : run unit := set_bits UECONX (2 ^ STALLRQ).
Definition Endpoint_ClearStall : run unit := set_bits UECONX (2 ^ STALLRQC).
Definition Endpoint_IsStalled : run bool := bit_of UECONX STALLRQ.
Definition Endpoint_ResetDataToggle : run unit := set_bits UECONX (2 ^ RSTDT).

Definition Endpoint_SetEndpointDirection (DirectionMask : Z) : run unit :=
  v ← read_reg UECFG0X;
  write_reg UECFG0X (u8 (Z.lor (Z.ldiff v (2 ^ EPDIR)) (if DirectionMask =? 0 then 0 else 2 ^ EPDIR))).

Definition Endpoint_Read_8 : run Z := read_reg UEDATX.
Definition Endpoint_Write_8 (Data : Z) : run unit := write_reg UEDATX (u8 Data).
Definition Endpoint_Discard_8 : run unit := Endpoint_Read_8 ;; mret tt.

Definition Endpoint_Read_16_LE : run Z :=
  b0 ← read_reg UEDATX; b1 ← read_reg UEDATX; mret (b0 + 256 * b1).
Definition Endpoint_Read_16_BE : run Z :=
  b1 ← read_reg UEDATX; b0 ← read_reg UEDATX; mret (b0 + 256 * b1).
Definition Endpoint_Write_16_LE (Data : Z) : run unit :=
  write_reg UEDATX (Z.land Data 255) ;; write_reg UEDATX (u8 (Z.shiftr Data 8)).
Definition Endpoint_Write_16_BE (Data : Z) : run unit :=
  write_reg UEDATX (u8 (Z.shiftr Data 8)) ;; write_reg UEDATX (Z.land Data 255).
Definition Endpoint_Discard_16 : run unit := read_reg UEDATX ;; read_reg UEDATX ;; mret tt.
Definition Endpoint_Read_32_LE : run Z :=
  b0 ← read_reg UEDATX; b1 ← read_reg UEDATX; b2 ← read_reg UEDATX; b3 ← read_reg UEDATX;
  mret (b0 + 256 * b1 + 65536 * b2 + 16777216 * b3).
Definition Endpoint_Read_32_BE : run Z :=
  b3 ← read_reg UEDATX; b2 ← read_reg UEDATX; b1 ← read_reg UEDATX; b0 ← read_reg UEDATX;
  mret (b0 + 256 * b1 + 65536 * b2 + 16777216 * b3).
Definition Endpoint_Write_32_LE (Data : Z) : run unit :=
  write_reg UEDATX (Z.land Data 255) ;; write_reg UEDATX (u8 (Z.shiftr Data 8)) ;;
  write_reg UEDATX (u8 (Z.shiftr Data 16)) ;; write_reg UEDATX (u8 (Z.shiftr Data 24)).
Definition Endpoint_Write_32_BE (Data : Z) : run unit :=
  write_reg UEDATX (u8 (Z.shiftr Data 24)) ;; write_reg UEDATX (u8 (Z.shiftr Data 16)) ;;
  write_reg UEDATX (u8 (Z.shiftr Data 8)) ;; write_reg UEDATX (Z.land Data 255).
Definition Endpoint_Discard_32 : run unit :=
  read_reg UEDATX ;; read_reg UEDATX ;; read_reg UEDATX ;; read_reg UEDATX ;; mret tt.

(** ** Endpoint_AVR8.c *)

(** One iteration of the loop that configures an endpoint and re-configures the
    allocated ones above it: [false] when the hardware reports an error. *)
Definition configure_one (Number UECFG0XData UECFG1XData EPNum : Z) : run bool :=
  Endpoint_SelectEndpoint EPNum ;;
  cfg ← (if EPNum =? Number then mret (UECFG0XData, UECFG1XData, 0)
         else c0 ← read_reg UECFG0X; c1 ← read_reg UECFG1X; ie ← read_reg UEIENX; mret (c0, c1, ie));
  let '(UECFG0XTemp, UECFG1XTemp, UEIENXTemp) := cfg in
  if negb (Z.testbit UECFG1XTemp ALLOC) then mret true
  else
    Endpoint_DisableEndpoint ;;
    clear_bits UECFG1X (2 ^ ALLOC) ;;
    Endpoint_EnableEndpoint ;;
    write_reg UECFG0X UECFG0XTemp ;;
    write_reg UECFG1X UECFG1XTemp ;;
    write_reg UEIENX UEIENXTemp ;;
    Endpoint_IsConfigured.

Fixpoint configure_from (k : nat) (Number UECFG0XData UECFG1XData EPNum : Z) : run bool :=
  match k with
  | O => Endpoint_SelectEndpoint Number ;; mret true
  | S k' =>
      ok ← configure_one Number UECFG0XData UECFG1XData EPNum;
      if (ok : bool) then configure_from k' Number UECFG0XData UECFG1XData (u8 (EPNum + 1)) else mret false
  end.

Definition Endpoint_ConfigureEndpoint_Prv (Number UECFG0XData UECFG1XData : Z) : run bool :=
  configure_from (Z.to_nat (ENDPOINT_TOTAL_ENDPOINTS - Number)) Number UECFG0XData UECFG1XData Number.

Definition Endpoint_ConfigureEndpoint (Address Type' Size Banks : Z) : run bool :=
  let Number := Z.land Address ENDPOINT_EPNUM_MASK in
  if ENDPOINT_TOTAL_ENDPOINTS <=? Number then mret false
  else
    mask ← lift (Endpoint_BytesToEPSizeMask fuel Size);
    Endpoint_ConfigureEndpoint_Prv Number
      (u8 (Z.lor (Z.shiftl Type' EPTYPE0) (if Z.testbit Address 7 then 2 ^ EPDIR else 0)))
      (u8 (Z.lor (Z.lor (2 ^ ALLOC) (if 1 <? Banks then 2 ^ EPBK0 else 0)) mask)).

Fixpoint Endpoint_ConfigureEndpointTable (Table : list endpoint_table) : run bool :=
  match Table with
  | [] => mret true
  | e :: rest =>
      if ep_Address e =? 0 then Endpoint_ConfigureEndpointTable rest
      else
        ok ← Endpoint_ConfigureEndpoint (ep_Address e) (ep_Type e) (ep_Size e) (ep_Banks e);
        if (ok : bool) then Endpoint_ConfigureEndpointTable rest else mret false
  end.

Definition clear_endpoint (EPNum : nat) : run unit :=
  Endpoint_SelectEndpoint (Z.of_nat EPNum) ;;
  write_reg UEIENX 0 ;;
  write_reg UEINTX 0 ;;
  write_reg UECFG1X 0 ;;
  Endpoint_DisableEndpoint.

Definition Endpoint_ClearEndpoints : run unit :=
  write_reg UEINT 0 ;;
  for_range (Z.to_nat ENDPOINT_TOTAL_ENDPOINTS) 0 clear_endpoint.

(** if (USB_DeviceState == DEVICE_STATE_Unattached) return; *)
Definition is_unattached : run bool := v ← read_reg USB_DeviceState; mret (v =? DEVICE_STATE_Unattached).

(** USB_DeviceState != DEVICE_STATE_Configured *)
Definition not_configured : run bool := st ← read_reg USB_DeviceState; mret (negb (st =? DEVICE_STATE_Configured)).

Definition Endpoint_ClearStatusStage : run unit :=
  r ← get_mem (fun s => USB_ControlRequest (lib s));
  if Z.testbit (bmRequestType r) 7 then
    ok ← wait_until fuel Endpoint_IsOUTReceived is_unattached;
    when ok Endpoint_ClearOUT
  else
    ok ← wait_until fuel Endpoint_IsINReady is_unattached;
    when ok Endpoint_ClearIN.

(** The loop of Endpoint_WaitUntilReady. *)
Fixpoint wait_ready (k : nat) (TimeoutMSRem PreviousFrameNumber : Z) : run Z :=
  match k with
  | O => lift (Fault OutOfFuel)
  | S k' =>
      d ← Endpoint_GetEndpointDirection;
      ready ← (if d =? ENDPOINT_DIR_IN then Endpoint_IsINReady else Endpoint_IsOUTReceived);
      if (ready : bool) then mret ENDPOINT_READYWAIT_NoError
      else
        st ← read_reg USB_DeviceState;
        if st =? DEVICE_STATE_Unattached then mret ENDPOINT_READYWAIT_DeviceDisconnected
        else if st =? DEVICE_STATE_Suspended then mret ENDPOINT_READYWAIT_BusSuspended
        else
          stalled ← Endpoint_IsStalled;
          if (stalled : bool) then mret ENDPOINT_READYWAIT_EndpointStalled
          else
            cur ← read_reg UDFNUM;
            if cur =? PreviousFrameNumber then wait_ready k' TimeoutMSRem PreviousFrameNumber
            else if TimeoutMSRem =? 0 then mret ENDPOINT_READYWAIT_Timeout
            else wait_ready k' (TimeoutMSRem - 1) cur
  end.

Definition Endpoint_WaitUntilReady : run Z :=
  f ← read_reg UDFNUM; wait_ready fuel USB_STREAM_TIMEOUT_MS f.
End endpoint.
