(* ===== verification/EndpointStream.v ===== *)
(** Streams on endpoints: Core/AVR8/EndpointStream_AVR8.c and the three templates
    Template_Endpoint_RW.c, Template_Endpoint_Control_W.c and _R.c.

    The C code instantiates its templates with the preprocessor; here they are
    functions of the macros' meanings: how to move one byte ([transfer], on the
    buffer [mem] and a position), how to release the bank ([clear]), where to start
    ([offset]) and in which direction to move ([move]).  Buffers are arrays of
    [cells]; the flash and EEPROM variants read and write their own memory in the
    same way.  The outer loops take fuel, as they wait for the host. *)

From Stdlib Require Import ZArith Lia.
From stdpp Require Import base tactics list numbers.
From S2P Require Import Prelude Posix Avr Endpoint.

Local Open Scope Z_scope.

(** Endpoint_Stream_RW_ErrorCodes_t and Endpoint_ControlStream_RW_ErrorCodes_t *)
Definition ENDPOINT_RWSTREAM_NoError : Z := 0.
Definition ENDPOINT_RWSTREAM_DeviceDisconnected : Z := 2.
Definition ENDPOINT_RWSTREAM_IncompleteTransfer : Z := 5.
Definition ENDPOINT_RWCSTREAM_NoError : Z := 0.
Definition ENDPOINT_RWCSTREAM_HostAborted : Z := 1.
Definition ENDPOINT_RWCSTREAM_DeviceDisconnected : Z := 2.
Definition ENDPOINT_RWCSTREAM_BusSuspended : Z := 3.

(** Access through a byte pointer. *)
Definition load_at (m : cells) (p : Z) : res Z :=
  if p <? 0 then Fault OutOfBounds else load m (Z.to_nat p).
Definition store_at (m : cells) (p v : Z) : res cells :=
  if p <? 0 then Fault OutOfBounds else store m (Z.to_nat p) v.

Section stream.
Context {H A : Type} `{Hardware H} `{!Interrupts H A}.
Context (fuel : nat).

Abbreviation run := (prog (usb H A)).

(** ** Template_Endpoint_RW.c *)

Fixpoint rw_loop (k : nat) (clear : run unit) (transfer : cells -> Z -> run cells) (move : Z)
    (mem : cells) (DataStream Length BytesInTransfer : Z) (BytesProcessed : option Z)
    : run (Z * cells * option Z) :=
  if Length =? 0 then mret (ENDPOINT_RWSTREAM_NoError, mem, BytesProcessed)
  else
    match k with
    | O => lift (Fault OutOfFuel)
    | S k' =>
        allowed ← Endpoint_IsReadWriteAllowed;
        if negb allowed then
          clear ;;
          match BytesProcessed with
          | Some n => mret (ENDPOINT_RWSTREAM_IncompleteTransfer, mem, Some (u16 (n + BytesInTransfer)))
          | None =>
              e ← Endpoint_WaitUntilReady fuel;
              if negb (e =? 0) then mret (e, mem, BytesProcessed)
              else rw_loop k' clear transfer move mem DataStream Length BytesInTransfer BytesProcessed
          end
        else
          mem' ← transfer mem DataStream;
          rw_loop k' clear transfer move mem' (DataStream + move) (u16 (Length - 1))
                  (u16 (BytesInTransfer + 1)) BytesProcessed
    end.

Definition template_rw (clear : run unit) (transfer : cells -> Z -> run cells) (offset : Z -> Z) (move : Z)
    (mem : cells) (Length : Z) (BytesProcessed : option Z) : run (Z * cells * option Z) :=
  e ← Endpoint_WaitUntilReady fuel;
  if negb (e =? 0) then mret (e, mem, BytesProcessed)
  else
    let done := default 0 BytesProcessed in
    rw_loop fuel clear transfer move mem (offset Length + move * done) (u16 (Length - done)) 0 BytesProcessed.

(** The macros of EndpointStream_AVR8.c. *)
Definition transfer_out (mem : cells) (p : Z) : run cells :=
  b ← lift (load_at mem p); Endpoint_Write_8 b ;; mret mem.
Definition transfer_in (mem : cells) (p : Z) : run cells :=
  b ← Endpoint_Read_8; lift (store_at mem p b).
Definition from_start (Length : Z) : Z := 0.
Definition from_end (Length : Z) : Z := Length - 1.

Definition Endpoint_Write_Stream_LE := template_rw Endpoint_ClearIN transfer_out from_start 1.
Definition Endpoint_Write_Stream_BE := template_rw Endpoint_ClearIN transfer_out from_end (-1).
Definition Endpoint_Read_Stream_LE := template_rw Endpoint_ClearOUT transfer_in from_start 1.
Definition Endpoint_Read_Stream_BE := template_rw Endpoint_ClearOUT transfer_in from_end (-1).
Definition Endpoint_Write_PStream_LE := template_rw Endpoint_ClearIN transfer_out from_start 1.
Definition Endpoint_Write_PStream_BE := template_rw Endpoint_ClearIN transfer_out from_end (-1).
Definition Endpoint_Write_EStream_LE := template_rw Endpoint_ClearIN transfer_out from_start 1.
Definition Endpoint_Write_EStream_BE := template_rw Endpoint_ClearIN transfer_out from_end (-1).
Definition Endpoint_Read_EStream_LE := template_rw Endpoint_ClearOUT transfer_in from_start 1.
Definition Endpoint_Read_EStream_BE := template_rw Endpoint_ClearOUT transfer_in from_end (-1).

(** The two stream functions written out in the C file are the template without a
    buffer. *)
Definition discard_byte (mem : cells) (p : Z) : run cells := Endpoint_Discard_8 ;; mret mem.
Definition null_byte (mem : cells) (p : Z) : run cells := Endpoint_Write_8 0 ;; mret mem.

Definition Endpoint_Discard_Stream (Length : Z) (BytesProcessed : option Z) : run (Z * cells * option Z) :=
  template_rw Endpoint_ClearOUT discard_byte from_start 0 [] Length BytesProcessed.
Definition Endpoint_Null_Stream (Length : Z) (BytesProcessed : option Z) : run (Z * cells * option Z) :=
  template_rw Endpoint_ClearIN null_byte from_start 0 [] Length BytesProcessed.

(** ** Template_Endpoint_Control_W.c *)

(** The state checks at the head of the control loops: an error code, or none. *)
Definition bus_error : run (option Z) :=
  st ← read_reg USB_DeviceState;
  mret (if st =? DEVICE_STATE_Unattached then Some ENDPOINT_RWCSTREAM_DeviceDisconnected
        else if st =? DEVICE_STATE_Suspended then Some ENDPOINT_RWCSTREAM_BusSuspended
        else None).

(** while (!(ready)) with the two checks, then success. *)
Fixpoint control_wait (k : nat) (ready : run bool) : run Z :=
  match k with
  | O => lift (Fault OutOfFuel)
  | S k' =>
      r ← ready;
      if (r : bool) then mret ENDPOINT_RWCSTREAM_NoError
      else
        e ← bus_error;
        match (e : option Z) with
        | Some c => mret c
        | None => control_wait k' ready
        end
  end.

(** The inner loop that fills a bank; the bank holds at most 8 bytes. *)
Fixpoint fill_bank (k : nat) (transfer : cells -> Z -> run cells) (move : Z)
    (mem : cells) (DataStream Length BytesInEndpoint : Z) : run (cells * Z * Z * Z) :=
  match k with
  | O => mret (mem, DataStream, Length, BytesInEndpoint)
  | S k' =>
      if negb (Length =? 0) && (BytesInEndpoint <? USB_Device_ControlEndpointSize) then
        mem' ← transfer mem DataStream;
        fill_bank k' transfer move mem' (DataStream + move) (u16 (Length - 1)) (u16 (BytesInEndpoint + 1))
      else mret (mem, DataStream, Length, BytesInEndpoint)
  end.

(** The outer loop; [None] when it ends without an error code. *)
Fixpoint control_w_loop (k : nat) (transfer : cells -> Z -> run cells) (move : Z)
    (mem : cells) (DataStream Length : Z) (LastPacketFull : bool) : run (option Z * cells) :=
  if (Length =? 0) && negb LastPacketFull then mret (None, mem)
  else
    match k with
    | O => lift (Fault OutOfFuel)
    | S k' =>
        e ← bus_error;
        match (e : option Z) with
        | Some c => mret (Some c, mem)
        | None =>
            setup ← Endpoint_IsSETUPReceived;
            if (setup : bool) then mret (Some ENDPOINT_RWCSTREAM_HostAborted, mem)
            else
              out ← Endpoint_IsOUTReceived;
              if (out : bool) then mret (None, mem)
              else
                ready ← Endpoint_IsINReady;
                if (ready : bool) then
                  n ← Endpoint_BytesInEndpoint;
                  r ← fill_bank (Z.to_nat USB_Device_ControlEndpointSize) transfer move mem DataStream Length n;
                  let '(mem', DataStream', Length', n') := r in
                  Endpoint_ClearIN ;;
                  control_w_loop k' transfer move mem' DataStream' Length'
                                 (n' =? USB_Device_ControlEndpointSize)
                else control_w_loop k' transfer move mem DataStream Length LastPacketFull
        end
    end.

Definition template_control_w (transfer : cells -> Z -> run cells) (offset : Z -> Z) (move : Z)
    (mem : cells) (Length : Z) : run (Z * cells) :=
  let DataStream := offset Length in
  req ← get_mem (fun s => USB_ControlRequest (lib s));
  let Length' := if wLength req <? Length then wLength req else Length in
  when (negb (wLength req <? Length) && (Length =? 0)) Endpoint_ClearIN ;;
  r ← control_w_loop fuel transfer move mem DataStream Length' false;
  let '(e, mem') := r in
  match (e : option Z) with
  | Some c => mret (c, mem')
  | None => c ← control_wait fuel Endpoint_IsOUTReceived; mret (c, mem')
  end.

Definition Endpoint_Write_Control_Stream_LE := template_control_w transfer_out from_start 1.
Definition Endpoint_Write_Control_Stream_BE := template_control_w transfer_out from_end (-1).
Definition Endpoint_Write_Control_PStream_LE := template_control_w transfer_out from_start 1.
Definition Endpoint_Write_Control_PStream_BE := template_control_w transfer_out from_end (-1).
Definition Endpoint_Write_Control_EStream_LE := template_control_w transfer_out from_start 1.
Definition Endpoint_Write_Control_EStream_BE := template_control_w transfer_out from_end (-1).

(** ** Template_Endpoint_Control_R.c *)

(** The inner loop: while (Length && Endpoint_BytesInEndpoint()). *)
Fixpoint drain_bank (k : nat) (transfer : cells -> Z -> run cells) (move : Z)
    (mem : cells) (DataStream Length : Z) : run (cells * Z * Z) :=
  if Length =? 0 then mret (mem, DataStream, Length)
  else
    n ← Endpoint_BytesInEndpoint;
    if n =? 0 then mret (mem, DataStream, Length)
    else
      match k with
      | O => lift (Fault OutOfFuel)
      | S k' =>
          mem' ← transfer mem DataStream;
          drain_bank k' transfer move mem' (DataStream + move) (u16 (Length - 1))
      end.

Fixpoint control_r_loop (k : nat) (transfer : cells -> Z -> run cells) (move : Z)
    (mem : cells) (DataStream Length : Z) : run (option Z * cells) :=
  if Length =? 0 then mret (None, mem)
  else
    match k with
    | O => lift (Fault OutOfFuel)
    | S k' =>
        e ← bus_error;
        match (e : option Z) with
        | Some c => mret (Some c, mem)
        | None =>
            setup ← Endpoint_IsSETUPReceived;
            if (setup : bool) then mret (Some ENDPOINT_RWCSTREAM_HostAborted, mem)
            else
              out ← Endpoint_IsOUTReceived;
              if (out : bool) then
                r ← drain_bank fuel transfer move mem DataStream Length;
                let '(mem', DataStream', Length') := r in
                Endpoint_ClearOUT ;;
                control_r_loop k' transfer move mem' DataStream' Length'
              else control_r_loop k' transfer move mem DataStream Length
        end
    end.

Definition template_control_r (transfer : cells -> Z -> run cells) (offset : Z -> Z) (move : Z)
    (mem : cells) (Length : Z) : run (Z * cells) :=
  when (Length =? 0) Endpoint_ClearOUT ;;
  r ← control_r_loop fuel transfer move mem (offset Length) Length;
  let '(e, mem') := r in
  match (e : option Z) with
  | Some c => mret (c, mem')
  | None => c ← control_wait fuel Endpoint_IsINReady; mret (c, mem')
  end.

Definition Endpoint_Read_Control_Stream_LE := template_control_r transfer_in from_start 1.
Definition Endpoint_Read_Control_Stream_BE := template_control_r transfer_in from_end (-1).
Definition Endpoint_Read_Control_EStream_LE := template_control_r transfer_in from_start 1.
Definition Endpoint_Read_Control_EStream_BE := template_control_r transfer_in from_end (-1).
End stream.
