(* ===== verification/Within.v ===== *)
(** What a program does to the application's globals at most.

    [within R m]: however [m] ends, and whatever the hardware does, the globals after it
    are related by the preorder [R] to those before.  It is enough to look at the places
    where the program assigns to them; the tactic [walk] finds those. *)

From Stdlib Require Import ZArith Lia.
From stdpp Require Import base tactics list numbers.
From S2P Require Import Prelude Posix Avr Endpoint EndpointStream.

Section within.
Context {H A : Type} `{HW : Hardware H} `{IR : !Interrupts H A} (R : A -> A -> Prop) `{PR : !PreOrder R}.

Abbreviation run := (prog (usb H A)).

Definition within {B} (m : run B) : Prop := forall s, R (app s) (app (m s).2).

(** Interrupt handlers stay within [R] too. *)
Context (HI : within interrupt).

Lemma within_ret {B} (b : B) : within (mret b).
Proof. intros s. reflexivity. Qed.

Lemma within_bind {B C} (m : run B) (k : B -> run C) : within m -> (forall b, within (k b)) -> within (m ≫= k).
Proof.
  intros Hm Hk s. specialize (Hm s). unfold mbind, prog_bind. destruct (m s) as [[b|c|f] s']; [|done..]. etransitivity; [exact Hm|]. apply Hk.
Qed.

Lemma within_lift {B} (r : res B) : within (lift r).
Proof. intros s. unfold lift. destruct r; reflexivity. Qed.

Lemma within_exits {B} c : within (exits (A := B) c).
Proof. intros s. reflexivity. Qed.

Lemma within_when b (m : run unit) : within m -> within (when b m).
Proof. destruct b; [done|]. intros _. apply within_ret. Qed.

Lemma within_read r : within (read_reg r).
Proof using HI PR. apply within_bind; [done|]. intros _ s. unfold load_reg. destruct (rd r (hw s)). reflexivity. Qed.

Lemma within_write r v : within (write_reg r v).
Proof using HI PR. apply within_bind; [done|]. intros _ s. reflexivity. Qed.

Lemma within_get {B} (f : usb H A -> B) : within (get_mem f).
Proof using HI PR. apply within_bind; [done|]. intros _ s. reflexivity. Qed.

Lemma within_set f : (forall s, R (app s) (app (f s))) -> within (set_mem f).
Proof using HI PR. intros Hf. apply within_bind; [done|]. intros _ s. apply Hf. Qed.

Lemma within_wait ready stop fuel : within ready -> within stop -> within (wait_until fuel ready stop).
Proof using PR.
  intros Hr Hs. induction fuel as [|k IH]; cbn [wait_until]; [apply within_lift|].
  apply within_bind; [done|]. intros [|]; [apply within_ret|]. apply within_bind; [done|]. intros [|]; [apply within_ret|done].
Qed.
End within.

Create HintDb within.
#[export] Hint Resolve within_ret within_lift within_exits within_read within_write within_get : within.

(** The structure of a program, down to its assignments. *)
Ltac walk :=
  repeat first
    [ by eauto 4 with within typeclass_instances
    | match goal with
      | |- within _ (_ ≫= _) => apply within_bind; [typeclasses eauto| |intros ?]
      | |- within _ (when _ _) => apply within_when; [typeclasses eauto|]
      | |- within _ (wait_until _ _ _) => apply within_wait; [typeclasses eauto|..]
      | |- within _ (if ?b then _ else _) => destruct b
      | |- within _ (match ?o with Some _ => _ | None => _ end) => destruct o
      | |- within _ (let _ := _ in _) => cbv zeta
      | |- within _ ?m => let f := head_of m in unfold f
      end ].

(** * Streams *)

Section streams.
Context {H A : Type} `{HW : Hardware H} `{IR : !Interrupts H A} (R : A -> A -> Prop) `{PR : !PreOrder R} (HI : within R interrupt) (fuel : nat).

Lemma within_wait_ready k : forall t p, within R (wait_ready k t p).
Proof using HI PR. induction k as [|k IH]; intros t p; cbn [wait_ready]; walk. Qed.
#[local] Hint Resolve within_wait_ready : within.

Lemma within_rw clear transfer move mem : within R clear -> (forall mem p, within R (transfer mem p)) ->
  forall offset n b, within R (template_rw fuel clear transfer offset move mem n b).
Proof using HI PR.
  intros Hc Ht offset n b.
  assert (forall k mem p n i b, within R (rw_loop fuel k clear transfer move mem p n i b)) as Hloop.
  { clear mem n b. induction k as [|k IH]; intros mem p n i b; cbn [rw_loop]; walk. }
  walk.
Qed.

Lemma within_null_stream n b : within R (Endpoint_Null_Stream fuel n b).
Proof using HI PR. apply within_rw; intros; walk. Qed.

Lemma within_write_stream mem n b : within R (Endpoint_Write_Stream_LE fuel mem n b).
Proof using HI PR. apply within_rw; intros; walk. Qed.

Lemma within_read_stream mem n b : within R (Endpoint_Read_Stream_LE fuel mem n b).
Proof using HI PR. apply within_rw; intros; walk. Qed.
End streams.
#[export] Hint Resolve within_null_stream within_write_stream within_read_stream : within.
