(* ===== verification/Device.v ===== *)
(** The device side of the USB library.

    Core/DeviceStandardReq.c (control requests), Core/USBTask.c, the inline
    functions of Core/AVR8/Device_AVR8.h, USBController_AVR8.h and
    USBInterrupt_AVR8.h, Core/AVR8/Device_AVR8.c, USBController_AVR8.c and the two
    interrupt handlers of USBInterrupt_AVR8.c, for the configuration that the
    firmware is built with: ATmega16U2 (USB_SERIES_2_AVR), device mode only,
    descriptors in flash, fixed control endpoint size and number of
    configurations, interrupt driven control endpoint, static options with the
    regulator on and automatic PLL control.

    The functions that the library expects from the application are variables of
    the section: the three events and CALLBACK_USB_GetDescriptor. *)

From Stdlib Require Import ZArith Lia.
From stdpp Require Import base tactics list numbers.
From S2P Require Import Prelude Posix Avr Endpoint EndpointStream.

Local Open Scope Z_scope.

(** Requests *)
Definition REQ_GetStatus : Z := 0.
Definition REQ_ClearFeature : Z := 1.
Definition REQ_SetFeature : Z := 3.
Definition REQ_SetAddress : Z := 5.
Definition REQ_GetDescriptor : Z := 6.
Definition REQ_GetConfiguration : Z := 8.
Definition REQ_SetConfiguration : Z := 9.
Definition REQTYPE_CLASS : Z := 32.
Definition REQREC_INTERFACE : Z := 1.
Definition REQREC_ENDPOINT : Z := 2.
Definition CONTROL_REQTYPE_RECIPIENT : Z := 31.
Definition FEATURE_SEL_EndpointHalt : Z := 0.
Definition FEATURE_SEL_DeviceRemoteWakeup : Z := 1.
Definition DTYPE_Device : Z := 1.
Definition DTYPE_Configuration : Z := 2.
Definition DTYPE_String : Z := 3.
Definition NO_DESCRIPTOR : Z := 0.
Definition FIXED_NUM_CONFIGURATIONS : Z := 1.
Definition USE_INTERNAL_SERIAL : Z := 220.
Definition INTERNAL_SERIAL_LENGTH_BITS : Z := 80.
Definition INTERNAL_SERIAL_START_ADDRESS : Z := 14.

(** USE_STATIC_OPTIONS of LUFAConfig.h, and the option masks. *)
Definition USB_Options : Z := 0.
Definition USB_OPT_REG_DISABLED : Z := 2.
Definition USB_OPT_MANUAL_PLL : Z := 4.
Definition USB_OPT_REG_KEEP_ENABLED : Z := 8.
Definition option_set (mask : Z) : bool := negb (Z.land USB_Options mask =? 0).

(** USB_Interrupts_t, for device mode on this controller. *)
Inductive usb_int : Type := USB_INT_WAKEUPI | USB_INT_SUSPI | USB_INT_EORSTI | USB_INT_SOFI | USB_INT_RXSTPI.

(** The characters of the serial number: hexadecimal digits of the signature row,
    low nibble first, as 16-bit little endian characters. *)
Definition hex_char (d : Z) : Z := if 10 <=? d then 65 - 10 + d else 48 + d.

Fixpoint serial_chars (k : nat) (SerialCharNum SigReadAddress : Z) (signature : Z -> Z) : list Z :=
  match k with
  | O => []
  | S k' =>
      let SerialByte := signature SigReadAddress in
      let odd := Z.testbit SerialCharNum 0 in
      let nibble := Z.land (if odd then Z.shiftr SerialByte 4 else SerialByte) 15 in
      hex_char nibble :: serial_chars k' (SerialCharNum + 1) (if odd then SigReadAddress + 1 else SigReadAddress) signature
  end.

Definition USB_Device_GetSerialString (signature : Z -> Z) : list Z :=
  serial_chars (Z.to_nat (INTERNAL_SERIAL_LENGTH_BITS / 4)) 0 INTERNAL_SERIAL_START_ADDRESS signature.

(** A string of 16-bit characters in memory, little endian. *)
Definition le16_bytes (l : list Z) : list Z := concat (map (fun c => [u8 c; u8 (Z.shiftr c 8)]) l).

Definition SignatureDescriptor (signature : Z -> Z) : cells :=
  map Some ([u8 (2 + INTERNAL_SERIAL_LENGTH_BITS / 4 * 2); DTYPE_String] ++
            le16_bytes (USB_Device_GetSerialString signature)).

(** Byte [i] of USB_ControlRequest; its words are little endian. *)
Definition set_header_byte (i : nat) (b : Z) (r : request) : request :=
  let low w := w / 256 * 256 + b in
  let high w := w mod 256 + 256 * b in
  match i with
  | 0 => mk_request b (bRequest r) (wValue r) (wIndex r) (wLength r)
  | 1 => mk_request (bmRequestType r) b (wValue r) (wIndex r) (wLength r)
  | 2 => mk_request (bmRequestType r) (bRequest r) (low (wValue r)) (wIndex r) (wLength r)
  | 3 => mk_request (bmRequestType r) (bRequest r) (high (wValue r)) (wIndex r) (wLength r)
  | 4 => mk_request (bmRequestType r) (bRequest r) (wValue r) (low (wIndex r)) (wLength r)
  | 5 => mk_request (bmRequestType r) (bRequest r) (wValue r) (high (wIndex r)) (wLength r)
  | 6 => mk_request (bmRequestType r) (bRequest r) (wValue r) (wIndex r) (low (wLength r))
  | 7 => mk_request (bmRequestType r) (bRequest r) (wValue r) (wIndex r) (high (wLength r))
  | _ => r
  end%nat.

Section device.
Context {H A : Type} `{Hardware H} `{!Interrupts H A}.
Context (fuel : nat).
(** boot_signature_byte_get of avr-libc *)
Context (signature : Z -> Z).

Abbreviation run := (prog (usb H A)).

Context (EVENT_USB_Device_ControlRequest EVENT_USB_Device_ConfigurationChanged : run unit).
Context (EVENT_USB_Device_Connect EVENT_USB_Device_Disconnect : run unit).
(** The size of the descriptor and the flash memory at its address. *)
Context (CALLBACK_USB_GetDescriptor : Z -> Z -> Z * cells).

(** ** Inline functions *)

Definition USB_Device_GetFrameNumber : run Z := read_reg UDFNUM.
Definition USB_Device_SetDeviceAddress (Address : Z) : run unit :=
  v ← read_reg UDADDR; write_reg UDADDR (Z.lor (Z.land v (2 ^ ADDEN)) (Z.land Address 127)).
Definition USB_Device_EnableDeviceAddress : run unit := set_bits UDADDR (2 ^ ADDEN).
Definition USB_Device_IsAddressSet : run bool := bit_of UDADDR ADDEN.

Definition USB_Detach : run unit := set_bits UDCON (2 ^ DETACH).
Definition USB_Attach : run unit := clear_bits UDCON (2 ^ DETACH).
Definition USB_PLL_On : run unit :=
  write_reg PLLCSR (2 ^ PLLP0) ;; write_reg PLLCSR (Z.lor (2 ^ PLLP0) (2 ^ PLLE)).
Definition USB_PLL_Off : run unit := write_reg PLLCSR 0.
Definition USB_PLL_IsReady : run bool := bit_of PLLCSR PLOCK.
Definition USB_REG_On : run unit := clear_bits REGCR (2 ^ REGDIS).
Definition USB_REG_Off : run unit := set_bits REGCR (2 ^ REGDIS).
Definition USB_CLK_Freeze : run unit := set_bits USBCON (2 ^ FRZCLK).
Definition USB_CLK_Unfreeze : run unit := clear_bits USBCON (2 ^ FRZCLK).
Definition USB_Controller_Enable : run unit := set_bits USBCON (2 ^ USBE).
Definition USB_Controller_Disable : run unit := clear_bits USBCON (2 ^ USBE).
Definition USB_Controller_Reset : run unit := clear_bits USBCON (2 ^ USBE) ;; set_bits USBCON (2 ^ USBE).

(** The enable register and flag register of an interrupt, with its bit. *)
Definition int_enable_bit (i : usb_int) : reg * Z :=
  match i with
  | USB_INT_WAKEUPI => (UDIEN, WAKEUPI)
  | USB_INT_SUSPI => (UDIEN, SUSPI)
  | USB_INT_EORSTI => (UDIEN, EORSTI)
  | USB_INT_SOFI => (UDIEN, SOFI)
  | USB_INT_RXSTPI => (UEIENX, RXSTPE)
  end.

Definition int_flag_bit (i : usb_int) : reg * Z :=
  match i with
  | USB_INT_WAKEUPI => (UDINT, WAKEUPI)
  | USB_INT_SUSPI => (UDINT, SUSPI)
  | USB_INT_EORSTI => (UDINT, EORSTI)
  | USB_INT_SOFI => (UDINT, SOFI)
  | USB_INT_RXSTPI => (UEINTX, RXSTPI)
  end.

Definition USB_INT_Enable (i : usb_int) : run unit := set_bits (int_enable_bit i).1 (2 ^ (int_enable_bit i).2).
Definition USB_INT_Disable (i : usb_int) : run unit := clear_bits (int_enable_bit i).1 (2 ^ (int_enable_bit i).2).
Definition USB_INT_Clear (i : usb_int) : run unit := clear_bits (int_flag_bit i).1 (2 ^ (int_flag_bit i).2).
Definition USB_INT_IsEnabled (i : usb_int) : run bool := bit_of (int_enable_bit i).1 (int_enable_bit i).2.
Definition USB_INT_HasOccurred (i : usb_int) : run bool := bit_of (int_flag_bit i).1 (int_flag_bit i).2.

Definition USB_INT_DisableAllInterrupts : run unit := write_reg UDIEN 0.
Definition USB_INT_ClearAllInterrupts : run unit := write_reg UDINT 0.

(** ** Device_AVR8.c *)

(** if (!(USB_Options & USB_OPT_MANUAL_PLL)) { USB_PLL_On(); while (!(USB_PLL_IsReady())); } *)
Definition start_pll : run unit :=
  when (negb (option_set USB_OPT_MANUAL_PLL))
    (USB_PLL_On ;; wait_until fuel USB_PLL_IsReady never ;; mret tt).

Definition USB_Device_SendRemoteWakeup : run unit :=
  start_pll ;;
  USB_CLK_Unfreeze ;;
  set_bits UDCON (2 ^ RMWKUP) ;;
  wait_until fuel (b ← bit_of UDCON RMWKUP; mret (negb b)) never ;;
  mret tt.

(** ** DeviceStandardReq.c *)

Definition get_request : run request := get_mem (fun s => USB_ControlRequest (lib s)).

Definition USB_Device_SetAddress : run unit :=
  req ← get_request;
  let DeviceAddress := Z.land (wValue req) 127 in
  USB_Device_SetDeviceAddress DeviceAddress ;;
  Endpoint_ClearSETUP ;;
  Endpoint_ClearStatusStage fuel ;;
  wait_until fuel Endpoint_IsINReady never ;;
  USB_Device_EnableDeviceAddress ;;
  write_reg USB_DeviceState (if DeviceAddress =? 0 then DEVICE_STATE_Default else DEVICE_STATE_Addressed).

Definition USB_Device_SetConfiguration : run unit :=
  req ← get_request;
  if FIXED_NUM_CONFIGURATIONS <? u8 (wValue req) then mret tt
  else
    Endpoint_ClearSETUP ;;
    req' ← get_request;
    set_mem (on_lib (set_configuration (u8 (wValue req')))) ;;
    Endpoint_ClearStatusStage fuel ;;
    n ← get_mem (fun s => USB_Device_ConfigurationNumber (lib s));
    (if negb (n =? 0) then write_reg USB_DeviceState DEVICE_STATE_Configured
     else
       b ← USB_Device_IsAddressSet;
       write_reg USB_DeviceState (if (b : bool) then DEVICE_STATE_Configured else DEVICE_STATE_Powered)) ;;
    EVENT_USB_Device_ConfigurationChanged.

Definition USB_Device_GetConfiguration : run unit :=
  Endpoint_ClearSETUP ;;
  n ← get_mem (fun s => USB_Device_ConfigurationNumber (lib s));
  Endpoint_Write_8 n ;;
  Endpoint_ClearIN ;;
  Endpoint_ClearStatusStage fuel.

Definition USB_Device_GetInternalSerialDescriptor : run unit :=
  sreg ← read_reg SREG;
  write_reg SREG (u8 (Z.ldiff sreg 128)) ;;
  write_reg SREG sreg ;;
  Endpoint_ClearSETUP ;;
  Endpoint_Write_Control_Stream_LE fuel (SignatureDescriptor signature)
    (Z.of_nat (length (SignatureDescriptor signature))) ;;
  Endpoint_ClearOUT.

Definition USB_Device_GetDescriptor : run unit :=
  req ← get_request;
  if wValue req =? Z.lor (Z.shiftl DTYPE_String 8) USE_INTERNAL_SERIAL then
    USB_Device_GetInternalSerialDescriptor
  else
    value ← get_request;
    index ← get_request;
    let '(DescriptorSize, DescriptorPointer) := CALLBACK_USB_GetDescriptor (wValue value) (u8 (wIndex index)) in
    if DescriptorSize =? NO_DESCRIPTOR then mret tt
    else
      Endpoint_ClearSETUP ;;
      Endpoint_Write_Control_PStream_LE fuel DescriptorPointer DescriptorSize ;;
      Endpoint_ClearOUT.

(** The status to report; [None] for a recipient that is not handled. *)
Definition current_status : run (option Z) :=
  req ← get_request;
  if bmRequestType req =? REQDIR_DEVICETOHOST then
    p ← get_mem (fun s => USB_Device_CurrentlySelfPowered (lib s));
    w ← get_mem (fun s => USB_Device_RemoteWakeupEnabled (lib s));
    mret (Some (Z.lor (if (p : bool) then 1 else 0) (if (w : bool) then 2 else 0)))
  else if bmRequestType req =? Z.lor REQDIR_DEVICETOHOST REQREC_ENDPOINT then
    index ← get_request;
    Endpoint_SelectEndpoint (Z.land (u8 (wIndex index)) ENDPOINT_EPNUM_MASK) ;;
    b ← Endpoint_IsStalled;
    Endpoint_SelectEndpoint ENDPOINT_CONTROLEP ;;
    mret (Some (Z.b2z b))
  else mret None.

Definition USB_Device_GetStatus : run unit :=
  st ← current_status;
  match (st : option Z) with
  | None => mret tt
  | Some CurrentStatus =>
      Endpoint_ClearSETUP ;;
      Endpoint_Write_16_LE CurrentStatus ;;
      Endpoint_ClearIN ;;
      Endpoint_ClearStatusStage fuel
  end.

(** USB_ControlRequest.bRequest == REQ_SetFeature *)
Definition is_set_feature : run bool := r ← get_request; mret (bRequest r =? REQ_SetFeature).

(** The feature to set or clear: [false] when the function returns at once. *)
Definition apply_feature : run bool :=
  req ← get_request;
  let recipient := Z.land (bmRequestType req) CONTROL_REQTYPE_RECIPIENT in
  if recipient =? 0 then
    value ← get_request;
    if u8 (wValue value) =? FEATURE_SEL_DeviceRemoteWakeup
    then set ← is_set_feature; set_mem (on_lib (set_wakeup set)) ;; mret true
    else mret false
  else if recipient =? REQREC_ENDPOINT then
    value ← get_request;
    if u8 (wValue value) =? FEATURE_SEL_EndpointHalt then
      index ← get_request;
      let EndpointIndex := Z.land (u8 (wIndex index)) ENDPOINT_EPNUM_MASK in
      if EndpointIndex =? ENDPOINT_CONTROLEP then mret false
      else
        Endpoint_SelectEndpoint EndpointIndex ;;
        en ← Endpoint_IsEnabled;
        when en (
          set ← is_set_feature;
          if (set : bool) then Endpoint_StallTransaction
          else Endpoint_ClearStall ;; Endpoint_ResetEndpoint EndpointIndex ;; Endpoint_ResetDataToggle) ;;
        mret true
    else mret true
  else mret false.

Definition USB_Device_ClearSetFeature : run unit :=
  ok ← apply_feature;
  when ok (
    Endpoint_SelectEndpoint ENDPOINT_CONTROLEP ;;
    Endpoint_ClearSETUP ;;
    Endpoint_ClearStatusStage fuel).

(** The eight bytes of the SETUP packet, each stored as it is read. *)
Definition read_header_byte (i : nat) : run unit :=
  b ← Endpoint_Read_8;
  set_mem (on_lib (fun c => set_request (set_header_byte i b (USB_ControlRequest c)) c)).

Fixpoint read_header (k i : nat) : run unit :=
  match k with
  | O => mret tt
  | S k' => read_header_byte i ;; read_header k' (S i)
  end.

(** The switch over standard requests. *)
Definition standard_request (bm r : Z) : run unit :=
  let to_device := bm =? 0 in
  let from_device := bm =? REQDIR_DEVICETOHOST in
  if r =? REQ_GetStatus then
    when (from_device || (bm =? Z.lor REQDIR_DEVICETOHOST REQREC_ENDPOINT)) USB_Device_GetStatus
  else if (r =? REQ_ClearFeature) || (r =? REQ_SetFeature) then
    when (to_device || (bm =? REQREC_ENDPOINT)) USB_Device_ClearSetFeature
  else if r =? REQ_SetAddress then when to_device USB_Device_SetAddress
  else if r =? REQ_GetDescriptor then
    when (from_device || (bm =? Z.lor REQDIR_DEVICETOHOST REQREC_INTERFACE)) USB_Device_GetDescriptor
  else if r =? REQ_GetConfiguration then when from_device USB_Device_GetConfiguration
  else if r =? REQ_SetConfiguration then when to_device USB_Device_SetConfiguration
  else mret tt.

Definition USB_Device_ProcessControlRequest : run unit :=
  read_header 8 0 ;;
  EVENT_USB_Device_ControlRequest ;;
  pending ← Endpoint_IsSETUPReceived;
  when pending (bm ← get_request; r ← get_request; standard_request (bmRequestType bm) (bRequest r)) ;;
  left ← Endpoint_IsSETUPReceived;
  when left (Endpoint_ClearSETUP ;; Endpoint_StallTransaction).

(** ** USBTask.c *)

Definition USB_DeviceTask : run unit :=
  st ← read_reg USB_DeviceState;
  if st =? DEVICE_STATE_Unattached then mret tt
  else
    PrevEndpoint ← Endpoint_GetCurrentEndpoint;
    Endpoint_SelectEndpoint ENDPOINT_CONTROLEP ;;
    setup ← Endpoint_IsSETUPReceived;
    when setup USB_Device_ProcessControlRequest ;;
    Endpoint_SelectEndpoint PrevEndpoint.

Definition USB_USBTask : run unit := USB_DeviceTask.

(** ** USBController_AVR8.c *)

Definition USB_Init_Device : run unit :=
  write_reg USB_DeviceState DEVICE_STATE_Unattached ;;
  set_mem (on_lib (fun c => set_selfpowered false (set_wakeup false (set_configuration 0 c)))) ;;
  Endpoint_ConfigureEndpoint fuel ENDPOINT_CONTROLEP EP_TYPE_CONTROL USB_Device_ControlEndpointSize 1 ;;
  USB_INT_Clear USB_INT_SUSPI ;;
  USB_INT_Enable USB_INT_SUSPI ;;
  USB_INT_Enable USB_INT_EORSTI ;;
  USB_Attach.

Definition USB_ResetInterface : run unit :=
  USB_INT_DisableAllInterrupts ;;
  USB_INT_ClearAllInterrupts ;;
  USB_Controller_Reset ;;
  USB_CLK_Unfreeze ;;
  start_pll ;;
  USB_Init_Device.

Definition USB_Init : run unit :=
  (if negb (option_set USB_OPT_REG_DISABLED) then USB_REG_On else USB_REG_Off) ;;
  set_mem (on_lib (set_initialized true)) ;;
  USB_ResetInterface.

Definition USB_Disable : run unit :=
  USB_INT_DisableAllInterrupts ;;
  USB_INT_ClearAllInterrupts ;;
  USB_Detach ;;
  USB_Controller_Disable ;;
  when (negb (option_set USB_OPT_MANUAL_PLL)) USB_PLL_Off ;;
  when (negb (option_set USB_OPT_REG_KEEP_ENABLED)) USB_REG_Off ;;
  set_mem (on_lib (set_initialized false)).

(** ** USBInterrupt_AVR8.c *)

(** USB_INT_HasOccurred(i) && USB_INT_IsEnabled(i) *)
Definition int_pending (i : usb_int) : run bool :=
  a ← USB_INT_HasOccurred i;
  if (a : bool) then USB_INT_IsEnabled i else mret false.

Definition on_sof : run unit := USB_INT_Clear USB_INT_SOFI.

Definition on_suspend : run unit :=
  USB_INT_Disable USB_INT_SUSPI ;;
  USB_INT_Enable USB_INT_WAKEUPI ;;
  USB_CLK_Freeze ;;
  when (negb (option_set USB_OPT_MANUAL_PLL)) USB_PLL_Off ;;
  write_reg USB_DeviceState DEVICE_STATE_Unattached ;;
  EVENT_USB_Device_Disconnect.

Definition on_wakeup : run unit :=
  start_pll ;;
  USB_CLK_Unfreeze ;;
  USB_INT_Clear USB_INT_WAKEUPI ;;
  USB_INT_Disable USB_INT_WAKEUPI ;;
  USB_INT_Enable USB_INT_SUSPI ;;
  n ← get_mem (fun s => USB_Device_ConfigurationNumber (lib s));
  (if negb (n =? 0) then write_reg USB_DeviceState DEVICE_STATE_Configured
   else
     b ← USB_Device_IsAddressSet;
     write_reg USB_DeviceState (if (b : bool) then DEVICE_STATE_Addressed else DEVICE_STATE_Powered)) ;;
  EVENT_USB_Device_Connect.

Definition on_reset : run unit :=
  USB_INT_Clear USB_INT_EORSTI ;;
  write_reg USB_DeviceState DEVICE_STATE_Default ;;
  set_mem (on_lib (set_configuration 0)) ;;
  USB_INT_Clear USB_INT_SUSPI ;;
  USB_INT_Disable USB_INT_SUSPI ;;
  USB_INT_Enable USB_INT_WAKEUPI ;;
  Endpoint_ConfigureEndpoint fuel ENDPOINT_CONTROLEP EP_TYPE_CONTROL USB_Device_ControlEndpointSize 1 ;;
  USB_INT_Enable USB_INT_RXSTPI.

(** ISR(USB_GEN_vect) *)
Definition USB_GEN_vect : run unit :=
  a ← int_pending USB_INT_SOFI; when a on_sof ;;
  b ← int_pending USB_INT_SUSPI; when b on_suspend ;;
  c ← int_pending USB_INT_WAKEUPI; when c on_wakeup ;;
  d ← int_pending USB_INT_EORSTI; when d on_reset.

(** ISR(USB_COM_vect) *)
Definition USB_COM_vect : run unit :=
  PrevSelectedEndpoint ← Endpoint_GetCurrentEndpoint;
  Endpoint_SelectEndpoint ENDPOINT_CONTROLEP ;;
  USB_INT_Disable USB_INT_RXSTPI ;;
  set_bits SREG 128 ;;
  USB_Device_ProcessControlRequest ;;
  Endpoint_SelectEndpoint ENDPOINT_CONTROLEP ;;
  USB_INT_Enable USB_INT_RXSTPI ;;
  Endpoint_SelectEndpoint PrevSelectedEndpoint.
End device.
