(* ===== verification/Descriptors.v ===== *)
(** Descriptors: firmware/RNG/Descriptors.c and .h, and the functions of
    Core/ConfigDescriptors.c that walk a configuration descriptor.

    The packed structs are records, [..._bytes] their memory image, and the
    constants of Descriptors.c their values; CALLBACK_USB_GetDescriptor returns the
    size and the flash memory at the address, as [Device] expects.  The walk works
    on a buffer with a position and the number of bytes that remain. *)

From Stdlib Require Import ZArith Lia.
From stdpp Require Import base tactics list numbers.
From S2P Require Import Prelude Endpoint EndpointStream Device.

Local Open Scope Z_scope.

(** * The structs *)

Record desc_header : Type := mk_header { Size : Z; Type' : Z }.

Definition le16 (v : Z) : list Z := [u8 v; u8 (Z.shiftr v 8)].
Definition header_bytes (h : desc_header) : list Z := [Size h; Type' h].

Record desc_device : Type := mk_desc_device {
  dd_Header : desc_header; USBSpecification : Z; dd_Class : Z; dd_SubClass : Z; dd_Protocol : Z;
  Endpoint0Size : Z; VendorID : Z; ProductID : Z; ReleaseNumber : Z;
  ManufacturerStrIndex : Z; ProductStrIndex : Z; SerialNumStrIndex : Z; NumberOfConfigurations : Z }.

Definition device_bytes (d : desc_device) : list Z :=
  header_bytes (dd_Header d) ++ le16 (USBSpecification d) ++ [dd_Class d; dd_SubClass d; dd_Protocol d; Endpoint0Size d] ++
  le16 (VendorID d) ++ le16 (ProductID d) ++ le16 (ReleaseNumber d) ++
  [ManufacturerStrIndex d; ProductStrIndex d; SerialNumStrIndex d; NumberOfConfigurations d].

Record desc_config : Type := mk_desc_config {
  dc_Header : desc_header; TotalConfigurationSize : Z; TotalInterfaces : Z; ConfigurationNumber : Z;
  ConfigurationStrIndex : Z; ConfigAttributes : Z; MaxPowerConsumption : Z }.

Definition config_bytes (d : desc_config) : list Z :=
  header_bytes (dc_Header d) ++ le16 (TotalConfigurationSize d) ++
  [TotalInterfaces d; ConfigurationNumber d; ConfigurationStrIndex d; ConfigAttributes d; MaxPowerConsumption d].

Record desc_interface : Type := mk_desc_interface {
  di_Header : desc_header; InterfaceNumber : Z; AlternateSetting : Z; TotalEndpoints : Z;
  di_Class : Z; di_SubClass : Z; di_Protocol : Z; InterfaceStrIndex : Z }.

Definition interface_bytes (d : desc_interface) : list Z :=
  header_bytes (di_Header d) ++
  [InterfaceNumber d; AlternateSetting d; TotalEndpoints d; di_Class d; di_SubClass d; di_Protocol d; InterfaceStrIndex d].

Record desc_endpoint : Type := mk_desc_endpoint {
  de_Header : desc_header; EndpointAddress : Z; Attributes : Z; EndpointSize : Z; PollingIntervalMS : Z }.

Definition endpoint_bytes (d : desc_endpoint) : list Z :=
  header_bytes (de_Header d) ++ [EndpointAddress d; Attributes d] ++ le16 (EndpointSize d) ++ [PollingIntervalMS d].

(** The CDC functional descriptors: header, subtype and their own bytes. *)
Record desc_functional : Type := mk_desc_functional { df_Header : desc_header; Subtype : Z; df_data : list Z }.

Definition functional_bytes (d : desc_functional) : list Z := header_bytes (df_Header d) ++ [Subtype d] ++ df_data d.

Record desc_string : Type := mk_desc_string { ds_Header : desc_header; UnicodeString : list Z }.

Definition string_bytes (d : desc_string) : list Z := header_bytes (ds_Header d) ++ le16_bytes (UnicodeString d).

(** USB_Descriptor_Configuration_t of Descriptors.h *)
Record desc_configuration : Type := mk_desc_configuration {
  Config : desc_config;
  CDC_CCI_Interface : desc_interface;
  CDC_Functional_Header : desc_functional;
  CDC_Functional_ACM : desc_functional;
  CDC_Functional_Union : desc_functional;
  CDC_NotificationEndpoint : desc_endpoint;
  CDC_DCI_Interface : desc_interface;
  CDC_DataOutEndpoint : desc_endpoint;
  CDC_DataInEndpoint : desc_endpoint }.

Definition configuration_parts (d : desc_configuration) : list (list Z) :=
  [config_bytes (Config d); interface_bytes (CDC_CCI_Interface d); functional_bytes (CDC_Functional_Header d);
   functional_bytes (CDC_Functional_ACM d); functional_bytes (CDC_Functional_Union d);
   endpoint_bytes (CDC_NotificationEndpoint d); interface_bytes (CDC_DCI_Interface d);
   endpoint_bytes (CDC_DataOutEndpoint d); endpoint_bytes (CDC_DataInEndpoint d)].

Definition configuration_bytes (d : desc_configuration) : list Z := concat (configuration_parts d).

(** * The constants *)

Definition DTYPE_Interface : Z := 4.
Definition DTYPE_Endpoint : Z := 5.
Definition DTYPE_CSInterface : Z := 36.

(** Descriptors.h *)
Definition CDC_NOTIFICATION_EPADDR : Z := Z.lor ENDPOINT_DIR_IN 2.
Definition CDC_TX_EPADDR : Z := Z.lor ENDPOINT_DIR_IN 3.
Definition CDC_RX_EPADDR : Z := Z.lor ENDPOINT_DIR_OUT 4.
Definition CDC_NOTIFICATION_EPSIZE : Z := 8.
Definition CDC_TXRX_EPSIZE : Z := 16.
Definition INTERFACE_ID_CDC_CCI : Z := 0.
Definition INTERFACE_ID_CDC_DCI : Z := 1.
Definition STRING_ID_Language : Z := 0.
Definition STRING_ID_Manufacturer : Z := 1.
Definition STRING_ID_Product : Z := 2.

Definition VERSION_BCD (Major Minor Revision : Z) : Z :=
  Z.lor (Z.lor (Z.shiftl (Z.land Major 255) 8) (Z.shiftl (Z.land Minor 15) 4)) (Z.land Revision 15).

Definition DeviceDescriptor : desc_device :=
  mk_desc_device (mk_header 18 DTYPE_Device) (VERSION_BCD 1 1 0) 2 0 0 USB_Device_ControlEndpointSize
    1003 8260 (VERSION_BCD 0 0 1) STRING_ID_Manufacturer STRING_ID_Product USE_INTERNAL_SERIAL FIXED_NUM_CONFIGURATIONS.

(** sizeof(USB_Descriptor_Configuration_t) *)
Definition sizeof_configuration : Z := 9 + 9 + 5 + 4 + 5 + 7 + 9 + 7 + 7.

Definition ConfigurationDescriptor : desc_configuration :=
  mk_desc_configuration
    (mk_desc_config (mk_header 9 DTYPE_Configuration) sizeof_configuration 2 1 NO_DESCRIPTOR
       (Z.lor 128 64) (Z.shiftr 100 1))
    (mk_desc_interface (mk_header 9 DTYPE_Interface) INTERFACE_ID_CDC_CCI 0 1 2 2 1 NO_DESCRIPTOR)
    (mk_desc_functional (mk_header 5 DTYPE_CSInterface) 0 (le16 (VERSION_BCD 1 1 0)))
    (mk_desc_functional (mk_header 4 DTYPE_CSInterface) 2 [6])
    (mk_desc_functional (mk_header 5 DTYPE_CSInterface) 6 [INTERFACE_ID_CDC_CCI; INTERFACE_ID_CDC_DCI])
    (mk_desc_endpoint (mk_header 7 DTYPE_Endpoint) CDC_NOTIFICATION_EPADDR EP_TYPE_INTERRUPT CDC_NOTIFICATION_EPSIZE 255)
    (mk_desc_interface (mk_header 9 DTYPE_Interface) INTERFACE_ID_CDC_DCI 0 2 10 0 0 NO_DESCRIPTOR)
    (mk_desc_endpoint (mk_header 7 DTYPE_Endpoint) CDC_RX_EPADDR EP_TYPE_BULK CDC_TXRX_EPSIZE 5)
    (mk_desc_endpoint (mk_header 7 DTYPE_Endpoint) CDC_TX_EPADDR EP_TYPE_BULK CDC_TXRX_EPSIZE 5).

(** USB_STRING_DESCRIPTOR: the size of the header and of the characters. *)
Definition string_descriptor (chars : list Z) : desc_string :=
  mk_desc_string (mk_header (2 + 2 * Z.of_nat (length chars)) DTYPE_String) chars.

Definition LanguageString : desc_string := string_descriptor [1033].
(** "K7NVH" *)
Definition ManufacturerString : desc_string := string_descriptor [75; 55; 78; 86; 72].
(** "RNG V1.1" *)
Definition ProductString : desc_string := string_descriptor [82; 78; 71; 32; 86; 49; 46; 49].

Definition flash (bytes : list Z) : cells := map Some bytes.

Definition CALLBACK_USB_GetDescriptor (wValue wIndex : Z) : Z * cells :=
  let DescriptorType := u8 (Z.shiftr wValue 8) in
  let DescriptorNumber := Z.land wValue 255 in
  let string d := (Size (ds_Header d), flash (string_bytes d)) in
  if DescriptorType =? DTYPE_Device then (18, flash (device_bytes DeviceDescriptor))
  else if DescriptorType =? DTYPE_Configuration then
    (sizeof_configuration, flash (configuration_bytes ConfigurationDescriptor))
  else if DescriptorType =? DTYPE_String then
    if DescriptorNumber =? STRING_ID_Language then string LanguageString
    else if DescriptorNumber =? STRING_ID_Manufacturer then string ManufacturerString
    else if DescriptorNumber =? STRING_ID_Product then string ProductString
    else (NO_DESCRIPTOR, [])
  else (NO_DESCRIPTOR, []).

(** * ConfigDescriptors.c *)

Definition DESCRIPTOR_SEARCH_Found : Z := 0.
Definition DESCRIPTOR_SEARCH_Fail : Z := 1.
Definition DESCRIPTOR_SEARCH_NotFound : Z := 2.
Definition DESCRIPTOR_SEARCH_COMP_EndOfDescriptor : Z := 2.

(** *BytesRem and *CurrConfigLoc, the latter as an index into the buffer. *)
Record cursor : Type := mk_cursor { BytesRem : Z; CurrConfigLoc : nat }.

Section walk.
Context (buf : cells).

Definition DESCRIPTOR_SIZE (p : nat) : res Z := load buf p.
Definition DESCRIPTOR_TYPE (p : nat) : res Z := load buf (p + 1).

Definition USB_GetNextDescriptor (c : cursor) : res cursor :=
  size ← DESCRIPTOR_SIZE (CurrConfigLoc c);
  let step := if BytesRem c <? size then BytesRem c else size in
  mret (mk_cursor (u16 (BytesRem c - step)) (CurrConfigLoc c + Z.to_nat step)).

Fixpoint USB_GetNextDescriptorOfType (fuel : nat) (c : cursor) (Ty : Z) : res cursor :=
  if BytesRem c =? 0 then mret c
  else
    match fuel with
    | O => Fault OutOfFuel
    | S fuel' =>
        c' ← USB_GetNextDescriptor c;
        t ← DESCRIPTOR_TYPE (CurrConfigLoc c');
        if t =? Ty then mret c' else USB_GetNextDescriptorOfType fuel' c' Ty
    end.

Fixpoint USB_GetNextDescriptorOfTypeBefore (fuel : nat) (c : cursor) (Ty BeforeType : Z) : res cursor :=
  if BytesRem c =? 0 then mret c
  else
    match fuel with
    | O => Fault OutOfFuel
    | S fuel' =>
        c' ← USB_GetNextDescriptor c;
        t ← DESCRIPTOR_TYPE (CurrConfigLoc c');
        if t =? Ty then mret c'
        else if t =? BeforeType then mret (mk_cursor 0 (CurrConfigLoc c'))
        else USB_GetNextDescriptorOfTypeBefore fuel' c' Ty BeforeType
    end.

Definition USB_GetNextDescriptorOfTypeAfter (fuel : nat) (c : cursor) (Ty AfterType : Z) : res cursor :=
  c' ← USB_GetNextDescriptorOfType fuel c AfterType;
  if BytesRem c' =? 0 then mret c' else USB_GetNextDescriptorOfType fuel c' Ty.

(** The comparator gets the buffer from the current location on. *)
Fixpoint USB_GetNextDescriptorComp (fuel : nat) (c : cursor) (ComparatorRoutine : nat -> res Z) : res (Z * cursor) :=
  if BytesRem c =? 0 then mret (DESCRIPTOR_SEARCH_COMP_EndOfDescriptor, c)
  else
    match fuel with
    | O => Fault OutOfFuel
    | S fuel' =>
        c' ← USB_GetNextDescriptor c;
        e ← ComparatorRoutine (CurrConfigLoc c');
        if negb (e =? DESCRIPTOR_SEARCH_NotFound)
        then mret (e, if e =? DESCRIPTOR_SEARCH_Fail then c else c')
        else USB_GetNextDescriptorComp fuel' c' ComparatorRoutine
    end.
End walk.

(** * Properties *)

(** A descriptor in memory: its first byte is its size, the second its type. *)
Definition wf_desc (d : list Z) : Prop :=
  (2 <= length d <= 255)%nat /\ d !! 0%nat = Some (Z.of_nat (length d)).

Definition has_type (Ty : Z) (d : list Z) : Prop := d !! 1%nat = Some Ty.

(** The cursor on the descriptor that follows [pre], when [rest] is left. *)
Definition at_desc (pre rest : list (list Z)) : cursor :=
  mk_cursor (Z.of_nat (length (concat rest))) (length (concat pre)).

Lemma load_flash l i : load (flash l) i = match l !! i with Some v => Ok v | None => Fault OutOfBounds end.
Proof. unfold load, flash. rewrite list_lookup_fmap. by destruct (l !! i). Qed.

Lemma get_next_desc pre d rest :
  wf_desc d -> Z.of_nat (length (concat (d :: rest))) < 65536 ->
  USB_GetNextDescriptor (flash (concat (pre ++ d :: rest))) (at_desc pre (d :: rest)) =
  Ok (at_desc (pre ++ [d]) rest).
Proof.
  intros [Hl Hs] Hlen. unfold USB_GetNextDescriptor, DESCRIPTOR_SIZE, at_desc. cbn [BytesRem CurrConfigLoc].
  rewrite load_flash, !concat_app, lookup_app_r, Nat.sub_diag by lia. cbn [concat] in *.
  rewrite lookup_app_l, Hs by lia. rewrite res_bind_ok, app_nil_r, !length_app in *.
  rewrite (proj2 (Z.ltb_ge _ _)) by lia. cbn. unfold mret, res_ret. do 2 f_equal; [|lia].
  unfold wrapu. rewrite Z.mod_small; lia.
Qed.

Lemma type_at pre d rest Ty :
  (2 <= length d)%nat -> has_type Ty d ->
  DESCRIPTOR_TYPE (flash (concat (pre ++ d :: rest))) (length (concat pre)) = Ok Ty.
Proof.
  intros Hl Ht. unfold DESCRIPTOR_TYPE. rewrite load_flash, concat_app, lookup_app_r by lia.
  cbn [concat]. replace (length (concat pre) + 1 - length (concat pre))%nat with 1%nat by lia.
  by rewrite lookup_app_l, Ht by lia.
Qed.

Lemma type_at_end pre :
  DESCRIPTOR_TYPE (flash (concat pre)) (length (concat pre)) = Fault OutOfBounds.
Proof. unfold DESCRIPTOR_TYPE. rewrite load_flash, lookup_ge_None_2 by lia. done. Qed.

Lemma desc_has_type d : wf_desc d -> exists Ty, has_type Ty d.
Proof. intros [Hl _]. destruct (lookup_lt_is_Some_2 d 1) as [t Ht]; [lia|]. by exists t. Qed.

Lemma snoc_app {B} (l : list B) x l' : l ++ x :: l' = (l ++ [x]) ++ l'.
Proof. by rewrite <- app_assoc. Qed.

(** Search forward: found, or run over the end. *)
Lemma next_of_type_found mid : forall fuel pre d0 d post Ty,
  Forall wf_desc (d0 :: mid ++ d :: post) -> Forall (fun x => ~ has_type Ty x) mid -> has_type Ty d ->
  Z.of_nat (length (concat (d0 :: mid ++ d :: post))) < 65536 -> (length mid < fuel)%nat ->
  USB_GetNextDescriptorOfType (flash (concat (pre ++ d0 :: mid ++ d :: post))) fuel
    (at_desc pre (d0 :: mid ++ d :: post)) Ty = Ok (at_desc (pre ++ d0 :: mid) (d :: post)).
Proof.
  induction mid as [|m mid IH]; intros [|fuel] pre d0 d post Ty Hwf Hno Ht Hlen Hf; simpl in Hf; try lia;
    apply Forall_cons_iff in Hwf as [Hd0 Hwf]; cbn [USB_GetNextDescriptorOfType];
    (rewrite (proj2 (Z.eqb_neq _ _)) by (unfold at_desc; cbn [BytesRem concat]; rewrite length_app;
      destruct Hd0; lia)); rewrite get_next_desc, res_bind_ok by done; cbn [CurrConfigLoc at_desc].
  - cbn [app] in *. apply Forall_cons_iff in Hwf as [Hd _].
    rewrite (snoc_app pre d0 (d :: post)).
    rewrite (type_at (pre ++ [d0]) d post Ty), res_bind_ok, Z.eqb_refl by (destruct Hd; auto; lia). done.
  - cbn [app] in *. apply Forall_cons_iff in Hno as [Hm Hno]. pose proof Hwf as Hwf'.
    apply Forall_cons_iff in Hwf' as [Hwm _]. destruct (desc_has_type m Hwm) as [t Htm].
    rewrite (snoc_app pre d0 (m :: mid ++ d :: post)).
    rewrite (type_at (pre ++ [d0]) m (mid ++ d :: post) t), res_bind_ok by (destruct Hwm; auto; lia).
    rewrite (proj2 (Z.eqb_neq _ _)) by (intros ->; done).
    rewrite IH; [by rewrite <- app_assoc|done..| |lia]. cbn [concat] in *. rewrite !length_app in *. lia.
Qed.

Lemma next_of_type_overrun rest : forall fuel pre d0 Ty,
  Forall wf_desc (d0 :: rest) -> Forall (fun x => ~ has_type Ty x) rest ->
  Z.of_nat (length (concat (d0 :: rest))) < 65536 -> (length rest < fuel)%nat ->
  USB_GetNextDescriptorOfType (flash (concat (pre ++ d0 :: rest))) fuel (at_desc pre (d0 :: rest)) Ty =
  Fault OutOfBounds.
Proof.
  induction rest as [|m rest IH]; intros [|fuel] pre d0 Ty Hwf Hno Hlen Hf; simpl in Hf; try lia;
    apply Forall_cons_iff in Hwf as [Hd0 Hwf]; cbn [USB_GetNextDescriptorOfType];
    (rewrite (proj2 (Z.eqb_neq _ _)) by (unfold at_desc; cbn [BytesRem concat]; rewrite length_app;
      destruct Hd0; lia)); rewrite get_next_desc, res_bind_ok by done; cbn [CurrConfigLoc at_desc].
  - by rewrite type_at_end.
  - apply Forall_cons_iff in Hno as [Hm Hno]. pose proof Hwf as Hwf'.
    apply Forall_cons_iff in Hwf' as [Hwm _]. destruct (desc_has_type m Hwm) as [t Htm].
    rewrite (snoc_app pre d0 (m :: rest)).
    rewrite (type_at (pre ++ [d0]) m rest t), res_bind_ok by (destruct Hwm; auto; lia).
    rewrite (proj2 (Z.eqb_neq _ _)) by (intros ->; done).
    apply IH; [done..| |lia]. cbn [concat] in *. rewrite !length_app in *. lia.
Qed.

Lemma bool_forallb {B} (f : B -> bool) (P : B -> Prop) l :
  (forall x, f x = true -> P x) -> forallb f l = true -> Forall P l.
Proof. intros Hf H. apply List.Forall_forall. intros x Hx. rewrite forallb_forall in H. auto. Qed.

Definition wf_descb (d : list Z) : bool :=
  (2 <=? length d)%nat && (length d <=? 255)%nat &&
  match d with x :: _ => x =? Z.of_nat (length d) | [] => false end.

Lemma wf_descb_ok d : wf_descb d = true -> wf_desc d.
Proof.
  unfold wf_descb, wf_desc. rewrite !andb_true_iff. intros [[H1%Nat.leb_le H2%Nat.leb_le] H3].
  split; [done|]. destruct d; [done|]. apply Z.eqb_eq in H3. by rewrite H3.
Qed.

Lemma flash_inj l l' : flash l = flash l' -> l = l'.
Proof. unfold flash. intros E. by apply (inj (map Some)) in E. Qed.

Lemma bytes_forallb l : forallb (fun b => bool_decide (is_byte b)) l = true -> Forall is_byte l.
Proof. apply bool_forallb. intros x. apply bool_decide_eq_true. Qed.

Lemma flash_of m :
  forallb (fun c => match c with Some b => bool_decide (is_byte b) | None => false end) m = true ->
  exists l, m = flash l /\ Forall is_byte l.
Proof.
  induction m as [|[b|] m IH]; simpl; intros Hm; [by exists []| |done].
  apply andb_true_iff in Hm as [Hb%bool_decide_eq_true Hm]. destruct (IH Hm) as (l & -> & Hl).
  exists (b :: l). split; [done|]. by constructor.
Qed.

(** The callback returns the size of what is at the address, and bytes. *)
Lemma callback_bytes v i n m :
  CALLBACK_USB_GetDescriptor v i = (n, m) ->
  n = Z.of_nat (length m) /\ n < 256 /\ exists l, m = flash l /\ Forall is_byte l.
Proof.
  unfold CALLBACK_USB_GetDescriptor. cbv zeta. intros E. repeat case_match; injection E as <- <-;
    (split; [by vm_compute|]); (split; [by vm_compute|]); apply flash_of; by vm_compute.
Qed.

(** What CALLBACK_USB_GetDescriptor returns, for every request.  The size is
    the number of bytes at the address, so that the library reads exactly the
    descriptor; these are bytes; an existing descriptor starts with its own size and
    type, and the configuration descriptor carries its total size in bytes 2 and 3. *)
Theorem get_descriptor_consistent wValue wIndex :
  let '(n, m) := CALLBACK_USB_GetDescriptor wValue wIndex in
  n = Z.of_nat (length m) /\ n < 256 /\
  (exists l, m = flash l /\ Forall is_byte l /\
    (n <> NO_DESCRIPTOR ->
       l !! 1%nat = Some (u8 (Z.shiftr wValue 8)) /\
       if u8 (Z.shiftr wValue 8) =? DTYPE_Configuration
       then exists lo hi, l !! 2%nat = Some lo /\ l !! 3%nat = Some hi /\ lo + 256 * hi = n
       else l !! 0%nat = Some n)).
Proof.
  unfold CALLBACK_USB_GetDescriptor. cbv zeta.
  assert (forall l, forallb (fun b => bool_decide (is_byte b)) l = true -> Forall is_byte l) as Hb.
  { intros l. apply bool_forallb. intros x. apply bool_decide_eq_true. }
  generalize (u8 (Z.shiftr wValue 8)) as t. generalize (Z.land wValue 255) as n. intros n t.
  assert (forall l k, k = Z.of_nat (length l) -> k < 256 -> forallb (fun b => bool_decide (is_byte b)) l = true ->
    (k <> NO_DESCRIPTOR -> l !! 1%nat = Some t /\
      if t =? DTYPE_Configuration
      then exists lo hi, l !! 2%nat = Some lo /\ l !! 3%nat = Some hi /\ lo + 256 * hi = k
      else l !! 0%nat = Some k) ->
    k = Z.of_nat (length (flash l)) /\ k < 256 /\ exists l', flash l = flash l' /\ Forall is_byte l' /\
      (k <> NO_DESCRIPTOR -> l' !! 1%nat = Some t /\
      if t =? DTYPE_Configuration
      then exists lo hi, l' !! 2%nat = Some lo /\ l' !! 3%nat = Some hi /\ lo + 256 * hi = k
      else l' !! 0%nat = Some k)) as Hd.
  { intros l k H1 H2 H3 H4. unfold flash at 1. rewrite length_map. split_and!; eauto. }
  destruct (Z.eqb_spec t DTYPE_Device) as [E|_]; [rewrite E in *; by apply (Hd (device_bytes DeviceDescriptor))|].
  destruct (Z.eqb_spec t DTYPE_Configuration) as [E|E2].
  { rewrite E in *. apply (Hd (configuration_bytes ConfigurationDescriptor)); [by vm_compute..|].
    intros _. split; [done|]. by exists 62, 0. }
  destruct (Z.eqb_spec t DTYPE_String) as [E|_]; [rewrite E in *|by apply (Hd [])].
  destruct (n =? STRING_ID_Language); [by apply (Hd (string_bytes LanguageString))|].
  destruct (n =? STRING_ID_Manufacturer); [by apply (Hd (string_bytes ManufacturerString))|].
  destruct (n =? STRING_ID_Product); [by apply (Hd (string_bytes ProductString))|by apply (Hd [])].
Qed.

(** USB_GetNextDescriptorOfType on any well-formed configuration (a sequence
    of descriptors whose first byte is their length).  From the cursor on one
    descriptor it moves to the first later descriptor of the type asked for, with
    the number of bytes that remain from there on. *)
Theorem next_descriptor_of_type pre d0 mid d post Ty fuel :
  Forall wf_desc (d0 :: mid ++ d :: post) -> Forall (fun x => ~ has_type Ty x) mid -> has_type Ty d ->
  Z.of_nat (length (concat (d0 :: mid ++ d :: post))) < 65536 -> (length mid < fuel)%nat ->
  USB_GetNextDescriptorOfType (flash (concat (pre ++ d0 :: mid ++ d :: post))) fuel
    (at_desc pre (d0 :: mid ++ d :: post)) Ty = Ok (at_desc (pre ++ d0 :: mid) (d :: post)).
Proof. apply next_of_type_found. Qed.

(** At a concrete input: from the start of the firmware's configuration descriptor to
    its notification endpoint. *)
Lemma next_descriptor_of_type_witness :
  let ps := configuration_parts ConfigurationDescriptor in
  USB_GetNextDescriptorOfType (flash (concat ps)) 5 (at_desc [] ps) DTYPE_Endpoint =
  Ok (at_desc (take 5 ps) (drop 5 ps)).
Proof.
  intros ps.
  apply (next_descriptor_of_type [] (nth 0 ps []) (take 4 (drop 1 ps)) (nth 5 ps []) (drop 6 ps) DTYPE_Endpoint 5).
  - apply (bool_forallb wf_descb); [apply wf_descb_ok|by vm_compute].
  - repeat constructor; by vm_compute.
  - by vm_compute.
  - by vm_compute.
  - by vm_compute; lia.
Defined.

(** When no later descriptor has the type asked for, the search reads the type
    of a descriptor behind the end of the configuration: its loop tests the bytes
    that remain only before it advances. *)
Theorem next_descriptor_overruns pre d0 rest Ty fuel :
  Forall wf_desc (d0 :: rest) -> Forall (fun x => ~ has_type Ty x) rest ->
  Z.of_nat (length (concat (d0 :: rest))) < 65536 -> (length rest < fuel)%nat ->
  USB_GetNextDescriptorOfType (flash (concat (pre ++ d0 :: rest))) fuel (at_desc pre (d0 :: rest)) Ty =
  Fault OutOfBounds.
Proof. apply next_of_type_overrun. Qed.

(** An instance: the firmware's own configuration has no interface association. *)
Lemma next_descriptor_overruns_witness :
  let ps := configuration_parts ConfigurationDescriptor in
  USB_GetNextDescriptorOfType (flash (concat ps)) 9 (at_desc [] ps) 11 = Fault OutOfBounds.
Proof.
  intros ps. apply (next_descriptor_overruns [] (nth 0 ps []) (drop 1 ps) 11 9).
  - apply (bool_forallb wf_descb); [apply wf_descb_ok|by vm_compute].
  - repeat constructor; by vm_compute.
  - by vm_compute.
  - by vm_compute; lia.
Defined.
