(* ===== verification/Cdc.v ===== *)
(** The CDC-ACM class driver, Class/Device/CDCClassDevice.c: the virtual serial
    port through which the firmware sends its samples.

    [cdc_info] is USB_ClassInfo_CDC_Device_t.  The driver works on any application
    state that holds one ([get_cdc], [put_cdc]), as the C code works on a pointer.
    The line encoding and control line events are the library's empty stubs. *)

From Stdlib Require Import ZArith Lia.
From stdpp Require Import base tactics list numbers.
From S2P Require Import Prelude Posix Avr Endpoint EndpointStream Device.

Local Open Scope Z_scope.

Definition CDC_REQ_SetLineEncoding : Z := 32.
Definition CDC_REQ_GetLineEncoding : Z := 33.
Definition CDC_REQ_SetControlLineState : Z := 34.
Definition CDC_REQ_SendBreak : Z := 35.
Definition CDC_NOTIF_SerialState : Z := 32.
Definition FDEV_ERR : Z := -1.
Definition FDEV_EOF : Z := -2.

Record line_encoding : Type := mk_line {
  BaudRateBPS : Z;
  CharFormat : Z;
  ParityType : Z;
  DataBits : Z }.

Record cdc_info : Type := mk_cdc {
  ControlInterfaceNumber : Z;
  DataINEndpoint : endpoint_table;
  DataOUTEndpoint : endpoint_table;
  NotificationEndpoint : endpoint_table;
  LineEncoding : line_encoding;
  HostToDevice : Z;
  DeviceToHost : Z }.

Definition set_type (t : Z) (e : endpoint_table) : endpoint_table :=
  mk_ep (ep_Address e) (ep_Size e) t (ep_Banks e).
Definition set_baud (v : Z) (l : line_encoding) : line_encoding := mk_line v (CharFormat l) (ParityType l) (DataBits l).
Definition set_format (v : Z) (l : line_encoding) : line_encoding := mk_line (BaudRateBPS l) v (ParityType l) (DataBits l).
Definition set_parity (v : Z) (l : line_encoding) : line_encoding := mk_line (BaudRateBPS l) (CharFormat l) v (DataBits l).
Definition set_bits_per_char (v : Z) (l : line_encoding) : line_encoding := mk_line (BaudRateBPS l) (CharFormat l) (ParityType l) v.
Definition set_line (l : line_encoding) (c : cdc_info) : cdc_info :=
  mk_cdc (ControlInterfaceNumber c) (DataINEndpoint c) (DataOUTEndpoint c) (NotificationEndpoint c)
         l (HostToDevice c) (DeviceToHost c).
Definition set_host_lines (v : Z) (c : cdc_info) : cdc_info :=
  mk_cdc (ControlInterfaceNumber c) (DataINEndpoint c) (DataOUTEndpoint c) (NotificationEndpoint c)
         (LineEncoding c) v (DeviceToHost c).

(** The state cleared and the endpoint types filled in. *)
Definition configured (c : cdc_info) : cdc_info :=
  mk_cdc (ControlInterfaceNumber c) (set_type EP_TYPE_BULK (DataINEndpoint c))
         (set_type EP_TYPE_BULK (DataOUTEndpoint c)) (set_type EP_TYPE_INTERRUPT (NotificationEndpoint c))
         (mk_line 0 0 0 0) 0 0.

(** FILE of avr-libc: the functions it calls, as labels, and the flags __SRD (bit 0)
    and __SWR (bit 1). *)
Inductive put_fn : Type := PutSerial.
Inductive get_fn : Type := GetSerial | GetSerialBlocking.
Record FILE : Type := mk_FILE {
  f_put : option put_fn;
  f_get : option get_fn;
  f_flags : Z }.

Definition FILE_zero : FILE := mk_FILE None None 0.
Definition FDEV_SETUP_RW : Z := 3.

(** FDEV_SETUP_STREAM and fdev_set_udata; the interface is the one of the
    application. *)
Definition CDC_Device_CreateStream : FILE := mk_FILE (Some PutSerial) (Some GetSerial) FDEV_SETUP_RW.
Definition CDC_Device_CreateBlockingStream : FILE := mk_FILE (Some PutSerial) (Some GetSerialBlocking) FDEV_SETUP_RW.

Section cdc.
Context {H A : Type} `{Hardware H} `{!Interrupts H A}.
Context (fuel : nat).
Context (get_cdc : A -> cdc_info) (put_cdc : cdc_info -> A -> A).

Abbreviation run := (prog (usb H A)).

Definition info : run cdc_info := get_mem (fun s => get_cdc (app s)).
Definition on_cdc (f : cdc_info -> cdc_info) : run unit :=
  set_mem (on_app (fun a => put_cdc (f (get_cdc a)) a)).

(** A field of the line encoding. *)
Definition line (f : line_encoding -> Z) : run Z := get_mem (fun s => f (LineEncoding (get_cdc (app s)))).
Definition on_line (f : line_encoding -> line_encoding) : run unit := on_cdc (fun c => set_line (f (LineEncoding c)) c).

Definition class_out : Z := Z.lor REQTYPE_CLASS REQREC_INTERFACE.
Definition class_in : Z := Z.lor REQDIR_DEVICETOHOST (Z.lor REQTYPE_CLASS REQREC_INTERFACE).

Definition get_line_encoding : run unit :=
  Endpoint_ClearSETUP ;;
  wait_until fuel Endpoint_IsINReady never ;;
  baud ← line BaudRateBPS; Endpoint_Write_32_LE baud ;;
  fmt ← line CharFormat; Endpoint_Write_8 fmt ;;
  parity ← line ParityType; Endpoint_Write_8 parity ;;
  bits ← line DataBits; Endpoint_Write_8 bits ;;
  Endpoint_ClearIN ;;
  Endpoint_ClearStatusStage fuel.

Definition set_line_encoding : run unit :=
  Endpoint_ClearSETUP ;;
  ok ← wait_until fuel Endpoint_IsOUTReceived is_unattached;
  when ok (
    baud ← Endpoint_Read_32_LE; on_line (set_baud baud) ;;
    fmt ← Endpoint_Read_8; on_line (set_format fmt) ;;
    parity ← Endpoint_Read_8; on_line (set_parity parity) ;;
    bits ← Endpoint_Read_8; on_line (set_bits_per_char bits) ;;
    Endpoint_ClearOUT ;;
    Endpoint_ClearStatusStage fuel).

(** if (USB_ControlRequest.bmRequestType == ..) *)
Definition if_type (t : Z) (m : run unit) : run unit := req ← get_request; when (bmRequestType req =? t) m.

Definition CDC_Device_ProcessControlRequest : run unit :=
  setup ← Endpoint_IsSETUPReceived;
  if negb setup then mret tt
  else
    index ← get_request;
    c ← info;
    if negb (wIndex index =? ControlInterfaceNumber c) then mret tt
    else
      req ← get_request;
      if bRequest req =? CDC_REQ_GetLineEncoding then if_type class_in get_line_encoding
      else if bRequest req =? CDC_REQ_SetLineEncoding then if_type class_out set_line_encoding
      else if bRequest req =? CDC_REQ_SetControlLineState then
        if_type class_out (
          Endpoint_ClearSETUP ;; Endpoint_ClearStatusStage fuel ;;
          value ← get_request; on_cdc (set_host_lines (wValue value)))
      else if bRequest req =? CDC_REQ_SendBreak then if_type class_out (Endpoint_ClearSETUP ;; Endpoint_ClearStatusStage fuel)
      else mret tt.

Definition CDC_Device_ConfigureEndpoints : run bool :=
  on_cdc configured ;;
  c ← info;
  a ← Endpoint_ConfigureEndpointTable fuel [DataINEndpoint c];
  if negb a then mret false
  else
    b ← Endpoint_ConfigureEndpointTable fuel [DataOUTEndpoint c];
    if negb b then mret false
    else
      d ← Endpoint_ConfigureEndpointTable fuel [NotificationEndpoint c];
      mret d.

(** The test at the head of most functions: not configured, or no baud rate. *)
Definition not_open : run bool :=
  st ← read_reg USB_DeviceState;
  if negb (st =? DEVICE_STATE_Configured) then mret true
  else c ← info; mret (BaudRateBPS (LineEncoding c) =? 0).

Definition CDC_Device_Flush : run Z :=
  closed ← not_open;
  if (closed : bool) then mret ENDPOINT_RWSTREAM_DeviceDisconnected
  else
    c ← info;
    Endpoint_SelectEndpoint (ep_Address (DataINEndpoint c)) ;;
    n ← Endpoint_BytesInEndpoint;
    if n =? 0 then mret ENDPOINT_READYWAIT_NoError
    else
      allowed ← Endpoint_IsReadWriteAllowed;
      Endpoint_ClearIN ;;
      if negb allowed then
        e ← Endpoint_WaitUntilReady fuel;
        if negb (e =? ENDPOINT_READYWAIT_NoError) then mret e
        else Endpoint_ClearIN ;; mret ENDPOINT_READYWAIT_NoError
      else mret ENDPOINT_READYWAIT_NoError.

Definition CDC_Device_USBTask : run unit :=
  closed ← not_open;
  if (closed : bool) then mret tt
  else
    c ← info;
    Endpoint_SelectEndpoint (ep_Address (DataINEndpoint c)) ;;
    ready ← Endpoint_IsINReady;
    when ready (CDC_Device_Flush ;; mret tt).

Definition CDC_Device_SendData (Buffer : cells) (Length : Z) : run Z :=
  closed ← not_open;
  if (closed : bool) then mret ENDPOINT_RWSTREAM_DeviceDisconnected
  else
    c ← info;
    Endpoint_SelectEndpoint (ep_Address (DataINEndpoint c)) ;;
    r ← Endpoint_Write_Stream_LE fuel Buffer Length None;
    mret r.1.1.

(** strlen: the characters before the terminator. *)
Definition CDC_Device_SendString (String : list Z) : run Z :=
  closed ← not_open;
  if (closed : bool) then mret ENDPOINT_RWSTREAM_DeviceDisconnected
  else
    c ← info;
    Endpoint_SelectEndpoint (ep_Address (DataINEndpoint c)) ;;
    r ← Endpoint_Write_Stream_LE fuel (map Some (String ++ [0])) (Z.of_nat (length String)) None;
    mret r.1.1.

Definition CDC_Device_SendByte (Data : Z) : run Z :=
  closed ← not_open;
  if (closed : bool) then mret ENDPOINT_RWSTREAM_DeviceDisconnected
  else
    c ← info;
    Endpoint_SelectEndpoint (ep_Address (DataINEndpoint c)) ;;
    allowed ← Endpoint_IsReadWriteAllowed;
    e ← (if negb allowed then Endpoint_ClearIN ;; Endpoint_WaitUntilReady fuel
         else mret ENDPOINT_READYWAIT_NoError);
    if negb (e =? ENDPOINT_READYWAIT_NoError) then mret e
    else Endpoint_Write_8 Data ;; mret ENDPOINT_READYWAIT_NoError.

Definition CDC_Device_BytesReceived : run Z :=
  closed ← not_open;
  if (closed : bool) then mret 0
  else
    c ← info;
    Endpoint_SelectEndpoint (ep_Address (DataOUTEndpoint c)) ;;
    out ← Endpoint_IsOUTReceived;
    if (out : bool) then
      n ← Endpoint_BytesInEndpoint;
      if n =? 0 then Endpoint_ClearOUT ;; mret 0 else Endpoint_BytesInEndpoint
    else mret 0.

Definition CDC_Device_ReceiveByte : run Z :=
  closed ← not_open;
  if (closed : bool) then mret (-1)
  else
    c ← info;
    Endpoint_SelectEndpoint (ep_Address (DataOUTEndpoint c)) ;;
    out ← Endpoint_IsOUTReceived;
    if (out : bool) then
      n ← Endpoint_BytesInEndpoint;
      ReceivedByte ← (if n =? 0 then mret (-1) else Endpoint_Read_8);
      left ← Endpoint_BytesInEndpoint;
      when (left =? 0) Endpoint_ClearOUT ;;
      mret ReceivedByte
    else mret (-1).

Definition CDC_Device_SendControlLineStateChange : run unit :=
  closed ← not_open;
  if (closed : bool) then mret tt
  else
    c ← info;
    Endpoint_SelectEndpoint (ep_Address (NotificationEndpoint c)) ;;
    let Notification := [class_in; CDC_NOTIF_SerialState; 0; 0; 0; 0; 2; 0] in
    Endpoint_Write_Stream_LE fuel (map Some Notification) 8 None ;;
    Endpoint_Write_Stream_LE fuel
      (map Some [u8 (DeviceToHost c); u8 (Z.shiftr (DeviceToHost c) 8)]) 2 None ;;
    Endpoint_ClearIN.

(** ** The stdio stream *)

Definition CDC_Device_putchar (c : Z) : run Z :=
  e ← CDC_Device_SendByte c; mret (if e =? 0 then 0 else FDEV_ERR).

Definition CDC_Device_getchar : run Z :=
  b ← CDC_Device_ReceiveByte; mret (if b <? 0 then FDEV_EOF else b).

(** [task] is USB_USBTask. *)
Fixpoint getchar_blocking (k : nat) (task : run unit) : run Z :=
  match k with
  | O => lift (Fault OutOfFuel)
  | S k' =>
      b ← CDC_Device_ReceiveByte;
      if negb (b <? 0) then mret b
      else
        u ← is_unattached;
        if (u : bool) then mret FDEV_EOF
        else CDC_Device_USBTask ;; task ;; getchar_blocking k' task
  end.

Definition CDC_Device_getchar_Blocking (task : run unit) : run Z := getchar_blocking fuel task.

(** fputc of avr-libc: the character, or EOF on a stream that is not writable or
    whose function fails. *)
Definition fputc (c : Z) (stream : FILE) : run Z :=
  if negb (Z.testbit (f_flags stream) 1) then mret (-1)
  else
    match f_put stream with
    | Some PutSerial => r ← CDC_Device_putchar (u8 c); mret (if r =? 0 then c else -1)
    | None => lift (Fault Indeterminate)
    end.
End cdc.
