(* ===== verification/Rng.v ===== *)
(** The application, firmware/RNG/RNG.c.

    [rng_app] holds its global variables with the CDC interface; an iteration of the
    main loop is [main_step].  char is unsigned, as the LUFA build compiles it.  The
    jump to the bootloader stops the program.

    [rng_main] is the whole program with interrupts: before any access to a register
    or to a global variable the hardware may have handlers served, any number of
    them.  USB_GEN_vect keeps interrupts disabled; USB_COM_vect enables them, and
    since a bus reset enables the SETUP interrupt again it may be entered again
    before it ends, so handlers nest to any depth. *)

From Stdlib Require Import ZArith Lia.
From stdpp Require Import base tactics list numbers.
From S2P Require Import Prelude Posix Avr Endpoint EndpointStream Device Descriptors Cdc.

Local Open Scope Z_scope.

Record rng_app : Type := mk_rng {
  BYTE_IN : Z;
  ident : Z;
  ident_count : Z;
  sample_count : Z;
  VirtualSerial_CDC_Interface : cdc_info;
  USBSerialStream : FILE }.

Definition put_rng_cdc (c : cdc_info) (a : rng_app) : rng_app :=
  mk_rng (BYTE_IN a) (ident a) (ident_count a) (sample_count a) c (USBSerialStream a).

(** The initialiser of VirtualSerial_CDC_Interface. *)
Definition cdc_interface_init : cdc_info :=
  mk_cdc INTERFACE_ID_CDC_CCI
    (mk_ep CDC_TX_EPADDR CDC_TXRX_EPSIZE 0 1)
    (mk_ep CDC_RX_EPADDR CDC_TXRX_EPSIZE 0 1)
    (mk_ep CDC_NOTIFICATION_EPADDR CDC_NOTIFICATION_EPSIZE 0 1)
    (mk_line 0 0 0 0) 0 0.

Definition rng_init : rng_app := mk_rng 0 0 0 0 cdc_interface_init FILE_zero.

(** The exit that stands for the jump to 0x1800. *)
Definition bootloader_exit : Z := 6144.

(** The sample: ((PINC & 0b00000100) >> 2) + '0' *)
Definition sample_char (pinc : Z) : Z := Z.shiftr (Z.land pinc 4) 2 + 48.

Section rng.
Context {H : Type} `{Hardware H} `{!Interrupts H rng_app}.
Context (fuel : nat) (signature : Z -> Z).

Abbreviation run := (prog (usb H rng_app)).
Abbreviation cdc := VirtualSerial_CDC_Interface.

(** ** Event handlers *)

Definition EVENT_USB_Device_Connect : run unit := set_bits PORTD 32.
Definition EVENT_USB_Device_Disconnect : run unit :=
  v ← read_reg PORTD; write_reg PORTD (Z.land v 223).
Definition EVENT_USB_Device_ConfigurationChanged : run unit :=
  CDC_Device_ConfigureEndpoints fuel cdc put_rng_cdc ;; mret tt.
Definition EVENT_USB_Device_ControlRequest : run unit :=
  CDC_Device_ProcessControlRequest fuel cdc put_rng_cdc.

(** The library with these handlers. *)
Definition rng_USBTask : run unit :=
  USB_USBTask fuel signature EVENT_USB_Device_ControlRequest EVENT_USB_Device_ConfigurationChanged
    CALLBACK_USB_GetDescriptor.
Definition rng_GEN_vect : run unit :=
  USB_GEN_vect fuel EVENT_USB_Device_Connect EVENT_USB_Device_Disconnect.
Definition rng_COM_vect : run unit :=
  USB_COM_vect fuel signature EVENT_USB_Device_ControlRequest EVENT_USB_Device_ConfigurationChanged
    CALLBACK_USB_GetDescriptor.

(** ** main *)

(** Up to the loop.  The watchdog and clock prescaler calls of avr-libc are the
    write to MCUSR only. *)
Definition main_setup : run unit :=
  clear_bits MCUSR (2 ^ WDRF) ;;
  write_reg DDRD 48 ;;
  write_reg PORTD 0 ;;
  d ← read_reg DDRC;
  write_reg DDRC (Z.land d 251) ;;
  USB_Init fuel ;;
  set_mem (on_app (fun a => mk_rng (BYTE_IN a) (ident a) (ident_count a) (sample_count a) (cdc a) CDC_Device_CreateStream)) ;;
  set_bits SREG 128.

(** The reaction to a byte from the host. *)
Definition handle_byte : run unit :=
  a ← get_mem app;
  when (0 <=? BYTE_IN a) (
    when (BYTE_IN a =? 30) (exits bootloader_exit) ;;
    when (BYTE_IN a =? 63)
      (set_mem (on_app (fun a => mk_rng (BYTE_IN a) (if ident a =? 0 then 1 else 0) (ident_count a) (sample_count a) (cdc a) (USBSerialStream a))))).

Definition blink_ident : run unit :=
  a ← get_mem app;
  when (negb (ident a =? 0)) (
    when (ident_count a =? 0) (toggle_bits PORTD 32) ;;
    set_mem (on_app (fun a => mk_rng (BYTE_IN a) (ident a) (u16 (ident_count a + 1)) (sample_count a) (cdc a) (USBSerialStream a)))).

(** The sample and the LED. *)
Definition send_sample : run unit :=
  pinc ← read_reg PINC;
  stream ← get_mem (fun s => USBSerialStream (app s));
  fputc fuel cdc (sample_char pinc) stream ;;
  a ← get_mem app;
  when (sample_count a =? 0) (toggle_bits PORTD 16) ;;
  set_mem (on_app (fun a => mk_rng (BYTE_IN a) (ident a) (ident_count a) (u16 (sample_count a + 1)) (cdc a) (USBSerialStream a))).

(** One iteration of for (;;). *)
Definition main_step : run unit :=
  send_sample ;;
  b ← CDC_Device_ReceiveByte cdc;
  set_mem (on_app (fun a => mk_rng (u8 b) (ident a) (ident_count a) (sample_count a) (cdc a) (USBSerialStream a))) ;;
  handle_byte ;;
  blink_ident ;;
  CDC_Device_USBTask fuel cdc ;;
  rng_USBTask.

End rng.

(** ** Interrupts and the whole program *)

(** The two interrupt vectors of the controller. *)
Inductive vector : Type := GEN | COM.

(** The requests that are served before an access, decided by the hardware. *)
Class Requests (H : Type) : Type := irqs : H -> list vector * H.

Section preemption.
Context {H : Type} `{Hardware H} `{!Requests H}.
Context (fuel : nat) (signature : Z -> Z).

Abbreviation run := (prog (usb H rng_app)).

Definition take_requests : run (list vector) :=
  fun s => let (vs, h) := irqs (hw s) in (Done vs, mk_usb h (lib s) (app s) (io s)).

(** The general handler runs with interrupts disabled. *)
Definition gen_isr : run unit := @rng_GEN_vect H _ (no_interrupts H rng_app) fuel.

(** The endpoint handler enables interrupts and runs with [nested] ones. *)
Definition com_isr (nested : Interrupts H rng_app) : run unit := @rng_COM_vect H _ nested fuel signature.

Fixpoint serve (nested : Interrupts H rng_app) (vs : list vector) : run unit :=
  match vs with
  | [] => mret tt
  | GEN :: rest => gen_isr ;; serve nested rest
  | COM :: rest => com_isr nested ;; serve nested rest
  end.

(** Interrupts with at most [depth] handlers active at once. *)
Fixpoint preempt (depth : nat) : Interrupts H rng_app :=
  match depth with
  | O => mret tt
  | S d => vs ← take_requests; serve (preempt d) vs
  end.

Fixpoint iterate (n : nat) (m : run unit) : run unit :=
  match n with O => mret tt | S k => m ;; iterate k m end.

(** [n] iterations of the main loop after the set-up, which runs with interrupts
    disabled. *)
Definition rng_main (depth n : nat) : run unit :=
  @main_setup H _ (no_interrupts H rng_app) fuel ;;
  iterate n (@main_step H _ (preempt depth) fuel signature).
End preemption.
