(* ===== verification/RngProofs.v ===== *)
(** What the firmware puts on the wire.

    For every behaviour of the registers and of the host, and however interrupts
    preempt the main loop and each other, the bytes that the firmware writes to the
    data register of its serial IN endpoint are the characters that the daemon
    accepts.  The log of register writes tells which endpoint each byte goes to: it
    is the one last selected by a write to UENUM.

    Interrupt handlers share that register with the code they interrupt.  The proof
    is by the judgment [quiet]: a program that sends nothing and leaves either the
    endpoint that was selected or the control endpoint.  Handlers are quiet (the
    endpoint handler restores the selection, the bus reset leaves the control
    endpoint selected), so that code which writes to the control endpoint may be
    interrupted anywhere. *)

From Stdlib Require Import ZArith Lia.
From stdpp Require Import base tactics list numbers.
From S2P Require Import Prelude Posix Avr Endpoint EndpointStream Device Descriptors Cdc Rng.

Local Open Scope Z_scope.

(** * Reading the log *)

Abbreviation log := (list (reg * Z)).

(** The selected endpoint after a write, with [cur] before: UENUM has three bits,
    and clearing USBE resets the controller. *)
Definition select_after (w : reg * Z) (cur : Z) : Z :=
  match w.1 with
  | UENUM => w.2 mod 8
  | USBCON => if Z.testbit w.2 USBE then cur else 0
  | _ => cur
  end.

(** The bytes that a write sends to endpoint [n]. *)
Definition data_of (n cur : Z) (w : reg * Z) : list Z :=
  match w.1 with UEDATX => if cur =? n then [w.2] else [] | _ => [] end.

(** The endpoint that is selected after [l], and the bytes that go to endpoint [n],
    when [cur] is selected at the start. *)
Fixpoint selected (cur : Z) (l : log) : Z :=
  match l with [] => cur | w :: r => selected (select_after w cur) r end.

Fixpoint data_on (n cur : Z) (l : log) : list Z :=
  match l with [] => [] | w :: r => data_of n cur w ++ data_on n (select_after w cur) r end.

(** The endpoint number of the serial IN endpoint. *)
Definition TX : Z := 3.

(** A character the firmware may send. *)
Definition bit_char (b : Z) : Prop := b = 48 \/ b = 49.

Definition wire_ok (l : log) : Prop := Forall bit_char (data_on TX 0 l).

Lemma selected_snoc l w : forall cur, selected cur (l ++ [w]) = select_after w (selected cur l).
Proof. induction l as [|x l IH]; intros; simpl; auto. Qed.

Lemma data_on_snoc n l w : forall cur, data_on n cur (l ++ [w]) = data_on n cur l ++ data_of n (selected cur l) w.
Proof. induction l as [|x l IH]; intros; simpl; [by rewrite app_nil_r|]. by rewrite IH, app_assoc. Qed.

(** * The endpoint number register *)

(** UENUM holds the number written last; reads, other writes and interrupt requests
    keep it.  Two kinds of configuration are accepted: a single bank of eight bytes,
    which the control endpoint has, and one that the register holds already when the
    endpoint is set up again.  The five endpoints of this firmware fit the memory of
    the controller. *)
Class EndpointSelect (H : Type) `{Hardware H} `{!Requests H} : Type := {
  uenum : H -> Z;
  uenum_read : forall h, (rd UENUM h).1 = uenum h;
  uenum_rd : forall r h, uenum (rd r h).2 = uenum h;
  uenum_wr : forall r v h, uenum (wr r v h) = select_after (r, v) (uenum h);
  uenum_irqs : forall h, uenum (irqs h).2 = uenum h;
  config_ok : forall v w h, Z.testbit v ALLOC = true -> v = 2 ^ ALLOC \/ (exists h', (rd UECFG1X h').1 = v) ->
    Z.testbit (rd UESTA0X (wr UEIENX w (wr UECFG1X v h))).1 CFGOK = true }.

(** * Judgments on programs *)

Section judgments.
Context {H A : Type} `{ES : EndpointSelect H}.
Implicit Types s : usb H A.

Definition cur s : Z := selected 0 (io s).

(** The invariant: the log knows the selected endpoint, and the wire is clean. *)
Definition inv s : Prop := uenum (hw s) = cur s /\ wire_ok (io s).

Definition off_wire s : Prop := inv s /\ cur s <> TX.
Definition at_ep (n : Z) s : Prop := inv s /\ cur s = n mod 8.

(** From a state with [P], [m] keeps the wire clean however it ends, and if it
    returns, [R] holds of the states before and after. *)
Definition ends {B} (m : prog (usb H A) B) s (Q : B -> usb H A -> Prop) : Prop :=
  wire_ok (io (m s).2) /\ match (m s).1 with Done b => Q b (m s).2 | _ => True end.

Definition judge {B} (P : usb H A -> Prop) (m : prog (usb H A) B) (R : usb H A -> usb H A -> Prop) : Prop :=
  forall s, P s -> ends m s (fun _ => R s).

Definition triple {B} (P : usb H A -> Prop) (m : prog (usb H A) B) (Q : usb H A -> Prop) : Prop :=
  judge P m (fun _ => Q).

Definition stays s s' : Prop := inv s' /\ (cur s' = cur s \/ cur s' = 0).

Definition quiet {B} (m : prog (usb H A) B) : Prop := judge inv m stays.
Definition safe {B} (m : prog (usb H A) B) : Prop := triple inv m inv.
Definition control {B} (m : prog (usb H A) B) : Prop := triple off_wire m off_wire.

Lemma off_wire_inv s : off_wire s -> inv s.
Proof. by intros [H1 _]. Qed.

Lemma stays_refl s : inv s -> stays s s.
Proof. intros Hs. split; auto. Qed.

Lemma stays_trans s1 s2 s3 : stays s1 s2 -> stays s2 s3 -> stays s1 s3.
Proof. intros [_ H1] [H2 H3]. split; [done|]. destruct H3 as [-> | ->]; auto. Qed.

(** ** Accesses *)

Lemma inv_load r s : inv s -> stays s (load_reg r s).2.
Proof.
  intros [H1 H2]. unfold load_reg. pose proof (uenum_rd r (hw s)) as Hr.
  destruct (rd r (hw s)) as [v h]. split; [|by left]. split; [|done]. cbn in *. by rewrite Hr.
Qed.

Lemma store_cur r v s : cur (store_reg r v s).2 = select_after (r, v) (cur s).
Proof. apply selected_snoc. Qed.

Lemma inv_store r v s : inv s -> Forall bit_char (data_of TX (cur s) (r, v)) -> inv (store_reg r v s).2.
Proof.
  intros [H1 H2] Hd. split; [rewrite store_cur; cbn [store_reg snd hw]; by rewrite uenum_wr, H1|].
  unfold wire_ok. cbn [store_reg snd io]. rewrite data_on_snoc. by apply Forall_app.
Qed.

(** ** Rules *)

Lemma judge_ret {B} (b : B) (R : usb H A -> usb H A -> Prop) : (forall s, inv s -> R s s) -> judge inv (mret b) R.
Proof. intros HR s Hs. split; [apply Hs|by apply HR]. Qed.

Lemma ends_bind {B C} (m : prog (usb H A) B) (k : B -> prog (usb H A) C) s Q :
  ends m s (fun b s1 => ends (k b) s1 Q) -> ends (m ≫= k) s Q.
Proof.
  intros [H1 H2]. unfold ends, mbind, prog_bind in *. by destruct (m s) as [[b|c|f] s1].
Qed.

Lemma judge_bind {B C} P Q R1 R2 R (m : prog (usb H A) B) (k : B -> prog (usb H A) C) :
  judge P m R1 -> (forall b, judge Q (k b) R2) -> (forall s s', P s -> R1 s s' -> Q s') ->
  (forall s1 s2 s3, P s1 -> R1 s1 s2 -> R2 s2 s3 -> R s1 s3) -> judge P (m ≫= k) R.
Proof.
  intros Hm Hk HQ HR s Hs. apply ends_bind. destruct (Hm s Hs) as [H1 H2]. split; [done|].
  destruct (m s).1 as [b|c|f]; try done. destruct (Hk b _ (HQ _ _ Hs H2)) as [H3 H4]. split; [done|].
  destruct (k b _).1; eauto.
Qed.

Lemma triple_bind P Q R {B C} (m : prog (usb H A) B) (k : B -> prog (usb H A) C) :
  triple P m Q -> (forall b, triple Q (k b) R) -> triple P (m ≫= k) R.
Proof. intros Hm Hk. by eapply judge_bind. Qed.

Lemma triple_weaken {B} P Q P' Q' (m : prog (usb H A) B) :
  triple P m Q -> (forall s, P' s -> P s) -> (forall s, Q s -> Q' s) -> triple P' m Q'.
Proof. intros Hm HP HQ s Hs. destruct (Hm s (HP _ Hs)) as [H1 H2]. split; [done|]. by destruct (m s).1; auto. Qed.

Lemma safe_quiet {B} (m : prog (usb H A) B) : quiet m -> safe m.
Proof. intros Hq s Hs. destruct (Hq s Hs) as [H1 H2]. split; [done|]. by destruct (m s).1; [apply H2|..]. Qed.

Lemma control_quiet {B} (m : prog (usb H A) B) : quiet m -> control m.
Proof.
  intros Hq s [Hs Hc]. destruct (Hq s Hs) as [H1 H2]. split; [done|]. destruct (m s).1; try done.
  destruct H2 as [H2 [H3|H3]]; split; [done|congruence|done|by rewrite H3].
Qed.

Lemma control_safe {B} (m : prog (usb H A) B) : control m -> triple off_wire m inv.
Proof. intros Hm. eapply triple_weaken; [done|done|apply off_wire_inv]. Qed.

Lemma safe_control {B} (m : prog (usb H A) B) : safe m -> triple off_wire m inv.
Proof. intros Hm. eapply triple_weaken; [done|apply off_wire_inv|done]. Qed.

Lemma quiet_ret {B} (b : B) : quiet (mret b).
Proof. apply judge_ret, stays_refl. Qed.

Lemma quiet_bind {B C} (m : prog (usb H A) B) (k : B -> prog (usb H A) C) :
  quiet m -> (forall b, quiet (k b)) -> quiet (m ≫= k).
Proof.
  intros Hm Hk. eapply judge_bind; [done|done|by intros s s' _ [H1 _]|].
  intros s1 s2 s3 _. apply stays_trans.
Qed.

Lemma quiet_load r : quiet (load_reg r).
Proof.
  intros s Hs. pose proof (inv_load r s Hs) as Hl. split; [apply Hl|].
  unfold load_reg in *. by destruct (rd r (hw s)).
Qed.

Lemma quiet_store r v : r <> UENUM -> r <> UEDATX -> quiet (store_reg r v).
Proof.
  intros H1 H2 s Hs. assert (inv (store_reg r v s).2) as Hi.
  { apply inv_store; [done|]. unfold data_of. by destruct r. }
  split; [apply Hi|]. split; [done|]. rewrite store_cur. unfold select_after.
  destruct r; cbn [fst snd]; try done; auto. destruct (Z.testbit v USBE); auto.
Qed.

Lemma quiet_gets {B} (f : usb H A -> B) : quiet (gets f).
Proof. intros s Hs. split; [apply Hs|by apply stays_refl]. Qed.

Lemma quiet_modify f : (forall s, io (f s) = io s /\ hw (f s) = hw s) -> quiet (modify f).
Proof.
  intros Hf s [H1 H2]. destruct (Hf s) as [E1 E2]. unfold ends, modify, stays, inv, cur. cbn [fst snd].
  rewrite E1, E2. auto.
Qed.

Lemma quiet_lift {B} (r : res B) : quiet (lift r).
Proof. intros s Hs. destruct r; split; try apply Hs; try done. by apply stays_refl. Qed.

Lemma quiet_exits {B} c : quiet (exits (A := B) c).
Proof. intros s Hs. by split; [apply Hs|]. Qed.

Lemma quiet_when b (m : prog (usb H A) unit) : quiet m -> quiet (when b m).
Proof. intros Hm. destruct b; [done|apply quiet_ret]. Qed.

Lemma quiet_wait fuel (r st : prog (usb H A) bool) : quiet r -> quiet st -> quiet (wait_until fuel r st).
Proof.
  intros Hr Hs. induction fuel as [|k IH]; cbn [wait_until]; [apply quiet_lift|].
  apply quiet_bind; [done|]. intros []; [apply quiet_ret|]. apply quiet_bind; [done|].
  intros []; [apply quiet_ret|done].
Qed.

Lemma quiet_at {B} n (m : prog (usb H A) B) : n mod 8 = 0 -> triple inv m (at_ep n) -> quiet m.
Proof.
  intros Hn Hm s Hs. destruct (Hm s Hs) as [H1 H2]. split; [done|]. destruct (m s).1; try done.
  destruct H2 as [H2 H3]. split; [done|]. right. congruence.
Qed.

(** Interrupts that may come anywhere. *)
Class Polite (I : Interrupts H A) : Prop := polite : quiet (interrupt (Interrupts := I)).

#[export] Instance no_interrupts_polite : Polite (no_interrupts H A).
Proof. apply quiet_ret. Qed.

Section interrupted.
Context {I : Interrupts H A} `{PI : !Polite I}.

Lemma quiet_read r : quiet (read_reg r).
Proof. apply quiet_bind; [apply polite|]. intros _. apply quiet_load. Qed.

Lemma quiet_write_reg r v : r <> UENUM -> r <> UEDATX -> quiet (write_reg r v).
Proof. intros H1 H2. apply quiet_bind; [apply polite|]. intros _. by apply quiet_store. Qed.

Lemma quiet_get_mem {B} (f : usb H A -> B) : quiet (get_mem f).
Proof. apply quiet_bind; [apply polite|]. intros _. apply quiet_gets. Qed.

Lemma quiet_set_mem f : (forall s, io (f s) = io s /\ hw (f s) = hw s) -> quiet (set_mem f).
Proof. intros Hf. apply quiet_bind; [apply polite|]. intros _. by apply quiet_modify. Qed.

(** After a selection that endpoint is selected. *)
Lemma triple_at n : triple inv (write_reg UENUM n) (at_ep n).
Proof.
  eapply triple_bind; [apply safe_quiet, polite|]. intros _ s Hs.
  assert (inv (store_reg UENUM n s).2) as Hi by by apply inv_store.
  split; [apply Hi|]. split; [done|]. by rewrite store_cur.
Qed.

Lemma triple_select (P : usb H A -> Prop) n : (forall s, P s -> inv s) -> n mod 8 <> TX -> triple P (write_reg UENUM n) off_wire.
Proof.
  intros HP Hn. eapply triple_weaken; [apply triple_at|done|]. intros s [H1 H2]. split; [done|by rewrite H2].
Qed.

Lemma safe_select n : safe (write_reg UENUM n).
Proof. eapply triple_weaken; [apply triple_at|done|]. by intros s [H1 _]. Qed.

Lemma control_data v : control (write_reg UEDATX v).
Proof.
  eapply triple_bind; [apply control_quiet, polite|]. intros _ s [Hs Hc].
  assert (inv (store_reg UEDATX v s).2) as Hi.
  { apply inv_store; [done|]. unfold data_of. cbn. by rewrite (proj2 (Z.eqb_neq _ _)). }
  split; [apply Hi|]. split; [done|]. by rewrite store_cur.
Qed.

Lemma safe_data v : bit_char v -> safe (write_reg UEDATX v).
Proof.
  intros Hv. eapply triple_bind; [apply safe_quiet, polite|]. intros _ s Hs.
  assert (inv (store_reg UEDATX v s).2) as Hi.
  { apply inv_store; [done|]. unfold data_of. cbn. case_match; [by constructor|done]. }
  by split; [apply Hi|].
Qed.
End interrupted.
End judgments.

Create HintDb wire.
#[export] Hint Resolve quiet_ret quiet_bind quiet_read quiet_load quiet_gets quiet_get_mem polite quiet_lift quiet_exits quiet_when quiet_wait : wire.

(** * Automation *)

(** Decompose a program; definitions are unfolded, recursive ones come from the
    hint database. *)
Ltac quiet :=
  repeat lazymatch goal with
  | |- quiet (_ ≫= _) => apply quiet_bind; [|intros ?]
  | |- quiet (mret _) => apply quiet_ret
  | |- quiet (read_reg _) => apply quiet_read
  | |- quiet (write_reg _ _) => apply quiet_write_reg; [discriminate|discriminate]
  | |- quiet (get_mem _) => apply quiet_get_mem
  | |- quiet (set_mem _) => apply quiet_set_mem; intros; split; reflexivity
  | |- quiet (lift _) => apply quiet_lift
  | |- quiet (exits _) => apply quiet_exits
  | |- quiet (when _ _) => apply quiet_when
  | |- quiet (wait_until _ _ _) => apply quiet_wait
  | |- quiet (if ?b then _ else _) => destruct b
  | |- quiet (match ?x with _ => _ end) => destruct x
  | |- quiet ?m => first [assumption | solve [auto with wire nocore] | let h := head_of m in unfold h]
  end.

Ltac control :=
  repeat lazymatch goal with
  | |- control (_ ≫= _) => eapply (triple_bind off_wire off_wire); [|intros ?]
  | |- triple off_wire (_ ≫= _) off_wire => eapply (triple_bind off_wire off_wire); [|intros ?]
  | |- control (write_reg UEDATX _) => apply control_data
  | |- triple off_wire (write_reg UEDATX _) off_wire => apply control_data
  | |- control (if ?b then _ else _) => destruct b
  | |- triple off_wire (if ?b then _ else _) off_wire => destruct b
  | |- control (match ?x with _ => _ end) => destruct x
  | |- triple off_wire (match ?x with _ => _ end) off_wire => destruct x
  | |- control (when ?b _) => destruct b; cbn [when]
  | |- triple off_wire (when ?b _) off_wire => destruct b; cbn [when]
  | |- control ?m => first [solve [auto with wire nocore] | solve [apply control_quiet; quiet] | let h := head_of m in unfold h]
  | |- triple off_wire ?m off_wire => change (control m)
  end.

Section library.
Context {H A : Type} `{ES : EndpointSelect H} {I : Interrupts H A} `{PI : !Polite I}.
Abbreviation run := (prog (usb H A)).

(** * The library *)

Lemma quiet_bit_of r n : quiet (A := A) (bit_of r n).
Proof. quiet. Qed.

Lemma quiet_clear_bits r m : r <> UENUM -> r <> UEDATX -> quiet (A := A) (clear_bits r m).
Proof. intros H1 H2. unfold clear_bits. apply quiet_bind; [apply quiet_read|]. intros v. by apply quiet_write_reg. Qed.

Lemma quiet_set_bits r m : r <> UENUM -> r <> UEDATX -> quiet (A := A) (set_bits r m).
Proof. intros H1 H2. unfold set_bits. apply quiet_bind; [apply quiet_read|]. intros v. by apply quiet_write_reg. Qed.

Lemma quiet_wait_ready k : forall t f, quiet (A := A) (wait_ready k t f).
Proof. induction k as [|k IH]; intros t f; cbn [wait_ready]; quiet; apply IH. Qed.
Hint Resolve quiet_wait_ready : wire.

Lemma quiet_wait_until_ready fuel : quiet (A := A) (Endpoint_WaitUntilReady fuel).
Proof. quiet. Qed.

Lemma quiet_status_stage fuel : quiet (A := A) (Endpoint_ClearStatusStage fuel).
Proof. quiet. Qed.
Hint Resolve quiet_wait_until_ready quiet_status_stage : wire.

Lemma quiet_control_wait k r : quiet r -> quiet (A := A) (control_wait k r).
Proof. intros Hr. induction k as [|k IH]; cbn [control_wait]; quiet; apply IH. Qed.

Lemma quiet_control_wait_out k : quiet (A := A) (control_wait k Endpoint_IsOUTReceived).
Proof. apply quiet_control_wait. quiet. Qed.

Lemma control_transfer_out m p : control (A := A) (transfer_out m p).
Proof. control. Qed.
Hint Resolve control_transfer_out : wire.

Lemma control_fill_bank k : forall m d l n, control (A := A) (fill_bank k transfer_out 1 m d l n).
Proof. induction k as [|k IH]; intros m d l n; cbn [fill_bank]; control; apply IH. Qed.
Hint Resolve control_fill_bank : wire.

Lemma control_w k : forall m d l b, control (A := A) (control_w_loop k transfer_out 1 m d l b).
Proof. induction k as [|k IH]; intros m d l b; cbn [control_w_loop]; control; apply IH. Qed.
Hint Resolve control_w : wire.
Hint Resolve quiet_control_wait_out : wire.

Lemma control_write_stream fuel m n : control (A := A) (template_control_w fuel transfer_out from_start 1 m n).
Proof. unfold template_control_w. control. Qed.
Hint Resolve control_write_stream : wire.

(** Configuring endpoints selects them, and sends nothing. *)
Lemma safe_configure_from k : forall n c0 c1 e, safe (A := A) (configure_from k n c0 c1 e).
Proof.
  induction k as [|k IH]; intros n c0 c1 e; cbn [configure_from].
  - eapply triple_bind; [apply safe_select|]. intros _. apply safe_quiet. quiet.
  - eapply triple_bind.
    + unfold configure_one. eapply triple_bind; [apply safe_select|]. intros _. apply safe_quiet. quiet.
    + intros []; [apply IH|]. apply safe_quiet. quiet.
Qed.

Lemma safe_configure fuel a t sz b : safe (A := A) (Endpoint_ConfigureEndpoint fuel a t sz b).
Proof.
  unfold Endpoint_ConfigureEndpoint, Endpoint_ConfigureEndpoint_Prv. cbv zeta. case_match; [apply safe_quiet; quiet|].
  eapply triple_bind; [apply safe_quiet; quiet|]. intros mask. apply safe_configure_from.
Qed.

Lemma safe_configure_table fuel t : safe (A := A) (Endpoint_ConfigureEndpointTable fuel t).
Proof.
  induction t as [|e t IH]; cbn [Endpoint_ConfigureEndpointTable]; [apply safe_quiet; quiet|].
  case_match; [done|]. eapply triple_bind; [apply safe_configure|]. intros []; [done|]. apply safe_quiet. quiet.
Qed.

(** Selecting the control endpoint. *)
Lemma select_control P : (forall s, P s -> inv s) -> triple (A := A) P (Endpoint_SelectEndpoint ENDPOINT_CONTROLEP) off_wire.
Proof. intros HP. apply triple_select; [done|]. by vm_compute. Qed.

Lemma safe_select_control : safe (A := A) (Endpoint_SelectEndpoint ENDPOINT_CONTROLEP).
Proof. apply safe_select. Qed.

Lemma control_status : control (A := A) current_status.
Proof.
  unfold current_status. eapply (triple_bind _ off_wire); [apply control_quiet; quiet|]. intros req.
  case_match; [apply control_quiet; quiet|]. case_match; [|apply control_quiet; quiet].
  eapply (triple_bind _ off_wire); [apply control_quiet; quiet|]. intros index.
  eapply (triple_bind _ inv); [apply safe_control, safe_select|]. intros _.
  eapply (triple_bind _ inv); [apply safe_quiet; quiet|]. intros b.
  eapply triple_bind; [by apply select_control|]. intros _. apply control_quiet. quiet.
Qed.
Hint Resolve control_status : wire.

(** The feature requests: when the rest of the request follows, the control
    endpoint is selected again. *)
Lemma feature_safe : triple (A := A) off_wire apply_feature inv.
Proof.
  unfold apply_feature, is_set_feature, when.
  eapply (triple_bind _ off_wire); [apply control_quiet; quiet|]. intros req. cbv zeta.
  case_match; [apply safe_control, safe_quiet; quiet|]. case_match; [|apply safe_control, safe_quiet; quiet].
  eapply (triple_bind _ off_wire); [apply control_quiet; quiet|]. intros value.
  case_match; [|apply safe_control, safe_quiet; quiet].
  eapply (triple_bind _ off_wire); [apply control_quiet; quiet|]. intros index.
  case_match; [apply safe_control, safe_quiet; quiet|].
  eapply (triple_bind _ inv); [apply safe_control, safe_select|]. intros _. apply safe_quiet. quiet.
Qed.

(** The selected endpoint is a three-bit number, and the one that is read. *)
Lemma cur_range (s : usb H A) : 0 <= cur s < 8.
Proof.
  unfold cur. induction (io s) as [|[r v] l IH] using rev_ind; [cbn; lia|]. rewrite selected_snoc.
  unfold select_after. destruct r; cbn [fst snd]; try done; [apply Z.mod_pos_bound; lia|]. by case_match.
Qed.

Lemma current_number n (d : bool) : 0 <= n < 8 ->
  Z.land (Z.lor (Z.land n ENDPOINT_EPNUM_MASK) (if d then ENDPOINT_DIR_IN else ENDPOINT_DIR_OUT)) ENDPOINT_EPNUM_MASK mod 8 = n.
Proof.
  intros Hn. assert (n ∈ [0; 1; 2; 3; 4; 5; 6; 7]) as Hi by (rewrite !elem_of_cons; lia).
  repeat (apply elem_of_cons in Hi as [-> | Hi]; [by destruct d|]). by apply elem_of_nil in Hi.
Qed.

Lemma current_endpoint (s : usb H A) : inv s ->
  ends Endpoint_GetCurrentEndpoint s (fun n s' => inv s' /\
    (Z.land n ENDPOINT_EPNUM_MASK mod 8 = cur s \/ Z.land n ENDPOINT_EPNUM_MASK mod 8 = 0)).
Proof.
  intros Hs. apply ends_bind, ends_bind. destruct (polite s Hs) as [H1 H2]. split; [done|].
  destruct (interrupt s) as [[[]|c|f] s1]; cbn [fst snd] in *; try done. destruct H2 as [Hi Hc].
  pose proof (inv_load UENUM s1 Hi) as [Hi2 _]. pose proof (uenum_read (hw s1)) as Hr.
  unfold ends at 1. unfold load_reg in *. destruct (rd UENUM (hw s1)) as [n h]. cbn [fst snd] in *. subst n.
  split; [apply Hi2|]. apply ends_bind, ends_bind.
  destruct (quiet_bit_of UECFG0X EPDIR _ Hi2) as [H3 H4]. split; [done|].
  destruct (bit_of UECFG0X EPDIR _) as [[d|c|f] s2]; cbn [fst snd] in *; try done. destruct H4 as [H4 _].
  split; [done|]. split; [done|]. split; [done|]. destruct Hi as [-> _].
  rewrite current_number by apply cur_range. destruct Hc as [-> | ->]; auto.
Qed.

Section requests.
Context (fuel : nat) (signature : Z -> Z) (control_event config_event : run unit) (callback : Z -> Z -> Z * cells).
Context (Hcontrol : control control_event) (Hconfig : safe config_event).

Lemma request_set_feature : triple (A := A) off_wire (USB_Device_ClearSetFeature fuel) inv.
Proof.
  unfold USB_Device_ClearSetFeature.
  eapply (triple_bind _ inv); [apply feature_safe|]. intros ok.
  unfold when. destruct ok; [|apply safe_quiet; quiet].
  eapply (triple_bind _ off_wire); [by apply select_control|]. intros _. apply control_safe, control_quiet. quiet.
Qed.

Lemma request_set_configuration : triple off_wire (USB_Device_SetConfiguration fuel config_event) inv.
Proof.
  unfold USB_Device_SetConfiguration. eapply (triple_bind _ off_wire); [apply control_quiet; quiet|]. intros req.
  case_match; [apply control_safe, control_quiet; quiet|].
  repeat (eapply (triple_bind _ off_wire); [solve [apply control_quiet; quiet]|]; intros ?).
  by apply safe_control.
Qed.

Lemma request_get_descriptor : control (A := A) (USB_Device_GetDescriptor fuel signature callback).
Proof. unfold USB_Device_GetDescriptor, USB_Device_GetInternalSerialDescriptor. control. Qed.

Lemma standard_request_safe bm r :
  triple off_wire (standard_request fuel signature config_event callback bm r) inv.
Proof.
  unfold standard_request. cbv zeta.
  repeat (case_match; [unfold when; repeat case_match|]);
    try solve [apply control_safe, control_quiet; quiet]; try apply request_set_feature;
    try apply request_set_configuration; try apply control_safe, request_get_descriptor;
    apply control_safe; control.
Qed.

Lemma process_request_safe :
  triple off_wire (USB_Device_ProcessControlRequest fuel signature control_event config_event callback) inv.
Proof.
  unfold USB_Device_ProcessControlRequest, read_header, read_header_byte.
  eapply (triple_bind _ off_wire); [apply control_quiet; quiet|]. intros _.
  eapply (triple_bind _ off_wire); [done|]. intros _.
  eapply (triple_bind _ off_wire); [apply control_quiet; quiet|]. intros pending.
  eapply (triple_bind _ inv).
  - unfold when. destruct pending; [|apply control_safe, control_quiet; quiet].
    eapply (triple_bind _ off_wire); [apply control_quiet; quiet|]. intros bm.
    eapply (triple_bind _ off_wire); [apply control_quiet; quiet|]. intros r. apply standard_request_safe.
  - intros _. apply safe_quiet. quiet.
Qed.

Lemma usb_task_safe : safe (USB_USBTask fuel signature control_event config_event callback).
Proof.
  unfold USB_USBTask, USB_DeviceTask. eapply (triple_bind _ inv); [apply safe_quiet; quiet|]. intros st.
  case_match; [apply safe_quiet; quiet|]. eapply (triple_bind _ inv); [apply safe_quiet; quiet|]. intros prev.
  eapply (triple_bind _ off_wire); [by apply select_control|]. intros _.
  eapply (triple_bind _ off_wire); [apply control_quiet; quiet|]. intros setup.
  eapply (triple_bind _ inv); [|intros _; apply safe_select].
  unfold when. destruct setup; [apply process_request_safe|apply control_safe, control_quiet; quiet].
Qed.

(** The endpoint handler ends with the endpoint that it has read. *)
Lemma com_vect_body (n : Z) :
  triple inv (Endpoint_SelectEndpoint ENDPOINT_CONTROLEP ;; USB_INT_Disable USB_INT_RXSTPI ;; set_bits SREG 128 ;;
    USB_Device_ProcessControlRequest fuel signature control_event config_event callback ;;
    Endpoint_SelectEndpoint ENDPOINT_CONTROLEP ;; USB_INT_Enable USB_INT_RXSTPI ;; Endpoint_SelectEndpoint n)
    (at_ep (Z.land n ENDPOINT_EPNUM_MASK)).
Proof.
  eapply (triple_bind _ off_wire); [by apply select_control|]. intros _.
  eapply (triple_bind _ off_wire); [apply control_quiet; quiet|]. intros _.
  eapply (triple_bind _ off_wire); [apply control_quiet; quiet|]. intros _.
  eapply (triple_bind _ inv); [apply process_request_safe|]. intros _.
  eapply (triple_bind _ inv); [apply safe_select|]. intros _.
  eapply (triple_bind _ inv); [apply safe_quiet; quiet|]. intros _. apply triple_at.
Qed.

Lemma com_vect_quiet : quiet (USB_COM_vect fuel signature control_event config_event callback).
Proof.
  intros s Hs. apply ends_bind. destruct (current_endpoint s Hs) as [H1 H2]. split; [done|].
  destruct (Endpoint_GetCurrentEndpoint s) as [[n|c|f] s1]; cbn [fst snd] in *; try done.
  destruct H2 as [Hi Hn]. eapply triple_weaken; [apply com_vect_body|done| |done].
  intros s2 [H2 H3]. split; [done|]. rewrite H3. done.
Qed.
End requests.

End library.

(** ** The general interrupt *)

Section reset.
Context {H A : Type} `{ES : EndpointSelect H}.
Abbreviation run := (prog (usb H A)).

(** A program that returns, followed by one whose result does not depend on what it
    returned. *)
Lemma run_total {B C} (m : run B) (k : B -> run C) (r : outcome C) s :
  (exists b, (m s).1 = Done b) -> (forall b s', (k b s').1 = r) -> ((m ≫= k) s).1 = r.
Proof. intros [b Hb] Hk. unfold mbind, prog_bind. destruct (m s) as [o s1]. cbn in Hb. subst o. apply Hk. Qed.

Lemma total_bind {B C} (m : run B) (k : B -> run C) s :
  (exists b, (m s).1 = Done b) -> (forall b s', exists c, (k b s').1 = Done c) -> exists c, ((m ≫= k) s).1 = Done c.
Proof. intros [b Hb] Hk. unfold mbind, prog_bind. destruct (m s) as [o s1]. cbn in Hb. subst o. apply Hk. Qed.

Lemma read_total r (s : usb H A) : exists b, (read_reg r s).1 = Done b.
Proof. rewrite read_reg_run. by eexists. Qed.

Lemma write_total r v (s : usb H A) : exists b, (write_reg r v s).1 = Done b.
Proof. rewrite write_reg_run. by eexists. Qed.

Lemma update_total r f (s : usb H A) : exists b, ((v ← read_reg r; write_reg r (f v)) s).1 = Done b.
Proof. exists tt. apply run_total; [apply read_total|]. intros b s'. by rewrite write_reg_run. Qed.

(** The values of UECFG1X that the controller accepts. *)
Definition accepted (v : Z) : Prop := v = 2 ^ ALLOC \/ exists h : H, (rd UECFG1X h).1 = v.

(** Configuring an endpoint succeeds. *)
Lemma configured_ok x y z (s : usb H A) : Z.testbit y ALLOC = true -> accepted y ->
  ((Endpoint_DisableEndpoint ;; clear_bits UECFG1X (2 ^ ALLOC) ;; Endpoint_EnableEndpoint ;;
    write_reg UECFG0X x ;; write_reg UECFG1X y ;; write_reg UEIENX z ;; Endpoint_IsConfigured : run bool) s).1 = Done true.
Proof.
  intros Hy Ha. do 3 (apply run_total; [apply update_total|]; intros _ ?). apply run_total; [apply write_total|]. intros _ s4.
  unfold Endpoint_IsConfigured, bit_of, mbind, prog_bind. rewrite write_reg_run. cbn [hw lib app io].
  rewrite write_reg_run. cbn [hw lib app io]. rewrite read_reg_run. cbn [hw mret prog_ret fst]. by rewrite config_ok.
Qed.

Lemma configure_one_ok n c0 c1 e (s : usb H A) : accepted c1 -> (configure_one n c0 c1 e s).1 = Done true.
Proof.
  intros Ha. unfold configure_one. apply run_total; [apply write_total|]. intros _ s1.
  unfold mbind at 1, prog_bind at 1. destruct (e =? n).
  - cbn [mret prog_ret]. destruct (Z.testbit c1 ALLOC) eqn:Ea; cbn [negb]; [by apply configured_ok|done].
  - unfold mbind at 1 2 3, prog_bind at 1 2 3. rewrite !read_reg_run. cbn [hw mret prog_ret].
    match goal with |- context [Z.testbit ?y ALLOC] => destruct (Z.testbit y ALLOC) eqn:Ea end; cbn [negb]; [|done].
    apply configured_ok; [done|]. right. by eexists.
Qed.

Lemma configure_from_at k : forall n c0 c1 e, accepted c1 ->
  triple inv (configure_from k n c0 c1 e : run bool) (at_ep (Z.land n ENDPOINT_EPNUM_MASK)).
Proof.
  induction k as [|k IH]; intros n c0 c1 e Ha; cbn [configure_from].
  - eapply triple_bind; [apply triple_at|]. intros _ s Hs. split; [apply Hs|done].
  - intros s Hs. apply ends_bind.
    assert (safe (configure_one n c0 c1 e : run bool)) as Hq.
    { unfold configure_one. eapply triple_bind; [apply safe_select|]. intros _. apply safe_quiet. quiet. }
    destruct (Hq s Hs) as [H1 H2]. split; [done|]. rewrite (configure_one_ok _ _ _ _ _ Ha) in *. by apply IH.
Qed.

Lemma on_reset_quiet fuel : quiet (on_reset fuel : run unit).
Proof.
  unfold on_reset.
  do 6 (apply quiet_bind; [solve [quiet]|]; intros ?).
  apply quiet_bind; [|intros; quiet]. unfold Endpoint_ConfigureEndpoint, Endpoint_ConfigureEndpoint_Prv. cbv zeta.
  case_match; [quiet|]. destruct fuel as [|fuel]; [apply (quiet_lift (B := bool) (Fault OutOfFuel))|].
  match goal with |- quiet ?m => change m with (Endpoint_ConfigureEndpoint_Prv 0 0 (2 ^ ALLOC) : run bool) end.
  eapply quiet_at, configure_from_at; [done|]. by left.
Qed.

(** For event handlers that send nothing. *)
Lemma gen_vect_quiet fuel (connect disconnect : run unit) :
  quiet connect -> quiet disconnect -> quiet (USB_GEN_vect fuel connect disconnect).
Proof.
  intros Hc Hd. pose proof (on_reset_quiet fuel). unfold USB_GEN_vect. quiet.
Qed.
End reset.

#[export] Hint Resolve quiet_wait_ready quiet_wait_until_ready quiet_status_stage quiet_control_wait_out
  control_transfer_out control_fill_bank control_w control_write_stream control_status : wire.

(** * The application *)

Section application.
Context {H : Type} `{ES : EndpointSelect H} {I : Interrupts H rng_app} `{PI : !Polite I}.
Context (fuel : nat) (signature : Z -> Z).
Abbreviation run := (prog (usb H rng_app)).

Lemma sample_is_bit pinc : bit_char (u8 (u8 (sample_char pinc))).
Proof.
  unfold sample_char. replace (Z.shiftr (Z.land pinc 4) 2) with (Z.b2z (Z.testbit pinc 2)).
  - destruct (Z.testbit pinc 2); [by right|by left].
  - rewrite Z.shiftr_land. change (Z.shiftr 4 2) with (Z.ones 1). rewrite Z.land_ones, Z.testbit_spec' by lia.
    by rewrite Z.shiftr_div_pow2.
Qed.

Lemma cdc_control_safe : control (A := rng_app) (EVENT_USB_Device_ControlRequest fuel).
Proof.
  unfold EVENT_USB_Device_ControlRequest, CDC_Device_ProcessControlRequest, get_line_encoding, set_line_encoding.
  control.
Qed.

Lemma config_changed_safe : safe (A := rng_app) (EVENT_USB_Device_ConfigurationChanged fuel).
Proof.
  unfold EVENT_USB_Device_ConfigurationChanged. eapply (triple_bind _ inv); [|intros _; apply safe_quiet; quiet].
  unfold CDC_Device_ConfigureEndpoints.
  eapply (triple_bind _ inv); [apply safe_quiet; quiet|]. intros _.
  eapply (triple_bind _ inv); [apply safe_quiet; quiet|]. intros c.
  eapply (triple_bind _ inv); [apply safe_configure_table|]. intros []; cbn [negb]; [|apply safe_quiet, quiet_ret].
  eapply (triple_bind _ inv); [apply safe_configure_table|]. intros []; cbn [negb]; [|apply safe_quiet, quiet_ret].
  eapply (triple_bind _ inv); [apply safe_configure_table|]. intros d. apply safe_quiet. quiet.
Qed.

(** A function that first selects an endpoint and then sends nothing. *)
Lemma safe_selecting {B} (m : run B) n : quiet m -> safe (Endpoint_SelectEndpoint n ;; m).
Proof. intros Hm. eapply (triple_bind _ inv); [apply safe_select|]. intros _. by apply safe_quiet. Qed.

Lemma not_open_bind {B} (m1 m2 : run B) (k : cdc_info -> run B) :
  safe m1 -> (forall c, safe (k c)) ->
  safe (closed ← not_open VirtualSerial_CDC_Interface; if (closed : bool) then m1 else c ← info VirtualSerial_CDC_Interface; k c).
Proof.
  intros H1 Hk. eapply (triple_bind _ inv); [apply safe_quiet; quiet|]. intros []; [done|].
  eapply (triple_bind _ inv); [apply safe_quiet; quiet|]. done.
Qed.

Lemma putchar_safe c : bit_char (u8 c) -> safe (CDC_Device_putchar fuel VirtualSerial_CDC_Interface c : run Z).
Proof.
  intros Hc. unfold CDC_Device_putchar, CDC_Device_SendByte.
  eapply (triple_bind _ inv); [|intros e; apply safe_quiet; quiet].
  apply (not_open_bind (mret 2) (mret 2)); [apply safe_quiet; quiet|]. intros i.
  eapply (triple_bind _ inv); [apply safe_select|]. intros _.
  eapply (triple_bind _ inv); [apply safe_quiet; quiet|]. intros allowed.
  eapply (triple_bind _ inv); [apply safe_quiet; quiet|]. intros e.
  destruct (negb (e =? ENDPOINT_READYWAIT_NoError)); [apply safe_quiet; quiet|].
  eapply (triple_bind _ inv); [by apply safe_data|]. intros _. apply safe_quiet. quiet.
Qed.

Lemma fputc_safe c stream : bit_char (u8 (u8 c)) -> safe (fputc fuel VirtualSerial_CDC_Interface c stream : run Z).
Proof.
  intros Hc. unfold fputc. case_match; [apply safe_quiet; quiet|]. case_match; [|apply safe_quiet; quiet].
  case_match. eapply (triple_bind _ inv); [by apply putchar_safe|]. intros r. apply safe_quiet. quiet.
Qed.

Lemma receive_safe : safe (CDC_Device_ReceiveByte VirtualSerial_CDC_Interface : run Z).
Proof.
  unfold CDC_Device_ReceiveByte. apply (not_open_bind (mret (-1)) (mret (-1))); [apply safe_quiet; quiet|].
  intros c. apply safe_selecting. quiet.
Qed.

Lemma flush_safe : safe (CDC_Device_Flush fuel VirtualSerial_CDC_Interface : run Z).
Proof.
  unfold CDC_Device_Flush. apply (not_open_bind (mret 2) (mret 2)); [apply safe_quiet; quiet|].
  intros c. apply safe_selecting. quiet.
Qed.

Lemma cdc_task_safe : safe (CDC_Device_USBTask fuel VirtualSerial_CDC_Interface : run unit).
Proof.
  unfold CDC_Device_USBTask. apply (not_open_bind (mret tt) (mret tt)); [apply safe_quiet; quiet|].
  intros c. eapply (triple_bind _ inv); [apply safe_select|]. intros _.
  eapply (triple_bind _ inv); [apply safe_quiet; quiet|]. intros [].
  - eapply (triple_bind _ inv); [apply flush_safe|]. intros _. apply safe_quiet. quiet.
  - apply safe_quiet, quiet_ret.
Qed.

Lemma main_step_safe : safe (main_step fuel signature : run unit).
Proof.
  unfold main_step, send_sample.
  eapply (triple_bind _ inv).
  { eapply (triple_bind _ inv); [apply safe_quiet; quiet|]. intros pinc.
    eapply (triple_bind _ inv); [apply safe_quiet; quiet|]. intros stream.
    eapply (triple_bind _ inv); [apply fputc_safe, sample_is_bit|]. intros _. apply safe_quiet. quiet. }
  intros _. eapply (triple_bind _ inv); [apply receive_safe|]. intros b.
  do 3 (eapply (triple_bind _ inv); [solve [apply safe_quiet; quiet]|]; intros _).
  eapply (triple_bind _ inv); [apply cdc_task_safe|]. intros _.
  apply usb_task_safe; [apply cdc_control_safe|apply config_changed_safe].
Qed.

Lemma setup_safe : safe (main_setup fuel : run unit).
Proof.
  unfold main_setup, USB_Init, USB_ResetInterface, USB_Init_Device.
  do 5 (eapply (triple_bind _ inv); [solve [apply safe_quiet; quiet]|]; intros ?).
  eapply (triple_bind _ inv); [|intros _; apply safe_quiet; quiet].
  do 7 (eapply (triple_bind _ inv); [solve [apply safe_quiet; quiet]|]; intros ?).
  do 2 (eapply (triple_bind _ inv); [solve [apply safe_quiet; quiet]|]; intros ?).
  eapply (triple_bind _ inv); [apply safe_configure|]. intros _. apply safe_quiet. quiet.
Qed.

End application.

(** * Interrupts *)

Section interrupts.
Context {H : Type} `{ES : EndpointSelect H}.
Context (fuel : nat) (signature : Z -> Z).
Abbreviation run := (prog (usb H rng_app)).

Lemma gen_isr_quiet : quiet (gen_isr fuel : run unit).
Proof. apply gen_vect_quiet; quiet. Qed.

Lemma com_isr_quiet (I : Interrupts H rng_app) : Polite I -> quiet (com_isr fuel signature I : run unit).
Proof. intros PI. apply com_vect_quiet; [apply cdc_control_safe|apply config_changed_safe]. Qed.

Lemma take_requests_quiet : quiet (take_requests : run (list vector)).
Proof.
  intros s [H1 H2]. unfold ends, take_requests. pose proof (uenum_irqs (hw s)) as Hi. destruct (irqs (hw s)) as [vs h]. cbn [snd] in Hi.
  split; [done|]. split; [|by left]. split; [|done]. cbn [hw snd]. rewrite Hi. exact H1.
Qed.

Lemma serve_quiet (I : Interrupts H rng_app) vs : Polite I -> quiet (serve fuel signature I vs : run unit).
Proof.
  intros PI. induction vs as [|[] vs IH]; cbn [serve]; [apply quiet_ret| |]; apply quiet_bind; try done;
    [apply gen_isr_quiet|by apply com_isr_quiet].
Qed.

Lemma preempt_polite depth : Polite (preempt (H := H) fuel signature depth).
Proof.
  induction depth as [|d IH]; [apply quiet_ret|]. unfold Polite, interrupt. cbn [preempt].
  apply quiet_bind; [apply take_requests_quiet|]. intros vs. by apply serve_quiet.
Qed.

Lemma rng_main_safe depth n : safe (rng_main fuel signature depth n : run unit).
Proof.
  unfold rng_main. eapply (triple_bind _ inv); [apply setup_safe|]. intros _. pose proof (preempt_polite depth) as PI.
  induction n as [|n IH]; cbn [iterate]; [apply safe_quiet, quiet_ret|].
  eapply (triple_bind _ inv); [apply main_step_safe|]. intros _. exact IH.
Qed.
End interrupts.

(** C5: for every behaviour of the hardware and of the host, every number of main
    loop iterations, interrupts that preempt the main loop and each other before any
    access to a register or a global variable, and however the run ends: all bytes
    that the firmware has written to the FIFO of the serial IN endpoint are the
    characters '0' or '1'.  These are the characters the daemon accepts. *)
Theorem firmware_sends_bits {H} `{EndpointSelect H} fuel signature depth n (h : H) :
  uenum h = 0 ->
  Forall bit_char (data_on TX 0 (io (rng_main fuel signature depth n (mk_usb h core_init rng_init [])).2)).
Proof.
  intros Hu. destruct (rng_main_safe fuel signature depth n (mk_usb h core_init rng_init [])) as [Hw _]; [|exact Hw].
  split; [exact Hu|by constructor].
Qed.

(** * A simulated board *)

(** Registers that hold what was written where it matters: the selected endpoint and
    the device state.  Pin C2 is high, the PLL is locked, every bank is ready, a bus
    reset is pending.  [brd_setup] is the SETUP flag, [brd_rx] the bytes to be read
    from UEDATX; when they are read and the control endpoint is selected, the next of
    [brd_host], the host's requests, arrives.  [brd_irqs] says which requests for
    interrupts come before each access. *)
Record board : Type := mk_board {
  brd_uenum : Z;
  brd_state : Z;
  brd_setup : bool;
  brd_rx : list Z;
  brd_host : list (list Z);
  brd_irqs : list (list vector) }.

Definition board_write (r : reg) (v : Z) (b : board) : board :=
  let n := select_after (r, v) (brd_uenum b) in
  let st := if decide (r = USB_DeviceState) then v else brd_state b in
  let stp := if decide (r = UEINTX) then brd_setup b && Z.testbit v RXSTPI else brd_setup b in
  match r, brd_rx b, brd_host b with
  | UENUM, [], q :: qs => if v =? 0 then mk_board n st true q qs (brd_irqs b) else mk_board n st stp [] (q :: qs) (brd_irqs b)
  | _, rx, qs => mk_board n st stp rx qs (brd_irqs b)
  end.

#[export] Instance board_hw : Hardware board := {|
  rd r b := match r with
            | UENUM => (brd_uenum b mod 8, b)
            | UESTA0X => (128, b)
            | UEINTX => (if brd_setup b then 45 else 37, b)
            | UEDATX => (u8 (hd 0 (brd_rx b)), mk_board (brd_uenum b) (brd_state b) (brd_setup b) (tl (brd_rx b)) (brd_host b) (brd_irqs b))
            | UECFG0X => (1, b)
            | UDINT | UDIEN => (8, b)
            | PLLCSR => (1, b)
            | PINC => (4, b)
            | USB_DeviceState => (u8 (brd_state b), b)
            | _ => (0, b)
            end;
  wr := board_write |}.

#[export] Instance board_requests : Requests board := fun b =>
  (hd [] (brd_irqs b), mk_board (brd_uenum b) (brd_state b) (brd_setup b) (brd_rx b) (brd_host b) (tl (brd_irqs b))).

#[export] Instance board_select : EndpointSelect board.
Proof.
  refine {| uenum := fun b => brd_uenum b mod 8 |}; try done; try by intros [].
  intros r v [n st stp rx qs irs]. cbn. unfold board_write, select_after. cbn.
  destruct r, rx, qs; cbn; repeat case_match; cbn; by rewrite ?Zmod_mod.
Defined.

(** A host that sets configuration 1 and opens the port: SET_LINE_CODING with 9600
    baud and 8 data bits. *)
Definition host_requests : list (list Z) := [[0; 9; 1; 0; 0; 0; 0; 0]; [33; 32; 0; 0; 0; 0; 7; 0; 128; 37; 0; 0; 0; 0; 8]].

(** The board after power-up, with [irs] as interrupts. *)
Definition power_up (irs : list (list vector)) : usb board rng_app :=
  mk_usb (mk_board 0 0 false [] host_requests irs) core_init rng_init [].

(** Witness of C5: a reset, then requests from the host and samples, with an endpoint
    interrupt in the middle of the main loop; three samples are sent. *)
Lemma firmware_sends_bits_witness :
  let s := (rng_main 50 (fun _ => 0) 2 4 (power_up ([[GEN]] ++ replicate 80 [] ++ [[COM]]))).2 in
  data_on TX 0 (io s) = [49; 49; 49] /\ Forall bit_char (data_on TX 0 (io s)).
Proof. split; [by vm_compute|]. by apply (firmware_sends_bits (H := board)). Defined.

(** A bus reset between the selection of the endpoint and the write of the data: the
    handler leaves the control endpoint selected, so the sample, which no interrupt
    would have sent to the serial endpoint, goes to the control endpoint. *)
Theorem reset_misdirects_sample :
  let run irs := (rng_main 50 (fun _ => 0) 2 3 (power_up ([GEN] :: irs))).2 in
  let quiet_run := run [] in
  let reset_run := run (replicate 170 [] ++ [[GEN]]) in
  data_on TX 0 (io quiet_run) = [49] /\ data_on ENDPOINT_CONTROLEP 0 (io quiet_run) = [] /\
  data_on TX 0 (io reset_run) = [] /\ data_on ENDPOINT_CONTROLEP 0 (io reset_run) = [49].
Proof. by vm_compute. Qed.
