(* ===== verification/ControlProofs.v ===== *)
(** Control transfers with a host that follows the protocol.

    [ControlHost] is what the USB standard and the data sheet say about the
    control endpoint during an IN transfer: a bank of 8 bytes that is filled
    through UEDATX and sent by clearing TXINI, and a host that takes every packet
    and ends the transfer with an OUT packet as soon as it has all the bytes it
    asked for or a short packet.  [sim_host] is an instance.  Under it the library
    delivers descriptors exactly. *)

From Stdlib Require Import ZArith Lia.
From stdpp Require Import base tactics list numbers sets.
From S2P Require Import Prelude Posix Avr Endpoint EndpointStream Device Descriptors.

Local Open Scope Z_scope.

(** The host has what it wants: enough bytes, or a packet that is not full. *)
Definition host_done (want : nat) (xs : list (list Z)) : bool :=
  (want <=? length (concat xs))%nat ||
  match rev xs with p :: _ => (length p <? 8)%nat | [] => false end.

(** A proper transfer of [d] to a host that wants [want] bytes: the host has what it
    wants after the last packet, and not before. *)
Definition transfer_of (want : nat) (d : list Z) (xs : list (list Z)) : Prop :=
  concat xs = d /\ Forall (fun p => (length p <= 8)%nat) xs /\
  Forall (fun p => length p = 8%nat) (removelast xs) /\ host_done want xs = true /\
  (xs <> [] -> host_done want (removelast xs) = false).

Class ControlHost (H : Type) `{Hardware H} : Type := {
  bank : H -> list Z;
  packets : H -> list (list Z);
  want : H -> nat;
  ch_read : forall r h, r ∈ [UEINTX; UEBCLX; USB_DeviceState] ->
    bank (rd r h).2 = bank h /\ packets (rd r h).2 = packets h /\ want (rd r h).2 = want h;
  ch_state : forall h, (rd USB_DeviceState h).1 <> DEVICE_STATE_Unattached /\
                       (rd USB_DeviceState h).1 <> DEVICE_STATE_Suspended;
  ch_setup : forall h, Z.testbit (rd UEINTX h).1 RXSTPI = false;
  ch_in : forall h, Z.testbit (rd UEINTX h).1 TXINI = true;
  ch_out : forall h, Z.testbit (rd UEINTX h).1 RXOUTI = host_done (want h) (packets h);
  ch_count : forall h, (rd UEBCLX h).1 = Z.of_nat (length (bank h));
  ch_data : forall h v, (length (bank h) < 8)%nat -> is_byte v ->
    bank (wr UEDATX v h) = bank h ++ [v] /\ packets (wr UEDATX v h) = packets h /\ want (wr UEDATX v h) = want h;
  ch_send : forall h v, Z.testbit v TXINI = false -> Z.testbit v FIFOCON = false ->
    bank (wr UEINTX v h) = [] /\ packets (wr UEINTX v h) = packets h ++ [bank h] /\
    want (wr UEINTX v h) = want h;
  ch_keep : forall h v, Z.testbit v TXINI = true ->
    bank (wr UEINTX v h) = bank h /\ packets (wr UEINTX v h) = packets h /\ want (wr UEINTX v h) = want h }.

Section control.
Context {H A : Type} `{HW : Hardware H} `{CH : !ControlHost H}.
Implicit Types (s : usb H A).

Definition view (h : H) : list Z * list (list Z) * nat := (bank h, packets h, want h).

(** Reading a flag. *)
Lemma wp_flag n (Q : bool -> usb H A -> Prop) E s :
  (forall s', view (hw s') = view (hw s) -> lib s' = lib s -> Q (Z.testbit (rd UEINTX (hw s)).1 n) s') ->
  wp (bit_of UEINTX n) Q E s.
Proof.
  intros HQ. unfold bit_of. apply wp_bind, wp_read_reg, wp_ret, HQ; [|done]. unfold view. simpl.
  destruct (ch_read UEINTX (hw s)) as (-> & -> & ->); [set_solver|done].
Qed.

Lemma wp_bus_ok (Q : option Z -> usb H A -> Prop) E s :
  (forall s', view (hw s') = view (hw s) -> lib s' = lib s -> Q None s') -> wp bus_error Q E s.
Proof.
  intros HQ. unfold bus_error. apply wp_bind, wp_read_reg, wp_ret.
  destruct (ch_state (hw s)) as [H1 H2]. rewrite !(proj2 (Z.eqb_neq _ _)) by done. apply HQ; [|done].
  unfold view. simpl. destruct (ch_read USB_DeviceState (hw s)) as (-> & -> & ->); [set_solver|done].
Qed.

Lemma wp_count (Q : Z -> usb H A -> Prop) E s :
  (forall s', view (hw s') = view (hw s) -> lib s' = lib s -> Q (Z.of_nat (length (bank (hw s)))) s') ->
  wp Endpoint_BytesInEndpoint Q E s.
Proof.
  intros HQ. unfold Endpoint_BytesInEndpoint. apply wp_read_reg. rewrite ch_count. apply HQ; [|done].
  unfold view. simpl. destruct (ch_read UEBCLX (hw s)) as (-> & -> & ->); [set_solver|done].
Qed.

(** Sending the bank. *)
Lemma wp_clear_in (Q : unit -> usb H A -> Prop) E s :
  (forall s', view (hw s') = ([], packets (hw s) ++ [bank (hw s)], want (hw s)) -> lib s' = lib s -> Q tt s') ->
  wp Endpoint_ClearIN Q E s.
Proof.
  intros HQ. unfold Endpoint_ClearIN, clear_bits. apply wp_bind, wp_read_reg, wp_write_reg, HQ; [|done].
  unfold view. simpl. destruct (ch_read UEINTX (hw s)) as (Eb & Ep & Ew); [set_solver|].
  match goal with |- context [wr UEINTX ?v ?h] => destruct (ch_send h v) as (-> & -> & ->) end;
    [rewrite u8_testbit, Z.ldiff_spec by (unfold TXINI, FIFOCON; lia); by rewrite andb_false_r..|].
  by rewrite Eb, Ep, Ew.
Qed.

(** One byte of the buffer goes into the bank. *)
Lemma wp_transfer_out l (p : nat) b (Q : cells -> usb H A -> Prop) E s :
  l !! p = Some b -> is_byte b -> (length (bank (hw s)) < 8)%nat ->
  (forall s', view (hw s') = (bank (hw s) ++ [b], packets (hw s), want (hw s)) -> lib s' = lib s -> Q (flash l) s') ->
  wp (transfer_out (flash l) (Z.of_nat p)) Q E s.
Proof.
  intros Hp Hb Hlt HQ. unfold transfer_out, Endpoint_Write_8. apply wp_bind. eapply wp_lift.
  { unfold load_at. rewrite (proj2 (Z.ltb_ge _ _)), Nat2Z.id, load_flash, Hp by lia. done. }
  rewrite u8_small by done. apply wp_bind, wp_write_reg, wp_ret, HQ; [|done]. unfold view. simpl.
  destruct (ch_data (hw s) b Hlt Hb) as (-> & -> & ->). done.
Qed.

(** Filling the bank from position [p] with [len] bytes to go. *)
Lemma wp_fill_bank l : forall k (p len n : nat) (Q : cells * Z * Z * Z -> usb H A -> Prop) E s,
  Forall is_byte l -> (p + len <= length l)%nat -> Z.of_nat (length l) < 65536 ->
  length (bank (hw s)) = n -> (n <= 8)%nat -> (8 <= n + k)%nat ->
  (let m := Nat.min len (8 - n) in
   forall s', view (hw s') = (bank (hw s) ++ take m (drop p l), packets (hw s), want (hw s)) -> lib s' = lib s ->
     Q (flash l, Z.of_nat (p + m), Z.of_nat (len - m), Z.of_nat (n + m)) s') ->
  wp (fill_bank k transfer_out 1 (flash l) (Z.of_nat p) (Z.of_nat len) (Z.of_nat n)) Q E s.
Proof.
  assert (forall l (p len n : nat) (Q : cells * Z * Z * Z -> usb H A -> Prop) E s,
    Nat.min len (8 - n) = 0%nat ->
    (let m := Nat.min len (8 - n) in
     forall s', view (hw s') = (bank (hw s) ++ take m (drop p l), packets (hw s), want (hw s)) -> lib s' = lib s ->
     Q (flash l, Z.of_nat (p + m), Z.of_nat (len - m), Z.of_nat (n + m)) s') ->
    wp (mret (flash l, Z.of_nat p, Z.of_nat len, Z.of_nat n)) Q E s) as Hstop.
  { intros l0 p len n Q E s Hm HQ. cbv zeta in HQ. rewrite Hm, !Nat.add_0_r, Nat.sub_0_r in HQ.
    apply wp_ret, HQ; [|done]. by rewrite take_0, app_nil_r. }
  induction k as [|k IH]; intros p len n Q E s Hl Hp Hl16 Hn Hn8 Hk HQ; cbn [fill_bank].
  { apply Hstop; [lia|done]. }
  change USB_Device_ControlEndpointSize with 8.
  destruct (negb (Z.of_nat len =? 0) && (Z.of_nat n <? 8)) eqn:Et.
  - apply andb_true_iff in Et as [E1%negb_true_iff%Z.eqb_neq E2%Z.ltb_lt].
    destruct (lookup_lt_is_Some_2 l p) as [b Hb]; [lia|].
    apply wp_bind, (wp_transfer_out l p b); [done|by eapply (list.Forall_lookup_1 is_byte l)|lia|].
    intros s1 Hv1 Hl1. unfold wrapu. rewrite !Z.mod_small by lia.
    replace (Z.of_nat p + 1) with (Z.of_nat (S p)) by lia.
    replace (Z.of_nat len - 1) with (Z.of_nat (len - 1)) by lia.
    replace (Z.of_nat n + 1) with (Z.of_nat (S n)) by lia.
    injection Hv1 as Eb Ep Ew. apply IH; [done|lia|done|rewrite Eb, length_app; simpl; lia|lia|lia|].
    intros m s2 Hv2 Hl2. cbv zeta in HQ.
    replace (Z.of_nat (S p + m)) with (Z.of_nat (p + Nat.min len (8 - n))) by lia.
    replace (Z.of_nat (len - 1 - m)) with (Z.of_nat (len - Nat.min len (8 - n))) by lia.
    replace (Z.of_nat (S n + m)) with (Z.of_nat (n + Nat.min len (8 - n))) by lia.
    apply HQ; [|congruence]. rewrite Hv2, Eb, Ep, Ew.
    replace (Nat.min len (8 - n)) with (S m) by lia. rewrite (drop_S l b p Hb).
    cbn [take]. by rewrite <- app_assoc.
  - apply Hstop; [|done]. apply andb_false_iff in Et as [E1%negb_false_iff%Z.eqb_eq|E2%Z.ltb_ge]; lia.
Qed.

(** All packets so far are full and carry the first [p] bytes. *)
Definition sent_full (l : list Z) (p : nat) (xs : list (list Z)) : Prop :=
  concat xs = take p l /\ Forall (fun x => length x = 8%nat) xs.

Lemma host_done_full w l p xs : sent_full l p xs -> (p <= length l)%nat -> host_done w xs = (w <=? p)%nat.
Proof.
  intros [Hc Hf] Hp. unfold host_done. rewrite Hc, length_take, Nat.min_l by done.
  destruct (rev xs) as [|x r] eqn:E; [by rewrite orb_false_r|].
  rewrite (proj2 (Nat.ltb_ge _ _)); [by rewrite orb_false_r|].
  rewrite List.Forall_forall in Hf. rewrite (Hf x); [done|]. apply in_rev. rewrite E. by left.
Qed.

Lemma sent_full_snoc l p xs :
  sent_full l p xs -> (p + 8 <= length l)%nat -> sent_full l (p + 8) (xs ++ [take 8 (drop p l)]).
Proof.
  intros [Hc Hf] Hp. split.
  - rewrite concat_app, Hc. cbn [concat]. by rewrite app_nil_r, take_take_drop.
  - apply Forall_app. split; [done|]. constructor; [|done]. rewrite length_take, length_drop. lia.
Qed.

(** A last packet that is not full ends the transfer properly. *)
Lemma transfer_of_short w l p (n : nat) xs :
  sent_full l p xs -> (n < 8)%nat -> (p + n <= length l)%nat -> (p < w)%nat ->
  transfer_of w (take (p + n) l) (xs ++ [take n (drop p l)]).
Proof.
  intros [Hc Hf] Hn Hp Hw. split_and!.
  - rewrite concat_app, Hc. cbn [concat]. by rewrite app_nil_r, take_take_drop.
  - apply Forall_app. split; [eapply Forall_impl; [done|]; cbn; lia|]. constructor; [|done].
    rewrite length_take. lia.
  - by rewrite removelast_last.
  - unfold host_done. rewrite rev_app_distr. cbn [rev app]. apply orb_true_iff. right.
    apply Nat.ltb_lt. rewrite length_take. lia.
  - intros _. rewrite removelast_last, (host_done_full w l p xs) by (done || lia). apply Nat.leb_gt. lia.
Qed.

(** A packet before the last. *)
Lemma sent_full_before l p xs : sent_full l p xs -> xs <> [] -> (p <= length l)%nat -> exists q, (p = q + 8)%nat /\ sent_full l q (removelast xs).
Proof.
  intros [Hc Hf] Hne Hp. destruct xs as [|x xs _] using rev_ind; [done|]. rewrite removelast_last. rewrite concat_app in Hc. cbn [concat] in Hc.
  rewrite app_nil_r in Hc. apply Forall_app in Hf as [Hf Hx]. apply Forall_cons_iff in Hx as [Hx _].
  assert (length (concat xs) + 8 = p)%nat as El by (apply (f_equal length) in Hc; rewrite length_app, length_take in Hc; lia).
  exists (length (concat xs)). split; [lia|]. split; [|done].
  apply (f_equal (take (length (concat xs)))) in Hc. rewrite take_app_length, take_take, Nat.min_l in Hc by lia. exact Hc.
Qed.

Lemma transfer_of_full w l p xs :
  sent_full l p xs -> (p <= length l)%nat -> p = w -> transfer_of w (take p l) xs.
Proof.
  intros Hs Hp ->. pose proof Hs as [Hc Hf]. split_and!; [done| | | |].
  - eapply Forall_impl; [done|]. cbn. lia.
  - rewrite List.Forall_forall in *. intros x Hx. apply Hf.
    destruct xs as [|x0 xs0] using rev_ind; [done|]. rewrite removelast_last in Hx. apply in_app_iff. by left.
  - rewrite (host_done_full w l w xs) by done. by apply Nat.leb_le.
  - intros Hne. destruct (sent_full_before l w xs Hs Hne Hp) as (q & -> & Hq). rewrite (host_done_full _ l q) by (done || lia). apply Nat.leb_gt. lia.
Qed.

(** Both loops end at once when there is nothing left and the last packet was short. *)
Lemma control_w_end k (tr : cells -> Z -> prog (usb H A) cells) m d (Q : option Z * cells -> usb H A -> Prop) E s :
  Q (None, m) s -> wp (control_w_loop k tr 1 m d 0 false) Q E s.
Proof. intros HQ. by destruct k; cbn [control_w_loop]; apply wp_ret. Qed.

(** The state of the transfer when [p] of the [L] bytes are sent in full packets. *)
Definition sending (l : list Z) (w p : nat) s : Prop :=
  exists xs, view (hw s) = ([], xs, w) /\ sent_full l p xs.

Lemma sending_view l w p s s' : view (hw s') = view (hw s) -> sending l w p s -> sending l w p s'.
Proof. intros E (xs & Hv & Hs). exists xs. by rewrite E. Qed.

Definition sent_all (l : list Z) (w L : nat) s : Prop :=
  exists xs, view (hw s) = ([], xs, w) /\ transfer_of w (take L l) xs.

(** One round of the loop on a host that waits for data: the next packet. *)
Lemma wp_send_packet {B} l (p len w : nat) (K : cells -> Z -> Z -> Z -> prog (usb H A) B) Q E s xs :
  Forall is_byte l -> (p + len <= length l)%nat -> Z.of_nat (length l) < 65536 ->
  view (hw s) = ([], xs, w) ->
  (let m := Nat.min len 8 in
   forall s', view (hw s') = ([], xs ++ [take m (drop p l)], w) -> lib s' = lib s ->
     wp (K (flash l) (Z.of_nat (p + m)) (Z.of_nat (len - m)) (Z.of_nat m)) Q E s') ->
  wp (n ← Endpoint_BytesInEndpoint;
      r ← fill_bank (Z.to_nat USB_Device_ControlEndpointSize) transfer_out 1 (flash l) (Z.of_nat p) (Z.of_nat len) n;
      let '(mem', d', len', n') := r in Endpoint_ClearIN ;; K mem' d' len' n') Q E s.
Proof.
  intros Hl Hp Hl16 Hv HQ. injection Hv as Eb Ep Ew.
  apply wp_bind, wp_count. rewrite Eb. intros s1 Hv1 Hl1. apply wp_bind.
  injection Hv1 as Eb1 Ep1 Ew1. change (Z.of_nat (length [])) with (Z.of_nat 0).
  apply wp_fill_bank; [done..|by rewrite Eb1, Eb|lia|by vm_compute; lia|].
  intros m s2 Hv2 Hl2. injection Hv2 as Eb2 Ep2 Ew2. apply wp_bind, wp_clear_in. intros s3 Hv3 Hl3.
  cbv zeta in HQ. unfold m. change (8 - 0)%nat with 8%nat. simpl (0 + _)%nat. apply HQ; [|congruence].
  rewrite Hv3, Eb2, Ep2, Ew2, Eb1, Ep1, Ew1, Eb, Ep, Ew. done.
Qed.

Lemma wp_control_w l (w L : nat) E : forall k p s,
  Forall is_byte l -> Z.of_nat (length l) < 65536 -> (p <= L <= length l)%nat -> (L <= w)%nat ->
  (L = 0%nat -> w = 0%nat) -> (L - p < 8 * k)%nat -> sending l w p s ->
  wp (control_w_loop k transfer_out 1 (flash l) (Z.of_nat p) (Z.of_nat (L - p)) (negb (p =? 0)%nat))
     (fun r s' => r = (None, flash l) /\ sent_all l w L s' /\ lib s' = lib s) E s.
Proof.
  induction k as [|k IH]; intros p s Hl Hl16 Hp Hw H0 Hk (xs & Hv & Hs); [lia|]. cbn [control_w_loop].
  destruct ((Z.of_nat (L - p) =? 0) && negb (negb (p =? 0)%nat)) eqn:Estop.
  { apply andb_true_iff in Estop as [E1%Z.eqb_eq E2%negb_true_iff%negb_false_iff%Nat.eqb_eq].
    apply wp_ret. split_and!; [done| |done]. exists xs. split; [done|]. replace L with p by lia.
    apply transfer_of_full; [done|lia..]. }
  apply wp_bind, wp_bus_ok. intros s1 V1 L1. apply wp_bind, wp_flag. intros s2 V2 L2. rewrite ch_setup.
  apply wp_bind, wp_flag. intros s3 V3 L3. rewrite ch_out.
  assert (view (hw s3) = ([], xs, w)) as Hv3 by congruence.
  assert (view (hw s2) = ([], xs, w)) as Hv2 by congruence. injection Hv2 as _ Ep2 Ew2. rewrite Ep2, Ew2.
  rewrite (host_done_full w l p xs) by (done || lia).
  destruct (Nat.leb_spec w p) as [Hdone|Hmore].
  { apply wp_ret. split_and!; [done| |congruence]. exists xs. split; [done|]. replace L with p by lia.
    apply transfer_of_full; [done|lia..]. }
  apply wp_bind, wp_flag. intros s4 V4 L4. rewrite ch_in.
  apply (wp_send_packet l p (L - p) w _ _ _ _ xs); [done|lia|done|congruence|]. intros m s5 V5 L5.
  change USB_Device_ControlEndpointSize with 8.
  destruct (decide (8 <= L - p)%nat) as [Hfull|Hshort].
  - assert (m = 8%nat) as -> by (unfold m; lia). simpl (Z.of_nat 8 =? 8).
    replace (L - p - 8)%nat with (L - (p + 8))%nat by lia.
    replace true with (negb (p + 8 =? 0)%nat) by (destruct (Nat.eqb_spec (p + 8) 0); [lia|done]).
    eapply wp_conseq; [apply IH; [done|done|lia|lia|done|lia|]|].
    + exists (xs ++ [take 8 (drop p l)]). split; [done|]. apply sent_full_snoc; [done|lia].
    + intros r s6 (Hr & Hs6 & Hl6). split_and!; [done..|congruence].
  - assert (m = L - p)%nat as Em by (unfold m; lia). rewrite Em, Nat.sub_diag.
    rewrite (proj2 (Z.eqb_neq (Z.of_nat (L - p)) 8)) by lia. apply control_w_end.
    split_and!; [done| |congruence]. exists (xs ++ [take m (drop p l)]). split; [done|]. rewrite Em.
    replace L with (p + (L - p))%nat at 1 by lia. apply transfer_of_short; [done|lia..].
Qed.

Lemma wp_control_wait k (Q : Z -> usb H A -> Prop) E s :
  (0 < k)%nat -> host_done (want (hw s)) (packets (hw s)) = true ->
  (forall s', view (hw s') = view (hw s) -> lib s' = lib s -> Q ENDPOINT_RWCSTREAM_NoError s') ->
  wp (control_wait k Endpoint_IsOUTReceived) Q E s.
Proof.
  intros Hk Hd HQ. destruct k as [|k]; [lia|]. cbn [control_wait]. apply wp_bind, wp_flag. intros s1 V1 L1.
  rewrite ch_out, Hd. by apply wp_ret, HQ.
Qed.

(** The whole template on such a host, for the first [n] bytes of a buffer. *)
Lemma wp_control_write_n fuel l (n : nat) s E :
  Forall is_byte l -> (0 < n <= length l)%nat -> Z.of_nat (length l) < 65536 -> (n < 8 * fuel)%nat ->
  view (hw s) = ([], [], want (hw s)) -> wLength (USB_ControlRequest (lib s)) = Z.of_nat (want (hw s)) ->
  wp (template_control_w fuel transfer_out from_start 1 (flash l) (Z.of_nat n))
     (fun r s' => r = (ENDPOINT_RWCSTREAM_NoError, flash l) /\ lib s' = lib s /\
        exists xs, view (hw s') = ([], xs, want (hw s)) /\ transfer_of (want (hw s)) (take (want (hw s)) (take n l)) xs) E s.
Proof.
  intros Hl Hn Hl16 Hf Hv Hw. unfold template_control_w, from_start. set (w := want (hw s)) in *.
  apply wp_bind, wp_get_mem. rewrite Hw. apply wp_bind.
  rewrite (proj2 (Z.eqb_neq (Z.of_nat n) 0)), andb_false_r by lia. apply wp_ret, wp_bind.
  set (L := Nat.min w n).
  replace (if Z.of_nat w <? Z.of_nat n then Z.of_nat w else Z.of_nat n) with (Z.of_nat (L - 0))
    by (destruct (Z.ltb_spec (Z.of_nat w) (Z.of_nat n)); lia).
  change false with (negb (0 =? 0)%nat). change 0 with (Z.of_nat 0) at 1.
  eapply wp_conseq; [apply (wp_control_w l w L); [done|done|lia..|]|].
  - exists []. split; [done|]. split; [by rewrite take_0|done].
  - intros r s1 (-> & (xs & V1 & T1) & L1). apply wp_bind, wp_control_wait; [lia| |].
    + injection V1 as _ -> ->. apply T1.
    + intros s2 V2 L2. apply wp_ret. split_and!; [done|congruence|]. exists xs. split; [congruence|].
      by rewrite take_take.
Qed.

Lemma wp_control_write fuel l s E :
  Forall is_byte l -> l <> [] -> Z.of_nat (length l) < 65536 -> (length l < 8 * fuel)%nat ->
  view (hw s) = ([], [], want (hw s)) -> wLength (USB_ControlRequest (lib s)) = Z.of_nat (want (hw s)) ->
  wp (template_control_w fuel transfer_out from_start 1 (flash l) (Z.of_nat (length l)))
     (fun r s' => r = (ENDPOINT_RWCSTREAM_NoError, flash l) /\ lib s' = lib s /\
        exists xs, view (hw s') = ([], xs, want (hw s)) /\ transfer_of (want (hw s)) (take (want (hw s)) l) xs) E s.
Proof.
  intros Hl Hne Hl16 Hf Hv Hw.
  assert (0 < length l)%nat by (destruct l; [done|simpl; lia]).
  eapply wp_conseq; [by apply wp_control_write_n|]. by rewrite firstn_all.
Qed.

(** Acknowledging the SETUP or OUT packet leaves the IN bank alone. *)
Lemma wp_acknowledge mask (Q : unit -> usb H A -> Prop) E s :
  Z.testbit mask TXINI = false ->
  (forall s', view (hw s') = view (hw s) -> lib s' = lib s -> Q tt s') ->
  wp (clear_bits UEINTX mask) Q E s.
Proof.
  intros Hm HQ. unfold clear_bits. apply wp_bind, wp_read_reg, wp_write_reg, HQ; [|done].
  unfold view. simpl. destruct (ch_read UEINTX (hw s)) as (Eb & Ep & Ew); [set_solver|].
  match goal with |- context [wr UEINTX ?v ?h] => destruct (ch_keep h v) as (-> & -> & ->) end.
  - rewrite u8_testbit, Z.ldiff_spec, ch_in, Hm by (unfold TXINI; lia). done.
  - by rewrite Eb, Ep, Ew.
Qed.

Lemma wp_get_descriptor fuel signature callback l s E :
  let req := USB_ControlRequest (lib s) in
  wValue req <> Z.lor (Z.shiftl DTYPE_String 8) USE_INTERNAL_SERIAL ->
  callback (wValue req) (u8 (wIndex req)) = (Z.of_nat (length l), flash l) ->
  Forall is_byte l -> l <> [] -> Z.of_nat (length l) < 65536 -> (length l < 8 * fuel)%nat ->
  view (hw s) = ([], [], want (hw s)) -> wLength req = Z.of_nat (want (hw s)) ->
  wp (USB_Device_GetDescriptor fuel signature callback)
     (fun _ s' => lib s' = lib s /\ exists xs, view (hw s') = ([], xs, want (hw s)) /\
        transfer_of (want (hw s)) (take (want (hw s)) l) xs) E s.
Proof.
  intros req Hser Hcb Hl Hne Hl16 Hf Hv Hw. unfold USB_Device_GetDescriptor.
  apply wp_bind, wp_get_mem. fold req. rewrite (proj2 (Z.eqb_neq _ _)) by done.
  do 2 apply wp_bind, wp_get_mem. fold req. rewrite Hcb.
  rewrite (proj2 (Z.eqb_neq (Z.of_nat (length l)) NO_DESCRIPTOR))
    by (unfold NO_DESCRIPTOR; destruct l; [done|simpl; lia]).
  apply wp_bind, wp_acknowledge; [by vm_compute|]. intros s1 V1 L1.
  assert (want (hw s1) = want (hw s)) as Ew by (by injection V1).
  apply wp_bind. eapply wp_conseq; [apply wp_control_write; [done..| |]|].
  - by rewrite V1, Ew.
  - by rewrite L1, Ew.
  - intros r s2 (_ & L2 & xs & V2 & T2). rewrite Ew in *. apply wp_acknowledge; [by vm_compute|].
    intros s3 V3 L3. split; [congruence|]. exists xs. split; [congruence|done].
Qed.
End control.

(** * A simulated host *)

Record sim_ctl : Type := mk_ctl { sc_bank : list Z; sc_packets : list (list Z); sc_want : nat }.

Definition sim_ctl_flags (h : sim_ctl) : Z := if host_done (sc_want h) (sc_packets h) then 5 else 1.

#[export] Instance sim_ctl_hw : Hardware sim_ctl := {|
  rd r h := (match r with
             | UEINTX => sim_ctl_flags h
             | UEBCLX => Z.of_nat (length (sc_bank h))
             | USB_DeviceState => DEVICE_STATE_Addressed
             | _ => 0
             end, h);
  wr r v h := match r with
              | UEDATX => mk_ctl (sc_bank h ++ [v]) (sc_packets h) (sc_want h)
              | UEINTX => if Z.testbit v TXINI then h
                          else mk_ctl [] (sc_packets h ++ [sc_bank h]) (sc_want h)
              | _ => h
              end |}.

#[export] Instance sim_host : ControlHost sim_ctl.
Proof.
  refine {| bank := sc_bank; packets := sc_packets; want := sc_want |}; simpl.
  - done.
  - done.
  - intros h. unfold sim_ctl_flags. by destruct (host_done _ _).
  - intros h. unfold sim_ctl_flags. by destruct (host_done _ _).
  - intros h. unfold sim_ctl_flags. by destruct (host_done _ _).
  - done.
  - done.
  - intros h v H1 H2. by rewrite H1.
  - intros h v H1. by rewrite H1.
Defined.

(** The state in which the host has asked for a descriptor. *)
Definition sim_asked (value index len : Z) : usb sim_ctl unit :=
  mk_usb (mk_ctl [] [] (Z.to_nat len))
         (set_request (mk_request REQDIR_DEVICETOHOST REQ_GetDescriptor value index len) core_init) tt [].

(** * Theorems *)

(** C9: Endpoint_Write_Control_PStream_LE on a host that follows the protocol.
    For every buffer of 1 to 65535 bytes and every length the host asks for, it
    returns without error after a proper transfer of exactly the first wLength
    bytes (all, if there are fewer): packets of 8 bytes, the last one short (or
    empty) if and only if the host must be told that the data has ended.  The host has
    what it asked for after the last packet and not before, so that no superfluous
    packet is sent. *)
Theorem control_write_delivers {H A} `{ControlHost H} fuel l (s : usb H A) :
  Forall is_byte l -> l <> [] -> Z.of_nat (length l) < 65536 -> (length l < 8 * fuel)%nat ->
  view (hw s) = ([], [], want (hw s)) -> wLength (USB_ControlRequest (lib s)) = Z.of_nat (want (hw s)) ->
  exists s' xs,
    Endpoint_Write_Control_PStream_LE fuel (flash l) (Z.of_nat (length l)) s = (Done (ENDPOINT_RWCSTREAM_NoError, flash l), s') /\
    view (hw s') = ([], xs, want (hw s)) /\ transfer_of (want (hw s)) (take (want (hw s)) l) xs.
Proof.
  intros Hl Hne Hl16 Hf Hv Hw.
  destruct (wp_run _ _ _ _ (wp_control_write fuel l s (fun _ _ => False) Hl Hne Hl16 Hf Hv Hw))
    as (o & s' & E & [(r & -> & -> & _ & xs & V & T)|(c & _ & [])]).
  by exists s', xs.
Qed.

(** Witness of C9: twenty bytes to a host that asks for 64. *)
Lemma control_write_delivers_witness :
  let l := seqZ 1 20 in
  exists s' xs,
    Endpoint_Write_Control_PStream_LE 4 (flash l) (Z.of_nat (length l)) (sim_asked 256 0 64) =
      (Done (ENDPOINT_RWCSTREAM_NoError, flash l), s') /\
    view (hw s') = ([], xs, want (hw (sim_asked 256 0 64))) /\
    transfer_of (want (hw (sim_asked 256 0 64))) (take (want (hw (sim_asked 256 0 64))) l) xs.
Proof.
  intros l. apply control_write_delivers; [|done|done|by vm_compute; lia|done|done].
  apply (bool_forallb (fun b => bool_decide (is_byte b))); [intros x; apply bool_decide_eq_true|by vm_compute].
Defined.

(** C10: GetDescriptor requests to the firmware.  For every request for a
    descriptor that Descriptors.c has, a host that follows the protocol receives
    exactly the first wLength bytes of that descriptor, properly terminated; the
    library's state does not change. *)
Theorem get_descriptor_delivers {H A} `{ControlHost H} fuel signature l (s : usb H A) :
  let req := USB_ControlRequest (lib s) in
  wValue req <> Z.lor (Z.shiftl DTYPE_String 8) USE_INTERNAL_SERIAL ->
  (CALLBACK_USB_GetDescriptor (wValue req) (u8 (wIndex req))).2 = flash l -> l <> [] -> (32 <= fuel)%nat ->
  view (hw s) = ([], [], want (hw s)) -> wLength req = Z.of_nat (want (hw s)) ->
  exists s' xs, USB_Device_GetDescriptor fuel signature CALLBACK_USB_GetDescriptor s = (Done tt, s') /\
    lib s' = lib s /\ view (hw s') = ([], xs, want (hw s)) /\
    transfer_of (want (hw s)) (take (want (hw s)) l) xs.
Proof.
  intros req Hser Hcb Hne Hf Hv Hw.
  destruct (CALLBACK_USB_GetDescriptor (wValue req) (u8 (wIndex req))) as [n m] eqn:E.
  destruct (callback_bytes _ _ _ _ E) as (Hn & Hlt & l' & -> & Hb). cbn [snd] in Hcb.
  apply flash_inj in Hcb as ->.
  unfold flash in Hn. rewrite length_map in Hn. rewrite Hn in E, Hlt.
  destruct (wp_run _ _ _ _ (wp_get_descriptor fuel signature CALLBACK_USB_GetDescriptor l s (fun _ _ => False)
    Hser E Hb Hne ltac:(lia) ltac:(lia) Hv Hw))
    as (o & s' & Er & [([] & -> & Hl & xs & V & T)|(c & _ & [])]).
  by exists s', xs.
Qed.

(** Witness of C10: the first 9 bytes of the configuration descriptor. *)
Lemma get_descriptor_delivers_witness :
  let l := configuration_bytes ConfigurationDescriptor in
  let s := sim_asked 512 0 9 in
  exists s' xs, USB_Device_GetDescriptor 32 (fun _ => 0) CALLBACK_USB_GetDescriptor s = (Done tt, s') /\
    lib s' = lib s /\ view (hw s') = ([], xs, want (hw s)) /\
    transfer_of (want (hw s)) (take (want (hw s)) l) xs.
Proof. intros l s. apply get_descriptor_delivers; [done|done|done|lia|done|done]. Defined.
