(* ===== verification/DeviceProofs.v ===== *)
(** Properties of the endpoint and device layers: the size mask, the timeout of
    Endpoint_WaitUntilReady, requests that are refused, and configuration 0. *)

From Stdlib Require Import ZArith Lia.
From stdpp Require Import base tactics list numbers sets.
From S2P Require Import Prelude Posix Avr Endpoint EndpointStream Device.

Local Open Scope Z_scope.

(** * Endpoint_BytesToEPSizeMask *)

Lemma mask_from (k : nat) : forall (d j : nat) Bytes,
  k = (j + d)%nat -> (k <= 12)%nat -> Bytes <= 8 * 2 ^ Z.of_nat k ->
  (k = 0%nat \/ 8 * 2 ^ (Z.of_nat k - 1) < Bytes) ->
  bytes_to_mask (S d) (Z.of_nat j) (8 * 2 ^ Z.of_nat j) Bytes = Ok (u8 (16 * Z.of_nat k)).
Proof.
  induction d as [|d IH]; intros j Bytes Hk Hle Hup Hlow.
  - replace j with k by lia. cbn [bytes_to_mask]. rewrite (proj2 (Z.ltb_ge _ _)) by done.
    rewrite Z.shiftl_mul_pow2 by done. do 2 f_equal. change (2 ^ EPSIZE0) with 16. lia.
  - assert (8 * 2 ^ Z.of_nat j < Bytes) as Hlt.
    { destruct Hlow as [->|Hlow]; [lia|]. eapply Z.le_lt_trans; [|exact Hlow].
      apply Z.mul_le_mono_nonneg_l; [lia|]. apply Z.pow_le_mono_r; lia. }
    cbn [bytes_to_mask]. rewrite (proj2 (Z.ltb_lt _ _)) by done.
    assert (2 ^ Z.of_nat j <= 2 ^ 11) as Hj by (apply Z.pow_le_mono_r; lia). simpl (2 ^ 11) in Hj.
    assert (0 < 2 ^ Z.of_nat j) by (apply Z.pow_pos_nonneg; lia).
    replace (u8 (Z.of_nat j + 1)) with (Z.of_nat (S j)) by (unfold wrapu; rewrite Z.mod_small; lia).
    replace (u16 (Z.shiftl (8 * 2 ^ Z.of_nat j) 1)) with (8 * 2 ^ Z.of_nat (S j)); [by apply IH; [lia|..]|].
    rewrite Z.shiftl_mul_pow2, Nat2Z.inj_succ, Z.pow_succ_r by lia. unfold wrapu. rewrite Z.mod_small; lia.
Qed.

Definition check_values : list Z := [0; 8; 16; 32; 64; 128; 256; 512; 1024; 2048; 4096; 8192; 16384; 32768].

Lemma mask_loops fuel : forall m c Bytes,
  c ∈ check_values -> 32768 < Bytes -> bytes_to_mask fuel m c Bytes = Fault OutOfFuel.
Proof.
  induction fuel as [|fuel IH]; intros m c Bytes Hc Hb; [done|]. cbn [bytes_to_mask].
  assert (forallb (fun c => (c <=? 32768) && bool_decide (u16 (Z.shiftl c 1) ∈ check_values)) check_values = true)
    as Hall by (by vm_compute).
  rewrite forallb_forall in Hall. specialize (Hall c (proj1 (list_elem_of_In _ _) Hc)).
  apply andb_true_iff in Hall as [H1%Z.leb_le H2%bool_decide_eq_true].
  rewrite (proj2 (Z.ltb_lt _ _)) by lia. by apply IH.
Qed.

(** Endpoint_BytesToEPSizeMask.  For a size of at most 8 * 2^k bytes (k up to 12)
    that does not fit into 8 * 2^(k-1), k + 1 rounds of its loop end with k in the
    EPSIZE field; for sizes above 32768 its 16-bit counter wraps to 0 and the loop
    never ends. *)
Theorem size_mask_correct (k : nat) Bytes :
  (k <= 12)%nat -> Bytes <= 8 * 2 ^ Z.of_nat k -> (k = 0%nat \/ 8 * 2 ^ (Z.of_nat k - 1) < Bytes) ->
  Endpoint_BytesToEPSizeMask (S k) Bytes = Ok (u8 (16 * Z.of_nat k)) /\
  forall fuel big, 32768 < big -> Endpoint_BytesToEPSizeMask fuel big = Fault OutOfFuel.
Proof.
  intros Hk Hup Hlow. split.
  - by apply (mask_from k k 0).
  - intros fuel big Hbig. apply mask_loops; [|done]. by right; left.
Qed.

(** An instance: the 16-byte data endpoints. *)
Lemma size_mask_correct_witness :
  Endpoint_BytesToEPSizeMask 2 16 = Ok (u8 (16 * Z.of_nat 1)) /\
  forall fuel big, 32768 < big -> Endpoint_BytesToEPSizeMask fuel big = Fault OutOfFuel.
Proof. apply (size_mask_correct 1 16); [lia|simpl; lia|right; simpl; lia]. Defined.

(** * Endpoint_WaitUntilReady *)

(** The bus is running: the host begins a new frame every millisecond, and the frame
    number counts them modulo 2048.  [frame_left] bounds the reads of the frame number
    until the next frame; a round of the loop takes less than a frame, so that between
    two reads at most one frame begins. *)
Class FrameClock (H : Type) `{Hardware H} (patience : nat) : Type := {
  frame : H -> Z;
  frame_left : H -> nat;
  fc_left : forall h, (frame_left h <= patience)%nat;
  fc_value : forall h, (rd UDFNUM h).1 = frame h mod 2048;
  fc_read : forall h, let h' := (rd UDFNUM h).2 in
    frame h' = frame h + 1 \/ frame h' = frame h /\ (frame_left h' < frame_left h)%nat;
  fc_other : forall r h, r <> UDFNUM -> frame (rd r h).2 = frame h /\ frame_left (rd r h).2 = frame_left h }.

Section wait.
Context {H A : Type} `{HW : Hardware H} {patience : nat} `{FC : !FrameClock H patience}.
Implicit Types s : usb H A.

Definition same_clock s s' : Prop := frame (hw s') = frame (hw s) /\ frame_left (hw s') = frame_left (hw s) /\ io s' = io s.

Lemma wp_rd_frame (Q : Z -> usb H A -> Prop) E s :
  (forall s', frame (hw s') = frame (hw s) + 1 \/ frame (hw s') = frame (hw s) /\ (frame_left (hw s') < frame_left (hw s))%nat ->
     io s' = io s -> Q (frame (hw s) mod 2048) s') -> wp (read_reg UDFNUM) Q E s.
Proof.
  intros HQ. unfold wp. rewrite read_reg_run. pose proof (fc_value (hw s)) as E1. pose proof (fc_read (hw s)) as E2.
  destruct (rd UDFNUM (hw s)). cbn in *. subst. by apply HQ.
Qed.

Lemma wp_rd_other r (Q : Z -> usb H A -> Prop) E s : r <> UDFNUM -> (forall v s', same_clock s s' -> Q v s') -> wp (read_reg r) Q E s.
Proof.
  intros Hr HQ. unfold wp. rewrite read_reg_run. destruct (fc_other r (hw s) Hr) as [E1 E2].
  destruct (rd r (hw s)). cbn in *. by apply HQ.
Qed.

Lemma wp_bit_other r n (Q : bool -> usb H A -> Prop) E s : r <> UDFNUM -> (forall v s', same_clock s s' -> Q v s') -> wp (bit_of r n) Q E s.
Proof. intros Hr HQ. unfold bit_of. apply wp_bind, wp_rd_other; [done|]. intros v s' F. by apply wp_ret, HQ. Qed.

Lemma same_clock_trans s1 s2 s3 : same_clock s1 s2 -> same_clock s2 s3 -> same_clock s1 s3.
Proof. unfold same_clock. intros (? & ? & ?) (? & ? & ?). split_and!; congruence. Qed.

(** Whether the code is one of the five, and how many frames have begun since frame
    [f0] when it is returned: on a timeout 101, the last perhaps during the last read;
    otherwise at most as many. *)
Definition waited (f0 : Z) (c : Z) (f : Z) : Prop :=
  0 <= c <= 4 /\ f <= f0 + 102 /\ (c = ENDPOINT_READYWAIT_Timeout -> f0 + 101 <= f).

Lemma mod_succ_ne n : (n + 1) mod 2048 <> n mod 2048.
Proof.
  intros E. assert ((n + 1 - n) mod 2048 = 0) as F by (rewrite Zminus_mod, E, Z.sub_diag; done).
  replace (n + 1 - n) with 1 in F by lia. done.
Qed.

(** The rounds that can be left: [t] more frames and the rest of this one. *)
Lemma wp_wait_ready f0 k : forall (t : nat) prev s E,
  prev = f0 + 100 - Z.of_nat t -> prev <= frame (hw s) <= prev + 1 -> (t <= 100)%nat ->
  (t * (patience + 2) + (if decide (frame (hw s) = prev) then frame_left (hw s) + 1 else 0) < k)%nat ->
  wp (wait_ready k (Z.of_nat t) (prev mod 2048)) (fun c s' => waited f0 c (frame (hw s')) /\ io s' = io s) E s.
Proof.
  induction k as [|k IH]; intros t prev s E Hp Hf Ht Hk; [lia|]. cbn [wait_ready].
  assert (forall c s', same_clock s s' -> c ∈ [0; 1; 2; 3] -> wp (mret c) (fun c s' => waited f0 c (frame (hw s')) /\ io s' = io s) E s') as Hret.
  { intros c s' (F' & _ & I') Hc. apply wp_ret. split; [|done]. unfold waited, ENDPOINT_READYWAIT_Timeout. rewrite !elem_of_cons, elem_of_nil in Hc. lia. }
  unfold Endpoint_GetEndpointDirection. apply wp_bind, wp_bind, wp_bit_other; [done|]. intros d s1 C1. apply wp_ret, wp_bind.
  assert (wp (if (if d then ENDPOINT_DIR_IN else ENDPOINT_DIR_OUT) =? ENDPOINT_DIR_IN
              then Endpoint_IsINReady else Endpoint_IsOUTReceived) (fun _ s2 => same_clock s s2) E s1) as Hready.
  { destruct (_ =? ENDPOINT_DIR_IN); (apply wp_bit_other; [done|]); intros; by eapply same_clock_trans. }
  eapply wp_conseq; [exact Hready|]. intros ready s2 C2. destruct ready; [apply (Hret 0 s2); set_solver|].
  apply wp_bind, wp_rd_other; [done|]. intros st s3 C3. apply (same_clock_trans s) in C3; [|done].
  destruct (st =? DEVICE_STATE_Unattached); [apply (Hret 2 s3); set_solver|].
  destruct (st =? DEVICE_STATE_Suspended); [apply (Hret 3 s3); set_solver|].
  apply wp_bind, wp_bit_other; [done|]. intros stalled s4 C4. apply (same_clock_trans s) in C4; [|done].
  destruct stalled; [apply (Hret 1 s4); set_solver|]. destruct C4 as (F4 & L4 & I4).
  apply wp_bind, wp_rd_frame. rewrite F4, L4. intros s5 Hstep I5. pose proof (fc_left (hw s5)).
  destruct (decide (frame (hw s) = prev)) as [Esame|Enew].
  - rewrite Esame, Z.eqb_refl. eapply wp_conseq; [apply IH; [done|lia|done|]|].
    + case_decide; destruct Hstep; lia.
    + intros c s6 [Hc I6]. split; [done|congruence].
  - replace (frame (hw s)) with (prev + 1) in * by lia. rewrite (proj2 (Z.eqb_neq _ _)) by apply mod_succ_ne.
    destruct (Z.eqb_spec (Z.of_nat t) 0) as [Et|Et].
    { apply wp_ret. split; [|congruence]. unfold waited, ENDPOINT_READYWAIT_Timeout. lia. }
    replace (Z.of_nat t - 1) with (Z.of_nat (t - 1)) by lia. eapply wp_conseq; [apply IH; [lia|lia|lia|]|].
    + destruct t as [|t]; [done|]. replace (S t - 1)%nat with t by lia. cbn [Nat.mul] in Hk. case_decide; lia.
    + intros c s6 [Hc I6]. split; [done|congruence].
Qed.
End wait.

(** A clock and nothing else: a frame lasts three reads. *)
Record tick : Type := mk_tick { tk_frame : Z; tk_left : nat }.
#[export] Instance tick_hw : Hardware tick := {|
  rd r h := match r with
            | UDFNUM => (tk_frame h mod 2048, match Nat.min 2 (tk_left h) with O => mk_tick (tk_frame h + 1) 2 | S n => mk_tick (tk_frame h) n end)
            | USB_DeviceState => (DEVICE_STATE_Configured, h)
            | _ => (0, h)
            end;
  wr r v h := h |}.
#[export] Instance tick_clock : FrameClock tick 2.
Proof.
  refine {| frame := tk_frame; frame_left h := Nat.min 2 (tk_left h) |}.
  - lia.
  - done.
  - intros [f [|[|n]]]; cbn; [by left|right; lia..].
  - by intros [].
Defined.

(** C32: Endpoint_WaitUntilReady returns.  While the bus is running, with at most
    [patience] + 1 reads of the frame number in a frame, the wait ends after a bounded
    number of rounds with one of its five codes, whatever else the hardware does, and
    writes no register.  It returns a timeout only after 101 frames have begun since it
    was called, and in any case before another two. *)
Theorem wait_until_ready_terminates {H A} `{Hardware H} patience `{!FrameClock H patience} fuel (s : usb H A) :
  (101 * (patience + 2) <= fuel)%nat ->
  exists c s', Endpoint_WaitUntilReady fuel s = (Done c, s') /\ waited (frame (hw s)) c (frame (hw s')) /\ io s' = io s.
Proof.
  intros Hf.
  assert (wp (Endpoint_WaitUntilReady fuel) (fun c s' => waited (frame (hw s)) c (frame (hw s')) /\ io s' = io s) (fun _ _ => False) s) as Hw.
  { unfold Endpoint_WaitUntilReady. apply wp_bind, wp_rd_frame. intros s1 F1 I1. change USB_STREAM_TIMEOUT_MS with (Z.of_nat 100).
    pose proof (fc_left (hw s1)). eapply wp_conseq; [apply (wp_wait_ready (frame (hw s))); [lia|lia|lia|]|].
    - case_decide; lia.
    - intros c s2 [Hc I2]. split; [done|congruence]. }
  destruct (wp_run _ _ _ _ Hw) as (o & s' & E & [(c & -> & Hc)|(c & _ & [])]). by exists c, s'.
Qed.

Definition never_ready : usb tick unit := mk_usb (mk_tick 7 1) core_init tt [].

(** Witness of C32: an endpoint that never becomes ready. *)
Lemma wait_until_ready_terminates_witness :
  exists c s', Endpoint_WaitUntilReady 404 never_ready = (Done c, s') /\ waited (frame (hw never_ready)) c (frame (hw s')) /\ io s' = io never_ready.
Proof. apply (wait_until_ready_terminates 2 404 never_ready). lia. Defined.

(** That wait times out, in the frame in which 101 frames have begun. *)
Example wait_times_out : exists s', Endpoint_WaitUntilReady 404 never_ready = (Done ENDPOINT_READYWAIT_Timeout, s') /\ frame (hw s') = 108.
Proof. eexists. split; by vm_compute. Qed.

(** * Requests *)

Section requests.
Context {H A : Type} `{HW : Hardware H}.
Implicit Types s : usb H A.

(** Only the hardware changed. *)
Definition same_but_hw s s' : Prop := lib s' = lib s /\ app s' = app s /\ io s' = io s.

Lemma run_read r s : exists s', read_reg r s = (Done (rd r (hw s)).1, s') /\ same_but_hw s s'.
Proof. rewrite read_reg_run. by eexists. Qed.

(** A read-modify-write of a register logs one write. *)
Lemma run_update r (f : Z -> Z) s :
  exists s', (v ← read_reg r; write_reg r (f v)) s = (Done tt, s') /\ lib s' = lib s /\ app s' = app s /\
    io s' = io s ++ [(r, f (rd r (hw s)).1)].
Proof.
  destruct (run_read r s) as (s1 & E & L & A1 & I). unfold mbind, prog_bind. rewrite E. cbn.
  eexists. split_and!; [done|done|done|]. by cbn; rewrite I.
Qed.

Lemma run_bit r n s : exists s', bit_of r n s = (Done (Z.testbit (rd r (hw s)).1 n), s') /\ same_but_hw s s'.
Proof.
  destruct (run_read r s) as (s1 & E & S1). unfold bit_of, mbind, prog_bind. rewrite E. by exists s1.
Qed.

Lemma run_bind {B C} (m : prog (usb H A) B) (k : B -> prog (usb H A) C) s b s1 :
  m s = (Done b, s1) -> (m ≫= k) s = k b s1.
Proof. unfold mbind, prog_bind. by intros ->. Qed.

(** The status stage of a request to the device, when the bank is free. *)
Lemma run_status_stage fuel s :
  (0 < fuel)%nat -> (forall h, Z.testbit (rd UEINTX h).1 TXINI = true) ->
  Z.testbit (bmRequestType (USB_ControlRequest (lib s))) 7 = false ->
  exists s' v, Endpoint_ClearStatusStage fuel s = (Done tt, s') /\ lib s' = lib s /\ app s' = app s /\
    io s' = io s ++ [(UEINTX, v)].
Proof.
  intros Hf Hin Hd. unfold Endpoint_ClearStatusStage.
  rewrite (run_bind _ _ s (USB_ControlRequest (lib s)) s) by done. rewrite Hd.
  destruct fuel as [|k]; [lia|]. cbn [wait_until].
  destruct (run_bit UEINTX TXINI s) as (s1 & E1 & L1 & A1 & I1). rewrite Hin in E1.
  rewrite (run_bind _ _ s true s1); [|by rewrite (run_bind _ _ s true s1)].
  cbn [when]. destruct (run_update UEINTX (fun v => u8 (Z.ldiff v (Z.lor (2 ^ TXINI) (2 ^ FIFOCON)))) s1)
    as (s2 & E2 & L2 & A2 & I2). exists s2. eexists. split_and!; [exact E2|congruence|congruence|]. rewrite I2, I1. done.
Qed.
End requests.

(** SetConfiguration.  On hardware whose control bank is free, a request for
    configuration 0 or 1 stores the number, completes the status stage and then runs
    the configuration event; the last register write before it sets the device
    state, to Configured for configuration 1 and, although the device is then not
    configured, also for configuration 0 when it has an address.  Requests for
    other configurations change nothing. *)
Theorem set_configuration_effect {H A} `{Hardware H} fuel (event : prog (usb H A) unit) addressed (s : usb H A) :
  (0 < fuel)%nat -> (forall h, Z.testbit (rd UEINTX h).1 TXINI = true) ->
  (forall h, Z.testbit (rd UDADDR h).1 ADDEN = addressed) ->
  Z.testbit (bmRequestType (USB_ControlRequest (lib s))) 7 = false ->
  let n := u8 (wValue (USB_ControlRequest (lib s))) in
  if 1 <? n then USB_Device_SetConfiguration fuel event s = (Done tt, s)
  else exists s1 v w, USB_Device_SetConfiguration fuel event s = event s1 /\
    lib s1 = set_configuration n (lib s) /\ app s1 = app s /\
    io s1 = io s ++ [(UEINTX, v); (UEINTX, w);
      (USB_DeviceState, if (n =? 0) && negb addressed then DEVICE_STATE_Powered else DEVICE_STATE_Configured)].
Proof.
  intros Hf Hin Hadd Hd n. unfold USB_Device_SetConfiguration, get_request.
  rewrite (run_bind _ _ s (USB_ControlRequest (lib s)) s) by done. fold n.
  change FIXED_NUM_CONFIGURATIONS with 1. destruct (1 <? n); [done|].
  destruct (run_update UEINTX (fun v => u8 (Z.ldiff v (2 ^ RXSTPI))) s) as (s1 & E1 & L1 & A1 & I1).
  rewrite (run_bind _ _ s tt s1) by done.
  rewrite (run_bind _ _ s1 (USB_ControlRequest (lib s)) s1) by (rewrite get_mem_run; by rewrite L1). fold n.
  set (s2 := on_lib (set_configuration n) s1). rewrite (run_bind _ _ s1 tt s2) by done.
  destruct (run_status_stage fuel s2) as (s3 & w & E3 & L3 & A3 & I3); [done|done|by rewrite <- L1 in Hd|].
  rewrite (run_bind _ _ s2 tt s3) by done.
  rewrite (run_bind _ _ s3 n s3) by (rewrite get_mem_run; by rewrite L3).
  destruct (n =? 0) eqn:En; cbn [negb andb].
  - destruct (run_bit UDADDR ADDEN s3) as (s4 & E4 & L4 & A4 & I4). rewrite Hadd in E4.
    eexists _, _, w. split.
    { erewrite (run_bind _ _ s3 tt); [reflexivity|]. rewrite (run_bind _ _ s3 addressed s4) by done. reflexivity. }
    cbn. rewrite L4, L3, A4, A3, I4, I3. cbn. rewrite L1, A1, I1, <- !app_assoc.
    split_and!; [done..|]. by destruct addressed.
  - eexists _, _, w. split; [by erewrite (run_bind _ _ s3 tt)|]. cbn. rewrite L3, A3, I3. cbn.
    by rewrite L1, A1, I1, <- !app_assoc.
Qed.

(** Registers that read as 0xFF. *)
Inductive ones_hw : Type := Ones.
#[export] Instance ones_hardware : Hardware ones_hw := {| rd r h := (255, h); wr r v h := h |}.

Definition asked_configuration (n : Z) : usb ones_hw unit :=
  mk_usb Ones (set_request (mk_request 0 REQ_SetConfiguration n 0 0) core_init) tt [].

(** An instance: configuration 0 of an addressed device. *)
Lemma set_configuration_effect_witness :
  let s := asked_configuration 0 in
  exists s1 v w, USB_Device_SetConfiguration 1 (mret tt) s = (mret tt : prog (usb ones_hw unit) unit) s1 /\
    lib s1 = set_configuration 0 (lib s) /\ app s1 = app s /\
    io s1 = io s ++ [(UEINTX, v); (UEINTX, w); (USB_DeviceState, DEVICE_STATE_Configured)].
Proof.
  intros s. apply (set_configuration_effect 1 (mret tt) true s); [lia|done|done|done].
Defined.

(** * Requests that are refused *)

Definition standard_requests : list Z :=
  [REQ_GetStatus; REQ_ClearFeature; REQ_SetFeature; REQ_SetAddress; REQ_GetDescriptor; REQ_GetConfiguration;
   REQ_SetConfiguration].

(** Reading the header stores it and does nothing else. *)
Lemma run_header {H A} `{Hardware H} k : forall i (s : usb H A), exists s', read_header k i s = (Done tt, s') /\ app s' = app s /\ io s' = io s.
Proof.
  induction k as [|k IH]; intros i s; [by exists s|]. cbn [read_header]. unfold read_header_byte, Endpoint_Read_8.
  destruct (run_read UEDATX s) as (s1 & E1 & L1 & A1 & I1).
  set (s2 := on_lib (fun c => set_request (set_header_byte i (rd UEDATX (hw s)).1 (USB_ControlRequest c)) c) s1).
  destruct (IH (S i) s2) as (s3 & E3 & A3 & I3). exists s3. split; [|rewrite A3, I3; by cbn].
  rewrite (run_bind _ _ s tt s2); [done|]. by rewrite (run_bind _ _ _ _ _ E1).
Qed.

Lemma standard_request_unknown {H A} `{Hardware H} fuel signature (ev : prog (usb H A) unit) cb bm r (s : usb H A) :
  r ∉ standard_requests -> standard_request fuel signature ev cb bm r s = (Done tt, s).
Proof.
  intros Hn. unfold standard_requests in Hn. rewrite !not_elem_of_cons in Hn. destruct Hn as (?&?&?&?&?&?&?&_).
  unfold standard_request. cbv zeta.
  by repeat match goal with Hx : r <> _ |- _ => rewrite (proj2 (Z.eqb_neq _ _) Hx); clear Hx end.
Qed.

(** A control request that neither the application nor the library handles is
    refused.  If the application's event ignores the request, the SETUP flag stays
    set and the request code is none of the standard ones, then processing it
    returns after exactly two register writes: SETUP is acknowledged and the control
    endpoint is stalled. *)
Theorem unknown_request_stalled {H A} `{Hardware H} fuel signature (config : prog (usb H A) unit) callback (s : usb H A) :
  (forall h, Z.testbit (rd UEINTX h).1 RXSTPI = true) ->
  (forall s', read_header 8 0 s = (Done tt, s') -> bRequest (USB_ControlRequest (lib s')) ∉ standard_requests) ->
  exists s' v w, USB_Device_ProcessControlRequest fuel signature (mret tt) config callback s = (Done tt, s') /\
    io s' = io s ++ [(UEINTX, v); (UECONX, w)] /\
    Z.testbit v RXSTPI = false /\ Z.testbit w STALLRQ = true.
Proof.
  intros Hst Hreq. unfold USB_Device_ProcessControlRequest.
  destruct (run_header 8 0 s) as (s2 & E1 & _ & I1). rewrite (run_bind _ _ _ _ _ E1).
  rewrite (run_bind _ _ s2 tt s2) by done.
  destruct (run_bit UEINTX RXSTPI s2) as (s3 & E3 & L3 & _ & I3). rewrite Hst in E3.
  rewrite (run_bind _ _ _ _ _ E3). cbn [when].
  rewrite (run_bind _ _ s3 tt s3).
  2: { unfold get_request. rewrite (run_bind _ _ s3 (USB_ControlRequest (lib s3)) s3) by done.
       rewrite (run_bind _ _ s3 (USB_ControlRequest (lib s3)) s3) by done. apply standard_request_unknown. rewrite L3. eauto. }
  destruct (run_bit UEINTX RXSTPI s3) as (s4 & E4 & _ & _ & I4). rewrite Hst in E4.
  rewrite (run_bind _ _ _ _ _ E4). cbn [when].
  destruct (run_update UEINTX (fun v => u8 (Z.ldiff v (2 ^ RXSTPI))) s4) as (s5 & E5 & _ & _ & I5).
  destruct (run_update UECONX (fun v => u8 (Z.lor v (2 ^ STALLRQ))) s5) as (s6 & E6 & _ & _ & I6).
  rewrite (run_bind _ _ s4 tt s5) by done. eexists s6, _, _. split; [exact E6|]. split.
  - by rewrite I6, I5, I4, I3, I1, <- app_assoc.
  - rewrite !u8_testbit, Z.ldiff_spec, Z.lor_spec by (unfold RXSTPI, STALLRQ; lia).
    split; [by rewrite !andb_false_r|by rewrite orb_true_r].
Qed.

(** An instance: the request with all bytes 0xFF. *)
Lemma unknown_request_stalled_witness :
  exists s' v w, USB_Device_ProcessControlRequest 1 (fun _ => 0) (mret tt) (mret tt) (fun _ _ => (0, []))
      (asked_configuration 0) = (Done tt, s') /\
    io s' = [] ++ [(UEINTX, v); (UECONX, w)] /\
    Z.testbit v RXSTPI = false /\ Z.testbit w STALLRQ = true.
Proof.
  apply (unknown_request_stalled 1 (fun _ => 0) (mret tt) (fun _ _ => (0, [])) (asked_configuration 0)); [done|].
  intros s' E. vm_compute in E. injection E as <-. by apply (bool_decide_unpack _).
Defined.
