(* ===== verification/CdcProofs.v ===== *)
(** The serial IN endpoint with a host that reads it.

    [SerialHost] says how the data sheet describes the endpoint: bytes written to
    UEDATX collect in a bank of 16, RWAL tells whether there is room, clearing
    TXINI and FIFOCON hands the bank to the host, and the host takes it.  Under it
    the CDC driver neither loses, adds nor reorders bytes, and a flush ends the
    transfer as the USB standard asks, with a packet that is not full. *)

From Stdlib Require Import ZArith Lia.
From stdpp Require Import base tactics list numbers.
From S2P Require Import Prelude Posix Avr Endpoint EndpointStream Device Descriptors Cdc.

Local Open Scope Z_scope.

Definition bank_size : nat := 16.

Class SerialHost (H : Type) `{Hardware H} : Type := {
  sel : H -> Z;
  tx_bank : H -> list Z;
  tx_packets : H -> list (list Z);
  sh_read : forall r h, r <> UEDATX ->
    sel (rd r h).2 = sel h /\ tx_bank (rd r h).2 = tx_bank h /\ tx_packets (rd r h).2 = tx_packets h;
  sh_select : forall v h,
    sel (wr UENUM v h) = v /\ tx_bank (wr UENUM v h) = tx_bank h /\ tx_packets (wr UENUM v h) = tx_packets h;
  sh_state : forall h, (rd USB_DeviceState h).1 = DEVICE_STATE_Configured;
  sh_ready : forall h, sel h = 3 -> Z.testbit (rd UEINTX h).1 TXINI = true;
  sh_allowed : forall h, sel h = 3 -> Z.testbit (rd UEINTX h).1 RWAL = (length (tx_bank h) <? bank_size)%nat;
  sh_direction : forall h, sel h = 3 -> Z.testbit (rd UECFG0X h).1 EPDIR = true;
  sh_count : forall h, sel h = 3 -> (rd UEBCLX h).1 = Z.of_nat (length (tx_bank h));
  sh_data : forall h v, sel h = 3 -> (length (tx_bank h) < bank_size)%nat -> is_byte v ->
    sel (wr UEDATX v h) = 3 /\ tx_bank (wr UEDATX v h) = tx_bank h ++ [v] /\ tx_packets (wr UEDATX v h) = tx_packets h;
  sh_send : forall h v, sel h = 3 -> Z.testbit v TXINI = false -> Z.testbit v FIFOCON = false ->
    sel (wr UEINTX v h) = 3 /\ tx_bank (wr UEINTX v h) = [] /\ tx_packets (wr UEINTX v h) = tx_packets h ++ [tx_bank h] }.

Section serial.
Context {H A : Type} `{HW : Hardware H} `{SH : !SerialHost H}.
Context (fuel : nat) (Hfuel : (0 < fuel)%nat).
Context (get_cdc : A -> cdc_info).
Implicit Types s : usb H A.

(** The serial port is open and its IN endpoint is number 3. *)
Definition port_open s : Prop :=
  let c := get_cdc (app s) in
  Z.land (ep_Address (DataINEndpoint c)) ENDPOINT_EPNUM_MASK = 3 /\ BaudRateBPS (LineEncoding c) <> 0.

(** The bytes on their way to the host, and the packets' size. *)
Definition tx_stream (h : H) : list Z := concat (tx_packets h) ++ tx_bank h.
Definition tx_sized (h : H) : Prop :=
  Forall (fun p => (length p <= bank_size)%nat) (tx_packets h) /\ (length (tx_bank h) <= bank_size)%nat.

Definition tx_view (h : H) : Z * list Z * list (list Z) := (sel h, tx_bank h, tx_packets h).

(** Same endpoint state, application and library. *)
Definition quiet_step s s' : Prop := tx_view (hw s') = tx_view (hw s) /\ app s' = app s.

Lemma wp_sread r (Q : Z -> usb H A -> Prop) E s :
  r <> UEDATX -> (forall s', quiet_step s s' -> Q (rd r (hw s)).1 s') -> wp (read_reg r) Q E s.
Proof.
  intros Hr HQ. unfold wp. rewrite read_reg_run. destruct (sh_read r (hw s) Hr) as (E1 & E2 & E3).
  destruct (rd r (hw s)) as [v h] eqn:Er. cbn in *. apply HQ. split; [|done]. unfold tx_view. cbn. congruence.
Qed.

Lemma wp_sbit r n (Q : bool -> usb H A -> Prop) E s :
  r <> UEDATX -> (forall s', quiet_step s s' -> Q (Z.testbit (rd r (hw s)).1 n) s') -> wp (bit_of r n) Q E s.
Proof. intros Hr HQ. unfold bit_of. apply wp_bind, wp_sread; [done|]. intros s' Hs. by apply wp_ret, HQ. Qed.

Lemma wp_sclear_in (Q : unit -> usb H A -> Prop) E s :
  sel (hw s) = 3 ->
  (forall s', tx_view (hw s') = (3, [], tx_packets (hw s) ++ [tx_bank (hw s)]) -> app s' = app s -> Q tt s') ->
  wp Endpoint_ClearIN Q E s.
Proof.
  intros Hsel HQ. unfold Endpoint_ClearIN, clear_bits. apply wp_bind, wp_sread; [done|]. intros s1 [V1 A1].
  injection V1 as V1 V2 V3. unfold wp. rewrite write_reg_run. apply HQ; [|done]. unfold tx_view. simpl.
  match goal with |- context [wr UEINTX ?v ?h] => destruct (sh_send h v) as (-> & -> & ->) end;
    [congruence|rewrite u8_testbit, Z.ldiff_spec by (unfold TXINI, FIFOCON; lia); by rewrite andb_false_r..|].
  by rewrite V2, V3.
Qed.

Lemma wp_select3 (Q : unit -> usb H A -> Prop) E s :
  port_open s ->
  (forall s', tx_view (hw s') = (3, tx_bank (hw s), tx_packets (hw s)) -> app s' = app s -> Q tt s') ->
  wp (Endpoint_SelectEndpoint (ep_Address (DataINEndpoint (get_cdc (app s))))) Q E s.
Proof.
  intros [Ha _] HQ. unfold Endpoint_SelectEndpoint. rewrite Ha. unfold wp. rewrite write_reg_run. apply HQ; [|done].
  unfold tx_view. simpl. destruct (sh_select 3 (hw s)) as (-> & -> & ->). done.
Qed.

Lemma wp_open {B} (m : prog (usb H A) B) (k : cdc_info -> prog (usb H A) B) Q E s :
  port_open s -> (forall s', quiet_step s s' -> wp (k (get_cdc (app s))) Q E s') ->
  wp (closed ← not_open get_cdc; if (closed : bool) then m else c ← info get_cdc; k c) Q E s.
Proof.
  intros [_ Hb] HQ. apply wp_bind. unfold not_open. apply wp_bind, wp_sread; [done|]. intros s1 [V1 A1].
  rewrite sh_state, Z.eqb_refl. cbn [negb]. apply wp_bind, wp_get_mem, wp_ret. rewrite A1.
  rewrite (proj2 (Z.eqb_neq _ _)) by done. apply wp_bind, wp_get_mem. rewrite A1. by apply HQ.
Qed.

Lemma wp_swait (Q : Z -> usb H A -> Prop) E s :
  sel (hw s) = 3 -> (forall s', quiet_step s s' -> Q ENDPOINT_READYWAIT_NoError s') ->
  wp (Endpoint_WaitUntilReady fuel) Q E s.
Proof.
  intros Hsel HQ. unfold Endpoint_WaitUntilReady. apply wp_bind, wp_sread; [done|]. intros s1 [V1 A1].
  destruct fuel as [|k]; [lia|]. cbn [wait_ready]. unfold Endpoint_GetEndpointDirection.
  apply wp_bind, wp_bind, wp_sbit; [done|]. intros s2 [V2 A2]. injection V1 as S1 B1 P1. injection V2 as S2 B2 P2.
  rewrite sh_direction by congruence. apply wp_ret. simpl (_ =? ENDPOINT_DIR_IN).
  apply wp_bind, wp_sbit; [done|]. intros s3 [V3 A3]. injection V3 as S3 B3 P3.
  rewrite sh_ready by congruence. apply wp_ret, HQ. split; [unfold tx_view; congruence|congruence].
Qed.

(** ** Sending a byte *)

Lemma wp_send_byte b E s :
  port_open s -> is_byte b -> tx_sized (hw s) ->
  wp (CDC_Device_SendByte fuel get_cdc b)
     (fun e s' => e = ENDPOINT_READYWAIT_NoError /\ app s' = app s /\
        tx_stream (hw s') = tx_stream (hw s) ++ [b] /\ tx_bank (hw s') <> [] /\ tx_sized (hw s')) E s.
Proof.
  intros Ho Hb [Hp Hbk]. unfold CDC_Device_SendByte. apply wp_open; [done|]. intros s1 [V1 A1]. cbv beta.
  rewrite <- A1. apply wp_bind, wp_select3; [unfold port_open in *; by rewrite A1|]. intros s2 V2 A2.
  injection V1 as S1 B1 P1. injection V2 as S2 B2 P2. rewrite B1, P1 in *.
  apply wp_bind, wp_sbit; [done|]. intros s3 [V3 A3]. injection V3 as S3 B3 P3.
  rewrite sh_allowed, B2 by done. apply wp_bind.
  assert (wp (if negb (length (tx_bank (hw s)) <? bank_size)%nat
              then Endpoint_ClearIN ;; Endpoint_WaitUntilReady fuel else mret ENDPOINT_READYWAIT_NoError)
    (fun e s4 => e = ENDPOINT_READYWAIT_NoError /\ app s4 = app s /\ sel (hw s4) = 3 /\
       (length (tx_bank (hw s4)) < bank_size)%nat /\ tx_stream (hw s4) = tx_stream (hw s) /\ tx_sized (hw s4)) E s3) as Hroom.
  { unfold tx_stream, tx_sized. destruct (Nat.ltb_spec (length (tx_bank (hw s))) bank_size) as [Hlt|Hge]; cbn [negb].
    - apply wp_ret. rewrite S3, S2, B3, B2, P3, P2. split_and!; try done; congruence.
    - apply wp_bind, wp_sclear_in; [congruence|]. intros s4 V4 A4. injection V4 as S4 B4 P4.
      apply wp_swait; [done|]. intros s5 [V5 A5]. injection V5 as S5 B5 P5.
      rewrite S5, S4, B5, B4, P5, P4, P3, P2, B3, B2. split_and!; [done|congruence|done|cbn; unfold bank_size; lia| | |cbn; lia].
      + rewrite concat_app. cbn [concat]. by rewrite !app_nil_r.
      + apply Forall_app. split; [done|]. apply Forall_cons_iff. by split. }
  eapply wp_conseq; [exact Hroom|]. intros e s4 (-> & A4 & S4 & L4 & T4 & Z4). cbn.
  unfold Endpoint_Write_8. rewrite u8_small by done. apply wp_bind. unfold wp at 1. rewrite write_reg_run.
  destruct (sh_data (hw s4) b S4 L4 Hb) as (S5 & B5 & P5). apply wp_ret.
  unfold tx_stream, tx_sized in *. cbn. rewrite B5, P5. split_and!; [done|congruence| | |apply Z4|].
  - by rewrite app_assoc, T4.
  - intros En. by apply app_nil in En as [_ ?].
  - rewrite length_app. cbn. unfold bank_size in *. lia.
Qed.

(** A sequence of bytes, as long as each is accepted. *)
Fixpoint send_bytes (bs : list Z) : prog (usb H A) bool :=
  match bs with
  | [] => mret true
  | b :: rest => e ← CDC_Device_SendByte fuel get_cdc b; if e =? 0 then send_bytes rest else mret false
  end.

Lemma wp_send_bytes bs : forall E s,
  port_open s -> Forall is_byte bs -> tx_sized (hw s) ->
  wp (send_bytes bs)
     (fun ok s' => ok = true /\ app s' = app s /\ tx_stream (hw s') = tx_stream (hw s) ++ bs /\
        (bs <> [] \/ tx_bank (hw s) <> [] -> tx_bank (hw s') <> []) /\ tx_sized (hw s')) E s.
Proof.
  induction bs as [|b bs IH]; intros E s Ho Hb Hz; cbn [send_bytes].
  - apply wp_ret. rewrite app_nil_r. naive_solver.
  - apply Forall_cons_iff in Hb as [Hb Hbs]. apply wp_bind. eapply wp_conseq; [by apply wp_send_byte|].
    intros e s1 (-> & A1 & T1 & N1 & Z1). cbn. eapply wp_conseq; [apply IH; [|done|done]|].
    + unfold port_open in *. by rewrite A1.
    + intros ok s2 (-> & A2 & T2 & N2 & Z2). split_and!; [done|congruence| |auto|done]. by rewrite T2, T1, <- app_assoc.
Qed.

(** ** Flushing *)

(** The last packet ended the transfer. *)
Definition terminated (ps : list (list Z)) : Prop :=
  match rev ps with p :: _ => (length p < bank_size)%nat | [] => True end.

Lemma wp_flush E s :
  port_open s -> tx_sized (hw s) ->
  wp (CDC_Device_Flush fuel get_cdc)
     (fun e s' => e = ENDPOINT_READYWAIT_NoError /\ app s' = app s /\ tx_bank (hw s') = [] /\
        tx_stream (hw s') = tx_stream (hw s) /\ tx_sized (hw s') /\
        (tx_bank (hw s) <> [] -> terminated (tx_packets (hw s')))) E s.
Proof.
  intros Ho [Hp Hbk]. unfold CDC_Device_Flush. apply wp_open; [done|]. intros s1 [V1 A1]. cbv beta.
  rewrite <- A1. apply wp_bind, wp_select3; [unfold port_open in *; by rewrite A1|]. intros s2 V2 A2.
  injection V1 as S1 B1 P1. injection V2 as S2 B2 P2. rewrite B1, P1 in *.
  apply wp_bind, wp_sread; [done|]. intros s3 [V3 A3]. injection V3 as S3 B3 P3.
  rewrite sh_count, B2 by done. unfold tx_stream, tx_sized, terminated.
  destruct (Z.eqb_spec (Z.of_nat (length (tx_bank (hw s)))) 0) as [E0|E0].
  { assert (tx_bank (hw s) = []) as Eb by (apply nil_length_inv; lia).
    apply wp_ret. rewrite B3, B2, P3, P2, Eb. split_and!; try done; congruence. }
  apply wp_bind, wp_sbit; [done|]. intros s4 [V4 A4]. injection V4 as S4 B4 P4.
  rewrite sh_allowed, B3, B2 by congruence. apply wp_bind, wp_sclear_in; [congruence|].
  intros s5 V5 A5. injection V5 as S5 B5 P5.
  assert (concat (tx_packets (hw s) ++ [tx_bank (hw s)]) = concat (tx_packets (hw s)) ++ tx_bank (hw s)) as Ec.
  { rewrite concat_app. cbn. by rewrite app_nil_r. }
  assert (Forall (fun p => (length p <= bank_size)%nat) (tx_packets (hw s) ++ [tx_bank (hw s)])) as Hz.
  { apply Forall_app. split; [done|]. apply Forall_cons_iff. by split. }
  destruct (Nat.ltb_spec (length (tx_bank (hw s))) bank_size) as [Hlt|Hge]; cbn [negb].
  - apply wp_ret. rewrite B5, P5, P4, P3, P2, B4, B3, B2. split_and!; [done|congruence|done| |done|cbn; lia|].
    + by rewrite Ec, app_nil_r.
    + intros _. by rewrite rev_app_distr.
  - apply wp_bind, wp_swait; [done|]. intros s6 [V6 A6]. injection V6 as S6 B6 P6. cbn.
    apply wp_bind, wp_sclear_in; [congruence|]. intros s7 V7 A7. injection V7 as S7 B7 P7. apply wp_ret.
    rewrite B7, P7, P6, P5, P4, P3, P2, B6, B5, B4, B3, B2. split_and!; [done|congruence|done| | |cbn; lia|].
    + rewrite concat_app, Ec. cbn. by rewrite !app_nil_r.
    + apply Forall_app. split; [done|]. apply Forall_cons_iff. split; [cbn; lia|done].
    + intros _. rewrite rev_app_distr. cbn. unfold bank_size. lia.
Qed.

(** The bytes, then the flush. *)
Definition send_then_flush (bs : list Z) : prog (usb H A) Z :=
  ok ← send_bytes bs; if (ok : bool) then CDC_Device_Flush fuel get_cdc else mret ENDPOINT_RWSTREAM_DeviceDisconnected.

Lemma wp_send_then_flush bs E s :
  port_open s -> Forall is_byte bs -> bs <> [] -> tx_sized (hw s) ->
  wp (send_then_flush bs)
     (fun e s' => e = ENDPOINT_READYWAIT_NoError /\ tx_bank (hw s') = [] /\
        concat (tx_packets (hw s')) = tx_stream (hw s) ++ bs /\
        Forall (fun p => (length p <= bank_size)%nat) (tx_packets (hw s')) /\
        terminated (tx_packets (hw s'))) E s.
Proof.
  intros Ho Hb Hne Hz. unfold send_then_flush. apply wp_bind. eapply wp_conseq; [by apply wp_send_bytes|].
  intros ok s1 (-> & A1 & T1 & N1 & Z1). eapply wp_conseq; [apply wp_flush; [|done]|].
  - unfold port_open in *. by rewrite A1.
  - intros e s2 (-> & A2 & B2 & T2 & [Z2 _] & E2). split_and!; [done|done| |done|auto].
    rewrite <- T1, <- T2. unfold tx_stream. by rewrite B2, app_nil_r.
Qed.
End serial.

(** * A simulated endpoint *)

Record sim_tx : Type := mk_tx { tx_sel : Z; tx_fill : list Z; tx_done : list (list Z) }.

#[export] Instance sim_tx_hw : Hardware sim_tx := {|
  rd r h := (match r with
             | UEINTX => if (length (tx_fill h) <? bank_size)%nat then 33 else 1
             | UECFG0X => 1
             | UEBCLX => Z.of_nat (length (tx_fill h))
             | USB_DeviceState => DEVICE_STATE_Configured
             | _ => 0
             end, h);
  wr r v h := match r with
              | UENUM => mk_tx v (tx_fill h) (tx_done h)
              | UEDATX => mk_tx (tx_sel h) (tx_fill h ++ [v]) (tx_done h)
              | UEINTX => if Z.testbit v TXINI then h else mk_tx (tx_sel h) [] (tx_done h ++ [tx_fill h])
              | _ => h
              end |}.

#[export] Instance sim_tx_host : SerialHost sim_tx.
Proof.
  refine {| sel := tx_sel; tx_bank := tx_fill; tx_packets := tx_done |}; simpl; try done.
  - intros h _. by destruct (_ <? _)%nat.
  - intros h _. by destruct (_ <? _)%nat.
  - intros h v Hs H1 H2. by rewrite H1.
Defined.

(** A serial port that the host has opened at 9600 baud. *)
Definition sim_port : cdc_info :=
  mk_cdc 0 (mk_ep CDC_TX_EPADDR CDC_TXRX_EPSIZE EP_TYPE_BULK 1) (mk_ep CDC_RX_EPADDR CDC_TXRX_EPSIZE EP_TYPE_BULK 1)
    (mk_ep CDC_NOTIFICATION_EPADDR CDC_NOTIFICATION_EPSIZE EP_TYPE_INTERRUPT 1) (mk_line 9600 0 0 8) 0 0.

Definition sim_opened : usb sim_tx cdc_info := mk_usb (mk_tx 0 [] []) core_init sim_port [].

(** * Theorems *)

(** CDC_Device_SendByte on an open port whose host takes the packets.  Any
    sequence of bytes is accepted, each with no error, and extends what is on its
    way to the host by exactly these bytes in this order; a full bank is handed
    over before the next byte is written, so no packet exceeds the bank. *)
Theorem cdc_send_stream {H A} `{SerialHost H} fuel (get_cdc : A -> cdc_info) bs (s : usb H A) :
  (0 < fuel)%nat -> port_open get_cdc s -> Forall is_byte bs -> tx_sized (hw s) ->
  exists s', send_bytes fuel get_cdc bs s = (Done true, s') /\
    tx_stream (hw s') = tx_stream (hw s) ++ bs /\ tx_sized (hw s').
Proof.
  intros Hf Ho Hb Hz.
  destruct (wp_run _ _ _ _ (wp_send_bytes fuel Hf get_cdc bs (fun _ _ => False) s Ho Hb Hz))
    as (o & s' & E & [(r & -> & -> & _ & T & _ & Z)|(c & _ & [])]).
  by exists s'.
Qed.

(** At a concrete input: 20 bytes, more than a bank. *)
Lemma cdc_send_stream_witness :
  exists s', send_bytes 1 id (replicate 20 49) sim_opened = (Done true, s') /\
    tx_stream (hw s') = tx_stream (hw sim_opened) ++ replicate 20 49 /\ tx_sized (hw s').
Proof.
  apply cdc_send_stream; [lia|by vm_compute| |split; vm_compute; [constructor|lia]].
  apply (bool_decide_unpack _). by vm_compute.
Defined.

(** C11: bytes followed by CDC_Device_Flush.  Everything sent has left the device:
    the bank is empty, the packets hold exactly the bytes in order, none exceeds
    the bank, and the last one is shorter than the bank (an empty one is added
    after a full one), which ends the transfer for the host. *)
Theorem cdc_flush_delivers {H A} `{SerialHost H} fuel (get_cdc : A -> cdc_info) bs (s : usb H A) :
  (0 < fuel)%nat -> port_open get_cdc s -> Forall is_byte bs -> bs <> [] -> tx_sized (hw s) ->
  exists s', send_then_flush fuel get_cdc bs s = (Done ENDPOINT_READYWAIT_NoError, s') /\
    tx_bank (hw s') = [] /\ concat (tx_packets (hw s')) = tx_stream (hw s) ++ bs /\
    Forall (fun p => (length p <= bank_size)%nat) (tx_packets (hw s')) /\ terminated (tx_packets (hw s')).
Proof.
  intros Hf Ho Hb Hne Hz.
  destruct (wp_run _ _ _ _ (wp_send_then_flush fuel Hf get_cdc bs (fun _ _ => False) s Ho Hb Hne Hz))
    as (o & s' & E & [(r & -> & -> & ?)|(c & _ & [])]).
  by exists s'.
Qed.

(** Witness of C11: exactly one bank, which needs an empty packet after it. *)
Lemma cdc_flush_delivers_witness :
  exists s', send_then_flush 1 id (replicate 16 49) sim_opened = (Done ENDPOINT_READYWAIT_NoError, s') /\
    tx_bank (hw s') = [] /\ concat (tx_packets (hw s')) = tx_stream (hw sim_opened) ++ replicate 16 49 /\
    Forall (fun p => (length p <= bank_size)%nat) (tx_packets (hw s')) /\ terminated (tx_packets (hw s')).
Proof.
  apply cdc_flush_delivers; [lia|by vm_compute| |done|split; vm_compute; [constructor|lia]].
  apply (bool_decide_unpack _). by vm_compute.
Defined.
