(* ===== verification/FirmwareTypes.v ===== *)
(** What holds of the firmware's variables and registers at any time.

    Whatever the hardware does, with interrupts before any access: which registers
    are written and with which values (the pin of the noise source stays an input,
    the device state is never Suspended, read-only registers are left alone), which
    globals are fixed, and that the values stay in the widths that C gives them; the
    model keeps integers and reduces only where the source converts. *)

From Stdlib Require Import ZArith Lia.
From stdpp Require Import base tactics list numbers.
From S2P Require Import Prelude Posix Avr Endpoint EndpointStream Device Descriptors Cdc Rng RngProofs.

Local Open Scope Z_scope.

Definition is_word (z : Z) : Prop := 0 <= z < 65536.

(** Reading an 8-bit register gives a byte. *)
Class ByteRegisters (H : Type) `{Hardware H} : Prop :=
  rd_byte : forall r h, r <> UDFNUM -> is_byte (rd r h).1.

(** * Typed states *)

Record request_typed (r : request) : Prop := {
  bmRequestType_byte : is_byte (bmRequestType r);
  bRequest_byte : is_byte (bRequest r);
  wValue_word : is_word (wValue r);
  wIndex_word : is_word (wIndex r);
  wLength_word : is_word (wLength r) }.

(** The configuration number is a byte and no more: the request is read again after
    the check ([configuration_raced] below). *)
Record core_typed (c : core) : Prop := {
  request_ok : request_typed (USB_ControlRequest c);
  configuration_ok : is_byte (USB_Device_ConfigurationNumber c) }.

Record line_typed (l : line_encoding) : Prop := {
  baud_u32 : 0 <= BaudRateBPS l < 2 ^ 32;
  format_byte : is_byte (CharFormat l);
  parity_byte : is_byte (ParityType l);
  databits_byte : is_byte (DataBits l) }.

(** The interface of the configuration; only the state and the endpoint types
    change. *)
Record cdc_typed (c : cdc_info) : Prop := {
  interface_fixed : ControlInterfaceNumber c = INTERFACE_ID_CDC_CCI;
  data_in_fixed : DataINEndpoint c = set_type (ep_Type (DataINEndpoint c)) (DataINEndpoint cdc_interface_init);
  data_out_fixed : DataOUTEndpoint c = set_type (ep_Type (DataOUTEndpoint c)) (DataOUTEndpoint cdc_interface_init);
  notification_fixed :
    NotificationEndpoint c = set_type (ep_Type (NotificationEndpoint c)) (NotificationEndpoint cdc_interface_init);
  line_ok : line_typed (LineEncoding c);
  host_lines_word : is_word (HostToDevice c);
  device_lines_word : is_word (DeviceToHost c) }.

Record rng_typed (a : rng_app) : Prop := {
  byte_in_byte : is_byte (BYTE_IN a);
  ident_flag : ident a = 0 \/ ident a = 1;
  ident_count_word : is_word (ident_count a);
  sample_count_word : is_word (sample_count a);
  cdc_ok : cdc_typed (VirtualSerial_CDC_Interface a);
  stream_ok : USBSerialStream a = FILE_zero \/ USBSerialStream a = CDC_Device_CreateStream }.

(** The registers that the firmware may write, and with what.  A write to PINC or PIND
    would toggle outputs. *)
Definition may_write (r : reg) (v : Z) : Prop :=
  match r with
  | USB_DeviceState => v <= DEVICE_STATE_Configured
  | DDRC => Z.testbit v 2 = false
  | DDRD => v = 48
  | PLLCSR => v = 0 \/ v = 2 ^ PLLP0 \/ v = Z.lor (2 ^ PLLP0) (2 ^ PLLE)
  | UENUM => v <= ENDPOINT_EPNUM_MASK
  | PINC | PIND | UESTA0X | UEBCLX | UEINT | UDFNUM | MCUCR | TIMSK1 | TCCR1B => False
  | _ => True
  end.

Definition write_typed (w : reg * Z) : Prop := is_byte w.2 /\ may_write w.1 w.2.

Record typed {H} (s : usb H rng_app) : Prop := {
  lib_typed : core_typed (lib s);
  app_typed : rng_typed (app s);
  io_typed : Forall write_typed (io s) }.

(** * Values *)

Lemma byte_land v m : is_byte m -> is_byte (Z.land v m).
Proof.
  unfold is_byte. intros Hm. split; [apply Z.land_nonneg; lia|].
  replace (Z.land v m) with (Z.land v m mod 2 ^ 8); [apply (Z.mod_pos_bound _ (2 ^ 8)); lia|].
  apply Z.bits_inj'. intros n Hn. destruct (decide (n < 8)) as [Hl|Hl].
  - by rewrite Z.mod_pow2_bits_low.
  - rewrite Z.mod_pow2_bits_high, Z.land_spec by lia.
    rewrite (Z.bits_above_log2 m n), andb_false_r; [done|lia|].
    destruct (decide (m = 0)) as [->|]; [cbn; lia|]. apply Z.log2_lt_pow2; [lia|].
    apply Z.lt_le_trans with (2 ^ 8); [lia|]. apply Z.pow_le_mono_r; lia.
Qed.

Lemma byte_lor a b : is_byte a -> is_byte b -> is_byte (Z.lor a b).
Proof.
  intros Ha Hb. rewrite <- (u8_small a Ha), <- (u8_small b Hb). unfold wrapu.
  rewrite <- !Z.land_ones, <- Z.land_lor_distr_l by lia. by apply byte_land.
Qed.

Lemma word_u16 z : is_word (u16 z).
Proof. apply (wrapu_range 16). lia. Qed.

Create HintDb width.
#[export] Hint Resolve u8_is_byte byte_land byte_lor word_u16 : width.
#[export] Hint Extern 5 (is_byte _) => solve [vm_compute; split; congruence] : width.

Lemma write_typed_byte r v : is_byte v -> may_write r v -> write_typed (r, v).
Proof. by split. Qed.

Lemma write_typed_state v : 0 <= v <= DEVICE_STATE_Configured -> write_typed (USB_DeviceState, v).
Proof. unfold write_typed, is_byte. cbn [may_write fst snd]. unfold DEVICE_STATE_Configured. lia. Qed.

(** The endpoint number is masked. *)
Lemma write_typed_select v : write_typed (UENUM, Z.land v ENDPOINT_EPNUM_MASK).
Proof.
  split; [by apply byte_land|]. cbn. change ENDPOINT_EPNUM_MASK with (Z.ones 4). rewrite Z.land_ones by lia.
  pose proof (Z.mod_pos_bound v (2 ^ 4) ltac:(lia)). change (Z.ones 4) with 15. lia.
Qed.

(** The mask of the write to DDRC leaves out bit 2. *)
Lemma write_typed_direction d : write_typed (DDRC, Z.land d 251).
Proof. split; [by apply byte_land|]. cbn [may_write fst snd]. by rewrite Z.land_spec, andb_false_r. Qed.

(** * The judgment *)

Section judgment.
Context {H : Type} `{HW : Hardware H} `{BR : !ByteRegisters H}.
Abbreviation run := (prog (usb H rng_app)).

(** [m] keeps states typed however it ends, and what it returns has [Q]. *)
Definition types {B} (m : run B) (Q : B -> Prop) : Prop :=
  forall s, typed s -> typed (m s).2 /\ match (m s).1 with Done b => Q b | _ => True end.

Definition any {B} : B -> Prop := fun _ => True.

Lemma types_ret {B} (b : B) (Q : B -> Prop) : Q b -> types (mret b) Q.
Proof. by intros Hb s Hs. Qed.

Lemma types_bind {B C} (m : run B) (k : B -> run C) (P : B -> Prop) Q :
  types m P -> (forall b, P b -> types (k b) Q) -> types (m ≫= k) Q.
Proof.
  intros Hm Hk s Hs. specialize (Hm s Hs). unfold mbind, prog_bind.
  destruct (m s) as [[b|c|f] s1]; cbn [fst snd] in *; [|by destruct Hm..]. by apply Hk; destruct Hm.
Qed.

Lemma types_weaken {B} (m : run B) (P Q : B -> Prop) : types m P -> (forall b, P b -> Q b) -> types m Q.
Proof. intros Hm HQ s Hs. destruct (Hm s Hs) as [H1 H2]. split; [done|]. by destruct (m s).1; auto. Qed.

Lemma types_any {B} (m : run B) P : types m P -> types m any.
Proof. intros Hm. by eapply types_weaken. Qed.

Lemma types_lift {B} (r : res B) : types (lift r) any.
Proof. intros s Hs. by destruct r. Qed.

Lemma types_exits {B} c : types (exits (A := B) c) any.
Proof. by intros s Hs. Qed.

Lemma types_when b (m : run unit) : types m any -> types (when b m) any.
Proof. intros Hm. destruct b; [done|by apply types_ret]. Qed.

Lemma types_wait fuel (r st : run bool) : types r any -> types st any -> types (wait_until fuel r st) any.
Proof.
  intros Hr Hs. induction fuel as [|k IH]; cbn [wait_until]; [apply types_lift|].
  apply (types_bind _ _ any); [done|]. intros [] _; [by apply types_ret|].
  apply (types_bind _ _ any); [done|]. intros [] _; [by apply types_ret|done].
Qed.

(** Interrupt handlers keep the types. *)
Class TypedInterrupts (I : Interrupts H rng_app) : Prop := interrupt_typed : types (interrupt (Interrupts := I)) any.

#[export] Instance no_interrupts_typed : TypedInterrupts (no_interrupts H rng_app).
Proof. by apply types_ret. Qed.

Section accesses.
Context {I : Interrupts H rng_app} `{TI : !TypedInterrupts I}.

Lemma types_after_interrupt {B} (m : run B) Q : types m Q -> types (interrupt ;; m) Q.
Proof. intros Hm. apply (types_bind _ _ any); [apply interrupt_typed|]. by intros _ _. Qed.

Lemma types_read r : types (read_reg r) any.
Proof.
  apply types_after_interrupt. intros s [H1 H2 H3]. unfold load_reg. by destruct (rd r (hw s)).
Qed.

Lemma types_read_byte r : r <> UDFNUM -> types (read_reg r) is_byte.
Proof.
  intros Hr. apply types_after_interrupt. intros s [H1 H2 H3]. unfold load_reg. pose proof (rd_byte r (hw s) Hr).
  by destruct (rd r (hw s)).
Qed.

Lemma types_write r v : write_typed (r, v) -> types (write_reg r v) any.
Proof.
  intros Hv. apply types_after_interrupt. intros s [H1 H2 H3]. split; [|done]. split; [done..|].
  cbn [store_reg snd io]. apply Forall_app. split; [done|]. by constructor.
Qed.

Lemma types_get {B} (f : usb H rng_app -> B) (Q : B -> Prop) : (forall s, typed s -> Q (f s)) -> types (get_mem f) Q.
Proof. intros Hf. apply types_after_interrupt. intros s Hs. split; [done|]. by apply Hf. Qed.

Lemma types_on_lib f : (forall c, core_typed c -> core_typed (f c)) -> types (set_mem (on_lib f)) any.
Proof. intros Hf. apply types_after_interrupt. intros s [H1 H2 H3]. split; [|done]. split; cbn; auto. Qed.

Lemma types_on_app f : (forall a, rng_typed a -> rng_typed (f a)) -> types (set_mem (on_app f)) any.
Proof. intros Hf. apply types_after_interrupt. intros s [H1 H2 H3]. split; [|done]. split; cbn; auto. Qed.

(** The globals. *)
Lemma types_request : types get_request request_typed.
Proof. apply types_get. intros s [[Hr _] _ _]. exact Hr. Qed.

Lemma types_info : types (info VirtualSerial_CDC_Interface) cdc_typed.
Proof. apply types_get. intros s [_ [] _]. done. Qed.

Lemma types_read_8 : types Endpoint_Read_8 is_byte.
Proof. by apply types_read_byte. Qed.

Lemma types_read_32 : types Endpoint_Read_32_LE (fun z => 0 <= z < 2 ^ 32).
Proof.
  unfold Endpoint_Read_32_LE. do 4 (eapply types_bind; [by apply types_read_byte|]; intros ? ?).
  apply types_ret. unfold is_byte in *. lia.
Qed.

(** Storing a byte of the header keeps the fields in range. *)
Lemma header_byte_typed i b q : is_byte b -> request_typed q -> request_typed (set_header_byte i b q).
Proof.
  intros Hb [H1 H2 H3 H4 H5].
  assert (forall w, is_word w -> is_word (w / 256 * 256 + b) /\ is_word (w mod 256 + 256 * b)) as Hw.
  { unfold is_word, is_byte in *. intros w Hw. pose proof (Z.mod_pos_bound w 256 ltac:(lia)).
    pose proof (Z.div_mod w 256 ltac:(lia)). assert (0 <= w / 256 < 256); [|lia].
    split; [apply Z.div_pos; lia|apply Z.div_lt_upper_bound; lia]. }
  do 8 (destruct i as [|i]; [split; cbn [set_header_byte]; by first [assumption | apply Hw]|]). by split.
Qed.

Lemma types_header_byte i : types (read_header_byte i) any.
Proof.
  eapply types_bind; [apply types_read_8|]. intros b Hb. apply types_on_lib. intros c [Hr Hc].
  split; [by apply header_byte_typed|done].
Qed.

Lemma types_header k : forall i, types (read_header k i) any.
Proof.
  induction k as [|k IH]; intros i; cbn [read_header]; [by apply types_ret|].
  apply (types_bind _ _ any); [apply types_header_byte|]. by intros ? _.
Qed.
End accesses.
End judgment.

(** ** Automation *)

Ltac width :=
  first [ assumption | apply u8_is_byte | solve [auto 6 with width]
        | solve [repeat case_match; vm_compute; split; congruence] ].

(** The value is one that the register may be given. *)
Ltac allowed := first [ exact Logic.I | reflexivity | left; reflexivity | right; allowed ].

(** The first program of a sequence: accesses that return a typed value, or anything. *)
Ltac types_head tac :=
  first
  [ apply types_request | apply types_info | apply types_header | apply types_read_8 | apply types_read_32
  | apply types_read_byte; discriminate
  | refine (_ : types _ any); tac ].

Ltac types :=
  repeat lazymatch goal with
  | |- types (_ ≫= _) _ => eapply types_bind; [solve [types_head ltac:(types)]|intros ? ?]
  | |- types (mret _) _ => apply types_ret; try exact Logic.I
  | |- types (read_reg _) any => apply types_read
  | |- types (write_reg USB_DeviceState _) any => apply types_write, write_typed_state; first [split; discriminate | case_match; split; discriminate]
  | |- types (write_reg UENUM _) any => apply types_write, write_typed_select
  | |- types (write_reg DDRC _) any => apply types_write, write_typed_direction
  | |- types (write_reg _ _) any => apply types_write, write_typed_byte; [width|allowed]
  | |- types (get_mem _) any => apply types_get; intros; exact Logic.I
  | |- types (lift _) any => apply types_lift
  | |- types (exits _) any => apply types_exits
  | |- types (when _ _) any => apply types_when
  | |- types (wait_until _ _ _) any => apply types_wait
  | |- types (if ?b then _ else _) any => destruct b
  | |- types (match ?x with _ => _ end) any => destruct x
  | |- types ?m any => first [assumption | solve [auto with width nocore] | let h := head_of m in unfold h]
  end.

(** * The library *)

Section library.
Context {H : Type} `{HW : Hardware H} `{BR : !ByteRegisters H} {I : Interrupts H rng_app} `{TI : !TypedInterrupts I}.
Abbreviation run := (prog (usb H rng_app)).

Lemma types_wait_ready k : forall t f, types (wait_ready k t f : run Z) any.
Proof. induction k as [|k IH]; intros t f; cbn [wait_ready]; types; apply IH. Qed.
Hint Resolve types_wait_ready : width.

Lemma types_control_wait k (r : run bool) : types r any -> types (control_wait k r) any.
Proof. intros Hr. induction k as [|k IH]; cbn [control_wait]; types. Qed.

Lemma types_control_wait_out k : types (control_wait k Endpoint_IsOUTReceived : run Z) any.
Proof. apply types_control_wait. types. Qed.
Hint Resolve types_control_wait_out : width.

Lemma types_fill_bank k : forall m d l n, types (fill_bank k transfer_out 1 m d l n : run _) any.
Proof. induction k as [|k IH]; intros m d l n; cbn [fill_bank]; types; apply IH. Qed.
Hint Resolve types_fill_bank : width.

Lemma types_control_w k : forall m d l b, types (control_w_loop k transfer_out 1 m d l b : run _) any.
Proof. induction k as [|k IH]; intros m d l b; cbn [control_w_loop]; types; apply IH. Qed.
Hint Resolve types_control_w : width.

Lemma types_configure_one n c0 c1 e : is_byte c0 -> is_byte c1 -> types (configure_one n c0 c1 e : run bool) any.
Proof.
  intros H0 H1. unfold configure_one. apply (types_bind _ _ any); [types|]. intros ? _.
  apply (types_bind _ _ (fun c => is_byte c.1.1 /\ is_byte c.1.2 /\ is_byte c.2)).
  - case_match; [by apply types_ret|]. do 3 (eapply types_bind; [by apply types_read_byte|]; intros ? ?).
    by apply types_ret.
  - intros [[u v] w] (Ha & Hb & Hc). cbn [fst snd] in *. types.
Qed.

Lemma types_configure_from k : forall n c0 c1 e, is_byte c0 -> is_byte c1 -> types (configure_from k n c0 c1 e : run bool) any.
Proof.
  induction k as [|k IH]; intros n c0 c1 e H0 H1; cbn [configure_from]; [types|].
  apply (types_bind _ _ any); [by apply types_configure_one|]. intros [] _; [by apply IH|types].
Qed.

Lemma types_configure fuel a t sz b : types (Endpoint_ConfigureEndpoint fuel a t sz b : run bool) any.
Proof.
  unfold Endpoint_ConfigureEndpoint, Endpoint_ConfigureEndpoint_Prv. cbv zeta. case_match; [types|].
  apply (types_bind _ _ any); [types|]. intros m _. apply types_configure_from; apply u8_is_byte.
Qed.
Hint Resolve types_configure : width.

Lemma types_configure_table fuel t : types (Endpoint_ConfigureEndpointTable fuel t : run bool) any.
Proof.
  induction t as [|e t IH]; cbn [Endpoint_ConfigureEndpointTable]; types.
Qed.
Hint Resolve types_configure_table : width.
End library.

#[export] Hint Resolve types_wait_ready types_control_wait_out types_fill_bank types_control_w types_configure
  types_configure_table : width.

Section requests.
Context {H : Type} `{HW : Hardware H} `{BR : !ByteRegisters H} {I : Interrupts H rng_app} `{TI : !TypedInterrupts I}.
Context (fuel : nat) (signature : Z -> Z) (callback : Z -> Z -> Z * cells).
Context (control_event config_event : prog (usb H rng_app) unit).
Context (Hcontrol : types control_event any) (Hconfig : types config_event any).
Abbreviation run := (prog (usb H rng_app)).

Lemma types_set_configuration : types (USB_Device_SetConfiguration fuel config_event) any.
Proof.
  unfold USB_Device_SetConfiguration. eapply types_bind; [apply types_request|]. intros req _.
  case_match; [types|]. apply (types_bind _ _ any); [types|]. intros ? _.
  eapply types_bind; [apply types_request|]. intros req' _.
  apply (types_bind _ _ any).
  { apply types_on_lib. intros c []. split; [done|]. apply u8_is_byte. }
  intros ? _. types.
Qed.
Hint Resolve types_set_configuration : width.

Lemma types_set_wakeup b : types (set_mem (on_lib (set_wakeup b)) : run unit) any.
Proof. apply types_on_lib. intros c []. by split. Qed.
Hint Resolve types_set_wakeup : width.

Lemma types_feature : types (apply_feature : run bool) any.
Proof. unfold apply_feature. cbv zeta. types. Qed.
Hint Resolve types_feature : width.

Lemma types_process_request : types (USB_Device_ProcessControlRequest fuel signature control_event config_event callback) any.
Proof.
  unfold USB_Device_ProcessControlRequest. apply (types_bind _ _ any); [apply types_header|]. intros ? _. types.
Qed.
Hint Resolve types_process_request : width.

Lemma types_usb_task : types (USB_USBTask fuel signature control_event config_event callback) any.
Proof. types. Qed.

Lemma types_com_vect : types (USB_COM_vect fuel signature control_event config_event callback) any.
Proof. types. Qed.
End requests.

#[export] Hint Resolve types_set_wakeup types_feature types_set_configuration types_process_request : width.

(** * The application *)

Section application.
Context {H : Type} `{HW : Hardware H} `{BR : !ByteRegisters H} {I : Interrupts H rng_app} `{TI : !TypedInterrupts I}.
Context (fuel : nat) (signature : Z -> Z).
Abbreviation run := (prog (usb H rng_app)).

Lemma types_on_cdc f :
  (forall c, cdc_typed c -> cdc_typed (f c)) -> types (on_cdc VirtualSerial_CDC_Interface put_rng_cdc f : run unit) any.
Proof. intros Hf. apply types_on_app. intros a []. split; cbn; auto. Qed.

Lemma types_on_line f : (forall l, line_typed l -> line_typed (f l)) ->
  types (on_line VirtualSerial_CDC_Interface put_rng_cdc f : run unit) any.
Proof. intros Hf. apply types_on_cdc. intros c []. split; cbn; auto. Qed.

Lemma types_host_lines v : is_word v -> types (on_cdc VirtualSerial_CDC_Interface put_rng_cdc (set_host_lines v) : run unit) any.
Proof. intros Hl. apply types_on_cdc. intros c []. by split. Qed.

Lemma types_configured : types (on_cdc VirtualSerial_CDC_Interface put_rng_cdc configured : run unit) any.
Proof.
  apply types_on_cdc. intros c [E1 E2 E3 E4 _ _ _]. split; cbn; [done|by rewrite E2|by rewrite E3|by rewrite E4| | |].
  all: repeat split; cbn; lia.
Qed.
Hint Resolve types_configured : width.

Lemma types_set_line_encoding : types (set_line_encoding fuel VirtualSerial_CDC_Interface put_rng_cdc : run unit) any.
Proof.
  unfold set_line_encoding. do 2 (apply (types_bind _ _ any); [types|]; intros ? _). apply types_when.
  eapply types_bind; [apply types_read_32|]. intros baud Hb.
  apply (types_bind _ _ any); [apply types_on_line; intros l []; by split|]. intros ? _.
  do 3 (eapply types_bind; [apply types_read_8|]; intros ? ?;
        apply (types_bind _ _ any); [apply types_on_line; intros l []; by split|]; intros ? _). types.
Qed.
Hint Resolve types_set_line_encoding : width.

Lemma types_control_event : types (EVENT_USB_Device_ControlRequest fuel : run unit) any.
Proof.
  unfold EVENT_USB_Device_ControlRequest, CDC_Device_ProcessControlRequest.
  apply (types_bind _ _ any); [types|]. intros setup _. case_match; [types|].
  eapply types_bind; [apply types_request|]. intros index _. eapply types_bind; [apply types_info|]. intros c Hc.
  case_match; [types|]. eapply types_bind; [apply types_request|]. intros req _.
  do 2 (case_match; [types|]). case_match; [|types]. eapply types_bind; [apply types_request|]. intros t _.
  apply types_when. do 2 (apply (types_bind _ _ any); [types|]; intros ? _).
  eapply types_bind; [apply types_request|]. intros value Hv. by apply types_host_lines, wValue_word.
Qed.

Lemma types_config_event : types (EVENT_USB_Device_ConfigurationChanged fuel : run unit) any.
Proof. types. Qed.
Hint Resolve types_control_event types_config_event : width.

Lemma types_main_step : types (main_step fuel signature : run unit) any.
Proof.
  assert (forall m1 m2 : run unit, types m1 any -> types m2 any -> types (m1 ;; m2) any) as Hseq.
  { intros m1 m2 H1 H2. apply (types_bind _ _ any); [done|]. by intros _ _. }
  unfold main_step. apply Hseq.
  { unfold send_sample. do 4 (apply (types_bind _ _ any); [types|]; intros ? _). apply Hseq; [types|].
    apply types_on_app. intros x []. split; cbn; auto with width. }
  apply (types_bind _ _ any); [types|]. intros b _. apply Hseq.
  { apply types_on_app. intros x []. split; cbn; auto with width. }
  apply Hseq.
  { unfold handle_byte. apply (types_bind _ _ any); [types|]. intros a _. apply types_when. apply Hseq; [types|].
    apply types_when, types_on_app. intros x []. split; cbn; auto. case_match; auto. }
  apply Hseq.
  { unfold blink_ident. apply (types_bind _ _ any); [types|]. intros a _. apply types_when. apply Hseq; [types|].
    apply types_on_app. intros x []. split; cbn; auto with width. }
  apply Hseq; [types|]. by apply types_usb_task; auto with width.
Qed.

Lemma types_init_globals :
  types (set_mem (on_lib (fun c => set_selfpowered false (set_wakeup false (set_configuration 0 c)))) : run unit) any.
Proof. apply types_on_lib. intros c []. split; [done|by vm_compute]. Qed.

Lemma types_initialized b : types (set_mem (on_lib (set_initialized b)) : run unit) any.
Proof. apply types_on_lib. intros c []. by split. Qed.

Lemma types_unconfigured : types (set_mem (on_lib (set_configuration 0)) : run unit) any.
Proof. apply types_on_lib. intros c []. split; [done|by vm_compute]. Qed.

Lemma types_create_stream :
  types (set_mem (on_app (fun a => mk_rng (BYTE_IN a) (ident a) (ident_count a) (sample_count a)
    (VirtualSerial_CDC_Interface a) CDC_Device_CreateStream)) : run unit) any.
Proof. apply types_on_app. intros a []. split; cbn; auto. Qed.
Hint Resolve types_init_globals types_initialized types_unconfigured types_create_stream : width.

Lemma types_setup : types (main_setup fuel : run unit) any.
Proof. types. Qed.

Lemma types_gen_vect : types (rng_GEN_vect fuel : run unit) any.
Proof. types. Qed.
End application.

(** * Interrupts and the whole program *)

Section program.
Context {H : Type} `{HW : Hardware H} `{RQ : !Requests H} `{BR : !ByteRegisters H}.
Context (fuel : nat) (signature : Z -> Z).
Abbreviation run := (prog (usb H rng_app)).

Lemma types_preempt depth : TypedInterrupts (preempt (H := H) fuel signature depth).
Proof.
  induction depth as [|d IH]; [by apply types_ret|]. unfold TypedInterrupts, interrupt. cbn [preempt].
  apply (types_bind _ _ any).
  - intros s [H1 H2 H3]. unfold take_requests. by destruct (irqs (hw s)).
  - intros vs _. induction vs as [|[] vs IHv]; cbn [serve]; [by apply types_ret| |].
    all: apply (types_bind _ _ any); [|by intros _ _].
    + apply types_gen_vect.
    + apply types_com_vect; [apply types_control_event|apply types_config_event].
Qed.

Lemma types_rng_main depth n : types (rng_main fuel signature depth n : run unit) any.
Proof.
  unfold rng_main. apply (types_bind _ _ any); [apply types_setup|]. intros _ _.
  pose proof (types_preempt depth) as TI.
  induction n as [|n IH]; cbn [iterate]; [by apply types_ret|].
  apply (types_bind _ _ any); [apply types_main_step|]. by intros _ _.
Qed.
End program.

Lemma init_typed {H} (h : H) : typed (mk_usb h core_init rng_init []).
Proof. split; [| |by constructor]; repeat split; cbn; auto; lia. Qed.

(** C16: what the firmware never does to its registers and globals.  On hardware whose
    8-bit registers give bytes, with interrupts that preempt the main loop and each
    other before any access, after any number of iterations and however the run ends,
    in the log of all register writes: the pin of the noise source is never made an
    output and the inputs PINC and PIND are never written, nor is any read-only
    register; port D drives its two LEDs only; the PLL is off, started with its
    prescaler or running with it; the selected endpoint is masked; USB_DeviceState is
    never Suspended, and every value is a byte.  In the globals: ident is 0 or 1, the
    addresses, sizes and banks of the serial endpoints are those of the initialiser,
    the stream is zero or the one made by CDC_Device_CreateStream, and the fields of
    the request, of the line encoding and the counters keep their C widths. *)
Theorem firmware_confined {H} `{Requests H} `{ByteRegisters H} fuel signature depth n (h : H) :
  typed (rng_main fuel signature depth n (mk_usb h core_init rng_init [])).2.
Proof. apply types_rng_main, init_typed. Qed.

#[export] Instance board_bytes : ByteRegisters board.
Proof.
  intros r b Hr. destruct r; cbn [rd board_hw fst]; try apply u8_is_byte; try (vm_compute; split; congruence); try done.
  - pose proof (Z.mod_pos_bound (brd_uenum b) 8 ltac:(lia)). unfold is_byte. cbn. lia.
  - by destruct (brd_setup b).
Qed.

(** Witness of C16: the values are used; on the simulated board the host's baud rate is stored. *)
Lemma firmware_confined_witness :
  let s := (rng_main 50 (fun _ => 0) 2 4 (power_up [[GEN]])).2 in
  BaudRateBPS (LineEncoding (VirtualSerial_CDC_Interface (app s))) = 9600 /\ typed s.
Proof. split; [by vm_compute|]. exact (firmware_confined (H := board) 50 (fun _ => 0) 2 4 _). Defined.

(** A host that sets configuration 1 and then, before the first request has ended, asks
    for configuration 5, which the device does not have. *)
Definition racing (irs : list (list vector)) : usb board rng_app :=
  mk_usb (mk_board 0 0 false [] [[0; 9; 1; 0; 0; 0; 0; 0]; [0; 9; 5; 0; 0; 0; 0; 0]] irs) core_init rng_init [].

(** The configuration number is read from the request a second time after it has been
    checked.  When the endpoint interrupt with the next request comes between the two,
    that request is refused, and yet its number 5 is stored; without the interrupt the
    number is 1. *)
Theorem configuration_raced :
  let stored irs := USB_Device_ConfigurationNumber (lib (rng_main 50 (fun _ => 0) 2 1 (racing ([GEN] :: irs))).2) in
  stored [] = 1 /\ stored (replicate 41 [] ++ [[COM]]) = 5.
Proof. by vm_compute. Qed.
