(* ===== verification/Rndis.v ===== *)
(** The RNDIS class driver, Class/Device/RNDISClassDevice.c: an Ethernet adapter over
    USB.  Part of the library, not used by this firmware.

    The host controls the adapter by messages that it writes to a buffer of 128
    bytes, [RNDISMessageBuffer], and the driver writes its response over them.  The
    buffer is modelled as cells, with little endian access to 32-bit fields at the
    offsets of the packed structures, so that an access past its end is a fault. *)

From Stdlib Require Import ZArith Lia.
From stdpp Require Import base tactics list numbers.
From S2P Require Import Prelude Posix Avr Endpoint EndpointStream Device Cdc.

Local Open Scope Z_scope.

(** * Constants of RNDISClassCommon.h *)

Definition RNDIS_ERROR_LOGICAL_CMD_FAILED : Z := 128.
Definition REMOTE_NDIS_VERSION_MAJOR : Z := 1.
Definition REMOTE_NDIS_VERSION_MINOR : Z := 0.
Definition REMOTE_NDIS_PACKET_MSG : Z := 1.
Definition REMOTE_NDIS_INITIALIZE_MSG : Z := 2.
Definition REMOTE_NDIS_HALT_MSG : Z := 3.
Definition REMOTE_NDIS_QUERY_MSG : Z := 4.
Definition REMOTE_NDIS_SET_MSG : Z := 5.
Definition REMOTE_NDIS_RESET_MSG : Z := 6.
Definition REMOTE_NDIS_KEEPALIVE_MSG : Z := 8.
Definition REMOTE_NDIS_INITIALIZE_CMPLT : Z := 0x80000002.
Definition REMOTE_NDIS_QUERY_CMPLT : Z := 0x80000004.
Definition REMOTE_NDIS_SET_CMPLT : Z := 0x80000005.
Definition REMOTE_NDIS_RESET_CMPLT : Z := 0x80000006.
Definition REMOTE_NDIS_KEEPALIVE_CMPLT : Z := 0x80000008.
Definition REMOTE_NDIS_STATUS_SUCCESS : Z := 0.
Definition REMOTE_NDIS_STATUS_NOT_SUPPORTED : Z := 0xC00000BB.
Definition REMOTE_NDIS_MEDIA_STATE_CONNECTED : Z := 0.
Definition REMOTE_NDIS_MEDIUM_802_3 : Z := 0.
Definition REMOTE_NDIS_DF_CONNECTIONLESS : Z := 1.
Definition OID_GEN_SUPPORTED_LIST : Z := 0x00010101.
Definition OID_GEN_HARDWARE_STATUS : Z := 0x00010102.
Definition OID_GEN_MEDIA_SUPPORTED : Z := 0x00010103.
Definition OID_GEN_MEDIA_IN_USE : Z := 0x00010104.
Definition OID_GEN_MAXIMUM_FRAME_SIZE : Z := 0x00010106.
Definition OID_GEN_LINK_SPEED : Z := 0x00010107.
Definition OID_GEN_TRANSMIT_BLOCK_SIZE : Z := 0x0001010A.
Definition OID_GEN_RECEIVE_BLOCK_SIZE : Z := 0x0001010B.
Definition OID_GEN_VENDOR_ID : Z := 0x0001010C.
Definition OID_GEN_VENDOR_DESCRIPTION : Z := 0x0001010D.
Definition OID_GEN_CURRENT_PACKET_FILTER : Z := 0x0001010E.
Definition OID_GEN_MAXIMUM_TOTAL_SIZE : Z := 0x00010111.
Definition OID_GEN_MEDIA_CONNECT_STATUS : Z := 0x00010114.
Definition OID_GEN_PHYSICAL_MEDIUM : Z := 0x00010202.
Definition OID_GEN_XMIT_OK : Z := 0x00020101.
Definition OID_GEN_RCV_OK : Z := 0x00020102.
Definition OID_GEN_XMIT_ERROR : Z := 0x00020103.
Definition OID_GEN_RCV_ERROR : Z := 0x00020104.
Definition OID_GEN_RCV_NO_BUFFER : Z := 0x00020105.
Definition OID_802_3_PERMANENT_ADDRESS : Z := 0x01010101.
Definition OID_802_3_CURRENT_ADDRESS : Z := 0x01010102.
Definition OID_802_3_MULTICAST_LIST : Z := 0x01010103.
Definition OID_802_3_MAXIMUM_LIST_SIZE : Z := 0x01010104.
Definition OID_802_3_RCV_ERROR_ALIGNMENT : Z := 0x01020101.
Definition OID_802_3_XMIT_ONE_COLLISION : Z := 0x01020102.
Definition OID_802_3_XMIT_MORE_COLLISIONS : Z := 0x01020103.
Definition RNDIS_MESSAGE_BUFFER_SIZE : Z := 128.
Definition ETHERNET_FRAME_SIZE_MAX : Z := 1500.
Definition RNDIS_REQ_SendEncapsulatedCommand : Z := 0.
Definition RNDIS_REQ_GetEncapsulatedResponse : Z := 1.
Definition RNDIS_NOTIF_ResponseAvailable : Z := 1.
Definition NDIS_HardwareStatus_Ready : Z := 0.

(** RNDIS_States_t *)
Inductive rndis_state : Type := RNDIS_Uninitialized | RNDIS_Initialized | RNDIS_Data_Initialized.

#[export] Instance rndis_state_eq_dec : EqDecision rndis_state.
Proof. solve_decision. Defined.

(** Sizes of the packed structures. *)
Definition sizeof_Message_Header : Z := 8.
Definition sizeof_Packet_Message : Z := 44.
Definition sizeof_Initialize_Complete : Z := 52.
Definition sizeof_KeepAlive_Complete : Z := 16.
Definition sizeof_Reset_Complete : Z := 16.
Definition sizeof_Set_Complete : Z := 16.
Definition sizeof_Query_Complete : Z := 24.

(** USB_ClassInfo_RNDIS_Device_t; the vendor description is without its terminator. *)
Record rndis_info : Type := mk_rndis {
  rn_ControlInterfaceNumber : Z;
  rn_DataINEndpoint : endpoint_table;
  rn_DataOUTEndpoint : endpoint_table;
  rn_NotificationEndpoint : endpoint_table;
  AdapterVendorDescription : list Z;
  AdapterMACAddress : list Z;
  RNDISMessageBuffer : cells;
  ResponseReady : bool;
  CurrRNDISState : rndis_state;
  CurrPacketFilter : Z }.

Definition set_buffer (m : cells) (i : rndis_info) : rndis_info :=
  mk_rndis (rn_ControlInterfaceNumber i) (rn_DataINEndpoint i) (rn_DataOUTEndpoint i) (rn_NotificationEndpoint i)
    (AdapterVendorDescription i) (AdapterMACAddress i) m (ResponseReady i) (CurrRNDISState i) (CurrPacketFilter i).
Definition set_response_ready (b : bool) (i : rndis_info) : rndis_info :=
  mk_rndis (rn_ControlInterfaceNumber i) (rn_DataINEndpoint i) (rn_DataOUTEndpoint i) (rn_NotificationEndpoint i)
    (AdapterVendorDescription i) (AdapterMACAddress i) (RNDISMessageBuffer i) b (CurrRNDISState i) (CurrPacketFilter i).
Definition set_rndis_state (st : rndis_state) (i : rndis_info) : rndis_info :=
  mk_rndis (rn_ControlInterfaceNumber i) (rn_DataINEndpoint i) (rn_DataOUTEndpoint i) (rn_NotificationEndpoint i)
    (AdapterVendorDescription i) (AdapterMACAddress i) (RNDISMessageBuffer i) (ResponseReady i) st (CurrPacketFilter i).
Definition set_filter (f : Z) (i : rndis_info) : rndis_info :=
  mk_rndis (rn_ControlInterfaceNumber i) (rn_DataINEndpoint i) (rn_DataOUTEndpoint i) (rn_NotificationEndpoint i)
    (AdapterVendorDescription i) (AdapterMACAddress i) (RNDISMessageBuffer i) (ResponseReady i) (CurrRNDISState i) f.

(** * Access to the buffer *)

(** The bytes of a 32-bit little endian number. *)
Definition le32 (v : Z) : list Z := [u8 v; u8 (Z.shiftr v 8); u8 (Z.shiftr v 16); u8 (Z.shiftr v 24)].

Definition load32 (m : cells) (p : nat) : res Z :=
  b0 ← load m p; b1 ← load m (p + 1); b2 ← load m (p + 2); b3 ← load m (p + 3);
  mret (b0 + 256 * b1 + 65536 * b2 + 16777216 * b3).

(** memcpy *)
Fixpoint store_block (m : cells) (p : nat) (bytes : list Z) : res cells :=
  match bytes with
  | [] => mret m
  | b :: rest => m' ← store m p b; store_block m' (S p) rest
  end.

Definition store32 (m : cells) (p : nat) (v : Z) : res cells := store_block m p (le32 v).

(** Fields of a structure assigned in order: offset and value. *)
Fixpoint store_fields (m : cells) (fs : list (nat * Z)) : res cells :=
  match fs with
  | [] => mret m
  | (p, v) :: rest => m' ← store32 m p v; store_fields m' rest
  end.

(** * Messages *)

Definition AdapterSupportedOIDList : list Z :=
  [OID_GEN_SUPPORTED_LIST; OID_GEN_PHYSICAL_MEDIUM; OID_GEN_HARDWARE_STATUS; OID_GEN_MEDIA_SUPPORTED;
   OID_GEN_MEDIA_IN_USE; OID_GEN_MAXIMUM_FRAME_SIZE; OID_GEN_MAXIMUM_TOTAL_SIZE; OID_GEN_LINK_SPEED;
   OID_GEN_TRANSMIT_BLOCK_SIZE; OID_GEN_RECEIVE_BLOCK_SIZE; OID_GEN_VENDOR_ID; OID_GEN_VENDOR_DESCRIPTION;
   OID_GEN_CURRENT_PACKET_FILTER; OID_GEN_MAXIMUM_TOTAL_SIZE; OID_GEN_MEDIA_CONNECT_STATUS; OID_GEN_XMIT_OK;
   OID_GEN_RCV_OK; OID_GEN_XMIT_ERROR; OID_GEN_RCV_ERROR; OID_GEN_RCV_NO_BUFFER; OID_802_3_PERMANENT_ADDRESS;
   OID_802_3_CURRENT_ADDRESS; OID_802_3_MULTICAST_LIST; OID_802_3_MAXIMUM_LIST_SIZE; OID_802_3_RCV_ERROR_ALIGNMENT;
   OID_802_3_XMIT_ONE_COLLISION; OID_802_3_XMIT_MORE_COLLISIONS].

(** The bytes of the response to a query; [None] for an OID that is not supported. *)
Definition query_data (i : rndis_info) (OId : Z) : option (list Z) :=
  if OId =? OID_GEN_SUPPORTED_LIST then Some (concat (map le32 AdapterSupportedOIDList))
  else if OId =? OID_GEN_PHYSICAL_MEDIUM then Some (le32 0)
  else if OId =? OID_GEN_HARDWARE_STATUS then Some (le32 NDIS_HardwareStatus_Ready)
  else if (OId =? OID_GEN_MEDIA_SUPPORTED) || (OId =? OID_GEN_MEDIA_IN_USE) then Some (le32 REMOTE_NDIS_MEDIUM_802_3)
  else if OId =? OID_GEN_VENDOR_ID then Some (le32 0x00FFFFFF)
  else if (OId =? OID_GEN_MAXIMUM_FRAME_SIZE) || (OId =? OID_GEN_TRANSMIT_BLOCK_SIZE) || (OId =? OID_GEN_RECEIVE_BLOCK_SIZE)
  then Some (le32 ETHERNET_FRAME_SIZE_MAX)
  else if OId =? OID_GEN_VENDOR_DESCRIPTION then Some (AdapterVendorDescription i ++ [0])
  else if OId =? OID_GEN_MEDIA_CONNECT_STATUS then Some (le32 REMOTE_NDIS_MEDIA_STATE_CONNECTED)
  else if OId =? OID_GEN_LINK_SPEED then Some (le32 100000)
  else if (OId =? OID_802_3_PERMANENT_ADDRESS) || (OId =? OID_802_3_CURRENT_ADDRESS) then Some (AdapterMACAddress i)
  else if OId =? OID_802_3_MAXIMUM_LIST_SIZE then Some (le32 1)
  else if OId =? OID_GEN_CURRENT_PACKET_FILTER then Some (le32 (CurrPacketFilter i))
  else if (OId =? OID_GEN_XMIT_OK) || (OId =? OID_GEN_RCV_OK) || (OId =? OID_GEN_XMIT_ERROR) || (OId =? OID_GEN_RCV_ERROR) ||
          (OId =? OID_GEN_RCV_NO_BUFFER) || (OId =? OID_802_3_RCV_ERROR_ALIGNMENT) ||
          (OId =? OID_802_3_XMIT_ONE_COLLISION) || (OId =? OID_802_3_XMIT_MORE_COLLISIONS)
  then Some (le32 0)
  else if OId =? OID_GEN_MAXIMUM_TOTAL_SIZE then Some (le32 (RNDIS_MESSAGE_BUFFER_SIZE + ETHERNET_FRAME_SIZE_MAX))
  else None.

(** The response data is copied into the buffer; its size is a 16-bit number. *)
Definition RNDIS_Device_ProcessNDISQuery (i : rndis_info) (OId : Z) (ResponseData : nat) (m : cells) : res (option (cells * Z)) :=
  match query_data i OId with
  | Some bytes => m' ← store_block m ResponseData bytes; mret (Some (m', u16 (Z.of_nat (length bytes))))
  | None => mret None
  end.

(** [SetData] is the position of the value in the buffer. *)
Definition RNDIS_Device_ProcessNDISSet (i : rndis_info) (OId : Z) (SetData : nat) : res (option rndis_info) :=
  if OId =? OID_GEN_CURRENT_PACKET_FILTER then
    f ← load32 (RNDISMessageBuffer i) SetData;
    mret (Some (set_rndis_state (if f =? 0 then RNDIS_Initialized else RNDIS_Data_Initialized) (set_filter f i)))
  else if OId =? OID_802_3_MULTICAST_LIST then mret (Some i)
  else mret None.

Definition process_initialize (i : rndis_info) : res rndis_info :=
  let m := RNDISMessageBuffer i in
  m1 ← store_fields m [(0%nat, REMOTE_NDIS_INITIALIZE_CMPLT); (4%nat, sizeof_Initialize_Complete)];
  rid ← load32 m1 8;
  m2 ← store_fields m1
    [(8%nat, rid); (12%nat, REMOTE_NDIS_STATUS_SUCCESS); (16%nat, REMOTE_NDIS_VERSION_MAJOR);
     (20%nat, REMOTE_NDIS_VERSION_MINOR); (24%nat, REMOTE_NDIS_DF_CONNECTIONLESS); (28%nat, REMOTE_NDIS_MEDIUM_802_3);
     (32%nat, 1); (36%nat, sizeof_Packet_Message + ETHERNET_FRAME_SIZE_MAX); (40%nat, 0); (44%nat, 0); (48%nat, 0)];
  mret (set_rndis_state RNDIS_Initialized (set_buffer m2 (set_response_ready true i))).

Definition process_halt (i : rndis_info) : res rndis_info :=
  m ← store32 (RNDISMessageBuffer i) 4 0;
  mret (set_rndis_state RNDIS_Uninitialized (set_buffer m (set_response_ready false i))).

(** The query's data and its length are computed and not used. *)
Definition process_query (i : rndis_info) : res rndis_info :=
  let m := RNDISMessageBuffer i in
  oid ← load32 m 12;
  off ← load32 m 20;
  m1 ← store32 m 0 REMOTE_NDIS_QUERY_CMPLT;
  len ← load32 m1 16;
  r ← RNDIS_Device_ProcessNDISQuery i oid (Z.to_nat sizeof_Query_Complete) m1;
  m2 ← match (r : option (cells * Z)) with
       | Some (m', ResponseSize) =>
           store_fields m'
             [(12%nat, REMOTE_NDIS_STATUS_SUCCESS); (4%nat, sizeof_Query_Complete + ResponseSize);
              (16%nat, ResponseSize); (20%nat, sizeof_Query_Complete - sizeof_Message_Header)]
       | None =>
           store_fields m1
             [(12%nat, REMOTE_NDIS_STATUS_NOT_SUPPORTED); (4%nat, sizeof_Query_Complete); (16%nat, 0); (20%nat, 0)]
       end;
  mret (set_buffer m2 (set_response_ready true i)).

(** The 32-bit index of SetData is added to a 16-bit pointer, which wraps. *)
Definition process_set (i : rndis_info) : res rndis_info :=
  let m := RNDISMessageBuffer i in
  oid ← load32 m 12;
  m1 ← store_fields m [(0%nat, REMOTE_NDIS_SET_CMPLT); (4%nat, sizeof_Set_Complete)];
  rid ← load32 m1 8;
  m2 ← store32 m1 8 rid;
  off ← load32 m2 20;
  len ← load32 m2 16;
  let i1 := set_buffer m2 (set_response_ready true i) in
  r ← RNDIS_Device_ProcessNDISSet i1 oid (Z.to_nat (u16 (sizeof_Message_Header + off)));
  let i2 := default i1 r in
  m3 ← store32 (RNDISMessageBuffer i2) 12
         (if (r : option rndis_info) then REMOTE_NDIS_STATUS_SUCCESS else REMOTE_NDIS_STATUS_NOT_SUPPORTED);
  mret (set_buffer m3 i2).

Definition process_reset (i : rndis_info) : res rndis_info :=
  m ← store_fields (RNDISMessageBuffer i)
    [(0%nat, REMOTE_NDIS_RESET_CMPLT); (4%nat, sizeof_Reset_Complete); (8%nat, REMOTE_NDIS_STATUS_SUCCESS); (12%nat, 0)];
  mret (set_buffer m (set_response_ready true i)).

Definition process_keepalive (i : rndis_info) : res rndis_info :=
  m1 ← store_fields (RNDISMessageBuffer i) [(0%nat, REMOTE_NDIS_KEEPALIVE_CMPLT); (4%nat, sizeof_KeepAlive_Complete)];
  rid ← load32 m1 8;
  m2 ← store_fields m1 [(8%nat, rid); (12%nat, REMOTE_NDIS_STATUS_SUCCESS)];
  mret (set_buffer m2 (set_response_ready true i)).

(** The switch over message types. *)
Definition RNDIS_Device_ProcessRNDISControlMessage (i : rndis_info) : res rndis_info :=
  t ← load32 (RNDISMessageBuffer i) 0;
  if t =? REMOTE_NDIS_INITIALIZE_MSG then process_initialize i
  else if t =? REMOTE_NDIS_HALT_MSG then process_halt i
  else if t =? REMOTE_NDIS_QUERY_MSG then process_query i
  else if t =? REMOTE_NDIS_SET_MSG then process_set i
  else if t =? REMOTE_NDIS_RESET_MSG then process_reset i
  else if t =? REMOTE_NDIS_KEEPALIVE_MSG then process_keepalive i
  else mret i.

(** * The driver *)

Definition rndis_configured (i : rndis_info) : rndis_info :=
  mk_rndis (rn_ControlInterfaceNumber i) (set_type EP_TYPE_BULK (rn_DataINEndpoint i))
    (set_type EP_TYPE_BULK (rn_DataOUTEndpoint i)) (set_type EP_TYPE_INTERRUPT (rn_NotificationEndpoint i))
    (AdapterVendorDescription i) (AdapterMACAddress i)
    (replicate (Z.to_nat RNDIS_MESSAGE_BUFFER_SIZE) (Some 0)) false RNDIS_Uninitialized 0.

Section rndis.
Context {H A : Type} `{Hardware H} `{!Interrupts H A}.
Context (fuel : nat).
Context (get_rndis : A -> rndis_info) (put_rndis : rndis_info -> A -> A).

Abbreviation run := (prog (usb H A)).

Definition rndis : run rndis_info := get_mem (fun s => get_rndis (app s)).
Definition on_rndis (f : rndis_info -> rndis_info) : run unit :=
  set_mem (on_app (fun a => put_rndis (f (get_rndis a)) a)).

(** SendEncapsulatedCommand: the host's message is read into the buffer, whatever its
    length, and processed. *)
Definition send_encapsulated (req : request) : run unit :=
  Endpoint_ClearSETUP ;;
  i ← rndis;
  r ← Endpoint_Read_Control_Stream_LE fuel (RNDISMessageBuffer i) (wLength req);
  on_rndis (set_buffer r.2) ;;
  Endpoint_ClearIN ;;
  i' ← rndis;
  i'' ← lift (RNDIS_Device_ProcessRNDISControlMessage i');
  on_rndis (fun _ => i'').

(** GetEncapsulatedResponse: the response, or one zero byte when there is none. *)
Definition get_encapsulated : run unit :=
  i ← rndis;
  len ← lift (load32 (RNDISMessageBuffer i) 4);
  (if len =? 0 then
     m ← lift (m1 ← store (RNDISMessageBuffer i) 0 0; store32 m1 4 1);
     on_rndis (set_buffer m)
   else mret tt) ;;
  Endpoint_ClearSETUP ;;
  i' ← rndis;
  n ← lift (load32 (RNDISMessageBuffer i') 4);
  Endpoint_Write_Control_Stream_LE fuel (RNDISMessageBuffer i') (u16 n) ;;
  Endpoint_ClearOUT ;;
  m' ← lift (store32 (RNDISMessageBuffer i') 4 0);
  on_rndis (set_buffer m').

Definition RNDIS_Device_ProcessControlRequest : run unit :=
  setup ← Endpoint_IsSETUPReceived;
  if negb setup then mret tt
  else
    req ← get_request;
    i ← rndis;
    if negb (wIndex req =? rn_ControlInterfaceNumber i) then mret tt
    else if bRequest req =? RNDIS_REQ_SendEncapsulatedCommand then
      when (bmRequestType req =? class_out) (send_encapsulated req)
    else if bRequest req =? RNDIS_REQ_GetEncapsulatedResponse then
      when (bmRequestType req =? class_in) get_encapsulated
    else mret tt.

Definition RNDIS_Device_ConfigureEndpoints : run bool :=
  on_rndis rndis_configured ;;
  i ← rndis;
  a ← Endpoint_ConfigureEndpointTable fuel [rn_DataINEndpoint i];
  if negb a then mret false
  else
    b ← Endpoint_ConfigureEndpointTable fuel [rn_DataOUTEndpoint i];
    if negb b then mret false
    else
      d ← Endpoint_ConfigureEndpointTable fuel [rn_NotificationEndpoint i];
      mret d.

Definition RNDIS_Device_USBTask : run unit :=
  st ← read_reg USB_DeviceState;
  if negb (st =? DEVICE_STATE_Configured) then mret tt
  else
    i ← rndis;
    Endpoint_SelectEndpoint (ep_Address (rn_NotificationEndpoint i)) ;;
    ready ← Endpoint_IsINReady;
    if (ready : bool) then
      i' ← rndis;
      when (ResponseReady i') (
        Endpoint_Write_Stream_LE fuel (map Some [class_in; RNDIS_NOTIF_ResponseAvailable; 0; 0; 0; 0; 0; 0]) 8 None ;;
        Endpoint_ClearIN ;;
        on_rndis (set_response_ready false))
    else mret tt.

(** (USB_DeviceState != DEVICE_STATE_Configured) || (CurrRNDISState != RNDIS_Data_Initialized) *)
Definition no_data : run bool :=
  st ← read_reg USB_DeviceState;
  if negb (st =? DEVICE_STATE_Configured) then mret true
  else i ← rndis; mret (negb (bool_decide (CurrRNDISState i = RNDIS_Data_Initialized))).

Definition RNDIS_Device_IsPacketReceived : run bool :=
  closed ← no_data;
  if (closed : bool) then mret false
  else
    i ← rndis;
    Endpoint_SelectEndpoint (ep_Address (rn_DataOUTEndpoint i)) ;;
    Endpoint_IsOUTReceived.

(** The error code, the caller's buffer and the length stored through PacketLength.
    The results of the two stream reads are not tested. *)
Definition RNDIS_Device_ReadPacket (Buffer : cells) (PacketLength : Z) : run (Z * cells * Z) :=
  closed ← no_data;
  if (closed : bool) then mret (ENDPOINT_RWSTREAM_DeviceDisconnected, Buffer, PacketLength)
  else
    i ← rndis;
    Endpoint_SelectEndpoint (ep_Address (rn_DataOUTEndpoint i)) ;;
    out ← Endpoint_IsOUTReceived;
    if negb out then mret (ENDPOINT_RWSTREAM_NoError, Buffer, 0)
    else
      r ← Endpoint_Read_Stream_LE fuel (replicate (Z.to_nat sizeof_Packet_Message) None) sizeof_Packet_Message None;
      n ← lift (load32 r.1.2 12);
      if ETHERNET_FRAME_SIZE_MAX <? n then
        Endpoint_StallTransaction ;; mret (RNDIS_ERROR_LOGICAL_CMD_FAILED, Buffer, 0)
      else
        r' ← Endpoint_Read_Stream_LE fuel Buffer (u16 n) None;
        Endpoint_ClearOUT ;;
        mret (ENDPOINT_RWSTREAM_NoError, r'.1.2, u16 n).

(** The header before a packet: eleven fields. *)
Definition packet_header (PacketLength : Z) : list Z :=
  concat (map le32 [REMOTE_NDIS_PACKET_MSG; sizeof_Packet_Message + PacketLength;
                    sizeof_Packet_Message - sizeof_Message_Header; PacketLength; 0; 0; 0; 0; 0; 0; 0]).

Definition RNDIS_Device_SendPacket (Buffer : cells) (PacketLength : Z) : run Z :=
  closed ← no_data;
  if (closed : bool) then mret ENDPOINT_RWSTREAM_DeviceDisconnected
  else
    i ← rndis;
    Endpoint_SelectEndpoint (ep_Address (rn_DataINEndpoint i)) ;;
    e ← Endpoint_WaitUntilReady fuel;
    if negb (e =? ENDPOINT_READYWAIT_NoError) then mret e
    else
      Endpoint_Write_Stream_LE fuel (map Some (packet_header PacketLength)) sizeof_Packet_Message None ;;
      Endpoint_Write_Stream_LE fuel Buffer PacketLength None ;;
      Endpoint_ClearIN ;;
      mret ENDPOINT_RWSTREAM_NoError.
End rndis.
