(* ===== verification/RndisProofs.v ===== *)
(** What the RNDIS driver answers.

    The message buffer is seen as 32 words of 32 bits, [words].  [ndis_answer] is the
    protocol: the state of the adapter after a message and the bytes of the response.
    The driver implements it, up to the response that does not fit: the list of
    supported OIDs is four bytes longer than the buffer has room for. *)

From Stdlib Require Import ZArith Lia.
From stdpp Require Import base tactics list numbers.
From S2P Require Import Prelude Posix Avr Endpoint EndpointStream Device Descriptors Cdc ControlProofs Rndis.

Local Open Scope Z_scope.

(** * The buffer as words *)

Definition is_u32 (z : Z) : Prop := 0 <= z < 2 ^ 32.

Definition words (ws : list Z) : cells := map Some (concat (map le32 ws)).

Lemma words_app ws1 ws2 : words (ws1 ++ ws2) = words ws1 ++ words ws2.
Proof. unfold words. by rewrite map_app, concat_app, map_app. Qed.

Lemma words_cons v ws : words (v :: ws) = map Some (le32 v) ++ words ws.
Proof. unfold words. cbn [map concat]. by rewrite map_app. Qed.

Lemma words_one v : words [v] = map Some (le32 v).
Proof. done. Qed.

Lemma length_words ws : length (words ws) = (4 * length ws)%nat.
Proof. induction ws as [|v ws IH]; [done|]. rewrite words_cons, length_app, IH. cbn. lia. Qed.

Lemma words_split ws k v : ws !! k = Some v -> words ws = words (take k ws) ++ map Some (le32 v) ++ words (drop (S k) ws).
Proof. intros Hv. rewrite <- (take_drop_middle ws k v Hv) at 1. by rewrite words_app, words_cons. Qed.

Lemma le32_value v : is_u32 v -> u8 v + 256 * u8 (Z.shiftr v 8) + 65536 * u8 (Z.shiftr v 16) + 16777216 * u8 (Z.shiftr v 24) = v.
Proof.
  intros Hv. unfold is_u32 in Hv. unfold wrapu. rewrite !Z.shiftr_div_pow2 by lia.
  change (2 ^ 8) with 256. change (2 ^ 16) with 65536. change (2 ^ 24) with 16777216. change (2 ^ 32) with 4294967296 in Hv.
  pose proof (Z.div_mod v 256 ltac:(lia)). pose proof (Z.div_mod (v / 256) 256 ltac:(lia)).
  pose proof (Z.div_mod (v / 65536) 256 ltac:(lia)).
  replace (v / 256 / 256) with (v / 65536) in * by (rewrite Z.div_div by lia; done).
  replace (v / 65536 / 256) with (v / 16777216) in * by (rewrite Z.div_div by lia; done).
  rewrite (Z.mod_small (v / 16777216)); [lia|]. split; [apply Z.div_pos; lia|apply Z.div_lt_upper_bound; lia].
Qed.

Lemma length_le32 v : length (le32 v) = 4%nat.
Proof. done. Qed.

Lemma le32_bytes v : Forall is_byte (le32 v).
Proof. repeat constructor; apply u8_is_byte. Qed.

(** ** Loads and stores *)

Lemma load_at_middle pre x mid post k : load (pre ++ mid ++ post) (length pre + k) = Ok x <-> load (mid ++ post) k = Ok x.
Proof. unfold load. rewrite lookup_app_r by lia. by replace (length pre + k - length pre)%nat with k by lia. Qed.

Lemma load32_words ws rest k v : ws !! k = Some v -> is_u32 v -> load32 (words ws ++ rest) (4 * k) = Ok v.
Proof.
  intros Hk Hv. rewrite (words_split ws k v Hk), <- !app_assoc. assert (k < length ws)%nat by (by eapply lookup_lt_Some).
  assert (4 * k = length (words (take k ws)))%nat as E by (rewrite length_words, length_take; lia). rewrite E.
  set (pre := words (take k ws)). set (post := words (drop (S k) ws) ++ rest). unfold load32.
  rewrite <- (Nat.add_0_r (length pre)) at 1.
  assert (forall j b, (le32 v) !! j = Some b -> load (pre ++ map Some (le32 v) ++ post) (length pre + j) = Ok b) as Hl.
  { intros j b Hj. apply load_at_middle. unfold load. rewrite lookup_app_l by (rewrite length_map; by eapply lookup_lt_Some).
    by rewrite list_lookup_fmap, Hj. }
  rewrite (Hl 0%nat _ eq_refl), (Hl 1%nat _ eq_refl), (Hl 2%nat _ eq_refl), (Hl 3%nat _ eq_refl). cbn.
  f_equal. by apply le32_value.
Qed.

Lemma store_block_spec bytes : forall pre old post,
  length old = length bytes -> store_block (pre ++ old ++ post) (length pre) bytes = Ok (pre ++ map Some bytes ++ post).
Proof.
  induction bytes as [|b bytes IH]; intros pre old post Hl; destruct old as [|o old]; try done. cbn [store_block map].
  rewrite <- app_comm_cons, store_middle, res_bind_ok.
  replace (S (length pre)) with (length (pre ++ [Some b])) by (rewrite length_app; cbn; lia).
  replace (pre ++ Some b :: old ++ post) with ((pre ++ [Some b]) ++ old ++ post) by (by rewrite <- app_assoc).
  rewrite IH by (cbn in Hl; lia). by rewrite <- app_assoc.
Qed.

(** A block that does not fit. *)
Lemma store_block_overrun bytes : forall m p,
  (length m < p + length bytes)%nat -> (p <= length m)%nat -> store_block m p bytes = Fault OutOfBounds.
Proof.
  induction bytes as [|b bytes IH]; intros m p Hl Hp; cbn [length] in Hl; [lia|]. cbn [store_block]. unfold store.
  destruct (m !! p) as [c|] eqn:E; [|done]. rewrite res_bind_ok. apply lookup_lt_Some in E.
  apply IH; rewrite length_insert; lia.
Qed.

Lemma store32_words ws rest k v : (k < length ws)%nat ->
  store32 (words ws ++ rest) (4 * k) v = Ok (words (<[k := v]> ws) ++ rest).
Proof.
  intros Hk. destruct (lookup_lt_is_Some_2 ws k Hk) as [o Ho]. unfold store32. rewrite (words_split ws k o Ho), <- !app_assoc.
  replace (4 * k)%nat with (length (words (take k ws))) by (rewrite length_words, length_take; lia).
  rewrite store_block_spec by done. rewrite (words_split (<[k := v]> ws) k v) by (by rewrite list_lookup_insert_eq).
  by rewrite take_insert_ge, drop_insert_lt, <- !app_assoc by lia.
Qed.

(** Fields at word positions. *)
Definition word_fields (fs : list (nat * Z)) : list (nat * Z) := map (fun f => ((4 * f.1)%nat, f.2)) fs.
Definition insert_fields (fs : list (nat * Z)) (ws : list Z) : list Z := foldl (fun w f => <[f.1 := f.2]> w) ws fs.

Lemma store_fields_words fs rest : forall ws, Forall (fun f => (f.1 < length ws)%nat) fs ->
  store_fields (words ws ++ rest) (word_fields fs) = Ok (words (insert_fields fs ws) ++ rest).
Proof.
  induction fs as [|[k v] fs IH]; intros ws Hf; [done|]. apply Forall_cons_iff in Hf as [Hk Hf]. cbn [word_fields map store_fields fst snd].
  rewrite store32_words by done. rewrite res_bind_ok. apply IH. revert Hf. apply Forall_impl. intros f. by rewrite length_insert.
Qed.

(** * The protocol *)

(** What the adapter shows: its state, the packet filter, and the response that waits
    for the host. *)
Record adapter : Type := mk_adapter {
  ad_state : rndis_state;
  ad_filter : Z;
  ad_response : option (list Z) }.

(** The fields of a message: type, request, OID, and the offset of its data. *)
Record ndis_message : Type := mk_message { msg_type : Z; msg_id : Z; msg_oid : Z; msg_offset : Z }.

Definition success (t id : Z) (more : list Z) (payload : list Z) : list Z :=
  let n := Z.of_nat (16 + 4 * length more + length payload) in
  concat (map le32 ([t; n; id; REMOTE_NDIS_STATUS_SUCCESS] ++ more)) ++ payload.

Definition query_answer (i : rndis_info) (id oid : Z) : list Z :=
  match query_data i oid with
  | Some d => success REMOTE_NDIS_QUERY_CMPLT id [Z.of_nat (length d); 16] d
  | None => concat (map le32 [REMOTE_NDIS_QUERY_CMPLT; 24; id; REMOTE_NDIS_STATUS_NOT_SUPPORTED; 0; 0])
  end.

(** The answer to a message whose data holds the word [value]. *)
Definition ndis_answer (i : rndis_info) (msg : ndis_message) (value : Z) : adapter :=
  let st := CurrRNDISState i in
  let f := CurrPacketFilter i in
  let t := msg_type msg in
  if t =? REMOTE_NDIS_INITIALIZE_MSG then
    mk_adapter RNDIS_Initialized f (Some (success REMOTE_NDIS_INITIALIZE_CMPLT (msg_id msg) [1; 0; 1; 0; 1; 1544; 0; 0; 0] []))
  else if t =? REMOTE_NDIS_HALT_MSG then mk_adapter RNDIS_Uninitialized f None
  else if t =? REMOTE_NDIS_QUERY_MSG then mk_adapter st f (Some (query_answer i (msg_id msg) (msg_oid msg)))
  else if t =? REMOTE_NDIS_SET_MSG then
    if msg_oid msg =? OID_GEN_CURRENT_PACKET_FILTER then
      mk_adapter (if value =? 0 then RNDIS_Initialized else RNDIS_Data_Initialized) value
        (Some (success REMOTE_NDIS_SET_CMPLT (msg_id msg) [] []))
    else if msg_oid msg =? OID_802_3_MULTICAST_LIST then
      mk_adapter st f (Some (success REMOTE_NDIS_SET_CMPLT (msg_id msg) [] []))
    else mk_adapter st f (Some (concat (map le32 [REMOTE_NDIS_SET_CMPLT; 16; msg_id msg; REMOTE_NDIS_STATUS_NOT_SUPPORTED])))
  else if t =? REMOTE_NDIS_RESET_MSG then
    mk_adapter st f (Some (concat (map le32 [REMOTE_NDIS_RESET_CMPLT; 16; REMOTE_NDIS_STATUS_SUCCESS; 0])))
  else mk_adapter st f (Some (success REMOTE_NDIS_KEEPALIVE_CMPLT (msg_id msg) [] [])).

Definition known_message (t : Z) : bool :=
  (t =? REMOTE_NDIS_INITIALIZE_MSG) || (t =? REMOTE_NDIS_HALT_MSG) || (t =? REMOTE_NDIS_QUERY_MSG) ||
  (t =? REMOTE_NDIS_SET_MSG) || (t =? REMOTE_NDIS_RESET_MSG) || (t =? REMOTE_NDIS_KEEPALIVE_MSG).

(** The buffer holds a message: 128 bytes, of which the first seven words are
    [msg_type; length; msg_id; msg_oid; data length; msg_offset; handle]. *)
Definition holds_message (i : rndis_info) (msg : ndis_message) : Prop :=
  exists l n h rest, Forall is_byte rest /\ length rest = 100%nat /\
    Forall is_u32 [msg_type msg; l; msg_id msg; msg_oid msg; n; msg_offset msg; h] /\
    RNDISMessageBuffer i = words [msg_type msg; l; msg_id msg; msg_oid msg; n; msg_offset msg; h] ++ map Some rest.

(** The buffer holds 128 bytes. *)
Definition byte_buffer (m : cells) : Prop := exists b, m = map Some b /\ Forall is_byte b /\ length b = 128%nat.

(** The driver shows the adapter [a]: the response is at the start of the buffer, with
    its length in the header, and a message without response has length 0. *)
Definition shows (i : rndis_info) (a : adapter) : Prop :=
  CurrRNDISState i = ad_state a /\ CurrPacketFilter i = ad_filter a /\
  byte_buffer (RNDISMessageBuffer i) /\
  match ad_response a with
  | Some r => ResponseReady i = true /\ take (length r) (RNDISMessageBuffer i) = map Some r /\
      load32 (RNDISMessageBuffer i) 4 = Ok (Z.of_nat (length r))
  | None => ResponseReady i = false /\ load32 (RNDISMessageBuffer i) 4 = Ok 0
  end.

Definition same_config (i i' : rndis_info) : Prop :=
  rn_ControlInterfaceNumber i' = rn_ControlInterfaceNumber i /\ rn_DataINEndpoint i' = rn_DataINEndpoint i /\
  rn_DataOUTEndpoint i' = rn_DataOUTEndpoint i /\ rn_NotificationEndpoint i' = rn_NotificationEndpoint i /\
  AdapterVendorDescription i' = AdapterVendorDescription i /\ AdapterMACAddress i' = AdapterMACAddress i.

(** * The driver implements the protocol *)

Lemma bytes_word b0 b1 b2 b3 : is_byte b0 -> is_byte b1 -> is_byte b2 -> is_byte b3 ->
  le32 (b0 + 256 * b1 + 65536 * b2 + 16777216 * b3) = [b0; b1; b2; b3].
Proof.
  intros H0 H1 H2 H3. unfold is_byte in *. unfold le32, wrapu. rewrite !Z.shiftr_div_pow2 by lia.
  set (v := b0 + 256 * b1 + 65536 * b2 + 16777216 * b3).
  assert (v / 2 ^ 8 = b1 + 256 * b2 + 65536 * b3) as -> by (symmetry; apply (Z.div_unique _ _ _ b0); unfold v; lia).
  assert (v / 2 ^ 16 = b2 + 256 * b3) as -> by (symmetry; apply (Z.div_unique _ _ _ (b0 + 256 * b1)); unfold v; lia).
  assert (v / 2 ^ 24 = b3) as -> by (symmetry; apply (Z.div_unique _ _ _ (b0 + 256 * b1 + 65536 * b2)); unfold v; lia).
  repeat f_equal; unfold v.
  - symmetry. apply (Z.mod_unique _ _ (b1 + 256 * b2 + 65536 * b3)); lia.
  - symmetry. apply (Z.mod_unique _ _ (b2 + 256 * b3)); lia.
  - symmetry. apply (Z.mod_unique _ _ b3); lia.
  - apply Z.mod_small. lia.
Qed.

Lemma bytes_words k : forall b, Forall is_byte b -> length b = (4 * k)%nat -> exists ws, length ws = k /\ map Some b = words ws.
Proof.
  induction k as [|k IH]; intros b Hb Hl.
  - destruct b; [|simpl in Hl; lia]. by exists [].
  - destruct b as [|b0 [|b1 [|b2 [|b3 b]]]]; simpl in Hl; try lia. rewrite !Forall_cons_iff in Hb.
    destruct Hb as (H0 & H1 & H2 & H3 & Hb). destruct (IH b Hb ltac:(lia)) as (ws & Hw & E).
    exists ((b0 + 256 * b1 + 65536 * b2 + 16777216 * b3) :: ws). split; [cbn; lia|].
    rewrite words_cons, bytes_word by done. cbn. by rewrite E.
Qed.

Lemma take_words ws rest : take (4 * length ws) (words ws ++ rest) = words ws.
Proof. rewrite <- length_words. apply take_app_length. Qed.

Lemma length_le32s ws : length (concat (map le32 ws)) = (4 * length ws)%nat.
Proof. pose proof (length_words ws) as H. unfold words in H. by rewrite length_map in H. Qed.

Lemma words_bytes ws : Forall is_byte (concat (map le32 ws)).
Proof. induction ws as [|w ws IH]; [constructor|]. cbn [map concat]. apply Forall_app. split; [apply le32_bytes|done]. Qed.

Lemma words_byte_buffer ws b : Forall is_byte b -> (4 * length ws + length b = 128)%nat -> byte_buffer (words ws ++ map Some b).
Proof.
  intros Hb Hl. exists (concat (map le32 ws) ++ b). split; [by rewrite map_app|]. split; [apply Forall_app; split; [apply words_bytes|done]|].
  by rewrite length_app, length_le32s.
Qed.

(** A buffer that starts with the response [ws ++ payload], whose second word is its
    length. *)
Lemma shows_response i a t n ws payload rest :
  CurrRNDISState i = ad_state a -> CurrPacketFilter i = ad_filter a -> ResponseReady i = true ->
  RNDISMessageBuffer i = words (t :: n :: ws) ++ map Some payload ++ map Some rest ->
  n = Z.of_nat (8 + 4 * length ws + length payload) -> is_u32 n ->
  (8 + 4 * length ws + length payload + length rest = 128)%nat -> Forall is_byte payload -> Forall is_byte rest ->
  ad_response a = Some (concat (map le32 (t :: n :: ws)) ++ payload) -> shows i a.
Proof.
  intros H1 H2 H3 Hb Hn Hu Hl Hp Hr Ha. split_and!; [done..| |].
  { rewrite Hb, <- map_app. apply words_byte_buffer; [by apply Forall_app|]. rewrite length_app. cbn [length]. lia. }
  rewrite Ha. split_and!; [done| |].
  - rewrite Hb, app_assoc, take_app_length', map_app; [done|]. by rewrite !length_app, length_words, length_le32s, length_map.
  - rewrite Hb, (load32_words _ _ 1 n) by done. f_equal. rewrite Hn, length_app, length_le32s. cbn [length]. f_equal. lia.
Qed.

Lemma shows_words i a t n ws old rest :
  CurrRNDISState i = ad_state a -> CurrPacketFilter i = ad_filter a -> ResponseReady i = true ->
  RNDISMessageBuffer i = words ((t :: n :: ws) ++ old) ++ map Some rest ->
  n = Z.of_nat (8 + 4 * length ws) -> is_u32 n -> (8 + 4 * length ws + 4 * length old + length rest = 128)%nat ->
  Forall is_byte rest -> ad_response a = Some (concat (map le32 (t :: n :: ws))) -> shows i a.
Proof.
  intros H1 H2 H3 Hb Hn Hu Hl Hr Ha. eapply (shows_response _ _ t n ws [] (concat (map le32 old) ++ rest)); try done.
  - by rewrite Hb, words_app, <- app_assoc, map_app.
  - cbn [length]. lia.
  - rewrite length_app, length_le32s. cbn [length]. lia.
  - apply Forall_app. split; [apply words_bytes|done].
  - by rewrite app_nil_r.
Qed.

(** What lies after the first two words does not depend on them. *)
Lemma load32_after_header t n t' n' ws rest p : (8 <= p)%nat ->
  load32 (words (t :: n :: ws) ++ rest) p = load32 (words (t' :: n' :: ws) ++ rest) p.
Proof.
  intros Hp. unfold load32.
  assert (forall k, (8 <= k)%nat -> load (words (t :: n :: ws) ++ rest) k = load (words (t' :: n' :: ws) ++ rest) k) as Hk.
  { intros k Hk. unfold load. rewrite !words_cons, !app_assoc, <- !(app_assoc (map Some (le32 _) ++ map Some (le32 _))).
    by rewrite !(lookup_app_r (map Some (le32 _) ++ map Some (le32 _))) by (cbn; lia). }
  by rewrite !Hk by lia.
Qed.

#[local] Opaque words le32.

Ltac fields_in_range := repeat (apply List.Forall_cons; [cbn; lia|]); apply List.Forall_nil.

Section messages.
Context (i : rndis_info) (msg : ndis_message) (l n h : Z) (rest : list Z).
Context (Hrest : Forall is_byte rest) (Hlen : length rest = 100%nat).
Context (Hwords : Forall is_u32 [msg_type msg; l; msg_id msg; msg_oid msg; n; msg_offset msg; h]).
Context (Hbuf : RNDISMessageBuffer i = words [msg_type msg; l; msg_id msg; msg_oid msg; n; msg_offset msg; h] ++ map Some rest).

Lemma reset_answer :
  exists i', process_reset i = Ok i' /\ same_config i i' /\
    shows i' (mk_adapter (CurrRNDISState i) (CurrPacketFilter i)
      (Some (concat (map le32 [REMOTE_NDIS_RESET_CMPLT; 16; REMOTE_NDIS_STATUS_SUCCESS; 0])))).
Proof.
  unfold process_reset. rewrite Hbuf.
  rewrite (store_fields_words [(0%nat, REMOTE_NDIS_RESET_CMPLT); (1%nat, sizeof_Reset_Complete); (2%nat, REMOTE_NDIS_STATUS_SUCCESS); (3%nat, 0)])
    by fields_in_range.
  rewrite res_bind_ok. eexists. split; [reflexivity|]. split; [done|].
  eapply (shows_words _ _ _ _ [_; _] [_; _; _]); try reflexivity; try done. by rewrite Hlen.
Qed.

Lemma keepalive_answer :
  exists i', process_keepalive i = Ok i' /\ same_config i i' /\
    shows i' (mk_adapter (CurrRNDISState i) (CurrPacketFilter i) (Some (success REMOTE_NDIS_KEEPALIVE_CMPLT (msg_id msg) [] []))).
Proof.
  rewrite !Forall_cons_iff in Hwords. destruct Hwords as (_ & _ & Hid & _). unfold process_keepalive. rewrite Hbuf.
  rewrite (store_fields_words [(0%nat, REMOTE_NDIS_KEEPALIVE_CMPLT); (1%nat, sizeof_KeepAlive_Complete)])
    by fields_in_range.
  rewrite res_bind_ok, (load32_words _ _ 2 (msg_id msg)), res_bind_ok by done.
  rewrite (store_fields_words [(2%nat, msg_id msg); (3%nat, REMOTE_NDIS_STATUS_SUCCESS)]) by fields_in_range.
  rewrite res_bind_ok. eexists. split; [reflexivity|]. split; [done|].
  eapply (shows_words _ _ _ _ [_; _] [_; _; _]); try reflexivity; try done.
  all: first [by rewrite Hlen | cbn [ad_response]; unfold success; by rewrite app_nil_r].
Qed.

Lemma halt_answer :
  exists i', process_halt i = Ok i' /\ same_config i i' /\ shows i' (mk_adapter RNDIS_Uninitialized (CurrPacketFilter i) None).
Proof.
  unfold process_halt. rewrite Hbuf, (store32_words _ _ 1 0) by (cbn; lia).
  rewrite res_bind_ok. eexists. split; [reflexivity|]. split; [done|]. split_and!; try done; cbn [RNDISMessageBuffer set_rndis_state set_buffer].
  apply words_byte_buffer; [done|]. by rewrite Hlen.
Qed.

Lemma initialize_answer :
  exists i', process_initialize i = Ok i' /\ same_config i i' /\
    shows i' (mk_adapter RNDIS_Initialized (CurrPacketFilter i)
      (Some (success REMOTE_NDIS_INITIALIZE_CMPLT (msg_id msg) [1; 0; 1; 0; 1; 1544; 0; 0; 0] []))).
Proof.
  rewrite !Forall_cons_iff in Hwords. destruct Hwords as (_ & _ & Hid & _).
  destruct (bytes_words 25 rest Hrest Hlen) as (ws & Hws & E). rewrite E, <- words_app, <- (app_nil_r (words _)) in Hbuf. change [] with (map (@Some Z) []) in Hbuf at 2.
  destruct ws as [|x1 [|x2 [|x3 [|x4 [|x5 [|x6 ws]]]]]]; cbn [length] in Hws; try lia.
  unfold process_initialize. rewrite Hbuf.
  rewrite (store_fields_words [(0%nat, REMOTE_NDIS_INITIALIZE_CMPLT); (1%nat, sizeof_Initialize_Complete)])
    by fields_in_range.
  rewrite res_bind_ok, (load32_words _ _ 2 (msg_id msg)), res_bind_ok by done.
  rewrite (store_fields_words
    [(2%nat, msg_id msg); (3%nat, REMOTE_NDIS_STATUS_SUCCESS); (4%nat, REMOTE_NDIS_VERSION_MAJOR); (5%nat, REMOTE_NDIS_VERSION_MINOR);
     (6%nat, REMOTE_NDIS_DF_CONNECTIONLESS); (7%nat, REMOTE_NDIS_MEDIUM_802_3); (8%nat, 1);
     (9%nat, sizeof_Packet_Message + ETHERNET_FRAME_SIZE_MAX); (10%nat, 0); (11%nat, 0); (12%nat, 0)]) by fields_in_range.
  rewrite res_bind_ok. eexists. split; [reflexivity|]. split; [done|].
  eapply (shows_words _ _ _ _ [_; _; _; _; _; _; _; _; _; _; _] ws []); try reflexivity; try done.
  all: first [cbn [length]; lia | cbn [ad_response]; unfold success; by rewrite app_nil_r].
Qed.
Lemma set_answer value :
  (msg_oid msg = OID_GEN_CURRENT_PACKET_FILTER ->
   8 <= u16 (8 + msg_offset msg) /\ load32 (RNDISMessageBuffer i) (Z.to_nat (u16 (8 + msg_offset msg))) = Ok value) ->
  msg_type msg = REMOTE_NDIS_SET_MSG ->
  exists i', process_set i = Ok i' /\ same_config i i' /\ shows i' (ndis_answer i msg value).
Proof.
  intros Hv Ht. rewrite !Forall_cons_iff in Hwords. destruct Hwords as (_ & _ & Hid & Hoid & Hn & Hoff & _).
  unfold process_set. rewrite Hbuf in *. rewrite (load32_words _ _ 3 (msg_oid msg)), res_bind_ok by done.
  rewrite (store_fields_words [(0%nat, REMOTE_NDIS_SET_CMPLT); (1%nat, sizeof_Set_Complete)]) by fields_in_range.
  rewrite res_bind_ok, (load32_words _ _ 2 (msg_id msg)), res_bind_ok, (store32_words _ _ 2) by (done || (cbn; lia)).
  rewrite res_bind_ok. cbn [insert_fields foldl insert list_insert fst snd].
  rewrite (load32_words _ _ 5 (msg_offset msg)), res_bind_ok, (load32_words _ _ 4 n), res_bind_ok by done.
  unfold RNDIS_Device_ProcessNDISSet, ndis_answer. rewrite Ht. cbn [RNDISMessageBuffer set_buffer]. change sizeof_Message_Header with 8.
  assert (forall j v, RNDISMessageBuffer j = words [REMOTE_NDIS_SET_CMPLT; sizeof_Set_Complete; msg_id msg; msg_oid msg; n; msg_offset msg; h] ++ map Some rest ->
    store32 (RNDISMessageBuffer j) 12 v =
    Ok (words ([REMOTE_NDIS_SET_CMPLT; 16; msg_id msg; v] ++ [n; msg_offset msg; h]) ++ map Some rest)) as Hst.
  { intros j v ->. by rewrite (store32_words _ _ 3) by (cbn; lia). }
  destruct (Z.eqb_spec (msg_oid msg) OID_GEN_CURRENT_PACKET_FILTER) as [E|E];
    [|destruct (Z.eqb_spec (msg_oid msg) OID_802_3_MULTICAST_LIST) as [E'|E']].
  1: destruct (Hv E) as [Hpast Hval]; rewrite (load32_after_header _ _ (msg_type msg) l), Hval, res_bind_ok by lia.
  all: rewrite ?res_bind_ok; cbn [default]; rewrite Hst by done; rewrite res_bind_ok; eexists; split; [reflexivity|]; split; [done|].
  all: eapply (shows_words _ _ _ _ [_; _] [_; _; _]); try reflexivity; try done.
  all: first [by rewrite Hlen | cbn [ad_response]; unfold success; by rewrite app_nil_r].
Qed.

(** A query whose response fits into the buffer. *)
Lemma query_answer_shown :
  match query_data i (msg_oid msg) with Some d => (length d <= 104)%nat /\ Forall is_byte d | None => True end ->
  exists i', process_query i = Ok i' /\ same_config i i' /\
    shows i' (mk_adapter (CurrRNDISState i) (CurrPacketFilter i) (Some (query_answer i (msg_id msg) (msg_oid msg)))).
Proof.
  intros Hfit. rewrite !Forall_cons_iff in Hwords. destruct Hwords as (_ & _ & Hid & Hoid & Hn & Hoff & _).
  unfold process_query. rewrite Hbuf.
  rewrite (load32_words _ _ 3 (msg_oid msg)), res_bind_ok, (load32_words _ _ 5 (msg_offset msg)), res_bind_ok by done.
  rewrite (store32_words _ _ 0), res_bind_ok by (cbn; lia). cbn [insert list_insert].
  rewrite (load32_words _ _ 4 n), res_bind_ok by done.
  unfold RNDIS_Device_ProcessNDISQuery, query_answer. destruct (query_data i (msg_oid msg)) as [d|].
  - destruct Hfit as [Hfit Hd]. set (old := le32 h ++ rest).
    assert (length old = 104)%nat as Ho by (unfold old; rewrite length_app, Hlen; done).
    replace (words [REMOTE_NDIS_QUERY_CMPLT; l; msg_id msg; msg_oid msg; n; msg_offset msg; h] ++ map Some rest)
      with (words [REMOTE_NDIS_QUERY_CMPLT; l; msg_id msg; msg_oid msg; n; msg_offset msg] ++ map Some (take (length d) old) ++ map Some (drop (length d) old))
      by (rewrite <- map_app, take_drop; unfold old; by rewrite map_app, <- words_one, app_assoc, <- words_app).
    change (Z.to_nat sizeof_Query_Complete) with (length (words [REMOTE_NDIS_QUERY_CMPLT; l; msg_id msg; msg_oid msg; n; msg_offset msg])).
    rewrite store_block_spec by (rewrite length_map, length_take; lia). rewrite !res_bind_ok.
    rewrite (store_fields_words [(3%nat, REMOTE_NDIS_STATUS_SUCCESS); (1%nat, sizeof_Query_Complete + u16 (Z.of_nat (length d)));
      (4%nat, u16 (Z.of_nat (length d))); (5%nat, sizeof_Query_Complete - sizeof_Message_Header)]) by fields_in_range.
    rewrite res_bind_ok. eexists. split; [reflexivity|]. split; [done|].
    cbn [insert_fields foldl insert list_insert fst snd].
    assert (u16 (Z.of_nat (length d)) = Z.of_nat (length d)) as Ed by (apply Z.mod_small; lia). rewrite Ed.
    eapply (shows_response _ _ _ _ [_; _; _; _] d); try reflexivity.
    + unfold sizeof_Query_Complete. cbn [length]. lia.
    + unfold is_u32, sizeof_Query_Complete. lia.
    + rewrite length_drop, Ho. cbn [length]. lia.
    + done.
    + apply Forall_drop. unfold old. apply Forall_app. split; [apply le32_bytes|done].
    + cbn [ad_response]. unfold success, sizeof_Query_Complete. cbn [length app].
      replace (Z.of_nat (16 + 4 * 2 + length d)) with (24 + Z.of_nat (length d)) by lia. done.
  - rewrite (store_fields_words [(3%nat, REMOTE_NDIS_STATUS_NOT_SUPPORTED); (1%nat, sizeof_Query_Complete); (4%nat, 0); (5%nat, 0)])
      by fields_in_range.
    rewrite res_bind_ok. eexists. split; [reflexivity|]. split; [done|].
    eapply (shows_words _ _ _ _ [_; _; _; _] [_]); try reflexivity; try done. by rewrite Hlen.
Qed.
End messages.

(** The configuration: a MAC address, and a vendor description that fits. *)
Definition config_fits (i : rndis_info) : Prop :=
  Forall is_byte (AdapterMACAddress i) /\ length (AdapterMACAddress i) = 6%nat /\
  Forall is_byte (AdapterVendorDescription i) /\ (length (AdapterVendorDescription i) <= 103)%nat.

Lemma query_fits i oid : config_fits i -> oid <> OID_GEN_SUPPORTED_LIST ->
  match query_data i oid with Some d => (length d <= 104)%nat /\ Forall is_byte d | None => True end.
Proof.
  intros (H1 & H2 & H3 & H4) Ho. unfold query_data. rewrite (proj2 (Z.eqb_neq _ _)) by done.
  repeat match goal with |- context [if ?b then _ else _] => destruct b end;
    try exact Logic.I; try (split; [rewrite length_le32; lia|apply le32_bytes]).
  all: first [split; [lia|done] | split; [rewrite length_app; cbn; lia|apply Forall_app; split; [done|by repeat constructor]]].
Qed.

(** * Theorems *)

(** C14: the RNDIS control channel.  For every message of the six types that the driver
    knows, in a buffer of 128 bytes: except for a query of the list of supported OIDs,
    processing it is free of memory errors, changes the adapter's state and packet
    filter as the protocol says, keeps the configuration, and leaves in the buffer
    exactly the bytes of the protocol's response, with the request's identifier, its
    status and its length; a halt leaves none.  Two conditions are the caller's: the
    vendor description has at most 103 characters, so that it fits, and the offset
    that comes with a new packet filter points, modulo 65536, into the buffer and past
    the message header, which the response has overwritten by then. *)
Theorem rndis_control_refines i msg value :
  holds_message i msg -> config_fits i -> known_message (msg_type msg) = true ->
  (msg_type msg = REMOTE_NDIS_QUERY_MSG -> msg_oid msg <> OID_GEN_SUPPORTED_LIST) ->
  (msg_type msg = REMOTE_NDIS_SET_MSG -> msg_oid msg = OID_GEN_CURRENT_PACKET_FILTER ->
   8 <= u16 (8 + msg_offset msg) /\ load32 (RNDISMessageBuffer i) (Z.to_nat (u16 (8 + msg_offset msg))) = Ok value) ->
  exists i', RNDIS_Device_ProcessRNDISControlMessage i = Ok i' /\ same_config i i' /\ shows i' (ndis_answer i msg value).
Proof.
  intros (l & n & h & rest & Hr & Hlen & Hw & Hbuf) Hcfg Hk Hq Hs. unfold RNDIS_Device_ProcessRNDISControlMessage.
  pose proof Hw as Hw'. rewrite !Forall_cons_iff in Hw'. destruct Hw' as (Ht & _).
  assert (load32 (RNDISMessageBuffer i) 0 = Ok (msg_type msg)) as -> by (rewrite Hbuf; by apply (load32_words _ _ 0)).
  rewrite res_bind_ok. unfold known_message in Hk. rewrite !orb_true_iff, !Z.eqb_eq in Hk. unfold ndis_answer.
  destruct Hk as [[[[[E|E]|E]|E]|E]|E]; rewrite E; cbn [Z.eqb].
  - by eapply initialize_answer.
  - by eapply halt_answer.
  - eapply query_answer_shown; [done..|]. by apply query_fits; auto.
  - pose proof (set_answer i msg l n h rest Hr Hlen Hw Hbuf value (Hs E) E) as Ha. unfold ndis_answer in Ha. by rewrite E in Ha.
  - by eapply reset_answer.
  - by eapply keepalive_answer.
Qed.

(** C35: the query of the list of supported OIDs overruns the message buffer: the list
    has 27 entries, and 24 + 108 bytes do not fit into 128, for every message and
    every configuration. *)
Theorem rndis_list_overruns i msg :
  holds_message i msg -> msg_type msg = REMOTE_NDIS_QUERY_MSG -> msg_oid msg = OID_GEN_SUPPORTED_LIST ->
  RNDIS_Device_ProcessRNDISControlMessage i = Fault OutOfBounds.
Proof.
  intros (l & n & h & rest & Hr & Hlen & Hw & Hbuf) Ht Ho. unfold RNDIS_Device_ProcessRNDISControlMessage.
  rewrite !Forall_cons_iff in Hw. destruct Hw as (Ht' & _ & _ & Hoid & Hn & Hoff & _).
  assert (load32 (RNDISMessageBuffer i) 0 = Ok (msg_type msg)) as -> by (rewrite Hbuf; by apply (load32_words _ _ 0)).
  rewrite res_bind_ok, Ht. cbn [Z.eqb]. unfold process_query. rewrite Hbuf.
  rewrite (load32_words _ _ 3 (msg_oid msg)), res_bind_ok, (load32_words _ _ 5 (msg_offset msg)), res_bind_ok by done.
  rewrite (store32_words _ _ 0), res_bind_ok by (cbn; lia). cbn [insert list_insert].
  rewrite (load32_words _ _ 4 n), res_bind_ok by done. rewrite Ho. unfold RNDIS_Device_ProcessNDISQuery.
  change (query_data i OID_GEN_SUPPORTED_LIST) with (Some (concat (map le32 AdapterSupportedOIDList))). cbv iota beta.
  rewrite store_block_overrun; [done|..]; rewrite length_app, length_words, length_map, Hlen, ?length_le32s.
  - change (length AdapterSupportedOIDList) with 27%nat. unfold sizeof_Query_Complete. cbn [length]. lia.
  - unfold sizeof_Query_Complete. cbn [length]. lia.
Qed.

(** ** The response reaches the host *)

(** Programs that leave the application's variables alone, with no interrupts. *)
Section frame.
Context {H A : Type} `{Hardware H}.
Abbreviation run := (prog (usb H A)).

Definition keeps_app {B} (m : run B) : Prop := forall s, app (m s).2 = app s.

Lemma keeps_ret {B} (b : B) : keeps_app (mret b).
Proof. done. Qed.

Lemma keeps_bind {B C} (m : run B) (k : B -> run C) : keeps_app m -> (forall b, keeps_app (k b)) -> keeps_app (m ≫= k).
Proof.
  intros Hm Hk s. specialize (Hm s). unfold mbind, prog_bind. destruct (m s) as [[b|c|f] s1]; cbn in *; try done.
  by rewrite Hk.
Qed.

Lemma keeps_read r : keeps_app (read_reg r).
Proof. intros s. by rewrite read_reg_run. Qed.

Lemma keeps_write r v : keeps_app (write_reg r v).
Proof. done. Qed.

Lemma keeps_lift {B} (r : res B) : keeps_app (lift r).
Proof. intros s. by destruct r. Qed.

Lemma keeps_get {B} (f : usb H A -> B) : keeps_app (get_mem f).
Proof. done. Qed.

Lemma wp_frame_app {B} (m : run B) Q E s :
  keeps_app m -> wp m Q E s -> wp m (fun b s' => Q b s' /\ app s' = app s) E s.
Proof. intros Hm. specialize (Hm s). unfold wp. by destruct (m s) as [[b|c|f] s1]. Qed.
End frame.

Ltac keeps :=
  repeat lazymatch goal with
  | |- keeps_app (_ ≫= _) => apply keeps_bind; [|intros ?]
  | |- keeps_app (mret _) => apply keeps_ret
  | |- keeps_app (read_reg _) => apply keeps_read
  | |- keeps_app (write_reg _ _) => apply keeps_write
  | |- keeps_app (lift _) => apply keeps_lift
  | |- keeps_app (get_mem _) => apply keeps_get
  | |- keeps_app (when ?b _) => destruct b; cbn [when]
  | |- keeps_app (if ?b then _ else _) => destruct b
  | |- keeps_app (match ?x with _ => _ end) => destruct x
  | |- keeps_app ?m => first [solve [auto] | let h := head_of m in unfold h]
  end.

Section exchange.
Context {H A : Type} `{CH : ControlHost H} (fuel : nat) (get_rndis : A -> rndis_info) (put_rndis : rndis_info -> A -> A).
Context (Hput : forall i a, get_rndis (put_rndis i a) = i).

Lemma keeps_fill_bank k : forall m d n b, keeps_app (fill_bank k transfer_out 1 m d n b : prog (usb H A) _).
Proof. induction k as [|k IH]; intros; cbn [fill_bank]; keeps. Qed.

Lemma keeps_control_w k : forall m d n b, keeps_app (control_w_loop k transfer_out 1 m d n b : prog (usb H A) _).
Proof. pose proof keeps_fill_bank. induction k as [|k IH]; intros; cbn [control_w_loop]; keeps. Qed.

Lemma keeps_control_wait k : keeps_app (control_wait k Endpoint_IsOUTReceived : prog (usb H A) Z).
Proof. induction k as [|k IH]; cbn [control_wait]; keeps. Qed.

Lemma keeps_control_write m n : keeps_app (template_control_w fuel transfer_out from_start 1 m n : prog (usb H A) _).
Proof. pose proof keeps_control_w. pose proof keeps_control_wait. unfold template_control_w. keeps. Qed.

Lemma keeps_clear_bits r m : keeps_app (clear_bits r m : prog (usb H A) unit).
Proof. keeps. Qed.

Lemma wp_acknowledge_app mask (Q : unit -> usb H A -> Prop) E s :
  Z.testbit mask TXINI = false ->
  (forall s', view (hw s') = view (hw s) -> lib s' = lib s -> app s' = app s -> Q tt s') -> wp (clear_bits UEINTX mask) Q E s.
Proof.
  intros Hm HQ. eapply wp_conseq.
  - apply (wp_frame_app _ (fun _ s' => view (hw s') = view (hw s) /\ lib s' = lib s)); [apply keeps_clear_bits|].
    by apply wp_acknowledge.
  - intros [] s' [[V L] A']. by apply HQ.
Qed.

Lemma wp_get_response r b (s : usb H A) E :
  let i := get_rndis (app s) in
  RNDISMessageBuffer i = flash b -> Forall is_byte b -> length b = 128%nat ->
  take (length r) (flash b) = flash r -> load32 (flash b) 4 = Ok (Z.of_nat (length r)) ->
  (0 < length r)%nat -> (length r < 8 * fuel)%nat ->
  view (hw s) = ([], [], want (hw s)) -> wLength (USB_ControlRequest (lib s)) = Z.of_nat (want (hw s)) ->
  wp (get_encapsulated fuel get_rndis put_rndis)
     (fun _ s' => (exists xs, view (hw s') = ([], xs, want (hw s)) /\ transfer_of (want (hw s)) (take (want (hw s)) r) xs) /\
        exists m, store32 (flash b) 4 0 = Ok m /\ get_rndis (app s') = set_buffer m i) E s.
Proof.
  intros i Hb Hbytes Hlen Hr Hn Hpos Hfuel Hv Hw. unfold get_encapsulated, rndis.
  assert (length r <= 128)%nat as Hmax.
  { pose proof (f_equal length Hr) as Hl. unfold flash in Hl. rewrite length_take, !length_map in Hl. lia. }
  apply wp_bind, wp_get_mem. fold i. rewrite Hb. apply wp_bind. eapply wp_lift; [exact Hn|].
  rewrite (proj2 (Z.eqb_neq _ _)) by lia. apply wp_bind, wp_ret, wp_bind.
  apply wp_acknowledge_app; [by vm_compute|]. intros s1 V1 L1 A1. apply wp_bind, wp_get_mem. rewrite A1. fold i. rewrite Hb.
  apply wp_bind. eapply wp_lift; [exact Hn|]. apply wp_bind.
  assert (want (hw s1) = want (hw s)) as Ew by (by injection V1).
  replace (u16 (Z.of_nat (length r))) with (Z.of_nat (length r)) by (symmetry; apply Z.mod_small; lia).
  eapply wp_conseq.
  { apply wp_frame_app; [apply keeps_control_write|].
    apply (wp_control_write_n fuel b (length r)); [done|lia|lia|done|by rewrite V1, Ew|by rewrite L1, Ew]. }
  intros res s2 ((_ & L2 & xs & V2 & T2) & A2). rewrite Ew in *. apply wp_bind.
  apply wp_acknowledge_app; [by vm_compute|]. intros s3 V3 L3 A3. apply wp_bind.
  destruct (bytes_words 32 b Hbytes Hlen) as (ws & Hws & Ews).
  assert (store32 (flash b) 4 0 = Ok (words (<[1%nat := 0]> ws))) as Est.
  { unfold flash. rewrite Ews, <- (app_nil_r (words ws)), (store32_words ws [] 1) by (rewrite Hws; lia). by rewrite app_nil_r. }
  eapply wp_lift; [exact Est|]. unfold on_rndis, wp. rewrite set_mem_run. cbn.
  split; [exists xs; split; [congruence|]|exists (words (<[1%nat := 0]> ws)); split; [done|]].
  - assert (take (length r) b = r) as Et by (apply (inj (map (@Some Z))); by rewrite <- firstn_map).
    by rewrite Et in T2.
  - by rewrite Hput, A3, A2, A1.
Qed.
End exchange.

(** GetEncapsulatedResponse.  When the driver shows a response, a host that
    follows the protocol receives exactly its first wLength bytes, properly
    terminated, and the response is taken: the buffer's length field is 0
    afterwards. *)
Theorem rndis_response_delivered {H A} `{ControlHost H} fuel (get_rndis : A -> rndis_info) put_rndis a r (s : usb H A) :
  (forall i a, get_rndis (put_rndis i a) = i) -> shows (get_rndis (app s)) a -> ad_response a = Some r -> r <> [] ->
  (17 <= fuel)%nat -> view (hw s) = ([], [], want (hw s)) -> wLength (USB_ControlRequest (lib s)) = Z.of_nat (want (hw s)) ->
  exists s' xs, get_encapsulated fuel get_rndis put_rndis s = (Done tt, s') /\
    view (hw s') = ([], xs, want (hw s)) /\ transfer_of (want (hw s)) (take (want (hw s)) r) xs /\
    load32 (RNDISMessageBuffer (get_rndis (app s'))) 4 = Ok 0.
Proof.
  intros Hput (_ & _ & (b & Hb & Hbytes & Hlen) & Hr) Ha Hne Hf Hv Hw. rewrite Ha, Hb in Hr. destruct Hr as (_ & Ht & Hn).
  assert (0 < length r)%nat by (destruct r; [done|cbn; lia]).
  assert (length r <= 128)%nat.
  { pose proof (f_equal length Ht) as Hl. rewrite length_take, !length_map in Hl. lia. }
  destruct (wp_run _ _ _ _ (wp_get_response fuel get_rndis put_rndis Hput r b s (fun _ _ => False)
    Hb Hbytes Hlen Ht Hn ltac:(done) ltac:(lia) Hv Hw)) as (o & s' & E & [([] & -> & (xs & V & T) & m & Hm & Hi)|(c & _ & [])]).
  exists s', xs. split_and!; [done..|]. rewrite Hi. cbn [RNDISMessageBuffer set_buffer].
  destruct (bytes_words 32 b Hbytes Hlen) as (ws & Hws & Ews). unfold flash in Hm.
  rewrite Ews, <- (app_nil_r (words ws)), (store32_words ws [] 1) in Hm by (rewrite Hws; lia). injection Hm as <-.
  apply (load32_words _ [] 1 0); [by rewrite list_lookup_insert_eq by lia|by vm_compute].
Qed.

(** * Examples *)

#[local] Transparent words le32.

(** An adapter whose buffer holds [ws] followed by zeros. *)
Definition sim_adapter (ws : list Z) : rndis_info :=
  mk_rndis 0 (mk_ep 129 64 EP_TYPE_BULK 1) (mk_ep 2 64 EP_TYPE_BULK 1) (mk_ep 131 8 EP_TYPE_INTERRUPT 1)
    [76; 85; 70; 65] [2; 0; 2; 0; 2; 0]
    (words ws ++ map Some (replicate (128 - 4 * length ws) 0)) true RNDIS_Initialized 0.

Lemma sim_adapter_config ws : config_fits (sim_adapter ws).
Proof. split_and!; try (cbn; lia); cbn; repeat (constructor; [split; lia|]); constructor. Qed.

Lemma sim_adapter_holds t l id oid n off h more :
  Forall is_u32 [t; l; id; oid; n; off; h] -> (length more <= 25)%nat ->
  holds_message (sim_adapter ([t; l; id; oid; n; off; h] ++ more)) (mk_message t id oid off).
Proof.
  intros Hw Hl. exists l, n, h, (concat (map le32 more) ++ replicate (100 - 4 * length more) 0). split_and!; [| |done|].
  - apply Forall_app. split; [apply words_bytes|]. by apply Forall_replicate.
  - rewrite length_app, length_le32s, length_replicate. lia.
  - cbn [RNDISMessageBuffer sim_adapter]. rewrite words_app, map_app, <- app_assoc, length_app.
    replace (128 - 4 * (length [t; l; id; oid; n; off; h] + length more))%nat with (100 - 4 * length more)%nat by (cbn [length]; lia).
    done.
Qed.

(** The host sets the packet filter 15. *)
Definition sim_filter : rndis_info := sim_adapter ([REMOTE_NDIS_SET_MSG; 32; 9; OID_GEN_CURRENT_PACKET_FILTER; 4; 20; 0] ++ [15]).

(** Witness of C14: setting the packet filter makes the adapter ready for data. *)
Lemma rndis_control_refines_witness :
  let msg := mk_message REMOTE_NDIS_SET_MSG 9 OID_GEN_CURRENT_PACKET_FILTER 20 in
  ad_state (ndis_answer sim_filter msg 15) = RNDIS_Data_Initialized /\
  exists i', RNDIS_Device_ProcessRNDISControlMessage sim_filter = Ok i' /\ same_config sim_filter i' /\
    shows i' (ndis_answer sim_filter msg 15).
Proof.
  split; [done|]. apply rndis_control_refines; [|apply sim_adapter_config|done|done|by vm_compute].
  apply sim_adapter_holds; [|cbn; lia]. repeat (constructor; [by vm_compute|]). constructor.
Defined.

(** Witness of C35: the query as a host sends it. *)
Lemma rndis_list_overruns_witness :
  RNDIS_Device_ProcessRNDISControlMessage (sim_adapter ([REMOTE_NDIS_QUERY_MSG; 28; 2; OID_GEN_SUPPORTED_LIST; 0; 0; 0] ++ [])) =
    Fault OutOfBounds.
Proof.
  apply (rndis_list_overruns _ (mk_message REMOTE_NDIS_QUERY_MSG 2 OID_GEN_SUPPORTED_LIST 0)); [|done|done].
  apply sim_adapter_holds; [|cbn; lia]. repeat (constructor; [by vm_compute|]). constructor.
Defined.

(** The response to a keep-alive message is ready, and the host asks for it. *)
Definition sim_keepalive : list Z := success REMOTE_NDIS_KEEPALIVE_CMPLT 7 [] [].
Definition sim_waiting_host : usb sim_ctl rndis_info :=
  mk_usb (mk_ctl [] [] 64) (set_request (mk_request class_in RNDIS_REQ_GetEncapsulatedResponse 0 0 64) core_init)
    (sim_adapter [REMOTE_NDIS_KEEPALIVE_CMPLT; 16; 7; 0]) [].

(** An instance: the sixteen bytes of the response to a keep-alive. *)
Lemma rndis_response_delivered_witness :
  exists s' xs, get_encapsulated 17 id (fun i _ => i) sim_waiting_host = (Done tt, s') /\
    view (hw s') = ([], xs, want (hw sim_waiting_host)) /\
    transfer_of (want (hw sim_waiting_host)) (take (want (hw sim_waiting_host)) sim_keepalive) xs /\
    load32 (RNDISMessageBuffer (id (app s'))) 4 = Ok 0.
Proof.
  apply (rndis_response_delivered 17 id (fun i _ => i) (mk_adapter RNDIS_Initialized 0 (Some sim_keepalive)));
    [done| |done|done|lia|done|done].
  split_and!; [done|done| |by vm_compute]. apply words_byte_buffer; [by apply Forall_replicate|done].
Defined.
