(* ===== verification/BulkHost.v ===== *)
(** A pair of bulk endpoints with a host behind them.

    [BulkHost] says how the data sheet describes an OUT and an IN endpoint: reading
    UEDATX takes the next byte of the packet in the OUT bank, writing it fills the IN
    bank, clearing the flags of a bank hands it over, the host's next packet then
    being in the OUT bank, and RWAL tells whether there is a byte or room.  STALLRQ halts an endpoint until the host clears the halt, which
    takes at most [patience] looks at UECONX.  The lemmas are the endpoint functions
    and streams of the library in terms of this view. *)

From Stdlib Require Import ZArith Lia.
From stdpp Require Import base tactics list numbers.
From S2P Require Import Prelude Posix Avr Endpoint EndpointStream.

Local Open Scope Z_scope.

(** The selected endpoint, the bytes left of the packet in the OUT bank, the bytes in
    the IN bank, the packets the host took, how long each endpoint stays halted, and
    the packets that the host is going to send. *)
Record bulk : Type := mk_bulk {
  b_sel : Z;
  b_rx : list Z;
  b_tx : list Z;
  b_sent : list (list Z);
  b_halt_out : nat;
  b_halt_in : nat;
  b_next : list (list Z) }.

Definition with_sel (e : Z) (b : bulk) : bulk := mk_bulk e (b_rx b) (b_tx b) (b_sent b) (b_halt_out b) (b_halt_in b) (b_next b).
Definition with_rx (l : list Z) (b : bulk) : bulk := mk_bulk (b_sel b) l (b_tx b) (b_sent b) (b_halt_out b) (b_halt_in b) (b_next b).
Definition with_tx (l : list Z) (b : bulk) : bulk := mk_bulk (b_sel b) (b_rx b) l (b_sent b) (b_halt_out b) (b_halt_in b) (b_next b).
Definition hand_over (b : bulk) : bulk :=
  mk_bulk (b_sel b) (b_rx b) [] (b_sent b ++ [b_tx b]) (b_halt_out b) (b_halt_in b) (b_next b).
Definition fetch_rx (b : bulk) : bulk :=
  mk_bulk (b_sel b) (default [] (head (b_next b))) (b_tx b) (b_sent b) (b_halt_out b) (b_halt_in b) (tail (b_next b)).

Lemma fetch_none b : b_next b = [] -> fetch_rx b = with_rx [] b.
Proof. intros Hb. unfold fetch_rx, with_rx. by rewrite Hb. Qed.

(** The halt of the selected endpoint. *)
Definition halt_of (out_ep : Z) (b : bulk) : nat := if b_sel b =? out_ep then b_halt_out b else b_halt_in b.
Definition with_halt (out_ep : Z) (n : nat) (b : bulk) : bulk :=
  if b_sel b =? out_ep then mk_bulk (b_sel b) (b_rx b) (b_tx b) (b_sent b) n (b_halt_in b) (b_next b)
  else mk_bulk (b_sel b) (b_rx b) (b_tx b) (b_sent b) (b_halt_out b) n (b_next b).

Lemma with_halt_twice out_ep n m b : with_halt out_ep n (with_halt out_ep m b) = with_halt out_ep n b.
Proof. unfold with_halt. destruct (b_sel b =? out_ep) eqn:E; cbn; by rewrite E. Qed.

Lemma halt_of_with out_ep n b : halt_of out_ep (with_halt out_ep n b) = n.
Proof. unfold with_halt, halt_of. destruct (b_sel b =? out_ep) eqn:E; cbn; by rewrite E. Qed.

Lemma with_halt_sel out_ep n b : b_sel (with_halt out_ep n b) = b_sel b.
Proof. unfold with_halt. by destruct (b_sel b =? out_ep). Qed.

Lemma map_u8_bytes bs : Forall is_byte bs -> map (wrapu 8) bs = bs.
Proof. intros Hb. induction Hb as [|x bs Hx _ IH]; [done|]. cbn [map]. by rewrite u8_small, IH. Qed.

Class BulkHost (H : Type) `{Hardware H} (out_ep in_ep : Z) (patience : nat) : Type := {
  bulk_of : H -> bulk;
  bulk_size : nat;
  bulk_room : (0 < bulk_size)%nat;
  bulk_distinct : in_ep <> out_ep;
  bulk_read : forall r h, r <> UEDATX -> r <> UECONX -> bulk_of (rd r h).2 = bulk_of h;
  bulk_other : forall r v h, r <> UENUM -> r <> UEDATX -> r <> UEINTX -> r <> UECONX -> bulk_of (wr r v h) = bulk_of h;
  bulk_select : forall e h, bulk_of (wr UENUM e h) = with_sel e (bulk_of h);
  bulk_state : forall h, (rd USB_DeviceState h).1 = DEVICE_STATE_Configured;
  bulk_direction : forall h, b_sel (bulk_of h) = out_ep \/ b_sel (bulk_of h) = in_ep ->
    Z.testbit (rd UECFG0X h).1 EPDIR = negb (b_sel (bulk_of h) =? out_ep);
  bulk_received : forall h, b_sel (bulk_of h) = out_ep -> b_rx (bulk_of h) <> [] -> Z.testbit (rd UEINTX h).1 RXOUTI = true;
  bulk_readable : forall h, b_sel (bulk_of h) = out_ep ->
    Z.testbit (rd UEINTX h).1 RWAL = negb (bool_decide (b_rx (bulk_of h) = []));
  bulk_get : forall h x rest, b_sel (bulk_of h) = out_ep -> b_rx (bulk_of h) = x :: rest ->
    (rd UEDATX h).1 = x /\ bulk_of (rd UEDATX h).2 = with_rx rest (bulk_of h);
  bulk_release : forall h v, b_sel (bulk_of h) = out_ep -> Z.testbit v RXOUTI = false -> Z.testbit v FIFOCON = false ->
    bulk_of (wr UEINTX v h) = fetch_rx (bulk_of h);
  bulk_ready : forall h, b_sel (bulk_of h) = in_ep -> Z.testbit (rd UEINTX h).1 TXINI = true;
  bulk_writable : forall h, b_sel (bulk_of h) = in_ep ->
    Z.testbit (rd UEINTX h).1 RWAL = (length (b_tx (bulk_of h)) <? bulk_size)%nat;
  bulk_put : forall h v, b_sel (bulk_of h) = in_ep -> (length (b_tx (bulk_of h)) < bulk_size)%nat -> is_byte v ->
    bulk_of (wr UEDATX v h) = with_tx (b_tx (bulk_of h) ++ [v]) (bulk_of h);
  bulk_send : forall h v, b_sel (bulk_of h) = in_ep -> Z.testbit v TXINI = false -> Z.testbit v FIFOCON = false ->
    bulk_of (wr UEINTX v h) = hand_over (bulk_of h);
  bulk_count : forall h, b_sel (bulk_of h) = out_ep \/ b_sel (bulk_of h) = in_ep ->
    (rd UEBCLX h).1 = Z.of_nat (length (if b_sel (bulk_of h) =? out_ep then b_rx (bulk_of h) else b_tx (bulk_of h)));
  bulk_stalled : forall h, b_sel (bulk_of h) = out_ep \/ b_sel (bulk_of h) = in_ep ->
    Z.testbit (rd UECONX h).1 STALLRQ = (0 <? halt_of out_ep (bulk_of h))%nat;
  bulk_look : forall h, bulk_of (rd UECONX h).2 = with_halt out_ep (pred (halt_of out_ep (bulk_of h))) (bulk_of h);
  bulk_stall : forall h v, Z.testbit v STALLRQ = true -> bulk_of (wr UECONX v h) = with_halt out_ep patience (bulk_of h) }.

Section bulk.
Context {H A : Type} `{HW : Hardware H} {out_ep in_ep : Z} {patience : nat} `{BH : !BulkHost H out_ep in_ep patience}.
Implicit Types s : usb H A.

Lemma in_not_out : (in_ep =? out_ep) = false.
Proof. apply Z.eqb_neq, bulk_distinct. Qed.

(** The endpoints are [b] and the application's state is [a]. *)
Definition at_bulk (b : bulk) (a : A) s : Prop := bulk_of (hw s) = b /\ app s = a.

Lemma wp_bread r b a (Q : Z -> usb H A -> Prop) E s :
  r <> UEDATX -> r <> UECONX -> at_bulk b a s ->
  (forall s', at_bulk b a s' -> Q (rd r (hw s)).1 s') -> wp (read_reg r) Q E s.
Proof. intros H1 H2 [Hb Ha] HQ. apply wp_read_reg, HQ. split; [|done]. cbn. by rewrite bulk_read. Qed.

Lemma wp_bbit r n b a (Q : bool -> usb H A -> Prop) E s :
  r <> UEDATX -> r <> UECONX -> at_bulk b a s ->
  (forall s', at_bulk b a s' -> Q (Z.testbit (rd r (hw s)).1 n) s') -> wp (bit_of r n) Q E s.
Proof. intros H1 H2 Hs HQ. unfold bit_of. eapply wp_bind, wp_bread; [done..|]. intros s' Hs'. by apply wp_ret, HQ. Qed.

Lemma wp_bselect e n b a (Q : unit -> usb H A -> Prop) E s :
  Z.land n ENDPOINT_EPNUM_MASK = e -> at_bulk b a s ->
  (forall s', at_bulk (with_sel e b) a s' -> Q tt s') -> wp (Endpoint_SelectEndpoint n) Q E s.
Proof.
  intros He [Hb Ha] HQ. unfold Endpoint_SelectEndpoint. rewrite He. apply wp_write_reg, HQ. split; [|done]. cbn.
  by rewrite bulk_select, Hb.
Qed.

(** ** Handing over a bank *)

Lemma cleared_bits v m n : 0 <= n < 8 -> Z.testbit m n = true -> Z.testbit (u8 (Z.ldiff v m)) n = false.
Proof. intros Hn Hm. rewrite u8_testbit, Z.ldiff_spec, Hm by lia. by rewrite !andb_false_r. Qed.

Lemma wp_brelease b a (Q : unit -> usb H A -> Prop) E s :
  b_sel b = out_ep -> at_bulk b a s -> (forall s', at_bulk (fetch_rx b) a s' -> Q tt s') -> wp Endpoint_ClearOUT Q E s.
Proof.
  intros Hsel Hs HQ. unfold Endpoint_ClearOUT, clear_bits. eapply wp_bind, wp_bread; [done..|]. intros s1 [E1 A1].
  apply wp_write_reg, HQ. split; [|done]. cbn.
  rewrite bulk_release; [by rewrite E1|by rewrite E1|by apply cleared_bits..].
Qed.

Lemma wp_bsend b a (Q : unit -> usb H A -> Prop) E s :
  b_sel b = in_ep -> at_bulk b a s -> (forall s', at_bulk (hand_over b) a s' -> Q tt s') -> wp Endpoint_ClearIN Q E s.
Proof.
  intros Hsel Hs HQ. unfold Endpoint_ClearIN, clear_bits. eapply wp_bind, wp_bread; [done..|]. intros s1 [E1 A1].
  apply wp_write_reg, HQ. split; [|done]. cbn.
  rewrite bulk_send; [by rewrite E1|by rewrite E1|by apply cleared_bits..].
Qed.

(** ** Halts *)

Lemma wp_bstalled b a (Q : bool -> usb H A -> Prop) E s :
  b_sel b = out_ep \/ b_sel b = in_ep -> at_bulk b a s ->
  (forall s', at_bulk (with_halt out_ep (pred (halt_of out_ep b)) b) a s' -> Q (0 <? halt_of out_ep b)%nat s') ->
  wp Endpoint_IsStalled Q E s.
Proof.
  intros Hsel [Hb Ha] HQ. unfold Endpoint_IsStalled, bit_of. apply wp_bind, wp_read_reg, wp_ret.
  rewrite bulk_stalled by (by rewrite Hb). rewrite Hb. apply HQ. split; [|done]. cbn. by rewrite bulk_look, Hb.
Qed.

Lemma wp_bstall b a (Q : unit -> usb H A -> Prop) E s :
  at_bulk b a s -> (forall s', at_bulk (with_halt out_ep patience b) a s' -> Q tt s') -> wp Endpoint_StallTransaction Q E s.
Proof.
  intros [Hb Ha] HQ. unfold Endpoint_StallTransaction, set_bits. apply wp_bind, wp_read_reg, wp_write_reg, HQ. split; [|done]. cbn.
  rewrite bulk_stall, bulk_look, Hb, with_halt_twice; [done|].
  rewrite u8_testbit, Z.lor_spec by (unfold STALLRQ; lia). by rewrite orb_true_r.
Qed.

(** ** What is on its way to the host *)

Definition flow (b : bulk) : list Z := concat (b_sent b) ++ b_tx b.
Definition sized (b : bulk) : Prop :=
  Forall (fun p => (length p <= bulk_size)%nat) (b_sent b) /\ (length (b_tx b) <= bulk_size)%nat.
Definition grown (b : bulk) (bs : list Z) (b' : bulk) : Prop :=
  b_sel b' = b_sel b /\ b_rx b' = b_rx b /\ b_halt_out b' = b_halt_out b /\ b_halt_in b' = b_halt_in b /\ b_next b' = b_next b /\
  flow b' = flow b ++ bs /\ sized b'.

Lemma grown_nil b : sized b -> grown b [] b.
Proof. intros. unfold grown. by rewrite app_nil_r. Qed.

Lemma hand_over_grown b : sized b -> grown b [] (hand_over b).
Proof.
  intros [H1 H2]. split_and!; try done; unfold flow, sized; cbn.
  - rewrite concat_app. cbn. by rewrite !app_nil_r.
  - split; [|cbn; lia]. apply Forall_app. split; [done|]. by apply Forall_cons_iff.
Qed.

Lemma put_grown b x : sized b -> (length (b_tx b) < bulk_size)%nat -> grown b [x] (with_tx (b_tx b ++ [x]) b).
Proof.
  intros [H1 H2] Hr. split_and!; try done; unfold flow, sized; cbn; [by rewrite app_assoc|]. rewrite length_app. cbn. split; [done|lia].
Qed.

Lemma grown_trans b1 l1 b2 l2 b3 : grown b1 l1 b2 -> grown b2 l2 b3 -> grown b1 (l1 ++ l2) b3.
Proof.
  intros (? & ? & ? & ? & ? & F1 & _) (? & ? & ? & ? & ? & F2 & ?). split_and!; try congruence; try done.
  by rewrite F2, F1, <- app_assoc.
Qed.

Context (fuel : nat) (Hfuel : (0 < fuel)%nat).

(** ** The wait loop *)

Definition ready_at (b : bulk) : Prop := (b_sel b = out_ep /\ b_rx b <> []) \/ b_sel b = in_ep.

Lemma wp_bwait b a (Q : Z -> usb H A -> Prop) E s :
  ready_at b -> at_bulk b a s -> (forall s', at_bulk b a s' -> Q ENDPOINT_READYWAIT_NoError s') ->
  wp (Endpoint_WaitUntilReady fuel) Q E s.
Proof.
  intros Hr Hs HQ. unfold Endpoint_WaitUntilReady. eapply wp_bind, wp_bread; [done..|]. intros s1 H1.
  destruct fuel as [|k]; [lia|]. cbn [wait_ready]. unfold Endpoint_GetEndpointDirection.
  eapply wp_bind, wp_bind, wp_bbit; [done..|]. intros s2 H2. apply wp_ret, wp_bind.
  rewrite bulk_direction by (destruct H1 as [-> _]; destruct Hr as [[? _]|?]; auto). destruct H1 as [E1 _]. rewrite E1.
  destruct Hr as [[Hsel Hrx]|Hsel]; rewrite Hsel.
  - rewrite Z.eqb_refl. cbn. eapply wp_bbit; [done..|]. intros s3 H3.
    rewrite bulk_received by (destruct H2 as [-> _]; done). by apply wp_ret, HQ.
  - rewrite in_not_out. cbn. eapply wp_bbit; [done..|]. intros s3 H3.
    rewrite bulk_ready by (destruct H2 as [-> _]; done). by apply wp_ret, HQ.
Qed.

(** ** Streams *)

(** Reading a part of the packet. *)
Lemma wp_read_loop a bp rest : forall bs k b pre old post n (Q : Z * cells * option Z -> usb H A -> Prop) E s,
  b_sel b = out_ep -> b_rx b = bs ++ rest -> (length bs <= k)%nat -> length old = length bs -> Z.of_nat (length bs) < 65536 ->
  at_bulk b a s ->
  (forall s', at_bulk (with_rx rest b) a s' -> Q (ENDPOINT_RWSTREAM_NoError, pre ++ map Some bs ++ post, bp) s') ->
  wp (rw_loop fuel k Endpoint_ClearOUT transfer_in 1 (pre ++ old ++ post) (Z.of_nat (length pre)) (Z.of_nat (length bs)) n bp) Q E s.
Proof.
  induction bs as [|x bs IH]; intros k b pre old post n Q E s Hsel Hrx Hk Hold Hlen Hs HQ; destruct old as [|o old]; try done.
  - destruct k; (cbn; apply wp_ret, HQ; destruct b; cbn in *; by subst).
  - destruct k as [|k]; [cbn in Hk; lia|]. cbn [rw_loop]. rewrite (proj2 (Z.eqb_neq _ _)) by (cbn; lia).
    unfold Endpoint_IsReadWriteAllowed. eapply wp_bind, wp_bbit; [done..|]. intros s1 H1.
    rewrite bulk_readable by (destruct Hs as [-> _]; done). destruct Hs as [-> _]. rewrite Hrx, bool_decide_eq_false_2 by done. cbn [negb]. apply wp_bind. unfold transfer_in, Endpoint_Read_8.
    apply wp_bind, wp_read_reg. destruct H1 as [E1 A1]. destruct (bulk_get (hw s1) x (bs ++ rest)) as [-> G]; [by rewrite E1..|].
    eapply wp_lift; [unfold store_at; rewrite (proj2 (Z.ltb_ge _ _)), Nat2Z.id by lia; apply (store_middle pre o (old ++ post))|].
    change (pre ++ Some x :: old ++ post) with (pre ++ [Some x] ++ old ++ post). rewrite app_assoc.
    replace (Z.of_nat (length pre) + 1) with (Z.of_nat (length (pre ++ [Some x]))) by (rewrite length_app; cbn; lia).
    replace (u16 (Z.of_nat (length (x :: bs)) - 1)) with (Z.of_nat (length bs)) by (unfold wrapu; cbn in *; rewrite Z.mod_small; lia).
    eapply (IH k (with_rx (bs ++ rest) b)); try done; cbn in *; try lia.
    + split; [|done]. cbn. by rewrite G, E1.
    + intros s' Hs'. rewrite <- app_assoc. by apply HQ.
Qed.

(** Writing into the bank. *)
Lemma wp_write_loop a bp post : forall bs k b pre n (Q : Z * cells * option Z -> usb H A -> Prop) E s,
  b_sel b = in_ep -> Forall is_byte bs -> (length (b_tx b) + length bs <= bulk_size)%nat -> (length bs <= k)%nat -> Z.of_nat (length bs) < 65536 ->
  at_bulk b a s ->
  (forall s', at_bulk (with_tx (b_tx b ++ bs) b) a s' -> Q (ENDPOINT_RWSTREAM_NoError, pre ++ map Some bs ++ post, bp) s') ->
  wp (rw_loop fuel k Endpoint_ClearIN transfer_out 1 (pre ++ map Some bs ++ post) (Z.of_nat (length pre)) (Z.of_nat (length bs)) n bp) Q E s.
Proof.
  induction bs as [|x bs IH]; intros k b pre n Q E s Hsel Hb Hroom Hk Hlen Hs HQ.
  - rewrite app_nil_r in HQ. destruct k; (cbn; apply wp_ret, HQ; by destruct b).
  - destruct k as [|k]; [cbn in Hk; lia|]. cbn [rw_loop]. rewrite (proj2 (Z.eqb_neq _ _)) by (cbn; lia).
    apply Forall_cons_iff in Hb as [Hx Hb]. cbn [length] in *.
    unfold Endpoint_IsReadWriteAllowed. eapply wp_bind, wp_bbit; [done..|]. intros s1 H1.
    rewrite bulk_writable by (destruct Hs as [-> _]; done). destruct Hs as [-> _]. rewrite (proj2 (Nat.ltb_lt _ _)) by lia. cbn [negb].
    apply wp_bind. unfold transfer_out, Endpoint_Write_8. destruct H1 as [E1 A1].
    eapply wp_bind, wp_lift; [unfold load_at; rewrite (proj2 (Z.ltb_ge _ _)), Nat2Z.id by lia; apply (load_middle pre x (map Some bs ++ post))|].
    apply wp_bind, wp_write_reg, wp_ret. rewrite u8_small by done.
    change (pre ++ map Some (x :: bs) ++ post) with (pre ++ [Some x] ++ map Some bs ++ post) in *. rewrite app_assoc in *.
    replace (Z.of_nat (length pre) + 1) with (Z.of_nat (length (pre ++ [Some x]))) by (rewrite length_app; cbn; lia).
    replace (u16 (Z.of_nat (S (length bs)) - 1)) with (Z.of_nat (length bs)) by (unfold wrapu; rewrite Z.mod_small; lia).
    eapply (IH k (with_tx (b_tx b ++ [x]) b)); try done; cbn; [rewrite length_app; cbn; lia|lia|lia| |].
    + split; [|done]. cbn. rewrite bulk_put; rewrite ?E1; done || lia.
    + intros s' Hs'. apply HQ. revert Hs'. cbn. by rewrite <- app_assoc.
Qed.

(** A stream of any length: full banks are handed over on the way. *)
Definition put_byte (b : bulk) (x : Z) : bulk :=
  let b' := if (length (b_tx b) <? bulk_size)%nat then b else hand_over b in with_tx (b_tx b' ++ [x]) b'.
Definition put_all (b : bulk) (bs : list Z) : bulk := foldl put_byte b bs.

Lemma put_byte_room b x : (length (b_tx b) < bulk_size)%nat -> put_byte b x = with_tx (b_tx b ++ [x]) b.
Proof. intros Hr. unfold put_byte. by rewrite (proj2 (Nat.ltb_lt _ _)). Qed.

Lemma put_byte_full b x : (bulk_size <= length (b_tx b))%nat -> put_byte b x = put_byte (hand_over b) x.
Proof using BH.
  clear fuel Hfuel. intros Hr. unfold put_byte. rewrite (proj2 (Nat.ltb_ge _ _)) by done. pose proof bulk_room. cbn [hand_over b_tx length].
  by rewrite (proj2 (Nat.ltb_lt _ _)) by lia.
Qed.

Lemma put_all_grown bs : forall b, sized b -> grown b bs (put_all b bs).
Proof.
  induction bs as [|x bs IH]; intros b Hz; [by apply grown_nil|].
  assert (grown b [x] (put_byte b x)) as Hg.
  { unfold put_byte. destruct (Nat.ltb_spec (length (b_tx b)) bulk_size); [by apply put_grown|].
    eapply (grown_trans b [] (hand_over b) [x]); [by apply hand_over_grown|]. pose proof bulk_room. apply put_grown; [by apply hand_over_grown|cbn; lia]. }
  eapply (grown_trans b [x]); [exact Hg|]. apply IH, Hg.
Qed.

(** Only the IN side changes. *)
Lemma put_all_keeps bs : forall b, b_sel (put_all b bs) = b_sel b /\ b_rx (put_all b bs) = b_rx b /\
  b_halt_out (put_all b bs) = b_halt_out b /\ b_halt_in (put_all b bs) = b_halt_in b /\ b_next (put_all b bs) = b_next b.
Proof.
  induction bs as [|x bs IH]; intros b; [done|]. unfold put_all in *. cbn [foldl]. destruct (IH (put_byte b x)) as (-> & -> & -> & -> & ->).
  unfold put_byte. by destruct (_ <? _)%nat.
Qed.

Lemma put_all_sel bs b : b_sel (put_all b bs) = b_sel b.
Proof. apply put_all_keeps. Qed.

(** [move] is 0 for the stream of zeros, which has no buffer. *)
Lemma wp_put_loop a transfer move mem : forall k bs b p n (Q : Z * cells * option Z -> usb H A -> Prop) E s,
  (forall i x b' (Q : cells -> usb H A -> Prop) s', bs !! i = Some x -> b_sel b' = in_ep -> (length (b_tx b') < bulk_size)%nat -> at_bulk b' a s' ->
     (forall s'', at_bulk (with_tx (b_tx b' ++ [x]) b') a s'' -> Q mem s'') -> wp (transfer mem (p + move * Z.of_nat i)) Q E s') ->
  b_sel b = in_ep -> (2 * length bs <= k)%nat \/ (2 * length bs <= S k)%nat /\ (length (b_tx b) < bulk_size)%nat ->
  Z.of_nat (length bs) < 65536 -> at_bulk b a s ->
  (forall s', at_bulk (put_all b bs) a s' -> Q (ENDPOINT_RWSTREAM_NoError, mem, None) s') ->
  wp (rw_loop fuel k Endpoint_ClearIN transfer move mem p (Z.of_nat (length bs)) n None) Q E s.
Proof.
  induction k as [|k IH]; intros [|x bs] b p n Q E s Ht Hsel Hk Hlen Hs HQ;
    try (cbn [length] in Hk; lia); try (cbn; by apply wp_ret, HQ).
  cbn [rw_loop]. rewrite (proj2 (Z.eqb_neq _ _)) by (cbn; lia). cbn [length] in *.
  unfold Endpoint_IsReadWriteAllowed. eapply wp_bind, wp_bbit; [done..|]. intros s1 H1.
  rewrite bulk_writable by (destruct Hs as [-> _]; done). destruct Hs as [-> _].
  destruct (Nat.ltb_spec (length (b_tx b)) bulk_size) as [Hroom|Hfull]; cbn [negb].
  - apply wp_bind. pose proof (Ht 0%nat x b) as Hx. cbn [Z.of_nat] in Hx. rewrite Z.mul_0_r, Z.add_0_r in Hx. eapply Hx; [done..|]. intros s2 S2.
    replace (u16 (Z.of_nat (S (length bs)) - 1)) with (Z.of_nat (length bs)) by (unfold wrapu; rewrite Z.mod_small; lia).
    eapply (IH bs (with_tx (b_tx b ++ [x]) b)); try done; [|lia|lia|].
    + intros i y b' Q' s' Hi Hs' Hr' Ha' HQ'. replace (p + move + move * Z.of_nat i) with (p + move * Z.of_nat (S i)) by lia. by eapply (Ht (S i) y b').
    + intros s' Hs'. apply HQ. unfold put_all. cbn [foldl]. by rewrite put_byte_room.
  - eapply wp_bind, wp_bsend; [done..|]. intros s2 H2. eapply wp_bind, wp_bwait; [|done|]; [by right|]. intros s3 H3.
    cbn [ENDPOINT_READYWAIT_NoError Z.eqb negb].
    eapply (IH (x :: bs) (hand_over b)); try done.
    + cbn [length hand_over b_tx]. pose proof bulk_room. lia.
    + intros s' Hs'. apply HQ. unfold put_all. cbn [foldl]. by rewrite put_byte_full.
Qed.

(** Endpoint_Write_Stream_LE without a progress counter. *)
Lemma wp_put_stream a b bs post n (Q : Z * cells * option Z -> usb H A -> Prop) E s :
  n = Z.of_nat (length bs) -> b_sel b = in_ep -> (2 * length bs <= fuel)%nat -> n < 65536 -> at_bulk b a s ->
  (forall s', at_bulk (put_all b (map (wrapu 8) bs)) a s' -> Q (ENDPOINT_RWSTREAM_NoError, map Some bs ++ post, None) s') ->
  wp (Endpoint_Write_Stream_LE fuel (map Some bs ++ post) n None) Q E s.
Proof.
  intros -> Hsel Hk Hlen Hs HQ. unfold Endpoint_Write_Stream_LE, template_rw. eapply wp_bind, wp_bwait; [by right|done|].
  intros s1 H1. cbn [negb Z.eqb ENDPOINT_READYWAIT_NoError]. cbn [default from_start]. rewrite Z.sub_0_r.
  replace (u16 (Z.of_nat (length bs))) with (Z.of_nat (length (map (wrapu 8) bs))) by (rewrite length_map; unfold wrapu; rewrite Z.mod_small; lia).
  eapply wp_put_loop; rewrite ?length_map; try done; [|by left]. intros i x b' Q' s' Hx Hsel' Hr Ha HQ'.
  apply list_lookup_fmap_Some in Hx as (y & -> & Hi).
  match goal with |- context [transfer_out _ ?p] => replace p with (Z.of_nat i) by (unfold from_start; lia) end. unfold transfer_out. eapply wp_bind, wp_lift.
  { unfold load_at. rewrite (proj2 (Z.ltb_ge _ _)), Nat2Z.id by lia. unfold load.
    rewrite lookup_app_l by (rewrite length_map; by eapply lookup_lt_Some). by rewrite list_lookup_fmap, Hi. }
  unfold Endpoint_Write_8. apply wp_bind, wp_write_reg, wp_ret, HQ'. destruct Ha as [Eb Ea]. split; [|done]. cbn. rewrite bulk_put; rewrite ?Eb; try done. apply u8_is_byte.
Qed.

Lemma wp_write_stream a b bs (Q : Z * cells * option Z -> usb H A -> Prop) E s :
  b_sel b = in_ep -> sized b -> Forall is_byte bs -> (2 * length bs <= fuel)%nat -> Z.of_nat (length bs) < 65536 -> at_bulk b a s ->
  (forall s' b', grown b bs b' -> at_bulk b' a s' -> Q (ENDPOINT_RWSTREAM_NoError, map Some bs, None) s') ->
  wp (Endpoint_Write_Stream_LE fuel (map Some bs) (Z.of_nat (length bs)) None) Q E s.
Proof.
  intros Hsel Hz Hb Hk Hlen Hs HQ. rewrite <- (app_nil_r (map Some bs)). eapply wp_put_stream; try done. intros s' Hs'. rewrite app_nil_r.
  rewrite map_u8_bytes in Hs' by done. eapply HQ, Hs'. by apply put_all_grown.
Qed.

(** Endpoint_Null_Stream *)
Lemma wp_null_stream a b n (Q : Z * cells * option Z -> usb H A -> Prop) E s :
  b_sel b = in_ep -> 0 <= n < 65536 -> (2 * Z.to_nat n <= fuel)%nat -> at_bulk b a s ->
  (forall s', at_bulk (put_all b (replicate (Z.to_nat n) 0)) a s' -> Q (ENDPOINT_RWSTREAM_NoError, [], None) s') ->
  wp (Endpoint_Null_Stream fuel n None) Q E s.
Proof.
  intros Hsel Hn Hk Hs HQ. unfold Endpoint_Null_Stream, template_rw. eapply wp_bind, wp_bwait; [by right|done|].
  intros s1 H1. cbn [negb Z.eqb ENDPOINT_READYWAIT_NoError]. cbn [default from_start]. rewrite Z.sub_0_r.
  replace (u16 n) with (Z.of_nat (length (replicate (Z.to_nat n) 0))) by (rewrite length_replicate; unfold wrapu; rewrite Z.mod_small; lia).
  eapply wp_put_loop; try done; [|left|]; rewrite ?length_replicate; try lia. intros i x b' Q' s' [-> _]%lookup_replicate Hsel' Hr Ha HQ'.
  unfold null_byte, Endpoint_Write_8. apply wp_bind, wp_write_reg, wp_ret, HQ'. destruct Ha as [Eb Ea]. split; [|done]. cbn.
  rewrite bulk_put; rewrite ?Eb; done.
Qed.

(** Bytes from the OUT bank, and from the packets that follow; nothing is promised when
    the host sends none. *)
Fixpoint get_all (n : nat) (b : bulk) : option (list Z * bulk) :=
  match n with
  | O => Some ([], b)
  | S n' =>
      let b' := if bool_decide (b_rx b = []) then fetch_rx b else b in
      match b_rx b' with
      | [] => None
      | x :: rest => match get_all n' (with_rx rest b') with
                     | Some (bs, b'') => Some (x :: bs, b'')
                     | None => None
                     end
      end
  end.

(** Only the OUT side changes. *)
Lemma get_all_keeps n : forall b bs b', get_all n b = Some (bs, b') ->
  length bs = n /\ b_sel b' = b_sel b /\ b_tx b' = b_tx b /\ b_sent b' = b_sent b /\ b_halt_out b' = b_halt_out b /\ b_halt_in b' = b_halt_in b.
Proof.
  induction n as [|n IH]; intros b bs b' Hg; cbn [get_all] in Hg; [by injection Hg as <- <-|].
  destruct (b_rx _) as [|x rest]; [done|]. destruct (get_all n _) as [[bs1 b1]|] eqn:E; [|done]. injection Hg as <- <-.
  apply IH in E as (E0 & E1 & E2 & E3 & E4 & E5). case_bool_decide; cbn [length]; by rewrite E0, E1, E2, E3, E4, E5.
Qed.

Lemma wp_get_loop a : forall n k b bs b' pre old m (Q : Z * cells * option Z -> usb H A -> Prop) E s,
  get_all n b = Some (bs, b') -> b_sel b = out_ep -> length old = n -> (2 * n <= k)%nat -> Z.of_nat n < 65536 -> at_bulk b a s ->
  (forall s', at_bulk b' a s' -> Q (ENDPOINT_RWSTREAM_NoError, pre ++ map Some bs, None) s') ->
  wp (rw_loop fuel k Endpoint_ClearOUT transfer_in 1 (pre ++ old) (Z.of_nat (length pre)) (Z.of_nat n) m None) Q E s.
Proof.
  induction n as [|n IH]; intros k b bs b' pre old m Q E s Hg Hsel Hold Hk Hlen Hs HQ.
  - injection Hg as <- <-. destruct old; [|done]. destruct k; (cbn; by apply wp_ret, HQ).
  - destruct old as [|o old]; [done|]. injection Hold as Hold. cbn [get_all] in Hg. destruct k as [|[|k]]; [lia..|].
    set (b1 := if bool_decide (b_rx b = []) then fetch_rx b else b) in *.
    destruct (b_rx b1) as [|x rest] eqn:Hrx; [done|]. destruct (get_all n (with_rx rest b1)) as [[bs' b2]|] eqn:Hg'; [|done]. injection Hg as <- <-.
    assert (b_sel b1 = out_ep) as Hsel1 by (unfold b1; by case_bool_decide).
    assert (forall k' s1, (2 * n <= k')%nat -> at_bulk b1 a s1 ->
      wp (rw_loop fuel (S k') Endpoint_ClearOUT transfer_in 1 (pre ++ o :: old) (Z.of_nat (length pre)) (Z.of_nat (S n)) m None) Q E s1) as Hread.
    { intros k' s1 Hk' [E1 A1]. cbn [rw_loop]. rewrite (proj2 (Z.eqb_neq _ _)) by lia.
      unfold Endpoint_IsReadWriteAllowed. eapply wp_bind, wp_bbit; [done..|]. intros s2 [E2 A2].
      rewrite bulk_readable by (by rewrite E1). rewrite E1, Hrx. cbn [negb bool_decide decide]. rewrite bool_decide_eq_false_2 by done. cbn [negb]. apply wp_bind. unfold transfer_in, Endpoint_Read_8.
      apply wp_bind, wp_read_reg. destruct (bulk_get (hw s2) x rest) as [-> G]; [by rewrite E2..|].
      eapply wp_lift; [unfold store_at; rewrite (proj2 (Z.ltb_ge _ _)), Nat2Z.id by lia; apply (store_middle pre o old)|].
      change (pre ++ Some x :: old) with (pre ++ [Some x] ++ old). rewrite app_assoc.
      replace (Z.of_nat (length pre) + 1) with (Z.of_nat (length (pre ++ [Some x]))) by (rewrite length_app; cbn; lia).
      replace (u16 (Z.of_nat (S n) - 1)) with (Z.of_nat n) by (unfold wrapu; rewrite Z.mod_small; lia).
      eapply (IH k' (with_rx rest b1)); [exact Hg'|done|done|lia|lia|split; [cbn; by rewrite G, E2|done]|].
      intros s' Hs'. rewrite <- app_assoc. by apply HQ. }
    destruct (bool_decide_reflect (b_rx b = [])) as [Hemp|Hne]; [|apply Hread; [lia|exact Hs]].
    cbn [rw_loop]. rewrite (proj2 (Z.eqb_neq _ _)) by lia.
    unfold Endpoint_IsReadWriteAllowed. eapply wp_bind, wp_bbit; [done..|]. intros s1 S1. rewrite bulk_readable by (destruct Hs as [Eb _]; by rewrite Eb).
    destruct Hs as [-> _]. rewrite Hemp, bool_decide_eq_true_2 by done. cbn [negb]. eapply wp_bind, wp_brelease; [|exact S1|]; [exact Hsel|]. intros s2 S2.
    eapply wp_bind, wp_bwait; [|exact S2|]; [left; split; [done|by fold b1; rewrite Hrx]|]. intros s3 S3.
    cbn [ENDPOINT_READYWAIT_NoError Z.eqb negb]. apply (Hread k s3); [lia|exact S3].
Qed.

(** Endpoint_Read_Stream_LE of a whole buffer. *)
Lemma wp_get_stream a b old n bs b' (Q : Z * cells * option Z -> usb H A -> Prop) E s :
  n = Z.of_nat (length old) -> get_all (length old) b = Some (bs, b') -> b_sel b = out_ep -> b_rx b <> [] -> (2 * length old <= fuel)%nat -> n < 65536 ->
  at_bulk b a s -> (forall s', at_bulk b' a s' -> Q (ENDPOINT_RWSTREAM_NoError, map Some bs, None) s') ->
  wp (Endpoint_Read_Stream_LE fuel old n None) Q E s.
Proof.
  intros -> Hg Hsel Hrx Hk Hlen Hs HQ. unfold Endpoint_Read_Stream_LE, template_rw. eapply wp_bind, wp_bwait; [by left|done|].
  intros s1 H1. cbn [negb Z.eqb ENDPOINT_READYWAIT_NoError]. cbn [default from_start]. rewrite Z.sub_0_r.
  replace (u16 (Z.of_nat (length old))) with (Z.of_nat (length old)) by (unfold wrapu; rewrite Z.mod_small; lia).
  by eapply (wp_get_loop a (length old) fuel b bs b' []).
Qed.

(** A whole call with nothing done before it. *)
Lemma wp_bulk_read a b bp bs rest pre old post (Q : Z * cells * option Z -> usb H A -> Prop) E s :
  default 0 bp = 0 -> b_sel b = out_ep -> b_rx b = bs ++ rest -> bs <> [] -> (length bs <= fuel)%nat -> length old = length bs ->
  Z.of_nat (length bs) < 65536 -> at_bulk b a s ->
  (forall s', at_bulk (with_rx rest b) a s' -> Q (ENDPOINT_RWSTREAM_NoError, pre ++ map Some bs ++ post, bp) s') ->
  wp (template_rw fuel Endpoint_ClearOUT transfer_in (fun _ => Z.of_nat (length pre)) 1 (pre ++ old ++ post)
        (Z.of_nat (length bs)) bp) Q E s.
Proof.
  intros Hbp Hsel Hrx Hne Hk Hold Hlen Hs HQ. unfold template_rw. eapply wp_bind, wp_bwait; [|done|].
  - left. split; [done|]. rewrite Hrx. by destruct bs.
  - intros s1 H1. cbn [negb Z.eqb ENDPOINT_READYWAIT_NoError]. rewrite Hbp. cbn [Z.mul]. rewrite Z.add_0_r, Z.sub_0_r.
    replace (u16 (Z.of_nat (length bs))) with (Z.of_nat (length bs)) by (unfold wrapu; rewrite Z.mod_small; lia).
    by eapply wp_read_loop.
Qed.

Lemma wp_bulk_write a b bp bs post (Q : Z * cells * option Z -> usb H A -> Prop) E s :
  default 0 bp = 0 -> b_sel b = in_ep -> Forall is_byte bs -> (length (b_tx b) + length bs <= bulk_size)%nat -> (length bs <= fuel)%nat ->
  Z.of_nat (length bs) < 65536 -> at_bulk b a s ->
  (forall s', at_bulk (with_tx (b_tx b ++ bs) b) a s' -> Q (ENDPOINT_RWSTREAM_NoError, map Some bs ++ post, bp) s') ->
  wp (Endpoint_Write_Stream_LE fuel (map Some bs ++ post) (Z.of_nat (length bs)) bp) Q E s.
Proof.
  intros Hbp Hsel Hb Hroom Hk Hlen Hs HQ. unfold Endpoint_Write_Stream_LE, template_rw. eapply wp_bind, wp_bwait; [by right|done|].
  intros s1 H1. cbn [negb Z.eqb ENDPOINT_READYWAIT_NoError]. rewrite Hbp. cbn [Z.mul from_start Z.add]. rewrite Z.sub_0_r.
  replace (u16 (Z.of_nat (length bs))) with (Z.of_nat (length bs)) by (unfold wrapu; rewrite Z.mod_small; lia).
  by eapply (wp_write_loop a bp post bs fuel b []).
Qed.
End bulk.

(** ** A driver's interface *)

(** The driver keeps its interface, of type [I], in the application's state. *)
Section interface.
Context {H A : Type} `{HW : Hardware H} {out_ep in_ep : Z} {patience : nat} `{BH : !BulkHost H out_ep in_ep patience}.
Context {I : Type} (get : A -> I) (put : I -> A -> A) (get_put : forall i a, get (put i a) = i).
Implicit Types s : usb H A.

(** The endpoints are [b] and the interface is [i]. *)
Definition serving (b : bulk) (i : I) s : Prop := bulk_of (hw s) = b /\ get (app s) = i.

Lemma serving_at b i s : serving b i s -> at_bulk b (app s) s.
Proof. intros [Hb _]. by split. Qed.

Lemma at_serving b i s s' : serving b i s -> forall b', at_bulk b' (app s) s' -> serving b' i s'.
Proof. intros [_ Hi] b' [Hb Ha]. split; [done|]. by rewrite Ha. Qed.

Lemma wp_interface b i (Q : I -> usb H A -> Prop) E s :
  serving b i s -> Q i s -> wp (get_mem (fun s => get (app s))) Q E s.
Proof. intros [_ Hi] HQ. apply wp_get_mem. by rewrite Hi. Qed.

Lemma wp_on_interface f b i (Q : unit -> usb H A -> Prop) E s :
  serving b i s -> (forall s', serving b (f i) s' -> Q tt s') ->
  wp (set_mem (on_app (fun a => put (f (get a)) a))) Q E s.
Proof.
  intros [Hb Hi] HQ. unfold wp. rewrite set_mem_run. apply HQ. split; [done|]. cbn. by rewrite get_put, Hi.
Qed.

Lemma wp_iselect e n b i (Q : unit -> usb H A -> Prop) E s :
  Z.land n ENDPOINT_EPNUM_MASK = e -> serving b i s ->
  (forall s', serving (with_sel e b) i s' -> Q tt s') -> wp (Endpoint_SelectEndpoint n) Q E s.
Proof.
  intros He Hs HQ. eapply wp_bselect; [done|by apply (serving_at b i)|]. intros s' Hs'. apply HQ. by eapply at_serving.
Qed.

Lemma wp_istall b i (Q : unit -> usb H A -> Prop) E s :
  serving b i s -> (forall s', serving (with_halt out_ep patience b) i s' -> Q tt s') -> wp Endpoint_StallTransaction Q E s.
Proof. intros Hs HQ. eapply wp_bstall; [by apply (serving_at b i)|]. intros s' Hs'. apply HQ. by eapply at_serving. Qed.

Lemma wp_iread r b i (Q : Z -> usb H A -> Prop) E s :
  r <> UEDATX -> r <> UECONX -> serving b i s ->
  (forall s', serving b i s' -> Q (rd r (hw s)).1 s') -> wp (read_reg r) Q E s.
Proof.
  intros H1 H2 Hs HQ. eapply wp_bread; [done|done|by apply (serving_at b i)|]. intros s' Hs'. apply HQ. by eapply at_serving.
Qed.

Lemma wp_ibit r n b i (Q : bool -> usb H A -> Prop) E s :
  r <> UEDATX -> r <> UECONX -> serving b i s ->
  (forall s', serving b i s' -> Q (Z.testbit (rd r (hw s)).1 n) s') -> wp (bit_of r n) Q E s.
Proof.
  intros H1 H2 Hs HQ. eapply wp_bbit; [done|done|by apply (serving_at b i)|]. intros s' Hs'. apply HQ. by eapply at_serving.
Qed.

Lemma wp_isend b i (Q : unit -> usb H A -> Prop) E s :
  b_sel b = in_ep -> serving b i s -> (forall s', serving (hand_over b) i s' -> Q tt s') -> wp Endpoint_ClearIN Q E s.
Proof.
  intros H1 Hs HQ. eapply wp_bsend; [done|by apply (serving_at b i)|]. intros s' Hs'. apply HQ. by eapply at_serving.
Qed.

Lemma wp_iput r v b i (Q : unit -> usb H A -> Prop) E s :
  b_sel b = in_ep -> (length (b_tx b) < bulk_size)%nat -> r = UEDATX -> is_byte v -> serving b i s ->
  (forall s', serving (with_tx (b_tx b ++ [v]) b) i s' -> Q tt s') -> wp (write_reg r v) Q E s.
Proof.
  intros Hsel Hroom -> Hv [Hb Hi] HQ. apply wp_write_reg, HQ. split; [|done]. cbn. rewrite bulk_put; by rewrite ?Hb.
Qed.

Lemma wp_iget x rest b i (Q : Z -> usb H A -> Prop) E s :
  b_sel b = out_ep -> b_rx b = x :: rest -> serving b i s ->
  (forall s', serving (with_rx rest b) i s' -> Q x s') -> wp (read_reg UEDATX) Q E s.
Proof.
  intros Hsel Hrx [Hb Hi] HQ. apply wp_read_reg. destruct (bulk_get (hw s) x rest) as [-> G]; [by rewrite Hb..|].
  apply HQ. split; [|done]. cbn. by rewrite G, Hb.
Qed.

Lemma wp_iwrite r v b i (Q : unit -> usb H A -> Prop) E s :
  r <> UENUM -> r <> UEDATX -> r <> UEINTX -> r <> UECONX -> serving b i s ->
  (forall s', serving b i s' -> Q tt s') -> wp (write_reg r v) Q E s.
Proof. intros H1 H2 H3 H4 [Hb Hi] HQ. apply wp_write_reg, HQ. split; [|done]. cbn. by rewrite bulk_other. Qed.

Lemma wp_irelease b i (Q : unit -> usb H A -> Prop) E s :
  b_sel b = out_ep -> serving b i s -> (forall s', serving (fetch_rx b) i s' -> Q tt s') -> wp Endpoint_ClearOUT Q E s.
Proof.
  intros H1 Hs HQ. eapply wp_brelease; [done|by apply (serving_at b i)|]. intros s' Hs'. apply HQ. by eapply at_serving.
Qed.
End interface.

(** * A simulated pair of endpoints *)

(** Endpoints 1 (OUT) and 2 (IN) with banks of 64 bytes; a halt lasts three looks. *)
Definition sim_flags (b : bulk) : Z :=
  if b_sel b =? 1 then (if bool_decide (b_rx b = []) then 0 else 36)
  else if (length (b_tx b) <? 64)%nat then 33 else 1.

#[export] Instance sim_bulk_hw : Hardware bulk := {|
  rd r b := match r with
            | UEINTX => (sim_flags b, b)
            | UECFG0X => (if b_sel b =? 1 then 0 else 1, b)
            | UEDATX => (default 0 (head (b_rx b)), with_rx (tail (b_rx b)) b)
            | UECONX => (if (0 <? halt_of 1 b)%nat then 32 else 0, with_halt 1 (pred (halt_of 1 b)) b)
            | UEBCLX => (Z.of_nat (length (if b_sel b =? 1 then b_rx b else b_tx b)), b)
            | USB_DeviceState => (DEVICE_STATE_Configured, b)
            | _ => (0, b)
            end;
  wr r v b := match r with
              | UENUM => with_sel v b
              | UEDATX => with_tx (b_tx b ++ [v]) b
              | UEINTX => if b_sel b =? 1 then (if Z.testbit v RXOUTI then b else fetch_rx b)
                          else if Z.testbit v TXINI then b else hand_over b
              | UECONX => if Z.testbit v STALLRQ then with_halt 1 3 b else b
              | _ => b
              end |}.

#[export] Instance sim_bulk_host : BulkHost bulk 1 2 3.
Proof.
  refine {| bulk_of := id; bulk_size := 64 |}; cbn [rd wr sim_bulk_hw fst snd id]; try done; try lia.
  - by intros [].
  - by intros [].
  - intros b [->| ->]; done.
  - unfold sim_flags. intros b ->. cbn. by destruct (b_rx b).
  - unfold sim_flags. intros b ->. cbn. by destruct (b_rx b).
  - intros b x rest _ ->. done.
  - intros b v -> -> _. done.
  - unfold sim_flags. intros b ->. by destruct (_ <? _)%nat.
  - unfold sim_flags. intros b ->. by destruct (_ <? _)%nat.
  - intros b v -> -> _. done.
  - intros b _. by destruct (0 <? _)%nat.
  - by intros b v ->.
Defined.
