(* ===== verification/Midi.v ===== *)
(** The MIDI class driver, Class/Device/MIDIClassDevice.c: events of four bytes over
    two bulk endpoints.  Part of the library, not used by this firmware.

    An event is a buffer of four cells.  On a [BulkHost] the events that are sent
    and flushed reach the host as one byte sequence, and the events of a packet are
    received one by one. *)

From Stdlib Require Import ZArith Lia.
From stdpp Require Import base tactics list numbers.
From S2P Require Import Prelude Posix Avr Endpoint EndpointStream Device Cdc BulkHost.

Local Open Scope Z_scope.

Definition sizeof_EventPacket : Z := 4.

(** USB_ClassInfo_MIDI_Device_t, which has no state *)
Record midi_info : Type := mk_midi {
  StreamingInterfaceNumber : Z;
  midi_DataINEndpoint : endpoint_table;
  midi_DataOUTEndpoint : endpoint_table }.

Definition midi_configured (i : midi_info) : midi_info :=
  mk_midi (StreamingInterfaceNumber i) (set_type EP_TYPE_BULK (midi_DataINEndpoint i)) (set_type EP_TYPE_BULK (midi_DataOUTEndpoint i)).

Section midi.
Context {H A : Type} `{Hardware H} `{!Interrupts H A}.
Context (fuel : nat).
Context (get_midi : A -> midi_info) (put_midi : midi_info -> A -> A).

Abbreviation run := (prog (usb H A)).

Definition midi : run midi_info := get_mem (fun s => get_midi (app s)).

Definition MIDI_Device_ConfigureEndpoints : run bool :=
  set_mem (on_app (fun a => put_midi (midi_configured (get_midi a)) a)) ;;
  i ← midi;
  a ← Endpoint_ConfigureEndpointTable fuel [midi_DataINEndpoint i];
  if negb a then mret false
  else
    b ← Endpoint_ConfigureEndpointTable fuel [midi_DataOUTEndpoint i];
    mret b.

Definition MIDI_Device_Flush : run Z :=
  off ← not_configured;
  if (off : bool) then mret ENDPOINT_RWSTREAM_DeviceDisconnected
  else
    i ← midi;
    Endpoint_SelectEndpoint (ep_Address (midi_DataINEndpoint i)) ;;
    n ← Endpoint_BytesInEndpoint;
    if n =? 0 then mret ENDPOINT_READYWAIT_NoError
    else
      Endpoint_ClearIN ;;
      e ← Endpoint_WaitUntilReady fuel;
      if negb (e =? ENDPOINT_READYWAIT_NoError) then mret e else mret ENDPOINT_READYWAIT_NoError.

Definition MIDI_Device_USBTask : run unit :=
  off ← not_configured;
  if (off : bool) then mret tt
  else
    i ← midi;
    Endpoint_SelectEndpoint (ep_Address (midi_DataINEndpoint i)) ;;
    ready ← Endpoint_IsINReady;
    when ready (MIDI_Device_Flush ;; mret tt).

Definition MIDI_Device_SendEventPacket (Event : cells) : run Z :=
  off ← not_configured;
  if (off : bool) then mret ENDPOINT_RWSTREAM_DeviceDisconnected
  else
    i ← midi;
    Endpoint_SelectEndpoint (ep_Address (midi_DataINEndpoint i)) ;;
    r ← Endpoint_Write_Stream_LE fuel Event sizeof_EventPacket None;
    if negb (r.1.1 =? ENDPOINT_RWSTREAM_NoError) then mret r.1.1
    else
      room ← Endpoint_IsReadWriteAllowed;
      when (negb room) Endpoint_ClearIN ;;
      mret ENDPOINT_RWSTREAM_NoError.

(** The result and the event, which the caller passed as [Event]. *)
Definition MIDI_Device_ReceiveEventPacket (Event : cells) : run (bool * cells) :=
  off ← not_configured;
  if (off : bool) then mret (false, Event)
  else
    i ← midi;
    Endpoint_SelectEndpoint (ep_Address (midi_DataOUTEndpoint i)) ;;
    out ← Endpoint_IsOUTReceived;
    if negb out then mret (false, Event)
    else
      more ← Endpoint_IsReadWriteAllowed;
      if negb more then mret (false, Event)
      else
        r ← Endpoint_Read_Stream_LE fuel Event sizeof_EventPacket None;
        left ← Endpoint_IsReadWriteAllowed;
        when (negb left) Endpoint_ClearOUT ;;
        mret (true, r.1.2).
End midi.

(** * On a host *)

Section host.
Context {H A : Type} `{HW : Hardware H} {out_ep in_ep : Z} {patience : nat} `{BH : !BulkHost H out_ep in_ep patience}.
Context (fuel : nat) (Hfuel : (8 <= fuel)%nat).
Context (get_midi : A -> midi_info).
Implicit Types s : usb H A.

Lemma fuel_pos : (0 < fuel)%nat.
Proof using Hfuel. lia. Qed.

(** The interface fits the endpoints. *)
Definition midi_ready (i : midi_info) : Prop :=
  Z.land (ep_Address (midi_DataINEndpoint i)) ENDPOINT_EPNUM_MASK = in_ep /\
  Z.land (ep_Address (midi_DataOUTEndpoint i)) ENDPOINT_EPNUM_MASK = out_ep.

(** The head that the functions share. *)
Lemma wp_configured {B} (m : prog (usb H A) B) (k : midi_info -> prog (usb H A) B) b a Q E s :
  at_bulk b a s -> (forall s', at_bulk b a s' -> wp (k (get_midi a)) Q E s') ->
  wp (off ← not_configured; if (off : bool) then m else i ← midi get_midi; k i) Q E s.
Proof.
  intros Hs HQ. apply wp_bind. unfold not_configured. eapply wp_bind, wp_bread; [done..|]. intros s1 S1. apply wp_ret.
  rewrite bulk_state, Z.eqb_refl. cbn [negb]. apply wp_bind, wp_get_mem. destruct S1 as [B1 A1]. rewrite A1. by apply HQ.
Qed.

(** An event of four bytes. *)
Definition is_event (e : list Z) : Prop := length e = 4%nat /\ Forall is_byte e.

Lemma wp_send_event e b a (Q : Z -> usb H A -> Prop) E s :
  midi_ready (get_midi a) -> is_event e -> sized b -> at_bulk b a s ->
  (forall s' b', grown (with_sel in_ep b) e b' -> at_bulk b' a s' -> Q ENDPOINT_RWSTREAM_NoError s') ->
  wp (MIDI_Device_SendEventPacket fuel get_midi (map Some e)) Q E s.
Proof.
  intros [Hin _] [Hlen Hb] Hz Hs HQ. unfold MIDI_Device_SendEventPacket. eapply wp_configured; [done|]. intros s1 S1.
  eapply wp_bind, wp_bselect; [done..|]. intros s2 S2. change sizeof_EventPacket with (Z.of_nat 4). rewrite <- Hlen.
  eapply wp_bind, (wp_write_stream fuel fuel_pos a (with_sel in_ep b)); try done; try lia. intros s3 b3 Hg S3.
  cbn [fst Z.eqb negb ENDPOINT_RWSTREAM_NoError]. unfold Endpoint_IsReadWriteAllowed. eapply wp_bind, wp_bbit; [done..|]. intros s4 S4.
  apply wp_bind. destruct (Z.testbit _ _); cbn [when negb].
  - by eapply wp_ret, wp_ret, HQ.
  - pose proof Hg as (Hsel & _ & _ & _ & _ & _ & Hz3). eapply wp_bsend; [done..|]. intros s5 S5. eapply wp_ret, HQ, S5.
    rewrite <- (app_nil_r e). eapply grown_trans; [done|]. by apply hand_over_grown.
Qed.

Lemma wp_midi_flush b a (Q : Z -> usb H A -> Prop) E s :
  midi_ready (get_midi a) -> sized b -> at_bulk b a s ->
  (forall s' b', grown (with_sel in_ep b) [] b' -> b_tx b' = [] -> at_bulk b' a s' -> Q ENDPOINT_READYWAIT_NoError s') ->
  wp (MIDI_Device_Flush fuel get_midi) Q E s.
Proof.
  intros [Hin _] Hz Hs HQ. unfold MIDI_Device_Flush. eapply wp_configured; [done|]. intros s1 S1.
  eapply wp_bind, wp_bselect; [done..|]. intros s2 S2. eapply wp_bind, wp_bread; [done..|]. intros s3 S3.
  destruct S2 as [B2 _]. rewrite bulk_count by (rewrite B2; by right). rewrite B2. cbn [b_sel with_sel b_tx b_rx].
  rewrite (in_not_out (out_ep := out_ep) (in_ep := in_ep)).
  destruct (Z.eqb_spec (Z.of_nat (length (b_tx b))) 0) as [E0|E0].
  - eapply wp_ret, (HQ s3 (with_sel in_ep b)); [by apply grown_nil|cbn; by apply nil_length_inv; lia|done].
  - eapply wp_bind, wp_bsend; [|done|]; [done|]. intros s4 S4. eapply wp_bind, (wp_bwait fuel fuel_pos); [|done|]; [by right|].
    intros s5 S5. cbn [Z.eqb negb ENDPOINT_READYWAIT_NoError]. eapply wp_ret, HQ, S5; [by apply hand_over_grown|done].
Qed.

(** An event of the packet, and the end of the packet. *)
Lemma wp_receive_event e rest old b a (Q : bool * cells -> usb H A -> Prop) E s :
  midi_ready (get_midi a) -> length e = 4%nat -> length old = 4%nat -> b_rx b = e ++ rest -> b_next b = [] -> at_bulk b a s ->
  (forall s', at_bulk (with_rx rest (with_sel out_ep b)) a s' -> Q (true, map Some e) s') ->
  wp (MIDI_Device_ReceiveEventPacket fuel get_midi old) Q E s.
Proof.
  intros [_ Hout] Hlen Hold Hrx Hnx Hs HQ. unfold MIDI_Device_ReceiveEventPacket. eapply wp_configured; [done|]. intros s1 S1.
  assert (e <> []) as Hne by (by intros ->). assert (b_rx b <> []) as Hrx' by (rewrite Hrx; by destruct e).
  eapply wp_bind, wp_bselect; [done..|]. intros s2 S2. unfold Endpoint_IsOUTReceived, Endpoint_IsReadWriteAllowed.
  eapply wp_bind, wp_bbit; [done..|]. intros s3 S3. rewrite bulk_received by (destruct S2 as [-> _]; done). cbn [negb].
  eapply wp_bind, wp_bbit; [done..|]. intros s4 S4. rewrite bulk_readable by (destruct S3 as [-> _]; done).
  destruct S3 as [-> _]. cbn [b_rx with_sel]. rewrite bool_decide_eq_false_2 by done. cbn [negb]. apply wp_bind.
  change sizeof_EventPacket with (Z.of_nat 4). rewrite <- Hlen. rewrite <- (app_nil_r old).
  eapply (wp_bulk_read fuel fuel_pos a (with_sel out_ep b) None e rest [] old []); try done; try lia. intros s5 S5.
  eapply wp_bind, wp_bbit; [done..|]. intros s6 S6. rewrite bulk_readable by (destruct S5 as [-> _]; done).
  destruct S5 as [-> _]. cbn [b_rx with_rx fst snd app]. rewrite app_nil_r. apply wp_bind.
  destruct (bool_decide_reflect (rest = [])) as [->|Hr]; cbn [negb when].
  - eapply wp_brelease; [|done|]; [done|]. intros s7 S7. rewrite fetch_none in S7 by done. by eapply wp_ret, HQ.
  - by eapply wp_ret, wp_ret, HQ.
Qed.

Lemma wp_receive_none old b a (Q : bool * cells -> usb H A -> Prop) E s :
  midi_ready (get_midi a) -> b_rx b = [] -> at_bulk b a s ->
  (forall s', at_bulk (with_sel out_ep b) a s' -> Q (false, old) s') ->
  wp (MIDI_Device_ReceiveEventPacket fuel get_midi old) Q E s.
Proof.
  intros [_ Hout] Hrx Hs HQ. unfold MIDI_Device_ReceiveEventPacket. eapply wp_configured; [done|]. intros s1 S1.
  eapply wp_bind, wp_bselect; [done..|]. intros s2 S2. unfold Endpoint_IsOUTReceived, Endpoint_IsReadWriteAllowed.
  eapply wp_bind, wp_bbit; [done..|]. intros s3 S3. destruct (Z.testbit _ RXOUTI); cbn [negb]; [|by eapply wp_ret, HQ].
  eapply wp_bind, wp_bbit; [done..|]. intros s4 S4. rewrite bulk_readable by (destruct S3 as [-> _]; done).
  destruct S3 as [-> _]. cbn [b_rx with_sel]. rewrite Hrx, bool_decide_eq_true_2 by done. by eapply wp_ret, HQ.
Qed.

(** A loop back: every event that is received is sent again, and the last one is
    followed by a flush; the first error ends it. *)
Fixpoint echo (k : nat) : prog (usb H A) Z :=
  match k with
  | O => lift (Fault OutOfFuel)
  | S k' =>
      r ← MIDI_Device_ReceiveEventPacket fuel get_midi (replicate 4 None);
      if (r.1 : bool) then
        c ← MIDI_Device_SendEventPacket fuel get_midi r.2;
        if c =? 0 then echo k' else mret c
      else MIDI_Device_Flush fuel get_midi
  end.

Lemma wp_echo a E : midi_ready (get_midi a) -> forall es k b s,
  Forall is_event es -> (length es < k)%nat -> b_rx b = concat es -> b_next b = [] -> sized b -> at_bulk b a s ->
  wp (echo k) (fun c s' => c = 0 /\ exists b', b_rx b' = [] /\ b_tx b' = [] /\ sized b' /\ flow b' = flow b ++ concat es /\ at_bulk b' a s') E s.
Proof.
  intros Hr. induction es as [|e es IH]; intros k b s He Hk Hrx Hnx Hz Hs; (destruct k as [|k]; [cbn in Hk; lia|]); cbn [echo].
  - eapply wp_bind, wp_receive_none; [done..|]. intros s1 S1. cbn [fst]. eapply wp_midi_flush; [done| |done|]; [done|].
    intros s' b' (_ & Hrx' & _ & _ & _ & Hf & Hz') Ht Hs'. split; [done|]. exists b'. by rewrite Hrx'.
  - apply Forall_cons_iff in He as [He Hes]. pose proof He as [Hlen _]. eapply wp_bind, wp_receive_event; [done..|].
    intros s1 S1. cbn [fst snd]. eapply wp_bind, wp_send_event; [done|done| |done|]; [done|]. intros s2 b2 (Hsel & Hrx2 & _ & _ & Hnx2 & Hf & Hz2) S2.
    cbn [Z.eqb ENDPOINT_RWSTREAM_NoError]. eapply wp_conseq; [eapply (IH k b2); [done|cbn in Hk; lia|exact Hrx2|by rewrite Hnx2|done..]|].
    intros c s3 (-> & b3 & R3 & T3 & Z3 & F3 & S3). split; [done|]. exists b3. split_and!; [done..| |done].
    rewrite F3, Hf. unfold flow. cbn. by rewrite <- !app_assoc.
Qed.
End host.

(** * Theorem *)

Definition sim_midi : midi_info := mk_midi 1 (mk_ep 0x82 64 EP_TYPE_BULK 1) (mk_ep 1 64 EP_TYPE_BULK 1).

(** A packet of two events, note on and note off. *)
Definition sim_notes : list (list Z) := [[9; 0x90; 60; 64]; [8; 0x80; 60; 0]].
Definition sim_midi_state : usb bulk midi_info := mk_usb (mk_bulk 0 (concat sim_notes) [7] [] 0 0 []) core_init sim_midi [].

(** C19: events through the MIDI driver.  When a packet of events has arrived, calling
    MIDI_Device_ReceiveEventPacket until it returns false gives each event of the
    packet once and in order and releases the bank; sending each with
    MIDI_Device_SendEventPacket and flushing ends without an error, and the host has
    received what was in the bank before, followed by exactly the bytes it had sent,
    in packets no larger than the bank. *)
Theorem midi_loop_back {H A} `{Hardware H} {out_ep in_ep patience} `{!BulkHost H out_ep in_ep patience} fuel
    (get_midi : A -> midi_info) es k (s : usb H A) :
  (8 <= fuel)%nat -> midi_ready (out_ep := out_ep) (in_ep := in_ep) (get_midi (app s)) -> Forall is_event es -> (length es < k)%nat ->
  b_rx (bulk_of (hw s)) = concat es -> b_next (bulk_of (hw s)) = [] -> sized (bulk_of (hw s)) ->
  exists s', echo fuel get_midi k s = (Done ENDPOINT_READYWAIT_NoError, s') /\
    b_rx (bulk_of (hw s')) = [] /\ b_tx (bulk_of (hw s')) = [] /\
    concat (b_sent (bulk_of (hw s'))) = flow (bulk_of (hw s)) ++ concat es /\
    Forall (fun p => (length p <= bulk_size)%nat) (b_sent (bulk_of (hw s'))).
Proof.
  intros Hf Hr He Hk Hrx Hnx Hz.
  destruct (wp_run _ _ _ _ (wp_echo fuel Hf get_midi (app s) (fun _ _ => False) Hr es k _ s He Hk Hrx Hnx Hz (conj eq_refl eq_refl)))
    as (o & s' & E & [(c & -> & -> & b' & R & T & [Z _] & F & [<- _])|(? & _ & [])]).
  exists s'. split_and!; [done..| |done]. rewrite <- F. unfold flow. by rewrite T, app_nil_r.
Qed.

(** Witness of C19: two events, with one byte in the bank before. *)
Lemma midi_loop_back_witness :
  exists s', echo 8 id 3 sim_midi_state = (Done ENDPOINT_READYWAIT_NoError, s') /\
    b_rx (bulk_of (hw s')) = [] /\ b_tx (bulk_of (hw s')) = [] /\
    concat (b_sent (bulk_of (hw s'))) = flow (bulk_of (hw sim_midi_state)) ++ concat sim_notes /\
    Forall (fun p => (length p <= bulk_size)%nat) (b_sent (bulk_of (hw s'))).
Proof.
  apply (midi_loop_back (out_ep := 1) (in_ep := 2) (patience := 3) 8 id sim_notes 3 sim_midi_state).
  - lia.
  - done.
  - repeat constructor; done.
  - cbn. lia.
  - reflexivity.
  - reflexivity.
  - split; [constructor|cbn; lia].
Defined.
