(* ===== verification/Audio.v ===== *)
(** The audio class driver, Class/Device/AudioClassDevice.c and the sample functions of
    its header.  Part of the library, not used by this firmware.

    A property of an endpoint or an entity is read and written by callbacks, which are
    parameters; a null DataLength and Data is [None]. *)

From Stdlib Require Import ZArith Lia.
From stdpp Require Import base tactics list numbers.
From S2P Require Import Prelude Posix Avr Endpoint EndpointStream Device Cdc BulkHost.

Local Open Scope Z_scope.

Definition EP_TYPE_ISOCHRONOUS : Z := 1.
Definition REQ_SetInterface : Z := 11.
Definition AUDIO_REQ_SetCurrent : Z := 1.
Definition AUDIO_REQ_SetMinimum : Z := 2.
Definition AUDIO_REQ_SetMaximum : Z := 3.
Definition AUDIO_REQ_SetResolution : Z := 4.
Definition AUDIO_REQ_GetCurrent : Z := 0x81.
Definition AUDIO_REQ_GetMinimum : Z := 0x82.
Definition AUDIO_REQ_GetMaximum : Z := 0x83.
Definition AUDIO_REQ_GetResolution : Z := 0x84.
Definition AUDIO_REQ_GetStatus : Z := 0xFF.

(** USB_ClassInfo_Audio_Device_t *)
Record audio_info : Type := mk_audio {
  audio_ControlInterfaceNumber : Z;
  audio_StreamingInterfaceNumber : Z;
  audio_DataINEndpoint : endpoint_table;
  audio_DataOUTEndpoint : endpoint_table;
  InterfaceEnabled : bool }.

Definition set_enabled (b : bool) (i : audio_info) : audio_info :=
  mk_audio (audio_ControlInterfaceNumber i) (audio_StreamingInterfaceNumber i) (audio_DataINEndpoint i) (audio_DataOUTEndpoint i) b.

Definition audio_configured (i : audio_info) : audio_info :=
  mk_audio (audio_ControlInterfaceNumber i) (audio_StreamingInterfaceNumber i)
    (set_type EP_TYPE_ISOCHRONOUS (audio_DataINEndpoint i)) (set_type EP_TYPE_ISOCHRONOUS (audio_DataOUTEndpoint i)) false.

(** CONTROL_REQTYPE_RECIPIENT of a request *)
Definition recipient (req : request) : Z := Z.land (bmRequestType req) CONTROL_REQTYPE_RECIPIENT.

(** The request is for another interface or endpoint. *)
Definition not_for_audio (req : request) (i : audio_info) : bool :=
  let n := Z.land (wIndex req) 255 in
  if recipient req =? REQREC_INTERFACE
  then negb (n =? audio_ControlInterfaceNumber i) && negb (n =? audio_StreamingInterfaceNumber i)
  else if recipient req =? REQREC_ENDPOINT
  then negb (n =? ep_Address (audio_DataINEndpoint i)) && negb (n =? ep_Address (audio_DataOUTEndpoint i))
  else false.

Section audio.
Context {H A : Type} `{Hardware H} `{!Interrupts H A}.
Context (fuel : nat).
Context (get_audio : A -> audio_info) (put_audio : audio_info -> A -> A).

Abbreviation run := (prog (usb H A)).

(** The callbacks, which return their result, DataLength and Data, and the event. *)
Context (CALLBACK_Audio_Device_GetSetEndpointProperty : Z -> Z -> Z -> option (Z * cells) -> run (bool * option (Z * cells))).
Context (CALLBACK_Audio_Device_GetSetInterfaceProperty : Z -> Z -> Z -> option (Z * cells) -> run (bool * option (Z * cells))).
Context (EVENT_Audio_Device_StreamStartStop : run unit).

Definition audio : run audio_info := get_mem (fun s => get_audio (app s)).
Definition on_audio (f : audio_info -> audio_info) : run unit := set_mem (on_app (fun a => put_audio (f (get_audio a)) a)).

(** The callback for the recipient of a request, or nothing for another recipient. *)
Definition property_of (req : request) : option (option (Z * cells) -> run (bool * option (Z * cells))) :=
  if recipient req =? REQREC_ENDPOINT then
    Some (CALLBACK_Audio_Device_GetSetEndpointProperty (bRequest req) (u8 (wIndex req)) (u8 (Z.shiftr (wValue req) 8)))
  else if recipient req =? REQREC_INTERFACE then
    Some (CALLBACK_Audio_Device_GetSetInterfaceProperty (bRequest req) (u8 (Z.shiftr (wIndex req) 8)) (wValue req))
  else None.

(** uint8_t Value[ValueLength] *)
Definition value_buffer (req : request) : cells := replicate (Z.to_nat (wLength req)) None.

Definition set_property (req : request) : run unit :=
  match property_of req with
  | None => mret tt
  | Some property =>
      r ← property None;
      when r.1 (
        Endpoint_ClearSETUP ;;
        v ← Endpoint_Read_Control_Stream_LE fuel (value_buffer req) (wLength req);
        Endpoint_ClearIN ;;
        property (Some (wLength req, v.2)) ;;
        mret tt)
  end.

Definition get_property (req : request) : run unit :=
  match property_of req with
  | None => mret tt
  | Some property =>
      r ← property (Some (wLength req, value_buffer req));
      when r.1 (
        let '(ValueLength, Value) := default (wLength req, value_buffer req) r.2 in
        Endpoint_ClearSETUP ;;
        Endpoint_Write_Control_Stream_LE fuel Value ValueLength ;;
        Endpoint_ClearOUT)
  end.

Definition Audio_Device_ProcessControlRequest : run unit :=
  setup ← Endpoint_IsSETUPReceived;
  if negb setup then mret tt
  else
    req ← get_request;
    i ← audio;
    if not_for_audio req i then mret tt
    else if bRequest req =? REQ_SetInterface then
      when (bmRequestType req =? REQREC_INTERFACE) (
        Endpoint_ClearSETUP ;;
        Endpoint_ClearStatusStage fuel ;;
        on_audio (set_enabled (negb (Z.land (wValue req) 255 =? 0))) ;;
        EVENT_Audio_Device_StreamStartStop)
    else if bRequest req =? AUDIO_REQ_GetStatus then
      when ((bmRequestType req =? class_out) || (bmRequestType req =? Z.lor REQTYPE_CLASS REQREC_ENDPOINT)) (
        Endpoint_ClearSETUP ;; Endpoint_ClearStatusStage fuel)
    else if (AUDIO_REQ_SetCurrent <=? bRequest req) && (bRequest req <=? AUDIO_REQ_SetResolution) then set_property req
    else if (AUDIO_REQ_GetCurrent <=? bRequest req) && (bRequest req <=? AUDIO_REQ_GetResolution) then get_property req
    else mret tt.

Definition Audio_Device_ConfigureEndpoints : run bool :=
  on_audio audio_configured ;;
  i ← audio;
  a ← Endpoint_ConfigureEndpointTable fuel [audio_DataINEndpoint i];
  if negb a then mret false
  else
    b ← Endpoint_ConfigureEndpointTable fuel [audio_DataOUTEndpoint i];
    mret b.

(** ** Samples *)

Definition not_streaming : run bool :=
  off ← not_configured;
  if (off : bool) then mret true else i ← audio; mret (negb (InterfaceEnabled i)).

Definition Audio_Device_IsSampleReceived : run bool :=
  off ← not_streaming;
  if (off : bool) then mret false
  else i ← audio; Endpoint_SelectEndpoint (ep_Address (audio_DataOUTEndpoint i)) ;; Endpoint_IsOUTReceived.

Definition Audio_Device_IsReadyForNextSample : run bool :=
  off ← not_streaming;
  if (off : bool) then mret false
  else i ← audio; Endpoint_SelectEndpoint (ep_Address (audio_DataINEndpoint i)) ;; Endpoint_IsINReady.

(** if (!(Endpoint_BytesInEndpoint())) Endpoint_ClearOUT(); *)
Definition release_if_empty : run unit := n ← Endpoint_BytesInEndpoint; when (n =? 0) Endpoint_ClearOUT.

(** if (Endpoint_BytesInEndpoint() == Size) Endpoint_ClearIN(); *)
Definition send_if_full : run unit :=
  n ← Endpoint_BytesInEndpoint; i ← audio; when (n =? ep_Size (audio_DataINEndpoint i)) Endpoint_ClearIN.

Definition Audio_Device_ReadSample8 : run Z := b ← Endpoint_Read_8; release_if_empty ;; mret (s8 b).
Definition Audio_Device_ReadSample16 : run Z := w ← Endpoint_Read_16_LE; release_if_empty ;; mret (s16 w).
(** The operands of | from left to right, an order that C leaves open. *)
Definition Audio_Device_ReadSample24 : run Z :=
  b ← Endpoint_Read_8; w ← Endpoint_Read_16_LE; release_if_empty ;; mret (s32 (Z.lor (Z.shiftl b 16) w)).

Definition Audio_Device_WriteSample8 (Sample : Z) : run unit := Endpoint_Write_8 Sample ;; send_if_full.
Definition Audio_Device_WriteSample16 (Sample : Z) : run unit := Endpoint_Write_16_LE (u16 Sample) ;; send_if_full.
Definition Audio_Device_WriteSample24 (Sample : Z) : run unit :=
  Endpoint_Write_16_LE (u16 Sample) ;; Endpoint_Write_8 (Z.shiftr Sample 16) ;; send_if_full.
End audio.

(** * Samples on a host *)

Section host.
Context {H A : Type} `{HW : Hardware H} {out_ep in_ep : Z} {patience : nat} `{BH : !BulkHost H out_ep in_ep patience}.
Context (get_audio : A -> audio_info).
Implicit Types s : usb H A.

(** A sample that has arrived is sent again. *)
Definition sample_echo (read : prog (usb H A) Z) (write : Z -> prog (usb H A) unit) : prog (usb H A) bool :=
  got ← Audio_Device_IsSampleReceived get_audio;
  if negb got then mret false
  else
    x ← read;
    ready ← Audio_Device_IsReadyForNextSample get_audio;
    if negb ready then mret false else write x ;; mret true.

(** The interface fits the endpoints, and the host has started the stream. *)
Definition audio_ready (i : audio_info) : Prop :=
  Z.land (ep_Address (audio_DataINEndpoint i)) ENDPOINT_EPNUM_MASK = in_ep /\
  Z.land (ep_Address (audio_DataOUTEndpoint i)) ENDPOINT_EPNUM_MASK = out_ep /\ InterfaceEnabled i = true.

Lemma wp_streaming b i (Q : bool -> usb H A -> Prop) E s :
  InterfaceEnabled i = true -> serving get_audio b i s -> (forall s', serving get_audio b i s' -> Q false s') ->
  wp (not_streaming get_audio) Q E s.
Proof.
  intros He Hs HQ. unfold not_streaming, not_configured. eapply wp_bind, wp_bind, wp_iread; [done..|]. intros s1 S1. apply wp_ret.
  rewrite bulk_state, Z.eqb_refl. cbn [negb]. eapply wp_bind, wp_interface; [done|]. apply wp_ret. rewrite He. by apply HQ.
Qed.

Lemma wp_is_received b i (Q : bool -> usb H A -> Prop) E s :
  audio_ready i -> b_rx b <> [] -> serving get_audio b i s ->
  (forall s', serving get_audio (with_sel out_ep b) i s' -> Q true s') -> wp (Audio_Device_IsSampleReceived get_audio) Q E s.
Proof.
  intros (_ & Ho & He) Hrx Hs HQ. unfold Audio_Device_IsSampleReceived. eapply wp_bind, wp_streaming; [done..|]. intros s1 S1. cbn [negb].
  eapply wp_bind, wp_interface; [done|]. eapply wp_bind, wp_iselect; [done..|]. intros s2 S2. unfold Endpoint_IsOUTReceived.
  eapply wp_ibit; [done..|]. intros s3 S3. rewrite bulk_received by (destruct S2 as [-> _]; done). by apply HQ.
Qed.

Lemma wp_is_ready b i (Q : bool -> usb H A -> Prop) E s :
  audio_ready i -> serving get_audio b i s ->
  (forall s', serving get_audio (with_sel in_ep b) i s' -> Q true s') -> wp (Audio_Device_IsReadyForNextSample get_audio) Q E s.
Proof.
  intros (Hi & _ & He) Hs HQ. unfold Audio_Device_IsReadyForNextSample. eapply wp_bind, wp_streaming; [done..|]. intros s1 S1. cbn [negb].
  eapply wp_bind, wp_interface; [done|]. eapply wp_bind, wp_iselect; [done..|]. intros s2 S2. unfold Endpoint_IsINReady.
  eapply wp_ibit; [done..|]. intros s3 S3. rewrite bulk_ready by (destruct S2 as [-> _]; done). by apply HQ.
Qed.

(** An empty bank is released, which the view does not show when no packet follows. *)
Lemma wp_release_if_empty b i (Q : unit -> usb H A -> Prop) E s :
  b_sel b = out_ep -> b_next b = [] -> serving get_audio b i s -> (forall s', serving get_audio b i s' -> Q tt s') -> wp release_if_empty Q E s.
Proof.
  intros Hsel Hnx Hs HQ. unfold release_if_empty, Endpoint_BytesInEndpoint. eapply wp_bind, wp_iread; [done..|]. intros s1 S1.
  pose proof Hs as [Hb _]. rewrite bulk_count by (rewrite Hb; by left). rewrite Hb, Hsel, Z.eqb_refl.
  destruct (Z.eqb_spec (Z.of_nat (length (b_rx b))) 0) as [E0|E0]; cbn [when]; [|by apply wp_ret, HQ].
  eapply wp_irelease; [done..|]. intros s2 S2. rewrite fetch_none in S2 by done. apply HQ. replace b with (with_rx [] b); [done|].
  assert (b_rx b = []) as En by (apply nil_length_inv; lia). destruct b; cbn in *. by subst.
Qed.

Lemma wp_send_if_full b i (Q : unit -> usb H A -> Prop) E s :
  b_sel b = in_ep -> sized b -> serving get_audio b i s ->
  (forall s' b', grown b [] b' -> serving get_audio b' i s' -> Q tt s') -> wp (send_if_full get_audio) Q E s.
Proof.
  intros Hsel Hz Hs HQ. unfold send_if_full, Endpoint_BytesInEndpoint. eapply wp_bind, wp_iread; [done..|]. intros s1 S1.
  eapply wp_bind, wp_interface; [done|]. destruct (_ =? _); cbn [when].
  - eapply wp_isend; [done..|]. intros s2 S2. eapply HQ, S2. by apply hand_over_grown.
  - eapply wp_ret, HQ, S1. by apply grown_nil.
Qed.

(** A sample of the bytes [bs], read as [x] and written as the bytes [ws]. *)
Lemma wp_sample_echo read write bs ws x rest b i (Q : bool -> usb H A -> Prop) E s :
  audio_ready i -> bs <> [] -> b_rx b = bs ++ rest -> sized b -> (length (b_tx b) + length ws <= bulk_size)%nat -> serving get_audio b i s ->
  (forall (Q : Z -> usb H A -> Prop) s0, serving get_audio (with_sel out_ep b) i s0 ->
     (forall s', serving get_audio (with_rx rest (with_sel out_ep b)) i s' -> Q x s') -> wp read Q E s0) ->
  (forall b0 (Q : unit -> usb H A -> Prop) s0, b_sel b0 = in_ep -> sized b0 -> (length (b_tx b0) + length ws <= bulk_size)%nat ->
     serving get_audio b0 i s0 -> (forall s' b', grown b0 ws b' -> serving get_audio b' i s' -> Q tt s') -> wp (write x) Q E s0) ->
  (forall s' b', grown (with_sel in_ep (with_rx rest b)) ws b' -> serving get_audio b' i s' -> Q true s') ->
  wp (sample_echo read write) Q E s.
Proof.
  intros Hr Hne Hrx Hz Hroom Hs Hread Hwrite HQ. unfold sample_echo.
  eapply wp_bind, wp_is_received; [done|rewrite Hrx; by destruct bs|done|]. intros s1 S1. cbn [negb].
  apply wp_bind, Hread; [done|]. intros s2 S2. eapply wp_bind, wp_is_ready; [done..|]. intros s3 S3. cbn [negb].
  eapply wp_bind, Hwrite; [| | |exact S3|]; [done..|]. intros s4 b4 Hg S4. eapply wp_ret, HQ, S4. exact Hg.
Qed.

(** ** Values *)

Lemma word_low b0 b1 : is_byte b0 -> is_byte b1 -> Z.land (b0 + 256 * b1) 255 = b0.
Proof.
  intros H0 H1. change 255 with (Z.ones 8). rewrite Z.land_ones by lia. change (2 ^ 8) with 256.
  rewrite Z.mul_comm, Z.mod_add by lia. by apply Z.mod_small.
Qed.

Lemma word_high b0 b1 : is_byte b0 -> is_byte b1 -> u8 (Z.shiftr (b0 + 256 * b1) 8) = b1.
Proof.
  intros H0 H1. rewrite Z.shiftr_div_pow2 by lia. change (2 ^ 8) with 256.
  rewrite Z.mul_comm, Z.div_add by lia. rewrite Z.div_small by done. by apply u8_small.
Qed.

Lemma u16_s16 w : 0 <= w < 65536 -> u16 (s16 w) = w.
Proof.
  intros Hw. unfold wrapu, wraps. change (2 ^ (16 - 1)) with 32768. change (2 ^ 16) with 65536.
  rewrite Zminus_mod_idemp_l. replace (w + 32768 - 32768) with w by lia. by apply Z.mod_small.
Qed.

Lemma sample24_value b0 w : is_byte b0 -> 0 <= w < 65536 -> s32 (Z.lor (Z.shiftl b0 16) w) = b0 * 65536 + w.
Proof.
  intros H0 Hw. unfold is_byte in H0. rewrite lor_shiftl by (simpl; lia). change (2 ^ 16) with 65536. unfold wraps.
  change (2 ^ (32 - 1)) with 2147483648. change (2 ^ 32) with 4294967296. rewrite Z.mod_small; lia.
Qed.

(** ** The functions *)

Lemma wp_read8 x rest b i (Q : Z -> usb H A -> Prop) E s :
  b_sel b = out_ep -> b_rx b = [x] ++ rest -> b_next b = [] -> serving get_audio b i s ->
  (forall s', serving get_audio (with_rx rest b) i s' -> Q (s8 x) s') -> wp Audio_Device_ReadSample8 Q E s.
Proof.
  intros Hsel Hrx Hnx Hs HQ. unfold Audio_Device_ReadSample8, Endpoint_Read_8. eapply wp_bind, wp_iget; [done..|]. intros s1 S1.
  eapply wp_bind, wp_release_if_empty; [| |done|]; [done..|]. intros s2 S2. by apply wp_ret, HQ.
Qed.

Lemma wp_read16 x y rest b i (Q : Z -> usb H A -> Prop) E s :
  b_sel b = out_ep -> b_rx b = [x; y] ++ rest -> b_next b = [] -> serving get_audio b i s ->
  (forall s', serving get_audio (with_rx rest b) i s' -> Q (s16 (x + 256 * y)) s') -> wp Audio_Device_ReadSample16 Q E s.
Proof.
  intros Hsel Hrx Hnx Hs HQ. unfold Audio_Device_ReadSample16, Endpoint_Read_16_LE. eapply wp_bind, wp_bind, wp_iget; [done..|]. intros s1 S1.
  eapply wp_bind, wp_iget; [| |done|]; [done..|]. intros s2 S2. apply wp_ret.
  eapply wp_bind, wp_release_if_empty; [| |done|]; [done..|]. intros s3 S3. by apply wp_ret, HQ.
Qed.

Lemma wp_read24 z x y rest b i (Q : Z -> usb H A -> Prop) E s :
  b_sel b = out_ep -> b_rx b = [z; x; y] ++ rest -> b_next b = [] -> serving get_audio b i s ->
  (forall s', serving get_audio (with_rx rest b) i s' -> Q (s32 (Z.lor (Z.shiftl z 16) (x + 256 * y))) s') ->
  wp Audio_Device_ReadSample24 Q E s.
Proof.
  intros Hsel Hrx Hnx Hs HQ. unfold Audio_Device_ReadSample24, Endpoint_Read_8, Endpoint_Read_16_LE.
  eapply wp_bind, wp_iget; [done..|]. intros s0 S0. eapply wp_bind, wp_bind, wp_iget; [| |done|]; [done..|]. intros s1 S1.
  eapply wp_bind, wp_iget; [| |done|]; [done..|]. intros s2 S2. apply wp_ret.
  eapply wp_bind, wp_release_if_empty; [| |done|]; [done..|]. intros s3 S3. by apply wp_ret, HQ.
Qed.

Lemma wp_put v b i (Q : unit -> usb H A -> Prop) E s :
  b_sel b = in_ep -> sized b -> (length (b_tx b) < bulk_size)%nat -> is_byte v -> serving get_audio b i s ->
  (forall s' b', grown b [v] b' -> length (b_tx b') = S (length (b_tx b)) -> serving get_audio b' i s' -> Q tt s') ->
  wp (write_reg UEDATX v) Q E s.
Proof.
  intros Hsel Hz Hroom Hv Hs HQ. eapply wp_iput; [done|done|done|done|done|]. intros s1 S1. eapply HQ, S1; [by apply put_grown|].
  cbn. rewrite length_app. cbn. lia.
Qed.

Lemma wp_put16 d x y b i (Q : unit -> usb H A -> Prop) E s :
  Z.land d 255 = x -> u8 (Z.shiftr d 8) = y -> is_byte x -> is_byte y ->
  b_sel b = in_ep -> sized b -> (S (length (b_tx b)) < bulk_size)%nat -> serving get_audio b i s ->
  (forall s' b', grown b [x; y] b' -> length (b_tx b') = S (S (length (b_tx b))) -> serving get_audio b' i s' -> Q tt s') ->
  wp (Endpoint_Write_16_LE d) Q E s.
Proof.
  intros <- <- Hx Hy Hsel Hz Hroom Hs HQ. unfold Endpoint_Write_16_LE.
  eapply wp_bind, wp_put; [done|done|lia|done|done|]. intros s1 b1 G1 L1 S1. pose proof G1 as (Hsel1 & _ & _ & _ & _ & _ & Hz1).
  eapply wp_put; [by rewrite Hsel1|done|lia|done|done|]. intros s2 b2 G2 L2 S2. eapply HQ, S2; [|lia]. by eapply (grown_trans b [_]).
Qed.

(** The condition under which a function writes the bytes [ws]. *)
Definition writes (i : audio_info) (m : prog (usb H A) unit) (ws : list Z) : Prop :=
  forall E b0 (Q : unit -> usb H A -> Prop) s0, b_sel b0 = in_ep -> sized b0 -> (length (b_tx b0) + length ws <= bulk_size)%nat ->
    serving get_audio b0 i s0 -> (forall s' b', grown b0 ws b' -> serving get_audio b' i s' -> Q tt s') -> wp m Q E s0.

Lemma finish_write i b ws b1 E (Q : unit -> usb H A -> Prop) s :
  b_sel b = in_ep -> grown b ws b1 -> serving get_audio b1 i s ->
  (forall s' b', grown b ws b' -> serving get_audio b' i s' -> Q tt s') -> wp (send_if_full get_audio) Q E s.
Proof.
  intros Hsel G S HQ. pose proof G as (Hsel1 & _ & _ & _ & _ & _ & Hz1). eapply wp_send_if_full; [by rewrite Hsel1|done|done|].
  intros s2 b2 G2 S2. eapply HQ, S2. rewrite <- (app_nil_r ws). by eapply grown_trans.
Qed.

Lemma write8_bytes i x : is_byte x -> writes i (Audio_Device_WriteSample8 get_audio (s8 x)) [x].
Proof.
  intros Hx E b Q s Hsel Hz Hroom Hs HQ. unfold Audio_Device_WriteSample8, Endpoint_Write_8. rewrite u8_s8_byte by done.
  cbn [length] in Hroom. eapply wp_bind, wp_put; [done|done|lia|done|done|]. intros s1 b1 G1 _ S1. by eapply (finish_write i b [x]).
Qed.

Lemma write16_bytes i x y : is_byte x -> is_byte y -> writes i (Audio_Device_WriteSample16 get_audio (s16 (x + 256 * y))) [x; y].
Proof.
  intros Hx Hy E b Q s Hsel Hz Hroom Hs HQ. unfold Audio_Device_WriteSample16. rewrite u16_s16 by (unfold is_byte in *; lia).
  cbn [length] in Hroom. eapply wp_bind, (wp_put16 _ x y); [by apply word_low|by apply word_high|done|done|done|done|lia|done|].
  intros s1 b1 G1 _ S1. by eapply (finish_write i b [x; y]).
Qed.

Lemma write24_bytes i z x y : is_byte z -> is_byte x -> is_byte y ->
  writes i (Audio_Device_WriteSample24 get_audio (s32 (Z.lor (Z.shiftl z 16) (x + 256 * y)))) [x; y; z].
Proof.
  intros Hz' Hx Hy E b Q s Hsel Hz Hroom Hs HQ. unfold Audio_Device_WriteSample24, Endpoint_Write_8.
  assert (0 <= x + 256 * y < 65536) as Hw by (unfold is_byte in *; lia). rewrite sample24_value by done.
  replace (u16 (z * 65536 + (x + 256 * y))) with (x + 256 * y)
    by (unfold wrapu; change (2 ^ 16) with 65536; rewrite (Z.add_comm (z * 65536)), Z.mod_add by lia; by rewrite Z.mod_small).
  replace (u8 (Z.shiftr (z * 65536 + (x + 256 * y)) 16)) with z
    by (rewrite Z.shiftr_div_pow2 by lia; change (2 ^ 16) with 65536; rewrite Z.div_add_l, Z.div_small, Z.add_0_r by lia; by rewrite u8_small).
  cbn [length] in Hroom. eapply wp_bind, (wp_put16 _ x y); [by apply word_low|by apply word_high|done|done|done|done|lia|done|].
  intros s1 b1 G1 L1 S1. pose proof G1 as (Hsel1 & _ & _ & _ & _ & _ & Hz1).
  eapply wp_bind, wp_put; [by rewrite Hsel1|done|lia|done|done|]. intros s2 b2 G2 _ S2.
  eapply (finish_write i b [x; y; z]); [done|by eapply (grown_trans b [x; y])|done|done].
Qed.
End host.

(** * Theorem *)

Definition sim_speaker : audio_info := mk_audio 0 1 (mk_ep 0x82 64 EP_TYPE_ISOCHRONOUS 1) (mk_ep 1 64 EP_TYPE_ISOCHRONOUS 1) true.
Definition sim_samples : usb bulk audio_info := mk_usb (mk_bulk 0 [1; 2; 3] [] [] 0 0 []) core_init sim_speaker [].

(** Samples through the audio driver.  On a started stream, reading a sample that
    has arrived and writing it again sends the bytes of the sample unchanged for the
    8-bit and the 16-bit functions, whatever its sign; the 24-bit functions do not
    agree on the order of the bytes: the first byte is sent last. *)
Theorem audio_samples_pass {H A} `{Hardware H} {out_ep in_ep patience} `{!BulkHost H out_ep in_ep patience}
    (get_audio : A -> audio_info) x y z rest (s : usb H A) :
  audio_ready (out_ep := out_ep) (in_ep := in_ep) (get_audio (app s)) -> Forall is_byte [x; y; z] ->
  b_rx (bulk_of (hw s)) = [x; y; z] ++ rest -> b_next (bulk_of (hw s)) = [] -> sized (bulk_of (hw s)) -> (length (b_tx (bulk_of (hw s))) + 3 <= bulk_size)%nat ->
  (exists s', sample_echo get_audio Audio_Device_ReadSample8 (Audio_Device_WriteSample8 get_audio) s = (Done true, s') /\
     flow (bulk_of (hw s')) = flow (bulk_of (hw s)) ++ [x]) /\
  (exists s', sample_echo get_audio Audio_Device_ReadSample16 (Audio_Device_WriteSample16 get_audio) s = (Done true, s') /\
     flow (bulk_of (hw s')) = flow (bulk_of (hw s)) ++ [x; y]) /\
  (exists s', sample_echo get_audio Audio_Device_ReadSample24 (Audio_Device_WriteSample24 get_audio) s = (Done true, s') /\
     flow (bulk_of (hw s')) = flow (bulk_of (hw s)) ++ [y; z; x]).
Proof.
  intros Hr Hb Hrx Hnx Hz Hroom. rewrite !Forall_cons_iff in Hb. destruct Hb as (Hx & Hy & Hz' & _).
  pose proof (conj eq_refl eq_refl : serving get_audio (bulk_of (hw s)) (get_audio (app s)) s) as Hs.
  assert (forall read write bs ws v rest', bs <> [] -> b_rx (bulk_of (hw s)) = bs ++ rest' -> (length ws <= 3)%nat ->
    (forall (Q : Z -> usb H A -> Prop) E s0, serving get_audio (with_sel out_ep (bulk_of (hw s))) (get_audio (app s)) s0 ->
      (forall s', serving get_audio (with_rx rest' (with_sel out_ep (bulk_of (hw s)))) (get_audio (app s)) s' -> Q v s') -> wp read Q E s0) ->
    writes get_audio (get_audio (app s)) (write v) ws ->
    exists s', sample_echo get_audio read write s = (Done true, s') /\ flow (bulk_of (hw s')) = flow (bulk_of (hw s)) ++ ws) as Hecho.
  { intros read write bs ws v rest' Hne Hrx' Hl Hread Hwrite.
    assert (wp (sample_echo get_audio read write) (fun ok s' => ok = true /\ flow (bulk_of (hw s')) = flow (bulk_of (hw s)) ++ ws) (fun _ _ => False) s) as Hw.
    { eapply (wp_sample_echo get_audio read write bs ws v rest'); try done; [lia|intros; by eapply Hread|by apply Hwrite|].
      intros s' b' (_ & _ & _ & _ & _ & Hf & _) [Hb' _]. rewrite Hb'. by split. }
    destruct (wp_run _ _ _ _ Hw) as (o & s' & E & [(ok & -> & -> & Hf)|(? & _ & [])]). by exists s'. }
  split_and!.
  - eapply (Hecho _ _ [x] [x] (s8 x) (y :: z :: rest)); [done|done|cbn; lia| |by apply write8_bytes]. intros Q E s0 S0 HQ. eapply wp_read8; [| | |exact S0|exact HQ]; done.
  - eapply (Hecho _ _ [x; y] [x; y] _ (z :: rest)); [done|done|cbn; lia| |by apply write16_bytes]. intros Q E s0 S0 HQ. eapply wp_read16; [| | |exact S0|exact HQ]; done.
  - eapply (Hecho _ _ [x; y; z] [y; z; x] _ rest); [done|done|cbn; lia| |by apply write24_bytes]. intros Q E s0 S0 HQ. eapply wp_read24; [| | |exact S0|exact HQ]; done.
Qed.

(** An instance: the bytes 1, 2 and 3. *)
Lemma audio_samples_pass_witness :
  (exists s', sample_echo id Audio_Device_ReadSample8 (Audio_Device_WriteSample8 id) sim_samples = (Done true, s') /\
     flow (bulk_of (hw s')) = flow (bulk_of (hw sim_samples)) ++ [1]) /\
  (exists s', sample_echo id Audio_Device_ReadSample16 (Audio_Device_WriteSample16 id) sim_samples = (Done true, s') /\
     flow (bulk_of (hw s')) = flow (bulk_of (hw sim_samples)) ++ [1; 2]) /\
  (exists s', sample_echo id Audio_Device_ReadSample24 (Audio_Device_WriteSample24 id) sim_samples = (Done true, s') /\
     flow (bulk_of (hw s')) = flow (bulk_of (hw sim_samples)) ++ [2; 3; 1]).
Proof.
  apply (audio_samples_pass (out_ep := 1) (in_ep := 2) (patience := 3) id 1 2 3 [] sim_samples).
  - done.
  - apply (bool_decide_unpack _). by vm_compute.
  - reflexivity.
  - reflexivity.
  - split; [constructor|cbn; lia].
  - cbn. lia.
Defined.
