(* ===== verification/HidDevice.v ===== *)
(** The HID class driver, Class/Device/HIDClassDevice.c and .h: reports over an
    interrupt endpoint.  Part of the library, not used by this firmware.

    The application's callbacks are parameters: one creates a report in a buffer that
    the driver gives it, one takes a report from the host.  USB_Options has no low
    speed flag, as in this firmware. *)

From Stdlib Require Import ZArith Lia.
From stdpp Require Import base tactics list numbers.
From S2P Require Import Prelude Posix Avr Endpoint EndpointStream Device Cdc BulkHost.

Local Open Scope Z_scope.

Definition HID_REQ_GetReport : Z := 1.
Definition HID_REQ_GetIdle : Z := 2.
Definition HID_REQ_GetProtocol : Z := 3.
Definition HID_REQ_SetReport : Z := 9.
Definition HID_REQ_SetIdle : Z := 10.
Definition HID_REQ_SetProtocol : Z := 11.
Definition HID_REPORT_ITEM_In : Z := 0.

(** USB_ClassInfo_HID_Device_t; a null PrevReportINBuffer is [None]. *)
Record hid_info : Type := mk_hid {
  hid_InterfaceNumber : Z;
  ReportINEndpoint : endpoint_table;
  PrevReportINBuffer : option cells;
  PrevReportINBufferSize : Z;
  UsingReportProtocol : bool;
  PrevFrameNum : Z;
  IdleCount : Z;
  IdleMSRemaining : Z }.

Definition set_prev (m : option cells) (i : hid_info) : hid_info :=
  mk_hid (hid_InterfaceNumber i) (ReportINEndpoint i) m (PrevReportINBufferSize i) (UsingReportProtocol i) (PrevFrameNum i) (IdleCount i) (IdleMSRemaining i).
Definition set_protocol (b : bool) (i : hid_info) : hid_info :=
  mk_hid (hid_InterfaceNumber i) (ReportINEndpoint i) (PrevReportINBuffer i) (PrevReportINBufferSize i) b (PrevFrameNum i) (IdleCount i) (IdleMSRemaining i).
Definition set_frame (n : Z) (i : hid_info) : hid_info :=
  mk_hid (hid_InterfaceNumber i) (ReportINEndpoint i) (PrevReportINBuffer i) (PrevReportINBufferSize i) (UsingReportProtocol i) n (IdleCount i) (IdleMSRemaining i).
Definition set_idle (n : Z) (i : hid_info) : hid_info :=
  mk_hid (hid_InterfaceNumber i) (ReportINEndpoint i) (PrevReportINBuffer i) (PrevReportINBufferSize i) (UsingReportProtocol i) (PrevFrameNum i) n (IdleMSRemaining i).
Definition set_remaining (n : Z) (i : hid_info) : hid_info :=
  mk_hid (hid_InterfaceNumber i) (ReportINEndpoint i) (PrevReportINBuffer i) (PrevReportINBufferSize i) (UsingReportProtocol i) (PrevFrameNum i) (IdleCount i) n.

Definition hid_configured (i : hid_info) : hid_info :=
  mk_hid (hid_InterfaceNumber i) (set_type EP_TYPE_INTERRUPT (ReportINEndpoint i)) (PrevReportINBuffer i) (PrevReportINBufferSize i) true 0 500 0.

(** memcpy of n bytes *)
Definition copy_cells (dst src : cells) (n : nat) : res cells :=
  if ((n <=? length src) && (n <=? length dst))%nat then Ok (take n src ++ drop n dst) else Fault OutOfBounds.

(** memcmp of n bytes from position p: whether they differ *)
Fixpoint cells_differ (n : nat) (a b : cells) (p : nat) : res bool :=
  match n with
  | O => mret false
  | S n' => x ← load a p; y ← load b p; if x =? y then cells_differ n' a b (S p) else mret true
  end.

Section hid.
Context {H A : Type} `{Hardware H} `{!Interrupts H A}.
Context (fuel : nat).
Context (get_hid : A -> hid_info) (put_hid : hid_info -> A -> A).

Abbreviation run := (prog (usb H A)).

(** The callbacks: the first has ReportID, the type and ReportData as inputs and
    returns its result, ReportID, ReportData and ReportSize; the second has the
    position of the report in its buffer. *)
Context (CALLBACK_HID_Device_CreateHIDReport : Z -> Z -> cells -> run (bool * Z * cells * Z)).
Context (CALLBACK_HID_Device_ProcessHIDReport : Z -> Z -> cells -> Z -> Z -> run unit).

Definition hid : run hid_info := get_mem (fun s => get_hid (app s)).
Definition on_hid (f : hid_info -> hid_info) : run unit := set_mem (on_app (fun a => put_hid (f (get_hid a)) a)).

Definition HID_Device_MillisecondElapsed : run unit :=
  i ← hid; when (negb (IdleMSRemaining i =? 0)) (on_hid (fun i => set_remaining (IdleMSRemaining i - 1) i)).

(** memcpy to PrevReportINBuffer *)
Definition keep_report (data : cells) : run unit :=
  i ← hid;
  match PrevReportINBuffer i with
  | None => mret tt
  | Some prev => m ← lift (copy_cells prev data (Z.to_nat (PrevReportINBufferSize i))); on_hid (set_prev (Some m))
  end.

Definition get_hid_report (req : request) : run unit :=
  i ← hid;
  r ← CALLBACK_HID_Device_CreateHIDReport (Z.land (wValue req) 255) (u8 (Z.shiftr (wValue req) 8 - 1))
        (replicate (Z.to_nat (PrevReportINBufferSize i)) (Some 0));
  let '(_, _, ReportData, ReportSize) := r in
  keep_report ReportData ;;
  Endpoint_SelectEndpoint ENDPOINT_CONTROLEP ;;
  Endpoint_ClearSETUP ;;
  Endpoint_Write_Control_Stream_LE fuel ReportData ReportSize ;;
  Endpoint_ClearOUT.

Definition set_hid_report (req : request) : run unit :=
  let ReportSize := wLength req in
  let ReportID := Z.land (wValue req) 255 in
  let ReportType := u8 (Z.shiftr (wValue req) 8 - 1) in
  let skip := if ReportID =? 0 then 0 else 1 in
  Endpoint_ClearSETUP ;;
  r ← Endpoint_Read_Control_Stream_LE fuel (replicate (Z.to_nat ReportSize) None) ReportSize;
  Endpoint_ClearIN ;;
  CALLBACK_HID_Device_ProcessHIDReport ReportID ReportType r.2 skip (u16 (ReportSize - skip)).

(** A data stage of one byte. *)
Definition answer_byte (f : hid_info -> Z) : run unit :=
  Endpoint_ClearSETUP ;;
  wait_until fuel Endpoint_IsINReady never ;;
  i ← hid;
  Endpoint_Write_8 (f i) ;;
  Endpoint_ClearIN ;;
  Endpoint_ClearStatusStage fuel.

Definition HID_Device_ProcessControlRequest : run unit :=
  setup ← Endpoint_IsSETUPReceived;
  if negb setup then mret tt
  else
    req ← get_request;
    i ← hid;
    let from_host := bmRequestType req =? class_out in
    let to_host := bmRequestType req =? class_in in
    if negb (wIndex req =? hid_InterfaceNumber i) then mret tt
    else if bRequest req =? HID_REQ_GetReport then when to_host (get_hid_report req)
    else if bRequest req =? HID_REQ_SetReport then when from_host (set_hid_report req)
    else if bRequest req =? HID_REQ_GetProtocol then
      when to_host (answer_byte (fun i => if UsingReportProtocol i then 1 else 0))
    else if bRequest req =? HID_REQ_SetProtocol then
      when from_host (
        Endpoint_ClearSETUP ;; Endpoint_ClearStatusStage fuel ;;
        on_hid (set_protocol (negb (Z.land (wValue req) 255 =? 0))))
    else if bRequest req =? HID_REQ_SetIdle then
      when from_host (
        Endpoint_ClearSETUP ;; Endpoint_ClearStatusStage fuel ;;
        on_hid (set_idle (Z.shiftr (Z.land (wValue req) 0xFF00) 6)))
    else if bRequest req =? HID_REQ_GetIdle then
      when to_host (answer_byte (fun i => Z.shiftr (IdleCount i) 2))
    else mret tt.

Definition HID_Device_ConfigureEndpoints : run bool :=
  on_hid hid_configured ;;
  i ← hid;
  a ← Endpoint_ConfigureEndpointTable fuel [ReportINEndpoint i];
  mret a.

(** StatesChanged, with the new report stored *)
Definition compare_report (data : cells) (ReportINSize : Z) : run bool :=
  i ← hid;
  match PrevReportINBuffer i with
  | None => mret false
  | Some prev =>
      d ← lift (cells_differ (Z.to_nat ReportINSize) data prev 0);
      keep_report data ;;
      mret d
  end.

Definition send_report (ReportID : Z) (data : cells) (ReportINSize : Z) : run unit :=
  on_hid (fun i => set_remaining (IdleCount i) i) ;;
  i ← hid;
  Endpoint_SelectEndpoint (ep_Address (ReportINEndpoint i)) ;;
  when (negb (ReportID =? 0)) (Endpoint_Write_8 ReportID) ;;
  Endpoint_Write_Stream_LE fuel data ReportINSize None ;;
  Endpoint_ClearIN.

(** A report opportunity. *)
Definition poll_report : run unit :=
  i ← hid;
  r ← CALLBACK_HID_Device_CreateHIDReport 0 HID_REPORT_ITEM_In (replicate (Z.to_nat (PrevReportINBufferSize i)) (Some 0));
  let '(ForceSend, ReportID, ReportINData, ReportINSize) := r in
  i1 ← hid;
  let IdlePeriodElapsed := negb (IdleCount i1 =? 0) && (IdleMSRemaining i1 =? 0) in
  StatesChanged ← compare_report ReportINData ReportINSize;
  when (negb (ReportINSize =? 0) && (ForceSend || StatesChanged || IdlePeriodElapsed))
    (send_report ReportID ReportINData ReportINSize) ;;
  f ← USB_Device_GetFrameNumber;
  on_hid (set_frame f).

Definition HID_Device_USBTask : run unit :=
  st ← read_reg USB_DeviceState;
  if negb (st =? DEVICE_STATE_Configured) then mret tt
  else
    i ← hid;
    f ← USB_Device_GetFrameNumber;
    if PrevFrameNum i =? f then mret tt
    else
      Endpoint_SelectEndpoint (ep_Address (ReportINEndpoint i)) ;;
      allowed ← Endpoint_IsReadWriteAllowed;
      when allowed poll_report.
End hid.

(** * Reports on a host *)

(** The result of the callback: whether to send, the ID, the buffer and the size. *)
Record report : Type := mk_report { rp_force : bool; rp_id : Z; rp_data : list Z; rp_size : nat }.

Definition report_ok (i : hid_info) (r : report) : Prop :=
  is_byte (rp_id r) /\ Forall is_byte (rp_data r) /\ Z.of_nat (length (rp_data r)) = PrevReportINBufferSize i /\
  (rp_size r <= length (rp_data r))%nat.

Definition packet_of (r : report) : list Z := (if rp_id r =? 0 then [] else [rp_id r]) ++ take (rp_size r) (rp_data r).

(** A report is due when the application asks for it, when it differs from the one
    before, or when the idle period is over. *)
Definition due (i : hid_info) (prev : option (list Z)) (r : report) : bool :=
  negb (rp_size r =? 0)%nat &&
  (rp_force r || match prev with Some p => negb (bool_decide (take (rp_size r) p = take (rp_size r) (rp_data r))) | None => false end ||
   (negb (IdleCount i =? 0) && (IdleMSRemaining i =? 0))).

(** The interface after a report opportunity; [f] is the number of the frame in which it ends. *)
Definition polled (i : hid_info) (prev : option (list Z)) (r : report) (f : Z) : hid_info :=
  set_frame f (set_remaining (if due i prev r then IdleCount i else IdleMSRemaining i)
    (set_prev (match prev with Some _ => Some (map Some (rp_data r)) | None => None end) i)).

(** memcmp on determinate bytes. *)
Lemma cells_differ_spec n : forall a b p, (p + n <= length a)%nat -> (p + n <= length b)%nat ->
  cells_differ n (map Some a) (map Some b) p = Ok (negb (bool_decide (take n (drop p b) = take n (drop p a)))).
Proof.
  induction n as [|n IH]; intros a b p Ha Hb; cbn [cells_differ].
  - by rewrite !take_0.
  - destruct (lookup_lt_is_Some_2 a p ltac:(lia)) as [x Hx]. destruct (lookup_lt_is_Some_2 b p ltac:(lia)) as [y Hy].
    unfold load. rewrite !list_lookup_fmap, Hx, Hy. cbn [fmap option_fmap option_map]. rewrite !res_bind_ok.
    rewrite (drop_S a x p Hx), (drop_S b y p Hy). cbn [take]. destruct (Z.eqb_spec x y) as [->|Hn].
    + rewrite IH by lia. do 2 f_equal. apply bool_decide_ext. split; [by intros ->|by intros [= ->]].
    + rewrite bool_decide_eq_false_2; [done|]. by intros [= ? _].
Qed.

Lemma copy_cells_all (dst : cells) (src : list Z) : length dst = length src ->
  copy_cells dst (map Some src) (length src) = Ok (map Some src).
Proof.
  intros Hl. unfold copy_cells. rewrite length_map, Hl, !Nat.leb_refl. cbn [andb]. f_equal.
  rewrite drop_ge by lia. rewrite app_nil_r. apply take_ge. by rewrite length_map.
Qed.

Section host.
Context {H A : Type} `{HW : Hardware H} {out_ep in_ep : Z} {patience : nat} `{BH : !BulkHost H out_ep in_ep patience}.
Context (get_hid : A -> hid_info) (put_hid : hid_info -> A -> A).
Context (get_put : forall i a, get_hid (put_hid i a) = i).
Context (create : Z -> Z -> cells -> prog (usb H A) (bool * Z * cells * Z)).
Implicit Types s : usb H A.

(** The interface fits the endpoint; its buffer, if it has one, holds [prev]. *)
Definition hid_ready (i : hid_info) (prev : option (list Z)) : Prop :=
  Z.land (ep_Address (ReportINEndpoint i)) ENDPOINT_EPNUM_MASK = in_ep /\
  PrevReportINBuffer i = map Some <$> prev /\
  match prev with Some p => Z.of_nat (length p) = PrevReportINBufferSize i | None => True end.

(** The callback creates the report [make i] in a cleared buffer and touches nothing else. *)
Definition creates (make : hid_info -> report) : Prop := forall s, exists s',
  let i := get_hid (app s) in
  let r := make i in
  create 0 HID_REPORT_ITEM_In (replicate (Z.to_nat (PrevReportINBufferSize i)) (Some 0)) s =
    (Done (rp_force r, rp_id r, map Some (rp_data r), Z.of_nat (rp_size r)), s') /\
  bulk_of (hw s') = bulk_of (hw s) /\ get_hid (app s') = i.

Lemma wp_compare r prev b i (Q : bool -> usb H A -> Prop) E s :
  hid_ready i prev -> report_ok i r -> serving get_hid b i s ->
  (forall s', serving get_hid b (set_prev (match prev with Some _ => Some (map Some (rp_data r)) | None => None end) i) s' ->
     Q match prev with Some p => negb (bool_decide (take (rp_size r) p = take (rp_size r) (rp_data r))) | None => false end s') ->
  wp (compare_report get_hid put_hid (map Some (rp_data r)) (Z.of_nat (rp_size r))) Q E s.
Proof.
  intros (_ & Hp & Hlen) (_ & _ & Hd & Hs) Hs0 HQ. unfold compare_report. eapply wp_bind, wp_interface; [done|]. rewrite Hp.
  destruct prev as [p|]; cbn [fmap option_fmap option_map].
  - rewrite Nat2Z.id. eapply wp_bind, wp_lift; [apply cells_differ_spec; lia|]. rewrite !drop_0. unfold keep_report.
    eapply wp_bind, wp_bind, wp_interface; [done|]. rewrite Hp. cbn [fmap option_fmap option_map].
    replace (Z.to_nat (PrevReportINBufferSize i)) with (length (rp_data r)) by lia.
    eapply wp_bind, wp_lift; [apply copy_cells_all; rewrite length_map; lia|].
    eapply (wp_on_interface get_hid put_hid get_put); [done|]. intros s1 S1. by apply wp_ret, HQ.
  - apply wp_ret, HQ. destruct i; cbn in *. by subst.
Qed.

Context (fuel : nat) (Hfuel : (0 < fuel)%nat).

Lemma wp_send_report r b i (Q : unit -> usb H A -> Prop) E s :
  Z.land (ep_Address (ReportINEndpoint i)) ENDPOINT_EPNUM_MASK = in_ep -> report_ok i r ->
  (length (packet_of r) <= bulk_size)%nat -> (rp_size r <= fuel)%nat -> Z.of_nat (rp_size r) < 65536 -> b_tx b = [] -> serving get_hid b i s ->
  (forall s', serving get_hid (mk_bulk in_ep (b_rx b) [] (b_sent b ++ [packet_of r]) (b_halt_out b) (b_halt_in b) (b_next b))
     (set_remaining (IdleCount i) i) s' -> Q tt s') ->
  wp (send_report fuel get_hid put_hid (rp_id r) (map Some (rp_data r)) (Z.of_nat (rp_size r))) Q E s.
Proof.
  intros Hep (Hid & Hbytes & _ & Hs) Hroom Hf Hsz Htx Hs0 HQ. unfold send_report.
  eapply wp_bind, (wp_on_interface get_hid put_hid get_put (fun i => set_remaining (IdleCount i) i)); [done|]. intros s1 S1.
  eapply wp_bind, wp_interface; [done|]. eapply wp_bind, wp_iselect; [done..|]. intros s2 S2.
  set (i1 := set_remaining (IdleCount i) i) in *. set (ids := if rp_id r =? 0 then [] else [rp_id r]).
  assert (length (take (rp_size r) (rp_data r)) = rp_size r) as Hlen by (rewrite length_take; lia).
  assert (length ids + rp_size r <= bulk_size)%nat as Hroom' by (unfold packet_of in Hroom; rewrite length_app, Hlen in Hroom; exact Hroom).
  assert (forall s3, serving get_hid (with_tx ids (with_sel in_ep b)) i1 s3 ->
    wp (Endpoint_Write_Stream_LE fuel (map Some (rp_data r)) (Z.of_nat (rp_size r)) None ;; Endpoint_ClearIN) Q E s3) as Hrest.
  { intros s3 S3.
    replace (map Some (rp_data r)) with (map Some (take (rp_size r) (rp_data r)) ++ map Some (drop (rp_size r) (rp_data r)))
      by (by rewrite <- map_app, take_drop).
    replace (Z.of_nat (rp_size r)) with (Z.of_nat (length (take (rp_size r) (rp_data r)))) by (by rewrite Hlen).
    eapply wp_bind, (wp_bulk_write fuel Hfuel (app s3) (with_tx ids (with_sel in_ep b)));
      [done|done|by apply Forall_take|cbn; lia|lia|lia|by eapply serving_at|].
    intros s4 S4. eapply at_serving in S4; [|done]. eapply wp_isend; [|done|]; [done|]. intros s5 S5. apply HQ. exact S5. }
  apply wp_bind. unfold ids in *. destruct (Z.eqb_spec (rp_id r) 0) as [E0|E0]; cbn [negb when].
  - apply wp_ret, Hrest. by rewrite <- Htx.
  - cbn [length] in Hroom'. unfold Endpoint_Write_8. rewrite u8_small by done.
    eapply wp_iput; [| |done|done|done|]; [done|cbn; rewrite Htx; cbn; lia|].
    intros s3 S3. apply Hrest. cbn [b_tx with_sel] in S3. by rewrite Htx in S3.
Qed.

(** The number of the frame is stored at the end. *)
Lemma wp_store_frame b i s (Q : unit -> usb H A -> Prop) E :
  serving get_hid b i s ->
  (forall s', hw s' = (rd UDFNUM (hw s)).2 -> serving get_hid b (set_frame (rd UDFNUM (hw s)).1 i) s' -> Q tt s') ->
  wp (f ← USB_Device_GetFrameNumber; on_hid get_hid put_hid (set_frame f)) Q E s.
Proof.
  intros [Hb Hi] HQ. apply wp_bind. unfold USB_Device_GetFrameNumber. apply wp_read_reg. unfold on_hid. eapply HQ; [done|].
  split; cbn; [by rewrite bulk_read|]. by rewrite get_put, Hi.
Qed.

Lemma wp_poll make prev b i (Q : unit -> usb H A -> Prop) E s :
  creates make -> hid_ready i prev -> report_ok i (make i) -> (length (packet_of (make i)) <= bulk_size)%nat ->
  (rp_size (make i) <= fuel)%nat -> Z.of_nat (rp_size (make i)) < 65536 -> b_sel b = in_ep -> b_tx b = [] -> serving get_hid b i s ->
  (forall s' h, hw s' = (rd UDFNUM h).2 -> serving get_hid
     (mk_bulk in_ep (b_rx b) [] (b_sent b ++ (if due i prev (make i) then [packet_of (make i)] else [])) (b_halt_out b) (b_halt_in b) (b_next b))
     (polled i prev (make i) (rd UDFNUM h).1) s' -> Q tt s') ->
  wp (poll_report fuel get_hid put_hid create) Q E s.
Proof.
  intros Hc Hr Hok Hroom Hf Hsz Hsel Htx Hs HQ. unfold poll_report. eapply wp_bind, wp_interface; [done|].
  destruct (Hc s) as (s1 & Hrun & Hb1 & Hi1). pose proof Hs as [Hb Hi]. rewrite Hi in *. rewrite Hb in Hb1. set (r := make i) in *.
  apply wp_bind. unfold wp at 1. rewrite Hrun. cbv iota beta.
  assert (serving get_hid b i s1) as S1 by (by split).
  eapply wp_bind, wp_interface; [done|]. eapply wp_bind, wp_compare; [done..|]. intros s2 S2. apply wp_bind.
  set (i2 := set_prev _ i) in *.
  assert (negb (Z.of_nat (rp_size r) =? 0) = negb (rp_size r =? 0)%nat) as -> by (by destruct (rp_size r)).
  fold (due i prev r). destruct (due i prev r) eqn:Ed; cbn [when].
  - eapply (wp_send_report r b i2); try done; [apply Hr|]. intros s3 S3. unfold USB_Device_GetFrameNumber.
    eapply (wp_store_frame _ _ s3); [exact S3|]. intros s5 H5 S5. eapply HQ; [exact H5|]. unfold polled. rewrite Ed. exact S5.
  - apply wp_ret. eapply (wp_store_frame _ _ s2); [exact S2|]. intros s5 H5 S5. eapply HQ; [exact H5|]. unfold polled. rewrite Ed, app_nil_r.
    replace (mk_bulk in_ep (b_rx b) [] (b_sent b) (b_halt_out b) (b_halt_in b) (b_next b)) with b by (destruct b; cbn in *; congruence). exact S5.
Qed.

(** The frame number that HID_Device_USBTask reads first. *)
Definition frame_seen s : Z := (rd UDFNUM (rd USB_DeviceState (hw s)).2).1.

(** In the frame of the last opportunity nothing happens. *)
Lemma wp_same_frame b i (Q : unit -> usb H A -> Prop) E s :
  serving get_hid b i s -> PrevFrameNum i = frame_seen s -> (forall s', serving get_hid b i s' -> Q tt s') ->
  wp (HID_Device_USBTask fuel get_hid put_hid create) Q E s.
Proof.
  intros Hs Hf HQ. unfold HID_Device_USBTask. apply wp_bind, wp_read_reg. rewrite bulk_state, Z.eqb_refl. cbn [negb]. set (s1 := mk_usb _ _ _ _).
  assert (serving get_hid b i s1) as S1 by (destruct Hs as [Hb Hi]; split; [cbn; by rewrite bulk_read|done]).
  eapply wp_bind, wp_interface; [done|]. unfold USB_Device_GetFrameNumber. eapply wp_bind, wp_iread; [done..|]. intros s2 S2.
  change (rd UDFNUM (hw s1)).1 with (frame_seen s). rewrite (proj2 (Z.eqb_eq _ _)) by done. by apply wp_ret, HQ.
Qed.

Lemma wp_hid_task make prev b i (Q : unit -> usb H A -> Prop) E s :
  creates make -> hid_ready i prev -> report_ok i (make i) -> (length (packet_of (make i)) <= bulk_size)%nat ->
  (rp_size (make i) <= fuel)%nat -> Z.of_nat (rp_size (make i)) < 65536 -> b_tx b = [] -> serving get_hid b i s ->
  (forall s', PrevFrameNum i = frame_seen s -> serving get_hid b i s' -> Q tt s') ->
  (forall s' h, hw s' = (rd UDFNUM h).2 -> PrevFrameNum i <> frame_seen s -> serving get_hid
     (mk_bulk in_ep (b_rx b) [] (b_sent b ++ (if due i prev (make i) then [packet_of (make i)] else [])) (b_halt_out b) (b_halt_in b) (b_next b))
     (polled i prev (make i) (rd UDFNUM h).1) s' -> Q tt s') ->
  wp (HID_Device_USBTask fuel get_hid put_hid create) Q E s.
Proof.
  intros Hc Hr Hok Hroom Hf Hsz Htx Hs Hsame HQ. unfold HID_Device_USBTask.
  apply wp_bind, wp_read_reg. rewrite bulk_state, Z.eqb_refl. cbn [negb]. set (s1 := mk_usb _ _ _ _).
  assert (serving get_hid b i s1) as S1 by (destruct Hs as [Hb Hi]; split; [cbn; by rewrite bulk_read|done]).
  eapply wp_bind, wp_interface; [done|]. unfold USB_Device_GetFrameNumber. eapply wp_bind, wp_iread; [done..|]. intros s2 S2.
  fold (frame_seen s). change (rd UDFNUM (hw s1)).1 with (frame_seen s).
  destruct (Z.eqb_spec (PrevFrameNum i) (frame_seen s)) as [Ef|Ef]; [by apply wp_ret, Hsame|].
  eapply wp_bind, wp_iselect; [apply Hr|done|]. intros s3 S3. unfold Endpoint_IsReadWriteAllowed.
  eapply wp_bind, wp_ibit; [done..|]. intros s4 S4. rewrite bulk_writable by (destruct S3 as [-> _]; done).
  destruct S3 as [-> _]. cbn [b_tx with_sel]. rewrite Htx. pose proof bulk_room. rewrite (proj2 (Nat.ltb_lt _ _)) by (cbn; lia). cbn [when].
  eapply (wp_poll make prev (with_sel in_ep b) i); try done. intros s5 h H5 S5. by eapply HQ.
Qed.
End host.

(** * Theorem *)

(** A mouse with reports of three bytes, the last of which was all zero. *)
Definition sim_mouse : hid_info := mk_hid 0 (mk_ep 0x82 8 EP_TYPE_INTERRUPT 1) (Some (map Some [0; 0; 0])) 3 true 7 500 100.
Definition sim_report (i : hid_info) : report := mk_report false 2 [1; 5; 0] 3.
Definition sim_create (id type : Z) (data : cells) : prog (usb bulk hid_info) (bool * Z * cells * Z) :=
  mret (false, 2, map Some [1; 5; 0], 3).
Definition sim_hid_state : usb bulk hid_info := mk_usb (mk_bulk 0 [] [] [] 0 0 []) core_init sim_mouse [].

(** C18: HID_Device_USBTask on a configured device whose endpoint is empty, with a
    callback that creates a report within its buffer.  The task ends.  In the frame of
    the last opportunity it does nothing.  In a new frame it sends a report exactly
    when the report is not empty and the application asks for it, it differs from
    the previous one, or the idle period is set and over: one packet with the report
    ID, if it is not zero, and the report; it then restarts the idle time.  In either
    case the report is the previous one from now on, and the frame that is stored is the
    one that UDFNUM shows at the end: a further call in that frame does nothing. *)
Theorem hid_report_when_due {H A} `{Hardware H} {out_ep in_ep patience} `{!BulkHost H out_ep in_ep patience} fuel
    (get_hid : A -> hid_info) (put_hid : hid_info -> A -> A) create make prev (s : usb H A) :
  let i := get_hid (app s) in
  let b := bulk_of (hw s) in
  (0 < fuel)%nat -> (forall i a, get_hid (put_hid i a) = i) -> creates get_hid create make -> hid_ready (in_ep := in_ep) i prev ->
  report_ok i (make i) -> (length (packet_of (make i)) <= bulk_size)%nat -> (rp_size (make i) <= fuel)%nat ->
  Z.of_nat (rp_size (make i)) < 65536 -> b_tx b = [] ->
  exists s', HID_Device_USBTask fuel get_hid put_hid create s = (Done tt, s') /\
    if PrevFrameNum i =? frame_seen s then bulk_of (hw s') = b /\ get_hid (app s') = i
    else
      b_tx (bulk_of (hw s')) = [] /\
      b_sent (bulk_of (hw s')) = b_sent b ++ (if due i prev (make i) then [packet_of (make i)] else []) /\
      exists h, hw s' = (rd UDFNUM h).2 /\ get_hid (app s') = polled i prev (make i) (rd UDFNUM h).1 /\
        (frame_seen s' = (rd UDFNUM h).1 ->
         exists s2, HID_Device_USBTask fuel get_hid put_hid create s' = (Done tt, s2) /\ bulk_of (hw s2) = bulk_of (hw s') /\ get_hid (app s2) = get_hid (app s')).
Proof.
  intros i b Hf Hg Hc Hr Hok Hroom Hfs Hsz Htx.
  set (R := fun (_ : unit) s' => if PrevFrameNum i =? frame_seen s then bulk_of (hw s') = b /\ get_hid (app s') = i
    else b_tx (bulk_of (hw s')) = [] /\ b_sent (bulk_of (hw s')) = b_sent b ++ (if due i prev (make i) then [packet_of (make i)] else []) /\
      exists h, hw s' = (rd UDFNUM h).2 /\ get_hid (app s') = polled i prev (make i) (rd UDFNUM h).1).
  assert (wp (HID_Device_USBTask fuel get_hid put_hid create) R (fun _ _ => False) s) as Hw.
  { eapply (wp_hid_task get_hid put_hid Hg create fuel Hf make prev b i); try done; unfold R.
    - intros s' -> Hs'. by rewrite Z.eqb_refl.
    - intros s' h Hh Hn [Hb Hi]. rewrite (proj2 (Z.eqb_neq _ _)) by done. rewrite Hb. by eauto. }
  destruct (wp_run _ _ _ _ Hw) as (o & s' & E & [([] & -> & HR)|(? & _ & [])]). exists s'. split; [done|]. unfold R in HR.
  destruct (PrevFrameNum i =? frame_seen s); [done|]. destruct HR as (H1 & H2 & h & H3 & H4). split; [done|]. split; [done|]. exists h. split; [done|]. split; [done|].
  intros Hframe. set (R' := fun (_ : unit) s2 => bulk_of (hw s2) = bulk_of (hw s') /\ get_hid (app s2) = get_hid (app s')).
  assert (wp (HID_Device_USBTask fuel get_hid put_hid create) R' (fun _ _ => False) s') as (o2 & s2 & E2 & [([] & -> & HR2)|(? & _ & [])])%wp_run; [|by exists s2].
  by eapply (wp_same_frame get_hid put_hid create fuel (bulk_of (hw s')) (get_hid (app s'))); [|rewrite H4|].
Qed.

(** Witness of C18: the mouse moved, in a new frame; its report has the ID 2. *)
Lemma hid_report_when_due_witness :
  exists s', HID_Device_USBTask 8 id (fun i _ => i) sim_create sim_hid_state = (Done tt, s') /\
    b_tx (bulk_of (hw s')) = [] /\ b_sent (bulk_of (hw s')) = [[2; 1; 5; 0]] /\
    exists h, hw s' = (rd UDFNUM h).2 /\ app s' = polled sim_mouse (Some [0; 0; 0]) (sim_report sim_mouse) (rd UDFNUM h).1 /\
      (frame_seen s' = (rd UDFNUM h).1 ->
       exists s2, HID_Device_USBTask 8 id (fun i _ => i) sim_create s' = (Done tt, s2) /\ bulk_of (hw s2) = bulk_of (hw s') /\ app s2 = app s').
Proof.
  assert (creates id sim_create sim_report) as Hc by (intros s; by eexists).
  refine (match hid_report_when_due (out_ep := 1) (in_ep := 2) (patience := 3) 8 id (fun i _ => i) sim_create sim_report
    (Some [0; 0; 0]) sim_hid_state _ _ Hc _ _ _ _ _ _ with ex_intro _ s' Hs' => ex_intro _ s' Hs' end); try done; try (cbn; lia). split_and!; try done. apply (bool_decide_unpack _). by vm_compute.
Defined.
