(* ===== verification/MassStorage.v ===== *)
(** The Mass Storage class driver, Class/Device/MassStorageClassDevice.c: SCSI commands
    over two bulk endpoints.  Part of the library, not used by this firmware.

    The host sends a command block wrapper of 31 bytes, the application's callback runs
    the command, and the driver returns a status wrapper of 13 bytes.  Both structures
    are cells with the offsets of the packed C structures.  The callback is a parameter. *)

From Stdlib Require Import ZArith Lia.
From stdpp Require Import base tactics list numbers.
From S2P Require Import Prelude Posix Avr Endpoint EndpointStream Device Cdc Rndis.

Local Open Scope Z_scope.

Definition MS_CBW_SIGNATURE : Z := 0x43425355.
Definition MS_CSW_SIGNATURE : Z := 0x53425355.
Definition MS_COMMAND_DIR_DATA_IN : Z := 128.
Definition MS_REQ_GetMaxLUN : Z := 254.
Definition MS_REQ_MassStorageReset : Z := 255.
Definition MS_SCSI_COMMAND_Pass : Z := 0.
Definition MS_SCSI_COMMAND_Fail : Z := 1.
Definition sizeof_CommandBlockWrapper : Z := 31.
Definition sizeof_CommandStatusWrapper : Z := 13.

(** USB_ClassInfo_MS_Device_t *)
Record ms_info : Type := mk_ms {
  ms_InterfaceNumber : Z;
  ms_DataINEndpoint : endpoint_table;
  ms_DataOUTEndpoint : endpoint_table;
  TotalLUNs : Z;
  CommandBlock : cells;
  CommandStatus : cells;
  IsMassStoreReset : bool }.

Definition set_block (m : cells) (i : ms_info) : ms_info :=
  mk_ms (ms_InterfaceNumber i) (ms_DataINEndpoint i) (ms_DataOUTEndpoint i) (TotalLUNs i) m (CommandStatus i) (IsMassStoreReset i).
Definition set_status (m : cells) (i : ms_info) : ms_info :=
  mk_ms (ms_InterfaceNumber i) (ms_DataINEndpoint i) (ms_DataOUTEndpoint i) (TotalLUNs i) (CommandBlock i) m (IsMassStoreReset i).
Definition set_reset (b : bool) (i : ms_info) : ms_info :=
  mk_ms (ms_InterfaceNumber i) (ms_DataINEndpoint i) (ms_DataOUTEndpoint i) (TotalLUNs i) (CommandBlock i) (CommandStatus i) b.

Definition ms_configured (i : ms_info) : ms_info :=
  mk_ms (ms_InterfaceNumber i) (set_type EP_TYPE_BULK (ms_DataINEndpoint i)) (set_type EP_TYPE_BULK (ms_DataOUTEndpoint i))
    (TotalLUNs i) (replicate 31 (Some 0)) (replicate 13 (Some 0)) false.

(** The test of a command block: [true] when it is refused. *)
Definition cbw_refused (luns : Z) (m : cells) : res bool :=
  sig ← load32 m 0;
  lun ← load m 13;
  flags ← load m 12;
  len ← load m 14;
  mret (negb (sig =? MS_CBW_SIGNATURE) || (luns <=? lun) || negb (Z.land flags 31 =? 0) || (len =? 0) || (16 <? len)).

(** The fields of the status, in the order of their assignment. *)
Definition fill_status (ok : bool) (block m : cells) : res cells :=
  m1 ← store m 12 (if ok then MS_SCSI_COMMAND_Pass else MS_SCSI_COMMAND_Fail);
  m2 ← store32 m1 0 MS_CSW_SIGNATURE;
  tag ← load32 block 4;
  m3 ← store32 m2 4 tag;
  n ← load32 block 8;
  store32 m3 8 n.

Section ms.
Context {H A : Type} `{Hardware H} `{!Interrupts H A}.
Context (fuel : nat).
Context (get_ms : A -> ms_info) (put_ms : ms_info -> A -> A).

Abbreviation run := (prog (usb H A)).

(** CALLBACK_MS_Device_SCSICommandReceived of the application. *)
Context (CALLBACK_MS_Device_SCSICommandReceived : run bool).

Definition ms : run ms_info := get_mem (fun s => get_ms (app s)).
Definition on_ms (f : ms_info -> ms_info) : run unit := set_mem (on_app (fun a => put_ms (f (get_ms a)) a)).

Definition MS_Device_ProcessControlRequest : run unit :=
  setup ← Endpoint_IsSETUPReceived;
  if negb setup then mret tt
  else
    req ← get_request;
    i ← ms;
    if negb (wIndex req =? ms_InterfaceNumber i) then mret tt
    else if bRequest req =? MS_REQ_MassStorageReset then
      when (bmRequestType req =? class_out) (
        Endpoint_ClearSETUP ;; Endpoint_ClearStatusStage fuel ;; on_ms (set_reset true))
    else if bRequest req =? MS_REQ_GetMaxLUN then
      when (bmRequestType req =? class_in) (
        Endpoint_ClearSETUP ;;
        wait_until fuel Endpoint_IsINReady never ;;
        Endpoint_Write_8 (TotalLUNs i - 1) ;;
        Endpoint_ClearIN ;;
        Endpoint_ClearStatusStage fuel)
    else mret tt.

(** [configure] is Endpoint_ConfigureEndpointTable, as the program configures the
    library. *)
Definition MS_Device_ConfigureEndpoints (configure : list endpoint_table -> run bool) : run bool :=
  on_ms ms_configured ;;
  i ← ms;
  a ← configure [ms_DataINEndpoint i];
  if negb a then mret false
  else
    b ← configure [ms_DataOUTEndpoint i];
    mret b.

(** while (Endpoint_Read_Stream_LE(...) == IncompleteTransfer) into CommandBlock at
    [base]: [false] when a reset ends it. *)
Fixpoint read_block (k : nat) (base Length BytesProcessed : Z) : run bool :=
  match k with
  | O => lift (Fault OutOfFuel)
  | S k' =>
      i ← ms;
      r ← template_rw fuel Endpoint_ClearOUT transfer_in (fun _ => base) 1 (CommandBlock i) Length (Some BytesProcessed);
      on_ms (set_block r.1.2) ;;
      if r.1.1 =? ENDPOINT_RWSTREAM_IncompleteTransfer then
        i' ← ms;
        if IsMassStoreReset i' then mret false else read_block k' base Length (default 0 r.2)
      else mret true
  end.

Definition MS_Device_ReadInCommandBlock : run bool :=
  i ← ms;
  Endpoint_SelectEndpoint (ep_Address (ms_DataOUTEndpoint i)) ;;
  a ← read_block fuel 0 (sizeof_CommandBlockWrapper - 16) 0;
  if negb a then mret false
  else
    i1 ← ms;
    bad ← lift (cbw_refused (TotalLUNs i1) (CommandBlock i1));
    if (bad : bool) then
      Endpoint_StallTransaction ;;
      Endpoint_SelectEndpoint (ep_Address (ms_DataINEndpoint i1)) ;;
      Endpoint_StallTransaction ;;
      mret false
    else
      len ← lift (load (CommandBlock i1) 14);
      b ← read_block fuel 15 len 0;
      if negb b then mret false
      else Endpoint_ClearOUT ;; mret true.

(** while (Endpoint_IsStalled()): [false] when a reset ends it. *)
Fixpoint wait_unstalled (k : nat) : run bool :=
  match k with
  | O => lift (Fault OutOfFuel)
  | S k' =>
      st ← Endpoint_IsStalled;
      if negb st then mret true
      else i ← ms; if IsMassStoreReset i then mret false else wait_unstalled k'
  end.

(** while (Endpoint_Write_Stream_LE(...) == IncompleteTransfer) *)
Fixpoint write_status (k : nat) (BytesProcessed : Z) : run bool :=
  match k with
  | O => lift (Fault OutOfFuel)
  | S k' =>
      i ← ms;
      r ← Endpoint_Write_Stream_LE fuel (CommandStatus i) sizeof_CommandStatusWrapper (Some BytesProcessed);
      if r.1.1 =? ENDPOINT_RWSTREAM_IncompleteTransfer then
        i' ← ms;
        if IsMassStoreReset i' then mret false else write_status k' (default 0 r.2)
      else mret true
  end.

Definition MS_Device_ReturnCommandStatus : run unit :=
  i ← ms;
  Endpoint_SelectEndpoint (ep_Address (ms_DataOUTEndpoint i)) ;;
  a ← wait_unstalled fuel;
  if negb a then mret tt
  else
    Endpoint_SelectEndpoint (ep_Address (ms_DataINEndpoint i)) ;;
    b ← wait_unstalled fuel;
    if negb b then mret tt
    else
      c ← write_status fuel 0;
      when c Endpoint_ClearIN.

(** A command that was read: the callback and the status. *)
Definition run_command : run unit :=
  i ← ms;
  flags ← lift (load (CommandBlock i) 12);
  when (negb (Z.land flags MS_COMMAND_DIR_DATA_IN =? 0)) (Endpoint_SelectEndpoint (ep_Address (ms_DataINEndpoint i))) ;;
  ok ← CALLBACK_MS_Device_SCSICommandReceived;
  i1 ← ms;
  m ← lift (fill_status ok (CommandBlock i1) (CommandStatus i1));
  on_ms (set_status m) ;;
  residue ← lift (load32 m 8);
  when (negb ok && negb (residue =? 0)) Endpoint_StallTransaction ;;
  MS_Device_ReturnCommandStatus.

Definition reset_endpoints (i : ms_info) : run unit :=
  Endpoint_ResetEndpoint (ep_Address (ms_DataOUTEndpoint i)) ;;
  Endpoint_ResetEndpoint (ep_Address (ms_DataINEndpoint i)) ;;
  Endpoint_SelectEndpoint (ep_Address (ms_DataOUTEndpoint i)) ;;
  Endpoint_ClearStall ;;
  Endpoint_ResetDataToggle ;;
  Endpoint_SelectEndpoint (ep_Address (ms_DataINEndpoint i)) ;;
  Endpoint_ClearStall ;;
  Endpoint_ResetDataToggle ;;
  on_ms (set_reset false).

Definition MS_Device_USBTask : run unit :=
  st ← read_reg USB_DeviceState;
  if negb (st =? DEVICE_STATE_Configured) then mret tt
  else
    i ← ms;
    Endpoint_SelectEndpoint (ep_Address (ms_DataOUTEndpoint i)) ;;
    out ← Endpoint_IsOUTReceived;
    when out (
      cmd ← MS_Device_ReadInCommandBlock;
      when cmd run_command) ;;
    i' ← ms;
    when (IsMassStoreReset i') (reset_endpoints i').
End ms.
