(* ===== verification/MassStorageProofs.v ===== *)
(** What the Mass Storage driver does with a command.

    [transact] is the bulk-only protocol: a valid command block goes to the medium
    and is answered by a status with its tag; an invalid one halts both endpoints.
    The application's callback promises [Medium]; the driver then implements
    [transact] on a [BulkHost]. *)

From Stdlib Require Import ZArith Lia.
From stdpp Require Import base tactics list numbers.
From S2P Require Import Prelude Posix Avr Endpoint EndpointStream Device Cdc Rndis RndisProofs BulkHost MassStorage.

Local Open Scope Z_scope.

(** * The protocol *)

(** A command block wrapper. *)
Record cbw : Type := mk_cbw {
  cbw_signature : Z;
  cbw_tag : Z;
  cbw_length : Z;
  cbw_flags : Z;
  cbw_lun : Z;
  cbw_count : Z;
  cbw_command : list Z }.

Definition cbw_head (c : cbw) : list Z :=
  concat (map le32 [cbw_signature c; cbw_tag c; cbw_length c]) ++ [cbw_flags c; cbw_lun c; cbw_count c].
Definition cbw_bytes (c : cbw) : list Z := cbw_head c ++ cbw_command c.

Definition cbw_ok (c : cbw) : Prop :=
  Forall is_u32 [cbw_signature c; cbw_tag c; cbw_length c] /\
  Forall is_byte [cbw_flags c; cbw_lun c; cbw_count c] /\
  Forall is_byte (cbw_command c) /\ length (cbw_command c) = 16%nat.

(** A block that is meaningful for a device with [luns] units. *)
Definition cbw_valid (luns : Z) (c : cbw) : bool :=
  (cbw_signature c =? MS_CBW_SIGNATURE) && (cbw_lun c <? luns) && (Z.land (cbw_flags c) 31 =? 0) &&
  (1 <=? cbw_count c) && (cbw_count c <=? 16).

(** A command status wrapper. *)
Definition csw_bytes (tag residue : Z) (ok : bool) : list Z :=
  concat (map le32 [MS_CSW_SIGNATURE; tag; residue]) ++ [if ok then MS_SCSI_COMMAND_Pass else MS_SCSI_COMMAND_Fail].

(** The command block in memory: the command's bytes that were read, before the old ones. *)
Definition read_cbw (c : cbw) (old : cells) : cells :=
  let n := Z.to_nat (cbw_count c) in
  map Some (cbw_head c) ++ map Some (take n (cbw_command c)) ++ drop (15 + n) old.

(** What is left of DataTransferLength. *)
Definition residue_of (i : ms_info) : Z := match load32 (CommandBlock i) 8 with Ok v => v | Fault _ => 0 end.

Section protocol.
Context {A : Type} (get_ms : A -> ms_info) (put_ms : ms_info -> A -> A).
Context (out_ep in_ep : Z) (patience : nat).
Context (medium : A -> bulk -> option (bool * A * bulk)).

(** A change of the interface in the application's state. *)
Definition upd (f : ms_info -> ms_info) (a : A) : A := put_ms (f (get_ms a)) a.

(** The state of the application and the endpoints after the command [c], which is in
    the OUT bank; nothing where the medium promises nothing. *)
Definition transact (a : A) (c : cbw) (b : bulk) : option (A * bulk) :=
  if cbw_valid (TotalLUNs (get_ms a)) c then
    match medium (upd (set_block (read_cbw c (CommandBlock (get_ms a)))) a)
        (mk_bulk (if Z.testbit (cbw_flags c) 7 then in_ep else out_ep) (default [] (head (b_next b))) [] (b_sent b) 0 0 (tail (b_next b))) with
    | Some (ok, a', b') =>
        let csw := csw_bytes (cbw_tag c) (residue_of (get_ms a')) ok in
        Some (upd (set_status (map Some csw)) a', mk_bulk in_ep (b_rx b') [] (b_sent b' ++ [csw]) 0 0 (b_next b'))
    | None => None
    end
  else Some (upd (set_block (map Some (cbw_head c) ++ drop 15 (CommandBlock (get_ms a)))) a,
             mk_bulk in_ep (cbw_command c) [] (b_sent b) patience patience (b_next b)).
End protocol.

(** The interface fits the endpoints, and no reset is pending. *)
Definition ms_ready (out_ep in_ep : Z) (i : ms_info) : Prop :=
  Z.land (ep_Address (ms_DataOUTEndpoint i)) ENDPOINT_EPNUM_MASK = out_ep /\
  Z.land (ep_Address (ms_DataINEndpoint i)) ENDPOINT_EPNUM_MASK = in_ep /\
  length (CommandBlock i) = 31%nat /\ length (CommandStatus i) = 13%nat /\ IsMassStoreReset i = false.

(** What the application's callback promises: where the function [medium] of the
    application's state and of the endpoints is defined, it is what the callback does;
    it leaves the command's header but for its length, and no unsent bytes. *)
Class Medium {H A} `{Hardware H} {out_ep in_ep patience} `{!BulkHost H out_ep in_ep patience}
    (get_ms : A -> ms_info) (callback : prog (usb H A) bool) (medium : A -> bulk -> option (bool * A * bulk)) : Prop := {
  medium_runs : forall s ok a' b', medium (app s) (bulk_of (hw s)) = Some (ok, a', b') ->
    exists s', callback s = (Done ok, s') /\ app s' = a' /\ bulk_of (hw s') = b';
  medium_keeps : forall a b ok a' b' sig tag len rest,
    medium a b = Some (ok, a', b') -> ms_ready out_ep in_ep (get_ms a) -> is_u32 len ->
    CommandBlock (get_ms a) = words [sig; tag; len] ++ rest ->
    ms_ready out_ep in_ep (get_ms a') /\
    exists len' rest', is_u32 len' /\ CommandBlock (get_ms a') = words [sig; tag; len'] ++ rest';
  medium_leaves : forall a b ok a' b',
    medium a b = Some (ok, a', b') -> b_tx b = [] -> b_halt_out b = 0%nat -> b_halt_in b = 0%nat ->
      b_tx b' = [] /\ (b_halt_out b' <= patience)%nat /\ (b_halt_in b' <= patience)%nat }.

(** * Structures in memory *)

Lemma length_cbw_head c : length (cbw_head c) = 15%nat.
Proof. done. Qed.

Lemma cbw_head_words c : map Some (cbw_head c) = words [cbw_signature c; cbw_tag c; cbw_length c] ++ map Some [cbw_flags c; cbw_lun c; cbw_count c].
Proof. unfold cbw_head. by rewrite map_app. Qed.

Lemma load_head c rest k x : (cbw_head c) !! k = Some x -> load (map Some (cbw_head c) ++ rest) k = Ok x.
Proof.
  intros Hk. unfold load. rewrite lookup_app_l by (rewrite length_map; by eapply lookup_lt_Some).
  by rewrite list_lookup_fmap, Hk.
Qed.

Lemma cbw_refused_head luns c rest : cbw_ok c -> cbw_refused luns (map Some (cbw_head c) ++ rest) = Ok (negb (cbw_valid luns c)).
Proof.
  intros (Hw & Hb & _). rewrite !Forall_cons_iff in Hw, Hb. destruct Hw as (Hsig & _), Hb as (Hf & Hl & Hn & _).
  unfold cbw_refused. rewrite cbw_head_words, <- app_assoc at 1. rewrite (load32_words _ _ 0 (cbw_signature c)), res_bind_ok by done.
  rewrite (load_head c rest 13 (cbw_lun c)), (load_head c rest 12 (cbw_flags c)), (load_head c rest 14 (cbw_count c)) by done.
  rewrite !res_bind_ok. unfold cbw_valid. f_equal. rewrite !negb_andb. rewrite <- Z.leb_antisym.
  f_equal; [f_equal|]; [|rewrite <- Z.ltb_antisym; done]. destruct Hn as [Hn _].
  destruct (Z.eqb_spec (cbw_count c) 0), (Z.leb_spec 1 (cbw_count c)); done || lia.
Qed.

Lemma fill_status_spec ok sig tag len rest st :
  is_u32 tag -> is_u32 len -> length st = 13%nat ->
  fill_status ok (words [sig; tag; len] ++ rest) st = Ok (map Some (csw_bytes tag len ok)).
Proof.
  intros Ht Hl Hst. unfold fill_status. rewrite (load32_words _ _ 1 tag), (load32_words _ _ 2 len) by done.
  do 13 (destruct st as [|? st]; [discriminate Hst|]). destruct st; [|discriminate Hst]. done.
Qed.

Lemma load32_csw tag len ok : is_u32 len -> load32 (map Some (csw_bytes tag len ok)) 8 = Ok len.
Proof. intros Hl. unfold csw_bytes. rewrite map_app. by apply (load32_words [MS_CSW_SIGNATURE; tag; len] _ 2 len). Qed.

Lemma csw_is_bytes tag len ok : Forall is_byte (csw_bytes tag len ok).
Proof.
  unfold csw_bytes. cbn [map concat]. repeat (apply Forall_app; split); try apply le32_bytes; [constructor|].
  by destruct ok; repeat constructor.
Qed.

(** * The driver *)

Section driver.
Context {H A : Type} `{HW : Hardware H} {out_ep in_ep : Z} {patience : nat} `{BH : !BulkHost H out_ep in_ep patience}.
Context (fuel : nat) (Hfuel : (patience < fuel)%nat) (Hfuel31 : (31 <= fuel)%nat).
Context (get_ms : A -> ms_info) (put_ms : ms_info -> A -> A).
Context (get_put : forall i a, get_ms (put_ms i a) = i) (put_put : forall i j a, put_ms i (put_ms j a) = put_ms i a).
Implicit Types s : usb H A.

Lemma Hfuel0 : (0 < fuel)%nat.
Proof using Hfuel31. clear Hfuel. lia. Qed.

(** ** The interface *)

Lemma wp_ms b a (Q : ms_info -> usb H A -> Prop) E s : at_bulk b a s -> Q (get_ms a) s -> wp (ms get_ms) Q E s.
Proof. intros [_ <-] HQ. by apply wp_get_mem. Qed.

Lemma wp_on_ms f b a (Q : unit -> usb H A -> Prop) E s :
  at_bulk b a s -> (forall s', at_bulk b (upd get_ms put_ms f a) s' -> Q tt s') -> wp (on_ms get_ms put_ms f) Q E s.
Proof. intros [Hb <-] HQ. unfold wp, on_ms. rewrite set_mem_run. by apply HQ. Qed.

Lemma get_upd f a : get_ms (upd get_ms put_ms f a) = f (get_ms a).
Proof. apply get_put. Qed.

Lemma upd_upd f g a : upd get_ms put_ms f (upd get_ms put_ms g a) = upd get_ms put_ms (fun i => f (g i)) a.
Proof. unfold upd. by rewrite get_put, put_put. Qed.

(** ** Reading *)

Lemma wp_read_block pre old post bs rest b a (Q : bool -> usb H A -> Prop) E s :
  CommandBlock (get_ms a) = pre ++ old ++ post -> length old = length bs -> bs <> [] -> (length bs <= 31)%nat ->
  b_sel b = out_ep -> b_rx b = bs ++ rest -> at_bulk b a s ->
  (forall s', at_bulk (with_rx rest b) (upd get_ms put_ms (set_block (pre ++ map Some bs ++ post)) a) s' -> Q true s') ->
  wp (read_block fuel get_ms put_ms fuel (Z.of_nat (length pre)) (Z.of_nat (length bs)) 0) Q E s.
Proof.
  intros Hm Hold Hne Hlen Hsel Hrx Hs HQ. assert (exists k, fuel = S k) as [k Hk] by (exists (pred fuel); lia). rewrite Hk at 2.
  cbn [read_block]. eapply wp_bind, wp_ms; [done|]. rewrite Hm. apply wp_bind.
  eapply (wp_bulk_read fuel Hfuel0 a b (Some 0) bs rest); try done; [lia|lia|]. intros s1 H1.
  eapply wp_bind, wp_on_ms; [done|]. cbn. intros s2 H2. by apply wp_ret, HQ.
Qed.

(** ** Waiting for the host *)

Lemma wp_wait_unstalled a (Q : bool -> usb H A -> Prop) E : IsMassStoreReset (get_ms a) = false -> forall k b s,
  b_sel b = out_ep \/ b_sel b = in_ep -> (halt_of out_ep b < k)%nat -> at_bulk b a s ->
  (forall s', at_bulk (with_halt out_ep 0 b) a s' -> Q true s') -> wp (wait_unstalled get_ms k) Q E s.
Proof.
  intros Hr. induction k as [|k IH]; intros b s Hsel Hk Hs HQ; [lia|]. cbn [wait_unstalled].
  eapply wp_bind, wp_bstalled; [done|done|]. intros s1 H1.
  destruct (Nat.ltb_spec 0 (halt_of out_ep b)) as [Hp|Hp]; cbn [negb].
  - eapply wp_bind, wp_ms; [done|]. rewrite Hr. eapply (IH (with_halt out_ep (pred (halt_of out_ep b)) b)); [by rewrite with_halt_sel|rewrite halt_of_with; lia|done|].
    intros s2 H2. apply HQ. by rewrite with_halt_twice in H2.
  - apply wp_ret, HQ. by replace (pred (halt_of out_ep b)) with 0%nat in H1 by lia.
Qed.

(** ** Answering *)

Lemma wp_write_status bs b a (Q : bool -> usb H A -> Prop) E s :
  CommandStatus (get_ms a) = map Some bs -> length bs = 13%nat -> (13 <= bulk_size)%nat -> Forall is_byte bs ->
  b_sel b = in_ep -> b_tx b = [] -> at_bulk b a s ->
  (forall s', at_bulk (with_tx bs b) a s' -> Q true s') -> wp (write_status fuel get_ms fuel 0) Q E s.
Proof.
  intros Hm Hlen Hsize Hb Hsel Htx Hs HQ. assert (exists k, fuel = S k) as [k Hk] by (exists (pred fuel); lia). rewrite Hk at 2.
  cbn [write_status]. eapply wp_bind, wp_ms; [done|]. rewrite Hm. change sizeof_CommandStatusWrapper with (Z.of_nat 13). rewrite <- Hlen.
  rewrite <- (app_nil_r (map Some bs)).
  eapply wp_bind, (wp_bulk_write fuel Hfuel0 a b); try done; try lia; [rewrite Htx; cbn; lia|]. intros s1 H1. rewrite Htx in H1.
  cbn [fst snd Z.eqb ENDPOINT_RWSTREAM_NoError ENDPOINT_RWSTREAM_IncompleteTransfer]. by apply wp_ret, HQ.
Qed.

Lemma wp_return_status bs b a (Q : unit -> usb H A -> Prop) E s :
  ms_ready out_ep in_ep (get_ms a) -> CommandStatus (get_ms a) = map Some bs -> length bs = 13%nat -> (13 <= bulk_size)%nat -> Forall is_byte bs ->
  b_tx b = [] -> (b_halt_out b <= patience)%nat -> (b_halt_in b <= patience)%nat -> at_bulk b a s ->
  (forall s', at_bulk (mk_bulk in_ep (b_rx b) [] (b_sent b ++ [bs]) 0 0 (b_next b)) a s' -> Q tt s') ->
  wp (MS_Device_ReturnCommandStatus fuel get_ms) Q E s.
Proof.
  intros (Ho & Hi & _ & _ & Hr) Hm Hlen Hsize Hb Htx H1 H2 Hs HQ. unfold MS_Device_ReturnCommandStatus.
  eapply wp_bind, wp_ms; [done|]. eapply wp_bind, wp_bselect; [done..|]. intros s1 S1.
  eapply wp_bind, (wp_wait_unstalled a _ _ Hr fuel (with_sel out_ep b)); [by left|unfold halt_of; cbn; rewrite Z.eqb_refl; lia|done|]. intros s2 S2. cbn [negb].
  eapply wp_bind, wp_bselect; [done..|]. intros s3 S3. unfold with_halt in S3. cbn in S3. rewrite Z.eqb_refl in S3. cbn in S3.
  pose proof in_not_out as Hd.
  eapply wp_bind, (wp_wait_unstalled a _ _ Hr fuel (mk_bulk in_ep (b_rx b) (b_tx b) (b_sent b) 0 (b_halt_in b) (b_next b))); [by right|unfold halt_of; cbn; rewrite Hd; lia|done|]. intros s4 S4. cbn [negb].
  unfold with_halt in S4. cbn in S4. rewrite Hd in S4.
  eapply wp_bind, (wp_write_status bs (mk_bulk in_ep (b_rx b) (b_tx b) (b_sent b) 0 0 (b_next b)) a); try done. intros s5 S5. cbn [when].
  eapply (wp_bsend (with_tx bs (mk_bulk in_ep (b_rx b) (b_tx b) (b_sent b) 0 0 (b_next b)))); [done|done|]. intros s6 S6. by apply HQ.
Qed.

(** ** A command *)

Lemma wp_read_in c sent nx a (Q : bool -> usb H A -> Prop) E s e :
  cbw_ok c -> ms_ready out_ep in_ep (get_ms a) -> at_bulk (mk_bulk e (cbw_bytes c) [] sent 0 0 nx) a s ->
  (forall s', cbw_valid (TotalLUNs (get_ms a)) c = true ->
     at_bulk (mk_bulk out_ep (default [] (head nx)) [] sent 0 0 (tail nx)) (upd get_ms put_ms (set_block (read_cbw c (CommandBlock (get_ms a)))) a) s' -> Q true s') ->
  (forall s', cbw_valid (TotalLUNs (get_ms a)) c = false ->
     at_bulk (mk_bulk in_ep (cbw_command c) [] sent patience patience nx)
       (upd get_ms put_ms (set_block (map Some (cbw_head c) ++ drop 15 (CommandBlock (get_ms a)))) a) s' -> Q false s') ->
  wp (MS_Device_ReadInCommandBlock fuel get_ms put_ms) Q E s.
Proof.
  intros Hc (Ho & Hi & Hlen & _ & _) Hs Hyes Hno. unfold MS_Device_ReadInCommandBlock. set (m := CommandBlock (get_ms a)) in *.
  eapply wp_bind, wp_ms; [done|]. eapply wp_bind, wp_bselect; [done..|]. intros s1 S1. apply wp_bind.
  eapply (wp_read_block [] (take 15 m) (drop 15 m) (cbw_head c) (cbw_command c) (mk_bulk out_ep (cbw_bytes c) [] sent 0 0 nx) a);
    [symmetry; apply take_drop|by rewrite length_take, Hlen|done|cbn; lia|done..|].
  intros s2 S2. cbn [negb app]. eapply wp_bind, wp_ms; [done|]. rewrite get_upd. cbn [TotalLUNs set_block CommandBlock ms_DataINEndpoint app].
  eapply wp_bind, wp_lift; [by apply cbw_refused_head|]. destruct (cbw_valid (TotalLUNs (get_ms a)) c) eqn:Hv; cbn [negb].
  - eapply wp_bind, wp_lift; [by apply (load_head c _ 14 (cbw_count c))|]. apply wp_bind.
    unfold cbw_valid in Hv. rewrite !andb_true_iff, !Z.leb_le in Hv. destruct Hv as [[_ Hn1] Hn2].
    destruct Hc as (_ & _ & _ & Hcmd). set (n := Z.to_nat (cbw_count c)).
    assert (length (take n (cbw_command c)) = n) as Hbs by (rewrite length_take; lia).
    replace (cbw_count c) with (Z.of_nat (length (take n (cbw_command c)))) by (rewrite Hbs; lia).
    eapply (wp_read_block (map Some (cbw_head c)) (take n (drop 15 m)) (drop n (drop 15 m)) (take n (cbw_command c)) (drop n (cbw_command c))
      (mk_bulk out_ep (cbw_command c) [] sent 0 0 nx) (upd get_ms put_ms (set_block (map Some (cbw_head c) ++ drop 15 m)) a));
      [rewrite get_upd; cbn [CommandBlock set_block]; by rewrite take_drop|rewrite Hbs, length_take, length_drop, Hlen; lia| |lia| | |exact S2|].
    + intros En. rewrite En in Hbs. cbn in Hbs. lia.
    + done.
    + cbn. by rewrite take_drop.
    + intros s3 S3. cbn [negb]. eapply wp_bind, wp_brelease; [|done|]; [done|]. intros s4 S4. apply wp_ret, Hyes; [done|].
      rewrite upd_upd in S4. revert S4. unfold read_cbw. by rewrite drop_drop.
  - eapply wp_bind, wp_bstall; [done|]. intros s3 S3. eapply wp_bind, wp_bselect; [done..|]. intros s4 S4.
    eapply wp_bind, wp_bstall; [done|]. intros s5 S5. apply wp_ret, Hno; [done|]. revert S5. unfold with_halt. cbn.
    rewrite Z.eqb_refl. cbn. by rewrite in_not_out.
Qed.

Lemma direction_bit v : is_byte v -> negb (Z.land v MS_COMMAND_DIR_DATA_IN =? 0) = Z.testbit v 7.
Proof.
  intros Hv. apply eqb_prop. revert v Hv. apply (byte_forall (fun v => Bool.eqb (negb (Z.land v MS_COMMAND_DIR_DATA_IN =? 0)) (Z.testbit v 7))).
  by vm_compute.
Qed.

Lemma length_read_cbw c old : cbw_ok c -> cbw_count c <= 16 -> length old = 31%nat -> length (read_cbw c old) = 31%nat.
Proof.
  intros (_ & _ & _ & Hc) Hn Hold. unfold read_cbw. rewrite !length_app, !length_map, length_take, length_drop, length_cbw_head, Hc, Hold. lia.
Qed.

Lemma load32_residue i sig tag len rest : CommandBlock i = words [sig; tag; len] ++ rest -> is_u32 len -> residue_of i = len.
Proof. intros Hm Hl. unfold residue_of. rewrite Hm. by rewrite (load32_words _ _ 2 len). Qed.

Context (callback : prog (usb H A) bool) (medium : A -> bulk -> option (bool * A * bulk)).
Context `{MD : !Medium get_ms callback medium}.

(** The status after the callback. *)
Lemma wp_answer ok sig tag len rest b a (Q : unit -> usb H A -> Prop) E s :
  ms_ready out_ep in_ep (get_ms a) -> is_u32 tag -> is_u32 len -> CommandBlock (get_ms a) = words [sig; tag; len] ++ rest -> (13 <= bulk_size)%nat ->
  b_tx b = [] -> (b_halt_out b <= patience)%nat -> (b_halt_in b <= patience)%nat -> at_bulk b a s ->
  (forall s', at_bulk (mk_bulk in_ep (b_rx b) [] (b_sent b ++ [csw_bytes tag len ok]) 0 0 (b_next b))
     (upd get_ms put_ms (set_status (map Some (csw_bytes tag len ok))) a) s' -> Q tt s') ->
  wp (i1 ← ms get_ms;
      m ← lift (fill_status ok (CommandBlock i1) (CommandStatus i1));
      on_ms get_ms put_ms (set_status m) ;;
      residue ← lift (load32 m 8);
      when (negb ok && negb (residue =? 0)) Endpoint_StallTransaction ;;
      MS_Device_ReturnCommandStatus fuel get_ms) Q E s.
Proof.
  intros Hr Ht Hl Hm Hsize Htx H1 H2 Hs HQ. pose proof Hr as (Ho & Hi & Hlen & Hst & Hrs). eapply wp_bind, wp_ms; [done|]. rewrite Hm.
  eapply wp_bind, wp_lift; [by apply fill_status_spec|]. eapply wp_bind, wp_on_ms; [done|]. intros s1 S1.
  eapply wp_bind, wp_lift; [by apply load32_csw|]. set (bs := csw_bytes tag len ok) in *. set (a1 := upd get_ms put_ms (set_status (map Some bs)) a) in *.
  assert (get_ms a1 = set_status (map Some bs) (get_ms a)) as Ea by apply get_upd.
  assert (forall b', b_tx b' = [] -> b_rx b' = b_rx b -> b_sent b' = b_sent b -> b_next b' = b_next b ->
    (b_halt_out b' <= patience)%nat -> (b_halt_in b' <= patience)%nat ->
    forall s2, at_bulk b' a1 s2 -> wp (MS_Device_ReturnCommandStatus fuel get_ms) Q E s2) as Hret.
  { intros b' B1 B2 B3 B4 B5 B6 s2 S2. eapply (wp_return_status bs b' a1); rewrite ?Ea; try done; [apply csw_is_bytes|].
    intros s3 S3. apply HQ. by rewrite B2, B3, B4 in S3. }
  apply wp_bind. destruct (negb ok && negb (len =? 0)); cbn [when].
  - eapply wp_bstall; [done|]. intros s2 S2. eapply Hret, S2; unfold with_halt; destruct (b_sel b =? out_ep); cbn; done || lia.
  - apply wp_ret. by eapply Hret.
Qed.

(** A valid command: the callback on the right endpoint, then the status. *)
Lemma wp_run_command c a sent nx a' b' (Q : unit -> usb H A -> Prop) E s e rx :
  cbw_ok c -> ms_ready out_ep in_ep (get_ms a) -> (13 <= bulk_size)%nat -> cbw_valid (TotalLUNs (get_ms a)) c = true ->
  transact get_ms put_ms out_ep in_ep patience medium a c (mk_bulk e rx [] sent 0 0 nx) = Some (a', b') ->
  at_bulk (mk_bulk out_ep (default [] (head nx)) [] sent 0 0 (tail nx)) (upd get_ms put_ms (set_block (read_cbw c (CommandBlock (get_ms a)))) a) s ->
  (forall s', ms_ready out_ep in_ep (get_ms a') -> at_bulk b' a' s' -> Q tt s') ->
  wp (run_command fuel get_ms put_ms callback) Q E s.
Proof using All.
  intros Hc Hr Hsize Hv Ht Hs HQ. pose proof Hr as (Ho & Hi & Hlen & Hst & Hrs). unfold run_command. unfold transact in Ht. rewrite Hv in Ht. cbn [b_next b_sent] in Ht.
  pose proof Hc as (Hw & Hb & _). rewrite !Forall_cons_iff in Hw, Hb. destruct Hw as (_ & Htag & Hcl & _), Hb as (Hf & _).
  set (a1 := upd get_ms put_ms (set_block (read_cbw c (CommandBlock (get_ms a)))) a) in *.
  assert (get_ms a1 = set_block (read_cbw c (CommandBlock (get_ms a))) (get_ms a)) as Ea by apply get_upd.
  eapply wp_bind, wp_ms; [done|]. rewrite Ea. cbn [CommandBlock set_block ms_DataINEndpoint].
  eapply wp_bind, wp_lift; [by apply (load_head c _ 12 (cbw_flags c))|]. rewrite direction_bit by done.
  set (b1 := mk_bulk (if Z.testbit (cbw_flags c) 7 then in_ep else out_ep) (default [] (head nx)) [] sent 0 0 (tail nx)) in *.
  assert (ms_ready out_ep in_ep (get_ms a1)) as Hr1.
  { rewrite Ea. split_and!; try done. apply length_read_cbw; [done| |done]. unfold cbw_valid in Hv. rewrite !andb_true_iff, !Z.leb_le in Hv. lia. }
  assert (CommandBlock (get_ms a1) = words [cbw_signature c; cbw_tag c; cbw_length c] ++
    (map Some [cbw_flags c; cbw_lun c; cbw_count c] ++ drop 15 (read_cbw c (CommandBlock (get_ms a))))) as Hm1.
  { rewrite Ea. cbn [CommandBlock set_block]. unfold read_cbw. by rewrite cbw_head_words, <- app_assoc. }
  destruct (medium a1 b1) as [[[ok a2] b2]|] eqn:Hmed; [|done]. injection Ht as <- <-.
  destruct (medium_keeps _ _ _ _ _ _ _ _ _ Hmed Hr1 Hcl Hm1) as (Hr' & len' & rest' & Hl' & Hm').
  destruct (medium_leaves _ _ _ _ _ Hmed) as (T1 & T2 & T3); [done..|].
  rewrite (load32_residue _ _ _ _ _ Hm' Hl') in HQ.
  apply wp_bind. assert (forall s2, at_bulk b1 a1 s2 -> exists s3, callback s2 = (Done ok, s3) /\ at_bulk b2 a2 s3) as Hcall.
  { intros s2 [B2 A2]. destruct (medium_runs s2 ok a2 b2) as (s3 & E3 & A3 & B3); [by rewrite A2, B2|]. by exists s3. }
  assert (forall s2, at_bulk b1 a1 s2 -> wp (ok ← callback;
      i2 ← ms get_ms;
      m ← lift (fill_status ok (CommandBlock i2) (CommandStatus i2));
      on_ms get_ms put_ms (set_status m) ;;
      residue ← lift (load32 m 8);
      when (negb ok && negb (residue =? 0)) Endpoint_StallTransaction ;;
      MS_Device_ReturnCommandStatus fuel get_ms) Q E s2) as Hrest.
  { intros s2 S2. destruct (Hcall s2 S2) as (s3 & E3 & S3). apply wp_bind. unfold wp at 1. rewrite E3.
    eapply (wp_answer ok (cbw_signature c) (cbw_tag c) len' rest' b2 a2); try done. intros s4 S4. apply (HQ s4); [|done].
    rewrite get_upd. destruct Hr' as (? & ? & ? & ? & ?). by split_and!. }
  destruct (Z.testbit (cbw_flags c) 7); cbn [when].
  - eapply wp_bselect; [done..|]. intros s2 S2. by apply Hrest.
  - apply wp_ret. by apply Hrest.
Qed.

Lemma wp_task c a e sent nx a' b' E s :
  cbw_ok c -> ms_ready out_ep in_ep (get_ms a) -> (13 <= bulk_size)%nat -> at_bulk (mk_bulk e (cbw_bytes c) [] sent 0 0 nx) a s ->
  transact get_ms put_ms out_ep in_ep patience medium a c (mk_bulk e (cbw_bytes c) [] sent 0 0 nx) = Some (a', b') ->
  wp (MS_Device_USBTask fuel get_ms put_ms callback) (fun _ s' => at_bulk b' a' s') E s.
Proof using All.
  intros Hc Hr Hsize Hs Ht. pose proof Hr as (Ho & Hi & Hlen & Hst & Hrs). unfold MS_Device_USBTask.
  eapply wp_bind, wp_bread; [done..|]. intros s1 S1. rewrite bulk_state. cbn [negb Z.eqb Pos.eqb].
  eapply wp_bind, wp_ms; [done|]. eapply wp_bind, wp_bselect; [done..|]. intros s2 S2. apply wp_bind. unfold Endpoint_IsOUTReceived.
  eapply wp_bbit; [done..|]. intros s3 S3. rewrite bulk_received by (destruct S2 as [-> _]; done). cbn [when]. apply wp_bind, wp_bind.
  assert (forall s', ms_ready out_ep in_ep (get_ms a') -> at_bulk b' a' s' ->
    wp (i2 ← ms get_ms; when (IsMassStoreReset i2) (reset_endpoints get_ms put_ms i2)) (fun _ s' => at_bulk b' a' s') E s') as Hend.
  { intros s' (_ & _ & _ & _ & Hr') S'. eapply wp_bind, wp_ms; [done|]. rewrite Hr'. by apply wp_ret. }
  eapply wp_read_in; [done..| |]; intros s4 Hv S4; cbn [when].
  - eapply wp_run_command; [done..|]. intros s5 Hr' S5. by apply Hend.
  - apply wp_ret. unfold transact in Ht. rewrite Hv in Ht. injection Ht as <- <-. apply Hend; [|exact S4].
    rewrite get_upd. split_and!; [done..| |done|done]. cbn -[drop]. by rewrite length_drop, Hlen.
Qed.
End driver.

(** * A simulated disk *)

(** A medium that only knows TEST UNIT READY, which transfers everything it is asked for. *)
Definition sim_medium (i : ms_info) (b : bulk) : option (bool * ms_info * bulk) :=
  Some match load (CommandBlock i) 15, store32 (CommandBlock i) 8 0 with
       | Ok 0, Ok m => (true, set_block m i, b)
       | _, _ => (false, i, b)
       end.

Definition sim_callback : prog (usb bulk ms_info) bool :=
  fun s => match sim_medium (app s) (hw s) with
           | Some (ok, i, b) => (Done ok, mk_usb b (lib s) i (io s))
           | None => (Done false, s)
           end.

#[export] Instance sim_medium_ok : Medium id sim_callback sim_medium.
Proof.
  split.
  - intros s ok a' b' Hm. unfold sim_callback. cbn in Hm. rewrite Hm. by eexists.
  - unfold sim_medium. intros i b ok i' b' sig tag len rest Hm Hr Hl Hb. unfold id in *. rewrite Hb, (store32_words _ _ 2) in Hm by (cbn; lia).
    pose proof Hr as (? & ? & Hlen & ? & ?).
    assert (ms_ready 1 2 (set_block (words [sig; tag; 0] ++ rest) i)) as Hr'.
    { split_and!; try done. cbn [CommandBlock set_block]. by rewrite Hb in Hlen. }
    destruct (load (words [sig; tag; len] ++ rest) 15) as [[| |]|]; injection Hm as <- <- <-; (split; [first [exact Hr'|exact Hr]|]); [exists 0, rest; by cbn|by exists len, rest..].
  - unfold sim_medium. intros i b ok i' b' Hm Ht Ho Hi.
    destruct (load (CommandBlock i) 15) as [[| |]|], (store32 (CommandBlock i) 8 0); injection Hm as <- <- <-; split_and!; done || lia.
Qed.

Definition sim_disk : ms_info :=
  mk_ms 0 (mk_ep 0x82 64 EP_TYPE_BULK 1) (mk_ep 1 64 EP_TYPE_BULK 1) 1 (replicate 31 (Some 0)) (replicate 13 (Some 0)) false.

Definition sim_block (command : Z) : cbw :=
  mk_cbw MS_CBW_SIGNATURE 0x11223344 36 128 0 6 (command :: replicate 15 0).

Definition sim_asked_disk (command : Z) : usb bulk ms_info :=
  mk_usb (mk_bulk 0 (cbw_bytes (sim_block command)) [] [] 0 0 []) core_init sim_disk [].

(** * Theorem *)

(** C17: MS_Device_USBTask when a command block wrapper has arrived, against a host
    that clears halts, with a callback that keeps [Medium].  The task ends and does
    what the protocol [transact] says: a block with the right signature, an existing
    unit, no reserved flags and a length of 1 to 16 runs the callback, with the IN
    endpoint selected exactly when the block asks for data and the host's next packet
    in the OUT bank, and is answered by one packet of 13 bytes with the block's tag,
    the length that is left and the result, also when a failed command had halted an
    endpoint; any other block runs nothing, sends nothing and halts both endpoints. *)
Theorem ms_command_refines {H A} `{Hardware H} {out_ep in_ep patience} `{!BulkHost H out_ep in_ep patience} fuel
    (get_ms : A -> ms_info) (put_ms : ms_info -> A -> A) callback medium `{!Medium get_ms callback medium} c sent nx a' b' (s : usb H A) :
  (patience < fuel)%nat -> (31 <= fuel)%nat -> (forall i a, get_ms (put_ms i a) = i) -> (forall i j a, put_ms i (put_ms j a) = put_ms i a) ->
  (13 <= bulk_size)%nat -> cbw_ok c -> ms_ready out_ep in_ep (get_ms (app s)) ->
  bulk_of (hw s) = mk_bulk (b_sel (bulk_of (hw s))) (cbw_bytes c) [] sent 0 0 nx ->
  transact get_ms put_ms out_ep in_ep patience medium (app s) c (bulk_of (hw s)) = Some (a', b') ->
  exists s', MS_Device_USBTask fuel get_ms put_ms callback s = (Done tt, s') /\ app s' = a' /\ bulk_of (hw s') = b'.
Proof.
  intros Hp Hf Hg Hpp Hsize Hc Hr Hb Ht. pose proof (conj Hb eq_refl : at_bulk _ (app s) s) as Hs. rewrite Hb in Ht.
  destruct (wp_run _ _ _ _ (wp_task fuel Hp Hf get_ms put_ms Hg Hpp callback medium c (app s) _ sent nx a' b' (fun _ _ => False) s Hc Hr Hsize Hs Ht))
    as (o & s' & E & [([] & -> & Hs1 & Hs2)|(? & _ & [])]).
  by exists s'.
Qed.

(** Witness of C17: INQUIRY, which the medium does not know; the endpoint is halted,
    the host clears it and receives the status with the result 1. *)
Lemma ms_command_refines_witness :
  exists s', MS_Device_USBTask 31 id (fun i _ => i) sim_callback (sim_asked_disk 18) = (Done tt, s') /\
    IsMassStoreReset (app s') = false /\
    b_sent (bulk_of (hw s')) = [[0x55; 0x53; 0x42; 0x53; 0x44; 0x33; 0x22; 0x11; 36; 0; 0; 0; 1]].
Proof.
  destruct (ms_command_refines (out_ep := 1) (in_ep := 2) (patience := 3) 31 id (fun i _ => i) sim_callback sim_medium (sim_block 18) [] []
    (upd id (fun i _ => i) (set_status (map Some (csw_bytes 0x11223344 36 false))) (upd id (fun i _ => i) (set_block (read_cbw (sim_block 18) (replicate 31 (Some 0)))) sim_disk))
    (mk_bulk 2 [] [] [csw_bytes 0x11223344 36 false] 0 0 []) (sim_asked_disk 18)) as (s' & E & Ha & Hb);
    [lia|lia|done|done|cbn; lia|apply (bool_decide_unpack _); by vm_compute|by split_and!|reflexivity|vm_compute; reflexivity|].
  exists s'. split; [exact E|clear E]. rewrite Ha, Hb. split; reflexivity.
Defined.
