(* ===== verification/Printer.v ===== *)
(** The printer class driver, Class/Device/PrinterClassDevice.c: two bulk endpoints and
    three control requests.  Part of the library, not used by this firmware.

    The answer to GetPortStatus is written to the endpoint and never handed over:
    the host waits for it, and the driver for the host. *)

From Stdlib Require Import ZArith Lia.
From stdpp Require Import base tactics list sets numbers.
From S2P Require Import Prelude Posix Avr Endpoint EndpointStream Device Cdc ControlProofs.

Local Open Scope Z_scope.

Definition PRNT_PORTSTATUS_NOTERROR : Z := 8.
Definition PRNT_PORTSTATUS_SELECT : Z := 16.
Definition PRNT_REQ_GetDeviceID : Z := 0.
Definition PRNT_REQ_GetPortStatus : Z := 1.
Definition PRNT_REQ_SoftReset : Z := 2.

(** USB_ClassInfo_PRNT_Device_t; the string without its terminator. *)
Record prnt_info : Type := mk_prnt {
  prnt_InterfaceNumber : Z;
  prnt_DataINEndpoint : endpoint_table;
  prnt_DataOUTEndpoint : endpoint_table;
  IEEE1284String : list Z;
  PortStatus : Z;
  IsPrinterReset : bool }.

Definition set_printer_reset (b : bool) (i : prnt_info) : prnt_info :=
  mk_prnt (prnt_InterfaceNumber i) (prnt_DataINEndpoint i) (prnt_DataOUTEndpoint i) (IEEE1284String i) (PortStatus i) b.

Definition prnt_configured (i : prnt_info) : prnt_info :=
  mk_prnt (prnt_InterfaceNumber i) (set_type EP_TYPE_BULK (prnt_DataINEndpoint i)) (set_type EP_TYPE_BULK (prnt_DataOUTEndpoint i))
    (IEEE1284String i) (Z.lor PRNT_PORTSTATUS_NOTERROR PRNT_PORTSTATUS_SELECT) false.

(** A stdio FILE on the printer: the functions it was set up with, and its flags; the
    interface is the one of the application. *)
Inductive printer_get : Type := GetPrinter | GetPrinterBlocking.
Record printer_FILE : Type := mk_printer_FILE { pf_get : printer_get; pf_flags : Z }.

Definition PRNT_Device_CreateStream : printer_FILE := mk_printer_FILE GetPrinter FDEV_SETUP_RW.
Definition PRNT_Device_CreateBlockingStream : printer_FILE := mk_printer_FILE GetPrinterBlocking FDEV_SETUP_RW.

Section printer.
Context {H A : Type} `{Hardware H} `{!Interrupts H A}.
Context (fuel : nat).
Context (get_prnt : A -> prnt_info) (put_prnt : prnt_info -> A -> A).

Abbreviation run := (prog (usb H A)).

(** EVENT_PRNT_Device_SoftReset of the application. *)
Context (EVENT_PRNT_Device_SoftReset : run unit).

Definition prnt : run prnt_info := get_mem (fun s => get_prnt (app s)).
Definition on_prnt (f : prnt_info -> prnt_info) : run unit := set_mem (on_app (fun a => put_prnt (f (get_prnt a)) a)).

Definition get_device_id : run unit :=
  Endpoint_ClearSETUP ;;
  ok ← wait_until fuel Endpoint_IsINReady is_unattached;
  when ok (
    i ← prnt;
    let IEEEStringLen := u16 (Z.of_nat (length (IEEE1284String i))) in
    Endpoint_Write_16_BE IEEEStringLen ;;
    Endpoint_Write_Control_Stream_LE fuel (map Some (IEEE1284String i ++ [0])) IEEEStringLen ;;
    Endpoint_ClearStatusStage fuel).

Definition get_port_status : run unit :=
  Endpoint_ClearSETUP ;;
  ok ← wait_until fuel Endpoint_IsINReady is_unattached;
  when ok (
    i ← prnt;
    Endpoint_Write_8 (PortStatus i) ;;
    Endpoint_ClearStatusStage fuel).

Definition PRNT_Device_ProcessControlRequest : run unit :=
  setup ← Endpoint_IsSETUPReceived;
  if negb setup then mret tt
  else
    req ← get_request;
    i ← prnt;
    if negb (wIndex req =? prnt_InterfaceNumber i) then mret tt
    else if bRequest req =? PRNT_REQ_GetDeviceID then when (bmRequestType req =? class_in) get_device_id
    else if bRequest req =? PRNT_REQ_GetPortStatus then when (bmRequestType req =? class_in) get_port_status
    else if bRequest req =? PRNT_REQ_SoftReset then
      when (bmRequestType req =? class_out) (
        Endpoint_ClearSETUP ;; Endpoint_ClearStatusStage fuel ;;
        on_prnt (set_printer_reset true) ;;
        EVENT_PRNT_Device_SoftReset)
    else mret tt.

(** [configure] is Endpoint_ConfigureEndpointTable, as the program configures the
    library. *)
Definition PRNT_Device_ConfigureEndpoints (configure : list endpoint_table -> run bool) : run bool :=
  on_prnt prnt_configured ;;
  i ← prnt;
  a ← configure [prnt_DataINEndpoint i];
  if negb a then mret false
  else
    b ← configure [prnt_DataOUTEndpoint i];
    mret b.

Definition PRNT_Device_Flush : run Z :=
  off ← not_configured;
  if (off : bool) then mret ENDPOINT_RWSTREAM_DeviceDisconnected
  else
    i ← prnt;
    Endpoint_SelectEndpoint (ep_Address (prnt_DataINEndpoint i)) ;;
    n ← Endpoint_BytesInEndpoint;
    if n =? 0 then mret ENDPOINT_READYWAIT_NoError
    else
      allowed ← Endpoint_IsReadWriteAllowed;
      Endpoint_ClearIN ;;
      if negb allowed then
        e ← Endpoint_WaitUntilReady fuel;
        if negb (e =? ENDPOINT_READYWAIT_NoError) then mret e
        else Endpoint_ClearIN ;; mret ENDPOINT_READYWAIT_NoError
      else mret ENDPOINT_READYWAIT_NoError.

Definition PRNT_Device_USBTask : run unit :=
  off ← not_configured;
  if (off : bool) then mret tt
  else
    i ← prnt;
    Endpoint_SelectEndpoint (ep_Address (prnt_DataINEndpoint i)) ;;
    ready ← Endpoint_IsINReady;
    when ready (PRNT_Device_Flush ;; mret tt) ;;
    i' ← prnt;
    when (IsPrinterReset i') (
      Endpoint_ResetEndpoint (ep_Address (prnt_DataOUTEndpoint i')) ;;
      Endpoint_ResetEndpoint (ep_Address (prnt_DataINEndpoint i')) ;;
      Endpoint_SelectEndpoint (ep_Address (prnt_DataOUTEndpoint i')) ;;
      Endpoint_ClearStall ;;
      Endpoint_ResetDataToggle ;;
      Endpoint_SelectEndpoint (ep_Address (prnt_DataINEndpoint i')) ;;
      Endpoint_ClearStall ;;
      Endpoint_ResetDataToggle ;;
      on_prnt (set_printer_reset false)).

Definition PRNT_Device_SendData (Buffer : cells) (Length : Z) : run Z :=
  off ← not_configured;
  if (off : bool) then mret ENDPOINT_RWSTREAM_DeviceDisconnected
  else
    i ← prnt;
    Endpoint_SelectEndpoint (ep_Address (prnt_DataINEndpoint i)) ;;
    r ← Endpoint_Write_Stream_LE fuel Buffer Length None;
    mret r.1.1.

(** strlen: the characters before the terminator, a 16-bit length *)
Definition PRNT_Device_SendString (String : list Z) : run Z :=
  off ← not_configured;
  if (off : bool) then mret ENDPOINT_RWSTREAM_DeviceDisconnected
  else
    i ← prnt;
    Endpoint_SelectEndpoint (ep_Address (prnt_DataINEndpoint i)) ;;
    r ← Endpoint_Write_Stream_LE fuel (map Some (String ++ [0])) (u16 (Z.of_nat (length String))) None;
    mret r.1.1.

Definition PRNT_Device_SendByte (Data : Z) : run Z :=
  off ← not_configured;
  if (off : bool) then mret ENDPOINT_RWSTREAM_DeviceDisconnected
  else
    i ← prnt;
    Endpoint_SelectEndpoint (ep_Address (prnt_DataINEndpoint i)) ;;
    allowed ← Endpoint_IsReadWriteAllowed;
    e ← (if negb allowed then Endpoint_ClearIN ;; Endpoint_WaitUntilReady fuel
         else mret ENDPOINT_READYWAIT_NoError);
    if negb (e =? ENDPOINT_READYWAIT_NoError) then mret e
    else Endpoint_Write_8 Data ;; mret ENDPOINT_READYWAIT_NoError.

Definition PRNT_Device_BytesReceived : run Z :=
  off ← not_configured;
  if (off : bool) then mret 0
  else
    i ← prnt;
    Endpoint_SelectEndpoint (ep_Address (prnt_DataOUTEndpoint i)) ;;
    out ← Endpoint_IsOUTReceived;
    if (out : bool) then
      n ← Endpoint_BytesInEndpoint;
      if n =? 0 then Endpoint_ClearOUT ;; mret 0 else Endpoint_BytesInEndpoint
    else mret 0.

Definition PRNT_Device_ReceiveByte : run Z :=
  off ← not_configured;
  if (off : bool) then mret (-1)
  else
    i ← prnt;
    Endpoint_SelectEndpoint (ep_Address (prnt_DataOUTEndpoint i)) ;;
    out ← Endpoint_IsOUTReceived;
    if (out : bool) then
      n ← Endpoint_BytesInEndpoint;
      ReceivedByte ← (if n =? 0 then mret (-1) else Endpoint_Read_8);
      left ← Endpoint_BytesInEndpoint;
      when (left =? 0) Endpoint_ClearOUT ;;
      mret ReceivedByte
    else mret (-1).

(** ** The stdio stream *)

Definition PRNT_Device_putchar (c : Z) : run Z :=
  e ← PRNT_Device_SendByte c; mret (if e =? 0 then 0 else FDEV_ERR).

Definition PRNT_Device_getchar : run Z :=
  b ← PRNT_Device_ReceiveByte; mret (if b <? 0 then FDEV_EOF else b).

(** [task] is USB_USBTask. *)
Fixpoint prnt_getchar_blocking (k : nat) (task : run unit) : run Z :=
  match k with
  | O => lift (Fault OutOfFuel)
  | S k' =>
      b ← PRNT_Device_ReceiveByte;
      if negb (b <? 0) then mret b
      else
        u ← is_unattached;
        if (u : bool) then mret FDEV_EOF
        else PRNT_Device_USBTask ;; task ;; prnt_getchar_blocking k' task
  end.

Definition PRNT_Device_getchar_Blocking (task : run unit) : run Z := prnt_getchar_blocking fuel task.

(** fputc and fgetc on such a stream: its put function is PRNT_Device_putchar. *)
Definition printer_fputc (c : Z) (stream : printer_FILE) : run Z :=
  if negb (Z.testbit (pf_flags stream) 1) then mret (-1)
  else r ← PRNT_Device_putchar (u8 c); mret (if r =? 0 then c else -1).
Definition printer_fgetc (task : run unit) (stream : printer_FILE) : run Z :=
  match pf_get stream with GetPrinter => PRNT_Device_getchar | GetPrinterBlocking => PRNT_Device_getchar_Blocking task end.
End printer.

(** * The port status *)

(** The outcome of a sequence. *)
Lemma bind_crash {S A B} (m : prog S A) (k : A -> prog S B) (P : S -> Prop) f s :
  wp m (fun a s1 => exists s', k a s1 = (Crash f, s') /\ P s') (fun _ _ => False) s ->
  exists s', (m ≫= k) s = (Crash f, s') /\ P s'.
Proof. unfold wp, mbind, prog_bind. by destruct (m s) as [[] s1]. Qed.

Section host.
Context {H A : Type} `{HW : Hardware H} `{CH : !ControlHost H}.
Context (get_prnt : A -> prnt_info).
Implicit Types s : usb H A.

(** A host that still wants data does not start the status stage. *)
Lemma wait_forever v k : forall s,
  view (hw s) = v -> host_done v.2 v.1.2 = false ->
  exists s', wait_until k Endpoint_IsOUTReceived is_unattached s = (Crash OutOfFuel, s') /\ view (hw s') = v.
Proof.
  induction k as [|k IH]; intros s Hv Hd; cbn [wait_until]; [by exists s|].
  apply bind_crash, wp_flag. intros s1 V1 _. rewrite ch_out.
  assert (host_done (want (hw s)) (packets (hw s)) = false) as -> by (by rewrite <- Hv in Hd).
  apply bind_crash. unfold is_unattached. apply wp_bind, wp_read_reg, wp_ret. destruct (ch_state (hw s1)) as [Hu _].
  rewrite (proj2 (Z.eqb_neq _ _)) by done. apply IH; [|done]. cbn.
  destruct (ch_read USB_DeviceState (hw s1)) as (E1 & E2 & E3); [set_solver|]. unfold view in *. congruence.
Qed.

Lemma status_stage_stuck fuel v s :
  view (hw s) = v -> host_done v.2 v.1.2 = false -> Z.testbit (bmRequestType (USB_ControlRequest (lib s))) 7 = true ->
  exists s', Endpoint_ClearStatusStage fuel s = (Crash OutOfFuel, s') /\ view (hw s') = v.
Proof.
  intros Hv Hd Hr. unfold Endpoint_ClearStatusStage. apply bind_crash, wp_get_mem. rewrite Hr.
  destruct (wait_forever v fuel s Hv Hd) as (s' & Hw & V'). exists s'. split; [|done]. unfold mbind, prog_bind. by rewrite Hw.
Qed.

Lemma port_status_stuck fuel s :
  view (hw s) = ([], [], want (hw s)) -> (0 < want (hw s))%nat ->
  Z.testbit (bmRequestType (USB_ControlRequest (lib s))) 7 = true ->
  exists s', get_port_status fuel get_prnt s = (Crash OutOfFuel, s') /\ packets (hw s') = [].
Proof.
  intros Hv Hw Hr. unfold get_port_status, Endpoint_ClearSETUP. apply bind_crash, wp_acknowledge; [by vm_compute|]. intros s1 V1 L1.
  destruct fuel as [|k].
  { exists s1. split; [done|]. rewrite Hv in V1. by injection V1. }
  cbn [wait_until]. apply bind_crash, wp_bind, wp_flag. intros s2 V2 L2. rewrite ch_in. apply wp_ret. cbn [when].
  apply bind_crash, wp_get_mem, bind_crash. unfold Endpoint_Write_8. apply wp_write_reg. set (x := u8 _).
  rewrite V1, Hv in V2. injection V2 as B2 P2 W2.
  destruct (ch_data (hw s2) x) as (B3 & P3 & W3); [rewrite B2; cbn; lia|apply u8_is_byte|]. rewrite B2, P2, W2 in *.
  edestruct (status_stage_stuck (S k)) as (s' & E' & V'); [| | |exists s'; split; [exact E'|]].
  - unfold view. cbn. rewrite B3, P3, W3. reflexivity.
  - cbn. by destruct (want (hw s)); [lia|].
  - cbn [lib]. by rewrite L2, L1.
  - by injection V'.
Qed.
End host.

(** * Theorem *)

Definition sim_printer : prnt_info :=
  mk_prnt 0 (mk_ep 0x82 64 EP_TYPE_BULK 1) (mk_ep 1 64 EP_TYPE_BULK 1) [77; 70; 71; 58] 24 false.

(** The host has asked for the port status. *)
Definition sim_status_asked : usb sim_ctl prnt_info :=
  mk_usb (mk_ctl [] [] 1) (set_request (mk_request class_in PRNT_REQ_GetPortStatus 0 0 1) core_init) sim_printer [].

(** C36: the answer to GetPortStatus never reaches the host.  On a host that asked for
    at least one byte and starts the status stage when it has what it wants, the
    driver writes the status to the endpoint's bank, does not hand the bank over, and
    waits for the status stage: it never returns, whatever time it has, and the host
    receives no packet. *)
Theorem printer_status_hangs {H A} `{ControlHost H} fuel (get_prnt : A -> prnt_info) (s : usb H A) :
  view (hw s) = ([], [], want (hw s)) -> (0 < want (hw s))%nat ->
  Z.testbit (bmRequestType (USB_ControlRequest (lib s))) 7 = true ->
  exists s', get_port_status fuel get_prnt s = (Crash OutOfFuel, s') /\ packets (hw s') = [].
Proof. apply port_status_stuck. Qed.

(** Witness of C36: the request for one byte. *)
Lemma printer_status_hangs_witness :
  exists s', get_port_status 100 id sim_status_asked = (Crash OutOfFuel, s') /\ packets (hw s') = [].
Proof. apply printer_status_hangs; [done|cbn; lia|done]. Defined.
