(* ===== verification/HidParser.v ===== *)
(** The HID report parser of the USB library, Class/Common/HIDParser.c.

    The structs are records, their arrays lists of fixed length, pointers into an
    array indices into it, NULL is [None].  Cells that C leaves uninitialised are
    [None] in a [cells] array or an optional value.  The application's filter
    callback is a parameter.  Sizes of structs are those of the microcontroller,
    without padding. *)

From Stdlib Require Import ZArith Lia.
From stdpp Require Import base tactics list numbers.
From S2P Require Import Prelude.

Local Open Scope Z_scope.

(** * Constants *)

Definition HID_STATETABLE_STACK_DEPTH : nat := 2.
Definition HID_USAGE_STACK_DEPTH : nat := 8.
Definition HID_MAX_COLLECTIONS : nat := 10.
Definition HID_MAX_REPORTITEMS : nat := 20.
Definition HID_MAX_REPORT_IDS : nat := 10.

Definition HID_PARSE_Successful : Z := 0.
Definition HID_PARSE_HIDStackOverflow : Z := 1.
Definition HID_PARSE_HIDStackUnderflow : Z := 2.
Definition HID_PARSE_InsufficientReportItems : Z := 3.
Definition HID_PARSE_UnexpectedEndCollection : Z := 4.
Definition HID_PARSE_InsufficientCollectionPaths : Z := 5.
Definition HID_PARSE_UsageListOverflow : Z := 6.
Definition HID_PARSE_InsufficientReportIDItems : Z := 7.
Definition HID_PARSE_NoUnfilteredReportItems : Z := 8.

Definition HID_RI_INPUT : Z := 128.
Definition HID_RI_OUTPUT : Z := 144.
Definition HID_RI_COLLECTION : Z := 160.
Definition HID_RI_FEATURE : Z := 176.
Definition HID_RI_END_COLLECTION : Z := 192.
Definition HID_RI_USAGE_PAGE : Z := 4.
Definition HID_RI_LOGICAL_MINIMUM : Z := 20.
Definition HID_RI_LOGICAL_MAXIMUM : Z := 36.
Definition HID_RI_PHYSICAL_MINIMUM : Z := 52.
Definition HID_RI_PHYSICAL_MAXIMUM : Z := 68.
Definition HID_RI_UNIT_EXPONENT : Z := 84.
Definition HID_RI_UNIT : Z := 100.
Definition HID_RI_REPORT_SIZE : Z := 116.
Definition HID_RI_REPORT_ID : Z := 132.
Definition HID_RI_REPORT_COUNT : Z := 148.
Definition HID_RI_PUSH : Z := 164.
Definition HID_RI_POP : Z := 180.
Definition HID_RI_USAGE : Z := 8.
Definition HID_RI_USAGE_MINIMUM : Z := 24.
Definition HID_RI_USAGE_MAXIMUM : Z := 40.

Definition HID_IOF_CONSTANT : Z := 1.

(** * The structs *)

Record HID_MinMax_t : Type := mk_minmax { Minimum : Z; Maximum : Z }.
Record HID_Unit_t : Type := mk_unit { Unit_Type : Z; Unit_Exponent : Z }.
Record HID_Usage_t : Type := mk_usage { Page : Z; Usage : Z }.

Record HID_CollectionPath_t : Type := mk_path { path_Type : Z; path_Usage : HID_Usage_t; Parent : option nat }.

Record HID_ReportItem_Attributes_t : Type := mk_attr {
  BitSize : Z; attr_Usage : HID_Usage_t; attr_Unit : HID_Unit_t; Logical : HID_MinMax_t; Physical : HID_MinMax_t }.

Record HID_ReportItem_t : Type := mk_item {
  BitOffset : Z; ItemType : nat; ItemFlags : Z; item_ReportID : Z; CollectionPath : option nat;
  item_Attributes : HID_ReportItem_Attributes_t; Value : option Z; PreviousValue : option Z }.

Record HID_ReportSizeInfo_t : Type := mk_sizes { size_ReportID : Z; ReportSizeBits : list Z }.

Record HID_ReportInfo_t : Type := mk_report {
  TotalReportItems : nat;
  ReportItems : list HID_ReportItem_t;
  CollectionPaths : list HID_CollectionPath_t;
  TotalDeviceReports : nat;
  ReportIDSizes : list HID_ReportSizeInfo_t;
  LargestReportSizeBits : Z;
  UsingReportIDs : bool }.

Record HID_StateTable_t : Type := mk_table {
  Attributes : HID_ReportItem_Attributes_t; ReportCount : Z; ReportID : Z }.

(** sizeof of the two structs that PUSH mixes up *)
Definition sizeof_attributes : Z := 1 + (2 + 2) + (4 + 1) + (4 + 4) + (4 + 4).
Definition sizeof_StateTable : Z := sizeof_attributes + 1 + 1.
Definition sizeof_ReportItem : Z := 2 + 1 + 2 + 1 + 2 + sizeof_attributes + 4 + 4.

Definition minmax_zero : HID_MinMax_t := mk_minmax 0 0.
Definition attr_zero : HID_ReportItem_Attributes_t :=
  mk_attr 0 (mk_usage 0 0) (mk_unit 0 0) minmax_zero minmax_zero.
Definition table_zero : HID_StateTable_t := mk_table attr_zero 0 0.
Definition sizes_zero : HID_ReportSizeInfo_t := mk_sizes 0 [0; 0; 0].

(** memset(ParserData, 0x00, sizeof(HID_ReportInfo_t)), TotalDeviceReports = 1 *)
Definition report_start : HID_ReportInfo_t :=
  mk_report 0 (replicate HID_MAX_REPORTITEMS (mk_item 0 0 0 0 None attr_zero (Some 0) (Some 0)))
    (replicate HID_MAX_COLLECTIONS (mk_path 0 (mk_usage 0 0) None)) 1
    (replicate HID_MAX_REPORT_IDS sizes_zero) 0 false.

(** The locals of USB_ProcessHIDReport, with the output it fills.  Only the first
    entry of StateTable is cleared; an entry that was never written is [None]. *)
Record parser : Type := mk_parser {
  ParserData : HID_ReportInfo_t;
  StateTable : list (option HID_StateTable_t);
  CurrStateTable : nat;
  CurrCollectionPath : option nat;
  CurrReportIDInfo : nat;
  UsageList : cells;
  UsageListSize : nat;
  UsageMinMax : HID_MinMax_t }.

Definition parser_start : parser :=
  mk_parser report_start [Some table_zero; None] 0 None 0 (replicate HID_USAGE_STACK_DEPTH None) 0 minmax_zero.

(** What an item does: the parse goes on, or the function returns a code. *)
Inductive parsed : Type :=
  | Go (p : parser)
  | Return (code : Z) (p : parser).

(** * Access to arrays *)

Definition at_index {T} (l : list T) (i : nat) : res T :=
  match l !! i with Some x => Ok x | None => Fault OutOfBounds end.

Definition put_index {T} (l : list T) (i : nat) (x : T) : res (list T) :=
  match l !! i with Some _ => Ok (<[i := x]> l) | None => Fault OutOfBounds end.

Definition curr_table (p : parser) : res HID_StateTable_t :=
  t ← at_index (StateTable p) (CurrStateTable p);
  match t with Some t => Ok t | None => Fault Indeterminate end.

Definition set_report (f : HID_ReportInfo_t) (p : parser) : parser :=
  mk_parser f (StateTable p) (CurrStateTable p) (CurrCollectionPath p) (CurrReportIDInfo p)
            (UsageList p) (UsageListSize p) (UsageMinMax p).
Definition set_tables (t : list (option HID_StateTable_t)) (i : nat) (p : parser) : parser :=
  mk_parser (ParserData p) t i (CurrCollectionPath p) (CurrReportIDInfo p)
            (UsageList p) (UsageListSize p) (UsageMinMax p).
Definition set_path (c : option nat) (p : parser) : parser :=
  mk_parser (ParserData p) (StateTable p) (CurrStateTable p) c (CurrReportIDInfo p)
            (UsageList p) (UsageListSize p) (UsageMinMax p).
Definition set_id_info (i : nat) (p : parser) : parser :=
  mk_parser (ParserData p) (StateTable p) (CurrStateTable p) (CurrCollectionPath p) i
            (UsageList p) (UsageListSize p) (UsageMinMax p).
Definition set_usages (l : cells) (n : nat) (p : parser) : parser :=
  mk_parser (ParserData p) (StateTable p) (CurrStateTable p) (CurrCollectionPath p) (CurrReportIDInfo p)
            l n (UsageMinMax p).
Definition set_minmax (m : HID_MinMax_t) (p : parser) : parser :=
  mk_parser (ParserData p) (StateTable p) (CurrStateTable p) (CurrCollectionPath p) (CurrReportIDInfo p)
            (UsageList p) (UsageListSize p) m.

Definition set_items (n : nat) (l : list HID_ReportItem_t) (r : HID_ReportInfo_t) : HID_ReportInfo_t :=
  mk_report n l (CollectionPaths r) (TotalDeviceReports r) (ReportIDSizes r) (LargestReportSizeBits r) (UsingReportIDs r).
Definition set_paths (l : list HID_CollectionPath_t) (r : HID_ReportInfo_t) : HID_ReportInfo_t :=
  mk_report (TotalReportItems r) (ReportItems r) l (TotalDeviceReports r) (ReportIDSizes r)
            (LargestReportSizeBits r) (UsingReportIDs r).
Definition set_ids (n : nat) (l : list HID_ReportSizeInfo_t) (u : bool) (r : HID_ReportInfo_t) : HID_ReportInfo_t :=
  mk_report (TotalReportItems r) (ReportItems r) (CollectionPaths r) n l (LargestReportSizeBits r) u.
Definition set_largest (v : Z) (r : HID_ReportInfo_t) : HID_ReportInfo_t :=
  mk_report (TotalReportItems r) (ReportItems r) (CollectionPaths r) (TotalDeviceReports r) (ReportIDSizes r)
            v (UsingReportIDs r).

(** CurrStateTable->... = ... *)
Definition update_table (f : HID_StateTable_t -> HID_StateTable_t) (p : parser) : res parsed :=
  t ← curr_table p;
  l ← put_index (StateTable p) (CurrStateTable p) (Some (f t));
  mret (Go (set_tables l (CurrStateTable p) p)).

Definition on_attributes (f : HID_ReportItem_Attributes_t -> HID_ReportItem_Attributes_t)
    (t : HID_StateTable_t) : HID_StateTable_t := mk_table (f (Attributes t)) (ReportCount t) (ReportID t).

(** * USB_ProcessHIDReport *)

Section parse.
(** CALLBACK_HIDParser_FilterHIDReportItem *)
Context (filter_item : HID_ReportItem_t -> bool).

(** for (uint8_t i = 1; i < UsageListSize; i++) UsageList[i - 1] = UsageList[i]; *)
Fixpoint shift_usages (k i : nat) (l : cells) : res cells :=
  match k with
  | O => mret l
  | S k' => v ← load l i; l' ← store l (i - 1) v; shift_usages k' (S i) l'
  end.

(** The next usage: from the list, or from the range; none if both are used up. *)
Definition next_usage (p : parser) : res (option Z * parser) :=
  if negb (UsageListSize p =? 0)%nat then
    u ← load (UsageList p) 0;
    l ← shift_usages (UsageListSize p - 1) 1 (UsageList p);
    mret (Some u, set_usages l (UsageListSize p - 1) p)
  else if Minimum (UsageMinMax p) <=? Maximum (UsageMinMax p) then
    mret (Some (u16 (Minimum (UsageMinMax p))),
          set_minmax (mk_minmax (u32 (Minimum (UsageMinMax p) + 1)) (Maximum (UsageMinMax p))) p)
  else mret (None, p).

Definition push (p : parser) : res parsed :=
  if (CurrStateTable p =? HID_STATETABLE_STACK_DEPTH - 1)%nat then mret (Return HID_PARSE_HIDStackOverflow p)
  else
    (* memcpy of sizeof(HID_ReportItem_t) bytes to the next entry *)
    if Z.of_nat HID_STATETABLE_STACK_DEPTH * sizeof_StateTable <?
       Z.of_nat (S (CurrStateTable p)) * sizeof_StateTable + sizeof_ReportItem
    then Fault OutOfBounds
    else
      t ← curr_table p;
      l ← put_index (StateTable p) (S (CurrStateTable p)) (Some t);
      mret (Go (set_tables l (S (CurrStateTable p)) p)).

Definition pop (p : parser) : res parsed :=
  if (CurrStateTable p =? 0)%nat then mret (Return HID_PARSE_HIDStackUnderflow p)
  else mret (Go (set_tables (StateTable p) (CurrStateTable p - 1) p)).

(** The items that store a value in the state table. *)
Definition set_attribute (tag data : Z) (t : HID_StateTable_t) : HID_StateTable_t :=
  let a := Attributes t in
  if tag =? HID_RI_USAGE_PAGE then
    on_attributes (fun a => mk_attr (BitSize a) (mk_usage (u16 data) (Usage (attr_Usage a))) (attr_Unit a) (Logical a) (Physical a)) t
  else if tag =? HID_RI_LOGICAL_MINIMUM then
    on_attributes (fun a => mk_attr (BitSize a) (attr_Usage a) (attr_Unit a) (mk_minmax data (Maximum (Logical a))) (Physical a)) t
  else if tag =? HID_RI_LOGICAL_MAXIMUM then
    on_attributes (fun a => mk_attr (BitSize a) (attr_Usage a) (attr_Unit a) (mk_minmax (Minimum (Logical a)) data) (Physical a)) t
  else if tag =? HID_RI_PHYSICAL_MINIMUM then
    on_attributes (fun a => mk_attr (BitSize a) (attr_Usage a) (attr_Unit a) (Logical a) (mk_minmax data (Maximum (Physical a)))) t
  else if tag =? HID_RI_PHYSICAL_MAXIMUM then
    on_attributes (fun a => mk_attr (BitSize a) (attr_Usage a) (attr_Unit a) (Logical a) (mk_minmax (Minimum (Physical a)) data)) t
  else if tag =? HID_RI_UNIT_EXPONENT then
    on_attributes (fun a => mk_attr (BitSize a) (attr_Usage a) (mk_unit (Unit_Type (attr_Unit a)) (u8 data)) (Logical a) (Physical a)) t
  else if tag =? HID_RI_UNIT then
    on_attributes (fun a => mk_attr (BitSize a) (attr_Usage a) (mk_unit data (Unit_Exponent (attr_Unit a))) (Logical a) (Physical a)) t
  else if tag =? HID_RI_REPORT_SIZE then
    on_attributes (fun a => mk_attr (u8 data) (attr_Usage a) (attr_Unit a) (Logical a) (Physical a)) t
  else if tag =? HID_RI_REPORT_COUNT then mk_table a (u8 data) (ReportID t)
  else t.

Definition stores_attribute (tag : Z) : bool :=
  bool_decide (tag ∈ [HID_RI_USAGE_PAGE; HID_RI_LOGICAL_MINIMUM; HID_RI_LOGICAL_MAXIMUM; HID_RI_PHYSICAL_MINIMUM;
    HID_RI_PHYSICAL_MAXIMUM; HID_RI_UNIT_EXPONENT; HID_RI_UNIT; HID_RI_REPORT_SIZE; HID_RI_REPORT_COUNT]).

(** The search for a report ID among the first [k] entries from [i]. *)
Fixpoint find_id (k i : nat) (sizes : list HID_ReportSizeInfo_t) (id : Z) : res (option nat) :=
  match k with
  | O => mret None
  | S k' =>
      s ← at_index sizes i;
      if size_ReportID s =? id then mret (Some i) else find_id k' (S i) sizes id
  end.

(** The entry for the report ID: found, or a new one; [None] when there is no room. *)
Definition select_id (id : Z) (p : parser) : res (option (nat * nat * list HID_ReportSizeInfo_t)) :=
  let r := ParserData p in
  if UsingReportIDs r then
    f ← find_id (TotalDeviceReports r) 0 (ReportIDSizes r) id;
    match f with
    | Some i => mret (Some (i, TotalDeviceReports r, ReportIDSizes r))
    | None =>
        if (TotalDeviceReports r =? HID_MAX_REPORT_IDS)%nat then mret None
        else
          l ← put_index (ReportIDSizes r) (TotalDeviceReports r) sizes_zero;
          mret (Some (TotalDeviceReports r, S (TotalDeviceReports r), l))
    end
  else mret (Some (CurrReportIDInfo p, TotalDeviceReports r, ReportIDSizes r)).

Definition report_id (data : Z) (p : parser) : res parsed :=
  t ← curr_table p;
  tables ← put_index (StateTable p) (CurrStateTable p) (Some (mk_table (Attributes t) (ReportCount t) (u8 data)));
  let p1 := set_tables tables (CurrStateTable p) p in
  e ← select_id (u8 data) p1;
  match e with
  | None => mret (Return HID_PARSE_InsufficientReportIDItems p1)
  | Some (i, n, sizes) =>
      s ← at_index sizes i;
      l ← put_index sizes i (mk_sizes (u8 data) (ReportSizeBits s));
      mret (Go (set_id_info i (set_report (set_ids n l true (ParserData p1)) p1)))
  end.

Definition usage (data : Z) (p : parser) : res parsed :=
  if (UsageListSize p =? HID_USAGE_STACK_DEPTH)%nat then mret (Return HID_PARSE_UsageListOverflow p)
  else
    l ← store (UsageList p) (UsageListSize p) (u16 data);
    mret (Go (set_usages l (S (UsageListSize p)) p)).

(** The first entry from [i] on without a parent; [None] when the last one has one. *)
Fixpoint find_path (k i : nat) (paths : list HID_CollectionPath_t) : res (option nat) :=
  match k with
  | O => Fault OutOfFuel
  | S k' =>
      c ← at_index paths i;
      match Parent c with
      | None => mret (Some i)
      | Some _ =>
          if (i =? HID_MAX_COLLECTIONS - 1)%nat then mret None else find_path k' (S i) paths
      end
  end.

Definition collection (data : Z) (p : parser) : res parsed :=
  let paths := CollectionPaths (ParserData p) in
  slot ← (match CurrCollectionPath p with
          | None => mret (Some 0%nat)
          | Some _ => find_path HID_MAX_COLLECTIONS 1 paths
          end);
  match slot with
  | None => mret (Return HID_PARSE_InsufficientCollectionPaths p)
  | Some i =>
      c ← at_index paths i;
      t ← curr_table p;
      r ← next_usage p;
      let '(u, p1) := r in
      let parent := match CurrCollectionPath p with None => Parent c | Some q => Some q end in
      l ← put_index paths i
            (mk_path (u8 data) (mk_usage (Page (attr_Usage (Attributes t))) (default (Usage (path_Usage c)) u)) parent);
      mret (Go (set_path (Some i) (set_report (set_paths l (ParserData p1)) p1)))
  end.

Definition end_collection (p : parser) : res parsed :=
  match CurrCollectionPath p with
  | None => mret (Return HID_PARSE_UnexpectedEndCollection p)
  | Some i => c ← at_index (CollectionPaths (ParserData p)) i; mret (Go (set_path (Parent c) p))
  end.

Definition item_type (tag : Z) : nat :=
  if tag =? HID_RI_INPUT then 0%nat else if tag =? HID_RI_OUTPUT then 1%nat else 2%nat.

(** One report item. *)
Definition add_item (tag data : Z) (p : parser) : res parsed :=
  t ← curr_table p;
  r ← next_usage p;
  let '(u, p1) := r in
  let a := Attributes t in
  let ty := item_type tag in
  let info := ParserData p1 in
  s ← at_index (ReportIDSizes info) (CurrReportIDInfo p1);
  bits ← at_index (ReportSizeBits s) ty;
  let item := mk_item bits ty (u16 data) (ReportID t) (CurrCollectionPath p1)
    (mk_attr (BitSize a) (mk_usage (Page (attr_Usage a)) (default (Usage (attr_Usage a)) u)) (attr_Unit a) (Logical a) (Physical a))
    None None in
  let bits' := u16 (bits + BitSize a) in
  counts ← put_index (ReportSizeBits s) ty bits';
  sizes ← put_index (ReportIDSizes info) (CurrReportIDInfo p1) (mk_sizes (size_ReportID s) counts);
  let info' := set_largest (Z.max (LargestReportSizeBits info) bits')
                 (set_ids (TotalDeviceReports info) sizes (UsingReportIDs info) info) in
  if (TotalReportItems info' =? HID_MAX_REPORTITEMS)%nat
  then mret (Return HID_PARSE_InsufficientReportItems (set_report info' p1))
  else
    items ← put_index (ReportItems info') (TotalReportItems info') item;
    let n := if negb (Z.testbit data 0) && filter_item item then S (TotalReportItems info') else TotalReportItems info' in
    mret (Go (set_report (set_items n items info') p1)).

(** for (ReportItemNum = 0; ReportItemNum < CurrStateTable->ReportCount; ReportItemNum++) *)
Fixpoint add_items (k : nat) (tag data : Z) (p : parser) : res parsed :=
  match k with
  | O => mret (Go p)
  | S k' =>
      r ← add_item tag data p;
      match r with
      | Go p' => add_items k' tag data p'
      | Return code p' => mret (Return code p')
      end
  end.

(** The switch over the type and tag of the item. *)
Definition process_item (tag data : Z) (p : parser) : res parsed :=
  if tag =? HID_RI_PUSH then push p
  else if tag =? HID_RI_POP then pop p
  else if stores_attribute tag then update_table (set_attribute tag data) p
  else if tag =? HID_RI_REPORT_ID then report_id data p
  else if tag =? HID_RI_USAGE then usage data p
  else if tag =? HID_RI_USAGE_MINIMUM then mret (Go (set_minmax (mk_minmax data (Maximum (UsageMinMax p))) p))
  else if tag =? HID_RI_USAGE_MAXIMUM then mret (Go (set_minmax (mk_minmax (Minimum (UsageMinMax p)) data) p))
  else if tag =? HID_RI_COLLECTION then collection data p
  else if tag =? HID_RI_END_COLLECTION then end_collection p
  else if (tag =? HID_RI_INPUT) || (tag =? HID_RI_OUTPUT) || (tag =? HID_RI_FEATURE) then
    t ← curr_table p; add_items (Z.to_nat (ReportCount t)) tag data p
  else mret (Go p).

(** if ((HIDReportItem & HID_RI_TYPE_MASK) == HID_RI_TYPE_MAIN) *)
Definition end_item (item : Z) (p : parser) : parser :=
  if Z.land item 12 =? 0 then set_minmax minmax_zero (set_usages (UsageList p) 0 p) else p.

(** The data of an item: its value and its number of bytes. *)
Definition item_data (mem : cells) (ptr : nat) (item : Z) : res (Z * nat) :=
  let size := Z.land item 3 in
  if size =? 3 then
    b0 ← load mem ptr; b1 ← load mem (ptr + 1); b2 ← load mem (ptr + 2); b3 ← load mem (ptr + 3);
    mret (Z.lor (Z.lor (Z.lor (u32 (Z.shiftl b3 24)) (u32 (Z.shiftl b2 16))) (u16 (Z.shiftl b1 8))) b0, 4%nat)
  else if size =? 2 then
    b0 ← load mem ptr; b1 ← load mem (ptr + 1); mret (Z.lor (u16 (Z.shiftl b1 8)) b0, 2%nat)
  else if size =? 1 then b0 ← load mem ptr; mret (b0, 1%nat)
  else mret (0, 0%nat).

(** while (ReportSize) *)
Fixpoint parse_loop (fuel : nat) (mem : cells) (ptr : nat) (ReportSize : Z) (p : parser) : res (Z * HID_ReportInfo_t) :=
  if ReportSize =? 0 then
    mret (if (TotalReportItems (ParserData p) =? 0)%nat then HID_PARSE_NoUnfilteredReportItems else HID_PARSE_Successful,
          ParserData p)
  else
    match fuel with
    | O => Fault OutOfFuel
    | S fuel' =>
        item ← load mem ptr;
        d ← item_data mem (ptr + 1) item;
        r ← process_item (Z.land item 252) d.1 p;
        match r with
        | Return code p' => mret (code, ParserData p')
        | Go p' => parse_loop fuel' mem (ptr + 1 + d.2) (u16 (u16 (ReportSize - 1) - Z.of_nat d.2)) (end_item item p')
        end
    end.

Definition USB_ProcessHIDReport (fuel : nat) (ReportData : cells) (ReportSize : Z) : res (Z * HID_ReportInfo_t) :=
  parse_loop fuel ReportData 0 ReportSize parser_start.
End parse.

(** * Report items in a report *)

(** while (DataBitsRem--) of USB_GetHIDReportItemInfo; [base] is the data pointer. *)
Fixpoint get_bits (k : nat) (mem : cells) (base : nat) (CurrentBit BitMask value : Z) : res Z :=
  match k with
  | O => mret value
  | S k' =>
      b ← load mem (base + Z.to_nat (CurrentBit / 8));
      let value' := if Z.testbit b (CurrentBit mod 8) then Z.lor value BitMask else value in
      get_bits k' mem base (u16 (CurrentBit + 1)) (u32 (Z.shiftl BitMask 1)) value'
  end.

Definition set_values (v prev : option Z) (i : HID_ReportItem_t) : HID_ReportItem_t :=
  mk_item (BitOffset i) (ItemType i) (ItemFlags i) (item_ReportID i) (CollectionPath i) (item_Attributes i) v prev.

Definition USB_GetHIDReportItemInfo (mem : cells) (item : option HID_ReportItem_t) : res (bool * option HID_ReportItem_t) :=
  match item with
  | None => mret (false, None)
  | Some i =>
      first ← (if negb (item_ReportID i =? 0) then load mem 0 else mret 0);
      if negb (item_ReportID i =? 0) && negb (item_ReportID i =? first) then mret (false, Some i)
      else
        let base := if item_ReportID i =? 0 then 0%nat else 1%nat in
        v ← get_bits (Z.to_nat (BitSize (item_Attributes i))) mem base (BitOffset i) 1 0;
        mret (true, Some (set_values (Some v) (Value i) i))
  end.

(** while (DataBitsRem--) of USB_SetHIDReportItemInfo *)
Fixpoint set_bits_loop (k : nat) (mem : cells) (base : nat) (CurrentBit BitMask value : Z) : res cells :=
  match k with
  | O => mret mem
  | S k' =>
      mem' ← (if Z.testbit value (CurrentBit mod 8) then
                b ← load mem (base + Z.to_nat (CurrentBit / 8));
                store mem (base + Z.to_nat (CurrentBit / 8)) (u8 (Z.lor b BitMask))
              else mret mem);
      set_bits_loop k' mem' base (u16 (CurrentBit + 1)) (u32 (Z.shiftl BitMask 1)) value
  end.

Definition USB_SetHIDReportItemInfo (mem : cells) (item : option HID_ReportItem_t) : res (cells * option HID_ReportItem_t) :=
  match item with
  | None => mret (mem, None)
  | Some i =>
      m ← (if negb (item_ReportID i =? 0) then store mem 0 (item_ReportID i) else mret mem);
      let base := if item_ReportID i =? 0 then 0%nat else 1%nat in
      v ← (match Value i with
           | Some v => Ok v
           | None => if BitSize (item_Attributes i) =? 0 then Ok 0 else Fault Indeterminate
           end);
      m' ← set_bits_loop (Z.to_nat (BitSize (item_Attributes i))) m base (BitOffset i) 1 v;
      mret (m', Some (set_values (Value i) (Value i) i))
  end.

(** The loop of USB_GetHIDReportSize. *)
Fixpoint report_size_from (k i : nat) (sizes : list HID_ReportSizeInfo_t) (id : Z) (ty : nat) : res Z :=
  match k with
  | O => mret 0
  | S k' =>
      s ← at_index sizes i;
      bits ← at_index (ReportSizeBits s) ty;
      if size_ReportID s =? id then mret (bits / 8 + (if bits mod 8 =? 0 then 0 else 1))
      else report_size_from k' (S i) sizes id ty
  end.

Definition USB_GetHIDReportSize (r : HID_ReportInfo_t) (id : Z) (ty : nat) : res Z :=
  report_size_from HID_MAX_REPORT_IDS 0 (ReportIDSizes r) id ty.
