(* ===== verification/HidProofs.v ===== *)
(** The HID report parser: memory safety of the parse, what makes it overrun, and
    the value of an item in a report. *)

From Stdlib Require Import ZArith Lia.
From stdpp Require Import base tactics list numbers.
From S2P Require Import Prelude HidParser.

Local Open Scope Z_scope.

(** * Checked computations that succeed *)

Definition succeeds {A} (m : res A) (Q : A -> Prop) : Prop :=
  match m with Ok a => Q a | Fault _ => False end.

Lemma succeeds_bind {A B} (m : res A) (k : A -> res B) Q :
  succeeds m (fun a => succeeds (k a) Q) -> succeeds (m ≫= k) Q.
Proof. by destruct m. Qed.

Lemma succeeds_ret {A} (a : A) (Q : A -> Prop) : Q a -> succeeds (mret a) Q.
Proof. done. Qed.

Lemma succeeds_mono {A} (m : res A) (Q1 Q2 : A -> Prop) :
  succeeds m Q1 -> (forall a, Q1 a -> Q2 a) -> succeeds m Q2.
Proof. destruct m; naive_solver. Qed.

Lemma succeeds_run {A} (m : res A) Q : succeeds m Q -> exists a, m = Ok a /\ Q a.
Proof. destruct m as [a|]; [|done]. by exists a. Qed.

Lemma succeeds_at {T} (l : list T) i Q :
  (i < length l)%nat -> (forall x, l !! i = Some x -> Q x) -> succeeds (at_index l i) Q.
Proof.
  intros Hi HQ. unfold at_index. destruct (lookup_lt_is_Some_2 l i Hi) as [x Hx]. rewrite Hx. by apply HQ.
Qed.

Lemma succeeds_put {T} (l : list T) i x Q :
  (i < length l)%nat -> Q (<[i := x]> l) -> succeeds (put_index l i x) Q.
Proof. intros Hi HQ. unfold put_index. destruct (lookup_lt_is_Some_2 l i Hi) as [y ->]. done. Qed.

(** The first [n] cells hold values. *)
Definition filled (n : nat) (l : cells) : Prop := forall i, (i < n)%nat -> exists v, l !! i = Some (Some v).

Lemma succeeds_load l i n Q :
  filled n l -> (i < n)%nat -> (forall v, l !! i = Some (Some v) -> Q v) -> succeeds (load l i) Q.
Proof. intros Hl Hi HQ. destruct (Hl i Hi) as [v Hv]. unfold load. rewrite Hv. by apply HQ. Qed.

Lemma succeeds_store (l : cells) i v Q :
  (i < length l)%nat -> Q (<[i := Some v]> l) -> succeeds (store l i v) Q.
Proof. intros Hi HQ. unfold store. destruct (lookup_lt_is_Some_2 l i Hi) as [y ->]. done. Qed.

Lemma filled_insert n l i v : filled n l -> (i < length l)%nat -> filled n (<[i := Some v]> l).
Proof.
  intros Hf Hi j Hj. destruct (decide (i = j)) as [->|Hne].
  - exists v. by apply list_lookup_insert_eq.
  - rewrite list_lookup_insert_ne by done. by apply Hf.
Qed.

(** * The invariant *)

(** The collection paths form a forest: a parent comes before its children. *)
Definition paths_ok (paths : list HID_CollectionPath_t) (used : nat) : Prop :=
  length paths = HID_MAX_COLLECTIONS /\ (used < HID_MAX_COLLECTIONS)%nat /\
  forall i c, paths !! i = Some c ->
    match Parent c with
    | Some q => (1 <= i <= used)%nat /\ (q < i)%nat
    | None => i = 0%nat \/ (used < i)%nat
    end.

Definition path_ok (used : nat) (q : option nat) : Prop := match q with Some i => (i <= used)%nat | None => True end.

Definition item_ok (used : nat) (it : HID_ReportItem_t) : Prop :=
  (ItemType it < 3)%nat /\ path_ok used (CollectionPath it) /\ 0 <= BitOffset it < 65536.

Definition sizes_ok (s : HID_ReportSizeInfo_t) : Prop :=
  length (ReportSizeBits s) = 3%nat /\ Forall (fun b => 0 <= b < 65536) (ReportSizeBits s).

(** What the output guarantees; [used] is the last collection path in use. *)
Record report_ok (used : nat) (r : HID_ReportInfo_t) : Prop := {
  ok_items : length (ReportItems r) = HID_MAX_REPORTITEMS;
  ok_total : (TotalReportItems r <= HID_MAX_REPORTITEMS)%nat;
  ok_stored : Forall (item_ok used) (take (TotalReportItems r) (ReportItems r));
  ok_paths : paths_ok (CollectionPaths r) used;
  ok_ids : length (ReportIDSizes r) = HID_MAX_REPORT_IDS;
  ok_reports : (1 <= TotalDeviceReports r <= HID_MAX_REPORT_IDS)%nat;
  ok_sizes : Forall sizes_ok (ReportIDSizes r) }.

Record parser_ok (used : nat) (p : parser) : Prop := {
  ok_report : report_ok used (ParserData p);
  ok_table : exists t rest, StateTable p = Some t :: rest;
  ok_curr : CurrStateTable p = 0%nat;
  ok_path : path_ok used (CurrCollectionPath p);
  ok_info : (CurrReportIDInfo p < HID_MAX_REPORT_IDS)%nat;
  ok_list : length (UsageList p) = HID_USAGE_STACK_DEPTH;
  ok_usages : (UsageListSize p <= HID_USAGE_STACK_DEPTH)%nat;
  ok_filled : filled (UsageListSize p) (UsageList p) }.

(** What may be returned inside the loop. *)
Definition early_codes : list Z :=
  [HID_PARSE_HIDStackUnderflow; HID_PARSE_InsufficientReportItems; HID_PARSE_UnexpectedEndCollection;
   HID_PARSE_InsufficientCollectionPaths; HID_PARSE_UsageListOverflow; HID_PARSE_InsufficientReportIDItems].

Definition parsed_ok (r : parsed) : Prop :=
  match r with
  | Go p => exists used, parser_ok used p
  | Return code p => code ∈ early_codes /\ exists used, report_ok used (ParserData p)
  end.

Lemma parser_start_ok : parser_ok 0 parser_start.
Proof.
  split; [|by eexists _, _|done|done|simpl; unfold HID_MAX_REPORT_IDS; lia|done|simpl; lia|intros i Hi; simpl in Hi; lia].
  split; [done|simpl; lia|constructor| |done|simpl; unfold HID_MAX_REPORT_IDS; lia|].
  - split; [done|]. split; [unfold HID_MAX_COLLECTIONS; lia|]. intros i c Hc.
    apply lookup_replicate_1 in Hc as [-> Hi]. simpl. lia.
  - apply Forall_replicate. split; [done|]. repeat constructor; lia.
Qed.

(** The state table as the parser sees it. *)
Lemma succeeds_table used p Q : parser_ok used p -> (forall t, Q t) -> succeeds (curr_table p) Q.
Proof.
  intros [_ (t & rest & Ht) Hc _ _ _ _ _] HQ. unfold curr_table, at_index. rewrite Ht, Hc. apply HQ.
Qed.

Lemma table_put used p t Q :
  parser_ok used p -> (forall l rest, l = Some t :: rest -> Q l) ->
  succeeds (put_index (StateTable p) (CurrStateTable p) (Some t)) Q.
Proof.
  intros [_ (t' & rest & Ht) Hc _ _ _ _ _] HQ. unfold put_index. rewrite Ht, Hc. simpl. by eapply HQ.
Qed.

Lemma shift_usages_ok k : forall i l n,
  (1 <= i)%nat -> (i + k <= n)%nat -> (n <= length l)%nat -> filled n l ->
  succeeds (shift_usages k i l) (fun l' => length l' = length l /\ filled n l').
Proof.
  induction k as [|k IH]; intros i l n Hi Hk Hn Hf; cbn [shift_usages]; [done|].
  apply succeeds_bind. eapply succeeds_load; [done|lia|]. intros v _.
  apply succeeds_bind, succeeds_store; [lia|].
  eapply succeeds_mono; [apply (IH _ _ n)|]; rewrite ?length_insert; try lia.
  - apply filled_insert; [done|lia].
  - done.
Qed.

Lemma next_usage_ok used p :
  parser_ok used p ->
  succeeds (next_usage p) (fun r => parser_ok used r.2 /\ ParserData r.2 = ParserData p /\
    CurrCollectionPath r.2 = CurrCollectionPath p /\ CurrReportIDInfo r.2 = CurrReportIDInfo p).
Proof.
  intros Hp. unfold next_usage. destruct (Nat.eqb_spec (UsageListSize p) 0) as [E|E]; cbn [negb].
  - destruct (_ <=? _); [|by apply succeeds_ret]. apply succeeds_ret. cbn. split; [|done]. by destruct Hp; split.
  - apply succeeds_bind. eapply succeeds_load; [apply Hp|lia|]. intros u _.
    apply succeeds_bind. pose proof (ok_usages _ _ Hp). pose proof (ok_list _ _ Hp) as Hl.
    eapply succeeds_mono; [apply (shift_usages_ok _ _ _ (UsageListSize p)); [lia..|apply Hp]|].
    intros l [Hl' Hf']. apply succeeds_ret. cbn. split; [|done].
    destruct Hp; split; cbn; try done; [congruence|lia|]. intros i Hi. apply Hf'. lia.
Qed.

(** * The items *)

Lemma returns_ok used code p : parser_ok used p -> code ∈ early_codes -> parsed_ok (Return code p).
Proof. intros [Hr _ _ _ _ _ _ _] Hc. split; [done|by exists used]. Qed.

Lemma update_table_ok used f p : parser_ok used p -> succeeds (update_table f p) parsed_ok.
Proof.
  intros Hp. unfold update_table. apply succeeds_bind. eapply succeeds_table; [done|]. intros t.
  apply succeeds_bind. eapply table_put; [done|]. intros l rest ->. exists used. destruct Hp; split; eauto.
Qed.

Lemma pop_ok used p : parser_ok used p -> succeeds (pop p) parsed_ok.
Proof.
  intros Hp. unfold pop. rewrite (ok_curr _ _ Hp). eapply returns_ok; [done|]. apply list_elem_of_In. cbn. auto.
Qed.

Lemma usage_ok used d p : parser_ok used p -> succeeds (usage d p) parsed_ok.
Proof.
  intros Hp. unfold usage. destruct (Nat.eqb_spec (UsageListSize p) HID_USAGE_STACK_DEPTH) as [E|E].
  - eapply returns_ok; [done|]. apply list_elem_of_In. cbn. auto 10.
  - pose proof (ok_usages _ _ Hp). pose proof (ok_list _ _ Hp).
    apply succeeds_bind, succeeds_store; [lia|]. exists used. destruct Hp; split; cbn; try done.
    + by rewrite length_insert.
    + lia.
    + intros i Hi. destruct (decide (i = UsageListSize p)) as [->|Hne].
      * eexists. apply list_lookup_insert_eq. lia.
      * rewrite list_lookup_insert_ne by done. apply ok_filled0. lia.
Qed.

Lemma minmax_ok used m p : parser_ok used p -> parser_ok used (set_minmax m p).
Proof. by intros []; split. Qed.

Lemma find_id_ok k : forall i sizes id,
  (i + k <= length sizes)%nat ->
  succeeds (find_id k i sizes id) (fun r => match r with Some j => (j < length sizes)%nat | None => True end).
Proof.
  induction k as [|k IH]; intros i sizes id Hk; cbn [find_id]; [done|].
  apply succeeds_bind, succeeds_at; [lia|]. intros s _. destruct (_ =? _); [cbn; lia|]. apply IH. lia.
Qed.

Lemma select_id_ok used id p :
  parser_ok used p ->
  succeeds (select_id id p) (fun r => match r with
    | Some (i, n, l) => (i < HID_MAX_REPORT_IDS)%nat /\ (1 <= n <= HID_MAX_REPORT_IDS)%nat /\
                        length l = HID_MAX_REPORT_IDS /\ Forall sizes_ok l
    | None => True end).
Proof.
  intros [[_ _ _ _ Hi Hn Hs] _ _ _ Hc _ _ _]. unfold select_id. destruct (UsingReportIDs _); [|by apply succeeds_ret].
  apply succeeds_bind. eapply succeeds_mono; [apply find_id_ok; lia|]. intros [j|] Hj; [cbn; split_and!; first [done|lia]|].
  destruct (Nat.eqb_spec (TotalDeviceReports (ParserData p)) HID_MAX_REPORT_IDS) as [E|E]; [done|].
  apply succeeds_bind, succeeds_put; [lia|]. cbn. rewrite length_insert. split_and!; try lia.
  apply Forall_insert; [done|]. split; [done|]. repeat constructor; lia.
Qed.

Lemma report_id_ok used d p : parser_ok used p -> succeeds (report_id d p) parsed_ok.
Proof.
  intros Hp. unfold report_id. apply succeeds_bind. eapply succeeds_table; [done|]. intros t.
  apply succeeds_bind. eapply table_put; [done|]. intros l rest ->.
  set (p1 := set_tables _ _ p). assert (parser_ok used p1) as Hp1 by (destruct Hp; split; eauto).
  apply succeeds_bind. eapply succeeds_mono; [by eapply select_id_ok|]. intros [[[i n] sizes]|] Hr.
  - destruct Hr as (Hi & Hn & Hl & Hs). apply succeeds_bind, succeeds_at; [lia|]. intros s Hx.
    apply succeeds_bind, succeeds_put; [lia|]. exists used.
    assert (sizes_ok s) as Hss by (by eapply list.Forall_lookup_1).
    destruct Hp1 as [[] ? ? ? ? ? ? ?]; split; try done. split; try done; cbn; [by rewrite length_insert|].
    by apply Forall_insert.
  - eapply returns_ok; [done|]. apply list_elem_of_In. cbn. auto 10.
Qed.

Lemma end_collection_ok used p : parser_ok used p -> succeeds (end_collection p) parsed_ok.
Proof.
  intros Hp. unfold end_collection. pose proof (ok_path _ _ Hp) as Hc.
  destruct (ok_paths _ _ (ok_report _ _ Hp)) as (Hl & Hu & Hf).
  destruct (CurrCollectionPath p) as [i|] eqn:E; cbn in Hc.
  - apply succeeds_bind, succeeds_at; [lia|]. intros c Hx. exists used. specialize (Hf i c Hx).
    destruct Hp; split; try done. cbn. destruct (Parent c); [cbn; lia|done].
  - eapply returns_ok; [done|]. apply list_elem_of_In. cbn. auto 10.
Qed.

(** The search for a free path finds the one after the last in use. *)
Lemma find_path_ok k : forall i paths used,
  paths_ok paths used -> (1 <= i <= S used)%nat -> (i < HID_MAX_COLLECTIONS)%nat -> (HID_MAX_COLLECTIONS <= i + k)%nat ->
  succeeds (find_path k i paths) (fun r => match r with
    | Some j => j = S used /\ (S used < HID_MAX_COLLECTIONS)%nat | None => True end).
Proof.
  induction k as [|k IH]; intros i paths used Hp Hi Hm Hk; cbn [find_path]; [lia|].
  pose proof Hp as (Hl & Hu & Hf). apply succeeds_bind, succeeds_at; [lia|]. intros c Hc. specialize (Hf i c Hc).
  destruct (Parent c) as [q|]; [|cbn; lia].
  destruct (Nat.eqb_spec i (HID_MAX_COLLECTIONS - 1)) as [E|E]; [done|]. apply IH; try done; lia.
Qed.

Lemma item_ok_mono used used' it : (used <= used')%nat -> item_ok used it -> item_ok used' it.
Proof. intros Hle (H1 & H2 & H3). split_and!; try done; try lia. destruct (CollectionPath it); [cbn in *; lia|done]. Qed.

(** Writing the path at 0, or linking the next free one to its parent. *)
Lemma paths_put paths used i c parent :
  paths_ok paths used -> Parent c = parent ->
  (i = 0%nat /\ parent = None /\ (forall c0, paths !! 0%nat = Some c0 -> Parent c0 = None) \/
   i = S used /\ (S used < HID_MAX_COLLECTIONS)%nat /\ exists q, parent = Some q /\ (q <= used)%nat) ->
  paths_ok (<[i := c]> paths) (Nat.max used i).
Proof.
  intros (Hl & Hu & Hf) Hc Hi. split_and!; [by rewrite length_insert|lia|]. intros j d Hd.
  destruct (decide (i = j)) as [<-|Hne].
  - rewrite list_lookup_insert_eq in Hd by lia. injection Hd as <-. rewrite Hc.
    destruct Hi as [(-> & -> & _)|(-> & _ & q & -> & Hq)]; lia.
  - rewrite list_lookup_insert_ne in Hd by done. specialize (Hf j d Hd). destruct (Parent d); [lia|].
    destruct Hi as [(-> & _)|(-> & _)]; lia.
Qed.

Lemma report_paths_ok used used' l r :
  report_ok used r -> paths_ok l used' -> (used <= used')%nat -> report_ok used' (set_paths l r).
Proof.
  intros [] Hl Hu. split; try done. cbn. revert ok_stored0. apply Forall_impl. intros it. by apply item_ok_mono.
Qed.

Lemma collection_ok used d p : parser_ok used p -> succeeds (collection d p) parsed_ok.
Proof.
  intros Hp. unfold collection. pose proof (ok_paths _ _ (ok_report _ _ Hp)) as Hps.
  pose proof (ok_path _ _ Hp) as Hcur. pose proof Hps as (Hl & Hu & Hf). apply succeeds_bind.
  eapply (succeeds_mono _ (fun r => match r with
    | Some i => i = 0%nat /\ CurrCollectionPath p = None \/
                i = S used /\ (S used < HID_MAX_COLLECTIONS)%nat /\ is_Some (CurrCollectionPath p)
    | None => True end)).
  { destruct (CurrCollectionPath p) as [q|]; [|cbn; auto].
    eapply succeeds_mono; [apply (find_path_ok _ _ _ used); [done|lia|unfold HID_MAX_COLLECTIONS; lia|lia]|].
    intros [j|] Hj; [right; split_and!; [apply Hj|apply Hj|by eexists]|done]. }
  intros [i|] Hi; [|eapply returns_ok; [done|]; apply list_elem_of_In; cbn; auto 10].
  assert (i < HID_MAX_COLLECTIONS)%nat as Him by (unfold HID_MAX_COLLECTIONS in *; destruct Hi as [[]|[]]; lia).
  apply succeeds_bind, succeeds_at; [lia|]. intros c Hc. apply succeeds_bind. eapply succeeds_table; [done|].
  intros t. apply succeeds_bind. eapply succeeds_mono; [by apply next_usage_ok|]. intros [u p1] (Hp1 & Er & Ec & Ei).
  cbn in Hp1, Er, Ec, Ei. apply succeeds_bind, succeeds_put; [lia|]. exists (Nat.max used i).
  assert (report_ok used (ParserData p1)) as Hr1 by apply Hp1.
  destruct Hp1 as [_ ? ? ? ? ? ? ?]; split; try done; [|cbn; lia]. cbn. eapply report_paths_ok; [done| |lia].
  eapply paths_put; [done|reflexivity|]. cbn. destruct Hi as [(-> & ->)|(-> & Hs & [q Hq])].
  - left. specialize (Hf 0%nat c Hc). split_and!; [done| |].
    + destruct (Parent c); [lia|done].
    + intros c0 Hc0. rewrite Hc in Hc0. injection Hc0 as <-. destruct (Parent c); [lia|done].
  - right. rewrite Hq in *. split_and!; [done..|]. by exists q.
Qed.

(** Storing an item behind the others, whether it is kept or not. *)
Lemma stored_ok used n l it (keep : bool) :
  Forall (item_ok used) (take n l) -> item_ok used it -> (n < length l)%nat ->
  Forall (item_ok used) (take (if keep then S n else n) (<[n := it]> l)).
Proof.
  intros Hs Hit Hn. assert (Forall (item_ok used) (take (S n) (<[n := it]> l))) as H.
  { rewrite (take_S_r _ _ it) by (by apply list_lookup_insert_eq). rewrite take_insert_ge by lia.
    apply Forall_app. split; [done|]. by apply Forall_cons_iff. }
  destruct keep; [done|]. by rewrite take_insert_ge by lia.
Qed.

Lemma item_type_lt tag : (item_type tag < 3)%nat.
Proof. unfold item_type. repeat case_match; lia. Qed.

Section filtered.
Context (filter_item : HID_ReportItem_t -> bool).

Lemma add_item_ok used tag d p : parser_ok used p -> succeeds (add_item filter_item tag d p) parsed_ok.
Proof.
  intros Hp. unfold add_item. apply succeeds_bind. eapply succeeds_table; [done|]. intros t.
  apply succeeds_bind. eapply succeeds_mono; [by apply next_usage_ok|]. intros [u p1] (Hp1 & _ & _ & _). cbn in Hp1.
  destruct Hp1 as [Hr ? ? Hc Hi ? ? ?]. pose proof Hr as [Hil Ht Hst Hps Hidl Hn Hs].
  apply succeeds_bind, succeeds_at; [lia|]. intros s Hx. pose proof (list.Forall_lookup_1 _ _ _ _ Hs Hx) as [Hs3 Hsb].
  pose proof (item_type_lt tag). apply succeeds_bind, succeeds_at; [lia|]. intros bits Hb.
  pose proof (list.Forall_lookup_1 _ _ _ _ Hsb Hb) as Hbits. cbv beta zeta in Hbits |- *.
  apply succeeds_bind, succeeds_put; [lia|]. apply succeeds_bind, succeeds_put; [lia|].
  set (info' := set_largest _ _).
  assert (report_ok used info') as Hr'.
  { split; try done; cbn; [by rewrite length_insert|]. apply Forall_insert; [done|]. split; cbn.
    - by rewrite length_insert.
    - apply Forall_insert; [done|]. apply (wrapu_range 16). lia. }
  destruct (Nat.eqb_spec (TotalReportItems info') HID_MAX_REPORTITEMS) as [E|E].
  - split; [apply list_elem_of_In; cbn; auto 10|]. by exists used.
  - pose proof Hr' as [Hil' Ht' Hst' Hps' Hidl' Hn' Hs']. apply succeeds_bind, succeeds_put; [lia|]. exists used.
    split; try done. split; try done; cbn [ReportItems TotalReportItems set_items ParserData set_report].
    + by rewrite length_insert.
    + case_match; lia.
    + apply stored_ok; [done| |lia]. split_and!; [done|done|apply Hbits..].
Qed.

Lemma add_items_ok k : forall used tag d p,
  parser_ok used p -> succeeds (add_items filter_item k tag d p) parsed_ok.
Proof.
  induction k as [|k IH]; intros used tag d p Hp; cbn [add_items]; [by exists used|].
  apply succeeds_bind. eapply succeeds_mono; [by eapply add_item_ok|]. intros [p'|code p'] H; [|done].
  destruct H as [used' H]. by eapply IH.
Qed.

Lemma process_item_ok used tag d p :
  parser_ok used p -> tag <> HID_RI_PUSH -> succeeds (process_item filter_item tag d p) parsed_ok.
Proof.
  intros Hp Ht. unfold process_item. rewrite (proj2 (Z.eqb_neq _ _)) by done.
  destruct (tag =? HID_RI_POP); [by eapply pop_ok|]. destruct (stores_attribute tag); [by eapply update_table_ok|].
  destruct (tag =? HID_RI_REPORT_ID); [by eapply report_id_ok|]. destruct (tag =? HID_RI_USAGE); [by eapply usage_ok|].
  destruct (tag =? HID_RI_USAGE_MINIMUM); [exists used; by apply minmax_ok|].
  destruct (tag =? HID_RI_USAGE_MAXIMUM); [exists used; by apply minmax_ok|].
  destruct (tag =? HID_RI_COLLECTION); [by eapply collection_ok|].
  destruct (tag =? HID_RI_END_COLLECTION); [by eapply end_collection_ok|].
  destruct (_ || _); [|by exists used]. apply succeeds_bind. eapply succeeds_table; [done|]. intros t.
  by eapply add_items_ok.
Qed.

Lemma end_item_ok used item p : parser_ok used p -> parser_ok used (end_item item p).
Proof.
  intros Hp. unfold end_item. destruct (_ =? 0); [|done]. apply minmax_ok.
  destruct Hp; split; try done; cbn; [lia|]. intros i Hi. lia.
Qed.
End filtered.

(** * Whole descriptors *)

(** An item: its header and its data, as long as the header says. *)
Definition data_len (h : Z) : nat :=
  if Z.land h 3 =? 3 then 4%nat else if Z.land h 3 =? 2 then 2%nat else if Z.land h 3 =? 1 then 1%nat else 0%nat.

Definition entry_ok (e : Z * list Z) : Prop := length e.2 = data_len e.1 /\ Z.land e.1 252 <> HID_RI_PUSH.

Definition descriptor (es : list (Z * list Z)) : list Z := concat (map (fun e => e.1 :: e.2) es).

Lemma filled_some (l : list Z) : filled (length l) (map Some l).
Proof.
  intros i Hi. destruct (lookup_lt_is_Some_2 l i Hi) as [v Hv]. exists v. change (map Some l) with (Some <$> l).
  by rewrite list_lookup_fmap, Hv.
Qed.

Lemma item_data_ok l ptr h :
  (ptr + data_len h <= length l)%nat -> succeeds (item_data (map Some l) ptr h) (fun d => d.2 = data_len h).
Proof.
  pose proof (filled_some l) as Hf. unfold item_data, data_len. intros Hl.
  repeat (destruct (_ =? _); [repeat (apply succeeds_bind; eapply succeeds_load; [done|lia|intros ? _]); by apply succeeds_ret|]).
  by apply succeeds_ret.
Qed.

Lemma item_data_short l ptr h :
  (ptr <= length l < ptr + data_len h)%nat -> item_data (map Some l) ptr h = Fault OutOfBounds.
Proof.
  assert (forall i, load (map Some l) i = match l !! i with Some v => Ok v | None => Fault OutOfBounds end) as E.
  { intros i. unfold load. change (map Some l) with (Some <$> l). rewrite list_lookup_fmap. by destruct (l !! i). }
  unfold item_data, data_len. rewrite !E.
  assert (forall i, (length l <= i)%nat -> l !! i = None) as N by (intros; by apply lookup_ge_None_2).
  intros Hl. destruct (_ =? 3).
  - rewrite (N (ptr + 3)%nat) by lia. by destruct (l !! ptr), (l !! (ptr + 1)%nat), (l !! (ptr + 2)%nat).
  - destruct (_ =? 2); [rewrite (N (ptr + 1)%nat) by lia; by destruct (l !! ptr)|].
    destruct (_ =? 1); [by rewrite (N ptr) by lia|lia].
Qed.

(** The data of an item depends on its own bytes only. *)
Lemma item_data_local pre bs rest h : length bs = data_len h ->
  item_data (map Some (pre ++ bs ++ rest)) (length pre) h = item_data (map Some bs) 0 h.
Proof.
  intros Hb.
  assert (forall i, (i < length bs)%nat -> load (map Some (pre ++ bs ++ rest)) (length pre + i) = load (map Some bs) i) as E.
  { intros i Hi. unfold load. change (map Some) with (fmap (M := list) (@Some Z)).
    by rewrite !list_lookup_fmap, lookup_app_r, Nat.add_comm, Nat.add_sub, lookup_app_l by lia. }
  pose proof (E 0%nat) as E0. rewrite Nat.add_0_r in E0. unfold item_data, data_len in *.
  destruct (_ =? 3); [by rewrite E0, !E by lia|]. destruct (_ =? 2); [by rewrite E0, !E by lia|].
  destruct (_ =? 1); [by rewrite E0 by lia|done].
Qed.

Section loop.
Context (filter_item : HID_ReportItem_t -> bool).

(** What the parse of a descriptor from [l] on gives, after [pre] and before any [tail],
    with fuel for [n] rounds and more. *)
Definition parses (n : nat) (pre l : list Z) (p : parser) (r : nat -> list Z -> res (Z * HID_ReportInfo_t)) : Prop :=
  forall fuel tail, Z.of_nat (length (l ++ tail)) < 65536 ->
    parse_loop filter_item (n + fuel) (map Some (pre ++ l ++ tail)) (length pre) (Z.of_nat (length (l ++ tail))) p = r fuel tail.

(** The items [l] end the parse with an error code, whatever follows them, or leave the
    parser in a state that depends on them only. *)
Definition parsed (n : nat) (pre l : list Z) (p : parser) : Prop :=
  (exists code info used, code ∈ early_codes /\ report_ok used info /\ parses n pre l p (fun _ _ => Ok (code, info))) \/
  (exists used p', parser_ok used p' /\ parses n pre l p (fun fuel tail =>
     parse_loop filter_item fuel (map Some (pre ++ l ++ tail)) (length (pre ++ l)) (Z.of_nat (length tail)) p')).

(** One item of the loop. *)
Lemma parse_step pre h bs used p :
  length bs = data_len h -> Z.land h 252 <> HID_RI_PUSH -> parser_ok used p -> parsed 1 pre (h :: bs) p.
Proof.
  intros Hb Hh Hp.
  destruct (succeeds_run _ _ (item_data_ok bs 0 h ltac:(lia))) as ([v n] & Ed & Hn). cbn in Hn. subst n.
  destruct (succeeds_run _ _ (process_item_ok filter_item used (Z.land h 252) v p Hp Hh)) as (o & Eo & Ho).
  assert (forall fuel tail, let mem := map Some (pre ++ (h :: bs) ++ tail) in
    Z.of_nat (length ((h :: bs) ++ tail)) < 65536 ->
    parse_loop filter_item (1 + fuel) mem (length pre) (Z.of_nat (length ((h :: bs) ++ tail))) p =
    match o with
    | Return code p' => Ok (code, ParserData p')
    | Go p' => parse_loop filter_item fuel mem (length (pre ++ h :: bs)) (Z.of_nat (length tail)) (end_item h p')
    end) as E.
  { intros fuel tail mem Hl. cbn [Nat.add parse_loop]. rewrite (proj2 (Z.eqb_neq _ _)) by (simpl; lia).
    assert (load mem (length pre) = Ok h) as ->.
    { unfold mem. rewrite map_app. cbn [map app]. rewrite <- (length_map Some pre). apply load_middle. }
    pose proof (item_data_local (pre ++ [h]) bs tail h Hb) as El. rewrite <- app_assoc, length_app in El.
    unfold mem. cbn [app length] in *. rewrite res_bind_ok, El, Ed, res_bind_ok. cbn [fst snd]. rewrite Eo, res_bind_ok.
    destruct o as [p'|code p']; [|done]. f_equal; [rewrite length_app; simpl; lia|]. rewrite length_app in *.
    unfold wrapu. rewrite (Z.mod_small (_ - 1)) by lia. rewrite Z.mod_small by lia. lia. }
  destruct o as [p'|code p'].
  - right. destruct Ho as [used' Hp']. exists used', (end_item h p'). split; [by apply end_item_ok|exact E].
  - left. destruct Ho as (Hc & used' & Hr). by exists code, (ParserData p'), used'.
Qed.

(** The items of a descriptor. *)
Lemma parse_entries es : forall pre used p,
  Forall entry_ok es -> parser_ok used p -> parsed (length es) pre (descriptor es) p.
Proof.
  induction es as [|[h bs] es IH]; intros pre used p He Hp.
  - right. exists used, p. split; [done|]. intros fuel tail _. cbn. by rewrite app_nil_r.
  - apply Forall_cons_iff in He as [[Hb Hh] He]. cbn in Hb, Hh.
    assert (forall tail, Z.of_nat (length (descriptor ((h, bs) :: es) ++ tail)) < 65536 ->
      Z.of_nat (length (descriptor es ++ tail)) < 65536) as Hsub.
    { intros tail. change (descriptor ((h, bs) :: es)) with ((h :: bs) ++ descriptor es). rewrite !length_app. lia. }
    change (descriptor ((h, bs) :: es)) with ((h :: bs) ++ descriptor es) in *.
    destruct (parse_step pre h bs used p Hb Hh Hp) as [(code & info & u & Hc & Hr & E)|(u & p1 & Hp1 & E)].
    + left. exists code, info, u. do 2 (split; [done|]). intros fuel tail Hl. rewrite <- app_assoc in *.
      exact (E (length es + fuel)%nat (descriptor es ++ tail) Hl).
    + destruct (IH (pre ++ h :: bs) u p1 He Hp1) as [(code & info & u2 & Hc & Hr & E2)|(u2 & p2 & Hp2 & E2)];
        [left; exists code, info, u2; do 2 (split; [done|])|right; exists u2, p2; split; [done|]]; intros fuel tail Hl;
        pose proof (E2 fuel tail (Hsub tail Hl)) as E3; rewrite <- !app_assoc in *;
        (etrans; [exact (E (length es + fuel)%nat (descriptor es ++ tail) Hl)|exact E3]).
Qed.
End loop.

(** * Values in a report *)

(** Bit [n] of a report that starts at [base]. *)
Definition report_bit (l : list Z) (base : nat) (n : Z) : bool :=
  Z.testbit (nth (base + Z.to_nat (n / 8)) l 0) (n mod 8).

Lemma load_nth l i : (i < length l)%nat -> load (map Some l) i = Ok (nth i l 0).
Proof.
  intros Hi. unfold load. change (map Some l) with (Some <$> l). rewrite list_lookup_fmap.
  destruct (lookup_lt_is_Some_2 l i Hi) as [v Hv]. rewrite Hv. cbn. by rewrite (nth_lookup_Some l i 0 v Hv).
Qed.

Lemma mask_shift j : 0 <= j -> u32 (Z.shiftl (u32 (2 ^ j)) 1) = u32 (2 ^ (j + 1)).
Proof.
  intros Hj. unfold wrapu. rewrite Z.shiftl_mul_pow2 by lia. rewrite Z.mul_mod_idemp_l by lia.
  by rewrite Z.pow_add_r by lia.
Qed.

Lemma mask_bit j n : 0 <= j -> 0 <= n -> Z.testbit (u32 (2 ^ j)) n = bool_decide (n = j) && (n <? 32).
Proof.
  intros Hj Hn. unfold wrapu. destruct (Z.ltb_spec n 32).
  - rewrite Z.mod_pow2_bits_low, Z.pow2_bits_eqb, andb_true_r by lia. rewrite Z.eqb_sym. apply eq_true_iff_eq.
    by rewrite Z.eqb_eq, bool_decide_eq_true.
  - by rewrite Z.mod_pow2_bits_high, andb_false_r by lia.
Qed.

Lemma get_bits_value l base k : forall cur j value,
  0 <= cur -> 0 <= j -> cur + Z.of_nat k < 65536 ->
  (k = 0%nat \/ base + Z.to_nat ((cur + Z.of_nat k - 1) / 8) < length l)%nat ->
  succeeds (get_bits k (map Some l) base cur (u32 (2 ^ j)) value) (fun v => forall n, 0 <= n ->
    Z.testbit v n = Z.testbit value n ||
      (bool_decide (j <= n < j + Z.of_nat k) && (n <? 32) && report_bit l base (cur + (n - j)))).
Proof.
  induction k as [|k IH]; intros cur j value Hc Hj Hk Hb; cbn [get_bits].
  - intros n Hn. rewrite bool_decide_eq_false_2 by lia. by rewrite orb_false_r.
  - assert (cur / 8 <= (cur + Z.of_nat (S k) - 1) / 8) by (apply Z.div_le_mono; lia).
    assert (0 <= cur / 8) by (apply Z.div_pos; lia).
    rewrite load_nth, res_bind_ok by lia. rewrite mask_shift by done.
    assert (u16 (cur + 1) = cur + 1) as -> by (unfold wrapu; by rewrite Z.mod_small by lia).
    eapply succeeds_mono; [apply IH; [lia..|]|].
    + destruct k; [by left|right]. replace (cur + 1 + Z.of_nat (S k) - 1) with (cur + Z.of_nat (S (S k)) - 1) by lia. lia.
    + intros v Hv n Hn. rewrite (Hv n Hn). fold (report_bit l base cur).
      assert (Z.testbit (if report_bit l base cur then Z.lor value (u32 (2 ^ j)) else value) n =
              Z.testbit value n || (bool_decide (n = j) && (n <? 32) && report_bit l base cur)) as ->.
      { destruct (report_bit l base cur); [by rewrite Z.lor_spec, mask_bit, andb_true_r by done|].
        by rewrite andb_false_r, orb_false_r. }
      rewrite <- orb_assoc. f_equal. destruct (decide (n = j)) as [->|Hne].
      * rewrite bool_decide_eq_true_2, bool_decide_eq_false_2, bool_decide_eq_true_2 by lia.
        by rewrite Z.sub_diag, Z.add_0_r, orb_false_r.
      * rewrite bool_decide_eq_false_2 by done. cbn [andb orb].
        replace (cur + 1 + (n - (j + 1))) with (cur + (n - j)) by lia.
        by rewrite (bool_decide_ext (j + 1 <= n < j + 1 + Z.of_nat k) (j <= n < j + Z.of_nat (S k))) by lia.
Qed.

(** Writing a value whose low byte is zero changes nothing. *)
Lemma set_bits_low k : forall m base cur mask v,
  (forall n, 0 <= n < 8 -> Z.testbit v n = false) -> set_bits_loop k m base cur mask v = Ok m.
Proof.
  induction k as [|k IH]; intros m base cur mask v Hv; cbn [set_bits_loop]; [done|].
  rewrite Hv by (apply Z.mod_pos_bound; lia). unfold mret at 1, res_ret. rewrite res_bind_ok. by apply IH.
Qed.

(** * Theorems *)

(** C33: USB_ProcessHIDReport on any sequence of complete items without PUSH, of at
    most 65535 bytes, and any filter.  It returns, with fuel for one round per item,
    without an access outside its arrays or to an indeterminate cell, with one of
    its codes; success means that an item was stored.  The output is well formed:
    counts are within the arrays, each stored item has a report type, an offset of
    16 bits and an existing collection, and parents precede their children. *)
Theorem hid_parse_safe filter_item es :
  Forall entry_ok es -> Z.of_nat (length (descriptor es)) < 65536 ->
  exists code info used,
    USB_ProcessHIDReport filter_item (length es) (map Some (descriptor es)) (Z.of_nat (length (descriptor es))) = Ok (code, info) /\
    report_ok used info /\
    (code ∈ early_codes \/ code = HID_PARSE_Successful /\ (0 < TotalReportItems info)%nat \/
     code = HID_PARSE_NoUnfilteredReportItems /\ TotalReportItems info = 0%nat).
Proof.
  intros He Hl. unfold USB_ProcessHIDReport.
  destruct (parse_entries filter_item es [] 0 parser_start He parser_start_ok) as [(code & info & used & Hc & Hr & E)|(used & p & Hp & E)];
    specialize (E 0%nat []); cbn [app] in E; rewrite !app_nil_r, Nat.add_0_r in E; cbn [length] in E; rewrite E by done.
  - exists code, info, used. auto.
  - cbn [parse_loop]. rewrite Z.eqb_refl. eexists _, _, used. split; [reflexivity|]. split; [apply Hp|]. right.
    destruct (Nat.eqb_spec (TotalReportItems (ParserData p)) 0) as [->|]; [by right|left; split; [done|lia]].
Qed.

(** Witness of C33: a mouse button in an application collection. *)
Lemma hid_parse_safe_witness :
  let es := [(5, [1]); (9, [2]); (161, [1]); (5, [9]); (25, [1]); (41, [3]); (21, [0]); (37, [1]);
             (117, [1]); (149, [3]); (129, [2]); (192, [])] in
  exists code info used,
    USB_ProcessHIDReport (fun _ => true) (length es) (map Some (descriptor es)) (Z.of_nat (length (descriptor es))) = Ok (code, info) /\
    report_ok used info /\
    (code ∈ early_codes \/ code = HID_PARSE_Successful /\ (0 < TotalReportItems info)%nat \/
     code = HID_PARSE_NoUnfilteredReportItems /\ TotalReportItems info = 0%nat).
Proof. intros es. apply hid_parse_safe; [|by vm_compute]. repeat constructor; by vm_compute. Defined.

(** C34: what makes USB_ProcessHIDReport leave its memory.  Take any complete items
    without PUSH, followed by a PUSH item or by an item whose data is cut off by the
    end of the descriptor.  The parse of the first items alone returns; when it
    returns one of the codes that end a parse early, the parse of the whole returns
    the same code and output, since it stops there too.  Otherwise the whole parse
    always leaves its memory: PUSH copies a whole report item over the end of the
    state table, and the data that was cut off is read past the end. *)
Theorem hid_parse_overruns filter_item fuel es h tail :
  Forall entry_ok es -> Z.of_nat (length (descriptor es ++ h :: tail)) < 65536 -> (length es < fuel)%nat ->
  (Z.land h 252 = HID_RI_PUSH /\ (data_len h <= length tail)%nat \/ (length tail < data_len h)%nat) ->
  let parse l := USB_ProcessHIDReport filter_item fuel (map Some l) (Z.of_nat (length l)) in
  exists code info, parse (descriptor es) = Ok (code, info) /\
    parse (descriptor es ++ h :: tail) = if decide (code ∈ early_codes) then Ok (code, info) else Fault OutOfBounds.
Proof.
  intros He Hl Hf Hh parse. subst parse. cbv beta. unfold USB_ProcessHIDReport.
  replace fuel with (length es + S (fuel - length es - 1))%nat by lia. set (k := (fuel - length es - 1)%nat).
  assert (Z.of_nat (length (descriptor es ++ [])) < 65536) as Hl0 by (rewrite !length_app in *; cbn [length] in *; lia).
  destruct (parse_entries filter_item es [] 0 parser_start He parser_start_ok) as [(code & info & used & Hc & Hr & E)|(used & p & Hp & E)];
    pose proof (E (S k) [] Hl0) as E0; specialize (E (S k) (h :: tail) Hl); cbn [app length] in E, E0; rewrite app_nil_r in E0.
  - exists code, info. rewrite E0, E. by rewrite decide_True.
  - rewrite E0. eexists _, _. split; [by cbn|]. rewrite decide_False by (destruct (_ =? 0)%nat; by apply (bool_decide_unpack _)).
    rewrite E. cbn [parse_loop]. rewrite (proj2 (Z.eqb_neq _ _)) by (simpl; lia).
    rewrite load_nth, res_bind_ok by (rewrite length_app; simpl; lia).
    rewrite app_nth2, Nat.sub_diag by lia. cbn [nth]. destruct Hh as [[Hh Hd]|Hd].
    + destruct (succeeds_run _ _ (item_data_ok (descriptor es ++ h :: tail) (length (descriptor es) + 1) h
        ltac:(rewrite length_app; simpl; lia))) as (d & -> & _).
      rewrite res_bind_ok, Hh. unfold process_item. rewrite Z.eqb_refl. unfold push. by rewrite (ok_curr _ _ Hp).
    + by rewrite item_data_short by (rewrite length_app; simpl; lia).
Qed.

(** Witness of C34: the usage page is set and pushed; the parse ends outside its
    memory. *)
Lemma hid_parse_overruns_witness :
  let parse l := USB_ProcessHIDReport (fun _ => true) 2 (map Some l) (Z.of_nat (length l)) in
  (exists code info, parse (descriptor [(5, [1])]) = Ok (code, info) /\
    parse (descriptor [(5, [1])] ++ 164 :: []) = if decide (code ∈ early_codes) then Ok (code, info) else Fault OutOfBounds) /\
  parse [5; 1; 164] = Fault OutOfBounds.
Proof.
  split; [|by vm_compute].
  apply (hid_parse_overruns (fun _ => true) 2 [(5, [1])] 164 []);
    [repeat constructor; by vm_compute|by vm_compute|simpl; lia|left; by vm_compute].
Defined.

(** USB_GetHIDReportItemInfo.  In a report that contains the item, the value
    read is exactly the item's bits, the first bit of the item being bit 0 (bits
    after the 32nd are dropped), and the old value is kept as the previous one; a
    report with another report ID is refused and the item is not changed. *)
Theorem hid_get_value l i :
  let base := if item_ReportID i =? 0 then 0%nat else 1%nat in
  let size := BitSize (item_Attributes i) in
  l <> [] -> 0 <= BitOffset i -> 0 <= size -> BitOffset i + size < 65536 ->
  (size = 0 \/ (base + Z.to_nat ((BitOffset i + size - 1) / 8) < length l)%nat) ->
  if (item_ReportID i =? 0) || (item_ReportID i =? nth 0 l 0) then
    exists v, USB_GetHIDReportItemInfo (map Some l) (Some i) = Ok (true, Some (set_values (Some v) (Value i) i)) /\
      forall n, 0 <= n -> Z.testbit v n = (n <? size) && (n <? 32) && report_bit l base (BitOffset i + n)
  else USB_GetHIDReportItemInfo (map Some l) (Some i) = Ok (false, Some i).
Proof.
  intros base size Hl Ho Hs Hb Hin. unfold USB_GetHIDReportItemInfo. fold base size.
  assert (forall id, (if negb (id =? 0) then load (map Some l) 0 else mret 0) =
                     Ok (if id =? 0 then 0 else nth 0 l 0)) as E.
  { intros id. destruct (id =? 0); [done|]. apply load_nth. destruct l; [done|simpl; lia]. }
  rewrite E, res_bind_ok.
  destruct (succeeds_run _ _ (get_bits_value l base (Z.to_nat size) (BitOffset i) 0 0 Ho ltac:(lia) ltac:(lia)
    ltac:(rewrite Z2Nat.id by done; destruct Hin; [left; lia|right; done]))) as (v & Ev & Hv).
  change (u32 (2 ^ 0)) with 1 in Ev.
  assert (forall n, 0 <= n -> Z.testbit v n = (n <? size) && (n <? 32) && report_bit l base (BitOffset i + n)) as Hvn.
  { intros n Hn. rewrite (Hv n Hn), Z.testbit_0_l, Z.sub_0_r, Z2Nat.id by done. cbn [orb]. f_equal. f_equal.
    apply eq_true_iff_eq. rewrite bool_decide_eq_true, Z.ltb_lt. lia. }
  destruct (item_ReportID i =? 0); cbn [negb andb orb].
  - rewrite Ev, res_bind_ok. by exists v.
  - destruct (item_ReportID i =? nth 0 l 0); cbn [negb]; [|done]. rewrite Ev, res_bind_ok. by exists v.
Qed.

(** An instance: twelve bits at offset 4 of report 7. *)
Lemma hid_get_value_witness :
  let i := mk_item 4 0 0 7 None (mk_attr 12 (mk_usage 1 48) (mk_unit 0 0) minmax_zero minmax_zero) (Some 5) None in
  exists v, USB_GetHIDReportItemInfo (map Some [7; 176; 250; 3]) (Some i) = Ok (true, Some (set_values (Some v) (Some 5) i)) /\
    forall n, 0 <= n -> Z.testbit v n = (n <? 12) && (n <? 32) && report_bit [7; 176; 250; 3] 1 (4 + n).
Proof.
  intros i. apply (hid_get_value [7; 176; 250; 3] i); [done|by vm_compute..|right; vm_compute; lia].
Defined.

(** USB_SetHIDReportItemInfo loses values.  It tests the bits of the value at
    the position within the byte instead of within the item, so a value whose low
    byte is zero, such as 256 for an item of 16 bits, leaves the whole report as it
    was, the report ID apart. *)
Theorem hid_set_loses_value l i v :
  l <> [] -> Value i = Some v -> v mod 256 = 0 ->
  USB_SetHIDReportItemInfo (map Some l) (Some i) =
  Ok (if item_ReportID i =? 0 then map Some l else Some (item_ReportID i) :: map Some (tail l), Some (set_values (Some v) (Some v) i)).
Proof.
  intros Hl Hv Hm. unfold USB_SetHIDReportItemInfo. rewrite Hv.
  assert (forall n, 0 <= n < 8 -> Z.testbit v n = false) as Hlow.
  { intros n Hn. rewrite <- (Z.mod_pow2_bits_low v 8 n) by lia. change (2 ^ 8) with 256. by rewrite Hm, Z.testbit_0_l. }
  destruct (item_ReportID i =? 0); cbn [negb].
  - unfold mret at 1, res_ret. rewrite !res_bind_ok, set_bits_low by done. by rewrite res_bind_ok.
  - destruct l as [|x l]; [done|]. cbn [map store tail]. unfold store. cbn [lookup list_lookup insert list_insert].
    rewrite !res_bind_ok, set_bits_low by done. by rewrite res_bind_ok.
Qed.

(** An instance: the value 256 of a 16-bit item. *)
Lemma hid_set_loses_value_witness :
  let i := mk_item 0 0 0 0 None (mk_attr 16 (mk_usage 1 48) (mk_unit 0 0) minmax_zero minmax_zero) (Some 256) None in
  USB_SetHIDReportItemInfo (map Some [0; 0]) (Some i) = Ok (map Some [0; 0], Some (set_values (Some 256) (Some 256) i)).
Proof. intros i. by apply (hid_set_loses_value [0; 0] i 256). Defined.
