(* ===== verification/Board.v ===== *)
(** The board of the bootloaders: the LEDs of the Atmel USBKEY,
    Drivers/Board/AVR8/USBKEY/LEDs.h, endpoints that are configured in ascending
    order, and how a bootloader ends. *)

From Stdlib Require Import ZArith.
From stdpp Require Import base list.
From S2P Require Import Prelude Posix Avr Endpoint BulkHost.

Local Open Scope Z_scope.

(** * LEDs.h of the USBKEY *)

Definition LEDS_LED1 : Z := 16.
Definition LEDS_LED2 : Z := 32.
Definition LEDS_LED3 : Z := 128.
Definition LEDS_LED4 : Z := 64.
Definition LEDS_ALL_LEDS : Z := Z.lor LEDS_LED1 (Z.lor LEDS_LED2 (Z.lor LEDS_LED3 LEDS_LED4)).

Section leds.
Context {H A : Type} `{Hardware H} `{!Interrupts H A}.
Abbreviation run := (prog (usb H A)).

Definition LEDs_Init : run unit := set_bits DDRD LEDS_ALL_LEDS ;; clear_bits PORTD LEDS_ALL_LEDS.
Definition LEDs_Disable : run unit := clear_bits DDRD LEDS_ALL_LEDS ;; clear_bits PORTD LEDS_ALL_LEDS.
Definition LEDs_TurnOnLEDs (LEDMask : Z) : run unit := set_bits PORTD LEDMask.
Definition LEDs_TurnOffLEDs (LEDMask : Z) : run unit := clear_bits PORTD LEDMask.
Definition LEDs_SetAllLEDs (LEDMask : Z) : run unit :=
  v ← read_reg PORTD; write_reg PORTD (u8 (Z.lor (Z.ldiff v LEDS_ALL_LEDS) LEDMask)).
Definition LEDs_ChangeLEDs (LEDMask ActiveMask : Z) : run unit :=
  v ← read_reg PORTD; write_reg PORTD (u8 (Z.lor (Z.ldiff v LEDMask) ActiveMask)).
Definition LEDs_ToggleLEDs (LEDMask : Z) : run unit := write_reg PIND LEDMask.
Definition LEDs_GetLEDs : run Z := v ← read_reg PORTD; mret (Z.land v LEDS_ALL_LEDS).
End leds.

(** The LEDs are not the endpoints. *)
Lemma wp_leds {H A} `{HW : Hardware H} {out_ep in_ep patience} `{BH : !BulkHost H out_ep in_ep patience} m b a (Q : unit -> usb H A -> Prop) E s :
  at_bulk b a s -> (forall s', at_bulk b a s' -> Q tt s') -> wp (LEDs_SetAllLEDs m) Q E s.
Proof.
  intros Hs HQ. unfold LEDs_SetAllLEDs. eapply wp_bind, wp_bread; [done..|]. intros s1 [B1 A1].
  apply wp_write_reg, HQ. split; [|done]. cbn. by rewrite bulk_other.
Qed.

(** * Endpoints of a bootloader *)

Section ordered.
Context {H A : Type} `{Hardware H} `{!Interrupts H A} (fuel : nat).
Abbreviation run := (prog (usb H A)).

(** Endpoint_ConfigureEndpoint with ORDERED_EP_CONFIG, for a controller with seven
    endpoints. *)
Definition ordered_ConfigureEndpoint_Prv (Number UECFG0XData UECFG1XData : Z) : run bool :=
  Endpoint_SelectEndpoint Number ;;
  Endpoint_EnableEndpoint ;;
  write_reg UECFG1X 0 ;;
  write_reg UECFG0X UECFG0XData ;;
  write_reg UECFG1X UECFG1XData ;;
  Endpoint_IsConfigured.

Definition ordered_ConfigureEndpoint (Address Type' Size Banks : Z) : run bool :=
  let Number := Z.land Address ENDPOINT_EPNUM_MASK in
  if 7 <=? Number then mret false
  else
    mask ← lift (Endpoint_BytesToEPSizeMask fuel Size);
    ordered_ConfigureEndpoint_Prv Number
      (u8 (Z.lor (Z.shiftl Type' EPTYPE0) (if Z.testbit Address 7 then 2 ^ EPDIR else 0)))
      (u8 (Z.lor (Z.lor (2 ^ ALLOC) (if 1 <? Banks then 2 ^ EPBK0 else 0)) mask)).

Fixpoint ordered_ConfigureEndpointTable (Table : list endpoint_table) : run bool :=
  match Table with
  | [] => mret true
  | e :: rest =>
      if ep_Address e =? 0 then ordered_ConfigureEndpointTable rest
      else
        ok ← ordered_ConfigureEndpoint (ep_Address e) (ep_Type e) (ep_Size e) (ep_Banks e);
        if (ok : bool) then ordered_ConfigureEndpointTable rest else mret false
  end.
End ordered.

(** * The end of a bootloader *)

(** Magic bootloader key to unlock forced application start mode. *)
Definition MAGIC_BOOT_KEY : Z := 0xDC42.

(** Exits that stand for the reset by the watchdog and for the jump to address 0. *)
Definition watchdog_exit : Z := 1.
Definition application_exit : Z := 0.
