(* ===== verification/Flash.v ===== *)
(** Flash memory and its self-programming.

    The bootloaders program the flash memory a page at a time with the operations of
    avr-libc's boot.h ([spm_op]).  [FlashMemory] is what the data sheet says of them,
    [image_ops] the operations that program an image, and [image_flashed] that the
    memory then holds the image. *)

From Stdlib Require Import ZArith Lia.
From stdpp Require Import base tactics list numbers.
From S2P Require Import Prelude.

Local Open Scope Z_scope.

(** * Operations and images *)

(** boot_page_erase, boot_page_fill and boot_page_write. *)
Inductive spm_op : Type :=
  | PageErase (address : Z)
  | PageFill (address word : Z)
  | PageWrite (address : Z).

#[export] Instance spm_op_eq_dec : EqDecision spm_op.
Proof. solve_decision. Defined.

(** All accesses to the memories that are not the data memory: the others are
    boot_rww_enable, pgm_read_byte and pgm_read_word (or their far variants),
    eeprom_read_byte, eeprom_write_byte, eeprom_update_byte, boot_lock_bits_set,
    boot_lock_fuse_bits_get and boot_signature_byte_get. *)
Inductive mem_op : Type :=
  | Spm (op : spm_op)
  | RwwEnable
  | FlashReadByte (address : Z)
  | FlashReadWord (address : Z)
  | EepromRead (address : Z)
  | EepromWrite (address value : Z)
  | EepromUpdate (address value : Z)
  | LockBitsSet (bits : Z)
  | LockFuseGet (which : Z)
  | SignatureGet (address : Z).

(** The words of an even number of bytes, low byte first. *)
Fixpoint words_of (bs : list Z) : list Z :=
  match bs with
  | lo :: hi :: rest => hi * 256 + lo :: words_of rest
  | _ => []
  end.

Lemma length_words_of bs : Z.even (Z.of_nat (length bs)) = true -> 2 * Z.of_nat (length (words_of bs)) = Z.of_nat (length bs).
Proof.
  induction bs as [|x|lo hi bs IH] using list_pair_ind; intros He; [done|done|].
  cbn [length words_of] in *. rewrite !Nat2Z.inj_succ in *. rewrite Z.even_succ, Z.odd_succ in He. specialize (IH He). lia.
Qed.

Lemma words_of_app x y : Z.even (Z.of_nat (length x)) = true -> words_of (x ++ y) = words_of x ++ words_of y.
Proof.
  induction x as [|b|lo hi x IH] using list_pair_ind; intros He; [done|done|].
  cbn [length] in He. rewrite !Nat2Z.inj_succ, Z.even_succ, Z.odd_succ in He. cbn. by rewrite IH.
Qed.

Section image_ops.
Context (k : Z).
Abbreviation page := (2 ^ k).

(** The operations for the words of an image from address [a] on: a page is erased
    before its first word and written after its last. *)
Fixpoint image_ops (a : Z) (ws : list Z) : list spm_op :=
  match ws with
  | [] => []
  | w :: rest =>
      (if a mod page =? 0 then [PageErase a] else []) ++ [PageFill a w] ++
      (if (a + 2) mod page =? 0 then [PageWrite (a + 2 - page)] else []) ++ image_ops (a + 2) rest
  end.

Lemma image_ops_app ws1 : forall a ws2,
  image_ops a (ws1 ++ ws2) = image_ops a ws1 ++ image_ops (a + 2 * Z.of_nat (length ws1)) ws2.
Proof.
  induction ws1 as [|w ws1 IH]; intros a ws2; [by cbn [app image_ops length Z.of_nat Z.mul]; rewrite Z.add_0_r|].
  rewrite <- app_comm_cons. cbn [image_ops length]. rewrite IH, Nat2Z.inj_succ.
  replace (a + 2 + 2 * Z.of_nat (length ws1)) with (a + 2 * Z.succ (Z.of_nat (length ws1))) by lia. by rewrite <- !app_assoc.
Qed.
End image_ops.

(** * The flash memory *)

(** What the data sheet says of self-programming: an erased page is all ones; a word
    is put into the temporary buffer, at its place in the page, if the place is free;
    a page write puts the buffer into an erased page and frees the buffer. *)
Class FlashMemory (F : Type) (page : Z) : Type := {
  spm_exec : spm_op -> F -> F;
  flash_word : F -> Z -> Z;
  buffer_word : F -> Z -> Z;
  erase_flash f p x : p mod page = 0 -> flash_word (spm_exec (PageErase p) f) x = if decide (p <= x < p + page) then 65535 else flash_word f x;
  erase_buffer f p x : buffer_word (spm_exec (PageErase p) f) x = buffer_word f x;
  fill_flash f a w x : flash_word (spm_exec (PageFill a w) f) x = flash_word f x;
  fill_buffer f a w x : buffer_word f (a mod page) = 65535 -> buffer_word (spm_exec (PageFill a w) f) x = if decide (x = a mod page) then w else buffer_word f x;
  write_flash f p x : p mod page = 0 -> (forall y, p <= y < p + page -> flash_word f y = 65535) ->
    flash_word (spm_exec (PageWrite p) f) x = if decide (p <= x < p + page) then buffer_word f (x mod page) else flash_word f x;
  write_buffer f p x : buffer_word (spm_exec (PageWrite p) f) x = 65535 }.

Section flash.
Context (k : Z) (Hk : 1 <= k <= 13).
Abbreviation page := (2 ^ k).
Context {F : Type} `{FM : !FlashMemory F page}.

Definition spm_run (ops : list spm_op) (f : F) : F := foldl (fun f op => spm_exec op f) f ops.

Lemma spm_run_app o1 o2 f : spm_run (o1 ++ o2) f = spm_run o2 (spm_run o1 f).
Proof. apply foldl_app. Qed.

(** The memory while the words [mem] are programmed up to address [a]: the pages
    before are programmed, the page of [a], if begun, is erased, and the buffer holds
    its words. *)
Record loaded (mem : Z -> Z) (a : Z) (f : F) : Prop := {
  loaded_pages x : 0 <= x < a - a mod page -> Z.even x = true -> flash_word f x = mem x;
  loaded_buffer x : a - a mod page <= x < a -> Z.even x = true -> buffer_word f (x mod page) = mem x;
  loaded_free y : a mod page <= y < page -> buffer_word f y = 65535;
  loaded_erased x : a mod page <> 0 -> a - a mod page <= x < a - a mod page + page -> flash_word f x = 65535 }.

Lemma page_pos : 0 < page.
Proof. apply Z.pow_pos_nonneg; lia. Qed.

Lemma mod_in_page x p : p mod page = 0 -> p <= x < p + page -> x mod page = x - p.
Proof.
  intros Hp Hx. pose proof page_pos. pose proof (Z.div_mod p page ltac:(lia)).
  replace x with (x - p + (p / page) * page) at 1 by lia. rewrite Z.mod_add by lia. apply Z.mod_small. lia.
Qed.

Lemma page_aligned a : (a - a mod page) mod page = 0.
Proof. pose proof page_pos. rewrite Zminus_mod, Z.mod_mod, Z.sub_diag by lia. apply Z.mod_0_l. lia. Qed.

(** The page at [p] is begun and programmed up to [a], perhaps its end. *)
Record filling (mem : Z -> Z) (p a : Z) (f : F) : Prop := {
  filling_page : p mod page = 0 /\ p <= a <= p + page;
  filling_pages x : 0 <= x < p -> Z.even x = true -> flash_word f x = mem x;
  filling_buffer x : p <= x < a -> Z.even x = true -> buffer_word f (x mod page) = mem x;
  filling_free y : a - p <= y < page -> buffer_word f y = 65535;
  filling_erased x : p <= x < p + page -> flash_word f x = 65535 }.

(** The first operation of a page. *)
Lemma loaded_begin mem a f :
  loaded mem a f -> 0 <= a ->
  filling mem (a - a mod page) a (spm_run (if a mod page =? 0 then [PageErase a] else []) f).
Proof.
  intros [Hp Hb Hf He] Ha. pose proof page_pos. pose proof (Z.mod_pos_bound a page ltac:(lia)). pose proof (page_aligned a).
  destruct (Z.eqb_spec (a mod page) 0) as [Hm|Hm]; cbn [spm_run foldl].
  - rewrite Hm, Z.sub_0_r in *. split; [lia|..]; intros x Hx; intros.
    + rewrite erase_flash, decide_False by (done || lia). by apply Hp.
    + lia.
    + rewrite erase_buffer. apply Hf. lia.
    + by rewrite erase_flash, decide_True by (done || lia).
  - split; [lia|done|done| |by auto]. intros y Hy. apply Hf. lia.
Qed.

Lemma even_in_page p a : p mod page = 0 -> Z.even a = true -> p <= a < p + page -> a + 2 <= p + page.
Proof.
  intros Hp [x Hx]%Z.even_spec Ha. pose proof (Z.div_mod p page ltac:(pose proof page_pos; lia)).
  assert (page = 2 * 2 ^ (k - 1)) as Ep by (rewrite <- Z.pow_succ_r by lia; f_equal; lia). lia.
Qed.

Lemma filling_word mem p a f :
  filling mem p a f -> a < p + page -> Z.even a = true -> filling mem p (a + 2) (spm_run [PageFill a (mem a)] f).
Proof.
  intros [[Hp Ha] H1 H2 H3 H4] Hlt He. pose proof (even_in_page p a Hp He ltac:(lia)). pose proof (mod_in_page a p Hp ltac:(lia)) as Em.
  assert (buffer_word f (a mod page) = 65535) as Hfree by (apply H3; lia). cbn [spm_run foldl]. split; [lia|..]; intros x Hx.
  - intros. rewrite fill_flash. by apply H1.
  - intros Hex. rewrite fill_buffer by done. rewrite (mod_in_page x p), Em by (done || lia). case_decide.
    + f_equal. lia.
    + rewrite <- (mod_in_page x p) by (done || lia). apply H2; [|done]. assert (x <> a + 1); [|lia].
      intros ->. rewrite Z.even_add, He in Hex. done.
  - rewrite fill_buffer by done. rewrite Em, decide_False by lia. apply H3. lia.
  - rewrite fill_flash. by apply H4.
Qed.

(** The end of a word: the page is written if it is full. *)
Lemma filling_end mem p a f :
  filling mem p a f -> p < a -> loaded mem a (spm_run (if a mod page =? 0 then [PageWrite (a - page)] else []) f).
Proof.
  intros [[Hp Ha] H1 H2 H3 H4] Hlt. pose proof page_pos. destruct (decide (a = p + page)) as [->|Hne].
  - assert ((p + page) mod page = 0) as Hm by (rewrite <- (Z.mul_1_l page) at 1; by rewrite Z.mod_add by lia).
    rewrite Hm. cbn [Z.eqb spm_run foldl]. replace (p + page - page) with p by lia. split; rewrite ?Hm; intros x Hx; intros.
    + rewrite write_flash by done. case_decide; [apply H2; [lia|done]|apply H1; [lia|done]].
    + lia.
    + by rewrite write_buffer.
    + done.
  - rewrite (mod_in_page a p Hp) by lia. rewrite (proj2 (Z.eqb_neq _ _)) by lia. cbn [spm_run foldl].
    split; rewrite ?(mod_in_page a p Hp) by lia; replace (a - (a - p)) with p by lia; auto.
Qed.

(** The words of an image. *)
Lemma loaded_image mem ws : forall a f,
  loaded mem a f -> 0 <= a -> Z.even a = true -> (forall i w, ws !! i = Some w -> mem (a + 2 * Z.of_nat i) = w) ->
  loaded mem (a + 2 * Z.of_nat (length ws)) (spm_run (image_ops k a ws) f).
Proof.
  induction ws as [|w ws IH]; intros a f Hf Ha He Hw; [by cbn [length Z.of_nat Z.mul]; rewrite Z.add_0_r|].
  cbn [image_ops length]. rewrite Nat2Z.inj_succ, !spm_run_app. pose proof (Z.mod_pos_bound a page page_pos).
  replace (a + 2 * Z.succ (Z.of_nat (length ws))) with (a + 2 + 2 * Z.of_nat (length ws)) by lia.
  apply IH; [|lia|by rewrite Z.even_add, He|].
  - apply (filling_end mem (a - a mod page)); [|lia]. specialize (Hw 0%nat w eq_refl). rewrite Z.add_0_r in Hw. rewrite <- Hw.
    apply filling_word; [by apply loaded_begin|lia|done].
  - intros i w' Hi. rewrite <- (Hw (S i) w' Hi). f_equal. lia.
Qed.
End flash.

Section image.
Context (k : Z) (Hk : 1 <= k <= 13) {F : Type} `{FM : !FlashMemory F (2 ^ k)}.
Abbreviation page := (2 ^ k).

(** The words as a function of their address. *)
Definition mem_of (ws : list Z) (x : Z) : Z := default 0 (ws !! Z.to_nat (x / 2)).

Lemma mem_of_word ws i w : ws !! i = Some w -> mem_of ws (2 * Z.of_nat i) = w.
Proof. intros Hi. unfold mem_of. rewrite Z.mul_comm, Z.div_mul, Nat2Z.id by lia. by rewrite Hi. Qed.

Lemma loaded_start mem f : (forall y, 0 <= y < page -> buffer_word f y = 65535) -> loaded k mem 0 f.
Proof.
  intros Hf. pose proof (page_pos k Hk). assert (0 mod page = 0) as E by (apply Z.mod_0_l; lia).
  split; rewrite ?E; intros; [lia|lia|by apply Hf|done].
Qed.

(** The last operation: every word is in the flash memory. *)
Lemma loaded_end mem n f :
  loaded k mem n f -> 0 <= n -> let f' := spm_run k (if n mod page =? 0 then [] else [PageWrite (n - n mod page)]) f in
  forall x, 0 <= x < n -> Z.even x = true -> flash_word f' x = mem x.
Proof.
  intros [Hp Hb _ He] Hn f' x Hx Hev. pose proof (page_pos k Hk). pose proof (Z.mod_pos_bound n page ltac:(lia)). subst f'.
  destruct (Z.eqb_spec (n mod page) 0) as [E|E]; cbn [spm_run foldl].
  - apply Hp; [lia|done].
  - rewrite write_flash by (by apply page_aligned || auto). case_decide; [apply Hb; [lia|done]|apply Hp; [lia|done]].
Qed.

Lemma image_flashed ws n f :
  n = 2 * Z.of_nat (length ws) -> (forall y, 0 <= y < page -> buffer_word f y = 65535) ->
  let f' := spm_run k (image_ops k 0 ws ++ (if (n mod page =? 0) || (n <? page) then [] else [PageWrite (n - n mod page)])) f in
  if decide (page <= n) then forall i w, ws !! i = Some w -> flash_word f' (2 * Z.of_nat i) = w
  else 0 < n -> forall x, 0 <= x < page -> flash_word f' x = 65535.
Proof.
  intros Hn Hf. pose proof (page_pos k Hk). cbv zeta. rewrite spm_run_app.
  pose proof (loaded_image k Hk (mem_of ws) ws 0 f (loaded_start _ f Hf) ltac:(lia) eq_refl (mem_of_word ws)) as HL.
  rewrite Z.add_0_l, <- Hn in HL. case_decide as Hd.
  - rewrite (proj2 (Z.ltb_ge n page)), orb_false_r by lia. intros i w Hi. pose proof (lookup_lt_Some _ _ _ Hi).
    rewrite (loaded_end (mem_of ws) n _ HL) by (rewrite ?Z.even_mul; done || lia). by apply mem_of_word.
  - rewrite (proj2 (Z.ltb_lt n page)), orb_true_r by lia. intros H0 x Hx. cbn [spm_run foldl]. destruct HL as [_ _ _ He].
    rewrite (Z.mod_small n) in He by lia. apply He; lia.
Qed.
End image.

(** * Blocks *)

(** The operations of a bootloader that is given a block that starts at a page. *)
Section block.
Context (k : Z) (Hk : 1 <= k <= 13).
Abbreviation page := (2 ^ k).

(** The first page was erased by the command, the others are when their turn comes. *)
Fixpoint block_ops (a : Z) (ws : list Z) : list spm_op :=
  match ws with
  | [] => []
  | [w] => [PageFill a w; PageWrite (a - a mod page)]
  | w :: rest =>
      PageFill a w :: (if (a + 2) mod page =? 0 then [PageWrite (a - a mod page); PageErase (a + 2)] else []) ++ block_ops (a + 2) rest
  end.

Lemma word_in_page a : Z.even a = true -> 0 <= a ->
  ((a + 2) mod page = 0 /\ a mod page = page - 2) \/ (a + 2) mod page = a mod page + 2 /\ a mod page + 2 < page.
Proof.
  intros He Ha. pose proof (page_pos k Hk). pose proof (Z.mod_pos_bound a page ltac:(lia)).
  pose proof (page_aligned k Hk a) as Hp. pose proof (even_in_page k Hk _ a Hp He ltac:(lia)).
  destruct (decide (a mod page + 2 = page)) as [E|E].
  - left. split; [|lia]. replace (a + 2) with (a - a mod page + 1 * page) by lia. by rewrite Z.mod_add by lia.
  - right. split; [|lia]. rewrite (mod_in_page k Hk (a + 2) (a - a mod page)) by (done || lia). lia.
Qed.

(** With the erase of the first page they are the operations of the image and the
    write of the last page, if that is not full. *)
Lemma block_ops_image ws : forall a, 0 <= a -> Z.even a = true -> ws <> [] ->
  let n := a + 2 * Z.of_nat (length ws) in
  (if a mod page =? 0 then [PageErase a] else []) ++ block_ops a ws =
  image_ops k a ws ++ (if n mod page =? 0 then [] else [PageWrite (n - n mod page)]).
Proof.
  induction ws as [|w [|w' ws] IH]; intros a Ha He Hne; [done| |].
  - cbn [block_ops image_ops length]. change (a + 2 * Z.of_nat 1) with (a + 2). cbv zeta. rewrite <- !app_assoc. f_equal. cbn [app]. f_equal.
    destruct (word_in_page a He Ha) as [[E1 E2]|[E1 E2]]; rewrite E1; [cbn|].
    + by replace (a - a mod page) with (a + 2 - page) by lia.
    + rewrite (proj2 (Z.eqb_neq _ _)) by (pose proof (Z.mod_pos_bound a page (page_pos k ltac:(lia))); lia). cbn.
      by replace (a + 2 - (a mod page + 2)) with (a - a mod page) by lia.
  - assert (Z.even (a + 2) = true) as He' by (by rewrite Z.even_add, He). specialize (IH (a + 2) ltac:(lia) He' ltac:(done)).
    cbv zeta in *. replace (a + 2 * Z.of_nat (length (w :: w' :: ws))) with (a + 2 + 2 * Z.of_nat (length (w' :: ws))) by (cbn [length]; lia).
    change (image_ops k a (w :: w' :: ws)) with ((if a mod page =? 0 then [PageErase a] else []) ++ [PageFill a w] ++
      (if (a + 2) mod page =? 0 then [PageWrite (a + 2 - page)] else []) ++ image_ops k (a + 2) (w' :: ws)).
    rewrite <- !app_assoc, <- IH. f_equal. change (block_ops a (w :: w' :: ws)) with ([PageFill a w] ++
      (if (a + 2) mod page =? 0 then [PageWrite (a - a mod page); PageErase (a + 2)] else []) ++ block_ops (a + 2) (w' :: ws)).
    f_equal. destruct (word_in_page a He Ha) as [[E1 E2]|[E1 E2]].
    + rewrite E1. cbn [Z.eqb app]. by replace (a - a mod page) with (a + 2 - page) by lia.
    + rewrite (proj2 (Z.eqb_neq _ _)); [done|]. rewrite E1. pose proof (Z.mod_pos_bound a page (page_pos k ltac:(lia))). lia.
Qed.

(** The words of a block. *)
Fixpoint fill_ops (a : Z) (ws : list Z) : list spm_op :=
  match ws with
  | [] => []
  | w :: rest => PageFill a w :: fill_ops (a + 2) rest
  end.

(** A block in one page. *)
Lemma page_block_ops p ws : forall a, 0 <= a -> Z.even a = true -> p mod page = 0 -> p <= a -> a + 2 * Z.of_nat (length ws) <= p + page -> ws <> [] ->
  block_ops a ws = fill_ops a ws ++ [PageWrite p].
Proof.
  pose proof (page_pos k Hk). induction ws as [|w [|w' ws] IH]; intros a Ha He Hp Hle Hend Hne; [done| |]; cbn [length] in Hend.
  - cbn. rewrite (mod_in_page k Hk a p) by (done || lia). by replace (a - (a - p)) with p by lia.
  - change (block_ops a (w :: w' :: ws)) with (PageFill a w :: (if (a + 2) mod page =? 0 then [PageWrite (a - a mod page); PageErase (a + 2)] else [])
      ++ block_ops (a + 2) (w' :: ws)).
    rewrite (mod_in_page k Hk (a + 2) p), (proj2 (Z.eqb_neq _ 0)) by (done || lia). rewrite IH; [done|lia|by rewrite Z.even_add, He|done|lia|cbn [length]; lia|done].
Qed.
End block.

(** The memory below the start, and the new words from there on. *)
Definition mem_above (start : Z) (old : Z -> Z) (ws : list Z) (x : Z) : Z :=
  if decide (x < start) then old x else default 0 (ws !! Z.to_nat ((x - start) / 2)).

Lemma mem_above_word start old ws i w : ws !! i = Some w -> mem_above start old ws (start + 2 * Z.of_nat i) = w.
Proof.
  intros Hi. unfold mem_above. rewrite decide_False by lia. replace (start + 2 * Z.of_nat i - start) with (Z.of_nat i * 2) by lia.
  rewrite Z.div_mul, Nat2Z.id by lia. by rewrite Hi.
Qed.

Lemma flashed_above k addr ws {F} `{FM : !FlashMemory F (2 ^ k)} (f : F) :
  1 <= k <= 13 -> 0 <= addr -> Z.even addr = true -> addr mod 2 ^ k = 0 -> ws <> [] ->
  (forall y, 0 <= y < 2 ^ k -> buffer_word f y = 65535) ->
  let f' := spm_run k (PageErase addr :: block_ops k addr ws) f in
  (forall i w, ws !! i = Some w -> flash_word f' (addr + 2 * Z.of_nat i) = w) /\
  (forall x, 0 <= x < addr -> Z.even x = true -> flash_word f' x = flash_word f x).
Proof.
  intros Hk Ha He Hm Hne Hf. pose proof (block_ops_image k Hk ws addr Ha He Hne) as Eo.
  rewrite Hm in Eo. cbn [Z.eqb] in Eo. cbv zeta in *. change (PageErase addr :: block_ops k addr ws) with ([PageErase addr] ++ block_ops k addr ws).
  rewrite Eo, spm_run_app.
  set (mem := mem_above addr (flash_word f) ws). set (n := addr + 2 * Z.of_nat (length ws)).
  assert (loaded k mem addr f) as HL.
  { split; rewrite ?Hm, ?Z.sub_0_r; intros; [|lia|by apply Hf|done]. unfold mem, mem_above. by rewrite decide_True by lia. }
  pose proof (loaded_image k Hk mem ws addr f HL Ha He (mem_above_word addr (flash_word f) ws)) as HL'. clear HL. fold n in HL'.
  pose proof (loaded_end k Hk mem n _ HL' ltac:(lia)) as Hend. cbv zeta in Hend. split.
  - intros i w Hi. pose proof (lookup_lt_Some _ _ _ Hi). rewrite Hend; [by apply mem_above_word|lia|]. by rewrite Z.even_add, He, Z.even_mul.
  - intros x Hx Hex. rewrite Hend by (done || lia). unfold mem, mem_above. by rewrite decide_True by lia.
Qed.

(** A block in one page, and what is outside of the page. *)
Lemma fill_ops_flash k ws {F} `{FM : !FlashMemory F (2 ^ k)} : forall a (f : F) x, flash_word (spm_run k (fill_ops a ws) f) x = flash_word f x.
Proof. induction ws as [|w ws IH]; intros a f x; [done|]. cbn [fill_ops]. change (PageFill a w :: ?l) with ([PageFill a w] ++ l). rewrite spm_run_app, IH. apply fill_flash. Qed.

Lemma page_flashed k p ws {F} `{FM : !FlashMemory F (2 ^ k)} (f : F) :
  1 <= k <= 13 -> 0 <= p -> p mod 2 ^ k = 0 -> ws <> [] -> 2 * Z.of_nat (length ws) <= 2 ^ k ->
  (forall y, 0 <= y < 2 ^ k -> buffer_word f y = 65535) ->
  let f' := spm_run k (PageErase p :: fill_ops p ws ++ [PageWrite p]) f in
  (forall i w, ws !! i = Some w -> flash_word f' (p + 2 * Z.of_nat i) = w) /\
  (forall x, ~ p <= x < p + 2 ^ k -> flash_word f' x = flash_word f x).
Proof.
  intros Hk Hp Hm Hne Hlen Hf. cbv zeta. assert (Z.even p = true) as He.
  { assert (2 ^ k = 2 * 2 ^ (k - 1)) as Ep by (rewrite <- Z.pow_succ_r by lia; f_equal; lia).
    pose proof (Z.div_mod p (2 ^ k) ltac:(pose proof (page_pos k Hk); lia)). replace p with (2 * (2 ^ (k - 1) * (p / 2 ^ k))) by lia. by rewrite Z.even_mul. }
  split.
  - rewrite <- (page_block_ops k Hk p ws p) by (done || lia). by apply flashed_above.
  - intros x Hx. change (PageErase p :: ?l) with ([PageErase p] ++ l). rewrite !spm_run_app. cbn [spm_run foldl].
    assert (forall y, flash_word (spm_run k (fill_ops p ws) (spm_exec (PageErase p) f)) y = if decide (p <= y < p + 2 ^ k) then 65535 else flash_word f y) as Hy
      by (intros y; rewrite fill_ops_flash; by apply erase_flash).
    change (foldl (fun f op => spm_exec op f) ?g (fill_ops p ws)) with (spm_run k (fill_ops p ws) g).
    rewrite write_flash, decide_False, Hy, decide_False; [done|done|done|done|]. intros y Hy'. by rewrite Hy, decide_True.
Qed.

(** * Whole pages *)

Section pages.
Context (k : Z) (Hk : 1 <= k <= 13) {F : Type} `{FM : !FlashMemory F (2 ^ k)}.
Abbreviation page := (2 ^ k).

Lemma even_page p : p mod page = 0 -> Z.even p = true.
Proof.
  intros Hp. assert (page = 2 * 2 ^ (k - 1)) as Ep by (rewrite <- Z.pow_succ_r by lia; f_equal; lia).
  pose proof (Z.div_mod p page ltac:(pose proof (page_pos k Hk); lia)). replace p with (2 * (2 ^ (k - 1) * (p / page))) by lia. by rewrite Z.even_mul.
Qed.

Lemma page_image p ws : 0 <= p -> p mod page = 0 -> 2 * Z.of_nat (length ws) = page ->
  image_ops k p ws = PageErase p :: fill_ops p ws ++ [PageWrite p].
Proof.
  intros Hp Hm Hl. pose proof (page_pos k Hk). assert (ws <> []) as Hne by (intros ->; cbn in Hl; lia).
  pose proof (block_ops_image k Hk ws p Hp (even_page p Hm) Hne) as E. cbv zeta in E. rewrite Hl, Hm in E.
  replace ((p + page) mod page) with 0 in E by (rewrite <- (Z.mul_1_l page) at 1; by rewrite Z.mod_add by lia).
  cbn [Z.eqb] in E. rewrite app_nil_r in E. rewrite <- E, (page_block_ops k Hk p) by (done || lia || by apply even_page). done.
Qed.

(** The image of whole pages: its words are in the memory, which is unchanged
    elsewhere, and the buffer is free again. *)
Lemma pages_flashed n : forall p ws (f : F), 0 <= p -> p mod page = 0 -> 2 * Z.of_nat (length ws) = Z.of_nat n * page ->
  (forall y, 0 <= y < page -> buffer_word f y = 65535) ->
  let f' := spm_run k (image_ops k p ws) f in
  (forall i w, ws !! i = Some w -> flash_word f' (p + 2 * Z.of_nat i) = w) /\
  (forall x, ~ p <= x < p + 2 * Z.of_nat (length ws) -> flash_word f' x = flash_word f x) /\
  (forall y, 0 <= y < page -> buffer_word f' y = 65535).
Proof.
  pose proof (page_pos k Hk). induction n as [|n IH]; intros p ws f Hp Hm Hl Hf; cbv zeta.
  { destruct ws; [done|cbn in Hl; lia]. }
  set (h := Z.to_nat (page / 2)). assert (2 * Z.of_nat h = page) as Eh.
  { assert (page = 2 * 2 ^ (k - 1)) as Ep by (rewrite <- Z.pow_succ_r by lia; f_equal; lia). unfold h. rewrite Ep, (Z.mul_comm 2 (2 ^ (k - 1))), Z.div_mul; lia. }
  clearbody h. rewrite Nat2Z.inj_succ, Z.mul_succ_l in Hl. assert (0 <= Z.of_nat n * page) by (apply Z.mul_nonneg_nonneg; lia). set (w1 := take h ws). set (w2 := drop h ws).
  assert (length w1 = h) as L1 by (unfold w1; rewrite length_take; lia). assert (length w2 = length ws - h)%nat as L2 by (unfold w2; by rewrite length_drop).
  assert (ws = w1 ++ w2) as Ews by (symmetry; apply take_drop). rewrite Ews, image_ops_app, spm_run_app, (page_image p w1), length_app, L1, Eh by (done || (rewrite L1; lia)).
  assert (w1 <> []) as Hne by (intros E; rewrite E in L1; cbn in L1; lia).
  destruct (page_flashed k p w1 f Hk Hp Hm Hne ltac:(lia) Hf) as [W1 O1]. set (f1 := spm_run k (PageErase p :: _ ++ _) f) in *.
  assert (forall y, buffer_word f1 y = 65535) as B1.
  { intros y. unfold f1. rewrite app_comm_cons, spm_run_app. apply write_buffer. }
  destruct (IH (p + page) w2 f1) as (W2 & O2 & B2); [lia| |lia|by intros|].
  { rewrite <- (Z.mul_1_l page) at 1. by rewrite Z.mod_add by lia. }
  split_and!; [|intros x Hx; rewrite O2, O1 by lia; done|done]. intros i w Hi. destruct (decide (i < h)%nat) as [Hih|Hih].
  - rewrite lookup_app_l in Hi by lia. rewrite O2 by lia. by apply W1.
  - rewrite lookup_app_r in Hi by lia. rewrite <- (W2 _ _ Hi). f_equal. lia.
Qed.
End pages.

(** * Reading *)

(** The self-programming operations among the accesses. *)
Definition spm_of (ops : list mem_op) : list spm_op := omap (fun op => match op with Spm o => Some o | _ => None end) ops.

(** The application section can be read: it was enabled after the last page that was
    erased or written. *)
Definition rww_after (ready : bool) (op : mem_op) : bool :=
  match op with
  | Spm (PageErase _) | Spm (PageWrite _) => false
  | RwwEnable => true
  | _ => ready
  end.
Definition rww_ready (ops : list mem_op) : bool := foldl rww_after true ops.

Definition flash_byte {F} {page} `{!FlashMemory F page} (f : F) (x : Z) : Z :=
  if Z.even x then u8 (flash_word f x) else Z.shiftr (flash_word f (x - 1)) 8.

(** Reads of bytes return what is in the flash memory that started as [f]. *)
Definition reads_flash k {F} `{!FlashMemory F (2 ^ k)} (contents : list mem_op -> mem_op -> Z) (f : F) : Prop :=
  forall ops x, rww_ready ops = true -> contents ops (FlashReadByte x) = flash_byte (spm_run k (spm_of ops) f) x.

Lemma spm_of_app x y : spm_of (x ++ y) = spm_of x ++ spm_of y.
Proof. apply omap_app. Qed.

Lemma spm_of_spm ops : spm_of (map Spm ops) = ops.
Proof. induction ops as [|o ops IH]; [done|]. cbn. by f_equal. Qed.

(** Reading changes nothing. *)
Definition is_read (op : mem_op) : Prop := match op with FlashReadByte _ => True | _ => False end.

Lemma reads_keep ops l : Forall is_read l -> spm_of (ops ++ l) = spm_of ops /\ rww_ready (ops ++ l) = rww_ready ops.
Proof.
  unfold rww_ready. rewrite spm_of_app, foldl_app. generalize (foldl rww_after true ops). induction l as [|[] l IH]; intros b Hl;
    [by rewrite app_nil_r|inversion_clear Hl..]; try done. cbn. by apply IH.
Qed.

(** The bytes of a word. *)
Lemma word_bytes lo hi : is_byte lo -> is_byte hi -> u8 (hi * 256 + lo) = lo /\ Z.shiftr (hi * 256 + lo) 8 = hi.
Proof.
  unfold is_byte. intros Hlo Hhi. rewrite Z.shiftr_div_pow2 by lia. change (2 ^ 8) with 256. unfold wrapu. change (2 ^ 8) with 256. split.
  - rewrite Z.add_comm, Z.mod_add by lia. apply Z.mod_small. lia.
  - rewrite Z.div_add_l, Z.div_small by lia. lia.
Qed.

(** A simulated flash memory. *)
Record sim_flash : Type := mk_flash { sf_words : Z -> Z; sf_buffer : Z -> Z }.

#[export] Instance sim_flash_memory page : FlashMemory sim_flash page.
Proof.
  refine {|
    spm_exec op f :=
      match op with
      | PageErase p => mk_flash (fun x => if decide (p <= x < p + page) then 65535 else sf_words f x) (sf_buffer f)
      | PageFill a w => mk_flash (sf_words f) (fun x => if decide (x = a mod page) then w else sf_buffer f x)
      | PageWrite p => mk_flash (fun x => if decide (p <= x < p + page) then sf_buffer f (x mod page) else sf_words f x) (fun _ => 65535)
      end;
    flash_word := sf_words;
    buffer_word := sf_buffer |}; by intros.
Defined.

Definition sim_flash_old : sim_flash := mk_flash (fun x => x mod 7) (fun _ => 65535).
