(* ===== verification/HexLoader.v ===== *)
(** The Intel HEX loader of the printer bootloader,
    Bootloaders/Printer/BootloaderPrinter.c: characters in, self-programming
    operations out.

    The device appears to the host as a printer; what is printed is parsed one
    character at a time ([ParseIntelHEXByte]) and programmed into the flash memory.
    The operations of avr-libc's boot.h that reach the hardware are recorded in
    [spm]; the page size and the start of the boot section are those of the
    microcontroller it is built for. *)

From Stdlib Require Import ZArith Lia.
From stdpp Require Import base tactics list numbers.
From S2P Require Import Prelude Flash.

Local Open Scope Z_scope.

(** * Data *)

(** HEX_Parser_States_t *)
Inductive hex_state : Type :=
  | HEX_PARSE_STATE_WAIT_LINE
  | HEX_PARSE_STATE_BYTE_COUNT
  | HEX_PARSE_STATE_ADDRESS_HIGH
  | HEX_PARSE_STATE_ADDRESS_LOW
  | HEX_PARSE_STATE_RECORD_TYPE
  | HEX_PARSE_STATE_READ_DATA
  | HEX_PARSE_STATE_CHECKSUM.

#[export] Instance hex_state_eq_dec : EqDecision hex_state.
Proof. solve_decision. Defined.

(** HEX_Record_Types_t *)
Definition HEX_RECORD_TYPE_Data : Z := 0.
Definition HEX_RECORD_TYPE_EndOfFile : Z := 1.
Definition HEX_RECORD_TYPE_ExtendedSegmentAddress : Z := 2.
Definition HEX_RECORD_TYPE_ExtendedLinearAddress : Z := 4.

(** The variable HEXParser. *)
Record hexparser : Type := mk_hex {
  ParserState : hex_state;
  PrevData : Z;
  Data : Z;
  ReadMSB : bool;
  RecordType : Z;
  DataRem : Z;
  Checksum : Z;
  PageStartAddress : Z;
  CurrBaseAddress : Z;
  CurrAddress : Z }.

(** The parser, PageDirty, RunBootloader, and the operations so far. *)
Record loader : Type := mk_loader {
  HEXParser : hexparser;
  PageDirty : bool;
  RunBootloader : bool;
  spm : list spm_op }.

(** The variables as initialised: static storage is zero. *)
Definition hex_init : hexparser := mk_hex HEX_PARSE_STATE_WAIT_LINE 0 0 false 0 0 0 0 0 0.
Definition loader_init : loader := mk_loader hex_init false true [].

Definition set_state (st : hex_state) (h : hexparser) : hexparser :=
  mk_hex st (PrevData h) (Data h) (ReadMSB h) (RecordType h) (DataRem h) (Checksum h) (PageStartAddress h) (CurrBaseAddress h) (CurrAddress h).
Definition set_prev (v : Z) (h : hexparser) : hexparser :=
  mk_hex (ParserState h) v (Data h) (ReadMSB h) (RecordType h) (DataRem h) (Checksum h) (PageStartAddress h) (CurrBaseAddress h) (CurrAddress h).
Definition set_nibble (v : Z) (b : bool) (h : hexparser) : hexparser :=
  mk_hex (ParserState h) (PrevData h) v b (RecordType h) (DataRem h) (Checksum h) (PageStartAddress h) (CurrBaseAddress h) (CurrAddress h).
Definition set_rtype (v : Z) (h : hexparser) : hexparser :=
  mk_hex (ParserState h) (PrevData h) (Data h) (ReadMSB h) v (DataRem h) (Checksum h) (PageStartAddress h) (CurrBaseAddress h) (CurrAddress h).
Definition set_rem (v : Z) (h : hexparser) : hexparser :=
  mk_hex (ParserState h) (PrevData h) (Data h) (ReadMSB h) (RecordType h) v (Checksum h) (PageStartAddress h) (CurrBaseAddress h) (CurrAddress h).
Definition set_sum (v : Z) (h : hexparser) : hexparser :=
  mk_hex (ParserState h) (PrevData h) (Data h) (ReadMSB h) (RecordType h) (DataRem h) v (PageStartAddress h) (CurrBaseAddress h) (CurrAddress h).
Definition set_page (v : Z) (h : hexparser) : hexparser :=
  mk_hex (ParserState h) (PrevData h) (Data h) (ReadMSB h) (RecordType h) (DataRem h) (Checksum h) v (CurrBaseAddress h) (CurrAddress h).
Definition set_base (v : Z) (h : hexparser) : hexparser :=
  mk_hex (ParserState h) (PrevData h) (Data h) (ReadMSB h) (RecordType h) (DataRem h) (Checksum h) (PageStartAddress h) v (CurrAddress h).
Definition set_addr (v : Z) (h : hexparser) : hexparser :=
  mk_hex (ParserState h) (PrevData h) (Data h) (ReadMSB h) (RecordType h) (DataRem h) (Checksum h) (PageStartAddress h) (CurrBaseAddress h) v.

Definition on_hex (f : hexparser -> hexparser) (l : loader) : loader :=
  mk_loader (f (HEXParser l)) (PageDirty l) (RunBootloader l) (spm l).
Definition set_dirty (b : bool) (l : loader) : loader := mk_loader (HEXParser l) b (RunBootloader l) (spm l).
Definition stop_loader (l : loader) : loader := mk_loader (HEXParser l) (PageDirty l) false (spm l).
Definition do_spm (op : spm_op) (l : loader) : loader :=
  mk_loader (HEXParser l) (PageDirty l) (RunBootloader l) (spm l ++ [op]).

(** * The parser *)

(** The value of an upper case hexadecimal digit, or -1. *)
Definition HexToDecimal (Byte : Z) : Z :=
  if (65 <=? Byte) && (Byte <=? 70) then 10 + (Byte - 65)
  else if (48 <=? Byte) && (Byte <=? 57) then Byte - 48
  else -1.

Section loader.
Context (SPM_PAGESIZE BOOT_START_ADDR : Z).

(** address & ~(SPM_PAGESIZE - 1) *)
Definition page_of (address : Z) : Z := Z.land address (u32 (Z.lnot (SPM_PAGESIZE - 1))).

Definition FlushPageIfRequired (l : loader) : loader :=
  if negb (PageDirty l) then l
  else
    let NewPageStartAddress := page_of (CurrAddress (HEXParser l)) in
    if PageStartAddress (HEXParser l) =? NewPageStartAddress then l
    else set_dirty false (on_hex (set_page NewPageStartAddress) (do_spm (PageWrite (PageStartAddress (HEXParser l))) l)).

(** The word of a data record. *)
Definition program_word (NewDataWord : Z) (l : loader) : loader :=
  let l1 := if PageDirty l then l else set_dirty true (do_spm (PageErase (PageStartAddress (HEXParser l))) l) in
  let l2 := do_spm (PageFill (CurrAddress (HEXParser l1)) NewDataWord) l1 in
  FlushPageIfRequired (on_hex (fun h => set_addr (u32 (CurrAddress h + 2)) h) l2).

(** Two bytes of the data of a record, by its type. *)
Definition record_word (NewDataWord : Z) (l : loader) : loader :=
  let t := RecordType (HEXParser l) in
  if t =? HEX_RECORD_TYPE_Data then program_word NewDataWord l
  else if t =? HEX_RECORD_TYPE_ExtendedSegmentAddress then on_hex (set_base (u32 (Z.shiftl NewDataWord 4))) l
  else if t =? HEX_RECORD_TYPE_ExtendedLinearAddress then on_hex (set_base (u32 (Z.shiftl NewDataWord 16))) l
  else l.

(** case HEX_PARSE_STATE_READ_DATA *)
Definition read_data (l0 : loader) : loader :=
  let l := on_hex (fun h => set_rem (u8 (DataRem h - 1)) h) l0 in
  let h := HEXParser l in
  if BOOT_START_ADDR <=? CurrAddress h then set_dirty false (on_hex (set_state HEX_PARSE_STATE_WAIT_LINE) l)
  else if Z.testbit (DataRem h) 0 then on_hex (set_prev (Data h)) l
  else
    let l1 := record_word (Z.lor (Z.shiftl (Data h) 8) (PrevData h)) l in
    if DataRem (HEXParser l1) =? 0 then on_hex (set_state HEX_PARSE_STATE_CHECKSUM) l1 else l1.

(** case HEX_PARSE_STATE_CHECKSUM *)
Definition read_checksum (l : loader) : loader :=
  let h := HEXParser l in
  if negb (Data h =? Z.land (Z.lnot (Checksum h) + 1) 255) then l
  else
    let l1 := FlushPageIfRequired l in
    if RecordType h =? HEX_RECORD_TYPE_EndOfFile then stop_loader l1 else l1.

(** switch (HEXParser.ParserState) *)
Definition parse_case (l : loader) : loader :=
  match ParserState (HEXParser l) with
  | HEX_PARSE_STATE_BYTE_COUNT => on_hex (fun h => set_state HEX_PARSE_STATE_ADDRESS_HIGH (set_rem (Data h) h)) l
  | HEX_PARSE_STATE_ADDRESS_HIGH =>
      on_hex (fun h => set_state HEX_PARSE_STATE_ADDRESS_LOW (set_addr (u32 (CurrAddress h + u16 (Z.shiftl (Data h) 8))) h)) l
  | HEX_PARSE_STATE_ADDRESS_LOW =>
      on_hex (fun h => set_state HEX_PARSE_STATE_RECORD_TYPE (set_addr (u32 (CurrAddress h + Data h)) h)) l
  | HEX_PARSE_STATE_RECORD_TYPE =>
      on_hex (fun h => set_state (if DataRem h =? 0 then HEX_PARSE_STATE_CHECKSUM else HEX_PARSE_STATE_READ_DATA) (set_rtype (Data h) h)) l
  | HEX_PARSE_STATE_READ_DATA => read_data l
  | HEX_PARSE_STATE_CHECKSUM => read_checksum l
  | HEX_PARSE_STATE_WAIT_LINE => on_hex (set_state HEX_PARSE_STATE_WAIT_LINE) l
  end.

(** A complete byte has been read. *)
Definition parse_byte (l : loader) : loader :=
  parse_case (if bool_decide (ParserState (HEXParser l) = HEX_PARSE_STATE_CHECKSUM) then l
              else on_hex (fun h => set_sum (u8 (Checksum h + Data h)) h) l).

(** One character of the stream. *)
Definition ParseIntelHEXByte (ReadCharacter : Z) (l : loader) : loader :=
  if bool_decide (ParserState (HEXParser l) = HEX_PARSE_STATE_WAIT_LINE) || (ReadCharacter =? 58) then
    let l1 := on_hex (fun h => set_nibble (Data h) false (set_addr (CurrBaseAddress h) (set_sum 0 h))) l in
    if ReadCharacter =? 58 then on_hex (set_state HEX_PARSE_STATE_BYTE_COUNT) l1 else l1
  else
    let ReadCharacterDec := HexToDecimal ReadCharacter in
    if ReadCharacterDec <? 0 then l
    else
      let l1 := on_hex (fun h => set_nibble (u8 (Z.lor (Z.shiftl (Data h) 4) ReadCharacterDec)) (negb (ReadMSB h)) h) l in
      if ReadMSB (HEXParser l1) then l1 else parse_byte l1.

Definition parse_text (text : list Z) (l : loader) : loader := foldl (fun l c => ParseIntelHEXByte c l) l text.
End loader.

(** * HEX files *)

(** A byte as two upper case digits. *)
Definition hex_digit (d : Z) : Z := if d <? 10 then 48 + d else 55 + d.
Definition hex_byte (b : Z) : list Z := [hex_digit (b / 16); hex_digit (b mod 16)].

(** A record: its address, its type and its data; the line ends with CR LF. *)
Record hex_record : Type := mk_record { r_addr : Z; r_type : Z; r_data : list Z }.

Definition sum_bytes (bs : list Z) : Z := foldr Z.add 0 bs.

Definition record_bytes (r : hex_record) : list Z :=
  [Z.of_nat (length (r_data r)); r_addr r / 256; r_addr r mod 256; r_type r] ++ r_data r.

Definition print_record (r : hex_record) : list Z :=
  [58] ++ concat (map hex_byte (record_bytes r ++ [u8 (- sum_bytes (record_bytes r))])) ++ [13; 10].

Definition print_file (rs : list hex_record) : list Z := concat (map print_record rs).

Definition end_of_file : hex_record := mk_record 0 1 [].
