(* ===== verification/HexProofs.v ===== *)
(** What the Intel HEX loader of the printer bootloader does with HEX files.

    Characters are bytes ([parse_hex_byte]), bytes are records ([data_record_run]), and
    the records of a contiguous image are the self-programming operations of the
    image's pages ([image_ops]).  [FlashMemory] says what these operations do to the
    flash memory, as the data sheet describes it. *)

From Stdlib Require Import ZArith Lia.
From stdpp Require Import base tactics list numbers.
From S2P Require Import Prelude Flash HexLoader.

Local Open Scope Z_scope.

Lemma print_file_snoc rs r : print_file (rs ++ [r]) = print_file rs ++ print_record r.
Proof. unfold print_file. rewrite map_app, concat_app. cbn [map concat]. by rewrite app_nil_r. Qed.

(** * Characters *)

Lemma hex_digit_value d : 0 <= d < 16 -> HexToDecimal (hex_digit d) = d /\ (hex_digit d =? 58) = false.
Proof.
  intros Hd. unfold hex_digit. destruct (Z.ltb_spec d 10); unfold HexToDecimal.
  - rewrite (proj2 (Z.leb_gt 65 _)), (proj2 (Z.leb_le 48 _)), (proj2 (Z.leb_le _ 57)) by lia. cbn.
    split; [lia|]. apply Z.eqb_neq. lia.
  - rewrite (proj2 (Z.leb_le 65 _)), (proj2 (Z.leb_le _ 70)) by lia. cbn. split; [lia|]. apply Z.eqb_neq. lia.
Qed.

Lemma nibbles b d : is_byte b -> u8 (Z.lor (Z.shiftl (u8 (Z.lor (Z.shiftl d 4) (b / 16))) 4) (b mod 16)) = b.
Proof.
  intros Hb. unfold is_byte in Hb. pose proof (Z.mod_pos_bound b 16 ltac:(lia)). pose proof (Z.div_mod b 16 ltac:(lia)).
  assert (0 <= b / 16 < 16) by (split; [apply Z.div_pos; lia|apply Z.div_lt_upper_bound; lia]).
  rewrite !lor_shiftl by (simpl; lia). unfold wrapu. change (2 ^ 8) with 256. change (2 ^ 4) with 16.
  set (q := (d * 16 + b / 16)). pose proof (Z.div_mod q 256 ltac:(lia)) as Eq.
  replace (q mod 256 * 16 + b mod 16) with (b + (d - 16 * (q / 256)) * 256) by (unfold q in *; lia).
  rewrite Z.mod_add by lia. apply Z.mod_small. lia.
Qed.

Section parser.
Context (k BOOT_START_ADDR : Z) (Hk : 1 <= k <= 13) (Hboot : 0 < BOOT_START_ADDR <= 2 ^ 31).

Abbreviation page := (2 ^ k).
Abbreviation parse := (parse_text page BOOT_START_ADDR).

Lemma parse_app t1 t2 l : parse (t1 ++ t2) l = parse t2 (parse t1 l).
Proof. apply foldl_app. Qed.

(** A digit inside a record. *)
Lemma parse_digit d l :
  0 <= d < 16 -> ParserState (HEXParser l) <> HEX_PARSE_STATE_WAIT_LINE ->
  ParseIntelHEXByte page BOOT_START_ADDR (hex_digit d) l =
  let l1 := on_hex (fun h => set_nibble (u8 (Z.lor (Z.shiftl (Data h) 4) d)) (negb (ReadMSB h)) h) l in
  if ReadMSB (HEXParser l1) then l1 else parse_byte page BOOT_START_ADDR l1.
Proof.
  intros Hd Hs. unfold ParseIntelHEXByte. destruct (hex_digit_value d Hd) as [-> ->].
  rewrite bool_decide_eq_false_2 by done. cbn [orb]. by rewrite (proj2 (Z.ltb_ge _ _)) by lia.
Qed.

Lemma parse_hex_byte b l :
  is_byte b -> ParserState (HEXParser l) <> HEX_PARSE_STATE_WAIT_LINE -> ReadMSB (HEXParser l) = false ->
  parse (hex_byte b) l = parse_byte page BOOT_START_ADDR (on_hex (set_nibble b false) l).
Proof.
  intros Hb Hs Hm. unfold is_byte in Hb.
  assert (0 <= b / 16 < 16) by (split; [apply Z.div_pos; lia|apply Z.div_lt_upper_bound; lia]).
  pose proof (Z.mod_pos_bound b 16 ltac:(lia)). unfold parse_text, hex_byte. cbn [foldl].
  rewrite (parse_digit _ l) by done. cbn [on_hex HEXParser ReadMSB set_nibble]. rewrite Hm. cbn [negb].
  rewrite parse_digit by done. cbn [on_hex HEXParser ReadMSB Data set_nibble negb]. rewrite Hm. cbn [negb].
  f_equal. unfold on_hex. cbn [HEXParser PageDirty RunBootloader spm]. f_equal. unfold set_nibble.
  cbn [ParserState PrevData Data ReadMSB RecordType DataRem Checksum PageStartAddress CurrBaseAddress CurrAddress].
  by rewrite nibbles, Hm.
Qed.

(** ** Programming *)

(** PageStartAddress, PageDirty and the operations. *)
Record flashing : Type := mk_flashing { f_page : Z; f_dirty : bool; f_ops : list spm_op }.

Definition flush_at (a : Z) (p : flashing) : flashing :=
  if f_dirty p && negb (f_page p =? page_of page a) then mk_flashing (page_of page a) false (f_ops p ++ [PageWrite (f_page p)]) else p.

Definition word_at_address (a w : Z) (p : flashing) : flashing :=
  flush_at (a + 2) (mk_flashing (f_page p) true
    (f_ops p ++ (if f_dirty p then [] else [PageErase (f_page p)]) ++ [PageFill a w])).

Fixpoint words_from (a : Z) (ws : list Z) (p : flashing) : flashing :=
  match ws with
  | [] => p
  | w :: rest => words_from (a + 2) rest (word_at_address a w p)
  end.

(** The loader in the middle of a record. *)
Definition at_record (st : hex_state) (prev data rtype rem sum base addr : Z) (run : bool) (p : flashing) : loader :=
  mk_loader (mk_hex st prev data false rtype rem sum (f_page p) base addr) (f_dirty p) run (f_ops p).

Lemma flush_at_record st prev data rtype rem sum base addr run p :
  FlushPageIfRequired page (at_record st prev data rtype rem sum base addr run p) =
  at_record st prev data rtype rem sum base addr run (flush_at addr p).
Proof.
  unfold FlushPageIfRequired, flush_at, at_record. cbn. destruct (f_dirty p) eqn:Ed; cbn; [|by rewrite Ed].
  destruct (_ =? _); cbn; [by rewrite Ed|done].
Qed.

Lemma program_at_record w st prev data rtype rem sum base addr run p :
  0 <= addr < BOOT_START_ADDR ->
  program_word page w (at_record st prev data rtype rem sum base addr run p) =
  at_record st prev data rtype rem sum base (addr + 2) run (word_at_address addr w p).
Proof.
  intros Ha. unfold program_word, word_at_address. rewrite <- flush_at_record. f_equal. unfold at_record.
  assert (u32 (addr + 2) = addr + 2) as E by (unfold wrapu; apply Z.mod_small; lia).
  unfold on_hex, do_spm, set_dirty, set_addr. cbn -[wrapu Z.add]. destruct (f_dirty p); cbn -[wrapu Z.add]; rewrite E; by rewrite <- ?app_assoc.
Qed.

(** ** Bytes of a record *)

Lemma parse_summed b st prev data rtype rem sum base addr run p :
  is_byte b -> st <> HEX_PARSE_STATE_WAIT_LINE -> st <> HEX_PARSE_STATE_CHECKSUM ->
  parse (hex_byte b) (at_record st prev data rtype rem sum base addr run p) =
  parse_case page BOOT_START_ADDR (at_record st prev b rtype rem (u8 (sum + b)) base addr run p).
Proof. intros Hb Hw Hc. rewrite parse_hex_byte by done. unfold parse_byte. by rewrite bool_decide_eq_false_2. Qed.

Lemma parse_sum b prev data rtype rem sum base addr run p :
  is_byte b ->
  parse (hex_byte b) (at_record HEX_PARSE_STATE_CHECKSUM prev data rtype rem sum base addr run p) =
  read_checksum page (at_record HEX_PARSE_STATE_CHECKSUM prev b rtype rem sum base addr run p).
Proof. intros Hb. by rewrite parse_hex_byte. Qed.

(** The first byte of a word. *)
Lemma read_data_low prev data rtype rem sum base addr run p :
  addr < BOOT_START_ADDR -> 2 <= rem < 256 -> Z.even rem = true ->
  read_data page BOOT_START_ADDR (at_record HEX_PARSE_STATE_READ_DATA prev data rtype rem sum base addr run p) =
  at_record HEX_PARSE_STATE_READ_DATA data data rtype (rem - 1) sum base addr run p.
Proof.
  intros Ha Hr He. unfold read_data. cbn [at_record on_hex HEXParser set_rem DataRem CurrAddress Data].
  rewrite (proj2 (Z.leb_gt _ _)) by done. assert (u8 (rem - 1) = rem - 1) as E by (apply u8_small; unfold is_byte; lia).
  rewrite E, Z.bit0_odd, Z.odd_sub, <- Z.negb_even, He. rewrite <- E. done.
Qed.

(** The second byte of a word. *)
Lemma read_data_high prev data rtype rem sum base addr run p :
  addr < BOOT_START_ADDR -> 1 <= rem < 256 -> Z.even rem = false ->
  read_data page BOOT_START_ADDR (at_record HEX_PARSE_STATE_READ_DATA prev data rtype rem sum base addr run p) =
  let l1 := record_word page (Z.lor (Z.shiftl data 8) prev)
              (at_record HEX_PARSE_STATE_READ_DATA prev data rtype (rem - 1) sum base addr run p) in
  if DataRem (HEXParser l1) =? 0 then on_hex (set_state HEX_PARSE_STATE_CHECKSUM) l1 else l1.
Proof.
  intros Ha Hr He. unfold read_data. cbn [at_record on_hex HEXParser set_rem DataRem CurrAddress Data PrevData].
  rewrite (proj2 (Z.leb_gt _ _)) by done. assert (u8 (rem - 1) = rem - 1) as E by (apply u8_small; unfold is_byte; lia).
  rewrite E, Z.bit0_odd, Z.odd_sub, <- Z.negb_even, He. rewrite <- E. done.
Qed.

(** Two bytes of a data record. *)
Lemma parse_two lo hi prev data rem sum base addr run p :
  is_byte lo -> is_byte hi -> 0 <= addr < BOOT_START_ADDR -> 2 <= rem < 256 -> Z.even rem = true ->
  parse (hex_byte lo ++ hex_byte hi) (at_record HEX_PARSE_STATE_READ_DATA prev data 0 rem sum base addr run p) =
  at_record (if rem =? 2 then HEX_PARSE_STATE_CHECKSUM else HEX_PARSE_STATE_READ_DATA) lo hi 0 (rem - 2) (u8 (u8 (sum + lo) + hi))
    base (addr + 2) run (word_at_address addr (hi * 256 + lo) p).
Proof.
  intros Hlo Hhi Ha Hr He. rewrite parse_app, (parse_summed lo) by done. change (parse_case page BOOT_START_ADDR ?l) with (read_data page BOOT_START_ADDR l).
  rewrite read_data_low by (done || lia). rewrite (parse_summed hi) by done. change (parse_case page BOOT_START_ADDR ?l) with (read_data page BOOT_START_ADDR l).
  rewrite read_data_high by (rewrite ?Z.even_sub, ?He; done || lia).
  unfold record_word. cbn [RecordType HEXParser at_record Z.eqb HEX_RECORD_TYPE_Data].
  rewrite lor_shiftl by (unfold is_byte in *; simpl; lia). change (2 ^ 8) with 256.
  fold (at_record HEX_PARSE_STATE_READ_DATA lo hi 0 (rem - 1 - 1) (u8 (u8 (sum + lo) + hi)) base addr run p).
  rewrite program_at_record by lia. cbn [DataRem HEXParser at_record]. replace (rem - 1 - 1) with (rem - 2) by lia.
  destruct (Z.eqb_spec rem 2) as [->|]; [done|]. by rewrite (proj2 (Z.eqb_neq _ _)) by lia.
Qed.

(** The data of a data record: bytes in, words programmed. *)
Lemma parse_data bs : forall prev data sum base addr run p,
  Forall is_byte bs -> Z.even (Z.of_nat (length bs)) = true -> bs <> [] -> Z.of_nat (length bs) < 256 ->
  0 <= addr -> addr + Z.of_nat (length bs) <= BOOT_START_ADDR ->
  exists prev' data',
    parse (concat (map hex_byte bs))
      (at_record HEX_PARSE_STATE_READ_DATA prev data 0 (Z.of_nat (length bs)) sum base addr run p) =
    at_record HEX_PARSE_STATE_CHECKSUM prev' data' 0 0 (u8 (sum + sum_bytes bs)) base (addr + Z.of_nat (length bs)) run
      (words_from addr (words_of bs) p).
Proof.
  induction bs as [|x|lo hi bs IH] using list_pair_ind; intros prev data sum base addr run p Hb He Hn Hl Ha Hend; [done|done|].
  apply Forall_cons_iff in Hb as [Hlo [Hhi Hb]%Forall_cons_iff]. cbn [length] in *. rewrite !Nat2Z.inj_succ in *.
  cbn [map concat words_of words_from]. rewrite app_assoc, parse_app, parse_two; try done; try lia.
  assert (u8 (u8 (u8 (sum + lo) + hi) + sum_bytes bs) = u8 (sum + sum_bytes (lo :: hi :: bs))) as Esum.
  { cbn [sum_bytes foldr]. fold (sum_bytes bs). unfold wrapu. rewrite !Z.add_mod_idemp_l by done.
    rewrite <- Z.add_assoc, Z.add_mod_idemp_l by done. f_equal. lia. }
  destruct bs as [|b bs'].
  - exists lo, hi. cbn [length Z.of_nat map concat words_from words_of]. rewrite <- Esum. cbn [sum_bytes foldr].
    rewrite Z.add_0_r, (u8_small (u8 (u8 (sum + lo) + hi))) by apply u8_is_byte. done.
  - rewrite (proj2 (Z.eqb_neq _ _)) by (cbn [length]; lia).
    destruct (IH lo hi (u8 (u8 (sum + lo) + hi)) base (addr + 2) run (word_at_address addr (hi * 256 + lo) p)) as (prev' & data' & E);
      [done| |done|lia..|].
    { rewrite !Z.even_succ, Z.odd_succ in He. done. }
    exists prev', data'. replace (Z.succ (Z.succ (Z.of_nat (length (b :: bs')))) - 2) with (Z.of_nat (length (b :: bs'))) by lia.
    rewrite E, Esum. f_equal. lia.
Qed.

(** ** Records *)

Definition flash_of (l : loader) : flashing := mk_flashing (PageStartAddress (HEXParser l)) (PageDirty l) (spm l).

Lemma spm_flash l : spm l = f_ops (flash_of l).
Proof. done. Qed.

(** The loader between two records: the base address and the programming so far. *)
Definition between (base : Z) (run : bool) (p : flashing) (l : loader) : Prop :=
  CurrBaseAddress (HEXParser l) = base /\ RunBootloader l = run /\ flash_of l = p.

Lemma parse_colon base run p l :
  between base run p l ->
  exists prev data rtype rem, parse [58] l = at_record HEX_PARSE_STATE_BYTE_COUNT prev data rtype rem 0 base base run p.
Proof.
  intros (<- & <- & <-). exists (PrevData (HEXParser l)), (Data (HEXParser l)), (RecordType (HEXParser l)), (DataRem (HEXParser l)).
  unfold parse_text. cbn [foldl]. unfold ParseIntelHEXByte. rewrite orb_true_r. done.
Qed.

Lemma u32_small z : 0 <= z < 2 ^ 32 -> u32 z = z.
Proof. intros Hz. by apply Z.mod_small. Qed.

(** The four bytes before the data. *)
Section header_bytes.
Context (b prev data rtype rem sum base addr : Z) (run : bool) (p : flashing) (Hb : is_byte b).

Lemma parse_count :
  parse (hex_byte b) (at_record HEX_PARSE_STATE_BYTE_COUNT prev data rtype rem sum base addr run p) =
  at_record HEX_PARSE_STATE_ADDRESS_HIGH prev b rtype b (u8 (sum + b)) base addr run p.
Proof. by rewrite parse_summed. Qed.

Lemma parse_high :
  parse (hex_byte b) (at_record HEX_PARSE_STATE_ADDRESS_HIGH prev data rtype rem sum base addr run p) =
  at_record HEX_PARSE_STATE_ADDRESS_LOW prev b rtype rem (u8 (sum + b)) base (u32 (addr + u16 (Z.shiftl b 8))) run p.
Proof. by rewrite parse_summed. Qed.

Lemma parse_low :
  parse (hex_byte b) (at_record HEX_PARSE_STATE_ADDRESS_LOW prev data rtype rem sum base addr run p) =
  at_record HEX_PARSE_STATE_RECORD_TYPE prev b rtype rem (u8 (sum + b)) base (u32 (addr + b)) run p.
Proof. by rewrite parse_summed. Qed.

Lemma parse_type :
  parse (hex_byte b) (at_record HEX_PARSE_STATE_RECORD_TYPE prev data rtype rem sum base addr run p) =
  at_record (if rem =? 0 then HEX_PARSE_STATE_CHECKSUM else HEX_PARSE_STATE_READ_DATA) prev b b rem (u8 (sum + b)) base addr run p.
Proof. by rewrite parse_summed. Qed.
End header_bytes.

(** The start of a record: count, address and type. *)
Lemma parse_header n a t base run p l :
  between base run p l -> is_byte n -> 0 <= a < 65536 -> is_byte t -> 0 <= base -> base + a < 2 ^ 32 ->
  exists prev, parse ([58] ++ concat (map hex_byte [n; a / 256; a mod 256; t])) l =
    at_record (if n =? 0 then HEX_PARSE_STATE_CHECKSUM else HEX_PARSE_STATE_READ_DATA) prev t t n
      (u8 (sum_bytes [n; a / 256; a mod 256; t])) base (base + a) run p.
Proof.
  intros Hl Hn Ha Ht Hb0 Hb. destruct (parse_colon base run p l Hl) as (prev & data & rtype & rem & E). exists prev.
  pose proof (Z.mod_pos_bound a 256 ltac:(lia)). pose proof (Z.div_mod a 256 ltac:(lia)).
  assert (0 <= a / 256 < 256) by (split; [apply Z.div_pos; lia|apply Z.div_lt_upper_bound; lia]).
  cbn [map concat]. rewrite app_nil_r, !parse_app, E, parse_count, parse_high, parse_low, parse_type by done.
  assert (u16 (Z.shiftl (a / 256) 8) = a / 256 * 256) as ->
    by (rewrite Z.shiftl_mul_pow2 by lia; change (2 ^ 8) with 256; unfold wrapu; apply Z.mod_small; lia).
  rewrite (u32_small (base + a / 256 * 256)), u32_small by lia. f_equal; [|lia].
  unfold sum_bytes, wrapu. cbn [foldr]. rewrite !Z.add_mod_idemp_l by done.
  rewrite <- Z.add_assoc, Z.add_mod_idemp_l by done. f_equal. lia.
Qed.

(** The checksum that [print_record] puts at the end is the one the loader expects. *)
Lemma parse_good_sum s prev data rtype base addr run p :
  exists data', parse (hex_byte (u8 (- s))) (at_record HEX_PARSE_STATE_CHECKSUM prev data rtype 0 (u8 s) base addr run p) =
    at_record HEX_PARSE_STATE_CHECKSUM prev data' rtype 0 (u8 s) base addr
      (if rtype =? HEX_RECORD_TYPE_EndOfFile then false else run) (flush_at addr p).
Proof.
  exists (u8 (- s)). rewrite parse_sum by apply u8_is_byte. unfold read_checksum. cbn [at_record HEXParser Data Checksum RecordType].
  assert (Z.land (Z.lnot (u8 s) + 1) 255 = u8 (- s)) as ->.
  { change 255 with (Z.ones 8). rewrite Z.land_ones by lia. unfold Z.lnot. replace (Z.pred (- u8 s) + 1) with (- u8 s) by lia.
    unfold wrapu. rewrite <- (Z.sub_0_l (s mod _)), Zminus_mod_idemp_r. by f_equal. }
  rewrite Z.eqb_refl. cbn [negb].
  change (mk_loader _ _ _ _) with (at_record HEX_PARSE_STATE_CHECKSUM prev (u8 (- s)) rtype 0 (u8 s) base addr run p).
  rewrite flush_at_record. by destruct (rtype =? _).
Qed.

(** The end of a line changes nothing after the checksum. *)
Lemma parse_crlf prev data rtype rem sum base addr run p :
  parse [13; 10] (at_record HEX_PARSE_STATE_CHECKSUM prev data rtype rem sum base addr run p) =
  at_record HEX_PARSE_STATE_CHECKSUM prev data rtype rem sum base addr run p.
Proof. done. Qed.

Lemma sum_bytes_app x y : sum_bytes (x ++ y) = sum_bytes x + sum_bytes y.
Proof. unfold sum_bytes. induction x as [|b x IH]; [done|]. cbn. rewrite IH. lia. Qed.

(** A data record below the boot section. *)
Lemma parse_data_record a bs base run p l :
  between base run p l -> 0 <= base -> 0 <= a < 65536 -> Forall is_byte bs -> Z.even (Z.of_nat (length bs)) = true ->
  Z.of_nat (length bs) < 256 -> base + a + Z.of_nat (length bs) <= BOOT_START_ADDR ->
  between base run (flush_at (base + a + Z.of_nat (length bs)) (words_from (base + a) (words_of bs) p)) (parse (print_record (mk_record a 0 bs)) l).
Proof.
  intros Hl Hb Ha Hbs He Hn Hend. unfold print_record, record_bytes. cbn [r_addr r_type r_data].
  rewrite map_app, concat_app, map_app, concat_app. rewrite <- !app_assoc, (app_assoc [58]).
  destruct (parse_header (Z.of_nat (length bs)) a 0 base run p l) as [prev E]; try done; try (unfold is_byte; lia).
  rewrite parse_app, E. clear E l Hl. rewrite sum_bytes_app. set (hs := sum_bytes [_; _; _; _]).
  assert (exists prev' data', parse (concat (map hex_byte bs))
    (at_record (if Z.of_nat (length bs) =? 0 then HEX_PARSE_STATE_CHECKSUM else HEX_PARSE_STATE_READ_DATA) prev 0 0 (Z.of_nat (length bs)) (u8 hs)
       base (base + a) run p) =
    at_record HEX_PARSE_STATE_CHECKSUM prev' data' 0 0 (u8 (hs + sum_bytes bs)) base (base + a + Z.of_nat (length bs)) run
      (words_from (base + a) (words_of bs) p)) as (prev' & data' & E).
  { destruct bs as [|b bs']; [by exists prev, 0; cbn; rewrite !Z.add_0_r|]. rewrite (proj2 (Z.eqb_neq _ _)) by (cbn [length]; lia).
    destruct (parse_data (b :: bs') prev 0 (u8 hs) base (base + a) run p) as (prev' & data' & E); [done..|lia|lia|].
    exists prev', data'. rewrite E. f_equal. unfold wrapu. by rewrite Z.add_mod_idemp_l. }
  rewrite parse_app, E. cbn [map concat]. rewrite app_nil_r, parse_app.
  destruct (parse_good_sum (hs + sum_bytes bs) prev' data' 0 base (base + a + Z.of_nat (length bs)) run (words_from (base + a) (words_of bs) p)) as [data'' ->].
  rewrite parse_crlf. cbn [Z.eqb HEX_RECORD_TYPE_EndOfFile]. split_and!; [done..|]. unfold flash_of. cbn. by destruct (flush_at _ _).
Qed.

(** A record without data; the record of type 1 is the end of the file. *)
Lemma parse_empty_record a t base run p l :
  between base run p l -> 0 <= a < 65536 -> is_byte t -> 0 <= base -> base + a < 2 ^ 32 ->
  between base (if t =? HEX_RECORD_TYPE_EndOfFile then false else run) (flush_at (base + a) p) (parse (print_record (mk_record a t [])) l).
Proof.
  intros Hl Ha Ht Hb Hba. destruct (parse_header 0 a t base run p l) as [prev E]; try done; try (unfold is_byte; lia).
  set (hs := sum_bytes [0; a / 256; a mod 256; t]) in *.
  change (print_record (mk_record a t [])) with (([58] ++ concat (map hex_byte [0; a / 256; a mod 256; t])) ++ hex_byte (u8 (- hs)) ++ [13; 10]).
  rewrite parse_app, E, parse_app. cbn [Z.eqb].
  destruct (parse_good_sum hs prev t t base (base + a) run p) as [data' ->]. rewrite parse_crlf.
  split_and!; [done..|]. unfold flash_of. cbn. by destruct (flush_at _ _).
Qed.

Lemma parse_end_of_file base run p l :
  between base run p l -> 0 <= base < 2 ^ 32 -> between base false (flush_at base p) (parse (print_record end_of_file) l).
Proof.
  intros Hl Hb. rewrite <- (Z.add_0_r base) at 2. apply (parse_empty_record 0 1 base run p l Hl); (done || lia || (unfold is_byte; lia)).
Qed.

(** ** Contiguous images *)

Lemma page_of_start a : 0 <= a < 2 ^ 32 -> page_of page a = a - a mod page.
Proof.
  intros Ha. unfold page_of. assert (2 ^ k - 1 = Z.ones k) as -> by (rewrite Z.ones_equiv; lia).
  unfold wrapu. rewrite <- (Z.land_ones _ 32), Z.land_assoc, (Z.land_comm a), <- Z.land_assoc, Z.land_ones, (Z.mod_small a) by lia.
  rewrite Z.land_comm, <- Z.ldiff_land, Z.ldiff_ones_r, Z.shiftl_mul_pow2, Z.shiftr_div_pow2 by lia.
  pose proof (Z.div_mod a page ltac:(apply Z.pow_nonzero; lia)). lia.
Qed.

(** Programming is at [a]: the page of [a] is begun unless [a] is its start. *)
Definition programming (a : Z) (p : flashing) : Prop :=
  f_page p = a - a mod page /\ f_dirty p = negb (a mod page =? 0).

Lemma next_word a : 0 <= a -> Z.even a = true ->
  (a + 2) mod page = 0 /\ a mod page = page - 2 \/ (a + 2) mod page <> 0 /\ (a + 2) mod page = a mod page + 2.
Proof.
  intros Ha He. assert (page = 2 * 2 ^ (k - 1)) as Ep by (rewrite <- Z.pow_succ_r by lia; f_equal; lia).
  assert (0 < 2 ^ (k - 1)) by (apply Z.pow_pos_nonneg; lia).
  pose proof (Z.mod_pos_bound a page ltac:(lia)). pose proof (Z.div_mod a page ltac:(lia)).
  assert (Z.even (a mod page) = true) as Hm.
  { replace (a mod page) with (a - 2 * (2 ^ (k - 1) * (a / page))) by lia. rewrite Z.even_sub, He, Z.even_mul. done. }
  apply Z.even_spec in Hm as [h Hh]. destruct (decide (a mod page = page - 2)) as [E|E].
  - left. split; [|done]. replace (a + 2) with ((a / page + 1) * page) by lia. by apply Z.mod_mul; lia.
  - right. assert ((a + 2) mod page = a mod page + 2) as ->; [|lia].
    replace (a + 2) with (a mod page + 2 + (a / page) * page) by lia. rewrite Z.mod_add by lia. apply Z.mod_small. lia.
Qed.

Lemma word_programming a w p :
  programming a p -> 0 <= a < BOOT_START_ADDR -> Z.even a = true ->
  programming (a + 2) (word_at_address a w p) /\ f_ops (word_at_address a w p) = f_ops p ++ image_ops k a [w].
Proof.
  intros [Hp Hd] Ha He. unfold word_at_address, flush_at. cbn [f_page f_dirty f_ops].
  rewrite page_of_start by lia. rewrite Hp, Hd. cbn [andb image_ops]. rewrite app_nil_r.
  destruct (next_word a ltac:(lia) He) as [[E1 E2]|[E1 E2]].
  - rewrite (proj2 (Z.eqb_neq _ _)), E1 by lia. cbn [negb Z.eqb f_ops].
    replace (a - a mod page) with (a + 2 - page) by lia. split; [split; cbn; by rewrite E1|].
    rewrite <- !app_assoc. f_equal. destruct (Z.eqb_spec (a mod page) 0) as [Em|]; [|done]. cbn. do 2 f_equal. lia.
  - assert (a - a mod page = a + 2 - (a + 2) mod page) as Ep by lia.
    rewrite (proj2 (Z.eqb_eq _ _) Ep), (proj2 (Z.eqb_neq _ _) E1). cbn [negb f_ops]. split.
    + split; cbn; [done|]. by rewrite (proj2 (Z.eqb_neq _ _) E1).
    + rewrite app_nil_r. f_equal. destruct (Z.eqb_spec (a mod page) 0) as [Em|]; [|done]. cbn. do 2 f_equal. lia.
Qed.

Lemma words_programming ws : forall a p,
  programming a p -> 0 <= a -> a + 2 * Z.of_nat (length ws) <= BOOT_START_ADDR -> Z.even a = true ->
  programming (a + 2 * Z.of_nat (length ws)) (words_from a ws p) /\ f_ops (words_from a ws p) = f_ops p ++ image_ops k a ws.
Proof.
  induction ws as [|w ws IH]; intros a p Hp Ha Hend He; [by cbn [words_from image_ops length Z.of_nat Z.mul]; rewrite Z.add_0_r, app_nil_r|].
  cbn [length] in *. rewrite Nat2Z.inj_succ in *. cbn [words_from].
  destruct (word_programming a w p) as [Hp1 Ho1]; [done|lia|done|].
  destruct (IH (a + 2) (word_at_address a w p)) as [Hp2 Ho2]; [done|lia..| |].
  { by rewrite Z.even_add, He. }
  split; [by replace (a + 2 * Z.succ (Z.of_nat (length ws))) with (a + 2 + 2 * Z.of_nat (length ws)) by lia|].
  rewrite Ho2, Ho1. cbn [image_ops]. by rewrite <- !app_assoc.
Qed.

(** Nothing is flushed while programming goes on in the same place. *)
Lemma flush_programming a p : programming a p -> 0 <= a <= BOOT_START_ADDR -> flush_at a p = p.
Proof.
  intros [Hp Hd] Ha. unfold flush_at. rewrite page_of_start, Hp, Z.eqb_refl by lia. by rewrite andb_false_r.
Qed.

(** The records of an image cut into pieces, from address [a] on. *)
Fixpoint data_records (a : Z) (pieces : list (list Z)) : list hex_record :=
  match pieces with
  | [] => []
  | c :: rest => mk_record a HEX_RECORD_TYPE_Data c :: data_records (a + Z.of_nat (length c)) rest
  end.

(** Pieces of an even number of bytes, at most 254. *)
Definition piece_ok (c : list Z) : Prop :=
  Forall is_byte c /\ Z.even (Z.of_nat (length c)) = true /\ Z.of_nat (length c) < 256.

Lemma parse_pieces pieces : forall a run p l,
  between 0 run p l -> programming a p -> Forall piece_ok pieces -> 0 <= a -> Z.even a = true ->
  a + Z.of_nat (length (concat pieces)) <= Z.min BOOT_START_ADDR 65535 ->
  exists p', between 0 run p' (parse (print_file (data_records a pieces)) l) /\
    programming (a + Z.of_nat (length (concat pieces))) p' /\
    f_ops p' = f_ops p ++ image_ops k a (words_of (concat pieces)).
Proof.
  induction pieces as [|c pieces IH]; intros a run p l Hl Hp Hc Ha He Hend.
  - exists p. cbn [concat length words_of image_ops Z.of_nat]. rewrite Z.add_0_r, app_nil_r. done.
  - apply Forall_cons_iff in Hc as [(Hb & Hev & Hn) Hc]. cbn [concat] in *. rewrite length_app, Nat2Z.inj_add in *.
    pose proof (length_words_of c Hev) as Hw.
    pose proof (parse_data_record a c 0 run p l Hl) as H1.
    destruct (words_programming (words_of c) a p) as [Hp1 Ho1]; [done..|lia|done|]. rewrite Hw in Hp1.
    rewrite !Z.add_0_l, flush_programming in H1 by (done || lia).
    specialize (H1 ltac:(lia) ltac:(lia) Hb Hev Hn ltac:(lia)).
    destruct (IH (a + Z.of_nat (length c)) run (words_from a (words_of c) p) (parse (print_record (mk_record a 0 c)) l))
      as (p' & Hl' & Hp' & Ho'); [done..|lia| |lia|].
    { by rewrite Z.even_add, He, Hev. }
    exists p'. cbn [data_records print_file map concat]. rewrite parse_app. split_and!; [done|by rewrite Z.add_assoc|].
    rewrite Ho', Ho1, words_of_app, image_ops_app, Hw by done. by rewrite <- !app_assoc.
Qed.

(** RunBootloader is never set again. *)
Lemma stopped_char c l : RunBootloader l = false -> RunBootloader (ParseIntelHEXByte page BOOT_START_ADDR c l) = false.
Proof.
  assert (forall l, RunBootloader (FlushPageIfRequired page l) = RunBootloader l) as Hflush by (intros l0; unfold FlushPageIfRequired; by repeat case_match).
  assert (forall w l, RunBootloader (record_word page w l) = RunBootloader l) as Hword.
  { intros w l0. unfold record_word. case_match; [|by repeat case_match]. unfold program_word. rewrite Hflush. cbn. by destruct (PageDirty l0). }
  assert (forall l, RunBootloader (read_data page BOOT_START_ADDR l) = RunBootloader l) as Hdata.
  { intros l0. unfold read_data. case_match; [done|]. case_match; [done|]. case_match; cbn [on_hex RunBootloader]; by rewrite Hword. }
  intros Hl. unfold ParseIntelHEXByte. destruct (_ || _); [by destruct (_ =? _)|]. destruct (_ <? _); [done|]. destruct (ReadMSB _); [done|].
  unfold parse_byte. set (l1 := if bool_decide _ then _ else _). assert (RunBootloader l1 = false) as H1 by (unfold l1; by destruct (bool_decide _)). clearbody l1.
  unfold parse_case. destruct (ParserState _); [done..|by rewrite Hdata|]. unfold read_checksum. destruct (negb _); [done|]. destruct (_ =? _); [done|by rewrite Hflush].
Qed.

Lemma stopped_text text l : RunBootloader l = false -> RunBootloader (parse text l) = false.
Proof. revert l. induction text as [|c text IH]; intros l Hl; [done|]. by apply IH, stopped_char. Qed.

(** Where a file ends: all but the last digit does not stop the bootloader, and what
    follows that digit changes nothing. *)
Lemma file_ends pieces :
  Forall piece_ok pieces -> Z.of_nat (length (concat pieces)) <= Z.min BOOT_START_ADDR 65535 ->
  exists text last, print_file (data_records 0 pieces ++ [end_of_file]) = text ++ [last; 13; 10] /\
    RunBootloader (parse text loader_init) = true /\
    forall tail, tail `prefix_of` [13; 10] -> spm (parse (text ++ last :: tail) loader_init) = spm (parse (text ++ [last]) loader_init).
Proof.
  intros Hc Hn. destruct (parse_pieces pieces 0 true (mk_flashing 0 false []) loader_init) as (p & Hl & _ & _); [done| |done..|].
  { split; cbn; by rewrite Z.mod_0_l by (apply Z.pow_nonzero; lia). }
  destruct (parse_header 0 0 1 0 true p _ Hl) as [prev E]; try (unfold is_byte; lia). cbn [Z.eqb] in E.
  set (header := [58] ++ concat (map hex_byte [0; 0 / 256; 0 mod 256; 1])) in *. set (text0 := print_file (data_records 0 pieces)) in *.
  exists (text0 ++ header ++ [hex_digit 15]), (hex_digit 15). split_and!.
  - rewrite print_file_snoc. fold text0. rewrite <- !app_assoc. done.
  - rewrite !parse_app, E. done.
  - intros tail Htail. change (hex_digit 15 :: tail) with ([hex_digit 15] ++ tail). rewrite <- !app_assoc, !(parse_app text0), !(parse_app header), E.
    change (?x ++ ?y ++ tail) with ((x ++ y) ++ tail). change ([hex_digit 15] ++ [hex_digit 15]) with (hex_byte (u8 (Z.opp 1))).
    rewrite (parse_app (hex_byte _)). change (u8 (sum_bytes _)) with (u8 1). destruct (parse_good_sum 1 prev 1 1 0 (0 + 0) true p) as [data' ->].
    destruct Htail as [r Hr]. destruct tail as [|x [|y [|]]]; cbn in Hr; simplify_eq; done.
Qed.

(** A whole file: the pages of the image, and the write of the last one. *)
Lemma parse_image pieces :
  Forall piece_ok pieces -> Z.of_nat (length (concat pieces)) <= Z.min BOOT_START_ADDR 65535 ->
  let n := Z.of_nat (length (concat pieces)) in
  let l := parse (print_file (data_records 0 pieces ++ [end_of_file])) loader_init in
  RunBootloader l = false /\
  spm l = image_ops k 0 (words_of (concat pieces)) ++ (if (n mod page =? 0) || (n <? page) then [] else [PageWrite (n - n mod page)]).
Proof.
  intros Hc Hn n l.
  destruct (parse_pieces pieces 0 true (mk_flashing 0 false []) loader_init) as (p & Hl & [Hpg Hd] & Ho); [done| |done..|].
  { split; cbn; by rewrite Z.mod_0_l by (apply Z.pow_nonzero; lia). }
  apply (parse_end_of_file 0 true p) in Hl as (_ & Hrun & Hf); [|lia].
  assert (l = parse (print_record end_of_file) (parse (print_file (data_records 0 pieces)) loader_init)) as El.
  { subst l. by rewrite print_file_snoc, parse_app. }
  rewrite El. split; [done|]. rewrite spm_flash, Hf. rewrite Z.add_0_l in *. fold n in Hpg, Hd.
  unfold flush_at. rewrite page_of_start, Z.mod_0_l, Hpg, Hd by (try apply Z.pow_nonzero; lia).
  pose proof (Z.mod_pos_bound n page ltac:(apply Z.pow_pos_nonneg; lia)).
  destruct (Z.eqb_spec (n mod page) 0) as [|Hne]; cbn [negb andb orb]; [by rewrite Ho, app_nil_r|].
  destruct (Z.ltb_spec n page).
  - rewrite Z.mod_small, Z.sub_diag by lia. cbn. by rewrite Ho, app_nil_r.
  - rewrite (proj2 (Z.eqb_neq _ _)); [cbn; by rewrite Ho|]. pose proof (Z.div_mod n page ltac:(lia)).
    assert (1 <= n / page) by (apply Z.div_le_lower_bound; lia). nia.
Qed.
End parser.

(** ** Images *)

Lemma even_concat pieces : Forall piece_ok pieces -> Z.even (Z.of_nat (length (concat pieces))) = true.
Proof.
  induction 1 as [|c pieces (_ & Hc & _) _ IH]; [done|]. cbn [concat]. by rewrite length_app, Nat2Z.inj_add, Z.even_add, Hc, IH.
Qed.

Lemma parse_image_flashed k BOOT_START_ADDR pieces {F} `{FlashMemory F (2 ^ k)} (f : F) :
  1 <= k <= 13 -> 0 < BOOT_START_ADDR <= 2 ^ 31 -> Forall piece_ok pieces ->
  Z.of_nat (length (concat pieces)) <= Z.min BOOT_START_ADDR 65535 ->
  (forall y, 0 <= y < 2 ^ k -> buffer_word f y = 65535) ->
  let n := Z.of_nat (length (concat pieces)) in
  let l := parse_text (2 ^ k) BOOT_START_ADDR (print_file (data_records 0 pieces ++ [end_of_file])) loader_init in
  let f' := spm_run k (spm l) f in
  RunBootloader l = false /\
  if decide (2 ^ k <= n) then forall i w, words_of (concat pieces) !! i = Some w -> flash_word f' (2 * Z.of_nat i) = w
  else 0 < n -> forall x, 0 <= x < 2 ^ k -> flash_word f' x = 65535.
Proof.
  intros Hk Hb Hp Hn Hf. destruct (parse_image k BOOT_START_ADDR Hk Hb pieces Hp Hn) as [Hrun Hops].
  cbv zeta. rewrite Hops. split; [done|]. apply image_flashed; [done| |done]. symmetry. by apply length_words_of, even_concat.
Qed.

(** C29: a program sent as a HEX file.  For every page size of 2 to 8192 bytes and every
    start of the boot section, and for every image of at most 65535 bytes that ends
    below it, printed as data records of even length from address 0 on and an end
    record: the bootloader leaves its loop; if the image is at least a page long, then
    the flash memory holds every word of it; a shorter image is not programmed, its
    page is left erased. *)
Theorem hex_image_flashed k BOOT_START_ADDR pieces {F} `{FlashMemory F (2 ^ k)} (f : F) :
  1 <= k <= 13 -> 0 < BOOT_START_ADDR <= 2 ^ 31 -> Forall piece_ok pieces ->
  Z.of_nat (length (concat pieces)) <= Z.min BOOT_START_ADDR 65535 ->
  (forall y, 0 <= y < 2 ^ k -> buffer_word f y = 65535) ->
  let n := Z.of_nat (length (concat pieces)) in
  let l := parse_text (2 ^ k) BOOT_START_ADDR (print_file (data_records 0 pieces ++ [end_of_file])) loader_init in
  let f' := spm_run k (spm l) f in
  RunBootloader l = false /\
  if decide (2 ^ k <= n) then forall i w, words_of (concat pieces) !! i = Some w -> flash_word f' (2 * Z.of_nat i) = w
  else 0 < n -> forall x, 0 <= x < 2 ^ k -> flash_word f' x = 65535.
Proof. apply parse_image_flashed. Qed.

Definition sim_pieces : list (list Z) := [[12; 148; 52; 0; 12; 148]; [62; 0]; [12; 148; 62; 0; 255; 207]].

(** Witness of C29: 14 bytes in three records, for pages of 8 bytes. *)
Lemma hex_image_flashed_witness :
  let l := parse_text (2 ^ 3) 64 (print_file (data_records 0 sim_pieces ++ [end_of_file])) loader_init in
  let f' := spm_run 3 (spm l) sim_flash_old in
  RunBootloader l = false /\
  if decide (2 ^ 3 <= 14) then forall i w, words_of (concat sim_pieces) !! i = Some w -> flash_word (page := 2 ^ 3) f' (2 * Z.of_nat i) = w
  else 0 < 14 -> forall x, 0 <= x < 2 ^ 3 -> flash_word (page := 2 ^ 3) f' x = 65535.
Proof.
  apply (hex_image_flashed 3 64 sim_pieces sim_flash_old); [lia|lia| |cbn; lia|done].
  repeat constructor; by vm_compute.
Defined.

(** * Extended addresses *)

Section extended.
Context (k BOOT_START_ADDR : Z) (Hk : 1 <= k <= 13) (Hboot : 0 < BOOT_START_ADDR <= 2 ^ 24).
Abbreviation parse := (parse_text (2 ^ k) BOOT_START_ADDR).

(** The data of an extended linear address record. *)
Lemma parse_extended hi lo prev data sum base addr run p :
  is_byte hi -> is_byte lo -> 0 <= addr < BOOT_START_ADDR ->
  parse (hex_byte hi ++ hex_byte lo) (at_record HEX_PARSE_STATE_READ_DATA prev data 4 2 sum base addr run p) =
  at_record HEX_PARSE_STATE_CHECKSUM hi lo 4 0 (u8 (u8 (sum + hi) + lo)) ((lo * 256 + hi) * 65536) addr run p.
Proof.
  intros Hh Hl Ha. rewrite parse_app, (parse_summed k BOOT_START_ADDR hi) by done.
  change (parse_case (2 ^ k) BOOT_START_ADDR ?l) with (read_data (2 ^ k) BOOT_START_ADDR l).
  rewrite read_data_low by (done || lia). rewrite (parse_summed k BOOT_START_ADDR lo) by done.
  change (parse_case (2 ^ k) BOOT_START_ADDR ?l) with (read_data (2 ^ k) BOOT_START_ADDR l).
  rewrite read_data_high by (done || lia). unfold record_word.
  cbn [RecordType HEXParser at_record Z.eqb HEX_RECORD_TYPE_Data HEX_RECORD_TYPE_ExtendedSegmentAddress HEX_RECORD_TYPE_ExtendedLinearAddress].
  rewrite lor_shiftl by (unfold is_byte in *; simpl; lia). change (2 ^ 8) with 256.
  assert (u32 (Z.shiftl (lo * 256 + hi) 16) = (lo * 256 + hi) * 65536) as E
    by (unfold is_byte in *; rewrite Z.shiftl_mul_pow2 by lia; change (2 ^ 16) with 65536; unfold wrapu; apply Z.mod_small; lia).
  rewrite E. done.
Qed.

(** Outside a record every character but a colon is ignored. *)
Lemma parse_waiting text : forall l,
  ParserState (HEXParser l) = HEX_PARSE_STATE_WAIT_LINE -> Forall (fun c => c <> 58) text -> spm (parse text l) = spm l.
Proof.
  induction text as [|c text IH]; intros l Hl Ht; [done|]. apply Forall_cons_iff in Ht as [Hc Ht].
  assert (exists h, ParseIntelHEXByte (2 ^ k) BOOT_START_ADDR c l = mk_loader h (PageDirty l) (RunBootloader l) (spm l) /\
    ParserState h = HEX_PARSE_STATE_WAIT_LINE) as (h & E & Hh).
  { eexists. unfold ParseIntelHEXByte. rewrite Hl, bool_decide_eq_true_2, (proj2 (Z.eqb_neq _ _) Hc) by done. cbn [orb]. by split. }
  assert (parse (c :: text) l = parse text (ParseIntelHEXByte (2 ^ k) BOOT_START_ADDR c l)) as -> by done.
  rewrite E. by rewrite IH.
Qed.

Lemma hex_bytes_no_colon bs : Forall is_byte bs -> Forall (fun c => c <> 58) (concat (map hex_byte bs)).
Proof.
  induction 1 as [|b bs Hb _ IH]; [done|]. unfold is_byte in Hb. cbn [map concat]. apply Forall_app. split; [|done].
  pose proof (Z.mod_pos_bound b 16 ltac:(lia)).
  assert (0 <= b / 16 < 16) by (split; [apply Z.div_pos; lia|apply Z.div_lt_upper_bound; lia]).
  repeat constructor; apply Z.eqb_neq; by apply hex_digit_value.
Qed.

(** A data record for an address in the boot section or above. *)
Lemma parse_refused a bs base run p l :
  between base run p l -> BOOT_START_ADDR <= base -> 0 <= a < 65536 -> base + a < 2 ^ 32 ->
  Forall is_byte bs -> bs <> [] -> Z.of_nat (length bs) < 256 -> spm (parse (print_record (mk_record a 0 bs)) l) = f_ops p.
Proof.
  intros Hl Hb Ha Hend Hbs Hne Hn. destruct bs as [|b bs]; [done|]. apply Forall_cons_iff in Hbs as [Hb0 Hbs].
  unfold print_record, record_bytes. cbn [r_addr r_type r_data].
  rewrite <- app_assoc, map_app, concat_app, <- app_assoc, (app_assoc [58]).
  destruct (parse_header k BOOT_START_ADDR Hk (Z.of_nat (length (b :: bs))) a 0 base run p l) as [prev E]; try done; try (unfold is_byte; lia).
  rewrite parse_app, E, (proj2 (Z.eqb_neq _ 0)) by (cbn [length]; lia). rewrite <- app_comm_cons. cbn [map concat].
  rewrite <- app_assoc, parse_app, (parse_summed k BOOT_START_ADDR b) by done.
  change (parse_case (2 ^ k) BOOT_START_ADDR ?l) with (read_data (2 ^ k) BOOT_START_ADDR l).
  unfold read_data at 1. cbn [at_record on_hex HEXParser set_rem CurrAddress]. rewrite (proj2 (Z.leb_le _ _)) by lia.
  rewrite parse_waiting; [done|done|]. apply Forall_app. split; [|repeat constructor; lia].
  apply hex_bytes_no_colon, Forall_app. split; [done|]. repeat constructor; apply u8_is_byte.
Qed.

Lemma parse_extended_record hi lo base run p l :
  is_byte hi -> is_byte lo -> 0 <= base < BOOT_START_ADDR -> between base run p l ->
  between ((lo * 256 + hi) * 65536) run (flush_at k base p) (parse (print_record (mk_record 0 4 [hi; lo])) l).
Proof.
  intros Hh Hlo Hb Hl. destruct (parse_header k BOOT_START_ADDR Hk 2 0 4 base run p l) as [prev E]; try done; try (unfold is_byte; lia).
  set (hs := sum_bytes [2; 0 / 256; 0 mod 256; 4]) in *.
  assert (print_record (mk_record 0 4 [hi; lo]) = ([58] ++ concat (map hex_byte [2; 0 / 256; 0 mod 256; 4])) ++
    (hex_byte hi ++ hex_byte lo) ++ hex_byte (u8 (- (hs + hi + lo))) ++ [13; 10]) as ->.
  { unfold print_record, record_bytes. cbn [r_addr r_type r_data length]. change (Z.of_nat 2) with 2.
    rewrite sum_bytes_app. fold hs. replace (hs + sum_bytes [hi; lo]) with (hs + hi + lo) by (cbn [sum_bytes foldr]; lia). done. }
  rewrite parse_app, E, parse_app. cbn [Z.eqb]. rewrite parse_extended by (done || lia).
  assert (u8 (u8 (u8 hs + hi) + lo) = u8 (hs + hi + lo)) as ->.
  { unfold wrapu. rewrite Z.add_mod_idemp_l by done. rewrite <- (Z.add_assoc _ hi), Z.add_mod_idemp_l by done. f_equal. lia. }
  rewrite parse_app. destruct (parse_good_sum k BOOT_START_ADDR (hs + hi + lo) hi lo 4 ((lo * 256 + hi) * 65536) (base + 0) run p) as [data' ->].
  rewrite parse_crlf, Z.add_0_r. split_and!; [done..|]. unfold flash_of. cbn. by destruct (flush_at _ _ _).
Qed.
End extended.

(** * What the guard of the boot section does not protect *)

Section overwritten.
Context (k BOOT_START_ADDR : Z) (Hk : 2 <= k <= 13) (Hboot : 2 ^ k <= BOOT_START_ADDR <= 2 ^ 24).
Abbreviation page := (2 ^ k).

(** Nothing is flushed while no page is begun. *)
Lemma flush_clean a page' ops : flush_at k a (mk_flashing page' false ops) = mk_flashing page' false ops.
Proof. done. Qed.

Lemma flush_same a page' ops : page_of page a = page' -> flush_at k a (mk_flashing page' true ops) = mk_flashing page' true ops.
Proof. intros E. unfold flush_at. cbn [f_dirty f_page]. by rewrite E, Z.eqb_refl. Qed.

Lemma flush_other a page' ops : page' <> page_of page a ->
  flush_at k a (mk_flashing page' true ops) = mk_flashing (page_of page a) false (ops ++ [PageWrite page']).
Proof. intros E. unfold flush_at. cbn [f_dirty f_page f_ops andb]. by rewrite (proj2 (Z.eqb_neq _ _) E). Qed.

(** The records: a word at 0 begins the page at 0; the base address is set; a record
    without data at [a] ends that page and makes the page of its own address the
    current one, which is not compared with the boot section; a word below it then
    erases, and at its end writes, that page. *)
Definition overwriting (c a o lo hi : Z) : list hex_record :=
  [mk_record 0 HEX_RECORD_TYPE_Data [0; 0]; mk_record 0 HEX_RECORD_TYPE_ExtendedLinearAddress [c; 0];
   mk_record a HEX_RECORD_TYPE_Data []; mk_record o HEX_RECORD_TYPE_Data [lo; hi]].

Lemma parse_overwriting c a o lo hi :
  is_byte c -> is_byte lo -> is_byte hi -> c * 65536 + page <= BOOT_START_ADDR -> 0 < a < 65536 -> a mod page = 0 -> 0 <= o -> o + 2 < page ->
  let X := c * 65536 + a in
  spm (parse_text page BOOT_START_ADDR (print_file (overwriting c a o lo hi)) loader_init) =
    [PageErase 0; PageFill 0 0; PageWrite 0] ++ PageErase X :: fill_ops (c * 65536 + o) [hi * 256 + lo] ++ [PageWrite X].
Proof.
  intros Hc Hlo Hhi Hbase Ha Hm Ho Hop X. unfold is_byte in *. assert (page <= 2 ^ 13) as H13 by (apply Z.pow_le_mono_r; lia). change (2 ^ 13) with 8192 in H13.
  pose proof (page_pos k ltac:(lia)) as Hp. assert (1 <= k <= 13) as Hk' by lia. assert (0 < BOOT_START_ADDR <= 2 ^ 31) as Hb31 by (change (2 ^ 31) with (128 * 2 ^ 24); lia).
  assert (2 ^ 24 < 2 ^ 32) as H2432 by done. set (base := c * 65536) in *.
  assert (base mod page = 0) as Hbm.
  { unfold base. assert (65536 = 2 ^ (16 - k) * page) as -> by (change 65536 with (2 ^ 16); rewrite <- Z.pow_add_r by lia; f_equal; lia). rewrite Z.mul_assoc. apply Z.mod_mul. lia. }
  assert (forall z, 0 <= z < page -> page_of page z = 0) as Hz by (intros z Hz; rewrite (page_of_start k Hk') by lia; rewrite Z.mod_small; lia).
  assert (page_of page X = X) as HX.
  { rewrite (page_of_start k Hk') by (unfold X, base; lia). unfold X. rewrite Z.add_mod, Hbm, Hm by lia. cbn. rewrite Z.mod_0_l by lia. lia. }
  assert (page_of page (base + o + 2) = base) as Hbo.
  { rewrite (page_of_start k Hk') by (unfold base; lia). rewrite (mod_in_page k Hk' _ base) by (done || lia). lia. }
  assert (4 <= page) as H4 by (change 4 with (2 ^ 2); apply Z.pow_le_mono_r; lia).
  assert (between 0 true (mk_flashing 0 false []) loader_init) as B0 by done.
  unfold overwriting. change (print_file [?r1; ?r2; ?r3; ?r4]) with (print_record r1 ++ print_record r2 ++ print_record r3 ++ print_record r4 ++ []).
  rewrite app_nil_r, !parse_app. unfold HEX_RECORD_TYPE_Data, HEX_RECORD_TYPE_ExtendedLinearAddress.
  pose proof (parse_data_record k BOOT_START_ADDR Hk' Hb31 0 [0; 0] 0 true _ _ B0) as B1.
  specialize (B1 ltac:(lia) ltac:(lia) ltac:(apply (bool_decide_unpack _); by vm_compute) eq_refl ltac:(cbn; lia) ltac:(cbn; lia)).
  cbn [words_of words_from length Z.of_nat] in B1. unfold word_at_address in B1. cbn [f_dirty f_page f_ops app] in B1.
  change (0 + 0 + Z.pos _) with 2 in B1. change (0 + 0) with 0 in B1. change (0 + 2) with 2 in B1. rewrite !flush_same in B1 by (apply Hz; lia).
  set (l1 := parse_text page BOOT_START_ADDR (print_record (mk_record 0 0 [0; 0])) loader_init) in *. clearbody l1.
  apply (parse_extended_record k BOOT_START_ADDR Hk' ltac:(lia) c 0 0) in B1; [|unfold is_byte; lia..].
  rewrite flush_same in B1 by (apply Hz; lia). replace ((0 * 256 + c) * 65536) with base in B1 by (unfold base; lia).
  set (l2 := parse_text page BOOT_START_ADDR (print_record (mk_record 0 4 [c; 0])) l1) in *. clearbody l2. clear l1.
  apply (parse_empty_record k BOOT_START_ADDR Hk' a 0 base) in B1; [|lia|done|unfold base; lia..].
  change (0 =? HEX_RECORD_TYPE_EndOfFile) with false in B1. fold X in B1. rewrite flush_other, HX in B1 by (rewrite HX; unfold X, base; lia).
  set (l3 := parse_text page BOOT_START_ADDR (print_record (mk_record a 0 [])) l2) in *. clearbody l3. clear l2.
  apply (parse_data_record k BOOT_START_ADDR Hk' Hb31 o [lo; hi] base true) in B1; [|unfold base; lia|lia|repeat constructor; unfold is_byte; lia|done|cbn; lia|cbn; lia].
  destruct B1 as (_ & _ & Hf). rewrite spm_flash, Hf. cbn [words_of words_from length Z.of_nat]. unfold word_at_address. cbn [f_dirty f_page f_ops].
  rewrite flush_other by (rewrite Hbo; unfold X; lia). by rewrite flush_clean.
Qed.
End overwritten.

(** C37: the guard of the boot section.  It compares the address of a word with the start
    of the boot section, but the page that is erased and written is another variable,
    which a record without data can set to any page.  So for every page of the 64 KB
    from [c] * 64 KB on except the first, in the boot section or not, and every place in
    it except the last word, there is a HEX file of four records with right checksums
    that leaves a chosen word in that place, and the rest of the page erased. *)
Theorem boot_section_overwritten k BOOT_START_ADDR c a o lo hi {F} `{FlashMemory F (2 ^ k)} (f : F) :
  2 <= k <= 13 -> 2 ^ k <= BOOT_START_ADDR <= 2 ^ 24 -> is_byte c -> is_byte lo -> is_byte hi -> c * 65536 + 2 ^ k <= BOOT_START_ADDR ->
  0 < a < 65536 -> a mod 2 ^ k = 0 -> 0 <= o -> Z.even o = true -> o + 2 < 2 ^ k -> (forall y, 0 <= y < 2 ^ k -> buffer_word f y = 65535) ->
  let X := c * 65536 + a in
  let l := parse_text (2 ^ k) BOOT_START_ADDR (print_file (overwriting c a o lo hi)) loader_init in
  forall x, X <= x < X + 2 ^ k -> flash_word (spm_run k (spm l) f) x = if decide (x = X + o) then hi * 256 + lo else 65535.
Proof.
  intros Hk Hb Hc Hlo Hhi Hbase Ha Hm Ho He Hop Hf X l x Hx. unfold l. rewrite parse_overwriting by done. fold X.
  pose proof (page_pos k ltac:(lia)) as Hp. unfold is_byte in *. assert (1 <= k <= 13) as Hk' by lia.
  assert (forall b, (c * 65536 + b) mod 2 ^ k = b mod 2 ^ k) as Hbm.
  { intros b. assert (65536 = 2 ^ (16 - k) * 2 ^ k) as -> by (change 65536 with (2 ^ 16); rewrite <- Z.pow_add_r by lia; f_equal; lia). rewrite Z.mul_assoc, Z.add_comm. apply Z.mod_add. lia. }
  assert (X mod 2 ^ k = 0) as HXm by (unfold X; by rewrite Hbm).
  rewrite spm_run_app. set (f1 := spm_run k _ f). assert (forall y, buffer_word f1 y = 65535) as B1 by (intros y; unfold f1, spm_run; cbn [foldl]; apply write_buffer).
  clearbody f1. cbn [fill_ops app]. unfold spm_run. cbn [foldl].
  rewrite write_flash; [|done|intros y Hy; by rewrite fill_flash, erase_flash, decide_True]. rewrite decide_True by done.
  rewrite fill_buffer by (by rewrite erase_buffer). rewrite erase_buffer, B1, Hbm, (Z.mod_small o) by lia. rewrite (mod_in_page k Hk' x X) by done.
  destruct (decide (x - X = o)) as [E|E]; [by rewrite decide_True by lia|by rewrite decide_False by lia].
Qed.

(** Witness of C37: a word in the first page of the boot section of the bootloader as it
    is built, at 0x1E000. *)
Lemma boot_section_overwritten_witness :
  let l := parse_text (2 ^ 8) 0x1E000 (print_file (overwriting 1 0xE000 4 0x0C 0x94)) loader_init in
  flash_word (page := 2 ^ 8) (spm_run 8 (spm l) sim_flash_old) 0x1E004 = 0x940C.
Proof.
  exact (boot_section_overwritten 8 0x1E000 1 0xE000 4 0x0C 0x94 sim_flash_old ltac:(lia) ltac:(lia)
    ltac:(unfold is_byte; lia) ltac:(unfold is_byte; lia) ltac:(unfold is_byte; lia) ltac:(lia) ltac:(lia)
    ltac:(done) ltac:(lia) ltac:(done) ltac:(lia) ltac:(done) 0x1E004 ltac:(lia)).
Defined.

(** C39: extended linear addresses.  The loader takes the two bytes of such a record in
    the wrong order: the address of the upper half of a HEX file is the byte-swapped
    one.  So after the record that begins the second 64 KB, or any other one with a low
    byte that is not zero, every data record is refused. *)
Theorem extended_address_swapped k BOOT_START_ADDR hi lo a bs l :
  1 <= k <= 13 -> 0 < BOOT_START_ADDR <= 2 ^ 24 -> is_byte hi -> is_byte lo ->
  0 <= CurrBaseAddress (HEXParser l) < BOOT_START_ADDR -> 0 <= a < 65536 ->
  Forall is_byte bs -> bs <> [] -> Z.of_nat (length bs) < 256 ->
  let l1 := parse_text (2 ^ k) BOOT_START_ADDR (print_record (mk_record 0 HEX_RECORD_TYPE_ExtendedLinearAddress [hi; lo])) l in
  let l2 := parse_text (2 ^ k) BOOT_START_ADDR (print_record (mk_record a HEX_RECORD_TYPE_Data bs)) l1 in
  CurrBaseAddress (HEXParser l1) = (lo * 256 + hi) * 65536 /\
  (0 < lo -> spm l2 = spm l1).
Proof.
  intros Hk Hb Hh Hl Hbase Ha Hbs Hne Hn l1 l2. set (base := CurrBaseAddress (HEXParser l)) in *.
  pose proof (parse_extended_record k BOOT_START_ADDR Hk Hb hi lo base _ _ l Hh Hl ltac:(lia) (conj eq_refl (conj eq_refl eq_refl))) as H1.
  change 4 with HEX_RECORD_TYPE_ExtendedLinearAddress in H1. fold l1 in H1. clearbody l1. split; [apply H1|]. intros Hlo. unfold is_byte in *. rewrite (spm_flash l1).
  pose proof H1 as (_ & _ & ->). unfold l2, HEX_RECORD_TYPE_Data.
  apply (parse_refused k BOOT_START_ADDR Hk Hb a bs ((lo * 256 + hi) * 65536) (RunBootloader l)); try done; lia.
Qed.

(** Witness of C39: the record of the second 64 KB, for the bootloader as it is built. *)
Lemma extended_address_swapped_witness :
  let l1 := parse_text (2 ^ 8) 0x1E000 (print_record (mk_record 0 HEX_RECORD_TYPE_ExtendedLinearAddress [0; 1])) loader_init in
  let l2 := parse_text (2 ^ 8) 0x1E000 (print_record (mk_record 0 HEX_RECORD_TYPE_Data [1; 2])) l1 in
  CurrBaseAddress (HEXParser l1) = (1 * 256 + 0) * 65536 /\ (0 < 1 -> spm l2 = spm l1).
Proof. apply extended_address_swapped; try done; try (unfold is_byte; cbn; lia). repeat constructor; by vm_compute. Defined.
