(* ===== verification/PrinterLoader.v ===== *)
(** The printer bootloader, Bootloaders/Printer/BootloaderPrinter.c: the HEX loader
    behind the printer class driver.

    [pl_app] holds the driver's interface, the loader and MagicBootKey.  The
    bootloader configures the USB library in its own way, so USB_Init and
    USB_USBTask are parameters.  The LEDs are those of the board it is built for,
    Drivers/Board/AVR8/USBKEY/LEDs.h.  The watchdog and clock prescaler calls of
    avr-libc are not modelled; the wait for the watchdog's reset, and the jump to the
    application, end the program. *)

From Stdlib Require Import ZArith Lia.
From stdpp Require Import base tactics list numbers.
From S2P Require Import Prelude Posix Avr Endpoint EndpointStream Device Cdc BulkHost Printer Board Flash HexLoader HexProofs.

Local Open Scope Z_scope.

(** * The bootloader *)

Definition LEDMASK_USB_NOTREADY : Z := LEDS_LED1.
Definition LEDMASK_USB_ENUMERATING : Z := Z.lor LEDS_LED2 LEDS_LED3.
Definition LEDMASK_USB_READY : Z := Z.lor LEDS_LED2 LEDS_LED4.
Definition LEDMASK_USB_ERROR : Z := Z.lor LEDS_LED1 LEDS_LED3.
Definition LEDMASK_USB_BUSY : Z := LEDS_LED2.
(** (FLASH_SIZE_KB - BOOT_SECTION_SIZE_KB) * 1024, from the makefile *)
Definition PRINTER_BOOT_START_ADDR : Z := (128 - 8) * 1024.

Record pl_app : Type := mk_pl {
  TextOnly_Printer_Interface : prnt_info;
  pl_loader : loader;
  MagicBootKey : Z }.

Definition put_pl_prnt (i : prnt_info) (a : pl_app) : pl_app := mk_pl i (pl_loader a) (MagicBootKey a).
Definition on_loader (f : loader -> loader) (a : pl_app) : pl_app :=
  mk_pl (TextOnly_Printer_Interface a) (f (pl_loader a)) (MagicBootKey a).
Definition set_key (k : Z) (a : pl_app) : pl_app := mk_pl (TextOnly_Printer_Interface a) (pl_loader a) k.

(** The initialiser: "MFG:Generic;MDL:Generic_/_Text_Only;CMD:1284.4;CLS:PRINTER". *)
Definition printer_id : list Z :=
  [77;70;71;58;71;101;110;101;114;105;99;59;77;68;76;58;71;101;110;101;114;105;99;95;47;95;84;101;120;116;95;79;110;108;121;59;
   67;77;68;58;49;50;56;52;46;52;59;67;76;83;58;80;82;73;78;84;69;82].
Definition printer_init : prnt_info :=
  mk_prnt 0 (mk_ep 0x83 64 0 1) (mk_ep 0x04 64 0 1) printer_id 0 false.

Section printer_loader.
Context {H : Type} `{Hardware H} `{!Interrupts H pl_app}.
Context (fuel : nat) (SPM_PAGESIZE BOOT_START_ADDR : Z).

Abbreviation run := (prog (usb H pl_app)).

(** The library, as this project configures it. *)
Context (USB_Init USB_USBTask : run unit).

Abbreviation prnt := TextOnly_Printer_Interface.

(** MCUSR tells whether the watchdog caused the reset; the key whether the bootloader
    wanted it. *)
Definition Application_Jump_Check : run unit :=
  v ← read_reg MCUSR;
  key ← get_mem (fun s => MagicBootKey (app s));
  when (Z.testbit v WDRF && (key =? MAGIC_BOOT_KEY)) (
    set_mem (on_app (set_key 0)) ;;
    exits application_exit).

Definition SetupHardware : run unit :=
  clear_bits MCUSR (2 ^ WDRF) ;;
  write_reg MCUCR 1 ;;
  write_reg MCUCR 2 ;;
  LEDs_Init ;;
  USB_Init ;;
  write_reg TIMSK1 1 ;;
  write_reg TCCR1B 3.

(** while (BytesReceived--) { ... } *)
Fixpoint receive_bytes (n : nat) : run unit :=
  match n with
  | O => mret tt
  | S n' =>
      ReceivedByte ← PRNT_Device_ReceiveByte prnt;
      set_mem (on_app (on_loader (ParseIntelHEXByte SPM_PAGESIZE BOOT_START_ADDR (u8 ReceivedByte)))) ;;
      receive_bytes n'
  end.

(** The body of the main loop. *)
Definition printer_poll : run unit :=
  n ← PRNT_Device_BytesReceived prnt;
  let BytesReceived := u8 n in
  when (negb (BytesReceived =? 0)) (
    LEDs_SetAllLEDs LEDMASK_USB_BUSY ;;
    receive_bytes (Z.to_nat BytesReceived) ;;
    LEDs_SetAllLEDs LEDMASK_USB_READY) ;;
  PRNT_Device_USBTask fuel prnt put_pl_prnt ;;
  USB_USBTask.

(** while (RunBootloader) *)
Fixpoint printer_loop (k : nat) : run unit :=
  match k with
  | O => lift (Fault OutOfFuel)
  | S k' =>
      go ← get_mem (fun s => RunBootloader (pl_loader (app s)));
      if (go : bool) then printer_poll ;; printer_loop k' else mret tt
  end.

Definition printer_main : run unit :=
  SetupHardware ;;
  LEDs_SetAllLEDs LEDMASK_USB_NOTREADY ;;
  set_bits SREG 128 ;;
  printer_loop fuel ;;
  USB_Detach ;;
  set_mem (on_app (set_key MAGIC_BOOT_KEY)) ;;
  exits watchdog_exit.

(** ** Handlers *)

Definition TIMER1_OVF_vect : run unit := LEDs_ToggleLEDs (Z.lor LEDS_LED1 LEDS_LED2).
Definition printer_Connect : run unit := LEDs_SetAllLEDs LEDMASK_USB_ENUMERATING.
Definition printer_Disconnect : run unit := LEDs_SetAllLEDs LEDMASK_USB_NOTREADY.
Definition printer_ConfigurationChanged : run unit :=
  ConfigSuccess ← PRNT_Device_ConfigureEndpoints prnt put_pl_prnt (ordered_ConfigureEndpointTable fuel);
  set_mem (on_app (on_loader (on_hex (set_state HEX_PARSE_STATE_WAIT_LINE)))) ;;
  LEDs_SetAllLEDs (if (ConfigSuccess : bool) then LEDMASK_USB_READY else LEDMASK_USB_ERROR).

(** [reset] is EVENT_PRNT_Device_SoftReset of the library, which does nothing. *)
Definition printer_ControlRequest : run unit :=
  PRNT_Device_ProcessControlRequest fuel prnt put_pl_prnt (mret tt).
End printer_loader.

(** * Packets reach the loader *)

Section packets.
Context {H : Type} `{HW : Hardware H} {out_ep in_ep : Z} {patience : nat} `{BH : !BulkHost H out_ep in_ep patience}.
Context (fuel : nat) (SPM_PAGESIZE BOOT_START_ADDR : Z).
Implicit Types s : usb H pl_app.

(** The interface has these endpoints and no reset to do. *)
Definition printer_at (i : prnt_info) : Prop :=
  Z.land (ep_Address (prnt_DataOUTEndpoint i)) ENDPOINT_EPNUM_MASK = out_ep /\
  Z.land (ep_Address (prnt_DataINEndpoint i)) ENDPOINT_EPNUM_MASK = in_ep /\ IsPrinterReset i = false.

Lemma wp_printer_configured b a (Q : bool -> usb H pl_app -> Prop) E s :
  at_bulk b a s -> (forall s', at_bulk b a s' -> Q false s') -> wp not_configured Q E s.
Proof. intros Hs HQ. unfold not_configured. eapply wp_bind, wp_bread; [done..|]. intros s1 S1. rewrite bulk_state. by apply wp_ret, HQ. Qed.

(** How many bytes the bank has. *)
Lemma wp_out_count b a (Q : Z -> usb H pl_app -> Prop) E s :
  b_sel b = out_ep -> at_bulk b a s -> (forall s', at_bulk b a s' -> Q (Z.of_nat (length (b_rx b))) s') -> wp Endpoint_BytesInEndpoint Q E s.
Proof.
  intros Hsel Hs HQ. unfold Endpoint_BytesInEndpoint. pose proof Hs as [Hb _]. eapply wp_bread; [done..|]. intros s1 S1.
  rewrite bulk_count by (rewrite Hb; by left). rewrite Hb, Hsel, Z.eqb_refl. by apply HQ.
Qed.

Lemma wp_out_received b a (Q : bool -> usb H pl_app -> Prop) E s :
  b_sel b = out_ep -> b_rx b <> [] -> at_bulk b a s -> (forall s', at_bulk b a s' -> Q true s') -> wp Endpoint_IsOUTReceived Q E s.
Proof.
  intros Hsel Hrx Hs HQ. unfold Endpoint_IsOUTReceived. pose proof Hs as [Hb _]. eapply wp_bbit; [done..|]. intros s1 S1.
  rewrite bulk_received by (by rewrite Hb). by apply HQ.
Qed.

Lemma wp_received b a (Q : Z -> usb H pl_app -> Prop) E s :
  printer_at (TextOnly_Printer_Interface a) -> b_rx b <> [] -> at_bulk b a s ->
  (forall s', at_bulk (with_sel out_ep b) a s' -> Q (Z.of_nat (length (b_rx b))) s') ->
  wp (PRNT_Device_BytesReceived TextOnly_Printer_Interface) Q E s.
Proof.
  intros (Ho & _) Hrx Hs HQ. unfold PRNT_Device_BytesReceived. eapply wp_bind, wp_printer_configured; [done|]. intros s1 S1.
  apply wp_bind, wp_get_mem. rewrite (proj2 S1). eapply wp_bind, wp_bselect; [done..|]. intros s2 S2.
  eapply wp_bind, wp_out_received; [| |done|]; [done..|]. intros s3 S3. eapply wp_bind, wp_out_count; [|done|]; [done|]. intros s4 S4.
  cbn [b_rx with_sel]. rewrite (proj2 (Z.eqb_neq _ _)) by (destruct (b_rx b); [done|cbn [length]; lia]).
  eapply wp_out_count; [|done|]; done.
Qed.

(** One byte: the bank is released after its last one. *)
Definition after_byte (rest : list Z) (b : bulk) : bulk := if bool_decide (rest = []) then fetch_rx b else with_rx rest b.

Lemma wp_receive_byte x rest b a (Q : Z -> usb H pl_app -> Prop) E s :
  printer_at (TextOnly_Printer_Interface a) -> b_rx b = x :: rest -> at_bulk b a s ->
  (forall s', at_bulk (after_byte rest (with_sel out_ep b)) a s' -> Q x s') ->
  wp (PRNT_Device_ReceiveByte TextOnly_Printer_Interface) Q E s.
Proof.
  intros (Ho & _) Hrx Hs HQ. unfold PRNT_Device_ReceiveByte. eapply wp_bind, wp_printer_configured; [done|]. intros s1 S1.
  apply wp_bind, wp_get_mem. rewrite (proj2 S1). eapply wp_bind, wp_bselect; [done..|]. intros s2 S2.
  eapply wp_bind, wp_out_received; [| |done|]; [done|by cbn; rewrite Hrx|]. intros s3 S3.
  eapply wp_bind, wp_out_count; [|done|]; [done|]. intros s4 [B4 A4].
  cbn [b_rx with_sel]. rewrite Hrx. cbn [length]. rewrite (proj2 (Z.eqb_neq _ _)) by lia. unfold Endpoint_Read_8.
  apply wp_bind, wp_read_reg. destruct (bulk_get (hw s4) x rest) as [-> G]; [by rewrite B4..|].
  eapply wp_bind, wp_out_count; [|split; [exact G|exact A4]|]; [by rewrite B4|]. rewrite B4. cbn [with_rx with_sel b_rx]. intros s5 S5.
  destruct rest as [|y rest]; cbn [length].
  - eapply wp_bind, wp_brelease; [|done|]; [done|]. intros s6 S6. by apply wp_ret, HQ.
  - rewrite (proj2 (Z.eqb_neq _ _)) by lia. cbn [when]. apply wp_bind, wp_ret, wp_ret. by apply HQ.
Qed.

Lemma wp_receive_bytes : forall bs b a (Q : unit -> usb H pl_app -> Prop) E s,
  printer_at (TextOnly_Printer_Interface a) -> Forall is_byte bs -> bs <> [] -> b_sel b = out_ep -> b_rx b = bs -> at_bulk b a s ->
  (forall s', at_bulk (fetch_rx b) (on_loader (parse_text SPM_PAGESIZE BOOT_START_ADDR bs) a) s' -> Q tt s') ->
  wp (receive_bytes SPM_PAGESIZE BOOT_START_ADDR (length bs)) Q E s.
Proof.
  induction bs as [|x bs IH]; intros b a Q E s Ha Hb Hne Hsel Hrx Hs HQ; [done|]. cbn [length receive_bytes].
  apply Forall_cons_iff in Hb as [Hx Hb]. eapply wp_bind, wp_receive_byte; [done..|]. intros s1 [B1 A1].
  apply wp_bind. unfold wp. rewrite set_mem_run. rewrite u8_small by done.
  assert (with_sel out_ep b = b) as Eb by (destruct b; cbn in *; by subst). rewrite Eb in B1. unfold after_byte in B1.
  case_bool_decide as Hbs.
  - subst bs. cbn [length receive_bytes]. apply HQ. split; [done|]. cbn. by rewrite A1.
  - eapply (IH (with_rx bs b) (on_loader (ParseIntelHEXByte SPM_PAGESIZE BOOT_START_ADDR x) a)); [done|done|done|done|done| |].
    + split; [done|]. cbn. by rewrite A1.
    + intros s2 S2. apply HQ. exact S2.
Qed.

(** With nothing to send and no reset to do, the driver's task does nothing. *)
Lemma wp_printer_task b a (Q : unit -> usb H pl_app -> Prop) E s :
  printer_at (TextOnly_Printer_Interface a) -> b_tx b = [] -> at_bulk b a s ->
  (forall s', at_bulk (with_sel in_ep b) a s' -> Q tt s') ->
  wp (PRNT_Device_USBTask fuel TextOnly_Printer_Interface put_pl_prnt) Q E s.
Proof.
  intros (_ & Hi & Hr) Htx Hs HQ. unfold PRNT_Device_USBTask. eapply wp_bind, wp_printer_configured; [done|]. intros s1 S1.
  apply wp_bind, wp_get_mem. rewrite (proj2 S1). eapply wp_bind, wp_bselect; [done..|]. intros s2 S2.
  unfold Endpoint_IsINReady. eapply wp_bind, wp_bbit; [done..|]. intros s3 S3. rewrite bulk_ready by (by destruct S2 as [-> _]).
  cbn [when]. apply wp_bind, wp_bind. unfold PRNT_Device_Flush. eapply wp_bind, wp_printer_configured; [done|]. intros s4 S4.
  apply wp_bind, wp_get_mem. rewrite (proj2 S4). eapply wp_bind, wp_bselect; [done..|]. intros s5 S5.
  unfold Endpoint_BytesInEndpoint. eapply wp_bind, wp_bread; [done..|]. intros s6 S6.
  rewrite bulk_count by (destruct S5 as [-> _]; by right). destruct S5 as [B5 _]. rewrite B5. cbn [b_sel with_sel].
  rewrite (in_not_out (out_ep := out_ep) (in_ep := in_ep)). cbn [b_tx with_sel]. rewrite Htx. cbn [length Z.of_nat Z.eqb].
  apply wp_ret, wp_ret, wp_bind, wp_get_mem. rewrite (proj2 S6), Hr. cbn [when]. apply wp_ret, HQ, S6.
Qed.

Lemma wp_printer_poll USB_USBTask bs b a (Q : unit -> usb H pl_app -> Prop) E s :
  (forall b a s, at_bulk b a s -> exists s', USB_USBTask s = (Done tt, s') /\ at_bulk b a s') ->
  printer_at (TextOnly_Printer_Interface a) -> Forall is_byte bs -> bs <> [] -> Z.of_nat (length bs) < 256 ->
  b_rx b = bs -> b_tx b = [] -> at_bulk b a s ->
  (forall s', at_bulk (with_sel in_ep (fetch_rx b)) (on_loader (parse_text SPM_PAGESIZE BOOT_START_ADDR bs) a) s' -> Q tt s') ->
  wp (printer_poll fuel SPM_PAGESIZE BOOT_START_ADDR USB_USBTask) Q E s.
Proof.
  intros Htask Ha Hb Hne Hn Hrx Htx Hs HQ. unfold printer_poll. eapply wp_bind, wp_received; [done|by rewrite Hrx|done|]. intros s1 S1.
  rewrite Hrx, u8_small by (unfold is_byte; lia). rewrite (proj2 (Z.eqb_neq _ _)) by (destruct bs; [done|cbn [length]; lia]).
  cbn [negb when]. apply wp_bind, wp_bind. eapply wp_leds; [done|]. intros s2 S2. apply wp_bind. rewrite Nat2Z.id.
  eapply (wp_receive_bytes bs (with_sel out_ep b)); [done..|]. intros s3 S3. eapply wp_leds; [done|]. intros s4 S4.
  eapply wp_bind, wp_printer_task; [| |exact S4|]; [done..|]. intros s5 S5.
  destruct (Htask _ _ _ S5) as (s6 & E6 & S6). unfold wp. rewrite E6. by apply HQ.
Qed.

(** The main loop on a host that has sent the packets of a text, one in the bank and the
    others to follow, of which at the latest the last one stops the bootloader: it ends
    after the packet that does. *)
Lemma wp_printer_loop USB_USBTask ps : forall k b a (Q : unit -> usb H pl_app -> Prop) E s,
  (forall b a s, at_bulk b a s -> exists s', USB_USBTask s = (Done tt, s') /\ at_bulk b a s') ->
  printer_at (TextOnly_Printer_Interface a) ->
  Forall (fun p => p <> [] /\ Z.of_nat (length p) < 256 /\ Forall is_byte p) ps ->
  RunBootloader (parse_text SPM_PAGESIZE BOOT_START_ADDR (concat ps) (pl_loader a)) = false -> (length ps < k)%nat ->
  b_rx b = default [] (head ps) -> b_next b = tail ps -> b_tx b = [] -> at_bulk b a s ->
  (forall s' qs, qs `prefix_of` ps -> app s' = on_loader (parse_text SPM_PAGESIZE BOOT_START_ADDR (concat qs)) a ->
     RunBootloader (pl_loader (app s')) = false -> Q tt s') ->
  wp (printer_loop fuel SPM_PAGESIZE BOOT_START_ADDR USB_USBTask k) Q E s.
Proof.
  induction ps as [|p ps IH]; intros k b a Q E s Htask Ha Hps Hstop Hk Hrx Hnx Htx Hs HQ; (destruct k as [|k]; [lia|]); cbn [printer_loop];
    apply wp_bind, wp_get_mem; rewrite (proj2 Hs).
  - cbn [concat] in Hstop. change (RunBootloader (pl_loader a) = false) in Hstop. rewrite Hstop. apply wp_ret, (HQ s []); [by exists []|rewrite (proj2 Hs); by destruct a as [? []]|by rewrite (proj2 Hs)].
  - destruct (RunBootloader (pl_loader a)) eqn:Erun.
    2: { apply wp_ret, (HQ s []); [by eexists|rewrite (proj2 Hs); by destruct a as [? []]|by rewrite (proj2 Hs)]. }
    apply Forall_cons_iff in Hps as [(Hne & Hn & Hb) Hps]. cbn in Hrx, Hnx, Hk. cbn [concat] in Hstop.
    eapply wp_bind, (wp_printer_poll USB_USBTask p b a); [done..|]. intros s1 S1.
    assert (forall x, parse_text SPM_PAGESIZE BOOT_START_ADDR x (parse_text SPM_PAGESIZE BOOT_START_ADDR p (pl_loader a)) =
      parse_text SPM_PAGESIZE BOOT_START_ADDR (p ++ x) (pl_loader a)) as Happ by (intros x; unfold parse_text; by rewrite foldl_app).
    eapply IH; [done| |done| |lia| | | |exact S1|]; [done|cbn [on_loader pl_loader]; by rewrite Happ|cbn; by rewrite Hnx..|done|].
    intros s2 qs Hqs H2 Hrun. apply (HQ s2 (p :: qs)); [by apply prefix_cons| |done].
    rewrite H2. unfold on_loader. cbn [pl_loader concat TextOnly_Printer_Interface MagicBootKey]. by rewrite Happ.
Qed.
End packets.

(** A text whose packets were received until the bootloader was stopped. *)
Lemma stopped_packets page boot qs ps text last l : qs `prefix_of` ps -> concat ps = text ++ [last; 13; 10] ->
  RunBootloader (parse_text (2 ^ page) boot text l) = true -> RunBootloader (parse_text (2 ^ page) boot (concat qs) l) = false ->
  exists tail, tail `prefix_of` [13; 10] /\ concat qs = text ++ last :: tail.
Proof.
  intros [rs ->] Hc Ht Hq. rewrite concat_app in Hc. destruct (app_eq_inv _ _ _ _ Hc) as [(mid & Eq & E)|(mid & Eq & _)].
  - destruct mid as [|x tail]; [rewrite app_nil_r in Eq; congruence|]. cbn in E. injection E as <- E. exists tail. split; [by eexists|done].
  - rewrite Eq, parse_app, stopped_text in Ht by done. done.
Qed.

(** C28: the printer bootloader end to end.  A host prints the HEX file of an image (data
    records of even length from address 0 on, without gaps, at most 65535 bytes and below
    the boot section, and the end record) in packets of any size up to 255 bytes, whatever
    the limits of packets and records are.  Then the main loop ends after the packet in
    which the end record is complete, and the flash memory holds the image, or, if the
    image is shorter than a page, nothing of it.  The library's task is assumed to have
    nothing to do. *)
Theorem printing_programs_flash {H} `{BH : BulkHost H out_ep in_ep patience} fuel k BOOT_START_ADDR USB_USBTask
    pieces ps rounds {F} `{FlashMemory F (2 ^ k)} (f : F) (s : usb H pl_app) :
  (forall b a (s : usb H pl_app), at_bulk b a s -> exists s', USB_USBTask s = (Done tt, s') /\ at_bulk b a s') ->
  1 <= k <= 13 -> 0 < BOOT_START_ADDR <= 2 ^ 31 -> Forall piece_ok pieces ->
  Z.of_nat (length (concat pieces)) <= Z.min BOOT_START_ADDR 65535 ->
  (forall y, 0 <= y < 2 ^ k -> buffer_word f y = 65535) ->
  Forall (fun p => p <> [] /\ Z.of_nat (length p) < 256 /\ Forall is_byte p) ps ->
  concat ps = print_file (data_records 0 pieces ++ [end_of_file]) -> (length ps < rounds)%nat ->
  printer_at (out_ep := out_ep) (in_ep := in_ep) (TextOnly_Printer_Interface (app s)) ->
  b_rx (bulk_of (hw s)) = default [] (head ps) -> b_next (bulk_of (hw s)) = tail ps -> b_tx (bulk_of (hw s)) = [] -> pl_loader (app s) = loader_init ->
  exists s', printer_loop fuel (2 ^ k) BOOT_START_ADDR USB_USBTask rounds s = (Done tt, s') /\
    let n := Z.of_nat (length (concat pieces)) in
    let f' := spm_run k (spm (pl_loader (app s'))) f in
    RunBootloader (pl_loader (app s')) = false /\
    if decide (2 ^ k <= n) then forall i w, words_of (concat pieces) !! i = Some w -> flash_word f' (2 * Z.of_nat i) = w
    else 0 < n -> forall x, 0 <= x < 2 ^ k -> flash_word f' x = 65535.
Proof.
  intros Htask Hk Hb Hp Hn Hf Hps Hc Hr Ha Hrx Hnx Htx Hl.
  destruct (parse_image_flashed k BOOT_START_ADDR pieces f Hk Hb Hp Hn Hf) as [Hstop Himage]. rewrite <- Hc in Hstop.
  destruct (file_ends k BOOT_START_ADDR Hk Hb pieces Hp Hn) as (text & last & Et & Htrue & Htail). set (parse := parse_text (2 ^ k) BOOT_START_ADDR) in *.
  pose proof (wp_printer_loop fuel (2 ^ k) BOOT_START_ADDR USB_USBTask ps rounds (bulk_of (hw s)) (app s)
    (fun _ s' => RunBootloader (pl_loader (app s')) = false /\ spm (pl_loader (app s')) = spm (parse (concat ps) loader_init)) (fun _ _ => False) s
    Htask Ha Hps) as Hrun. rewrite Hl in Hrun. specialize (Hrun Hstop Hr Hrx Hnx Htx (conj eq_refl eq_refl)).
  apply wp_run in Hrun as (o & s' & E & [([] & -> & Hs1 & Hs2)|(c & _ & [])]).
  - exists s'. split; [done|]. split; [done|]. rewrite Hs2, Hc. exact Himage.
  - intros s' qs Hqs Happ Hrun'. split; [done|]. rewrite Happ in Hrun' |- *. cbn [on_loader pl_loader] in *. rewrite Hl in *.
    destruct (stopped_packets k BOOT_START_ADDR qs ps text last loader_init Hqs ltac:(by rewrite Hc, Et) Htrue Hrun') as (tail & Ht & ->).
    fold parse. rewrite Hc, Et, (Htail tail Ht). by rewrite (Htail [13; 10]).
Qed.

(** The simulated endpoints with the bootloader, and the text in two packets. *)
Definition sim_text : list Z := print_file (data_records 0 sim_pieces ++ [end_of_file]).
Definition sim_packets : list (list Z) := [take 50 sim_text; drop 50 sim_text].
Definition sim_printing : usb bulk pl_app :=
  mk_usb (mk_bulk 0 (take 50 sim_text) [] [] 0 0 [drop 50 sim_text]) core_init (mk_pl sim_printer loader_init 0) [].

(** Witness of C28. *)
Lemma printing_programs_flash_witness :
  exists s', printer_loop 5 (2 ^ 3) 64 (mret tt) 3 sim_printing = (Done tt, s') /\
    let f' := spm_run 3 (spm (pl_loader (app s'))) sim_flash_old in
    RunBootloader (pl_loader (app s')) = false /\
    if decide (2 ^ 3 <= 14) then forall i w, words_of (concat sim_pieces) !! i = Some w -> flash_word (page := 2 ^ 3) f' (2 * Z.of_nat i) = w
    else 0 < 14 -> forall x, 0 <= x < 2 ^ 3 -> flash_word (page := 2 ^ 3) f' x = 65535.
Proof.
  apply (printing_programs_flash (out_ep := 1) (in_ep := 2) (patience := 3) 5 3 64 (mret tt) sim_pieces sim_packets 3
    sim_flash_old sim_printing); try done; try lia.
  - intros b a s Hs. by exists s.
  - repeat constructor; by vm_compute.
  - repeat constructor; by vm_compute.
  - cbn. lia.
Defined.
