(* ===== verification/DownloadHost.v ===== *)
(** A host that sends the data stage of a control request.

    [DownloadHost] describes it: packets of a fixed size, each of which arrives some
    time after the bank of the control endpoint was released, and then the status
    stage.  The lemmas are the endpoint functions in terms of this view. *)

From Stdlib Require Import ZArith Lia.
From stdpp Require Import base tactics list numbers.
From S2P Require Import Prelude Posix Avr Endpoint Device BulkHost.

Local Open Scope Z_scope.

(** The bytes of the data stage that were not read, and how many of them are in the
    bank of the endpoint. *)
Record stage : Type := mk_stage { st_left : list Z; st_bank : nat }.

(** The next packet. *)
Definition next_stage (size : nat) (d : stage) : stage :=
  let left := drop (st_bank d) (st_left d) in
  mk_stage left (Nat.min size (length left)).

(** [dl_wait] is how many more looks at UEINTX the host keeps the device waiting. *)
Class DownloadHost (H : Type) `{Hardware H} (size patience : nat) : Type := {
  dl_stage : H -> stage;
  dl_wait : H -> nat;
  dl_patience : forall h, (dl_wait h <= patience)%nat;
  dl_attached : forall h, (rd USB_DeviceState h).1 <> DEVICE_STATE_Unattached;
  dl_read : forall r h, r <> UEDATX -> dl_stage (rd r h).2 = dl_stage h;
  dl_same_wait : forall r h, r <> UEINTX -> dl_wait (rd r h).2 = dl_wait h;
  dl_look : forall h, dl_wait (rd UEINTX h).2 = pred (dl_wait h);
  dl_received : forall h, st_bank (dl_stage h) <> 0%nat -> Z.testbit (rd UEINTX h).1 RXOUTI = (dl_wait h =? 0)%nat;
  dl_ready : forall h, dl_stage h = mk_stage [] 0 -> Z.testbit (rd UEINTX h).1 TXINI = (dl_wait h =? 0)%nat;
  dl_count : forall h, dl_wait h = 0%nat -> (rd UEBCLX h).1 = Z.of_nat (st_bank (dl_stage h));
  dl_get : forall h x rest n, dl_wait h = 0%nat -> dl_stage h = mk_stage (x :: rest) (S n) ->
    (rd UEDATX h).1 = x /\ dl_stage (rd UEDATX h).2 = mk_stage rest n;
  dl_other : forall r v h, r <> UEINTX -> dl_stage (wr r v h) = dl_stage h /\ dl_wait (wr r v h) = dl_wait h;
  dl_next : forall h v, Z.testbit v RXOUTI = false \/ st_bank (dl_stage h) = 0%nat /\ Z.testbit v RXSTPI = false ->
    dl_stage (wr UEINTX v h) = next_stage size (dl_stage h) }.

Section host.
Context {H A : Type} `{HW : Hardware H} {size patience : nat} `{DH : !DownloadHost H size patience}.
Context (c : core) (fuel : nat) (Hfuel : (patience < fuel)%nat).
Implicit Types s : usb H A.

Definition at_stage (d : stage) (a : A) s : Prop := dl_stage (hw s) = d /\ app s = a /\ lib s = c.
Definition arrived (d : stage) (a : A) s : Prop := at_stage d a s /\ dl_wait (hw s) = 0%nat.

Lemma wp_look r d a (Q : Z -> usb H A -> Prop) E s :
  r <> UEDATX -> arrived d a s -> (forall s', arrived d a s' -> Q (rd r (hw s)).1 s') -> wp (read_reg r) Q E s.
Proof.
  intros Hr [[Hd Ha] Hw] HQ. apply wp_read_reg, HQ. split; [split; [|done]|]; cbn; [by rewrite dl_read|].
  destruct (decide (r = UEINTX)) as [->|]; [by rewrite dl_look, Hw|by rewrite dl_same_wait].
Qed.

Lemma wp_take x l n a (Q : Z -> usb H A -> Prop) E s :
  arrived (mk_stage (x :: l) (S n)) a s -> (forall s', arrived (mk_stage l n) a s' -> Q x s') -> wp Endpoint_Read_8 Q E s.
Proof.
  intros [[Hd Ha] Hw] HQ. apply wp_read_reg. destruct (dl_get (hw s) x l n Hw Hd) as [-> G]. apply HQ.
  split; [split; [done|done]|]. cbn. by rewrite dl_same_wait.
Qed.

Lemma wp_on_stage f d a (Q : unit -> usb H A -> Prop) E s :
  arrived d a s -> (forall s', arrived d (f a) s' -> Q tt s') -> wp (set_mem (on_app f)) Q E s.
Proof. intros [[Hd [Ha Hc]] Hw] HQ. apply HQ. split; [split_and!; [done| |done]|done]. cbn. by rewrite Ha. Qed.

Lemma wp_get_stage {B} (f : A -> B) d a (Q : B -> usb H A -> Prop) E s :
  arrived d a s -> Q (f a) s -> wp (get_mem (fun s => f (app s))) Q E s.
Proof. intros [[_ [<- _]] _] HQ. exact HQ. Qed.

Lemma wp_get_waiting {B} (f : A -> B) d a (Q : B -> usb H A -> Prop) E s : at_stage d a s -> Q (f a) s -> wp (get_mem (fun s => f (app s))) Q E s.
Proof. intros [_ [<- _]] HQ. exact HQ. Qed.

(** A wait for a flag that the host sets in its time. *)
Lemma wp_wait stop bit d a (Q : bool -> usb H A -> Prop) E : stop = is_unattached \/ stop = never -> forall k s,
  (forall h, dl_stage h = d -> Z.testbit (rd UEINTX h).1 bit = (dl_wait h =? 0)%nat) -> (dl_wait (hw s) < k)%nat -> at_stage d a s ->
  (forall s', arrived d a s' -> Q true s') -> wp (wait_until k (bit_of UEINTX bit) stop) Q E s.
Proof.
  intros Hstop. induction k as [|k IH]; intros s Hbit Hk [Hd Ha] HQ; [lia|]. cbn [wait_until]. unfold bit_of at 1. apply wp_bind, wp_bind, wp_read_reg, wp_ret.
  rewrite Hbit by done. destruct (dl_wait (hw s)) as [|n] eqn:Ew; cbn [Nat.eqb].
  - apply wp_ret, HQ. split; [split; [|done]|]; cbn; [by rewrite dl_read|by rewrite dl_look, Ew].
  - apply wp_bind. destruct Hstop as [-> | ->].
    + unfold is_unattached at 1. apply wp_bind, wp_read_reg, wp_ret. rewrite (proj2 (Z.eqb_neq _ _)) by apply dl_attached.
      apply IH; [done| | |done]; cbn; [rewrite dl_same_wait, dl_look by done; lia|]. split; [|done]. cbn. by rewrite !dl_read.
    + apply wp_ret, IH; [done| | |done]; cbn; [rewrite dl_look; lia|]. split; [|done]. cbn. by rewrite dl_read.
Qed.

(** Releasing the bank. *)
Lemma wp_next m d a (Q : unit -> usb H A -> Prop) E s :
  Z.testbit m RXOUTI = true \/ Z.testbit m RXSTPI = true /\ st_bank d = 0%nat -> arrived d a s ->
  (forall s', at_stage (next_stage size d) a s' -> Q tt s') -> wp (clear_bits UEINTX m) Q E s.
Proof.
  intros Hm Hs HQ. unfold clear_bits. eapply wp_bind, wp_look; [done..|]. intros s1 [[D1 A1] W1]. apply wp_write_reg, HQ.
  split; [|done]. cbn. rewrite dl_next; [by rewrite D1|]. rewrite D1.
  destruct Hm as [Hm|[Hm Hn]]; [left|right; split; [done|]]; by apply cleared_bits.
Qed.

Lemma wp_await_packet stop d a (Q : bool -> usb H A -> Prop) E s : stop = is_unattached \/ stop = never ->
  st_bank d <> 0%nat -> at_stage d a s -> (forall s', arrived d a s' -> Q true s') ->
  wp (wait_until fuel Endpoint_IsOUTReceived stop) Q E s.
Proof.
  intros Hstop Hn Hs HQ. apply (wp_wait stop RXOUTI d a); [done| |pose proof (dl_patience (hw s)); lia|done|done].
  intros h <-. by apply dl_received.
Qed.

Lemma next_stage_empty l : next_stage size (mk_stage l 0) = mk_stage l (Nat.min size (length l)).
Proof. done. Qed.
End host.

(** A simulated host: packets of any size, two looks before each packet. *)
Record sim_dl (size : nat) : Type := mk_sim_dl { sd_stage : stage; sd_wait : nat }.
Arguments sd_stage {size} _.
Arguments sd_wait {size} _.

Definition sim_dl_wait {size} (h : sim_dl size) : nat := Nat.min 2 (sd_wait h).

#[export] Instance sim_dl_hardware size : Hardware (sim_dl size) := {
  rd r h :=
    match r with
    | UEINTX => (if (sim_dl_wait h =? 0)%nat then Z.lor (2 ^ RXOUTI) (2 ^ TXINI) else 0, mk_sim_dl size (sd_stage h) (pred (sim_dl_wait h)))
    | UEBCLX => (Z.of_nat (st_bank (sd_stage h)), h)
    | UEDATX =>
        match st_left (sd_stage h) with
        | x :: rest => (x, mk_sim_dl size (mk_stage rest (pred (st_bank (sd_stage h)))) (sd_wait h))
        | [] => (0, h)
        end
    | USB_DeviceState => (DEVICE_STATE_Configured, h)
    | _ => (0, h)
    end;
  wr r v h :=
    match r with
    | UEINTX =>
        if negb (Z.testbit v RXOUTI) || (st_bank (sd_stage h) =? 0)%nat && negb (Z.testbit v RXSTPI)
        then mk_sim_dl size (next_stage size (sd_stage h)) 2 else h
    | _ => h
    end }.

#[export] Instance sim_dl_host size : DownloadHost (sim_dl size) size 2.
Proof.
  refine {| dl_stage := sd_stage; dl_wait := sim_dl_wait |}.
  - intros h. unfold sim_dl_wait. lia.
  - done.
  - intros [] h Hr; done.
  - intros [] h Hr; try done. cbn. by destruct (st_left (sd_stage h)).
  - intros h. unfold sim_dl_wait. cbn -[Nat.min]. unfold sim_dl_wait. lia.
  - intros h _. cbn -[Nat.min]. by destruct (sim_dl_wait h).
  - intros h _. cbn -[Nat.min]. by destruct (sim_dl_wait h).
  - done.
  - intros [d w] x rest n _ Hd. cbn in *. by subst d.
  - intros [] v h Hr; done.
  - intros h v Hv. cbn -[Z.testbit RXOUTI RXSTPI next_stage]. destruct Hv as [->|[Hb ->]]; [done|].
    rewrite (proj2 (Nat.eqb_eq _ _) Hb). by rewrite orb_true_r.
Defined.
