(* ===== verification/DfuLoader.v ===== *)
(** The DFU bootloader, Bootloaders/DFU/BootloaderDFU.c.

    Everything happens in control requests: DFU_DNLOAD carries commands and the data
    to program, DFU_UPLOAD data that was read.  [dfu_app] holds the globals, and the
    memory operations made so far, reads included ([mem_op]); what a read returns is
    a function [contents] of these operations.  The control endpoint functions are
    those of a device that has no other endpoint (CONTROL_ONLY_DEVICE).  USB_Init and
    USB_USBTask of the library and the signature of the microcontroller are
    parameters, and so are the page size, the start of the boot section and
    SECURE_MODE.  The watchdog, the clock prescaler and the waits for the end of a
    self-programming operation, calls of avr-libc, are not modelled. *)

From Stdlib Require Import ZArith Lia.
From stdpp Require Import base tactics list numbers.
From S2P Require Import Prelude Posix Avr Endpoint Device Board Flash.

Local Open Scope Z_scope.

(** * Data *)

(** enum DFU_State_t and DFU_Status_t, as far as they are used. *)
Definition dfuIDLE : Z := 2.
Definition dfuDNLOAD_IDLE : Z := 5.
Definition dfuUPLOAD_IDLE : Z := 9.
Definition dfuERROR : Z := 10.
Definition DFU_OK : Z := 0.
Definition errWRITE : Z := 3.
Definition errCHECK_ERASED : Z := 5.

Definition DFU_REQ_DNLOAD : Z := 1.
Definition DFU_REQ_UPLOAD : Z := 2.
Definition DFU_REQ_GETSTATUS : Z := 3.
Definition DFU_REQ_CLRSTATUS : Z := 4.
Definition DFU_REQ_GETSTATE : Z := 5.
Definition DFU_REQ_ABORT : Z := 6.

Definition COMMAND_PROG_START : Z := 1.
Definition COMMAND_DISP_DATA : Z := 3.
Definition COMMAND_WRITE : Z := 4.
Definition COMMAND_READ : Z := 5.
Definition COMMAND_CHANGE_BASE_ADDR : Z := 6.

Definition DFU_FILE_SUFFIX_SIZE : Z := 16.
Definition DFU_FILLER_BYTES_SIZE : Z := 26.
Definition FIXED_CONTROL_ENDPOINT_SIZE : Z := 32.

Definition BOOTLOADER_VERSION : Z := Z.lor (Z.shiftl 2 4) 0.
Definition BOOTLOADER_ID_BYTE1 : Z := 0xDC.
Definition BOOTLOADER_ID_BYTE2 : Z := 0xFB.

(** DFU_Command_t; the parameters are the five bytes of Data. *)
Record dfu_command : Type := mk_command {
  Command : Z;
  Data : list Z;
  DataSize : Z }.

Record dfu_app : Type := mk_dfu {
  IsSecure : bool;
  RunBootloader : bool;
  WaitForExit : bool;
  DFU_State : Z;
  DFU_Status : Z;
  SentCommand : dfu_command;
  ResponseByte : Z;
  AppStartPtr : Z;
  Flash64KBPage : Z;
  StartAddr : Z;
  EndAddr : Z;
  MagicBootKey : Z;
  mem : list mem_op }.

Definition dfu_init (SECURE_MODE : bool) (key : Z) : dfu_app :=
  mk_dfu SECURE_MODE true false dfuIDLE DFU_OK (mk_command 0 [0; 0; 0; 0; 0] 0) 0 0 0 0 0 key [].

Definition set_secure (b : bool) (a : dfu_app) : dfu_app :=
  mk_dfu b (RunBootloader a) (WaitForExit a) (DFU_State a) (DFU_Status a) (SentCommand a) (ResponseByte a) (AppStartPtr a) (Flash64KBPage a) (StartAddr a) (EndAddr a) (MagicBootKey a) (mem a).
Definition set_run (b : bool) (a : dfu_app) : dfu_app :=
  mk_dfu (IsSecure a) b (WaitForExit a) (DFU_State a) (DFU_Status a) (SentCommand a) (ResponseByte a) (AppStartPtr a) (Flash64KBPage a) (StartAddr a) (EndAddr a) (MagicBootKey a) (mem a).
Definition set_wait (b : bool) (a : dfu_app) : dfu_app :=
  mk_dfu (IsSecure a) (RunBootloader a) b (DFU_State a) (DFU_Status a) (SentCommand a) (ResponseByte a) (AppStartPtr a) (Flash64KBPage a) (StartAddr a) (EndAddr a) (MagicBootKey a) (mem a).
Definition set_dfu_state (v : Z) (a : dfu_app) : dfu_app :=
  mk_dfu (IsSecure a) (RunBootloader a) (WaitForExit a) v (DFU_Status a) (SentCommand a) (ResponseByte a) (AppStartPtr a) (Flash64KBPage a) (StartAddr a) (EndAddr a) (MagicBootKey a) (mem a).
Definition set_status (v : Z) (a : dfu_app) : dfu_app :=
  mk_dfu (IsSecure a) (RunBootloader a) (WaitForExit a) (DFU_State a) v (SentCommand a) (ResponseByte a) (AppStartPtr a) (Flash64KBPage a) (StartAddr a) (EndAddr a) (MagicBootKey a) (mem a).
Definition set_command (c : dfu_command) (a : dfu_app) : dfu_app :=
  mk_dfu (IsSecure a) (RunBootloader a) (WaitForExit a) (DFU_State a) (DFU_Status a) c (ResponseByte a) (AppStartPtr a) (Flash64KBPage a) (StartAddr a) (EndAddr a) (MagicBootKey a) (mem a).
Definition set_response (v : Z) (a : dfu_app) : dfu_app :=
  mk_dfu (IsSecure a) (RunBootloader a) (WaitForExit a) (DFU_State a) (DFU_Status a) (SentCommand a) v (AppStartPtr a) (Flash64KBPage a) (StartAddr a) (EndAddr a) (MagicBootKey a) (mem a).
Definition set_start_ptr (v : Z) (a : dfu_app) : dfu_app :=
  mk_dfu (IsSecure a) (RunBootloader a) (WaitForExit a) (DFU_State a) (DFU_Status a) (SentCommand a) (ResponseByte a) v (Flash64KBPage a) (StartAddr a) (EndAddr a) (MagicBootKey a) (mem a).
Definition set_64k_page (v : Z) (a : dfu_app) : dfu_app :=
  mk_dfu (IsSecure a) (RunBootloader a) (WaitForExit a) (DFU_State a) (DFU_Status a) (SentCommand a) (ResponseByte a) (AppStartPtr a) v (StartAddr a) (EndAddr a) (MagicBootKey a) (mem a).
Definition set_start (v : Z) (a : dfu_app) : dfu_app :=
  mk_dfu (IsSecure a) (RunBootloader a) (WaitForExit a) (DFU_State a) (DFU_Status a) (SentCommand a) (ResponseByte a) (AppStartPtr a) (Flash64KBPage a) v (EndAddr a) (MagicBootKey a) (mem a).
Definition set_end (v : Z) (a : dfu_app) : dfu_app :=
  mk_dfu (IsSecure a) (RunBootloader a) (WaitForExit a) (DFU_State a) (DFU_Status a) (SentCommand a) (ResponseByte a) (AppStartPtr a) (Flash64KBPage a) (StartAddr a) v (MagicBootKey a) (mem a).
Definition set_boot_key (v : Z) (a : dfu_app) : dfu_app :=
  mk_dfu (IsSecure a) (RunBootloader a) (WaitForExit a) (DFU_State a) (DFU_Status a) (SentCommand a) (ResponseByte a) (AppStartPtr a) (Flash64KBPage a) (StartAddr a) (EndAddr a) v (mem a).
Definition add_mem (op : mem_op) (a : dfu_app) : dfu_app :=
  mk_dfu (IsSecure a) (RunBootloader a) (WaitForExit a) (DFU_State a) (DFU_Status a) (SentCommand a) (ResponseByte a) (AppStartPtr a) (Flash64KBPage a) (StartAddr a) (EndAddr a) (MagicBootKey a) (mem a ++ [op]).

(** SentCommand.Data[i] for the constant indices below 5. *)
Definition data_at (i : nat) (a : dfu_app) : Z := nth i (Data (SentCommand a)) 0.
Definition IS_ONEBYTE_COMMAND (a : dfu_app) (cb1 : Z) : bool := data_at 0 a =? cb1.
Definition IS_TWOBYTE_COMMAND (a : dfu_app) (cb1 cb2 : Z) : bool := (data_at 0 a =? cb1) && (data_at 1 a =? cb2).

(** The union of {StartAddr, Flash64KBPage}. *)
Definition flash_address (a : dfu_app) : Z := StartAddr a + Flash64KBPage a * 65536.

(** The number of bytes from StartAddr to EndAddr, a uint16_t. *)
Definition bytes_remaining (a : dfu_app) : Z := u16 (u16 (EndAddr a - StartAddr a) + 1).

Section dfu.
Context {H : Type} `{Hardware H} `{!Interrupts H dfu_app}.
Context (fuel : nat) (SPM_PAGESIZE BOOT_START_ADDR : Z).
Context (AVR_SIGNATURE_1 AVR_SIGNATURE_2 AVR_SIGNATURE_3 : Z).
(** What a read returns after some operations. *)
Context (contents : list mem_op -> mem_op -> Z).

Abbreviation run := (prog (usb H dfu_app)).

Context (USB_Init USB_USBTask : run unit).

(** ** Access *)

Definition dfu {B} (f : dfu_app -> B) : run B := get_mem (fun s => f (app s)).
Definition on_dfu (f : dfu_app -> dfu_app) : run unit := set_mem (on_app f).
Definition do_mem (op : mem_op) : run unit := on_dfu (add_mem op).
Definition ask_mem (op : mem_op) : run Z :=
  v ← dfu (fun a => contents (mem a) op); do_mem op ;; mret v.

(** The functions of Endpoint_AVR8.h with CONTROL_ONLY_DEVICE. *)
Definition control_ClearIN : run unit := clear_bits UEINTX (2 ^ TXINI).
Definition control_ClearOUT : run unit := clear_bits UEINTX (2 ^ RXOUTI).
Definition control_ClearStatusStage : run unit :=
  r ← get_request;
  if Z.testbit (bmRequestType r) 7 then
    ok ← wait_until fuel Endpoint_IsOUTReceived is_unattached;
    when ok control_ClearOUT
  else
    ok ← wait_until fuel Endpoint_IsINReady is_unattached;
    when ok control_ClearIN.

(** Check if the endpoint is empty: if so clear it and wait for the next packet. *)
Definition next_packet : run bool :=
  n ← Endpoint_BytesInEndpoint;
  if n =? 0 then control_ClearOUT ;; wait_until fuel Endpoint_IsOUTReceived is_unattached
  else mret true.

(** Check if the endpoint is full: if so send it and wait until it is ready. *)
Definition next_bank : run bool :=
  n ← Endpoint_BytesInEndpoint;
  if n =? FIXED_CONTROL_ENDPOINT_SIZE then control_ClearIN ;; wait_until fuel Endpoint_IsINReady is_unattached
  else mret true.

(** ** Commands *)

Definition LoadStartEndAddresses : run unit :=
  on_dfu (fun a => set_end (data_at 4 a + data_at 3 a * 256) (set_start (data_at 2 a + data_at 1 a * 256) a)).

Definition ProcessMemProgCommand : run unit :=
  a ← dfu id;
  when (IS_ONEBYTE_COMMAND a 0 || IS_ONEBYTE_COMMAND a 1) (
    LoadStartEndAddresses ;;
    a' ← dfu id;
    when (IS_ONEBYTE_COMMAND a' 0) (do_mem (Spm (PageErase (flash_address a')))) ;;
    on_dfu (set_dfu_state dfuDNLOAD_IDLE)).

(** The blank check: the first byte that is not 0xFF. *)
Fixpoint blank_check (k : nat) (CurrFlashAddress : Z) : run unit :=
  if CurrFlashAddress <? BOOT_START_ADDR then
    match k with
    | O => lift (Fault OutOfFuel)
    | S k' =>
        v ← ask_mem (FlashReadByte CurrFlashAddress);
        if negb (v =? 255) then
          on_dfu (fun a => set_status errCHECK_ERASED (set_dfu_state dfuERROR
            (set_start (u16 CurrFlashAddress) (set_64k_page (u8 (Z.shiftr CurrFlashAddress 16)) a))))
        else blank_check k' (u32 (CurrFlashAddress + 1))
    end
  else mret tt.

Definition ProcessMemReadCommand : run unit :=
  a ← dfu id;
  if IS_ONEBYTE_COMMAND a 0 || IS_ONEBYTE_COMMAND a 2 then
    LoadStartEndAddresses ;;
    on_dfu (set_dfu_state dfuUPLOAD_IDLE)
  else when (IS_ONEBYTE_COMMAND a 1) (blank_check (Z.to_nat BOOT_START_ADDR) 0).

(** Clear the application section. *)
Fixpoint erase_pages (k : nat) (CurrFlashAddress : Z) : run unit :=
  if CurrFlashAddress <? BOOT_START_ADDR then
    match k with
    | O => lift (Fault OutOfFuel)
    | S k' =>
        do_mem (Spm (PageErase CurrFlashAddress)) ;;
        do_mem (Spm (PageWrite CurrFlashAddress)) ;;
        erase_pages k' (u32 (CurrFlashAddress + SPM_PAGESIZE))
    end
  else mret tt.

Definition ProcessWriteCommand : run unit :=
  a ← dfu id;
  if IS_ONEBYTE_COMMAND a 3 then
    on_dfu (set_wait true) ;;
    if negb (DataSize (SentCommand a) =? 0) then
      when (data_at 1 a =? 1) (on_dfu (set_start_ptr (data_at 4 a + data_at 3 a * 256)))
    else if data_at 1 a =? 0 then on_dfu (set_boot_key MAGIC_BOOT_KEY)
    else on_dfu (set_run false)
  else when (IS_TWOBYTE_COMMAND a 0 255) (
    erase_pages (Z.to_nat BOOT_START_ADDR) 0 ;;
    do_mem RwwEnable ;;
    on_dfu (set_secure false)).

(** An access to one of the local arrays. *)
Definition array_at (l : list Z) (i : Z) : res Z :=
  if i <? 0 then Fault OutOfBounds
  else match l !! Z.to_nat i with Some v => Ok v | None => Fault OutOfBounds end.

Definition ProcessReadCommand : run unit :=
  let BootloaderInfo := [BOOTLOADER_VERSION; BOOTLOADER_ID_BYTE1; BOOTLOADER_ID_BYTE2] in
  let SignatureInfo := [0x58; AVR_SIGNATURE_1; AVR_SIGNATURE_2; AVR_SIGNATURE_3] in
  a ← dfu id;
  let DataIndexToRead := data_at 1 a in
  if IS_ONEBYTE_COMMAND a 0 then
    v ← lift (array_at BootloaderInfo DataIndexToRead); on_dfu (set_response v)
  else when (IS_ONEBYTE_COMMAND a 1) (
    v ← lift (array_at SignatureInfo (if DataIndexToRead <? 0x60 then DataIndexToRead - 0x30 else DataIndexToRead - 0x60 + 3));
    on_dfu (set_response v)).

(** The commands that are allowed in secure mode. *)
Definition secure_command (a : dfu_app) : bool :=
  (Command (SentCommand a) =? COMMAND_WRITE) && IS_TWOBYTE_COMMAND a 0 255 || (Command (SentCommand a) =? COMMAND_READ).

Definition ProcessBootloaderCommand : run unit :=
  a ← dfu id;
  if IsSecure a && negb (secure_command a) then
    on_dfu (fun a => set_status errWRITE (set_dfu_state dfuERROR a)) ;;
    Endpoint_StallTransaction
  else
    let c := Command (SentCommand a) in
    if c =? COMMAND_PROG_START then ProcessMemProgCommand
    else if c =? COMMAND_DISP_DATA then ProcessMemReadCommand
    else if c =? COMMAND_WRITE then ProcessWriteCommand
    else if c =? COMMAND_READ then ProcessReadCommand
    else when (c =? COMMAND_CHANGE_BASE_ADDR) (
      when (IS_TWOBYTE_COMMAND a 3 0) (on_dfu (set_64k_page (data_at 2 a)))).

(** ** DFU_DNLOAD *)

Definition take_size (a : dfu_app) : dfu_app :=
  set_command (mk_command (Command (SentCommand a)) (Data (SentCommand a)) (u16 (DataSize (SentCommand a) - 1))) a.

(** The parameters, as many of the five as the packet has. *)
Fixpoint read_params (k i : nat) : run unit :=
  match k with
  | O => mret tt
  | S k' =>
      n ← Endpoint_BytesInEndpoint;
      if n =? 0 then mret tt
      else
        b ← Endpoint_Read_8;
        on_dfu (fun a => take_size (set_command
          (mk_command (Command (SentCommand a)) (<[i := b]> (Data (SentCommand a))) (DataSize (SentCommand a))) a)) ;;
        read_params k' (S i)
  end.

(** Load the data stage into the command and process it; [false] when detached. *)
Definition load_command : run bool :=
  ok ← wait_until fuel Endpoint_IsOUTReceived is_unattached;
  if negb ok then mret false
  else
    c ← Endpoint_Read_8;
    on_dfu (fun a => take_size (set_command (mk_command c (Data (SentCommand a)) (DataSize (SentCommand a))) a)) ;;
    read_params 5 0 ;;
    ProcessBootloaderCommand ;;
    mret true.

(** while (NumberOfBytes--) { ... } *)
Fixpoint discard_bytes (k : nat) : run unit :=
  match k with
  | O => mret tt
  | S k' =>
      n ← Endpoint_BytesInEndpoint;
      if n =? 0 then
        control_ClearOUT ;;
        ok ← wait_until fuel Endpoint_IsOUTReceived is_unattached;
        if negb ok then mret tt else discard_bytes k'
      else Endpoint_Discard_8 ;; discard_bytes k'
  end.

Definition DiscardFillerBytes (NumberOfBytes : Z) : run unit := discard_bytes (Z.to_nat (u8 NumberOfBytes)).

(** The words of the data stage; [false] when detached. *)
Fixpoint flash_words (WordsRemaining : nat) (CurrFlashAddress CurrFlashPageStartAddress WordsInFlashPage : Z) : run bool :=
  match WordsRemaining with
  | O => mret true
  | S rest =>
      ok ← next_packet;
      if negb ok then mret false
      else
        w ← Endpoint_Read_16_LE;
        do_mem (Spm (PageFill CurrFlashAddress w)) ;;
        let WordsInFlashPage' := u8 (WordsInFlashPage + 1) in
        let CurrFlashAddress' := u32 (CurrFlashAddress + 2) in
        if (WordsInFlashPage' =? Z.shiftr SPM_PAGESIZE 1) || (rest =? 0)%nat then
          do_mem (Spm (PageWrite CurrFlashPageStartAddress)) ;;
          if (rest =? 0)%nat then flash_words rest CurrFlashAddress' CurrFlashPageStartAddress WordsInFlashPage'
          else
            do_mem (Spm (PageErase CurrFlashAddress')) ;;
            flash_words rest CurrFlashAddress' CurrFlashAddress' 0
        else flash_words rest CurrFlashAddress' CurrFlashPageStartAddress WordsInFlashPage'
  end.

Fixpoint eeprom_bytes (BytesRemaining : nat) : run bool :=
  match BytesRemaining with
  | O => mret true
  | S rest =>
      ok ← next_packet;
      if negb ok then mret false
      else
        b ← Endpoint_Read_8;
        s ← dfu StartAddr;
        do_mem (EepromWrite s b) ;;
        on_dfu (fun a => set_start (u16 (StartAddr a + 1)) a) ;;
        eeprom_bytes rest
  end.

(** The data to program; [false] when detached. *)
Definition download : run bool :=
  DiscardFillerBytes DFU_FILLER_BYTES_SIZE ;;
  s ← dfu StartAddr;
  DiscardFillerBytes (s mod FIXED_CONTROL_ENDPOINT_SIZE) ;;
  a ← dfu id;
  ok ← (if IS_ONEBYTE_COMMAND a 0 then
          r ← flash_words (Z.to_nat (Z.shiftr (bytes_remaining a) 1)) (flash_address a) (flash_address a) 0;
          when r (on_dfu (fun a => set_start (EndAddr a) a) ;; do_mem RwwEnable) ;;
          mret r
        else eeprom_bytes (Z.to_nat (bytes_remaining a)));
  when ok (DiscardFillerBytes DFU_FILE_SUFFIX_SIZE) ;;
  mret ok.

Definition dfu_dnload : run unit :=
  Endpoint_ClearSETUP ;;
  w ← dfu WaitForExit;
  when w (ProcessBootloaderCommand ;; on_dfu (set_wait false)) ;;
  n ← dfu (fun a => DataSize (SentCommand a));
  loaded ← (if n =? 0 then mret true else load_command);
  when loaded (
    st ← dfu DFU_State;
    ok ← (if st =? dfuDNLOAD_IDLE then
            m ← dfu (fun a => DataSize (SentCommand a));
            if m =? 0 then on_dfu (set_dfu_state dfuIDLE) ;; mret true else download
          else mret true);
    when ok (control_ClearOUT ;; control_ClearStatusStage)).

(** ** DFU_UPLOAD *)

Fixpoint upload_words (WordsRemaining : nat) (CurrFlashAddress : Z) : run bool :=
  match WordsRemaining with
  | O => mret true
  | S rest =>
      ok ← next_bank;
      if negb ok then mret false
      else
        w ← ask_mem (FlashReadWord CurrFlashAddress);
        Endpoint_Write_16_LE w ;;
        upload_words rest (u32 (CurrFlashAddress + 2))
  end.

Fixpoint upload_bytes (BytesRemaining : nat) : run bool :=
  match BytesRemaining with
  | O => mret true
  | S rest =>
      ok ← next_bank;
      if negb ok then mret false
      else
        s ← dfu StartAddr;
        b ← ask_mem (EepromRead s);
        Endpoint_Write_8 b ;;
        on_dfu (fun a => set_start (u16 (StartAddr a + 1)) a) ;;
        upload_bytes rest
  end.

Definition upload : run bool :=
  a ← dfu id;
  ok ← (if IS_ONEBYTE_COMMAND a 0 then
          r ← upload_words (Z.to_nat (Z.shiftr (bytes_remaining a) 1)) (flash_address a);
          when r (on_dfu (fun a => set_start (EndAddr a) a)) ;;
          mret r
        else if IS_ONEBYTE_COMMAND a 2 then upload_bytes (Z.to_nat (bytes_remaining a))
        else mret true);
  when ok (on_dfu (set_dfu_state dfuIDLE)) ;;
  mret ok.

Definition dfu_upload : run unit :=
  Endpoint_ClearSETUP ;;
  ready ← wait_until fuel Endpoint_IsINReady is_unattached;
  when ready (
    a ← dfu id;
    ok ← (if negb (DFU_State a =? dfuUPLOAD_IDLE) then
            (if (DFU_State a =? dfuERROR) && IS_ONEBYTE_COMMAND a 1 then Endpoint_Write_16_LE (StartAddr a)
             else Endpoint_Write_8 (ResponseByte a)) ;;
            mret true
          else upload);
    when ok (control_ClearIN ;; control_ClearStatusStage)).

(** ** The other requests *)

Definition dfu_getstatus : run unit :=
  Endpoint_ClearSETUP ;;
  ready ← wait_until fuel Endpoint_IsINReady is_unattached;
  when ready (
    st ← dfu DFU_Status;
    Endpoint_Write_8 st ;;
    Endpoint_Write_8 0 ;;
    Endpoint_Write_16_LE 0 ;;
    s ← dfu DFU_State;
    Endpoint_Write_8 s ;;
    Endpoint_Write_8 0 ;;
    control_ClearIN ;;
    control_ClearStatusStage).

Definition dfu_clrstatus : run unit :=
  Endpoint_ClearSETUP ;; on_dfu (set_status DFU_OK) ;; control_ClearStatusStage.

Definition dfu_getstate : run unit :=
  Endpoint_ClearSETUP ;;
  ready ← wait_until fuel Endpoint_IsINReady is_unattached;
  when ready (
    s ← dfu DFU_State;
    Endpoint_Write_8 s ;;
    control_ClearIN ;;
    control_ClearStatusStage).

Definition dfu_abort : run unit :=
  Endpoint_ClearSETUP ;; on_dfu (set_dfu_state dfuIDLE) ;; control_ClearStatusStage.

(** EVENT_USB_Device_ControlRequest *)
Definition dfu_ControlRequest : run unit :=
  req ← get_request;
  if negb (Z.land (bmRequestType req) 0x7F =? 0x21) then mret tt
  else
    LEDs_ToggleLEDs (Z.lor LEDS_LED1 LEDS_LED2) ;;
    on_dfu (fun a => set_command (mk_command (Command (SentCommand a)) (Data (SentCommand a)) (wLength req)) a) ;;
    if bRequest req =? DFU_REQ_DNLOAD then dfu_dnload
    else if bRequest req =? DFU_REQ_UPLOAD then dfu_upload
    else if bRequest req =? DFU_REQ_GETSTATUS then dfu_getstatus
    else if bRequest req =? DFU_REQ_CLRSTATUS then dfu_clrstatus
    else if bRequest req =? DFU_REQ_GETSTATE then dfu_getstate
    else if bRequest req =? DFU_REQ_ABORT then dfu_abort
    else mret tt.

(** ** main *)

Definition dfu_Jump_Check : run unit :=
  v ← read_reg MCUSR;
  key ← dfu MagicBootKey;
  when (Z.testbit v WDRF && (key =? MAGIC_BOOT_KEY)) (
    clear_bits MCUSR (2 ^ WDRF) ;;
    on_dfu (set_boot_key 0) ;;
    exits application_exit).

(** ISR(TIMER1_OVF_vect) *)
Definition dfu_TIMER1_OVF : run unit := LEDs_ToggleLEDs (Z.lor LEDS_LED1 LEDS_LED2).

Definition dfu_SetupHardware : run unit :=
  clear_bits MCUSR (2 ^ WDRF) ;;
  write_reg MCUCR 1 ;;
  write_reg MCUCR 2 ;;
  USB_Init ;;
  LEDs_Init ;;
  write_reg TIMSK1 1 ;;
  write_reg TCCR1B 3.

(** [disable] is USB_Disable. *)
Definition dfu_ResetHardware (disable : run unit) : run unit :=
  disable ;;
  LEDs_Disable ;;
  write_reg TIMSK1 0 ;;
  write_reg TCCR1B 0 ;;
  write_reg MCUCR 1 ;;
  write_reg MCUCR 0.

(** while (RunBootloader || WaitForExit) *)
Fixpoint dfu_loop (k : nat) : run unit :=
  match k with
  | O => lift (Fault OutOfFuel)
  | S k' =>
      r ← dfu RunBootloader;
      w ← dfu WaitForExit;
      if r || w then USB_USBTask ;; dfu_loop k' else mret tt
  end.

(** The jump to AppStartPtr ends the program; the exit code is the address. *)
Definition dfu_main (disable : run unit) : run unit :=
  dfu_SetupHardware ;;
  LEDs_SetAllLEDs LEDS_LED1 ;;
  set_bits SREG 128 ;;
  dfu_loop fuel ;;
  dfu_ResetHardware disable ;;
  p ← dfu AppStartPtr;
  exits p.
End dfu.
