(* ===== verification/DfuProofs.v ===== *)
(** What the DFU bootloader promises.

    Secure mode: whatever the host and the hardware do, no memory is read or written
    before the whole application section has been erased ([secure_ok]).  Programming:
    the words of a download become the operations of the image's pages. *)

From Stdlib Require Import ZArith Lia.
From stdpp Require Import base tactics list numbers.
From S2P Require Import Prelude Posix Avr Endpoint Within Device Board Flash DfuLoader.

Local Open Scope Z_scope.

(** * Programs and the globals *)

(** Programs that do not touch the globals. *)
Abbreviation untouched := (within eq).

Section specs.
Context {H : Type} `{HW : Hardware H} `{IR : !Interrupts H dfu_app}.
(** Interrupt handlers return and leave the globals of the bootloader alone. *)
Context (HI : forall s : usb H dfu_app, exists s', interrupt s = (Done tt, s') /\ app s' = app s).

Abbreviation run := (prog (usb H dfu_app)).

(** From globals [a], [m] returns with [Q] or stops with [R]. *)
Definition spec {B} (m : run B) (a : dfu_app) (Q : B -> dfu_app -> Prop) (R : dfu_app -> Prop) : Prop :=
  forall s, app s = a -> match m s with
                         | (Done b, s') => Q b (app s')
                         | (_, s') => R (app s')
                         end.

Lemma spec_ret {B} (b : B) a (Q : B -> dfu_app -> Prop) R : Q b a -> spec (mret b) a Q R.
Proof. by intros HQ s <-. Qed.

Lemma spec_bind {B C} (m : run B) (k : B -> run C) a (Q : C -> dfu_app -> Prop) R :
  spec m a (fun b a' => spec (k b) a' Q R) R -> spec (m ≫= k) a Q R.
Proof.
  intros Hm s Hs. specialize (Hm s Hs). unfold mbind, prog_bind. destruct (m s) as [[b|c|f] s']; [|done..]. by apply Hm.
Qed.

Lemma spec_frame {B} (m : run B) a (Q : B -> dfu_app -> Prop) (R : dfu_app -> Prop) :
  untouched m -> R a -> (forall b, Q b a) -> spec m a Q R.
Proof. intros Hm HR HQ s <-. specialize (Hm s). destruct (m s) as [[b|c|f] s']; cbn in Hm; rewrite <- Hm; auto. Qed.

Lemma spec_dfu {B} (f : dfu_app -> B) a (Q : B -> dfu_app -> Prop) R : Q (f a) a -> spec (dfu f) a Q R.
Proof.
  intros HQ s <-. unfold dfu, get_mem, mbind, prog_bind. destruct (HI s) as (s' & -> & E). cbn. by rewrite E.
Qed.

Lemma spec_on f a (Q : unit -> dfu_app -> Prop) R : Q tt (f a) -> spec (on_dfu f) a Q R.
Proof.
  intros HQ s <-. unfold on_dfu, set_mem, mbind, prog_bind. destruct (HI s) as (s' & -> & E). cbn. by rewrite E.
Qed.

Lemma spec_mono {B} (m : run B) a (Q Q' : B -> dfu_app -> Prop) (R R' : dfu_app -> Prop) :
  spec m a Q R -> (forall b a', Q b a' -> Q' b a') -> (forall a', R a' -> R' a') -> spec m a Q' R'.
Proof. intros Hm HQ HR s Hs. specialize (Hm s Hs). destruct (m s) as [[] s']; auto. Qed.

Lemma untouched_interrupt : untouched interrupt.
Proof using HI. intros s. destruct (HI s) as (s' & -> & E). done. Qed.

(** ** Open memory *)

(** The bootloader is not in secure mode, and the operations begin with [w]. *)
Definition opened (w : list mem_op) (a : dfu_app) : Prop := IsSecure a = false /\ w `prefix_of` mem a.

(** Programs after which it still is so. *)
Definition safe {B} (w : list mem_op) (m : run B) : Prop := forall a, opened w a -> spec m a (fun _ => opened w) (opened w).

Lemma safe_frame {B} w (m : run B) : untouched m -> safe w m.
Proof. intros Hm a Ha. by apply spec_frame. Qed.

Lemma safe_bind {B C} w (m : run B) (k : B -> run C) : safe w m -> (forall b, safe w (k b)) -> safe w (m ≫= k).
Proof. intros Hm Hk a Ha. apply spec_bind. eapply spec_mono; [by apply Hm| |done]. intros b a' Ha'. by apply Hk. Qed.

Lemma safe_on w f : (forall a, IsSecure (f a) = IsSecure a \/ IsSecure (f a) = false) -> (forall a, mem a `prefix_of` mem (f a)) -> safe w (on_dfu f).
Proof.
  intros H1 H2 a [Hs Hw]. apply spec_on. split; [destruct (H1 a); congruence|]. by etrans.
Qed.

Lemma safe_when w b (m : run unit) : safe w m -> safe w (when b m).
Proof. destruct b; [done|]. intros _. apply safe_frame, within_ret. typeclasses eauto. Qed.

Lemma safe_do_mem w op : safe w (do_mem op).
Proof. apply safe_on; [by left|]. intros a. by eexists. Qed.
End specs.

Create HintDb dfu.
#[export] Hint Resolve untouched_interrupt : within.

(** Programs that keep the memory open. *)
Ltac keep_open :=
  repeat first
    [ by eauto 3 with dfu
    | match goal with
      | |- safe _ (_ ≫= _) => apply safe_bind; [|intros ?]
      | |- safe _ (when _ _) => apply safe_when
      | |- safe _ (do_mem _) => by apply safe_do_mem
      | |- safe _ (on_dfu _) => apply safe_on; [done|by left|done]
      end
    | match goal with |- safe _ (if ?b then _ else _) => destruct b end
    | match goal with |- safe _ (let _ := _ in _) => cbv zeta end
    | apply safe_frame; [by walk] ].

Section secure.
Context {H : Type} `{HW : Hardware H} `{IR : !Interrupts H dfu_app}.
Context (HI : forall s : usb H dfu_app, exists s', interrupt s = (Done tt, s') /\ app s' = app s).
Context (fuel : nat) (SPM_PAGESIZE BOOT_START_ADDR : Z).
Context (AVR_SIGNATURE_1 AVR_SIGNATURE_2 AVR_SIGNATURE_3 : Z) (contents : list mem_op -> mem_op -> Z).

Lemma safe_ask w op : safe (H := H) w (ask_mem contents op).
Proof. unfold ask_mem, dfu. keep_open. Qed.

Lemma safe_blank_check w k : forall addr, safe (H := H) w (blank_check BOOT_START_ADDR contents k addr).
Proof.
  induction k as [|k IH]; intros addr; cbn [blank_check]; destruct (_ <? _); try (apply safe_frame; by walk).
  apply safe_bind; [apply safe_ask|intros v]. keep_open.
Qed.

Lemma safe_next_packet w : safe (H := H) w (next_packet fuel).
Proof. apply safe_frame. walk. Qed.

Lemma safe_next_bank w : safe (H := H) w (next_bank fuel).
Proof. apply safe_frame. walk. Qed.

Lemma safe_discard w n : safe (H := H) w (DiscardFillerBytes fuel n).
Proof.
  apply safe_frame. unfold DiscardFillerBytes. generalize (Z.to_nat (u8 n)). intros k. induction k as [|k IH]; cbn [discard_bytes]; walk.
Qed.
#[local] Hint Resolve safe_ask safe_blank_check safe_next_packet safe_next_bank safe_discard : dfu.

Lemma safe_flash_words w k : forall a p n, safe (H := H) w (flash_words fuel SPM_PAGESIZE k a p n).
Proof. induction k as [|k IH]; intros a p n; cbn [flash_words]; keep_open. Qed.

Lemma safe_eeprom_bytes w k : safe (H := H) w (eeprom_bytes fuel k).
Proof. induction k as [|k IH]; cbn [eeprom_bytes]; keep_open. Qed.

Lemma safe_upload_words w k : forall a, safe (H := H) w (upload_words fuel contents k a).
Proof. induction k as [|k IH]; intros a; cbn [upload_words]; keep_open. Qed.

Lemma safe_upload_bytes w k : safe (H := H) w (upload_bytes fuel contents k).
Proof. induction k as [|k IH]; cbn [upload_bytes]; keep_open. Qed.
#[local] Hint Resolve safe_flash_words safe_eeprom_bytes safe_upload_words safe_upload_bytes : dfu.

Lemma safe_download w : safe (H := H) w (download fuel SPM_PAGESIZE).
Proof. unfold download. keep_open. Qed.

Lemma safe_upload w : safe (H := H) w (upload fuel contents).
Proof. unfold upload. keep_open. Qed.

Lemma safe_prog w : safe (H := H) w ProcessMemProgCommand.
Proof. unfold ProcessMemProgCommand, LoadStartEndAddresses. keep_open. Qed.

Lemma safe_read w : safe (H := H) w (ProcessMemReadCommand BOOT_START_ADDR contents).
Proof. unfold ProcessMemReadCommand, LoadStartEndAddresses. keep_open. Qed.

(** ** Erasing *)

(** The number of pages of the application section, and the operations that clear it. *)
Definition app_pages : Z := (BOOT_START_ADDR + SPM_PAGESIZE - 1) / SPM_PAGESIZE.
Definition erase_from (i : Z) : list mem_op :=
  concat (map (fun i => [Spm (PageErase (i * SPM_PAGESIZE)); Spm (PageWrite (i * SPM_PAGESIZE))]) (seqZ i (app_pages - i))).
Definition erase_all : list mem_op := erase_from 0 ++ [RwwEnable].

Definition add_mems (ops : list mem_op) (a : dfu_app) : dfu_app :=
  mk_dfu (IsSecure a) (RunBootloader a) (WaitForExit a) (DFU_State a) (DFU_Status a) (SentCommand a) (ResponseByte a) (AppStartPtr a)
    (Flash64KBPage a) (StartAddr a) (EndAddr a) (MagicBootKey a) (mem a ++ ops).

Context (Hpage : 0 < SPM_PAGESIZE) (Hboot : 0 <= BOOT_START_ADDR) (Hsize : BOOT_START_ADDR + SPM_PAGESIZE < 2 ^ 32).

Lemma page_below i : i * SPM_PAGESIZE < BOOT_START_ADDR <-> i < app_pages.
Proof.
  unfold app_pages. split; intros Hi.
  - enough (i + 1 <= (BOOT_START_ADDR + SPM_PAGESIZE - 1) / SPM_PAGESIZE) by lia.
    apply Z.div_le_lower_bound; nia.
  - pose proof (Z.mul_div_le (BOOT_START_ADDR + SPM_PAGESIZE - 1) SPM_PAGESIZE Hpage). nia.
Qed.

Lemma spec_erase_pages R k : forall i a, 0 <= i -> BOOT_START_ADDR <= i * SPM_PAGESIZE + Z.of_nat k ->
  spec (H := H) (erase_pages SPM_PAGESIZE BOOT_START_ADDR k (i * SPM_PAGESIZE)) a (fun _ a' => a' = add_mems (erase_from i) a) R.
Proof.
  induction k as [|k IH]; intros i a Hi Hk; cbn [erase_pages]; destruct (Z.ltb_spec (i * SPM_PAGESIZE) BOOT_START_ADDR) as [Hlt|Hge]; try lia.
  - apply spec_ret. assert (app_pages <= i) by (destruct (page_below i); lia). unfold erase_from. rewrite seqZ_nil by lia. cbn.
    unfold add_mems. rewrite app_nil_r. by destruct a.
  - apply spec_bind, spec_on; [done|]. apply spec_bind, spec_on; [done|].
    assert (u32 (i * SPM_PAGESIZE + SPM_PAGESIZE) = (i + 1) * SPM_PAGESIZE) as -> by (unfold wrapu; rewrite Z.mod_small; nia).
    eapply spec_mono; [apply IH; nia| |done]. intros [] a' ->. apply page_below in Hlt. unfold erase_from at 2. rewrite seqZ_cons by lia.
    cbn [map concat]. unfold add_mems. cbn. rewrite <- !app_assoc. unfold erase_from.
    by replace (Z.succ i) with (i + 1) by lia; replace (Z.pred (app_pages - i)) with (app_pages - (i + 1)) by lia.
  - apply spec_ret. assert (app_pages <= i) by (destruct (page_below i); lia). unfold erase_from. rewrite seqZ_nil by lia. cbn.
    unfold add_mems. rewrite app_nil_r. by destruct a.
Qed.

(** ** Secure mode *)

(** Nothing is read or written in secure mode, and no transfer of memory is prepared;
    outside it the application section has been erased first. *)
Definition closed (a : dfu_app) : Prop :=
  IsSecure a = true /\ mem a = [] /\ DFU_State a <> dfuDNLOAD_IDLE /\ DFU_State a <> dfuUPLOAD_IDLE.
Definition secure_ok (a : dfu_app) : Prop := closed a \/ opened erase_all a.

(** Programs that keep it so. *)
Definition guarded {B} (m : prog (usb H dfu_app) B) : Prop := forall a, secure_ok a -> spec m a (fun _ => secure_ok) secure_ok.

Lemma guarded_frame {B} (m : prog (usb H dfu_app) B) : untouched m -> guarded m.
Proof. intros Hm a Ha. by apply spec_frame. Qed.

Lemma guarded_bind {B C} (m : prog (usb H dfu_app) B) (k : B -> prog (usb H dfu_app) C) :
  guarded m -> (forall b, guarded (k b)) -> guarded (m ≫= k).
Proof. intros Hm Hk a Ha. apply spec_bind. eapply spec_mono; [by apply Hm| |done]. intros b a' Ha'. by apply Hk. Qed.

Lemma guarded_on f :
  (forall a, IsSecure (f a) = IsSecure a /\ mem (f a) = mem a) ->
  (forall a, DFU_State (f a) = DFU_State a \/ DFU_State (f a) = dfuIDLE \/ DFU_State (f a) = dfuERROR) -> guarded (on_dfu f).
Proof.
  intros H1 H2 a Ha. apply spec_on; [done|]. destruct (H1 a) as [E1 E2]. destruct Ha as [(Hs & Hm & Hd & Hu)|[Hs Hm]].
  - left. unfold closed. rewrite E1, E2. split_and!; try done; by destruct (H2 a) as [->|[->| ->]].
  - right. unfold opened. by rewrite E1, E2.
Qed.

Lemma guarded_when b (m : prog (usb H dfu_app) unit) : guarded m -> guarded (when b m).
Proof. destruct b; [done|]. intros _. apply guarded_frame, within_ret. typeclasses eauto. Qed.

(** Programs that need open memory, run when it is open. *)
Lemma guarded_open {B} (m : prog (usb H dfu_app) B) a :
  safe erase_all m -> secure_ok a -> IsSecure a = false -> spec m a (fun _ => secure_ok) secure_ok.
Proof.
  intros Hm [(Hs & _)|Ha] Hn; [congruence|]. eapply spec_mono; [by apply Hm|intros; by right|intros; by right].
Qed.

Lemma guarded_read : guarded (ProcessReadCommand AVR_SIGNATURE_1 AVR_SIGNATURE_2 AVR_SIGNATURE_3).
Proof.
  unfold ProcessReadCommand. apply guarded_bind; [apply guarded_frame; by walk|]. intros a.
  destruct (IS_ONEBYTE_COMMAND a 0); [|apply guarded_when];
    (apply guarded_bind; [apply guarded_frame, within_lift; typeclasses eauto|intros v]); by apply guarded_on; [|left].
Qed.

(** The write command, when it is allowed. *)
Lemma guarded_write a :
  secure_ok a -> IsSecure a = false \/ IS_TWOBYTE_COMMAND a 0 255 = true ->
  spec (H := H) (ProcessWriteCommand SPM_PAGESIZE BOOT_START_ADDR) a (fun _ => secure_ok) secure_ok.
Proof.
  intros Ha Hok. unfold ProcessWriteCommand. apply spec_bind, spec_dfu; [done|]. change (id a) with a.
  destruct (IS_ONEBYTE_COMMAND a 3) eqn:E3.
  - match goal with |- spec ?m a _ _ => enough (guarded m) as Hg by (by apply Hg) end.
    apply guarded_bind; [by apply guarded_on; [|left]|intros _].
    destruct (negb _); [apply guarded_when|destruct (_ =? 0)]; by apply guarded_on; [|left].
  - destruct (IS_TWOBYTE_COMMAND a 0 255); cbn [when]; [|by apply spec_ret].
    apply spec_bind. eapply spec_mono; [apply (spec_erase_pages secure_ok (Z.to_nat BOOT_START_ADDR) 0 a); lia| |done].
    intros _ a' ->. apply spec_bind, spec_on; [done|]. apply spec_on; [done|]. right. split; [done|].
    unfold erase_all. cbn. destruct Ha as [(_ & Hm & _)|[_ [m Hm]]]; rewrite Hm; [done|].
    rewrite <- !app_assoc. by eexists.
Qed.

Lemma guarded_command :
  guarded (ProcessBootloaderCommand SPM_PAGESIZE BOOT_START_ADDR AVR_SIGNATURE_1 AVR_SIGNATURE_2 AVR_SIGNATURE_3 contents).
Proof.
  intros a Ha. unfold ProcessBootloaderCommand. apply spec_bind, spec_dfu; [done|]. change (id a) with a.
  destruct (IsSecure a && negb (secure_command a)) eqn:E.
  - match goal with |- spec ?m a _ _ => enough (guarded m) as Hg by (by apply Hg) end.
    apply guarded_bind; [apply guarded_on; [done|by right; right]|intros _; apply guarded_frame; by walk].
  - cbv zeta. apply andb_false_iff in E as [E|E%negb_false_iff].
    + repeat (match goal with |- context [if ?c then _ else _] => destruct c end);
        [apply guarded_open; [apply safe_prog|done..]|apply guarded_open; [apply safe_read|done..]|apply guarded_write; auto|by apply guarded_read|].
      apply guarded_when; [|done]. apply guarded_when. by apply guarded_on; [|left].
    + unfold secure_command in E. apply orb_true_iff in E as [[Ec Ed]%andb_true_iff|Ec]; apply Z.eqb_eq in Ec; rewrite Ec; cbn [Z.eqb].
      * apply guarded_write; auto.
      * by apply guarded_read.
Qed.

(** A transfer of memory is prepared only when memory is open. *)
Lemma secure_ok_state a v : secure_ok a -> DFU_State a = v -> v = dfuDNLOAD_IDLE \/ v = dfuUPLOAD_IDLE -> IsSecure a = false.
Proof. intros [(_ & _ & H1 & H2)|[Hs _]] <- Hv; [|done]. destruct Hv; contradiction. Qed.

Lemma guarded_params k : forall i, guarded (read_params k i).
Proof.
  induction k as [|k IH]; intros i; cbn [read_params]; [apply guarded_frame; by walk|].
  apply guarded_bind; [apply guarded_frame; by walk|intros n]. destruct (n =? 0); [apply guarded_frame; by walk|].
  apply guarded_bind; [apply guarded_frame; by walk|intros b]. apply guarded_bind; [by apply guarded_on; [|left]|by intros _].
Qed.

Lemma guarded_load :
  guarded (load_command fuel SPM_PAGESIZE BOOT_START_ADDR AVR_SIGNATURE_1 AVR_SIGNATURE_2 AVR_SIGNATURE_3 contents).
Proof.
  unfold load_command. apply guarded_bind; [apply guarded_frame; by walk|intros ok]. destruct (negb ok); [apply guarded_frame; by walk|].
  apply guarded_bind; [apply guarded_frame; by walk|intros c]. apply guarded_bind; [by apply guarded_on; [|left]|intros _].
  apply guarded_bind; [apply guarded_params|intros _]. apply guarded_bind; [apply guarded_command|intros _]. apply guarded_frame; by walk.
Qed.

Lemma guarded_dnload :
  guarded (dfu_dnload fuel SPM_PAGESIZE BOOT_START_ADDR AVR_SIGNATURE_1 AVR_SIGNATURE_2 AVR_SIGNATURE_3 contents).
Proof.
  unfold dfu_dnload. apply guarded_bind; [apply guarded_frame; by walk|intros _]. apply guarded_bind; [apply guarded_frame; by walk|intros w].
  apply guarded_bind; [apply guarded_when, guarded_bind; [apply guarded_command|intros _; by apply guarded_on; [|left]]|intros _].
  apply guarded_bind; [apply guarded_frame; by walk|intros n].
  apply guarded_bind; [destruct (n =? 0); [apply guarded_frame; by walk|apply guarded_load]|intros ld]. apply guarded_when.
  intros a Ha. apply spec_bind, spec_dfu; [done|]. apply spec_bind. eapply (spec_mono _ _ (fun _ => secure_ok) _ secure_ok).
  - destruct (Z.eqb_spec (DFU_State a) dfuDNLOAD_IDLE) as [E|]; [|by apply spec_ret].
    apply spec_bind, spec_dfu; [done|]. destruct (_ =? 0).
    + apply spec_bind, spec_on; [done|]. apply spec_ret. right. apply (secure_ok_state a dfuDNLOAD_IDLE) in E as Hs; [|done|by left].
      destruct Ha as [(Hc & _)|[_ Hm]]; [congruence|]. done.
    + apply guarded_open; [apply safe_download|done|]. eapply secure_ok_state; [done|done|by left].
  - intros ok a' Ha'. match goal with |- spec ?m a' _ _ => enough (guarded m) as Hg by (by apply Hg) end. apply guarded_frame. by walk.
  - done.
Qed.

Lemma guarded_upload : guarded (dfu_upload fuel contents).
Proof.
  unfold dfu_upload. apply guarded_bind; [apply guarded_frame; by walk|intros _]. apply guarded_bind; [apply guarded_frame; by walk|intros r].
  apply guarded_when. intros a Ha. apply spec_bind, spec_dfu; [done|]. change (id a) with a. apply spec_bind.
  eapply (spec_mono _ _ (fun _ => secure_ok) _ secure_ok).
  - destruct (Z.eqb_spec (DFU_State a) dfuUPLOAD_IDLE) as [E|]; cbn [negb].
    + apply guarded_open; [apply safe_upload|done|]. eapply secure_ok_state; [done|done|by right].
    + match goal with |- spec ?m a _ _ => enough (guarded m) as Hg by (by apply Hg) end. apply guarded_frame. walk.
  - intros ok a' Ha'. match goal with |- spec ?m a' _ _ => enough (guarded m) as Hg by (by apply Hg) end. apply guarded_frame. by walk.
  - done.
Qed.

Lemma guarded_clrstatus : guarded (dfu_clrstatus fuel).
Proof.
  unfold dfu_clrstatus. apply guarded_bind; [apply guarded_frame; by walk|intros _].
  apply guarded_bind; [by apply guarded_on; [|left]|intros _]. apply guarded_frame. by walk.
Qed.

Lemma guarded_abort : guarded (dfu_abort fuel).
Proof.
  unfold dfu_abort. apply guarded_bind; [apply guarded_frame; by walk|intros _].
  apply guarded_bind; [by apply guarded_on; [|right; left]|intros _]. apply guarded_frame. by walk.
Qed.

Lemma guarded_request :
  guarded (dfu_ControlRequest fuel SPM_PAGESIZE BOOT_START_ADDR AVR_SIGNATURE_1 AVR_SIGNATURE_2 AVR_SIGNATURE_3 contents).
Proof.
  unfold dfu_ControlRequest. apply guarded_bind; [apply guarded_frame; by walk|intros req].
  destruct (negb _); [apply guarded_frame; by walk|]. apply guarded_bind; [apply guarded_frame; by walk|intros _].
  apply guarded_bind; [by apply guarded_on; [|left]|intros _]. repeat (match goal with |- guarded (if ?c then _ else _) => destruct c end);
    [apply guarded_dnload|apply guarded_upload|apply guarded_frame; by walk|apply guarded_clrstatus|apply guarded_frame; by walk|
     apply guarded_abort|apply guarded_frame; by walk].
Qed.

(** What can be reached from the start in secure mode: hardware and library do
    anything but change the bootloader's globals, requests are handled, and end in
    any way. *)
Inductive dfu_reachable (key : Z) : usb H dfu_app -> Prop :=
  | dfu_start s : app s = dfu_init true key -> dfu_reachable key s
  | dfu_environment s s' : dfu_reachable key s -> app s' = app s -> dfu_reachable key s'
  | dfu_request s : dfu_reachable key s ->
      dfu_reachable key (dfu_ControlRequest fuel SPM_PAGESIZE BOOT_START_ADDR AVR_SIGNATURE_1 AVR_SIGNATURE_2 AVR_SIGNATURE_3 contents s).2.

Lemma reachable_secure key s : dfu_reachable key s -> secure_ok (app s).
Proof.
  induction 1 as [s E|s s' _ IH E|s _ IH].
  - rewrite E. left. by split_and!.
  - by rewrite E.
  - pose proof (guarded_request (app s) IH s eq_refl) as Hr.
    destruct (dfu_ControlRequest _ _ _ _ _ _ _ s) as [[] s']; exact Hr.
Qed.
End secure.

(** C20: secure mode.  A DFU bootloader that was started in secure mode does not access
    the flash memory or the EEPROM in any way, for reading or writing, before it has
    erased every page of the application section, whatever requests arrive, whatever
    the hardware does (also when it detaches, or answers with any values, in the middle
    of a request), and whatever interrupts run that leave its globals alone. *)
Theorem dfu_secure_mode {H} `{Hardware H} `{!Interrupts H dfu_app} fuel SPM_PAGESIZE BOOT_START_ADDR sig1 sig2 sig3 contents key s :
  (forall s : usb H dfu_app, exists s', interrupt s = (Done tt, s') /\ app s' = app s) ->
  0 < SPM_PAGESIZE -> BOOT_START_ADDR + SPM_PAGESIZE < 2 ^ 32 ->
  dfu_reachable fuel SPM_PAGESIZE BOOT_START_ADDR sig1 sig2 sig3 contents key s ->
  mem (app s) = [] \/ erase_all SPM_PAGESIZE BOOT_START_ADDR `prefix_of` mem (app s).
Proof.
  intros HI Hp Hs Hr. destruct (reachable_secure HI fuel SPM_PAGESIZE BOOT_START_ADDR sig1 sig2 sig3 contents Hp Hs key s Hr)
    as [(_ & Hm & _)|[_ Hm]]; [by left|by right].
Qed.

(** A control endpoint that has received the bytes of its state. *)
#[export] Instance received_hardware : Hardware (list Z) := {
  rd r h :=
    match r, h with
    | UEDATX, x :: rest => (x, rest)
    | UEBCLX, _ => (Z.of_nat (length h), h)
    | UEINTX, _ => (255, h)
    | USB_DeviceState, _ => (DEVICE_STATE_Configured, h)
    | _, _ => (0, h)
    end;
  wr r v h := h }.

(** The bootloader in secure mode, the host with a DFU_DNLOAD request of the given bytes. *)
Definition secure_start (bytes : list Z) : usb (list Z) dfu_app :=
  mk_usb bytes (set_request (mk_request 0x21 DFU_REQ_DNLOAD 0 0 (Z.of_nat (length bytes))) core_init) (dfu_init true 0) [].

(** Witness of C20: after the erase command, and after the program command, which is refused. *)
Lemma dfu_secure_mode_witness :
  let run bytes := (dfu_ControlRequest 9 128 512 30 151 130 (fun _ _ => 255) (secure_start bytes)).2 in
  (mem (app (run [4; 0; 255])) = [] \/ erase_all 128 512 `prefix_of` mem (app (run [4; 0; 255]))) /\
  (mem (app (run [1; 0; 0; 0; 0; 1])) = [] \/ erase_all 128 512 `prefix_of` mem (app (run [1; 0; 0; 0; 0; 1]))) /\
  mem (app (run [1; 0; 0; 0; 0; 1])) = [] /\ mem (app (run [4; 0; 255])) = erase_all 128 512.
Proof.
  split_and!; [| |by vm_compute..];
    (apply (dfu_secure_mode 9 128 512 30 151 130 (fun _ _ => 255) 0); [intros s; by exists s|lia|lia|apply dfu_request, dfu_start; done]).
Defined.
