(* ===== verification/DfuImage.v ===== *)
(** Programming the flash memory through the DFU bootloader.

    One DFU_DNLOAD request with the program command, the data and the suffix, from a
    host that sends packets of 32 bytes ([DownloadHost]), leaves the data in the flash
    memory. *)

From Stdlib Require Import ZArith Lia.
From stdpp Require Import base tactics list numbers.
From S2P Require Import Prelude Posix Avr Endpoint Device BulkHost Board Flash DownloadHost DfuLoader DfuProofs.

Local Open Scope Z_scope.

Section host.
Context {H : Type} `{HW : Hardware H} {patience : nat} `{DH : !DownloadHost H 32 patience}.
Context (c : core) (fuel : nat) (Hfuel : (patience < fuel)%nat).
Implicit Types s : usb H dfu_app.

Abbreviation at_stage := (at_stage (size := 32) c).
Abbreviation arrived := (arrived (size := 32) c).

Lemma wp_on f d a (Q : unit -> usb H dfu_app -> Prop) E s : arrived d a s -> (forall s', arrived d (f a) s' -> Q tt s') -> wp (on_dfu f) Q E s.
Proof. apply wp_on_stage. Qed.

Lemma wp_dfu {B} (f : dfu_app -> B) d a (Q : B -> usb H dfu_app -> Prop) E s : arrived d a s -> Q (f a) s -> wp (dfu f) Q E s.
Proof. apply wp_get_stage. Qed.

(** The next packet, when the bank is empty and bytes are left. *)
Definition refilled (d : stage) : stage := if (st_bank d =? 0)%nat then next_stage 32 d else d.

Lemma wp_next_packet d a (Q : bool -> usb H dfu_app -> Prop) E s :
  st_left d <> [] -> arrived d a s -> (forall s', arrived (refilled d) a s' -> Q true s') -> wp (next_packet fuel) Q E s.
Proof.
  intros Hl Hs HQ. unfold next_packet. eapply wp_bind, wp_look; [done..|]. intros s1 S1. unfold refilled in HQ.
  rewrite dl_count by apply Hs. destruct Hs as [[-> _] _]. destruct d as [l [|n]]; cbn [st_bank Nat.eqb] in *; [|by apply wp_ret, HQ].
  cbn [Z.of_nat Z.eqb]. eapply wp_bind, wp_next; [by left|done|]. intros s2 S2. eapply wp_await_packet; [exact Hfuel|by left| |exact S2|auto].
  rewrite next_stage_empty. destruct l; [done|]. cbn. lia.
Qed.

(** ** Filler bytes *)

Lemma wp_discard_bank l k a (Q : unit -> usb H dfu_app -> Prop) E : forall n b s,
  (n <= b <= length l)%nat -> arrived (mk_stage l b) a s ->
  (forall s', arrived (mk_stage (drop n l) (b - n)) a s' -> wp (discard_bytes fuel k) Q E s') ->
  wp (discard_bytes fuel (n + k)) Q E s.
Proof.
  intros n. revert l. induction n as [|n IH]; intros l b s Hn Hs HQ; [rewrite Nat.sub_0_r in HQ; by apply HQ|].
  destruct b as [|b]; [lia|]. destruct l as [|x l]; [cbn in Hn; lia|]. cbn [Nat.add discard_bytes].
  eapply wp_bind, wp_look; [done..|]. intros s1 S1. rewrite dl_count by apply Hs. destruct Hs as [[-> _] _]. cbn [st_bank Z.of_nat Z.eqb].
  unfold Endpoint_Discard_8. eapply wp_bind, wp_bind, wp_take; [exact S1|]. intros s2 S2. apply wp_ret.
  eapply IH; [|exact S2|exact HQ]. cbn in Hn. lia.
Qed.

Lemma wp_discard_next l k a (Q : unit -> usb H dfu_app -> Prop) E s :
  l <> [] -> arrived (mk_stage l 0) a s ->
  (forall s', arrived (mk_stage l (Nat.min 32 (length l))) a s' -> wp (discard_bytes fuel k) Q E s') ->
  wp (discard_bytes fuel (S k)) Q E s.
Proof.
  intros Hl Hs HQ. cbn [discard_bytes]. eapply wp_bind, wp_look; [done..|]. intros s1 S1. rewrite dl_count by apply Hs.
  destruct Hs as [[-> _] _]. cbn [st_bank Z.of_nat Z.eqb]. eapply wp_bind, wp_next; [by left|exact S1|]. rewrite next_stage_empty.
  intros s2 S2. eapply wp_bind, wp_await_packet; [exact Hfuel|by left| |exact S2|auto]. destruct l; [done|]. cbn. lia.
Qed.

(** The suffix of the file: at most one byte of it is left, in the bank. *)
Lemma wp_discard_suffix l b a (Q : unit -> usb H dfu_app -> Prop) E s :
  length l = 16%nat -> (b <= 16)%nat -> arrived (mk_stage l b) a s ->
  (forall d s', next_stage 32 d = mk_stage [] 0 -> arrived d a s' -> Q tt s') -> wp (DiscardFillerBytes fuel DFU_FILE_SUFFIX_SIZE) Q E s.
Proof.
  intros Hl Hb Hs HQ. change (wp (discard_bytes fuel 16) Q E s). replace 16%nat with (b + (16 - b))%nat by lia.
  eapply wp_discard_bank; [|exact Hs|]; [lia|]. intros s1 S1. rewrite Nat.sub_diag in S1. destruct (16 - b)%nat as [|n] eqn:En.
  - apply wp_ret. eapply HQ, S1. by rewrite drop_ge by lia.
  - eapply wp_discard_next; [|exact S1|]; [intros E0; apply (f_equal length) in E0; rewrite length_drop in E0; cbn in E0; lia|].
    intros s2 S2. rewrite length_drop in S2. rewrite <- (Nat.add_0_r n).
    eapply wp_discard_bank; [|exact S2|]; [rewrite length_drop; lia|]. intros s3 S3. apply wp_ret. eapply HQ, S3.
    unfold next_stage. cbn [st_left st_bank]. by rewrite drop_ge by (rewrite !length_drop; lia).
Qed.
End host.

(** * The operations of a download *)

Section words.
Context (k : Z) (Hk : 1 <= k <= 8).
Abbreviation page := (2 ^ k).
Context {H : Type} `{HW : Hardware H} {patience : nat} `{DH : !DownloadHost H 32 patience}.
Context (c : core) (fuel : nat) (Hfuel : (patience < fuel)%nat).

Lemma add_mem_spm op ops a : add_mems (map Spm ops) (add_mem (Spm op) a) = add_mems (map Spm (op :: ops)) a.
Proof. unfold add_mems, add_mem. cbn. by rewrite <- app_assoc. Qed.

Lemma add_mems_nil a : add_mems [] a = a.
Proof. unfold add_mems. rewrite app_nil_r. by destruct a. Qed.

(** One word. *)
Lemma wp_flash_word lo hi l b a s (Q : bool -> usb H dfu_app -> Prop) E n addr p cnt :
  Nat.even b = true -> (b <= length (lo :: hi :: l))%nat -> Nat.even (length l) = true -> arrived c (mk_stage (lo :: hi :: l) b) a s ->
  (forall b' s', Nat.even b' = true -> (b' <= length l)%nat -> arrived c (mk_stage l b') (add_mem (Spm (PageFill addr (hi * 256 + lo))) a) s' ->
     wp (let cnt' := u8 (cnt + 1) in let addr' := u32 (addr + 2) in
         if (cnt' =? Z.shiftr page 1) || (n =? 0)%nat then
           do_mem (Spm (PageWrite p)) ;;
           if (n =? 0)%nat then flash_words fuel page n addr' p cnt'
           else do_mem (Spm (PageErase addr')) ;; flash_words fuel page n addr' addr' 0
         else flash_words fuel page n addr' p cnt') Q E s') ->
  wp (flash_words fuel page (S n) addr p cnt) Q E s.
Proof.
  intros Hb Hlen Hl Hs HQ. cbn [flash_words]. eapply wp_bind, wp_next_packet; [done| |exact Hs|]; [done|]. intros s1 S1. cbn [negb].
  assert (exists b', refilled (mk_stage (lo :: hi :: l) b) = mk_stage (lo :: hi :: l) (S (S b')) /\ Nat.even b' = true /\ (b' <= length l)%nat)
    as (b' & E1 & He & Hle).
  { unfold refilled. destruct b as [|[|b]]; cbn [st_bank Nat.eqb]; [|done|by exists b; cbn in *; split_and!; [..|lia]].
    rewrite next_stage_empty. exists (Nat.min 30 (length l)). split; [done|].
    split; [|lia]. destruct (Nat.min_spec 30 (length l)) as [[_ ->]|[_ ->]]; done. }
  rewrite E1 in S1. unfold Endpoint_Read_16_LE. eapply wp_bind, wp_bind, wp_take; [exact S1|]. intros s2 S2.
  eapply wp_bind, wp_take; [exact S2|]. intros s3 S3. apply wp_ret. unfold do_mem at 1. eapply wp_bind, wp_on; [exact S3|].
  replace (lo + 256 * hi) with (hi * 256 + lo) by lia. intros s4 S4. by eapply HQ.
Qed.

(** The number of words in the page, an 8-bit counter. *)
Lemma words_in_page a : Z.even a = true -> 0 <= a ->
  (u8 ((a mod page) / 2 + 1) =? Z.shiftr page 1) = ((a + 2) mod page =? 0) /\
  ((a + 2) mod page <> 0 -> u8 ((a mod page) / 2 + 1) = ((a + 2) mod page) / 2 /\ a - a mod page = a + 2 - (a + 2) mod page).
Proof.
  intros He Ha. pose proof (Z.mod_pos_bound a page (page_pos k ltac:(lia))) as Hm. rewrite Z.shiftr_div_pow2 by lia. change (2 ^ 1) with 2.
  assert (page = 2 * 2 ^ (k - 1)) as Ep by (rewrite <- Z.pow_succ_r by lia; f_equal; lia).
  assert (2 ^ (k - 1) <= 2 ^ 7) as H7 by (apply Z.pow_le_mono_r; lia). change (2 ^ 7) with 128 in H7.
  assert (exists h, a mod page = 2 * h) as [h Eh].
  { apply Z.even_spec in He as [x ->]. rewrite Ep, Z.mul_mod_distr_l by lia. eauto. }
  assert (page / 2 = 2 ^ (k - 1)) as -> by (rewrite Ep, Z.mul_comm; apply Z.div_mul; lia).
  assert (a mod page / 2 = h) as -> by (rewrite Eh, Z.mul_comm; apply Z.div_mul; lia). rewrite u8_small by (red; lia).
  destruct (word_in_page k ltac:(lia) a He Ha) as [[E1 E2]|[E1 E2]]; rewrite E1; (split; [|intros Hne]).
  - rewrite Z.eqb_refl. apply Z.eqb_eq. lia.
  - done.
  - rewrite (proj2 (Z.eqb_neq _ 0)) by lia. apply Z.eqb_neq. lia.
  - split; [|lia]. rewrite Eh. replace (2 * h + 2) with ((h + 1) * 2) by lia. symmetry. apply Z.div_mul. lia.
Qed.

Lemma wp_flash_words rest E : forall bs b a s addr (Q : bool -> usb H dfu_app -> Prop),
  Nat.even (length bs) = true -> Nat.even (length rest) = true -> Nat.even b = true -> (b <= length (bs ++ rest))%nat ->
  0 <= addr -> addr + Z.of_nat (length bs) < 2 ^ 32 -> Z.even addr = true -> arrived c (mk_stage (bs ++ rest) b) a s ->
  (forall b' s', (b' <= length rest)%nat -> arrived c (mk_stage rest b') (add_mems (map Spm (block_ops k addr (words_of bs))) a) s' -> Q true s') ->
  wp (flash_words fuel page (length (words_of bs)) addr (addr - addr mod page) ((addr mod page) / 2)) Q E s.
Proof.
  induction bs as [|x|lo hi bs IH] using list_pair_ind; intros b a s addr Q Hev Hr Hb Hlen Ha Hbound Hea Hs HQ; [|done|].
  - apply wp_ret. eapply HQ; [exact Hlen|]. cbn. by rewrite add_mems_nil.
  - cbn [words_of length]. change (Nat.even (length bs) = true) in Hev.
    assert (Nat.even (length (bs ++ rest)) = true) as Hl by (by rewrite length_app, Nat.even_add, Hr, Hev).
    eapply (wp_flash_word lo hi (bs ++ rest)); [exact Hb|exact Hlen|exact Hl|exact Hs|]. intros b' s1 Hb' Hle S1. cbv zeta.
    cbn [length] in Hbound. replace (u32 (addr + 2)) with (addr + 2) by (unfold wrapu; rewrite Z.mod_small; lia).
    assert (Z.even (addr + 2) = true) as Hea' by (by rewrite Z.even_add, Hea).
    destruct (words_in_page addr Hea Ha) as [-> Hsame].
    destruct (words_of bs) as [|w ws] eqn:Ew; [|rewrite <- Ew in *]; cbn [length Nat.eqb].
    + rewrite orb_true_r. unfold do_mem. eapply wp_bind, wp_on; [exact S1|]. intros s2 S2. cbn [flash_words]. apply wp_ret.
      assert (bs = []) as -> by (destruct bs as [|? [|? ?]]; done).
      eapply HQ; [exact Hle|]. cbn [words_of block_ops]. rewrite <- !add_mem_spm. cbn [map]. rewrite add_mems_nil. exact S2.
    + (assert (length (words_of bs) =? 0 = false)%nat as -> by (by rewrite Ew)). rewrite orb_false_r.
      assert (block_ops k addr (hi * 256 + lo :: words_of bs) = PageFill addr (hi * 256 + lo) ::
        (if (addr + 2) mod page =? 0 then [PageWrite (addr - addr mod page); PageErase (addr + 2)] else []) ++ block_ops k (addr + 2) (words_of bs)) as Eo
        by (by rewrite Ew).
      cbn [words_of] in HQ. rewrite Eo in HQ. destruct (Z.eqb_spec ((addr + 2) mod page) 0) as [E0|E0].
      * unfold do_mem. eapply wp_bind, wp_on; [exact S1|]. intros s2 S2. eapply wp_bind, wp_on; [exact S2|]. intros s3 S3.
        specialize (IH b' _ s3 (addr + 2) Q Hev Hr Hb' Hle ltac:(lia) ltac:(lia) Hea' S3). rewrite E0, Z.sub_0_r in IH. apply IH.
        intros b'' s4 Hb'' S4. eapply HQ; [exact Hb''|]. cbn [app]. by rewrite !add_mem_spm in S4.
      * destruct (Hsame E0) as [-> ->]. eapply (IH b' _ s1 (addr + 2) Q Hev Hr Hb' Hle ltac:(lia) ltac:(lia) Hea' S1).
        intros b'' s4 Hb'' S4. eapply HQ; [exact Hb''|]. cbn [app]. by rewrite !add_mem_spm in S4.
Qed.
End words.

(** * The request *)

(** The program command: flash memory, from [start] to [last]. *)
Definition program_command (start last : Z) : list Z :=
  [COMMAND_PROG_START; 0; start / 256; start mod 256; last / 256; last mod 256].

Section request.
Context (k : Z) (Hk : 1 <= k <= 8).
Abbreviation page := (2 ^ k).
Context {H : Type} `{HW : Hardware H} {patience : nat} `{DH : !DownloadHost H 32 patience}.
Context (c : core) (fuel : nat) (Hfuel : (patience < fuel)%nat).
Context (BOOT_START_ADDR sig1 sig2 sig3 : Z) (contents : list mem_op -> mem_op -> Z).

(** The globals after a command was loaded. *)
Abbreviation with_command cmd data n a := (set_command (mk_command cmd data n) a).

Lemma wp_param x l b cmd data n a k' i (Q : unit -> usb H dfu_app -> Prop) E s :
  arrived c (mk_stage (x :: l) (S b)) (with_command cmd data n a) s ->
  (forall s', arrived c (mk_stage l b) (with_command cmd (<[i := x]> data) (u16 (n - 1)) a) s' -> wp (read_params k' (S i)) Q E s') ->
  wp (read_params (S k') i) Q E s.
Proof.
  intros Hs HQ. cbn [read_params]. eapply wp_bind, wp_look; [done|exact Hs|]. intros s1 S1. rewrite dl_count by apply Hs.
  destruct Hs as [[-> _] _]. cbn [st_bank Z.of_nat Z.eqb]. eapply wp_bind, wp_take; [exact S1|]. intros s2 S2.
  eapply wp_bind, wp_on; [exact S2|]. exact HQ.
Qed.

(** The globals after the program command. *)
Definition programming (start last n : Z) (a : dfu_app) : dfu_app :=
  let a' := set_end last (set_start start (with_command COMMAND_PROG_START [0; start / 256; start mod 256; last / 256; last mod 256] n a)) in
  set_dfu_state dfuDNLOAD_IDLE (add_mem (Spm (PageErase (flash_address a'))) a').

Lemma wp_program_command d start last n a (Q : unit -> usb H dfu_app -> Prop) E s :
  IsSecure a = false -> arrived c d (with_command COMMAND_PROG_START [0; start / 256; start mod 256; last / 256; last mod 256] n a) s ->
  (forall s', arrived c d (programming start last n a) s' -> Q tt s') ->
  wp (ProcessBootloaderCommand page BOOT_START_ADDR sig1 sig2 sig3 contents) Q E s.
Proof.
  intros Hsec Hs HQ. unfold ProcessBootloaderCommand. eapply wp_bind, wp_dfu; [exact Hs|]. cbn -[ProcessMemProgCommand].
  rewrite Hsec. cbn -[ProcessMemProgCommand]. unfold ProcessMemProgCommand. eapply wp_bind, wp_dfu; [exact Hs|].
  cbn [id IS_ONEBYTE_COMMAND data_at SentCommand set_command Data nth Z.eqb orb when].
  unfold LoadStartEndAddresses. eapply wp_bind, wp_on; [exact Hs|]. intros s1 S1. cbn [data_at SentCommand set_command Data nth] in S1.
  assert (forall x, x mod 256 + x / 256 * 256 = x) as Ex by (intros x; pose proof (Z.div_mod x 256 ltac:(lia)); lia).
  rewrite !Ex in S1. eapply wp_bind, wp_dfu; [exact S1|]. cbn [id IS_ONEBYTE_COMMAND data_at SentCommand set_command set_start set_end Data nth Z.eqb when].
  unfold do_mem. eapply wp_bind, wp_on; [exact S1|]. intros s2 S2. eapply wp_on; [exact S2|]. exact HQ.
Qed.

Lemma wp_load_command d0 d1 d2 d3 d4 cmd start last l b n a (Q : bool -> usb H dfu_app -> Prop) E s :
  IsSecure a = false ->
  at_stage c (mk_stage (program_command start last ++ l) (6 + b)) (with_command cmd [d0; d1; d2; d3; d4] n a) s ->
  (forall s', arrived c (mk_stage l b) (programming start last (u16 (u16 (u16 (u16 (u16 (u16 (n - 1) - 1) - 1) - 1) - 1) - 1)) a) s' -> Q true s') ->
  wp (load_command fuel page BOOT_START_ADDR sig1 sig2 sig3 contents) Q E s.
Proof.
  intros Hsec Hs HQ. unfold load_command. eapply wp_bind, wp_await_packet; [exact Hfuel|by left| |exact Hs|]; [done|]. intros s1 S1. cbn [negb].
  eapply wp_bind, wp_take; [exact S1|]. intros s2 S2. eapply wp_bind, wp_on; [exact S2|]. intros s3 S3.
  change (arrived c (mk_stage ([0; start / 256; start mod 256; last / 256; last mod 256] ++ l) (5 + b))
    (with_command COMMAND_PROG_START [d0; d1; d2; d3; d4] (u16 (n - 1)) a) s3) in S3.
  apply wp_bind. eapply wp_param; [exact S3|]. intros s4 S4. eapply wp_param; [exact S4|]. intros s5 S5. eapply wp_param; [exact S5|].
  intros s6 S6. eapply wp_param; [exact S6|]. intros s7 S7. eapply wp_param; [exact S7|]. intros s8 S8. apply wp_ret, wp_bind.
  eapply wp_program_command; [done|exact S8|]. intros s9 S9. apply wp_ret. by apply HQ.
Qed.

(** The globals at the end. *)
Definition programmed (start last n : Z) (ws : list Z) (a : dfu_app) : dfu_app :=
  add_mem RwwEnable (set_start last (add_mems (map Spm (block_ops k (flash_address (set_start start a)) ws)) (programming start last n a))).

Lemma bytes_remaining_programming start last n len a :
  last = start + len - 1 -> 0 <= start -> 0 < len -> last < 65536 -> len < 65536 -> bytes_remaining (programming start last n a) = len.
Proof.
  intros -> Hs Hn Hl Hn'. unfold bytes_remaining. cbn [programming set_dfu_state add_mem set_end set_start StartAddr EndAddr].
  unfold wrapu. rewrite (Z.mod_small (start + len - 1 - start)) by lia. rewrite Z.mod_small; lia.
Qed.

(** The address of the first word. *)
Lemma start_address start a : start mod 32 = 0 -> start mod page = 0 ->
  flash_address (set_start start a) mod page = 0 /\ Z.even (flash_address (set_start start a)) = true.
Proof.
  intros H32 Hp. unfold flash_address. cbn [set_start StartAddr Flash64KBPage]. split.
  - replace (Flash64KBPage a * 65536) with (Flash64KBPage a * 2 ^ (16 - k) * page) by
      (rewrite <- Z.mul_assoc, <- Z.pow_add_r by lia; by replace (16 - k + k) with 16 by lia).
    by rewrite Z.mod_add by (pose proof (page_pos k ltac:(lia)); lia).
  - rewrite Z.even_add, Z.even_mul, orb_true_r. pose proof (Z.div_mod start 32 ltac:(lia)). rewrite H32 in *.
    replace start with (32 * (start / 32)) by lia. by rewrite Z.even_mul.
Qed.

Lemma wp_download start last filler bs suffix n a (Q : bool -> usb H dfu_app -> Prop) E s :
  length filler = 26%nat -> length suffix = 16%nat -> bs <> [] -> Nat.even (length bs) = true ->
  0 <= start -> last = start + Z.of_nat (length bs) - 1 -> last < 65536 -> Z.of_nat (length bs) < 65536 ->
  start mod 32 = 0 -> start mod page = 0 -> 0 <= Flash64KBPage a < 256 ->
  arrived c (mk_stage (filler ++ bs ++ suffix) 26) (programming start last n a) s ->
  (forall d s', next_stage 32 d = mk_stage [] 0 -> arrived c d (programmed start last n (words_of bs) a) s' -> Q true s') ->
  wp (download fuel page) Q E s.
Proof.
  intros Hf Hx Hne Hev Hs0 Hlast Hl16 Hn16 H32 Hp H64 Hs HQ. unfold download. apply wp_bind.
  change (DiscardFillerBytes fuel DFU_FILLER_BYTES_SIZE) with (discard_bytes (H := H) fuel (26 + 0)).
  eapply wp_discard_bank; [exact Hfuel| |exact Hs|]; [rewrite length_app; lia|]. intros s1 S1. apply wp_ret. rewrite drop_app_length' in S1 by done.
  eapply wp_bind, wp_dfu; [exact S1|]. change (StartAddr (programming start last n a)) with start. change FIXED_CONTROL_ENDPOINT_SIZE with 32. rewrite H32.
  change (DiscardFillerBytes fuel 0) with (mret tt : prog (usb H dfu_app) unit). apply wp_bind, wp_ret. eapply wp_bind, wp_dfu; [exact S1|]. cbn [id].
  change (IS_ONEBYTE_COMMAND (programming start last n a) 0) with true. cbv iota.
  rewrite (bytes_remaining_programming start last n (Z.of_nat (length bs)) a) by (destruct bs; cbn [length] in *; (done || lia)).
  change (flash_address (programming start last n a)) with (flash_address (set_start start a)).
  set (addr := flash_address (set_start start a)) in *.
  assert (addr = start + Flash64KBPage a * 65536) as Ea by done.
  assert (Nat.even (length bs) = true -> 2 * Z.of_nat (length (words_of bs)) = Z.of_nat (length bs)) as Hw.
  { intros [x Ex]%Nat.even_spec. apply length_words_of. rewrite Ex, Nat2Z.inj_mul, Z.even_mul. done. }
  assert (Z.to_nat (Z.shiftr (Z.of_nat (length bs)) 1) = length (words_of bs)) as ->.
  { rewrite Z.shiftr_div_pow2, <- (Hw Hev), Z.mul_comm by lia. change (2 ^ 1) with 2. rewrite Z.div_mul by lia. apply Nat2Z.id. }
  destruct (start_address start a H32 Hp) as [Ep Hea]. fold addr in Ep, Hea.
  apply wp_bind, wp_bind. pose proof (wp_flash_words k Hk c fuel Hfuel suffix E bs 0 (programming start last n a) s1 addr) as W.
  rewrite Ep, Z.sub_0_r in W. apply W; clear W; [done|by rewrite Hx|done|lia|lia|lia|done|exact S1|].
  intros b' s2 Hb' S2. cbn [when]. eapply wp_bind, wp_bind, wp_on; [exact S2|]. intros s3 S3. unfold do_mem.
  eapply wp_on; [exact S3|]. intros s4 S4. apply wp_ret. cbn [when]. apply wp_bind.
  eapply wp_discard_suffix; [exact Hfuel|exact Hx| |exact S4|]; [lia|]. intros d s5 Hd S5. apply wp_ret. by eapply HQ.
Qed.

(** The end of the request. *)
Lemma wp_status d a (Q : unit -> usb H dfu_app -> Prop) E s :
  Z.testbit (bmRequestType (USB_ControlRequest c)) 7 = false -> next_stage 32 d = mk_stage [] 0 -> arrived c d a s ->
  (forall s', app s' = a -> Q tt s') -> wp (control_ClearOUT ;; control_ClearStatusStage fuel) Q E s.
Proof.
  intros Hc Hd Hs HQ. eapply wp_bind, wp_next; [by left|exact Hs|]. rewrite Hd. intros s1 S1. unfold control_ClearStatusStage, get_request.
  apply wp_bind, wp_get_mem. rewrite (proj2 (proj2 S1)), Hc. apply wp_bind. unfold Endpoint_IsINReady.
  eapply (wp_wait c fuel Hfuel is_unattached TXINI); [by left|intros h; apply dl_ready|pose proof (dl_patience (hw s1)); lia|exact S1|]. intros s2 [[_ [A2 _]] _].
  cbn [when]. unfold control_ClearIN, clear_bits. apply wp_bind, wp_read_reg, wp_write_reg, HQ. done.
Qed.

Context (start last : Z) (filler bs suffix : list Z).
Context (Hfiller : length filler = 26%nat) (Hsuffix : length suffix = 16%nat) (Hbs : bs <> []) (Heven : Nat.even (length bs) = true).
Context (Hstart : 0 <= start) (Hlast : last = start + Z.of_nat (length bs) - 1 /\ last < 65536) (Hlen : 48 + Z.of_nat (length bs) < 65536).
Context (H32 : start mod 32 = 0) (Hpage : start mod page = 0).

Lemma command_size n : 6 < n < 65536 -> u16 (u16 (u16 (u16 (u16 (u16 (n - 1) - 1) - 1) - 1) - 1) - 1) = n - 6.
Proof.
  intros Hn. assert (forall x, 0 < x < 65536 -> u16 (x - 1) = x - 1) as Hx by (intros x ?; unfold wrapu; rewrite Z.mod_small; lia).
  rewrite (Hx n), (Hx (n - 1)), (Hx (n - 1 - 1)), (Hx (n - 1 - 1 - 1)), (Hx (n - 1 - 1 - 1 - 1)), (Hx (n - 1 - 1 - 1 - 1 - 1)) by lia. lia.
Qed.

(** The whole request. *)
Lemma wp_program_request a value index (Q : unit -> usb H dfu_app -> Prop) E s :
  USB_ControlRequest c = mk_request 0x21 DFU_REQ_DNLOAD value index (48 + Z.of_nat (length bs)) ->
  IsSecure a = false -> WaitForExit a = false -> length (Data (SentCommand a)) = 5%nat -> 0 <= Flash64KBPage a < 256 ->
  arrived c (mk_stage (program_command start last ++ filler ++ bs ++ suffix) 0) a s ->
  (forall n s', app s' = programmed start last n (words_of bs) a -> Q tt s') ->
  wp (dfu_ControlRequest fuel page BOOT_START_ADDR sig1 sig2 sig3 contents) Q E s.
Proof.
  intros Hreq Hsec Hw Hd H64 Hs HQ. unfold dfu_ControlRequest, get_request. apply wp_bind, wp_get_mem. rewrite (proj2 (proj2 (proj1 Hs))), Hreq.
  cbn [bmRequestType bRequest wLength negb Z.land Pos.land Z.eqb Pos.eqb]. unfold LEDs_ToggleLEDs. apply wp_bind, wp_write_reg.
  match goal with |- wp _ _ _ ?t => set (s1 := t) end.
  assert (arrived c (mk_stage (program_command start last ++ filler ++ bs ++ suffix) 0) a s1) as S1.
  { destruct Hs as [[D1 A1] W1]. subst s1. split; [split; [|exact A1]|]; cbn;
      [by rewrite (proj1 (dl_other PIND _ (hw s) ltac:(done)))|by rewrite (proj2 (dl_other PIND _ (hw s) ltac:(done)))]. }
  clearbody s1. eapply wp_bind, wp_on; [exact S1|]. intros s2 S2. unfold dfu_dnload. change (DFU_REQ_DNLOAD =? DFU_REQ_DNLOAD) with true. cbv iota.
  unfold Endpoint_ClearSETUP. eapply wp_bind, wp_next; [|exact S2|]; [by right|]. rewrite next_stage_empty. intros s3 S3.
  eapply wp_bind, wp_get_waiting; [exact S3|]. change (WaitForExit (with_command _ _ _ a)) with (WaitForExit a). rewrite Hw.
  apply wp_bind, wp_ret. eapply wp_bind, wp_get_waiting; [exact S3|]. cbn [SentCommand set_command DataSize].
  rewrite (proj2 (Z.eqb_neq _ 0)) by lia. destruct (Data (SentCommand a)) as [|d0 [|d1 [|d2 [|d3 [|d4 [|]]]]]] eqn:Ed; try done.
  apply wp_bind. eapply (wp_load_command d0 d1 d2 d3 d4 _ start last _ 26); [done| |].
  { replace (Nat.min 32 _) with 32%nat in S3; [exact S3|]. rewrite !length_app. cbn [length program_command]. lia. }
  intros s4 S4. cbn [when]. eapply wp_bind, wp_dfu; [exact S4|]. change (DFU_State (programming _ _ _ _)) with dfuDNLOAD_IDLE.
  rewrite Z.eqb_refl. eapply wp_bind, wp_bind, wp_dfu; [exact S4|]. cbn [programming set_dfu_state add_mem set_end set_start set_command SentCommand DataSize].
  rewrite command_size, (proj2 (Z.eqb_neq _ 0)) by lia. rewrite command_size in S4 by lia.
  eapply (wp_download start last filler bs suffix); try done; [lia|lia|lia|]. intros d s5 Hd5 S5. cbn [when].
  eapply wp_status; [by rewrite Hreq|exact Hd5|exact S5|]. apply HQ.
Qed.
End request.

(** * The flash memory after the request *)

(** C22: programming by DFU.  A DFU_DNLOAD request that carries the program command, the 26
    filler bytes, an image of an even number of bytes and the suffix, to a bootloader
    that is not in secure mode, ends with all stages of the request done, however long
    the host takes for each packet; and the operations it made, run by a flash memory
    that behaves as the data sheet says, leave every word of the image at its place,
    and the memory before the image unchanged.  The image starts at a page. *)
Theorem dfu_image_flashed k {H} `{Hardware H} patience `{!DownloadHost H 32 patience} fuel BOOT_START_ADDR sig1 sig2 sig3 contents
    start filler bs suffix value index (s : usb H dfu_app) :
  let last := start + Z.of_nat (length bs) - 1 in
  1 <= k <= 8 -> (patience < fuel)%nat -> length filler = 26%nat -> length suffix = 16%nat -> bs <> [] -> Nat.even (length bs) = true ->
  0 <= start -> last < 65536 -> 48 + Z.of_nat (length bs) < 65536 -> start mod 32 = 0 -> start mod 2 ^ k = 0 ->
  USB_ControlRequest (lib s) = mk_request 0x21 DFU_REQ_DNLOAD value index (48 + Z.of_nat (length bs)) ->
  IsSecure (app s) = false -> WaitForExit (app s) = false -> length (Data (SentCommand (app s))) = 5%nat -> 0 <= Flash64KBPage (app s) < 256 ->
  dl_stage (hw s) = mk_stage (program_command start last ++ filler ++ bs ++ suffix) 0 -> dl_wait (hw s) = 0%nat ->
  exists s' ops,
    dfu_ControlRequest fuel (2 ^ k) BOOT_START_ADDR sig1 sig2 sig3 contents s = (Done tt, s') /\
    DFU_State (app s') = dfuDNLOAD_IDLE /\ mem (app s') = mem (app s) ++ map Spm ops ++ [RwwEnable] /\
    forall F (FM : FlashMemory F (2 ^ k)) (f : F), (forall y, 0 <= y < 2 ^ k -> buffer_word f y = 65535) ->
      let address := Flash64KBPage (app s) * 65536 + start in
      let f' := spm_run k ops f in
      (forall i w, words_of bs !! i = Some w -> flash_word f' (address + 2 * Z.of_nat i) = w) /\
      (forall x, 0 <= x < address -> Z.even x = true -> flash_word f' x = flash_word f x).
Proof.
  cbv zeta. intros Hk Hfuel Hf Hx Hne Hev Hs0 Hl Hlen H32 Hp Hreq Hsec Hw Hd H64 Hst Hwait.
  destruct (wp_run _ (fun _ s' => exists n, app s' = programmed k start (start + Z.of_nat (length bs) - 1) n (words_of bs) (app s)) (fun _ _ => False) s
    (wp_program_request k Hk (lib s) fuel Hfuel BOOT_START_ADDR sig1 sig2 sig3 contents start _ filler bs suffix Hf Hx Hne Hev Hs0 (conj eq_refl Hl)
      Hlen H32 Hp (app s) value index _ _ s Hreq Hsec Hw Hd H64 (conj (conj Hst (conj eq_refl eq_refl)) Hwait)
      (fun n s' E => ex_intro _ n E))) as (o & s' & Erun & [([] & -> & n & Ea)|(c & _ & [])]).
  destruct (start_address k Hk fuel Hfuel start (app s) H32 Hp) as [Ep Hea].
  exists s', (PageErase (flash_address (set_start start (app s))) :: block_ops k (flash_address (set_start start (app s))) (words_of bs)).
  split; [done|]. rewrite Ea. split; [done|]. split; [by cbn; rewrite <- !app_assoc|].
  intros F FM f Hfree. rewrite Z.add_comm. apply flashed_above; try done; [lia|unfold flash_address; cbn [set_start StartAddr Flash64KBPage]; lia|]. destruct bs as [|? [|? ?]]; done.
Qed.

Definition sim_image : list Z := [12; 148; 52; 0; 12; 148; 62; 0; 12; 148; 62; 0; 255; 207].

Definition sim_request (h : sim_dl 32) : usb (sim_dl 32) dfu_app :=
  mk_usb h (set_request (mk_request 0x21 DFU_REQ_DNLOAD 0 0 62) core_init) (dfu_init false 0) [].

(** Witness of C22: 14 bytes at 64, with pages of 8 bytes. *)
Lemma dfu_image_flashed_witness :
  let s := sim_request (mk_sim_dl 32 (mk_stage (program_command 64 77 ++ replicate 26 0 ++ sim_image ++ replicate 16 255) 0) 0) in
  exists s' ops,
    dfu_ControlRequest 9 (2 ^ 3) 28672 30 151 130 (fun _ _ => 255) s = (Done tt, s') /\
    DFU_State (app s') = dfuDNLOAD_IDLE /\ mem (app s') = [] ++ map Spm ops ++ [RwwEnable] /\
    forall F (FM : FlashMemory F (2 ^ 3)) (f : F), (forall y, 0 <= y < 2 ^ 3 -> buffer_word f y = 65535) ->
      let address := 0 * 65536 + 64 in
      let f' := spm_run 3 ops f in
      (forall i w, words_of sim_image !! i = Some w -> flash_word f' (address + 2 * Z.of_nat i) = w) /\
      (forall x, 0 <= x < address -> Z.even x = true -> flash_word f' x = flash_word f x).
Proof. apply (dfu_image_flashed 3 2 9 28672 30 151 130 (fun _ _ => 255) 64 (replicate 26 0) sim_image (replicate 16 255) 0 0); by (lia || cbn; lia || done). Defined.

(** Filler bytes.  DiscardFillerBytes does not count right at the end of a packet:
    when the endpoint has no bytes left, the iteration that fetches the next packet
    discards no byte, and one byte less than asked for is gone.  The data of an image
    that does not start at a multiple of 32 begins with such a fetch (after the 26
    bytes of [dfu_image_flashed]), so that a filler byte is programmed as its first. *)
Theorem dfu_filler_short {H} `{Hardware H} patience `{!DownloadHost H 32 patience} fuel n l (s : usb H dfu_app) :
  (patience < fuel)%nat -> 1 <= n <= 32 -> n <= Z.of_nat (length l) -> dl_stage (hw s) = mk_stage l 0 -> dl_wait (hw s) = 0%nat ->
  exists s', DiscardFillerBytes fuel n s = (Done tt, s') /\ app s' = app s /\
    st_left (dl_stage (hw s')) = drop (Z.to_nat (n - 1)) l.
Proof.
  intros Hfuel Hn Hl Hst Hw. enough (wp (DiscardFillerBytes fuel n) (fun _ s' => app s' = app s /\ st_left (dl_stage (hw s')) = drop (Z.to_nat (n - 1)) l)
    (fun _ _ => False) s) as (o & s' & Er & [([] & -> & HQ)|(c & _ & [])])%wp_run by (by exists s').
  unfold DiscardFillerBytes. rewrite u8_small by (red; lia). replace (Z.to_nat n) with (S (Z.to_nat (n - 1) + 0)) by lia.
  eapply (wp_discard_next (lib s)); [exact Hfuel| |exact (conj (conj Hst (conj eq_refl eq_refl)) Hw)|]; [intros ->; cbn in Hl; lia|].
  intros s1 S1. eapply (wp_discard_bank (lib s)); [exact Hfuel| |exact S1|]; [lia|]. intros s2 S2. apply wp_ret. destruct S2 as [[-> [-> _]] _]. done.
Qed.

(** An instance: the filler of an image at 68. *)
Lemma dfu_filler_short_witness :
  exists s', DiscardFillerBytes 9 (68 mod 32) (sim_request (mk_sim_dl 32 (mk_stage ([0; 0; 0; 0] ++ sim_image) 0) 0)) = (Done tt, s') /\
    app s' = dfu_init false 0 /\ st_left (dl_stage (hw s')) = 0 :: sim_image.
Proof. apply (dfu_filler_short 2 9 (68 mod 32) ([0; 0; 0; 0] ++ sim_image)); by (cbn; lia || done). Defined.
