(* ===== verification/CdcLoader.v ===== *)
(** The CDC bootloader, Bootloaders/CDC/BootloaderCDC.c: the AVR109 protocol on a
    virtual serial port.

    [cl_app] holds the globals and the memory operations made so far; what a read
    returns is a function [contents] of these.  An endpoint is configured in the way of
    ORDERED_EP_CONFIG.  USB_Init and USB_USBTask of the library and the signature of
    the microcontroller are parameters, and so are the page size and the start of the
    boot section.  The watchdog, the clock prescaler and the waits for the end of a
    self-programming operation, calls of avr-libc, are not modelled; the wait for the
    watchdog's reset, and the jump to the application, end the program. *)

From Stdlib Require Import ZArith Lia.
From stdpp Require Import base tactics list numbers.
From S2P Require Import Prelude Posix Avr Endpoint EndpointStream Device Cdc Board Flash.

Local Open Scope Z_scope.

(** * Data *)

Definition MEMORY_TYPE_FLASH : Z := 70.
Definition MEMORY_TYPE_EEPROM : Z := 69.

(** enum AVR109_Commands *)
Definition AVR109_COMMAND_Sync : Z := 27.
Definition AVR109_COMMAND_ReadEEPROM : Z := 100.
Definition AVR109_COMMAND_WriteEEPROM : Z := 68.
Definition AVR109_COMMAND_ReadFLASHWord : Z := 82.
Definition AVR109_COMMAND_WriteFlashPage : Z := 109.
Definition AVR109_COMMAND_FillFlashPageWordLow : Z := 99.
Definition AVR109_COMMAND_FillFlashPageWordHigh : Z := 67.
Definition AVR109_COMMAND_GetBlockWriteSupport : Z := 98.
Definition AVR109_COMMAND_BlockWrite : Z := 66.
Definition AVR109_COMMAND_BlockRead : Z := 103.
Definition AVR109_COMMAND_ReadExtendedFuses : Z := 81.
Definition AVR109_COMMAND_ReadHighFuses : Z := 78.
Definition AVR109_COMMAND_ReadLowFuses : Z := 70.
Definition AVR109_COMMAND_ReadLockbits : Z := 114.
Definition AVR109_COMMAND_WriteLockbits : Z := 108.
Definition AVR109_COMMAND_EraseFLASH : Z := 101.
Definition AVR109_COMMAND_ReadSignature : Z := 115.
Definition AVR109_COMMAND_ReadBootloaderSWVersion : Z := 86.
Definition AVR109_COMMAND_ReadBootloaderIdentifier : Z := 83.
Definition AVR109_COMMAND_ReadBootloaderInterface : Z := 112.
Definition AVR109_COMMAND_SetCurrentAddress : Z := 65.
Definition AVR109_COMMAND_ReadAutoAddressIncrement : Z := 97.
Definition AVR109_COMMAND_ReadPartCode : Z := 116.
Definition AVR109_COMMAND_EnterProgrammingMode : Z := 80.
Definition AVR109_COMMAND_LeaveProgrammingMode : Z := 76.
Definition AVR109_COMMAND_SelectDeviceType : Z := 84.
Definition AVR109_COMMAND_SetLED : Z := 120.
Definition AVR109_COMMAND_ClearLED : Z := 121.
Definition AVR109_COMMAND_ExitBootloader : Z := 69.

(** "LUFACDC" *)
Definition SOFTWARE_IDENTIFIER : list Z := [76; 85; 70; 65; 67; 68; 67].
Definition BOOTLOADER_VERSION_MAJOR : Z := 1.
Definition BOOTLOADER_VERSION_MINOR : Z := 0.

Definition BOOT_NOTIFICATION_EPADDR : Z := Z.lor ENDPOINT_DIR_IN 2.
Definition BOOT_TX_EPADDR : Z := Z.lor ENDPOINT_DIR_IN 3.
Definition BOOT_RX_EPADDR : Z := Z.lor ENDPOINT_DIR_OUT 4.
Definition BOOT_TXRX_EPSIZE : Z := 16.
Definition BOOT_NOTIFICATION_EPSIZE : Z := 8.

(** What boot_lock_fuse_bits_get is asked for, from avr-libc's boot.h. *)
Definition GET_LOW_FUSE_BITS : Z := 0.
Definition GET_LOCK_BITS : Z := 1.
Definition GET_EXTENDED_FUSE_BITS : Z := 2.
Definition GET_HIGH_FUSE_BITS : Z := 3.

(** The globals; LineEncoding as the bytes of a CDC_LineEncoding_t. *)
Record cl_app : Type := mk_cl {
  LineEncoding : cells;
  CurrAddress : Z;
  RunBootloader : bool;
  MagicBootKey : Z;
  cl_mem : list mem_op }.

Definition cl_init (key : Z) : cl_app := mk_cl (map Some [0; 0; 0; 0; 0; 0; 8]) 0 true key [].

Definition set_encoding (l : cells) (a : cl_app) : cl_app := mk_cl l (CurrAddress a) (RunBootloader a) (MagicBootKey a) (cl_mem a).
Definition set_address (v : Z) (a : cl_app) : cl_app := mk_cl (LineEncoding a) v (RunBootloader a) (MagicBootKey a) (cl_mem a).
Definition stop_cdc (a : cl_app) : cl_app := mk_cl (LineEncoding a) (CurrAddress a) false (MagicBootKey a) (cl_mem a).
Definition set_cl_key (v : Z) (a : cl_app) : cl_app := mk_cl (LineEncoding a) (CurrAddress a) (RunBootloader a) v (cl_mem a).
Definition add_cl_mem (op : mem_op) (a : cl_app) : cl_app :=
  mk_cl (LineEncoding a) (CurrAddress a) (RunBootloader a) (MagicBootKey a) (cl_mem a ++ [op]).

(** CurrAddress += 2 *)
Definition next_address (a : cl_app) : cl_app := set_address (u32 (CurrAddress a + 2)) a.

(** (uint8_t* )(intptr_t)(CurrAddress >> 1): pointers have 16 bits. *)
Definition eeprom_address (a : cl_app) : Z := u16 (Z.shiftr (CurrAddress a) 1).

Section cdc_loader.
Context {H : Type} `{Hardware H} `{!Interrupts H cl_app}.
Context (fuel : nat) (SPM_PAGESIZE BOOT_START_ADDR : Z).
Context (AVR_SIGNATURE_1 AVR_SIGNATURE_2 AVR_SIGNATURE_3 : Z).
(** What a read returns after some operations. *)
Context (contents : list mem_op -> mem_op -> Z).

Abbreviation run := (prog (usb H cl_app)).

Context (USB_Init USB_USBTask : run unit).

(** ** Access *)

Definition cl {B} (f : cl_app -> B) : run B := get_mem (fun s => f (app s)).
Definition on_cl (f : cl_app -> cl_app) : run unit := set_mem (on_app f).
Definition do_cl (op : mem_op) : run unit := on_cl (add_cl_mem op).
Definition ask_cl (op : mem_op) : run Z :=
  v ← cl (fun a => contents (cl_mem a) op); do_cl op ;; mret v.

(** ** Bytes from and to the host *)

(** While the OUT endpoint is empty, clear it and wait for a packet; [false] when
    detached. *)
Fixpoint await_command_byte (k : nat) : run bool :=
  a ← Endpoint_IsReadWriteAllowed;
  if (a : bool) then mret true
  else
    match k with
    | O => lift (Fault OutOfFuel)
    | S k' =>
        Endpoint_ClearOUT ;;
        ok ← wait_until fuel Endpoint_IsOUTReceived is_unattached;
        if negb ok then mret false else await_command_byte k'
    end.

Definition FetchNextCommandByte : run Z :=
  Endpoint_SelectEndpoint BOOT_RX_EPADDR ;;
  ok ← await_command_byte fuel;
  if (ok : bool) then Endpoint_Read_8 else mret 0.

Definition WriteNextResponseByte (Response : Z) : run unit :=
  Endpoint_SelectEndpoint BOOT_TX_EPADDR ;;
  a ← Endpoint_IsReadWriteAllowed;
  ok ← (if (a : bool) then mret true
        else Endpoint_ClearIN ;; wait_until fuel Endpoint_IsINReady is_unattached);
  when ok (Endpoint_Write_8 Response).

Fixpoint write_response (bs : list Z) : run unit :=
  match bs with
  | [] => mret tt
  | b :: rest => WriteNextResponseByte b ;; write_response rest
  end.

(** ** Blocks *)

(** while (BlockSize--) of a read. *)
Fixpoint read_block (BlockSize : nat) (MemoryType : Z) (HighByte : bool) : run unit :=
  match BlockSize with
  | O => mret tt
  | S n =>
      if MemoryType =? MEMORY_TYPE_FLASH then
        a ← cl CurrAddress;
        b ← ask_cl (FlashReadByte (Z.lor a (if HighByte then 1 else 0)));
        WriteNextResponseByte b ;;
        when HighByte (on_cl next_address) ;;
        read_block n MemoryType (negb HighByte)
      else
        a ← cl eeprom_address;
        b ← ask_cl (EepromRead a);
        WriteNextResponseByte b ;;
        on_cl next_address ;;
        read_block n MemoryType HighByte
  end.

(** while (BlockSize--) of a write. *)
Fixpoint write_block (BlockSize : nat) (MemoryType : Z) (HighByte : bool) (LowByte : Z) : run unit :=
  match BlockSize with
  | O => mret tt
  | S n =>
      if MemoryType =? MEMORY_TYPE_FLASH then
        if HighByte then
          a ← cl CurrAddress;
          b ← FetchNextCommandByte;
          do_cl (Spm (PageFill a (Z.lor (u16 (Z.shiftl b 8)) LowByte))) ;;
          on_cl next_address ;;
          write_block n MemoryType false LowByte
        else
          b ← FetchNextCommandByte;
          write_block n MemoryType true b
      else
        a ← cl eeprom_address;
        b ← FetchNextCommandByte;
        do_cl (EepromWrite a b) ;;
        on_cl next_address ;;
        write_block n MemoryType HighByte LowByte
  end.

Definition ReadWriteMemoryBlock (Command : Z) : run unit :=
  b1 ← FetchNextCommandByte;
  b0 ← FetchNextCommandByte;
  let BlockSize := Z.to_nat (Z.lor (u16 (Z.shiftl b1 8)) b0) in
  MemoryType ← FetchNextCommandByte;
  if negb (MemoryType =? MEMORY_TYPE_FLASH) && negb (MemoryType =? MEMORY_TYPE_EEPROM) then WriteNextResponseByte 63
  else if Command =? AVR109_COMMAND_BlockRead then
    do_cl RwwEnable ;;
    read_block BlockSize MemoryType false
  else
    PageStartAddress ← cl CurrAddress;
    when (MemoryType =? MEMORY_TYPE_FLASH) (do_cl (Spm (PageErase PageStartAddress))) ;;
    write_block BlockSize MemoryType false 0 ;;
    when (MemoryType =? MEMORY_TYPE_FLASH) (do_cl (Spm (PageWrite PageStartAddress))) ;;
    WriteNextResponseByte 13.

(** Clear the application section of flash. *)
Fixpoint erase_flash_pages (k : nat) (CurrFlashAddress : Z) : run unit :=
  if CurrFlashAddress <? BOOT_START_ADDR then
    match k with
    | O => lift (Fault OutOfFuel)
    | S k' =>
        do_cl (Spm (PageErase CurrFlashAddress)) ;;
        do_cl (Spm (PageWrite CurrFlashAddress)) ;;
        erase_flash_pages k' (u32 (CurrFlashAddress + SPM_PAGESIZE))
    end
  else mret tt.

(** ** Commands *)

(** The address is computed with int, which has 16 bits and wraps with this compiler,
    and then widened with its sign. *)
Definition SetCurrentAddress : run unit :=
  b1 ← FetchNextCommandByte;
  on_cl (set_address (u32 (s16 (Z.shiftl b1 9)))) ;;
  b0 ← FetchNextCommandByte;
  on_cl (fun a => set_address (Z.lor (CurrAddress a) (Z.shiftl b0 1)) a) ;;
  WriteNextResponseByte 13.

Definition read_fuse (which : Z) : run unit :=
  v ← ask_cl (LockFuseGet which); WriteNextResponseByte v.

(** The chain of tests of CDC_Task. *)
Definition execute_command (Command : Z) : run unit :=
  if Command =? AVR109_COMMAND_ExitBootloader then on_cl stop_cdc ;; WriteNextResponseByte 13
  else if (Command =? AVR109_COMMAND_SetLED) || (Command =? AVR109_COMMAND_ClearLED) || (Command =? AVR109_COMMAND_SelectDeviceType)
  then FetchNextCommandByte ;; WriteNextResponseByte 13
  else if (Command =? AVR109_COMMAND_EnterProgrammingMode) || (Command =? AVR109_COMMAND_LeaveProgrammingMode) then WriteNextResponseByte 13
  else if Command =? AVR109_COMMAND_ReadPartCode then write_response [0x44; 0]
  else if Command =? AVR109_COMMAND_ReadAutoAddressIncrement then WriteNextResponseByte 89
  else if Command =? AVR109_COMMAND_SetCurrentAddress then SetCurrentAddress
  else if Command =? AVR109_COMMAND_ReadBootloaderInterface then WriteNextResponseByte 83
  else if Command =? AVR109_COMMAND_ReadBootloaderIdentifier then write_response SOFTWARE_IDENTIFIER
  else if Command =? AVR109_COMMAND_ReadBootloaderSWVersion
  then write_response [48 + BOOTLOADER_VERSION_MAJOR; 48 + BOOTLOADER_VERSION_MINOR]
  else if Command =? AVR109_COMMAND_ReadSignature then write_response [AVR_SIGNATURE_3; AVR_SIGNATURE_2; AVR_SIGNATURE_1]
  else if Command =? AVR109_COMMAND_EraseFLASH then erase_flash_pages (Z.to_nat BOOT_START_ADDR) 0 ;; WriteNextResponseByte 13
  else if Command =? AVR109_COMMAND_WriteLockbits then
    b ← FetchNextCommandByte; do_cl (LockBitsSet b) ;; WriteNextResponseByte 13
  else if Command =? AVR109_COMMAND_ReadLockbits then read_fuse GET_LOCK_BITS
  else if Command =? AVR109_COMMAND_ReadLowFuses then read_fuse GET_LOW_FUSE_BITS
  else if Command =? AVR109_COMMAND_ReadHighFuses then read_fuse GET_HIGH_FUSE_BITS
  else if Command =? AVR109_COMMAND_ReadExtendedFuses then read_fuse GET_EXTENDED_FUSE_BITS
  else if Command =? AVR109_COMMAND_GetBlockWriteSupport then write_response [89; u8 (Z.shiftr SPM_PAGESIZE 8); Z.land SPM_PAGESIZE 255]
  else if (Command =? AVR109_COMMAND_BlockWrite) || (Command =? AVR109_COMMAND_BlockRead) then ReadWriteMemoryBlock Command
  else if Command =? AVR109_COMMAND_FillFlashPageWordHigh then
    a ← cl CurrAddress; b ← FetchNextCommandByte; do_cl (Spm (PageFill a b)) ;; WriteNextResponseByte 13
  else if Command =? AVR109_COMMAND_FillFlashPageWordLow then
    a ← cl CurrAddress; b ← FetchNextCommandByte; do_cl (Spm (PageFill (Z.lor a 1) b)) ;;
    on_cl next_address ;; WriteNextResponseByte 13
  else if Command =? AVR109_COMMAND_WriteFlashPage then
    a ← cl CurrAddress; do_cl (Spm (PageWrite a)) ;; WriteNextResponseByte 13
  else if Command =? AVR109_COMMAND_ReadFLASHWord then
    a ← cl CurrAddress; w ← ask_cl (FlashReadWord a);
    WriteNextResponseByte (Z.shiftr w 8) ;; WriteNextResponseByte (Z.land w 255)
  else if Command =? AVR109_COMMAND_WriteEEPROM then
    a ← cl eeprom_address; b ← FetchNextCommandByte; do_cl (EepromWrite a b) ;;
    on_cl next_address ;; WriteNextResponseByte 13
  else if Command =? AVR109_COMMAND_ReadEEPROM then
    a ← cl eeprom_address; b ← ask_cl (EepromRead a); WriteNextResponseByte b ;; on_cl next_address
  else when (negb (Command =? AVR109_COMMAND_Sync)) (WriteNextResponseByte 63).

(** Send the response, with an empty packet after a full one; acknowledge the command. *)
Definition finish_command : run unit :=
  Endpoint_SelectEndpoint BOOT_TX_EPADDR ;;
  allowed ← Endpoint_IsReadWriteAllowed;
  Endpoint_ClearIN ;;
  ok ← (if negb allowed then
          ok ← wait_until fuel Endpoint_IsINReady is_unattached; when ok Endpoint_ClearIN ;; mret ok
        else mret true);
  when ok (
    ok' ← wait_until fuel Endpoint_IsINReady is_unattached;
    when ok' (
      Endpoint_SelectEndpoint BOOT_RX_EPADDR ;;
      Endpoint_ClearOUT)).

Definition CDC_Task : run unit :=
  Endpoint_SelectEndpoint BOOT_RX_EPADDR ;;
  received ← Endpoint_IsOUTReceived;
  when received (
    Command ← FetchNextCommandByte;
    execute_command Command ;;
    finish_command).

(** ** Events and main *)

Definition cdc_ConfigurationChanged : run unit :=
  ordered_ConfigureEndpoint fuel BOOT_NOTIFICATION_EPADDR EP_TYPE_INTERRUPT BOOT_NOTIFICATION_EPSIZE 1 ;;
  ordered_ConfigureEndpoint fuel BOOT_TX_EPADDR EP_TYPE_BULK BOOT_TXRX_EPSIZE 1 ;;
  ordered_ConfigureEndpoint fuel BOOT_RX_EPADDR EP_TYPE_BULK BOOT_TXRX_EPSIZE 1 ;;
  mret tt.

Definition cdc_ControlRequest : run unit :=
  req ← get_request;
  if negb (Z.land (bmRequestType req) 0x7F =? 0x21) then mret tt
  else
    LEDs_ToggleLEDs (Z.lor LEDS_LED1 LEDS_LED2) ;;
    if bRequest req =? CDC_REQ_GetLineEncoding then
      when (bmRequestType req =? 0xA1) (
        Endpoint_ClearSETUP ;;
        l ← cl LineEncoding;
        Endpoint_Write_Control_Stream_LE fuel l 7 ;;
        Endpoint_ClearOUT)
    else if bRequest req =? CDC_REQ_SetLineEncoding then
      when (bmRequestType req =? 0x21) (
        Endpoint_ClearSETUP ;;
        l ← cl LineEncoding;
        r ← Endpoint_Read_Control_Stream_LE fuel l 7;
        on_cl (set_encoding r.2) ;;
        Endpoint_ClearIN)
    else when ((bRequest req =? CDC_REQ_SetControlLineState) && (bmRequestType req =? 0x21)) (
      Endpoint_ClearSETUP ;;
      Endpoint_ClearStatusStage fuel).

(** ISR(TIMER1_OVF_vect) *)
Definition cdc_TIMER1_OVF : run unit := LEDs_ToggleLEDs (Z.lor LEDS_LED1 LEDS_LED2).

(** For the boards other than the Xplain. *)
Definition cdc_Jump_Check : run unit :=
  v ← read_reg MCUSR;
  key ← cl MagicBootKey;
  when (Z.testbit v WDRF && (key =? MAGIC_BOOT_KEY)) (
    clear_bits MCUSR (2 ^ WDRF) ;;
    on_cl (set_cl_key 0) ;;
    exits application_exit).

Definition cdc_SetupHardware : run unit :=
  clear_bits MCUSR (2 ^ WDRF) ;;
  write_reg MCUCR 1 ;;
  write_reg MCUCR 2 ;;
  USB_Init ;;
  LEDs_Init ;;
  write_reg TIMSK1 1 ;;
  write_reg TCCR1B 3.

(** while (RunBootloader) *)
Fixpoint cdc_loop (k : nat) : run unit :=
  match k with
  | O => lift (Fault OutOfFuel)
  | S k' =>
      go ← cl RunBootloader;
      if (go : bool) then CDC_Task ;; USB_USBTask ;; cdc_loop k' else mret tt
  end.

Definition cdc_main : run unit :=
  cdc_SetupHardware ;;
  LEDs_SetAllLEDs LEDS_LED1 ;;
  set_bits SREG 128 ;;
  cdc_loop fuel ;;
  USB_Detach ;;
  on_cl (set_cl_key MAGIC_BOOT_KEY) ;;
  exits watchdog_exit.
End cdc_loader.
