(* ===== verification/CdcSession.v ===== *)
(** A programming session with the CDC bootloader.

    [PortHost] describes a host at the other end of the two data endpoints: it sends
    packets, takes the packets of the device, and may take its time for both.
    [session] is what the bootloader sees of it between two bytes: the rest of the
    command, the packets of the later commands and the response so far.  The theorem
    is about the whole main loop: an image that is written with the AVR109 protocol is
    in the flash memory and is read back unchanged. *)

From Stdlib Require Import ZArith Lia.
From stdpp Require Import base tactics list numbers.
From S2P Require Import Prelude Posix Avr Endpoint Device BulkHost Board Flash CdcLoader.

Local Open Scope Z_scope.

(** * The host *)

(** The selected endpoint, the bytes left in the OUT bank, the packets to come, the
    bytes in the IN bank and the packets the host took. *)
Record port : Type := mk_port {
  p_sel : Z;
  p_rx : list Z;
  p_next : list (list Z);
  p_tx : list Z;
  p_sent : list (list Z) }.

Definition port_select (e : Z) (p : port) : port := mk_port e (p_rx p) (p_next p) (p_tx p) (p_sent p).
Definition port_drop (l : list Z) (p : port) : port := mk_port (p_sel p) l (p_next p) (p_tx p) (p_sent p).
Definition port_fetch (p : port) : port := mk_port (p_sel p) (default [] (head (p_next p))) (tail (p_next p)) (p_tx p) (p_sent p).
Definition port_put (v : Z) (p : port) : port := mk_port (p_sel p) (p_rx p) (p_next p) (p_tx p ++ [v]) (p_sent p).
Definition port_send (p : port) : port := mk_port (p_sel p) (p_rx p) (p_next p) [] (p_sent p ++ [p_tx p]).

(** [port_wait] is how many more looks at UEINTX a bank is busy. *)
Class PortHost (H : Type) `{Hardware H} (patience : nat) : Type := {
  port_of : H -> port;
  port_wait : H -> nat;
  port_patience : forall h, (port_wait h <= patience)%nat;
  port_attached : forall h, (rd USB_DeviceState h).1 <> DEVICE_STATE_Unattached;
  port_read : forall r h, r <> UEDATX -> port_of (rd r h).2 = port_of h;
  port_same_wait : forall r h, r <> UEINTX -> port_wait (rd r h).2 = port_wait h;
  port_look : forall h, port_wait (rd UEINTX h).2 = pred (port_wait h);
  port_selected : forall e h, port_of (wr UENUM e h) = port_select e (port_of h) /\ port_wait (wr UENUM e h) = port_wait h;
  port_received : forall h, p_sel (port_of h) = 4 -> p_rx (port_of h) <> [] -> Z.testbit (rd UEINTX h).1 RXOUTI = (port_wait h =? 0)%nat;
  port_readable : forall h, p_sel (port_of h) = 4 -> port_wait h = 0%nat ->
    Z.testbit (rd UEINTX h).1 RWAL = negb (bool_decide (p_rx (port_of h) = []));
  port_get : forall h x rest, p_sel (port_of h) = 4 -> port_wait h = 0%nat -> p_rx (port_of h) = x :: rest ->
    (rd UEDATX h).1 = x /\ port_of (rd UEDATX h).2 = port_drop rest (port_of h);
  port_release : forall h v, p_sel (port_of h) = 4 -> Z.testbit v RXOUTI = false -> Z.testbit v FIFOCON = false ->
    port_of (wr UEINTX v h) = port_fetch (port_of h);
  port_ready : forall h, p_sel (port_of h) = 3 -> Z.testbit (rd UEINTX h).1 TXINI = (port_wait h =? 0)%nat;
  port_writable : forall h, p_sel (port_of h) = 3 -> port_wait h = 0%nat ->
    Z.testbit (rd UEINTX h).1 RWAL = (length (p_tx (port_of h)) <? 16)%nat;
  port_write : forall h v, p_sel (port_of h) = 3 -> port_wait h = 0%nat -> (length (p_tx (port_of h)) < 16)%nat -> is_byte v ->
    port_of (wr UEDATX v h) = port_put v (port_of h) /\ port_wait (wr UEDATX v h) = 0%nat;
  port_flush : forall h v, p_sel (port_of h) = 3 -> Z.testbit v TXINI = false -> Z.testbit v FIFOCON = false ->
    port_of (wr UEINTX v h) = port_send (port_of h) }.

Section port.
Context {H : Type} `{HW : Hardware H} {patience : nat} `{PH : !PortHost H patience}.
Context (fuel : nat) (Hfuel : (patience < fuel)%nat).
Implicit Types s : usb H cl_app.

(** The port is [p], and no bank is busy. *)
Definition at_port (p : port) (a : cl_app) s : Prop := port_of (hw s) = p /\ app s = a.
Definition calm (p : port) (a : cl_app) s : Prop := at_port p a s /\ port_wait (hw s) = 0%nat.

Lemma wp_plook r p a (Q : Z -> usb H cl_app -> Prop) E s :
  r <> UEDATX -> calm p a s -> (forall s', calm p a s' -> Q (rd r (hw s)).1 s') -> wp (read_reg r) Q E s.
Proof.
  intros Hr [[Hd Ha] Hw] HQ. apply wp_read_reg, HQ. split; [split; [|done]|]; cbn; [by rewrite port_read|].
  destruct (decide (r = UEINTX)) as [->|]; [by rewrite port_look, Hw|by rewrite port_same_wait].
Qed.

Lemma wp_pbit r n p a (Q : bool -> usb H cl_app -> Prop) E s :
  r <> UEDATX -> calm p a s -> (forall s', calm p a s' -> Q (Z.testbit (rd r (hw s)).1 n) s') -> wp (bit_of r n) Q E s.
Proof. intros Hr Hs HQ. unfold bit_of. eapply wp_bind, wp_plook; [done..|]. intros s' Hs'. by apply wp_ret, HQ. Qed.

Lemma wp_pselect e n p a (Q : unit -> usb H cl_app -> Prop) E s :
  Z.land n ENDPOINT_EPNUM_MASK = e -> calm p a s -> (forall s', calm (port_select e p) a s' -> Q tt s') -> wp (Endpoint_SelectEndpoint n) Q E s.
Proof.
  intros He [[Hp Ha] Hw] HQ. unfold Endpoint_SelectEndpoint. rewrite He. apply wp_write_reg, HQ. destruct (port_selected e (hw s)) as [E1 E2].
  split; [split; [|done]|]; cbn; [by rewrite E1, Hp|by rewrite E2].
Qed.

Lemma wp_pwait bit p a (Q : bool -> usb H cl_app -> Prop) E : forall k s,
  (forall h, port_of h = p -> Z.testbit (rd UEINTX h).1 bit = (port_wait h =? 0)%nat) -> (port_wait (hw s) < k)%nat -> at_port p a s ->
  (forall s', calm p a s' -> Q true s') -> wp (wait_until k (bit_of UEINTX bit) is_unattached) Q E s.
Proof.
  induction k as [|k IH]; intros s Hbit Hk [Hd Ha] HQ; [lia|]. cbn [wait_until]. unfold bit_of at 1. apply wp_bind, wp_bind, wp_read_reg, wp_ret.
  rewrite Hbit by done. destruct (port_wait (hw s)) as [|n] eqn:Ew; cbn [Nat.eqb].
  - apply wp_ret, HQ. split; [split; [|done]|]; cbn; [by rewrite port_read|by rewrite port_look, Ew].
  - unfold is_unattached at 1. apply wp_bind, wp_bind, wp_read_reg, wp_ret. rewrite (proj2 (Z.eqb_neq _ _)) by apply port_attached.
    apply IH; [done| | |done]; cbn.
    + rewrite port_same_wait, port_look by done. lia.
    + split; [|done]. cbn. by rewrite !port_read.
Qed.

Lemma wp_prelease p a (Q : unit -> usb H cl_app -> Prop) E s :
  p_sel p = 4 -> calm p a s -> (forall s', at_port (port_fetch p) a s' -> Q tt s') -> wp Endpoint_ClearOUT Q E s.
Proof.
  intros Hsel Hs HQ. unfold Endpoint_ClearOUT, clear_bits. eapply wp_bind, wp_plook; [done..|]. intros s1 [[P1 A1] W1].
  apply wp_write_reg, HQ. split; [|done]. cbn. rewrite port_release; [by rewrite P1|by rewrite P1|by apply cleared_bits..].
Qed.

Lemma wp_psend p a (Q : unit -> usb H cl_app -> Prop) E s :
  p_sel p = 3 -> calm p a s -> (forall s', at_port (port_send p) a s' -> Q tt s') -> wp Endpoint_ClearIN Q E s.
Proof.
  intros Hsel Hs HQ. unfold Endpoint_ClearIN, clear_bits. eapply wp_bind, wp_plook; [done..|]. intros s1 [[P1 A1] W1].
  apply wp_write_reg, HQ. split; [|done]. cbn. rewrite port_flush; [by rewrite P1|by rewrite P1|by apply cleared_bits..].
Qed.

Lemma wp_await_in p a (Q : bool -> usb H cl_app -> Prop) E s :
  p_sel p = 3 -> at_port p a s -> (forall s', calm p a s' -> Q true s') -> wp (wait_until fuel Endpoint_IsINReady is_unattached) Q E s.
Proof.
  intros Hsel Hs HQ. eapply wp_pwait; [|pose proof (port_patience (hw s)); lia|exact Hs|done]. intros h <-. by apply port_ready.
Qed.

(** * Sessions *)

(** [bs] is left of the command that is executed, [rest] are the packets after it,
    and [o] is what the host has been sent, with what is in the bank. *)
Definition session (bs : list Z) (rest : list (list Z)) (o : list Z) (p : port) : Prop :=
  (exists ps, p_next p = ps ++ rest /\ p_rx p ++ concat ps = bs /\ Forall (fun l => l <> []) ps) /\
  concat (p_sent p) ++ p_tx p = o /\ (length (p_tx p) <= 16)%nat.

Definition serving bs rest o a s : Prop := exists p, session bs rest o p /\ calm p a s.

Lemma wp_on_cl f bs rest o a (Q : unit -> usb H cl_app -> Prop) E s :
  serving bs rest o a s -> (forall s', serving bs rest o (f a) s' -> Q tt s') -> wp (on_cl f) Q E s.
Proof. intros (p & Hp & [Hd Ha] & Hw) HQ. apply HQ. exists p. split; [done|]. split; [split; [done|]|done]. cbn. by rewrite Ha. Qed.

Lemma wp_cl {B} (f : cl_app -> B) bs rest o a (Q : B -> usb H cl_app -> Prop) E s : serving bs rest o a s -> Q (f a) s -> wp (cl f) Q E s.
Proof. intros (p & _ & [_ <-] & _) HQ. exact HQ. Qed.

(** The bank has a byte of the command. *)
Definition byte_ready (b : Z) bs rest o (p : port) : Prop :=
  p_sel p = 4 /\ exists l, p_rx p = b :: l /\ session bs rest o (port_drop l p).

Lemma wp_test_byte b bs rest o p a (Q : bool -> usb H cl_app -> Prop) E k s :
  byte_ready b bs rest o p -> calm p a s -> (forall s', calm p a s' -> Q true s') -> wp (await_command_byte fuel k) Q E s.
Proof.
  intros [Hsel (l & El & _)] Hs HQ. destruct k; cbn [await_command_byte]; unfold Endpoint_IsReadWriteAllowed at 1.
  all: eapply wp_bind, wp_pbit; [done|exact Hs|]; intros s1 S1; rewrite port_readable by (first [destruct Hs as [[-> _] _]; done|apply Hs]).
  all: destruct Hs as [[-> _] _]; rewrite El, bool_decide_eq_false_2 by done; cbn [negb]; by apply wp_ret, HQ.
Qed.

Lemma wp_await_byte b bs rest o p a (Q : bool -> usb H cl_app -> Prop) E k s :
  (0 < k)%nat -> p_sel p = 4 -> session (b :: bs) rest o p -> calm p a s ->
  (forall p' s', byte_ready b bs rest o p' -> calm p' a s' -> Q true s') -> wp (await_command_byte fuel k) Q E s.
Proof.
  intros Hk Hsel ((ps & Hn & Hb & Hps) & Ho) Hs HQ. destruct (p_rx p) as [|x l] eqn:Ex; cbn in Hb.
  - destruct ps as [|[|x l] ps]; [done|by apply Forall_cons_iff in Hps as [? _]|]. apply Forall_cons_iff in Hps as [_ Hps].
    cbn in Hb. injection Hb as -> Hb. assert (byte_ready b bs rest o (port_fetch p)) as Hready.
    { split; [done|]. exists l. split; [cbn; by rewrite Hn|]. split; [exists ps; cbn; by rewrite Hn|exact Ho]. }
    destruct k as [|k]; [lia|]. cbn [await_command_byte]. unfold Endpoint_IsReadWriteAllowed at 1. eapply wp_bind, wp_pbit; [done|exact Hs|]. intros s1 S1.
    rewrite port_readable by (first [destruct Hs as [[-> _] _]; done|apply Hs]). destruct Hs as [[-> _] _].
    rewrite Ex, bool_decide_eq_true_2 by done. cbn [negb]. eapply wp_bind, wp_prelease; [|exact S1|]; [done|]. intros s2 S2. apply wp_bind.
    eapply wp_pwait; [|pose proof (port_patience (hw s2)); lia|exact S2|].
    { intros h Eh. apply port_received; rewrite Eh; [done|]. destruct Hready as [_ (l' & -> & _)]. done. }
    intros s3 S3. cbn [negb]. eapply wp_test_byte; [exact Hready|exact S3|]. intros s4 S4. by eapply HQ.
  - injection Hb as -> Hb. assert (byte_ready b bs rest o p) as Hready by (split; [done|]; exists l; split; [done|]; split; [by exists ps|done]).
    eapply wp_test_byte; [exact Hready|exact Hs|]. intros s1 S1. by eapply HQ.
Qed.

(** A byte of the command. *)
Lemma wp_fetch b bs rest o a (Q : Z -> usb H cl_app -> Prop) E s :
  serving (b :: bs) rest o a s -> (forall s', serving bs rest o a s' -> Q b s') -> wp (FetchNextCommandByte fuel) Q E s.
Proof.
  intros (p & Hp & Hs) HQ. unfold FetchNextCommandByte. eapply wp_bind, wp_pselect; [done|exact Hs|]. intros s1 S1.
  eapply wp_bind, wp_await_byte; [lia| | |exact S1|]; [done|exact Hp|]. intros p' s2 [Hsel (l & El & Hl)] [[P2 A2] W2].
  apply wp_read_reg. destruct (port_get (hw s2) b l) as [-> G]; [by rewrite P2|done|by rewrite P2|].
  apply HQ. exists (port_drop l p'). split; [done|]. split; [split; [|done]|]; cbn; [by rewrite G, P2|by rewrite port_same_wait].
Qed.

(** A byte of the response. *)
Lemma wp_respond b bs rest o a (Q : unit -> usb H cl_app -> Prop) E s :
  is_byte b -> serving bs rest o a s -> (forall s', serving bs rest (o ++ [b]) a s' -> Q tt s') -> wp (WriteNextResponseByte fuel b) Q E s.
Proof.
  intros Hb (p & (Hi & Ho & Ht) & Hs) HQ. unfold WriteNextResponseByte. eapply wp_bind, wp_pselect; [done|exact Hs|]. intros s1 S1.
  assert (forall p1 s2, calm p1 a s2 -> p_sel p1 = 3 -> (length (p_tx p1) < 16)%nat -> session bs rest o p1 -> wp (Endpoint_Write_8 b) Q E s2) as Hput.
  { intros p1 s2 [[P2 A2] W2] Hsel Hl (Hi1 & Ho1 & _). unfold Endpoint_Write_8. rewrite u8_small by done. apply wp_write_reg.
    destruct (port_write (hw s2) b) as [G1 G2]; [by rewrite P2|done|by rewrite P2|done|]. apply HQ. exists (port_put b p1).
    split; [|split; [split; [|done]|]; cbn; [by rewrite G1, P2|done]]. split; [done|]. cbn. rewrite app_assoc, Ho1, length_app. cbn. split; [done|lia]. }
  unfold Endpoint_IsReadWriteAllowed. eapply wp_bind, wp_pbit; [done|exact S1|]. intros s2 S2.
  rewrite port_writable by (first [destruct S1 as [[-> _] _]; done|apply S1]). destruct S1 as [[-> _] _]. cbn [port_select p_tx].
  destruct (Nat.ltb_spec (length (p_tx p)) 16) as [Hl|Hl].
  - apply wp_bind, wp_ret. cbn [when]. eapply Hput; [exact S2|done|done|done].
  - eapply wp_bind, wp_bind, wp_psend; [|exact S2|]; [done|]. intros s3 S3. eapply wp_await_in; [|exact S3|]; [done|].
    intros s4 S4. cbn [when]. eapply Hput; [exact S4|done|cbn; lia|]. split; [done|]. cbn. rewrite app_nil_r, concat_app. cbn. rewrite app_nil_r.
    split; [done|lia].
Qed.

(** ** Commands *)

Context (SPM_PAGESIZE BOOT_START_ADDR sig1 sig2 sig3 : Z) (contents : list mem_op -> mem_op -> Z).
Abbreviation execute := (execute_command fuel SPM_PAGESIZE BOOT_START_ADDR sig1 sig2 sig3 contents).

(** In [a], the bytes [cmd] are a complete command that is answered by [resp] and
    leads to [a']. *)
Definition answers (cmd : list Z) (a : cl_app) (resp : list Z) (a' : cl_app) : Prop :=
  match cmd with
  | [] => False
  | c :: args =>
      forall rest o (Q : unit -> usb H cl_app -> Prop) E s, serving args rest o a s ->
        (forall s', serving [] rest (o ++ resp) a' s' -> Q tt s') -> wp (execute c) Q E s
  end.

Lemma answers_exit a : answers [AVR109_COMMAND_ExitBootloader] a [13] (stop_cdc a).
Proof. intros rest o Q E s Hs HQ. eapply wp_bind, wp_on_cl; [exact Hs|]. intros s1 S1. by eapply wp_respond. Qed.

(** The address as a number of words, high byte first. *)
Definition current_address (hi lo : Z) : Z := Z.lor (u32 (s16 (Z.shiftl hi 9))) (Z.shiftl lo 1).

Lemma answers_address hi lo a : answers [AVR109_COMMAND_SetCurrentAddress; hi; lo] a [13] (set_address (current_address hi lo) a).
Proof.
  intros rest o Q E s Hs HQ. change (wp (SetCurrentAddress fuel) Q E s). unfold SetCurrentAddress. eapply wp_bind, wp_fetch; [exact Hs|]. intros s1 S1.
  eapply wp_bind, wp_on_cl; [exact S1|]. intros s2 S2. eapply wp_bind, wp_fetch; [exact S2|]. intros s3 S3.
  eapply wp_bind, wp_on_cl; [exact S3|]. intros s4 S4. by eapply wp_respond.
Qed.

Definition cl_mems (ops : list mem_op) (a : cl_app) : cl_app :=
  mk_cl (LineEncoding a) (CurrAddress a) (RunBootloader a) (MagicBootKey a) (cl_mem a ++ ops).

Lemma cl_mems_nil a : cl_mems [] a = a.
Proof. unfold cl_mems. rewrite app_nil_r. by destruct a. Qed.

(** The loop of a block that is written to the flash memory. *)
Lemma wp_cdc_write_block E rest o : forall bs a s low (Q : unit -> usb H cl_app -> Prop),
  Nat.even (length bs) = true -> Forall is_byte bs -> 0 <= CurrAddress a -> CurrAddress a + Z.of_nat (length bs) < 2 ^ 32 ->
  serving bs rest o a s ->
  (forall s', serving [] rest o (set_address (CurrAddress a + Z.of_nat (length bs)) (cl_mems (map Spm (fill_ops (CurrAddress a) (words_of bs))) a)) s' -> Q tt s') ->
  wp (write_block fuel (length bs) MEMORY_TYPE_FLASH false low) Q E s.
Proof.
  induction bs as [|x|lo hi bs IH] using list_pair_ind; intros a s low Q Hev Hb Ha Hlen Hs HQ; [|done|].
  - apply wp_ret, HQ. cbn. rewrite cl_mems_nil, Z.add_0_r. by destruct a.
  - apply Forall_cons_iff in Hb as [Hlo [Hhi Hb]%Forall_cons_iff]. cbn [length write_block] in *. rewrite Z.eqb_refl.
    eapply wp_bind, wp_fetch; [exact Hs|]. intros s1 S1. eapply wp_bind, wp_cl; [exact S1|].
    eapply wp_bind, wp_fetch; [exact S1|]. intros s2 S2. eapply wp_bind, wp_on_cl; [exact S2|]. intros s3 S3.
    eapply wp_bind, wp_on_cl; [exact S3|]. intros s4 S4.
    assert (Z.lor (u16 (Z.shiftl hi 8)) lo = hi * 256 + lo) as Ew.
    { unfold is_byte in *. rewrite Z.shiftl_mul_pow2 by lia. unfold wrapu. rewrite Z.mod_small by lia. rewrite <- (Z.shiftl_mul_pow2 hi 8) by lia.
      rewrite lor_shiftl by lia. lia. }
    rewrite Ew in S4. unfold next_address, set_address, add_cl_mem in S4. cbn [CurrAddress LineEncoding RunBootloader MagicBootKey cl_mem] in S4.
    replace (u32 (CurrAddress a + 2)) with (CurrAddress a + 2) in S4 by (unfold wrapu; rewrite Z.mod_small; lia).
    eapply IH; [exact Hev|done| | |exact S4|]; cbn [CurrAddress]; [lia|lia|]. intros s5 S5. apply HQ.
    cbn [words_of fill_ops map]. unfold cl_mems, set_address in *. cbn [CurrAddress LineEncoding RunBootloader MagicBootKey cl_mem] in *.
    rewrite <- app_assoc in S5. by replace (CurrAddress a + Z.of_nat (S (S (length bs)))) with (CurrAddress a + 2 + Z.of_nat (length bs)) by lia.
Qed.

(** The two commands on blocks of flash memory. *)
Definition block_command (command : Z) (n : nat) : list Z := [command; Z.of_nat n / 256; Z.of_nat n mod 256; MEMORY_TYPE_FLASH].

Lemma block_size n : (Z.of_nat n < 65536) -> Z.to_nat (Z.lor (u16 (Z.shiftl (Z.of_nat n / 256) 8)) (Z.of_nat n mod 256)) = n.
Proof.
  intros Hn. pose proof (Z.div_mod (Z.of_nat n) 256 ltac:(lia)). pose proof (Z.mod_pos_bound (Z.of_nat n) 256 ltac:(lia)).
  pose proof (Z.div_lt_upper_bound (Z.of_nat n) 256 256 ltac:(lia) ltac:(lia)). pose proof (Z.div_pos (Z.of_nat n) 256 ltac:(lia) ltac:(lia)).
  unfold wrapu. rewrite Z.mod_small by (rewrite Z.shiftl_mul_pow2; lia). rewrite lor_shiftl by lia. lia.
Qed.

(** The globals after a block was written. *)
Definition block_written (bs : list Z) (a : cl_app) : cl_app :=
  set_address (CurrAddress a + Z.of_nat (length bs))
    (cl_mems (map Spm (PageErase (CurrAddress a) :: fill_ops (CurrAddress a) (words_of bs) ++ [PageWrite (CurrAddress a)])) a).

Lemma answers_write bs a :
  Nat.even (length bs) = true -> Forall is_byte bs -> Z.of_nat (length bs) < 65536 -> 0 <= CurrAddress a ->
  CurrAddress a + Z.of_nat (length bs) < 2 ^ 32 ->
  answers (block_command AVR109_COMMAND_BlockWrite (length bs) ++ bs) a [13] (block_written bs a).
Proof.
  intros Hev Hb Hn Ha Hlen rest o Q E s Hs HQ. change (wp (ReadWriteMemoryBlock fuel contents AVR109_COMMAND_BlockWrite) Q E s).
  unfold ReadWriteMemoryBlock. eapply wp_bind, wp_fetch; [exact Hs|]. intros s1 S1. eapply wp_bind, wp_fetch; [exact S1|]. intros s2 S2.
  eapply wp_bind, wp_fetch; [exact S2|]. intros s3 S3. rewrite block_size by done. cbn [Z.eqb Pos.eqb negb andb MEMORY_TYPE_FLASH].
  change (AVR109_COMMAND_BlockWrite =? AVR109_COMMAND_BlockRead) with false. cbv iota.
  eapply wp_bind, wp_cl; [exact S3|]. cbn [when]. eapply wp_bind, wp_on_cl; [exact S3|]. intros s4 S4. apply wp_bind.
  eapply wp_cdc_write_block; [done|done| | |exact S4|]; [done|done|]. intros s5 S5. eapply wp_bind, wp_on_cl; [exact S5|]. intros s6 S6.
  eapply wp_respond; [done|exact S6|]. intros s7 S7. apply HQ. unfold block_written, set_address, cl_mems, add_cl_mem in *.
  cbn [CurrAddress LineEncoding RunBootloader MagicBootKey cl_mem] in *. rewrite <- !app_assoc in S7. cbn [map]. rewrite map_app. exact S7.
Qed.

(** The accesses of a block that is read. *)
Fixpoint read_ops (a : Z) (m : nat) : list mem_op :=
  match m with
  | O => []
  | S m' => FlashReadByte a :: FlashReadByte (a + 1) :: read_ops (a + 2) m'
  end.

Lemma read_ops_read a m : Forall is_read (read_ops a m).
Proof. revert a. induction m; intros a; cbn; [done|]. by repeat constructor. Qed.

Fixpoint read_bytes (read : Z -> Z) (a : Z) (m : nat) : list Z :=
  match m with
  | O => []
  | S m' => read a :: read (a + 1) :: read_bytes read (a + 2) m'
  end.

Lemma even_lor a : Z.even a = true -> Z.lor a 0 = a /\ Z.lor a 1 = a + 1.
Proof.
  intros [x ->]%Z.even_spec. split; [apply Z.lor_0_r|].
  replace (2 * x) with (Z.shiftl x 1) at 1 by (rewrite Z.shiftl_mul_pow2; lia). rewrite lor_shiftl by lia. lia.
Qed.

Lemma wp_ask_cl op bs rest o a (Q : Z -> usb H cl_app -> Prop) E s :
  serving bs rest o a s -> (forall s', serving bs rest o (add_cl_mem op a) s' -> Q (contents (cl_mem a) op) s') -> wp (ask_cl contents op) Q E s.
Proof. intros Hs HQ. unfold ask_cl. eapply wp_bind, wp_cl; [exact Hs|]. eapply wp_bind, wp_on_cl; [exact Hs|]. intros s1 S1. by apply wp_ret, HQ. Qed.

Lemma wp_cdc_read_block read E rest : forall m a o s (Q : unit -> usb H cl_app -> Prop),
  (forall l x, Forall is_read l -> contents (cl_mem a ++ l) (FlashReadByte x) = read x) -> (forall x, CurrAddress a <= x < CurrAddress a + 2 * Z.of_nat m -> is_byte (read x)) ->
  Z.even (CurrAddress a) = true -> 0 <= CurrAddress a -> CurrAddress a + 2 * Z.of_nat m < 2 ^ 32 -> serving [] rest o a s ->
  (forall s', serving [] rest (o ++ read_bytes read (CurrAddress a) m) (set_address (CurrAddress a + 2 * Z.of_nat m) (cl_mems (read_ops (CurrAddress a) m) a)) s' -> Q tt s') ->
  wp (read_block fuel contents (2 * m) MEMORY_TYPE_FLASH false) Q E s.
Proof.
  induction m as [|m IH]; intros a o s Q Hc Hb He Ha Hlen Hs HQ.
  - apply wp_ret, HQ. cbn [read_ops read_bytes]. rewrite cl_mems_nil, app_nil_r, Z.add_0_r. by destruct a.
  - replace (2 * S m)%nat with (S (S (2 * m))) by lia. cbn [read_block]. rewrite Z.eqb_refl. destruct (even_lor _ He) as [E0 E1].
    eapply wp_bind, wp_cl; [exact Hs|]. rewrite E0. eapply wp_bind, wp_ask_cl; [exact Hs|]. intros s1 S1.
    assert (contents (cl_mem a) (FlashReadByte (CurrAddress a)) = read (CurrAddress a)) as -> by (rewrite <- (Hc []) by done; by rewrite app_nil_r).
    eapply wp_bind, wp_respond; [apply Hb; lia|exact S1|]. intros s2 S2. cbn [when]. apply wp_bind, wp_ret. cbn [negb].
    eapply wp_bind, wp_cl; [exact S2|]. cbn [add_cl_mem CurrAddress]. rewrite E1. eapply wp_bind, wp_ask_cl; [exact S2|]. intros s3 S3.
    cbn [cl_mem add_cl_mem]. rewrite (Hc [_]) by (by repeat constructor). eapply wp_bind, wp_respond; [apply Hb; lia|exact S3|]. intros s4 S4.
    eapply wp_bind, wp_on_cl; [exact S4|]. intros s5 S5. unfold next_address, set_address, add_cl_mem in S5.
    cbn [CurrAddress LineEncoding RunBootloader MagicBootKey cl_mem] in S5.
    replace (u32 (CurrAddress a + 2)) with (CurrAddress a + 2) in S5 by (unfold wrapu; rewrite Z.mod_small; lia).
    eapply IH; [| | | | |exact S5|]; cbn [CurrAddress cl_mem]; [|intros x Hx; apply Hb; lia|by rewrite Z.even_add, He|lia|lia|].
    + intros l x Hl. rewrite <- !app_assoc. apply Hc. by repeat constructor.
    + intros s6 S6. apply HQ. unfold cl_mems, set_address in *. cbn [CurrAddress LineEncoding RunBootloader MagicBootKey cl_mem read_ops read_bytes] in *.
      rewrite <- !app_assoc in S6. by replace (CurrAddress a + 2 * Z.of_nat (S m)) with (CurrAddress a + 2 + 2 * Z.of_nat m) by lia.
Qed.

(** The globals after a block was read. *)
Definition block_read (m : nat) (a : cl_app) : cl_app :=
  set_address (CurrAddress a + 2 * Z.of_nat m) (cl_mems (RwwEnable :: read_ops (CurrAddress a) m) a).

Lemma answers_read read m a :
  (forall l x, Forall is_read l -> contents (cl_mem a ++ RwwEnable :: l) (FlashReadByte x) = read x) -> (forall x, CurrAddress a <= x < CurrAddress a + 2 * Z.of_nat m -> is_byte (read x)) ->
  Z.even (CurrAddress a) = true -> 0 <= CurrAddress a -> CurrAddress a + 2 * Z.of_nat m < 2 ^ 32 -> 2 * Z.of_nat m < 65536 ->
  answers (block_command AVR109_COMMAND_BlockRead (2 * m)) a (read_bytes read (CurrAddress a) m) (block_read m a).
Proof.
  intros Hc Hb He Ha Hlen Hm rest o Q E s Hs HQ. change (wp (ReadWriteMemoryBlock fuel contents AVR109_COMMAND_BlockRead) Q E s).
  unfold ReadWriteMemoryBlock. eapply wp_bind, wp_fetch; [exact Hs|]. intros s1 S1. eapply wp_bind, wp_fetch; [exact S1|]. intros s2 S2.
  eapply wp_bind, wp_fetch; [exact S2|]. intros s3 S3. rewrite block_size by lia. cbn [Z.eqb Pos.eqb negb andb MEMORY_TYPE_FLASH].
  change (AVR109_COMMAND_BlockRead =? AVR109_COMMAND_BlockRead) with true. cbv iota. eapply wp_bind, wp_on_cl; [exact S3|]. intros s4 S4.
  eapply (wp_cdc_read_block read); [| | | | |exact S4|]; try done.
  - intros l x Hl. cbn [add_cl_mem cl_mem]. rewrite <- app_assoc. by apply Hc.
  - intros s5 S5. apply HQ. unfold block_read, set_address, cl_mems, add_cl_mem in *. cbn [CurrAddress LineEncoding RunBootloader MagicBootKey cl_mem] in *.
    by rewrite <- app_assoc in S5.
Qed.

(** ** The main loop *)

(** Between two commands: the packets [rest] are to come, everything of [o] is sent. *)
Definition between (rest : list (list Z)) (o : list Z) (a : cl_app) s : Prop :=
  exists p, p_rx p = default [] (head rest) /\ p_next p = tail rest /\ p_tx p = [] /\ concat (p_sent p) = o /\ at_port p a s.

Lemma wp_finish rest o a (Q : unit -> usb H cl_app -> Prop) E s :
  serving [] rest o a s -> (forall s', between rest o a s' -> Q tt s') -> wp (finish_command fuel) Q E s.
Proof.
  intros (p & ((ps & Hn & Hb & Hps) & Ho & Ht) & Hs) HQ. apply app_eq_nil in Hb as [Hrx Hps'].
  assert (ps = []) as -> by (destruct ps as [|[|? ?] ps]; [done|by apply Forall_cons_iff in Hps as [? _]|done]). cbn in Hn.
  unfold finish_command. eapply wp_bind, wp_pselect; [done|exact Hs|]. intros s1 S1. unfold Endpoint_IsReadWriteAllowed.
  eapply wp_bind, wp_pbit; [done|exact S1|]. intros s2 S2. eapply wp_bind, wp_psend; [|exact S2|]; [done|]. intros s3 S3.
  assert (forall p' s', p_sel p' = 3 -> p_rx p' = p_rx p -> p_next p' = rest -> p_tx p' = [] -> concat (p_sent p') = o -> at_port p' a s' ->
    wp (ok' ← wait_until fuel Endpoint_IsINReady is_unattached; when ok' (Endpoint_SelectEndpoint BOOT_RX_EPADDR ;; Endpoint_ClearOUT)) Q E s') as Hend.
  { intros p' s' Hsel Hrx' Hn' Ht' Ho' Hs'. eapply wp_bind, wp_await_in; [done|exact Hs'|]. intros s4 S4. cbn [when].
    eapply wp_bind, wp_pselect; [done|exact S4|]. intros s5 S5. eapply wp_prelease; [|exact S5|]; [done|]. intros s6 S6. apply HQ.
    eexists. split_and!; [..|exact S6]; cbn; by rewrite ?Hn'. }
  match goal with |- context [Z.testbit ?v RWAL] => destruct (Z.testbit v RWAL) end; cbn [negb].
  - apply wp_bind, wp_ret. cbn [when]. eapply Hend; [..|exact S3]; try done. cbn. by rewrite concat_app; cbn; rewrite app_nil_r.
  - eapply wp_bind, wp_bind, wp_await_in; [|exact S3|]; [done|]. intros s4 S4. cbn [when]. eapply wp_bind, wp_psend; [|exact S4|]; [done|].
    intros s5 S5. apply wp_ret. cbn [when]. eapply Hend; [..|exact S5]; try done. cbn. by rewrite !concat_app; cbn; rewrite !app_nil_r.
Qed.

Abbreviation task := (CDC_Task fuel SPM_PAGESIZE BOOT_START_ADDR sig1 sig2 sig3 contents).

(** Nothing happens while the next packet has not arrived. *)
Lemma wp_task_waits rest o a n (Q : unit -> usb H cl_app -> Prop) E s :
  between rest o a s -> default [] (head rest) <> [] -> port_wait (hw s) = S n ->
  (forall s', between rest o a s' -> port_wait (hw s') = n -> Q tt s') -> wp task Q E s.
Proof.
  intros (p & H1 & H2 & H3 & H4 & Hp & Ha) Hne Hw HQ. unfold CDC_Task, Endpoint_SelectEndpoint. apply wp_bind, wp_write_reg.
  destruct (port_selected (Z.land BOOT_RX_EPADDR ENDPOINT_EPNUM_MASK) (hw s)) as [E1 E2]. unfold Endpoint_IsOUTReceived, bit_of.
  apply wp_bind, wp_bind, wp_read_reg, wp_ret. cbn [hw].
  rewrite port_received, E2, Hw by (rewrite E1; first [reflexivity|unfold port_select; cbn [p_rx]; rewrite Hp, H1; done]). cbn [Nat.eqb when].
  apply wp_ret, HQ; cbn [hw]; [|by rewrite port_look, E2, Hw]. exists (port_select (Z.land BOOT_RX_EPADDR ENDPOINT_EPNUM_MASK) p).
  split_and!; try done. split; [|done]. cbn [hw]. by rewrite port_read, E1, Hp.
Qed.

(** One command. *)
Lemma wp_task_serves pk rest o a resp a' (Q : unit -> usb H cl_app -> Prop) E s :
  answers (concat pk) a resp a' -> pk <> [] -> Forall (fun l => l <> []) pk -> between (pk ++ rest) o a s -> port_wait (hw s) = 0%nat ->
  (forall s', between rest (o ++ resp) a' s' -> Q tt s') -> wp task Q E s.
Proof.
  intros Hcmd Hne Hpk (p & H1 & H2 & H3 & H4 & Hs) Hw HQ. destruct pk as [|x pk]; [done|]. apply Forall_cons_iff in Hpk as [Hx Hpk]. cbn in H1, H2.
  unfold CDC_Task. eapply wp_bind, wp_pselect; [done|exact (conj Hs Hw)|]. intros s1 S1. unfold Endpoint_IsOUTReceived.
  eapply wp_bind, wp_pbit; [done|exact S1|]. intros s2 S2. rewrite port_received by (destruct S1 as [[-> _] _]; cbn; by rewrite ?H1).
  rewrite (proj2 S1). cbn [Nat.eqb when]. cbn [concat] in Hcmd. destruct (x ++ concat pk) as [|c args] eqn:Ec; [by apply app_eq_nil in Ec as [? _]|].
  eapply wp_bind, (wp_fetch c args rest o a). { eexists. split; [|exact S2]. split; [exists pk; cbn; by rewrite H1|]. cbn. rewrite H3, app_nil_r, H4. cbn. split; [done|lia]. }
  intros s3 S3. apply wp_bind. eapply Hcmd; [exact S3|]. intros s4 S4. eapply wp_finish; [exact S4|done].
Qed.

(** A list of commands, each in one or several packets, that ends the bootloader. *)
Inductive dialogue : cl_app -> list (list (list Z)) -> list Z -> cl_app -> Prop :=
  | dialogue_end a : RunBootloader a = false -> dialogue a [] [] a
  | dialogue_command a pk cmds resp a1 resps a2 :
      RunBootloader a = true -> pk <> [] -> Forall (fun l => l <> []) pk -> answers (concat pk) a resp a1 ->
      dialogue a1 cmds resps a2 -> dialogue a (pk :: cmds) (resp ++ resps) a2.

Context (USB_USBTask : prog (usb H cl_app) unit).
Context (Htask : forall s, exists s', USB_USBTask s = (Done tt, s') /\ port_of (hw s') = port_of (hw s) /\ port_wait (hw s') = port_wait (hw s) /\ app s' = app s).

Lemma wp_usb_task (Q : unit -> usb H cl_app -> Prop) E rest o a s n :
  between rest o a s -> port_wait (hw s) = n -> (forall s', between rest o a s' -> port_wait (hw s') = n -> Q tt s') -> wp USB_USBTask Q E s.
Proof.
  intros (p & H1 & H2 & H3 & H4 & Hp & Ha) Hn HQ. destruct (Htask s) as (s' & Er & E1 & E2 & E3). unfold wp. rewrite Er. apply HQ; [|congruence].
  exists p. split_and!; try done. split; congruence.
Qed.

Lemma wp_cdc_loop a cmds resps a' (Q : unit -> usb H cl_app -> Prop) E : dialogue a cmds resps a' -> forall k s o,
  (length cmds * S patience < k)%nat -> between (concat cmds) o a s -> (forall s', between [] (o ++ resps) a' s' -> Q tt s') ->
  wp (cdc_loop fuel SPM_PAGESIZE BOOT_START_ADDR sig1 sig2 sig3 contents USB_USBTask k) Q E s.
Proof.
  induction 1 as [a Hrun|a pk cmds resp a1 resps a2 Hrun Hne Hpk Hcmd Hd IH]; intros k s o Hk Hb HQ.
  - destruct k as [|k]; [lia|]. cbn [cdc_loop]. apply wp_bind, wp_get_mem. destruct Hb as (p & ? & ? & ? & ? & ? & Ha). rewrite Ha, Hrun.
    apply wp_ret, HQ. rewrite app_nil_r. exists p. by split_and!.
  - cbn [length Nat.mul] in Hk. assert (exists n, port_wait (hw s) = n /\ (n + length cmds * S patience < pred k)%nat) as (n & En & Hn)
      by (exists (port_wait (hw s)); pose proof (port_patience (hw s)); split; [done|lia]). clear Hk.
    revert k s En Hn Hb. induction n as [|n IHn]; intros k s En Hn Hb; (destruct k as [|k]; [lia|]); cbn [cdc_loop]; apply wp_bind, wp_get_mem.
    all: assert (app s = a) as -> by (destruct Hb as (p & _ & _ & _ & _ & _ & Ha); exact Ha); rewrite Hrun; apply wp_bind.
    + eapply wp_task_serves; [exact Hcmd|done|done|exact Hb|done|]. intros s1 S1. eapply wp_bind, wp_usb_task; [exact S1|done|]. intros s2 S2 _.
      eapply IH; [|exact S2|]; [cbn in Hn; lia|]. intros s3 S3. apply HQ. by rewrite app_assoc.
    + eapply wp_task_waits; [exact Hb| |exact En|]; [destruct pk as [|x pk]; [done|]; by apply Forall_cons_iff in Hpk as [? _]|].
      intros s1 S1 W1. eapply wp_bind, wp_usb_task; [exact S1|exact W1|]. intros s2 S2 W2. eapply IHn; [exact W2|cbn in *; lia|exact S2].
Qed.
End port.

(** * The flash memory *)

Section bytes.
Context {F : Type} {page : Z} `{FM : !FlashMemory F page} (f : F).

(** The bytes of a memory that holds the words of [bs]. *)
Lemma read_words bs : forall a, Nat.even (length bs) = true -> Forall is_byte bs -> Z.even a = true ->
  (forall i w, words_of bs !! i = Some w -> flash_word f (a + 2 * Z.of_nat i) = w) ->
  read_bytes (flash_byte f) a (length (words_of bs)) = bs /\
  forall x, a <= x < a + 2 * Z.of_nat (length (words_of bs)) -> is_byte (flash_byte f x).
Proof.
  induction bs as [|y|lo hi bs IH] using list_pair_ind; intros a Hev Hb He Hw; [split; [done|cbn; lia]|done|].
  apply Forall_cons_iff in Hb as [Hlo [Hhi Hb]%Forall_cons_iff]. destruct (word_bytes lo hi Hlo Hhi) as [E1 E2].
  assert (flash_word f a = hi * 256 + lo) as Ew by (rewrite <- (Hw 0%nat) by done; f_equal; lia).
  destruct (IH (a + 2) Hev Hb) as [IH1 IH2]; [by rewrite Z.even_add, He|intros i w Hi; rewrite <- (Hw (S i) w Hi); f_equal; lia|].
  assert (flash_byte f a = lo) as B1 by (unfold flash_byte; by rewrite He, Ew).
  assert (flash_byte f (a + 1) = hi) as B2 by (unfold flash_byte; rewrite Z.even_add, He; cbn; replace (a + 1 - 1) with a by lia; by rewrite Ew).
  cbn [words_of length read_bytes]. rewrite B1, B2, IH1. split; [done|]. intros x Hx.
  destruct (decide (x = a)) as [->|]; [by rewrite B1|]. destruct (decide (x = a + 1)) as [->|]; [by rewrite B2|]. apply IH2. lia.
Qed.
End bytes.

(** ** Addresses *)

Lemma s16_small z : -32768 <= z < 32768 -> s16 z = z.
Proof. intros Hz. unfold wraps. change (2 ^ (16 - 1)) with 32768. change (2 ^ 16) with 65536. rewrite Z.mod_small; lia. Qed.

Lemma s16_wrap z q : s16 (z + q * 65536) = s16 z.
Proof. unfold wraps. change (2 ^ 16) with 65536. replace (z + q * 65536 + 2 ^ (16 - 1)) with (z + 2 ^ (16 - 1) + q * 65536) by lia. by rewrite Z.mod_add by lia. Qed.

Lemma lor_words x lo : is_byte lo -> Z.lor (x * 512) (Z.shiftl lo 1) = x * 512 + lo * 2.
Proof.
  unfold is_byte. intros Hlo. rewrite (Z.shiftl_mul_pow2 lo 1) by lia. replace (x * 512) with (Z.shiftl x 9) at 1 by (rewrite Z.shiftl_mul_pow2; lia).
  rewrite lor_shiftl by lia. lia.
Qed.

(** The address that is set, for every high byte. *)
Lemma current_address_value hi lo : is_byte hi -> is_byte lo ->
  current_address hi lo =
    (if hi <? 64 then hi * 512 else if hi <? 128 then hi * 512 + 0xFFFF0000
     else if hi <? 192 then (hi - 128) * 512 else (hi - 128) * 512 + 0xFFFF0000) + lo * 2.
Proof.
  intros Hhi Hlo. unfold is_byte in Hhi. unfold current_address. rewrite Z.shiftl_mul_pow2 by lia. change (2 ^ 9) with 512.
  assert (exists x q, hi = x + q * 128 /\ -64 <= x < 64 /\ (if hi <? 64 then x = hi else if hi <? 128 then x = hi - 128
    else if hi <? 192 then x = hi - 128 else x = hi - 256)) as (x & q & Eh & Hx & Hcase).
  { destruct (Z.ltb_spec hi 64); [exists hi, 0; lia|]. destruct (Z.ltb_spec hi 128); [exists (hi - 128), 1; lia|].
    destruct (Z.ltb_spec hi 192); [exists (hi - 128), 1; lia|exists (hi - 256), 2; lia]. }
  replace (hi * 512) with (x * 512 + q * 65536) at 1 by lia. rewrite s16_wrap, s16_small by lia.
  assert (exists y, u32 (x * 512) = y * 512 /\ y = if x <? 0 then x + 8388608 else x) as (y & -> & Ey).
  { destruct (Z.ltb_spec x 0); eexists; (split; [|reflexivity]); unfold wrapu; change (2 ^ 32) with 4294967296; [|rewrite Z.mod_small; lia].
    rewrite <- (Z.mod_add _ 1), Z.mod_small; lia. }
  rewrite lor_words by done. revert Hcase Ey. destruct (Z.ltb_spec hi 64), (Z.ltb_spec hi 128), (Z.ltb_spec hi 192), (Z.ltb_spec x 0); lia.
Qed.

Lemma current_address_low hi lo : 0 <= hi < 64 -> is_byte lo -> current_address hi lo = hi * 512 + lo * 2.
Proof. intros Hhi Hlo. rewrite current_address_value by (done || red; lia). by rewrite (proj2 (Z.ltb_lt hi 64)) by lia. Qed.

(** ** The commands of the session *)

Section session.
Context (k : Z) (Hk : 1 <= k <= 13) {F : Type} `{FM : !FlashMemory F (2 ^ k)} (f : F).
Context {H : Type} `{HW : Hardware H} {patience : nat} `{PH : !PortHost H patience} (fuel : nat) (Hfuel : (patience < fuel)%nat).
Context (BOOT_START_ADDR sig1 sig2 sig3 : Z) (contents : list mem_op -> mem_op -> Z) (Hreads : reads_flash k contents f).
Context (Hfree : forall y, 0 <= y < 2 ^ k -> buffer_word f y = 65535).
Context (hi lo : Z) (Hhi : 0 <= hi < 64) (Hlo : is_byte lo) (bs : list Z) (Hne : bs <> []) (Hev : Nat.even (length bs) = true) (Hbs : Forall is_byte bs).
Context (Hlen : Z.of_nat (length bs) <= 2 ^ k).
Abbreviation A := (hi * 512 + lo * 2).
Context (HA : A mod 2 ^ k = 0).

(** The programming operations of the session. *)
Definition session_spm : list spm_op := PageErase A :: fill_ops A (words_of bs) ++ [PageWrite A].

Lemma words_length : length bs = (2 * length (words_of bs))%nat.
Proof.
  apply Nat2Z.inj. rewrite Nat2Z.inj_mul. symmetry. apply length_words_of. clear -Hev. apply Nat.even_spec in Hev as [x ->].
  by rewrite Nat2Z.inj_mul, Z.even_mul.
Qed.

Lemma session_flash : let f' := spm_run k session_spm f in
  (forall i w, words_of bs !! i = Some w -> flash_word f' (A + 2 * Z.of_nat i) = w) /\
  (forall x, ~ A <= x < A + 2 ^ k -> flash_word f' x = flash_word f x).
Proof.
  assert (words_of bs <> []) as Hws by (destruct bs as [|? [|? ?]]; done). pose proof words_length. unfold is_byte in Hlo.
  unfold session_spm. apply page_flashed; (done || lia).
Qed.

Lemma address_even : Z.even A = true.
Proof. replace A with (2 * (hi * 256 + lo)) by lia. by rewrite Z.even_mul. Qed.

(** The globals after each command. *)
Definition session_written (a : cl_app) : cl_app := block_written bs (set_address A a).
Definition session_end (a : cl_app) : cl_app := stop_cdc (block_read (length (words_of bs)) (set_address A (session_written a))).

Lemma session_mem a : cl_mem a = [] -> cl_mem (session_end a) = map Spm session_spm ++ RwwEnable :: read_ops A (length (words_of bs)).
Proof. intros Ha. cbn. rewrite Ha. by rewrite map_app. Qed.

Lemma session_reads a l x : cl_mem a = [] -> Forall is_read l ->
  contents (cl_mem (set_address A (session_written a)) ++ RwwEnable :: l) (FlashReadByte x) = flash_byte (spm_run k session_spm f) x.
Proof.
  intros Ha Hl. assert (cl_mem (set_address A (session_written a)) ++ RwwEnable :: l = (map Spm session_spm ++ [RwwEnable]) ++ l) as ->.
  { cbn. rewrite Ha. cbn. by rewrite <- !app_assoc. }
  destruct (reads_keep (map Spm session_spm ++ [RwwEnable]) l Hl) as [E1 E2]. rewrite Hreads; [|rewrite E2; unfold rww_ready; by rewrite foldl_app].
  by rewrite E1, spm_of_app, spm_of_spm, app_nil_r.
Qed.

Abbreviation talks := (dialogue (H := H) fuel (2 ^ k) BOOT_START_ADDR sig1 sig2 sig3 contents).

Lemma session_dialogue pk1 pk2 pk3 pk4 pk5 a :
  concat pk1 = [AVR109_COMMAND_SetCurrentAddress; hi; lo] -> concat pk2 = block_command AVR109_COMMAND_BlockWrite (length bs) ++ bs ->
  concat pk3 = [AVR109_COMMAND_SetCurrentAddress; hi; lo] -> concat pk4 = block_command AVR109_COMMAND_BlockRead (length bs) ->
  concat pk5 = [AVR109_COMMAND_ExitBootloader] -> Forall (fun l => l <> []) (concat [pk1; pk2; pk3; pk4; pk5]) ->
  RunBootloader a = true -> cl_mem a = [] ->
  talks a [pk1; pk2; pk3; pk4; pk5] ([13] ++ [13] ++ [13] ++ bs ++ [13] ++ []) (session_end a).
Proof.
  intros E1 E2 E3 E4 E5 Hpk Hrun Hmem. cbn [concat] in Hpk. repeat (apply Forall_app in Hpk as [? Hpk]).
  destruct session_flash as [Hw _]. destruct (read_words _ bs A Hev Hbs address_even Hw) as [Eb Hok]. pose proof words_length as El.
  assert (2 ^ k <= 2 ^ 13) as H13 by (apply Z.pow_le_mono_r; lia). change (2 ^ 13) with 8192 in H13. unfold is_byte in Hlo.
  assert (forall (pk : list (list Z)) c args, concat pk = c :: args -> pk <> []) as Hne' by (intros pk c args Ep ->; done).
  assert (forall a, answers (H := H) fuel (2 ^ k) BOOT_START_ADDR sig1 sig2 sig3 contents [AVR109_COMMAND_SetCurrentAddress; hi; lo] a [13] (set_address A a))
    as Haddr by (intros a'; rewrite <- (current_address_low hi lo Hhi Hlo); by apply answers_address).
  apply (dialogue_command _ _ _ _ _ _ _ _ _ _ _ (set_address A a)); [done|exact (Hne' _ _ _ E1)|done|by rewrite E1|].
  apply (dialogue_command _ _ _ _ _ _ _ _ _ _ _ (session_written a)); [done|exact (Hne' _ _ _ E2)|done|rewrite E2; apply answers_write; try done; cbn; lia|].
  apply (dialogue_command _ _ _ _ _ _ _ _ _ _ _ (set_address A (session_written a))); [done|exact (Hne' _ _ _ E3)|done|by rewrite E3|].
  apply (dialogue_command _ _ _ _ _ _ _ _ _ _ _ (block_read (length (words_of bs)) (set_address A (session_written a)))); [done|exact (Hne' _ _ _ E4)|done| |].
  { pose proof (answers_read (H := H) fuel Hfuel (2 ^ k) BOOT_START_ADDR sig1 sig2 sig3 contents (flash_byte (spm_run k session_spm f))
      (length (words_of bs)) (set_address A (session_written a)) (fun l x Hl => session_reads a l x Hmem Hl) Hok address_even) as Hr.
    cbn [set_address CurrAddress] in Hr. rewrite Eb, <- El, <- E4 in Hr. apply Hr; cbn; lia. }
  apply (dialogue_command _ _ _ _ _ _ _ _ _ _ _ (session_end a)); [done|exact (Hne' _ _ _ E5)|done|rewrite E5; by apply answers_exit|]. by apply dialogue_end.
Qed.
End session.

(** C23: a session with the CDC bootloader.  A host that sends the commands of the AVR109
    protocol to set the address of a page (below 32 KB), write a block to it, set the
    address again, read the block and leave, each command in packets of any sizes, and
    that may take its time for every packet, gets three acknowledgements, the bytes it
    wrote, and the acknowledgement of the exit; the main loop then ends, and a flash
    memory that behaves as the data sheet says holds the block, with every other page
    unchanged.  Reads are only assumed to see the flash memory after
    boot_rww_enable. *)
Theorem avr109_session k {H} `{Hardware H} patience `{!PortHost H patience} fuel BOOT_START_ADDR sig1 sig2 sig3 contents USB_USBTask
    {F} `{!FlashMemory F (2 ^ k)} (f : F) hi lo bs pk1 pk2 pk3 pk4 pk5 sel (s : usb H cl_app) :
  let A := hi * 512 + lo * 2 in
  let packets := concat [pk1; pk2; pk3; pk4; pk5] in
  1 <= k <= 13 -> (5 * S patience < fuel)%nat ->
  (forall s, exists s', USB_USBTask s = (Done tt, s') /\ port_of (hw s') = port_of (hw s) /\ port_wait (hw s') = port_wait (hw s) /\ app s' = app s) ->
  0 <= hi < 64 -> is_byte lo -> A mod 2 ^ k = 0 -> bs <> [] -> Nat.even (length bs) = true -> Forall is_byte bs -> Z.of_nat (length bs) <= 2 ^ k ->
  (forall y, 0 <= y < 2 ^ k -> buffer_word f y = 65535) -> reads_flash k contents f ->
  concat pk1 = [AVR109_COMMAND_SetCurrentAddress; hi; lo] -> concat pk2 = block_command AVR109_COMMAND_BlockWrite (length bs) ++ bs ->
  concat pk3 = [AVR109_COMMAND_SetCurrentAddress; hi; lo] -> concat pk4 = block_command AVR109_COMMAND_BlockRead (length bs) ->
  concat pk5 = [AVR109_COMMAND_ExitBootloader] -> Forall (fun l => l <> []) packets ->
  port_of (hw s) = mk_port sel (default [] (head packets)) (tail packets) [] [] -> RunBootloader (app s) = true -> cl_mem (app s) = [] ->
  exists s', cdc_loop fuel (2 ^ k) BOOT_START_ADDR sig1 sig2 sig3 contents USB_USBTask fuel s = (Done tt, s') /\
    concat (p_sent (port_of (hw s'))) = [13; 13; 13] ++ bs ++ [13] /\ RunBootloader (app s') = false /\
    let f' := spm_run k (spm_of (cl_mem (app s'))) f in
    (forall i w, words_of bs !! i = Some w -> flash_word f' (A + 2 * Z.of_nat i) = w) /\
    (forall x, ~ A <= x < A + 2 ^ k -> flash_word f' x = flash_word f x).
Proof.
  intros A packets Hk Hfuel Htask Hhi Hlo HA Hne Hev Hb Hlen Hf Hreads E1 E2 E3 E4 E5 Hpk Hport Hrun Hmem.
  assert (patience < fuel)%nat as Hfuel' by lia.
  pose proof (session_dialogue k Hk f fuel Hfuel' BOOT_START_ADDR sig1 sig2 sig3 contents Hreads Hf hi lo Hhi Hlo bs Hne Hev Hb Hlen HA
    pk1 pk2 pk3 pk4 pk5 (app s) E1 E2 E3 E4 E5 Hpk Hrun Hmem) as Hd.
  pose proof (wp_cdc_loop fuel Hfuel' (2 ^ k) BOOT_START_ADDR sig1 sig2 sig3 contents USB_USBTask Htask _ _ _ _
    (fun _ s' => between [] ([13; 13; 13] ++ bs ++ [13]) (session_end hi lo bs (app s)) s') (fun _ _ => False) Hd fuel s []) as Hrun'.
  apply wp_run in Hrun' as (o & s' & Er & [([] & -> & p & _ & _ & _ & Ho & Hp & Ha)|(c & _ & [])]); [|cbn; lia| |done].
  - exists s'. split; [done|]. rewrite Hp, Ho, Ha. split; [done|]. split; [done|]. rewrite (session_mem hi lo bs (app s) Hmem).
    rewrite spm_of_app, spm_of_spm. destruct (reads_keep [RwwEnable] (read_ops (hi * 512 + lo * 2) (length (words_of bs)))) as [E _]; [apply read_ops_read|].
    change (RwwEnable :: ?l) with ([RwwEnable] ++ l). rewrite E. cbn [spm_of omap]. rewrite app_nil_r. by apply (session_flash k Hk f fuel Hfuel').
  - exists (port_of (hw s)). split_and!; [by rewrite Hport..|done].
Qed.

(** A simulated host: two looks before each bank is free or has a packet. *)
Record sim_port : Type := mk_sim_port { sp_port : port; sp_wait : nat }.

Definition sim_port_wait (h : sim_port) : nat := Nat.min 2 (sp_wait h).

#[export] Instance sim_port_hardware : Hardware sim_port := {
  rd r h :=
    match r with
    | UEINTX =>
        let p := sp_port h in
        let free := (sim_port_wait h =? 0)%nat in
        let rwal := if p_sel p =? 4 then negb (bool_decide (p_rx p = [])) else (length (p_tx p) <? 16)%nat in
        ((if free then Z.lor (2 ^ RXOUTI) (2 ^ TXINI) else 0) + (if rwal then 2 ^ RWAL else 0), mk_sim_port p (pred (sim_port_wait h)))
    | UEDATX => (default 0 (head (p_rx (sp_port h))), mk_sim_port (port_drop (tail (p_rx (sp_port h))) (sp_port h)) (sp_wait h))
    | USB_DeviceState => (DEVICE_STATE_Configured, h)
    | _ => (0, h)
    end;
  wr r v h :=
    match r with
    | UENUM => mk_sim_port (port_select v (sp_port h)) (sp_wait h)
    | UEDATX => mk_sim_port (port_put v (sp_port h)) (sp_wait h)
    | UEINTX =>
        if p_sel (sp_port h) =? 4 then mk_sim_port (port_fetch (sp_port h)) 2
        else mk_sim_port (port_send (sp_port h)) 2
    | _ => h
    end }.

Lemma sim_flags h n : n = RXOUTI \/ n = TXINI -> Z.testbit (rd UEINTX h).1 n = (sim_port_wait h =? 0)%nat.
Proof. intros [-> | ->]; cbn -[Nat.min]; by repeat match goal with |- context [if ?c then _ else _] => destruct c end. Qed.

#[export] Instance sim_port_host : PortHost sim_port 2.
Proof.
  refine {| port_of := sp_port; port_wait := sim_port_wait |}.
  - intros h. unfold sim_port_wait. lia.
  - done.
  - intros [] h Hr; done.
  - intros [] h Hr; done.
  - intros h. unfold sim_port_wait. cbn -[Nat.min]. unfold sim_port_wait. lia.
  - done.
  - intros h _ _. apply sim_flags. by left.
  - intros h Hsel Hw. cbn -[Nat.min]. rewrite Hsel, Hw. cbn. by destruct (bool_decide _).
  - intros h x rest Hsel Hw Hrx. cbn. rewrite Hrx. done.
  - intros h v Hsel _ _. cbn. by rewrite Hsel.
  - intros h _. apply sim_flags. by right.
  - intros h Hsel Hw. cbn -[Nat.min Nat.ltb]. rewrite Hsel, Hw. cbn -[Nat.ltb]. by destruct (_ <? _)%nat.
  - intros h v Hsel Hw Hl Hv. split; [done|exact Hw].
  - intros h v Hsel _ _. cbn. by rewrite Hsel.
Defined.

Definition sim_block : list Z := [12; 148; 52; 0; 12; 148; 62; 0].

(** Reads of the simulated flash memory. *)
Definition sim_contents (ops : list mem_op) (op : mem_op) : Z :=
  match op with FlashReadByte x => flash_byte (page := 2 ^ 3) (spm_run 3 (spm_of ops) sim_flash_old) x | _ => 0 end.

Definition sim_session : usb sim_port cl_app :=
  mk_usb (mk_sim_port (mk_port 0 [65; 0] ([32] :: [66; 0; 8; 70; 12; 148] :: [52; 0; 12; 148; 62; 0] :: [[65; 0; 32]; [103; 0; 8; 70]; [69]]) [] []) 1)
    core_init (cl_init 0) [].

(** Witness of C23: a page of 8 bytes at 64. *)
Lemma avr109_session_witness :
  exists s', cdc_loop 99 (2 ^ 3) 28672 30 151 130 sim_contents (mret tt) 99 sim_session = (Done tt, s') /\
    concat (p_sent (port_of (hw s'))) = [13; 13; 13] ++ sim_block ++ [13] /\ RunBootloader (app s') = false /\
    let f' := spm_run 3 (spm_of (cl_mem (app s'))) sim_flash_old in
    (forall i w, words_of sim_block !! i = Some w -> flash_word (page := 2 ^ 3) f' (64 + 2 * Z.of_nat i) = w) /\
    (forall x, ~ 64 <= x < 64 + 2 ^ 3 -> flash_word (page := 2 ^ 3) f' x = flash_word (page := 2 ^ 3) sim_flash_old x).
Proof.
  apply (avr109_session 3 2 99 28672 30 151 130 sim_contents (mret tt) sim_flash_old 0 32 sim_block
    [[65; 0]; [32]] [[66; 0; 8; 70; 12; 148]; [52; 0; 12; 148; 62; 0]] [[65; 0; 32]] [[103; 0; 8; 70]] [[69]] 0 sim_session);
    try done; try lia.
  - intros s. by exists s.
  - by repeat constructor.
  - by repeat constructor.
Defined.

(** Addresses from 32 KB on.  The address of the AVR109 protocol is a number of
    words, two bytes; the bootloader shifts the high byte in a 16-bit int and widens
    the result with its sign.  From word 0x4000 on, the address of every access is
    wrong: between 32 KB and 64 KB its upper half is 0xFFFF, and above it is the
    address 64 KB lower, or the wrong one of that. *)
Theorem avr109_address_wraps {H} `{Hardware H} patience `{!PortHost H patience} fuel SPM_PAGESIZE BOOT_START_ADDR sig1 sig2 sig3 contents hi lo rest o a
    (s : usb H cl_app) :
  (patience < fuel)%nat -> is_byte hi -> is_byte lo -> serving [hi; lo] rest o a s ->
  exists s', execute_command fuel SPM_PAGESIZE BOOT_START_ADDR sig1 sig2 sig3 contents AVR109_COMMAND_SetCurrentAddress s = (Done tt, s') /\
    serving [] rest (o ++ [13]) (app s') s' /\
    CurrAddress (app s') =
      if hi <? 64 then 2 * (hi * 256 + lo)
      else if hi <? 128 then 2 * (hi * 256 + lo) + 0xFFFF0000
      else if hi <? 192 then 2 * (hi * 256 + lo) - 0x10000 else 2 * (hi * 256 + lo) - 0x10000 + 0xFFFF0000.
Proof.
  intros Hfuel Hhi Hlo Hs.
  enough (wp (execute_command fuel SPM_PAGESIZE BOOT_START_ADDR sig1 sig2 sig3 contents AVR109_COMMAND_SetCurrentAddress)
    (fun _ s' => serving [] rest (o ++ [13]) (set_address (current_address hi lo) a) s') (fun _ _ => False) s) as (o' & s' & Er & [([] & -> & Hs')|(c & _ & [])])%wp_run.
  { exists s'. assert (app s' = set_address (current_address hi lo) a) as Ea by (destruct Hs' as (p & _ & [_ E] & _); exact E).
    rewrite Ea. split; [done|]. split; [done|]. cbn [set_address CurrAddress]. rewrite current_address_value by done. repeat case_match; lia. }
  by eapply (answers_address fuel Hfuel SPM_PAGESIZE BOOT_START_ADDR sig1 sig2 sig3 contents hi lo a).
Qed.

(** An instance: word 0x4000, byte 0x8000. *)
Lemma avr109_address_wraps_witness :
  exists s', execute_command 9 256 122880 30 151 130 (fun _ _ => 255) AVR109_COMMAND_SetCurrentAddress
      (mk_usb (mk_sim_port (mk_port 0 [64; 0] [] [] []) 0) core_init (cl_init 0) []) = (Done tt, s') /\
    serving [] [] [13] (app s') s' /\ CurrAddress (app s') = 0xFFFF8000.
Proof.
  apply (avr109_address_wraps 2 9 256 122880 30 151 130 (fun _ _ => 255) 64 0 [] [] (cl_init 0)); [lia|red; lia|red; lia|].
  eexists. split; [|done]. split; [by exists []|]. cbn. split; [done|lia].
Defined.
