(* ===== verification/HidLoader.v ===== *)
(** The HID bootloader, Bootloaders/HID/BootloaderHID.c: a page of flash memory per
    SetReport request.

    [hl_app] holds the globals and the memory operations made so far; [far] is the
    condition FLASHEND > 0xFFFF.  USB_Init and USB_USBTask of the library are
    parameters, and so is the page size.  The watchdog and the waits for the end of a
    self-programming operation, calls of avr-libc, are not modelled; the wait for the
    watchdog's reset, and the jump to the application, end the program. *)

From Stdlib Require Import ZArith Lia.
From stdpp Require Import base tactics list numbers.
From S2P Require Import Prelude Posix Avr Endpoint Device BulkHost HidDevice Board Flash DownloadHost.

Local Open Scope Z_scope.

(** * The bootloader *)

Definition COMMAND_STARTAPPLICATION : Z := 0xFFFF.
Definition HID_IN_EPADDR : Z := Z.lor ENDPOINT_DIR_IN 1.
Definition HID_IN_EPSIZE : Z := 64.

Record hl_app : Type := mk_hl {
  RunBootloader : bool;
  MagicBootKey : Z;
  hl_mem : list mem_op }.

Definition stop_hid (a : hl_app) : hl_app := mk_hl false (MagicBootKey a) (hl_mem a).
Definition set_hl_key (v : Z) (a : hl_app) : hl_app := mk_hl (RunBootloader a) v (hl_mem a).
Definition add_hl_mem (op : mem_op) (a : hl_app) : hl_app := mk_hl (RunBootloader a) (MagicBootKey a) (hl_mem a ++ [op]).

Section hid_loader.
Context {H : Type} `{Hardware H} `{!Interrupts H hl_app}.
Context (fuel : nat) (SPM_PAGESIZE : Z) (far : bool).

Abbreviation run := (prog (usb H hl_app)).

Context (USB_Init USB_USBTask : run unit).

Definition do_hl (op : mem_op) : run unit := set_mem (on_app (add_hl_mem op)).

(** while (!(Endpoint_IsOUTReceived())); *)
Definition await_report : run unit := wait_until fuel Endpoint_IsOUTReceived never ;; mret tt.

(** The type of PageAddress. *)
Definition page_address (v : Z) : Z := if far then u32 v else u16 v.

(** for (uint8_t PageWord = 0; PageWord < (SPM_PAGESIZE / 2); PageWord++) *)
Fixpoint page_words (k : nat) (PageAddress PageWord : Z) : run unit :=
  if PageWord <? SPM_PAGESIZE / 2 then
    match k with
    | O => lift (Fault OutOfFuel)
    | S k' =>
        n ← Endpoint_BytesInEndpoint;
        when (n =? 0) (Endpoint_ClearOUT ;; await_report) ;;
        w ← Endpoint_Read_16_LE;
        do_hl (Spm (PageFill (page_address (PageAddress + Z.shiftl PageWord 1)) w)) ;;
        page_words k' PageAddress (u8 (PageWord + 1))
    end
  else mret tt.

Definition set_report : run unit :=
  Endpoint_ClearSETUP ;;
  await_report ;;
  w ← Endpoint_Read_16_LE;
  let PageAddress := if far then Z.shiftl w 8 else w in
  (if (if far then u16 (Z.shiftr PageAddress 8) else PageAddress) =? COMMAND_STARTAPPLICATION then set_mem (on_app stop_hid)
   else
     do_hl (Spm (PageErase PageAddress)) ;;
     page_words fuel PageAddress 0 ;;
     do_hl (Spm (PageWrite PageAddress)) ;;
     do_hl RwwEnable) ;;
  Endpoint_ClearOUT ;;
  Endpoint_ClearStatusStage fuel.

(** EVENT_USB_Device_ControlRequest *)
Definition hid_ControlRequest : run unit :=
  req ← get_request;
  if negb (Z.land (bmRequestType req) 0x7F =? 0x21) then mret tt
  else when (bRequest req =? HID_REQ_SetReport) set_report.

Definition hid_ConfigurationChanged : run unit :=
  ordered_ConfigureEndpoint fuel HID_IN_EPADDR EP_TYPE_INTERRUPT HID_IN_EPSIZE 1 ;; mret tt.

Definition hid_Jump_Check : run unit :=
  v ← read_reg MCUSR;
  key ← get_mem (fun s => MagicBootKey (app s));
  when (Z.testbit v WDRF && (key =? MAGIC_BOOT_KEY)) (
    set_mem (on_app (set_hl_key 0)) ;;
    exits application_exit).

Definition hid_SetupHardware : run unit :=
  clear_bits MCUSR (2 ^ WDRF) ;;
  write_reg MCUCR 1 ;;
  write_reg MCUCR 2 ;;
  USB_Init.

(** while (RunBootloader) *)
Fixpoint hid_loop (k : nat) : run unit :=
  match k with
  | O => lift (Fault OutOfFuel)
  | S k' =>
      go ← get_mem (fun s => RunBootloader (app s));
      if (go : bool) then USB_USBTask ;; hid_loop k' else mret tt
  end.

Definition hid_main : run unit :=
  hid_SetupHardware ;;
  set_bits SREG 128 ;;
  hid_loop fuel ;;
  USB_Detach ;;
  set_mem (on_app (set_hl_key MAGIC_BOOT_KEY)) ;;
  exits watchdog_exit.
End hid_loader.

(** * A page *)

Section page.
Context (k : Z) (Hk : 1 <= k <= 8).
Abbreviation page := (2 ^ k).
Context {H : Type} `{HW : Hardware H} {half patience : nat} `{DH : !DownloadHost H (2 * S half) patience}.
Context (c : core) (fuel : nat) (Hfuel : (patience < fuel)%nat) (far : bool).
Abbreviation size := (2 * S half)%nat.
Abbreviation arrived := (arrived (A := hl_app) (size := size) c).
Abbreviation at_stage := (at_stage (A := hl_app) (size := size) c).

Definition hl_mems (ops : list mem_op) (a : hl_app) : hl_app := mk_hl (RunBootloader a) (MagicBootKey a) (hl_mem a ++ ops).

Lemma wp_do_hl op d a (Q : unit -> usb H hl_app -> Prop) E s : arrived d a s -> (forall s', arrived d (add_hl_mem op a) s' -> Q tt s') -> wp (do_hl op) Q E s.
Proof. apply wp_on_stage. Qed.

Lemma wp_await_report d a (Q : unit -> usb H hl_app -> Prop) E s :
  st_bank d <> 0%nat -> at_stage d a s -> (forall s', arrived d a s' -> Q tt s') -> wp (await_report fuel) Q E s.
Proof.
  intros Hn Hs HQ. unfold await_report. apply wp_bind. eapply wp_await_packet; [exact Hfuel|by right|exact Hn|exact Hs|]. intros s1 S1. by apply wp_ret, HQ.
Qed.

(** A word; the bank is refilled when it is empty. *)
Lemma wp_report_word lo hi l b a (Q : Z -> usb H hl_app -> Prop) E s :
  Nat.even b = true -> (b <= length (lo :: hi :: l))%nat -> Nat.even (length l) = true -> arrived (mk_stage (lo :: hi :: l) b) a s ->
  (forall b' s', Nat.even b' = true -> (b' <= length l)%nat -> arrived (mk_stage l b') a s' -> Q (hi * 256 + lo) s') ->
  wp (n ← Endpoint_BytesInEndpoint; when (n =? 0) (Endpoint_ClearOUT ;; await_report fuel) ;; Endpoint_Read_16_LE) Q E s.
Proof.
  intros Hb Hlen Hl Hs HQ. assert (forall b' s', Nat.even b' = true -> (b' <= length l)%nat -> arrived (mk_stage (lo :: hi :: l) (S (S b'))) a s' ->
    wp Endpoint_Read_16_LE Q E s') as Hread.
  { intros b' s' Hb' Hl' Hs'. unfold Endpoint_Read_16_LE. eapply wp_bind, wp_take; [exact Hs'|]. intros s2 S2. eapply wp_bind, wp_take; [exact S2|].
    intros s3 S3. apply wp_ret. replace (lo + 256 * hi) with (hi * 256 + lo) by lia. by eapply HQ. }
  eapply wp_bind, wp_look; [done|exact Hs|]. intros s1 S1. rewrite dl_count by apply Hs. destruct Hs as [[-> _] _]. cbn [st_bank].
  destruct b as [|[|b]]; [|done|]; cbn [Z.of_nat Z.eqb when]; apply wp_bind.
  - eapply wp_bind, wp_next; [by left|exact S1|]. intros s2 S2. rewrite next_stage_empty in S2. eapply wp_await_report; [|exact S2|]; [cbn; lia|].
    intros s3 S3. apply (Hread (Nat.min (2 * half) (length l))); [|lia|].
    + destruct (Nat.min_spec (2 * half) (length l)) as [[_ ->]|[_ ->]]; [by rewrite Nat.even_mul|done].
    + replace (Nat.min size (length (lo :: hi :: l))) with (S (S (Nat.min (2 * half) (length l)))) in S3 by (cbn [length]; lia). exact S3.
  - apply wp_ret. apply (Hread b); [done|cbn in Hlen; lia|exact S1].
Qed.

Lemma wp_page_words E address : forall bs kf b i a s (Q : unit -> usb H hl_app -> Prop),
  Nat.even (length bs) = true -> Nat.even b = true -> (b <= length bs)%nat -> 0 <= i -> i + Z.of_nat (length (words_of bs)) = page / 2 ->
  (length bs <= kf)%nat -> (forall j, 0 <= j < page / 2 -> page_address far (address + Z.shiftl j 1) = address + 2 * j) -> page / 2 <= 128 ->
  arrived (mk_stage bs b) a s ->
  (forall s', arrived (mk_stage [] 0) (hl_mems (map Spm (fill_ops (address + 2 * i) (words_of bs))) a) s' -> Q tt s') ->
  wp (page_words fuel page far kf address i) Q E s.
Proof.
  induction bs as [|x|lo hi bs IH] using list_pair_ind; intros kf b i a s Q Hev Hb Hle Hi Hsum Hkf Haddr H128 Hs HQ; [|done|].
  - assert (b = 0%nat) as -> by (cbn in Hle; lia). assert (page_words fuel page far kf address i = mret tt) as ->.
    { destruct kf; cbn [page_words]; by rewrite (proj2 (Z.ltb_ge _ _)) by (cbn in Hsum; lia). }
    apply wp_ret, HQ. unfold hl_mems. cbn. rewrite app_nil_r. by destruct a.
  - cbn [words_of length] in *. destruct kf as [|kf]; [lia|]. cbn [page_words]. rewrite (proj2 (Z.ltb_lt _ _)) by lia.
    assert (wp (w ← (n ← Endpoint_BytesInEndpoint; when (n =? 0) (Endpoint_ClearOUT ;; await_report fuel) ;; Endpoint_Read_16_LE);
      do_hl (Spm (PageFill (page_address far (address + Z.shiftl i 1)) w)) ;; page_words fuel page far kf address (u8 (i + 1))) Q E s) as Hstep.
    { eapply wp_bind, (wp_report_word lo hi bs b a); [done|cbn; lia|done|exact Hs|]. intros b' s1 Hb' Hl' S1.
      eapply wp_bind, wp_do_hl; [exact S1|]. intros s2 S2. rewrite u8_small by (red; lia).
      eapply (IH kf b' (i + 1)); [done|done|done|lia|lia|lia|done|done|exact S2|]. intros s3 S3. apply HQ. rewrite Haddr in S3 by lia.
      unfold hl_mems, add_hl_mem in *. cbn [RunBootloader MagicBootKey hl_mem map fill_ops] in *. rewrite <- app_assoc in S3.
      by replace (address + 2 * i + 2) with (address + 2 * (i + 1)) by lia. }
    unfold wp, mbind, prog_bind in *. destruct (Endpoint_BytesInEndpoint s) as [[n| |] s1]; [|done..].
    destruct (when (n =? 0) _ s1) as [[] s2]; done.
Qed.

(** The address of the page that the first word of the report means. *)
Definition report_address (lo hi : Z) : Z := if far then (hi * 256 + lo) * 256 else hi * 256 + lo.

(** The addresses of the words do not overflow. *)
Lemma page_in_range lo hi j : is_byte lo -> is_byte hi -> report_address lo hi mod page = 0 -> 0 <= j < page / 2 ->
  page_address far (report_address lo hi + Z.shiftl j 1) = report_address lo hi + 2 * j.
Proof.
  unfold is_byte. intros Hlo Hhi Hm Hj. rewrite Z.shiftl_mul_pow2 by lia. change (2 ^ 1) with 2. pose proof (page_pos k ltac:(lia)) as Hp.
  pose proof (Z.mul_div_le page 2 ltac:(lia)). assert (page <= 2 ^ 8) as H8 by (apply Z.pow_le_mono_r; lia). change (2 ^ 8) with 256 in H8.
  unfold page_address, report_address in *. destruct far; unfold wrapu; rewrite Z.mod_small; try lia.
  assert (2 ^ 16 = page * 2 ^ (16 - k)) as E16 by (rewrite <- Z.pow_add_r by lia; f_equal; lia).
  pose proof (Z.div_mod (hi * 256 + lo) page ltac:(lia)) as Ed. rewrite Hm in Ed.
  assert ((hi * 256 + lo) / page < 2 ^ (16 - k)) by (apply Z.div_lt_upper_bound; lia). change (2 ^ 16) with 65536 in *. nia.
Qed.

Definition hid_request (value index n : Z) : request := mk_request 0x21 HID_REQ_SetReport value index n.

Lemma wp_hid_status d a (Q : unit -> usb H hl_app -> Prop) E s :
  Z.testbit (bmRequestType (USB_ControlRequest c)) 7 = false -> next_stage size d = mk_stage [] 0 -> arrived d a s ->
  (forall s', app s' = a -> Q tt s') -> wp (Endpoint_ClearOUT ;; Endpoint_ClearStatusStage fuel) Q E s.
Proof.
  intros Hc Hd Hs HQ. eapply wp_bind, wp_next; [by left|exact Hs|]. rewrite Hd. intros s1 S1. unfold Endpoint_ClearStatusStage.
  apply wp_bind, wp_get_mem. rewrite (proj2 (proj2 S1)), Hc. apply wp_bind. unfold Endpoint_IsINReady.
  eapply (wp_wait c fuel Hfuel is_unattached TXINI); [by left|intros h; apply dl_ready|pose proof (dl_patience (hw s1)); lia|exact S1|].
  intros s2 [[_ [A2 _]] _]. cbn [when]. unfold Endpoint_ClearIN, clear_bits. apply wp_bind, wp_read_reg, wp_write_reg, HQ. done.
Qed.

(** The whole request. *)
Lemma wp_set_report lo hi bs a (Q : unit -> usb H hl_app -> Prop) E s :
  is_byte lo -> is_byte hi -> hi * 256 + lo <> COMMAND_STARTAPPLICATION -> report_address lo hi mod page = 0 ->
  Z.of_nat (length bs) = page -> (256 <= fuel)%nat -> Z.testbit (bmRequestType (USB_ControlRequest c)) 7 = false ->
  arrived (mk_stage (lo :: hi :: bs) 0) a s ->
  (forall s', app s' = hl_mems (map Spm (PageErase (report_address lo hi) :: fill_ops (report_address lo hi) (words_of bs) ++ [PageWrite (report_address lo hi)])
      ++ [RwwEnable]) a -> Q tt s') ->
  wp (set_report fuel page far) Q E s.
Proof.
  intros Hlo Hhi Hne Hm Hlen H256 Hc Hs HQ. assert (page <= 2 ^ 8) as H8 by (apply Z.pow_le_mono_r; lia). change (2 ^ 8) with 256 in H8.
  assert (page = 2 ^ (k - 1) * 2) as Ep by (rewrite Z.mul_comm, <- Z.pow_succ_r by lia; f_equal; lia).
  assert (page / 2 = 2 ^ (k - 1)) as Eh by (rewrite Ep; apply Z.div_mul; lia). pose proof (page_pos k ltac:(lia)) as Hp.
  assert (Nat.even (length bs) = true) as Hev by (apply Nat.even_spec; exists (Z.to_nat (2 ^ (k - 1))); lia).
  assert (2 * Z.of_nat (length (words_of bs)) = Z.of_nat (length bs)) as Hw by (apply length_words_of; rewrite Hlen, Ep, Z.mul_comm; apply Z.even_mul).
  unfold set_report, Endpoint_ClearSETUP. eapply wp_bind, wp_next; [|exact Hs|]; [by right|]. rewrite next_stage_empty. intros s1 S1.
  eapply wp_bind, wp_await_report; [|exact S1|]; [cbn; lia|]. intros s2 S2.
  replace (Nat.min size (length (lo :: hi :: bs))) with (S (S (Nat.min (2 * half) (length bs)))) in S2 by (cbn [length]; lia).
  unfold Endpoint_Read_16_LE at 1. eapply wp_bind, wp_bind, wp_take; [exact S2|]. intros s3 S3. eapply wp_bind, wp_take; [exact S3|]. intros s4 S4.
  apply wp_ret. replace (lo + 256 * hi) with (hi * 256 + lo) by lia.
  assert ((if far then Z.shiftl (hi * 256 + lo) 8 else hi * 256 + lo) = report_address lo hi) as ->
    by (unfold report_address; destruct far; [rewrite Z.shiftl_mul_pow2 by lia|]; lia).
  assert (((if far then u16 (Z.shiftr (report_address lo hi) 8) else report_address lo hi) =? COMMAND_STARTAPPLICATION) = false) as ->.
  { apply Z.eqb_neq. unfold report_address, is_byte in *. destruct far; [|done]. rewrite Z.shiftr_div_pow2 by lia. change (2 ^ 8) with 256.
    rewrite Z.div_mul by lia. unfold wrapu. rewrite Z.mod_small; [done|lia]. }
  eapply wp_bind, wp_bind, wp_do_hl; [exact S4|]. intros s5 S5. apply wp_bind.
  eapply (wp_page_words E _ bs fuel); [done| | |reflexivity|lia|lia|intros j Hj; by apply page_in_range|lia|exact S5|].
  { destruct (Nat.min_spec (2 * half) (length bs)) as [[_ ->]|[_ ->]]; [by rewrite Nat.even_mul|done]. } { lia. }
  rewrite Z.add_0_r. intros s6 S6. eapply wp_bind, wp_do_hl; [exact S6|]. intros s7 S7. eapply wp_do_hl; [exact S7|]. intros s8 S8.
  eapply wp_hid_status; [done| |exact S8|]; [done|]. intros s9 E9. apply HQ. rewrite E9. unfold hl_mems, add_hl_mem.
  cbn [RunBootloader MagicBootKey hl_mem map]. rewrite map_app, <- !app_assoc. cbn. by rewrite <- app_assoc.
Qed.
End page.

(** C26: a page by HID report.  A SetReport request with the address of a page and the
    bytes of the page, in packets of any even size, that the host sends in its time,
    completes, and its operations leave the bytes in the page, and every other page of
    the flash memory unchanged. *)
Theorem hid_page_flashed k {H} `{Hardware H} half patience `{!DownloadHost H (2 * S half) patience} fuel far lo hi bs value index n (s : usb H hl_app) :
  1 <= k <= 8 -> (patience < fuel)%nat -> (256 <= fuel)%nat -> is_byte lo -> is_byte hi -> hi * 256 + lo <> COMMAND_STARTAPPLICATION ->
  report_address far lo hi mod 2 ^ k = 0 -> Z.of_nat (length bs) = 2 ^ k -> USB_ControlRequest (lib s) = hid_request value index n ->
  dl_stage (hw s) = mk_stage (lo :: hi :: bs) 0 -> dl_wait (hw s) = 0%nat ->
  exists s' ops, hid_ControlRequest fuel (2 ^ k) far s = (Done tt, s') /\ RunBootloader (app s') = RunBootloader (app s) /\
    hl_mem (app s') = hl_mem (app s) ++ map Spm ops ++ [RwwEnable] /\
    forall F (FM : FlashMemory F (2 ^ k)) (f : F), (forall y, 0 <= y < 2 ^ k -> buffer_word f y = 65535) ->
      let f' := spm_run k ops f in
      (forall i w, words_of bs !! i = Some w -> flash_word f' (report_address far lo hi + 2 * Z.of_nat i) = w) /\
      (forall x, ~ report_address far lo hi <= x < report_address far lo hi + 2 ^ k -> flash_word f' x = flash_word f x).
Proof.
  intros Hk Hfuel H256 Hlo Hhi Hne Hm Hlen Hreq Hst Hw. set (p := report_address far lo hi) in *.
  assert (bs <> []) as Hbs by (intros ->; pose proof (page_pos k ltac:(lia)); cbn in Hlen; lia).
  assert (wp (hid_ControlRequest fuel (2 ^ k) far) (fun _ s' => app s' = hl_mems (map Spm (PageErase p :: fill_ops p (words_of bs) ++ [PageWrite p]) ++ [RwwEnable]) (app s))
    (fun _ _ => False) s) as (o & s' & Er & [([] & -> & Ha)|(c & _ & [])])%wp_run.
  { unfold hid_ControlRequest, get_request. apply wp_bind, wp_get_mem. rewrite Hreq. cbn [bmRequestType bRequest hid_request Z.land Pos.land negb Z.eqb Pos.eqb when HID_REQ_SetReport].
    apply (wp_set_report k Hk (lib s) fuel Hfuel far lo hi bs (app s)); try done. by rewrite Hreq. }
  exists s', (PageErase p :: fill_ops p (words_of bs) ++ [PageWrite p]). rewrite Ha. split; [done|]. split; [done|]. split; [done|].
  assert (2 ^ k = 2 ^ (k - 1) * 2) as Ep by (rewrite Z.mul_comm, <- Z.pow_succ_r by lia; f_equal; lia).
  assert (2 * Z.of_nat (length (words_of bs)) = Z.of_nat (length bs)) as Hwl by (apply length_words_of; rewrite Hlen, Ep, Z.mul_comm; apply Z.even_mul).
  intros F FM f Hf. apply page_flashed; try done; [lia| | |lia].
  - unfold p, report_address, is_byte in *. destruct far; lia.
  - intros E0. rewrite E0 in Hwl. cbn in Hwl. by destruct bs.
Qed.

Definition sim_page : list Z := [12; 148; 52; 0; 12; 148; 62; 0].

Definition sim_set_report : usb (sim_dl 8) hl_app :=
  mk_usb (mk_sim_dl 8 (mk_stage (64 :: 0 :: sim_page) 0) 0) (set_request (hid_request 0 0 10) core_init) (mk_hl true 0 []) [].

(** Witness of C26: a page of 8 bytes at 64. *)
Lemma hid_page_flashed_witness :
  exists s' ops, hid_ControlRequest 256 (2 ^ 3) false sim_set_report = (Done tt, s') /\ RunBootloader (app s') = true /\
    hl_mem (app s') = [] ++ map Spm ops ++ [RwwEnable] /\
    forall F (FM : FlashMemory F (2 ^ 3)) (f : F), (forall y, 0 <= y < 2 ^ 3 -> buffer_word f y = 65535) ->
      let f' := spm_run 3 ops f in
      (forall i w, words_of sim_page !! i = Some w -> flash_word f' (64 + 2 * Z.of_nat i) = w) /\
      (forall x, ~ 64 <= x < 64 + 2 ^ 3 -> flash_word f' x = flash_word f x).
Proof. apply (hid_page_flashed 3 3 2 256 false 64 0 sim_page 0 0 10 sim_set_report); (done || lia || (red; lia)). Defined.
