(* ===== verification/VirtualFat.v ===== *)
(** The virtual disk of the Mass Storage bootloader, Bootloaders/MassStorage/Lib/
    VirtualFAT.c and .h, and its BootloaderAPI.c.

    The disk has a boot block, two copies of a FAT12 table, a directory block, and the
    flash memory and the EEPROM as the contents of two files.  A block that the host
    writes to a file is programmed at once.  [disk_app] holds the globals of the whole
    bootloader; the sizes of the memories are parameters, and so are their contents,
    a function of the accesses made so far.  The waits for the end of a
    self-programming operation are not modelled. *)

From Stdlib Require Import ZArith Lia.
From stdpp Require Import base tactics list numbers.
From S2P Require Import Prelude Posix Avr Endpoint EndpointStream Device Rndis MassStorage Flash.

Local Open Scope Z_scope.

(** * VirtualFAT.h *)

Definition SECTOR_PER_CLUSTER : Z := 4.
Definition SECTOR_SIZE_BYTES : Z := 512.
Definition CLUSTER_SIZE_BYTES : Z := SECTOR_PER_CLUSTER * SECTOR_SIZE_BYTES.
Definition FILE_SECTORS (size : Z) : Z := size / SECTOR_SIZE_BYTES + (if size mod SECTOR_SIZE_BYTES =? 0 then 0 else 1).
Definition FILE_CLUSTERS (size : Z) : Z := size / CLUSTER_SIZE_BYTES + (if size mod CLUSTER_SIZE_BYTES =? 0 then 0 else 1).
Definition FAT_TIME (hh mm ss : Z) : Z := Z.lor (Z.lor (Z.shiftl hh 11) (Z.shiftl mm 5)) (Z.shiftr ss 1).
Definition FAT_DATE (dd mm yyyy : Z) : Z := Z.lor (Z.lor (Z.shiftl (yyyy - 1980) 9) (Z.shiftl mm 5)) dd.

(** _ROT8 *)
Definition ROT8 (x : Z) : Z := Z.lor (Z.shiftr (Z.land x 0xFE) 1) (if Z.land x 1 =? 0 then 0 else 0x80).
Definition FAT_CHECKSUM (n0 : Z) (rest : list Z) : Z := u8 (foldl (fun c n => ROT8 c + n) n0 rest).

Definition FAT_FLAG_VOLUME_NAME : Z := 8.
Definition FAT_FLAG_LONG_FILE_NAME : Z := 0x0F.
Definition FAT_ORDINAL_LAST_ENTRY : Z := 64.

Definition DISK_BLOCK_BootBlock : Z := 0.
Definition DISK_BLOCK_FATBlock1 : Z := 1.
Definition DISK_BLOCK_FATBlock2 : Z := 2.
Definition DISK_BLOCK_RootFilesBlock : Z := 3.
Definition DISK_BLOCK_DataStartBlock : Z := 4.

(** The bytes of a 16-bit little endian number. *)
Definition le16 (v : Z) : list Z := [u8 v; u8 (Z.shiftr v 8)].

(** FATDirectoryEntry_t, its three variants as bytes. *)
Definition long_name_entry (Ordinal Attribute Reserved1 Checksum Reserved2 : Z) (Unicode : list Z) : list Z :=
  [Ordinal] ++ concat (map le16 (take 5 Unicode)) ++ [Attribute; Reserved1; Checksum] ++
  concat (map le16 (take 6 (drop 5 Unicode))) ++ le16 Reserved2 ++ concat (map le16 (take 2 (drop 11 Unicode))).
Definition file_entry (Filename Extension : list Z) (Attributes CreationTime CreationDate StartingCluster FileSizeBytes : Z) : list Z :=
  Filename ++ Extension ++ [Attributes] ++ replicate 10 0 ++ le16 CreationTime ++ le16 CreationDate ++ le16 StartingCluster ++ le32 FileSizeBytes.
Definition directory_entry (Name : list Z) (Attributes CreationTime CreationDate StartingCluster Reserved2 : Z) : list Z :=
  Name ++ [Attributes] ++ replicate 10 0 ++ le16 CreationTime ++ le16 CreationDate ++ le16 StartingCluster ++ le32 Reserved2.

(** * Constants of the disk *)

(** "LUFA BOOT  ", "FLASH   BIN" and "EEPROM  BIN" *)
Definition volume_label : list Z := [76; 85; 70; 65; 32; 66; 79; 79; 84; 32; 32].
Definition flash_name : list Z := [70; 76; 65; 83; 72; 32; 32; 32].
Definition eeprom_name : list Z := [69; 69; 80; 82; 79; 77; 32; 32].
Definition bin_extension : list Z := [66; 73; 78].

(** The sizes of the memories of the microcontroller, and the bytes that an uninitialised
    buffer of VirtualFAT_WriteBlock happens to hold, after the accesses made so far. *)
Record sizes : Type := mk_sizes {
  FLASHEND : Z;
  E2END : Z;
  SPM_PAGESIZE : Z;
  BOOT_START_ADDR : Z;
  AUX_BOOT_SECTION_SIZE : Z;
  StackByte : list mem_op -> nat -> Z }.

Section disk.
Context (m : sizes).

Definition FLASH_FILE_SIZE_BYTES : Z := FLASHEND m - (FLASHEND m - BOOT_START_ADDR m) - AUX_BOOT_SECTION_SIZE m.
Definition EEPROM_FILE_SIZE_BYTES : Z := E2END m.
Definition LUN_MEDIA_BLOCKS : Z := FILE_SECTORS FLASH_FILE_SIZE_BYTES + FILE_SECTORS EEPROM_FILE_SIZE_BYTES + 32.

(** .MediaDescriptor of the boot block *)
Definition MediaDescriptor : Z := 0xF8.

(** A FATBootBlock_t, 62 bytes. *)
Definition BootBlock : list Z :=
  [0xEB; 0x3C; 0x90] ++ [109; 107; 100; 111; 115; 102; 115; 0] ++ le16 SECTOR_SIZE_BYTES ++ [SECTOR_PER_CLUSTER] ++ le16 1 ++ [2] ++
  le16 (SECTOR_SIZE_BYTES / 32) ++ le16 LUN_MEDIA_BLOCKS ++ [MediaDescriptor] ++ le16 1 ++ le16 (LUN_MEDIA_BLOCKS mod 64) ++
  le16 (LUN_MEDIA_BLOCKS / 64) ++ le32 0 ++ le32 0 ++ le16 0 ++ [0x29] ++ le32 0x12345678 ++ volume_label ++ [70; 65; 84; 49; 50; 32; 32; 32].

(** The initial value of FirmwareFileEntries, five entries of 32 bytes. *)
Definition FirmwareFileEntries_init : list Z :=
  directory_entry volume_label FAT_FLAG_VOLUME_NAME 0 0 0 0 ++
  long_name_entry (Z.lor 1 FAT_ORDINAL_LAST_ENTRY) FAT_FLAG_LONG_FILE_NAME 0 (FAT_CHECKSUM 70 [76; 65; 83; 72; 32; 32; 32; 66; 73; 78]) 0
    [70; 76; 65; 83; 72; 46; 66; 73; 78; 0; 0; 0; 0] ++
  file_entry flash_name bin_extension 0 (FAT_TIME 1 1 0) (FAT_DATE 14 2 1989) 2 FLASH_FILE_SIZE_BYTES ++
  long_name_entry (Z.lor 1 FAT_ORDINAL_LAST_ENTRY) FAT_FLAG_LONG_FILE_NAME 0 (FAT_CHECKSUM 69 [69; 80; 82; 79; 77; 32; 32; 66; 73; 78]) 0
    [69; 69; 80; 82; 79; 77; 46; 66; 73; 78; 0; 0; 0] ++
  file_entry eeprom_name bin_extension 0 (FAT_TIME 1 1 0) (FAT_DATE 14 2 1989) (2 + FILE_CLUSTERS FLASH_FILE_SIZE_BYTES) EEPROM_FILE_SIZE_BYTES.
End disk.

(** * The bootloader's globals *)

Record disk_app : Type := mk_disk {
  Disk_MS_Interface : ms_info;
  RunBootloader : bool;
  MagicBootKey : Z;
  TicksSinceLastCommand : Z;
  SenseData : cells;
  FirmwareFileEntries : cells;
  disk_mem : list mem_op }.

Definition put_disk_ms (i : ms_info) (a : disk_app) : disk_app :=
  mk_disk i (RunBootloader a) (MagicBootKey a) (TicksSinceLastCommand a) (SenseData a) (FirmwareFileEntries a) (disk_mem a).
Definition set_running (b : bool) (a : disk_app) : disk_app :=
  mk_disk (Disk_MS_Interface a) b (MagicBootKey a) (TicksSinceLastCommand a) (SenseData a) (FirmwareFileEntries a) (disk_mem a).
Definition set_disk_key (k : Z) (a : disk_app) : disk_app :=
  mk_disk (Disk_MS_Interface a) (RunBootloader a) k (TicksSinceLastCommand a) (SenseData a) (FirmwareFileEntries a) (disk_mem a).
Definition set_ticks (n : Z) (a : disk_app) : disk_app :=
  mk_disk (Disk_MS_Interface a) (RunBootloader a) (MagicBootKey a) n (SenseData a) (FirmwareFileEntries a) (disk_mem a).
Definition set_sense (c : cells) (a : disk_app) : disk_app :=
  mk_disk (Disk_MS_Interface a) (RunBootloader a) (MagicBootKey a) (TicksSinceLastCommand a) c (FirmwareFileEntries a) (disk_mem a).
Definition set_entries (c : cells) (a : disk_app) : disk_app :=
  mk_disk (Disk_MS_Interface a) (RunBootloader a) (MagicBootKey a) (TicksSinceLastCommand a) (SenseData a) c (disk_mem a).
Definition add_disk_mem (ops : list mem_op) (a : disk_app) : disk_app :=
  mk_disk (Disk_MS_Interface a) (RunBootloader a) (MagicBootKey a) (TicksSinceLastCommand a) (SenseData a) (FirmwareFileEntries a) (disk_mem a ++ ops).

(** * The FAT12 table *)

(** Two bytes through a pointer. *)
Definition load16 (c : cells) (p : nat) : res Z := b0 ← load c p; b1 ← load c (p + 1); mret (b0 + 256 * b1).

Definition UpdateFAT12ClusterEntry (FATTable : cells) (Index ChainEntry : Z) : res cells :=
  let FATOffset := Z.to_nat (u8 (Index + Z.shiftr Index 1)) in
  if negb (Z.land Index 1 =? 0) then
    v ← load FATTable FATOffset;
    t ← store FATTable FATOffset (u8 (Z.lor (Z.land v 0x0F) (Z.shiftl (Z.land ChainEntry 0x0F) 4)));
    store t (FATOffset + 1) (u8 (Z.shiftr ChainEntry 4))
  else
    t ← store FATTable FATOffset (u8 ChainEntry);
    v ← load t FATOffset;
    store t (FATOffset + 1) (u8 (Z.lor (Z.land v 0xF0) (Z.shiftr ChainEntry 8))).

(** for (uint8_t i = 0; i < ChainLength; i++), with [n] entries left. *)
Fixpoint update_chain (n : nat) (i Index ChainLength : Z) (FATTable : cells) : res cells :=
  match n with
  | O => mret FATTable
  | S n' =>
      let CurrentCluster := u16 (Index + i) in
      let NextCluster := if i =? ChainLength - 1 then 0xFFF else u16 (CurrentCluster + 1) in
      t ← UpdateFAT12ClusterEntry FATTable CurrentCluster NextCluster;
      update_chain n' (i + 1) Index ChainLength t
  end.

Definition UpdateFAT12ClusterChain (FATTable : cells) (Index ChainLength : Z) : res cells :=
  update_chain (Z.to_nat (u8 ChainLength)) 0 Index (u8 ChainLength) FATTable.

(** StartingCluster of the third and of the fifth entry. *)
Definition FLASHFileStartCluster (entries : cells) : res Z := load16 entries 90.
Definition EEPROMFileStartCluster (entries : cells) : res Z := load16 entries 154.

(** The FAT blocks, on a buffer of zeros. *)
Definition fat_block (m : sizes) (entries BlockBuffer : cells) : res cells :=
  t0 ← UpdateFAT12ClusterEntry BlockBuffer 0 (Z.lor 0xF00 MediaDescriptor);
  t1 ← UpdateFAT12ClusterEntry t0 1 0xFFF;
  f ← FLASHFileStartCluster entries;
  t2 ← UpdateFAT12ClusterChain t1 f (FILE_CLUSTERS (FLASH_FILE_SIZE_BYTES m));
  e ← EEPROMFileStartCluster entries;
  UpdateFAT12ClusterChain t2 e (FILE_CLUSTERS (EEPROM_FILE_SIZE_BYTES m)).

(** * Access to the memories *)

Section blocks.
Context {H : Type} `{Hardware H} `{!Interrupts H disk_app}.
Context (fuel : nat) (m : sizes) (contents : list mem_op -> mem_op -> Z).

Abbreviation run := (prog (usb H disk_app)).

Definition disk {B} (f : disk_app -> B) : run B := get_mem (fun s => f (app s)).
Definition on_disk (f : disk_app -> disk_app) : run unit := set_mem (on_app f).
Definition do_disk (op : mem_op) : run unit := on_disk (add_disk_mem [op]).
Definition ask_disk (op : mem_op) : run Z :=
  v ← disk (fun a => contents (disk_mem a) op); do_disk op ;; mret v.

(** ** BootloaderAPI.c *)

Definition BootloaderAPI_ErasePage (Address : Z) : run unit := do_disk (Spm (PageErase Address)) ;; do_disk RwwEnable.
Definition BootloaderAPI_WritePage (Address : Z) : run unit := do_disk (Spm (PageWrite Address)) ;; do_disk RwwEnable.
Definition BootloaderAPI_FillWord (Address Word : Z) : run unit := do_disk (Spm (PageFill Address Word)).
Definition BootloaderAPI_ReadSignature (Address : Z) : run Z := ask_disk (SignatureGet Address).
Definition BootloaderAPI_ReadFuse (Address : Z) : run Z := ask_disk (LockFuseGet Address).
Definition BootloaderAPI_ReadLock : run Z := ask_disk (LockFuseGet 1).
Definition BootloaderAPI_WriteLock (LockBits : Z) : run unit := do_disk (LockBitsSet LockBits).

(** ** EEPROM *)

Definition ReadEEPROMByte (Address : Z) : run Z := ask_disk (EepromRead Address).
Definition WriteEEPROMByte (Address Data : Z) : run unit := do_disk (EepromUpdate Address Data).

(** ** Blocks of the files *)

(** FlashAddress has the type uint32_t or uint16_t. *)
Definition flash_at (z : Z) : Z := if 0xFFFF <? FLASHEND m then u32 z else u16 z.

(** for (uint16_t i = 0; i < SECTOR_SIZE_BYTES; i++) of a read of either memory, with
    [n] bytes left; [next] is the increment of the address in its type. *)
Fixpoint read_bytes (read : Z -> run Z) (next : Z -> Z) (n i : nat) (Address : Z) (BlockBuffer : cells) : run cells :=
  match n with
  | O => mret BlockBuffer
  | S n' =>
      b ← read Address;
      buf ← lift (store BlockBuffer i b);
      read_bytes read next n' (S i) (next Address) buf
  end.

(** for (uint16_t i = 0; i < SECTOR_SIZE_BYTES; i += 2) of a write, with [n] words left. *)
Fixpoint write_flash (n i : nat) (FlashAddress : Z) (BlockBuffer : cells) : run unit :=
  match n with
  | O => mret tt
  | S n' =>
      when (FlashAddress mod SPM_PAGESIZE m =? 0) (BootloaderAPI_ErasePage FlashAddress) ;;
      hi ← lift (load BlockBuffer (i + 1));
      lo ← lift (load BlockBuffer i);
      BootloaderAPI_FillWord FlashAddress (Z.lor (u16 (Z.shiftl hi 8)) lo) ;;
      let FlashAddress' := flash_at (FlashAddress + 2) in
      when (FlashAddress' mod SPM_PAGESIZE m =? 0) (BootloaderAPI_WritePage (flash_at (FlashAddress' - SPM_PAGESIZE m))) ;;
      write_flash n' (S (S i)) FlashAddress' BlockBuffer
  end.

(** The first and the last block of a file, from its first cluster and its size. *)
Definition FileStartBlock (cluster : Z) : Z := u16 (DISK_BLOCK_DataStartBlock + (cluster - 2) * SECTOR_PER_CLUSTER).
Definition FileEndBlock (cluster size : Z) : Z := u16 (FileStartBlock cluster + (FILE_SECTORS size - 1)).

Definition ReadWriteFLASHFileBlock (BlockNumber : Z) (BlockBuffer : cells) (Read : bool) : run cells :=
  entries ← disk FirmwareFileEntries;
  c ← lift (FLASHFileStartCluster entries);
  if negb ((FileStartBlock c <=? BlockNumber) && (BlockNumber <=? FileEndBlock c (FLASH_FILE_SIZE_BYTES m))) then mret BlockBuffer
  else
    let FlashAddress := flash_at ((BlockNumber - FileStartBlock c) * SECTOR_SIZE_BYTES) in
    if Read then
      read_bytes (fun p => ask_disk (FlashReadByte p)) (fun p => flash_at (p + 1)) (Z.to_nat SECTOR_SIZE_BYTES) 0 FlashAddress BlockBuffer
    else write_flash (Z.to_nat (SECTOR_SIZE_BYTES / 2)) 0 FlashAddress BlockBuffer ;; mret BlockBuffer.

Fixpoint write_eeprom (n i : nat) (EEPROMAddress : Z) (BlockBuffer : cells) : run unit :=
  match n with
  | O => mret tt
  | S n' =>
      b ← lift (load BlockBuffer i);
      WriteEEPROMByte EEPROMAddress b ;;
      write_eeprom n' (S i) (u16 (EEPROMAddress + 1)) BlockBuffer
  end.

Definition ReadWriteEEPROMFileBlock (BlockNumber : Z) (BlockBuffer : cells) (Read : bool) : run cells :=
  entries ← disk FirmwareFileEntries;
  c ← lift (EEPROMFileStartCluster entries);
  if negb ((FileStartBlock c <=? BlockNumber) && (BlockNumber <=? FileEndBlock c (EEPROM_FILE_SIZE_BYTES m))) then mret BlockBuffer
  else
    let EEPROMAddress := u16 ((BlockNumber - FileStartBlock c) * SECTOR_SIZE_BYTES) in
    if Read then read_bytes ReadEEPROMByte (fun p => u16 (p + 1)) (Z.to_nat SECTOR_SIZE_BYTES) 0 EEPROMAddress BlockBuffer
    else write_eeprom (Z.to_nat SECTOR_SIZE_BYTES) 0 EEPROMAddress BlockBuffer ;; mret BlockBuffer.

(** ** Blocks of the disk *)

(** uint8_t BlockBuffer[SECTOR_SIZE_BYTES] of VirtualFAT_WriteBlock; the bytes that the
    stream does not deliver, when it fails, are used as they are. *)
Definition stack_buffer (ops : list mem_op) : cells := map (fun i => Some (StackByte m ops i)) (seq 0 512).

Definition VirtualFAT_WriteBlock (BlockNumber : Z) : run unit :=
  buffer ← disk (fun a => stack_buffer (disk_mem a));
  r ← Endpoint_Read_Stream_LE fuel buffer SECTOR_SIZE_BYTES None;
  let BlockBuffer := r.1.2 in
  Endpoint_ClearOUT ;;
  if (BlockNumber =? DISK_BLOCK_BootBlock) || (BlockNumber =? DISK_BLOCK_FATBlock1) || (BlockNumber =? DISK_BLOCK_FATBlock2) then mret tt
  else if BlockNumber =? DISK_BLOCK_RootFilesBlock then on_disk (set_entries (take 160 BlockBuffer))
  else
    ReadWriteFLASHFileBlock BlockNumber BlockBuffer false ;;
    ReadWriteEEPROMFileBlock BlockNumber BlockBuffer false ;;
    mret tt.

(** What is put into the buffer of zeros. *)
Definition block_contents (BlockNumber : Z) (BlockBuffer : cells) : run cells :=
  if BlockNumber =? DISK_BLOCK_BootBlock then
    b ← lift (store_block BlockBuffer 0 (BootBlock m));
    b' ← lift (store b 510 0x55);
    lift (store b' 511 0xAA)
  else if (BlockNumber =? DISK_BLOCK_FATBlock1) || (BlockNumber =? DISK_BLOCK_FATBlock2) then
    entries ← disk FirmwareFileEntries;
    lift (fat_block m entries BlockBuffer)
  else if BlockNumber =? DISK_BLOCK_RootFilesBlock then
    entries ← disk FirmwareFileEntries;
    mret (entries ++ drop 160 BlockBuffer)
  else
    b ← ReadWriteFLASHFileBlock BlockNumber BlockBuffer true;
    ReadWriteEEPROMFileBlock BlockNumber b true.

Definition VirtualFAT_ReadBlock (BlockNumber : Z) : run unit :=
  b ← block_contents BlockNumber (replicate 512 (Some 0));
  Endpoint_Write_Stream_LE fuel b SECTOR_SIZE_BYTES None ;;
  Endpoint_ClearIN.
End blocks.
