(* ===== verification/DiskLoader.v ===== *)
(** The Mass Storage bootloader, Bootloaders/MassStorage: the SCSI commands of
    Lib/SCSI.c on the virtual disk, and BootloaderMassStorage.c.

    The commands are run by the Mass Storage class driver, whose callback they are.
    USB_Init and USB_USBTask of the library are parameters.  The watchdog and clock
    prescaler calls of avr-libc are not modelled; the wait for the watchdog's reset,
    and the jump to the application, end the program. *)

From Stdlib Require Import ZArith Lia.
From stdpp Require Import base tactics list numbers.
From S2P Require Import Prelude Posix Avr Endpoint EndpointStream Device Cdc Rndis MassStorage Board Flash VirtualFat.

Local Open Scope Z_scope.

(** * MassStorageClassCommon.h *)

Definition SCSI_CMD_INQUIRY : Z := 0x12.
Definition SCSI_CMD_REQUEST_SENSE : Z := 0x03.
Definition SCSI_CMD_TEST_UNIT_READY : Z := 0x00.
Definition SCSI_CMD_READ_CAPACITY_10 : Z := 0x25.
Definition SCSI_CMD_START_STOP_UNIT : Z := 0x1B.
Definition SCSI_CMD_SEND_DIAGNOSTIC : Z := 0x1D.
Definition SCSI_CMD_PREVENT_ALLOW_MEDIUM_REMOVAL : Z := 0x1E.
Definition SCSI_CMD_WRITE_10 : Z := 0x2A.
Definition SCSI_CMD_READ_10 : Z := 0x28.
Definition SCSI_CMD_VERIFY_10 : Z := 0x2F.
Definition SCSI_CMD_MODE_SENSE_6 : Z := 0x1A.
Definition SCSI_SENSE_KEY_GOOD : Z := 0x00.
Definition SCSI_SENSE_KEY_ILLEGAL_REQUEST : Z := 0x05.
Definition SCSI_ASENSE_NO_ADDITIONAL_INFORMATION : Z := 0x00.
Definition SCSI_ASENSE_INVALID_FIELD_IN_CDB : Z := 0x24.
Definition SCSI_ASENSE_INVALID_COMMAND : Z := 0x20.
Definition SCSI_ASENSE_LOGICAL_BLOCK_ADDRESS_OUT_OF_RANGE : Z := 0x21.
Definition SCSI_ASENSEQ_NO_QUALIFIER : Z := 0x00.

(** * Data of SCSI.c *)

(** A SCSI_Inquiry_Response_t, 36 bytes: "LUFA", "Bootloader", "0.00". *)
Definition InquiryData : list Z :=
  [0; 0x80; 0; 2; 0x1F; 0; 0; 0] ++ [76; 85; 70; 65; 0; 0; 0; 0] ++
  [66; 111; 111; 116; 108; 111; 97; 100; 101; 114; 0; 0; 0; 0; 0; 0] ++ [48; 46; 48; 48].

(** A SCSI_Request_Sense_Response_t, 18 bytes. *)
Definition SenseData_init : list Z := [0x70; 0; 0; 0; 0; 0; 0; 0x0A; 0; 0; 0; 0; 0; 0; 0; 0; 0; 0].

(** The key is the low half of its byte. *)
Definition SCSI_SET_SENSE (Key Acode Aqual : Z) (c : cells) : res cells :=
  v ← load c 2;
  c1 ← store c 2 (Z.lor (Z.land v 0xF0) Key);
  c2 ← store c1 12 Acode;
  store c2 13 Aqual.

(** * SCSI.c *)

Section scsi.
Context {H : Type} `{Hardware H} `{!Interrupts H disk_app}.
Context (fuel : nat) (m : sizes) (contents : list mem_op -> mem_op -> Z).

Abbreviation run := (prog (usb H disk_app)).
Abbreviation disk_ms := (ms Disk_MS_Interface).
Abbreviation on_disk_ms := (on_ms Disk_MS_Interface put_disk_ms).

Definition set_disk_sense (Key Acode Aqual : Z) : run unit :=
  c ← disk SenseData;
  c' ← lift (SCSI_SET_SENSE Key Acode Aqual c);
  on_disk (set_sense c').

(** SCSICommandData[i] *)
Definition command_byte (i : nat) : run Z := info ← disk_ms; lift (load (CommandBlock info) (15 + i)).

(** SwapEndian_16 of the two bytes at SCSICommandData[i] *)
Definition command_word (i : nat) : run Z := hi ← command_byte i; lo ← command_byte (i + 1); mret (256 * hi + lo).

(** DataTransferLength = f(DataTransferLength) *)
Definition on_length (f : Z -> Z) : run unit :=
  info ← disk_ms;
  n ← lift (load32 (CommandBlock info) 8);
  c ← lift (store32 (CommandBlock info) 8 (u32 (f n)));
  on_disk_ms (set_block c).

Definition SCSI_Command_Inquiry : run bool :=
  AllocationLength ← command_word 3;
  let BytesTransferred := Z.min AllocationLength 36 in
  b1 ← command_byte 1;
  b2 ← (if negb (Z.land b1 3 =? 0) then mret 1 else command_byte 2);
  if negb (b2 =? 0) then
    set_disk_sense SCSI_SENSE_KEY_ILLEGAL_REQUEST SCSI_ASENSE_INVALID_FIELD_IN_CDB SCSI_ASENSEQ_NO_QUALIFIER ;;
    mret false
  else
    Endpoint_Write_Stream_LE fuel (map Some InquiryData) BytesTransferred None ;;
    Endpoint_Null_Stream fuel (AllocationLength - BytesTransferred) None ;;
    Endpoint_ClearIN ;;
    on_length (fun n => n - BytesTransferred) ;;
    mret true.

Definition SCSI_Command_Request_Sense : run bool :=
  AllocationLength ← command_byte 4;
  let BytesTransferred := Z.min AllocationLength 18 in
  c ← disk SenseData;
  Endpoint_Write_Stream_LE fuel c BytesTransferred None ;;
  Endpoint_Null_Stream fuel (AllocationLength - BytesTransferred) None ;;
  Endpoint_ClearIN ;;
  on_length (fun n => n - BytesTransferred) ;;
  mret true.

Definition SCSI_Command_Read_Capacity_10 : run bool :=
  Endpoint_Write_32_BE (LUN_MEDIA_BLOCKS m - 1) ;;
  Endpoint_Write_32_BE SECTOR_SIZE_BYTES ;;
  Endpoint_ClearIN ;;
  on_length (fun n => n - 8) ;;
  mret true.

(** for (uint16_t i = 0; i < TotalBlocks; i++), with [n] blocks left. *)
Fixpoint transfer_blocks (n : nat) (i BlockAddress : Z) (IsDataRead : bool) : run unit :=
  match n with
  | O => mret tt
  | S n' =>
      (if IsDataRead then VirtualFAT_ReadBlock fuel m contents (u16 (BlockAddress + i))
       else VirtualFAT_WriteBlock fuel m contents (u16 (BlockAddress + i))) ;;
      transfer_blocks n' (i + 1) BlockAddress IsDataRead
  end.

(** The block address has four bytes, of which BlockAddress keeps the lower two. *)
Definition SCSI_Command_ReadWrite_10 (IsDataRead : bool) : run bool :=
  hi ← command_word 2;
  lo ← command_word 4;
  let BlockAddress := u16 (65536 * hi + lo) in
  TotalBlocks ← command_word 7;
  if LUN_MEDIA_BLOCKS m <=? BlockAddress then
    set_disk_sense SCSI_SENSE_KEY_ILLEGAL_REQUEST SCSI_ASENSE_LOGICAL_BLOCK_ADDRESS_OUT_OF_RANGE SCSI_ASENSEQ_NO_QUALIFIER ;;
    mret false
  else
    transfer_blocks (Z.to_nat TotalBlocks) 0 BlockAddress IsDataRead ;;
    on_length (fun n => n - TotalBlocks * SECTOR_SIZE_BYTES) ;;
    mret true.

Definition SCSI_Command_ModeSense_6 : run bool :=
  Endpoint_Write_32_LE 0 ;;
  Endpoint_ClearIN ;;
  on_length (fun n => n - 4) ;;
  mret true.

(** The switch of SCSI_DecodeSCSICommand. *)
Definition run_scsi (command : Z) : run bool :=
  if command =? SCSI_CMD_INQUIRY then SCSI_Command_Inquiry
  else if command =? SCSI_CMD_REQUEST_SENSE then SCSI_Command_Request_Sense
  else if command =? SCSI_CMD_READ_CAPACITY_10 then SCSI_Command_Read_Capacity_10
  else if command =? SCSI_CMD_WRITE_10 then SCSI_Command_ReadWrite_10 false
  else if command =? SCSI_CMD_READ_10 then SCSI_Command_ReadWrite_10 true
  else if command =? SCSI_CMD_MODE_SENSE_6 then SCSI_Command_ModeSense_6
  else if (command =? SCSI_CMD_START_STOP_UNIT) || (command =? SCSI_CMD_SEND_DIAGNOSTIC) || (command =? SCSI_CMD_TEST_UNIT_READY) ||
          (command =? SCSI_CMD_PREVENT_ALLOW_MEDIUM_REMOVAL) || (command =? SCSI_CMD_VERIFY_10) then
    when (command =? SCSI_CMD_START_STOP_UNIT) (b ← command_byte 4; on_disk (set_running (negb (Z.land b 3 =? 2)))) ;;
    on_length (fun _ => 0) ;;
    mret true
  else
    set_disk_sense SCSI_SENSE_KEY_ILLEGAL_REQUEST SCSI_ASENSE_INVALID_COMMAND SCSI_ASENSEQ_NO_QUALIFIER ;;
    mret false.

Definition SCSI_DecodeSCSICommand : run bool :=
  command ← command_byte 0;
  ok ← run_scsi command;
  if (ok : bool) then
    set_disk_sense SCSI_SENSE_KEY_GOOD SCSI_ASENSE_NO_ADDITIONAL_INFORMATION SCSI_ASENSEQ_NO_QUALIFIER ;;
    mret true
  else mret false.

(** * BootloaderMassStorage.c *)

Definition DISK_LEDMASK_NOTREADY : Z := LEDS_LED1.
Definition DISK_LEDMASK_ENUMERATING : Z := Z.lor LEDS_LED2 LEDS_LED3.
Definition DISK_LEDMASK_READY : Z := Z.lor LEDS_LED2 LEDS_LED4.
Definition DISK_LEDMASK_ERROR : Z := Z.lor LEDS_LED1 LEDS_LED3.
Definition DISK_LEDMASK_BUSY : Z := LEDS_LED2.

(** CALLBACK_MS_Device_SCSICommandReceived *)
Definition disk_command : run bool :=
  LEDs_SetAllLEDs DISK_LEDMASK_BUSY ;;
  CommandSuccess ← SCSI_DecodeSCSICommand;
  LEDs_SetAllLEDs DISK_LEDMASK_READY ;;
  on_disk (set_ticks 0) ;;
  mret CommandSuccess.

Context (USB_Init USB_USBTask : run unit).

(** For the boards other than the Leonardo and the Xplain. *)
Definition disk_Jump_Check : run unit :=
  v ← read_reg MCUSR;
  key ← disk MagicBootKey;
  when (Z.testbit v WDRF && (key =? MAGIC_BOOT_KEY)) (
    on_disk (set_disk_key 0) ;;
    exits application_exit).

Definition disk_SetupHardware : run unit :=
  clear_bits MCUSR (2 ^ WDRF) ;;
  write_reg MCUCR 1 ;;
  write_reg MCUCR 2 ;;
  LEDs_Init ;;
  USB_Init ;;
  write_reg TIMSK1 1 ;;
  write_reg TCCR1B 3.

(** RunBootloader || TicksSinceLastCommand++ < 0xFF *)
Definition keep_running : run bool :=
  go ← disk RunBootloader;
  if (go : bool) then mret true
  else
    n ← disk TicksSinceLastCommand;
    on_disk (set_ticks (u8 (n + 1))) ;;
    mret (n <? 255).

Fixpoint disk_loop (k : nat) : run unit :=
  match k with
  | O => lift (Fault OutOfFuel)
  | S k' =>
      go ← keep_running;
      if (go : bool) then
        MS_Device_USBTask fuel Disk_MS_Interface put_disk_ms disk_command ;;
        USB_USBTask ;;
        disk_loop k'
      else mret tt
  end.

Definition disk_main : run unit :=
  disk_SetupHardware ;;
  LEDs_SetAllLEDs DISK_LEDMASK_NOTREADY ;;
  set_bits SREG 128 ;;
  disk_loop fuel ;;
  USB_Detach ;;
  on_disk (set_disk_key MAGIC_BOOT_KEY) ;;
  exits watchdog_exit.

Definition disk_TIMER1_OVF : run unit := LEDs_ToggleLEDs (Z.lor LEDS_LED1 LEDS_LED2).
Definition disk_Connect : run unit := LEDs_SetAllLEDs DISK_LEDMASK_ENUMERATING.
Definition disk_Disconnect : run unit := LEDs_SetAllLEDs DISK_LEDMASK_NOTREADY.
Definition disk_ConfigurationChanged : run unit :=
  ok ← MS_Device_ConfigureEndpoints Disk_MS_Interface put_disk_ms (ordered_ConfigureEndpointTable fuel);
  LEDs_SetAllLEDs (if (ok : bool) then DISK_LEDMASK_READY else DISK_LEDMASK_ERROR).
Definition disk_ControlRequest : run unit :=
  MS_Device_ProcessControlRequest fuel Disk_MS_Interface put_disk_ms.
End scsi.

(** * The initial state *)

Definition MASS_STORAGE_IN_EPADDR : Z := Z.lor ENDPOINT_DIR_IN 3.
Definition MASS_STORAGE_OUT_EPADDR : Z := Z.lor ENDPOINT_DIR_OUT 4.
Definition MASS_STORAGE_IO_EPSIZE : Z := 64.

Definition Disk_MS_Interface_init : ms_info :=
  mk_ms 0 (mk_ep MASS_STORAGE_IN_EPADDR MASS_STORAGE_IO_EPSIZE 0 1) (mk_ep MASS_STORAGE_OUT_EPADDR MASS_STORAGE_IO_EPSIZE 0 1) 1
    (replicate 31 (Some 0)) (replicate 13 (Some 0)) false.

Definition disk_init (m : sizes) (key : Z) : disk_app :=
  mk_disk Disk_MS_Interface_init true key 0 (map Some SenseData_init) (map Some (FirmwareFileEntries_init m)) [].
