(* ===== verification/DiskSpec.v ===== *)
(** What the commands of the Mass Storage bootloader do: [disk_medium], a function of
    the bootloader's globals and of the endpoints, which the callback implements.

    A read sends the bytes of blocks ([block_read]), a write takes them from the host's
    packets ([block_write]).  Nothing is promised for a command whose transfer does not
    fit the direction that the host has announced, or whose packets the host does not
    send. *)

From Stdlib Require Import ZArith Lia.
From stdpp Require Import base tactics list numbers.
From S2P Require Import Prelude Posix Avr Endpoint EndpointStream Device Cdc Rndis RndisProofs BulkHost MassStorage MassStorageProofs Board Flash VirtualFat DiskLoader.

Local Open Scope Z_scope.

(** * Cells and bytes *)

Definition of_res {A} (r : res A) : option A := match r with Ok a => Some a | Fault _ => None end.

Lemma of_res_ok {A} (r : res A) a : of_res r = Some a -> r = Ok a.
Proof. destruct r; [|done]. by intros [= ->]. Qed.

Fixpoint bytes_of (c : cells) : option (list Z) :=
  match c with
  | [] => Some []
  | Some x :: rest => match bytes_of rest with Some bs => Some (x :: bs) | None => None end
  | None :: _ => None
  end.

Lemma bytes_of_some c : forall bs, bytes_of c = Some bs -> c = map Some bs.
Proof.
  induction c as [|[x|] c IH]; intros bs; cbn [bytes_of]; [by intros [= <-]| |done].
  destruct (bytes_of c) as [l|]; [|done]. intros [= <-]. cbn. by rewrite (IH l).
Qed.

Lemma bytes_of_map bs : bytes_of (map Some bs) = Some bs.
Proof. induction bs as [|x bs IH]; [done|]. cbn. by rewrite IH. Qed.

(** * Blocks *)

(** Consecutive addresses, and the answers to consecutive reads. *)
Fixpoint addresses (next : Z -> Z) (p : Z) (n : nat) : list Z :=
  match n with O => [] | S n' => p :: addresses next (next p) n' end.

Fixpoint answers_of (contents : list mem_op -> mem_op -> Z) (mem ops : list mem_op) : list Z :=
  match ops with [] => [] | op :: rest => contents mem op :: answers_of contents (mem ++ [op]) rest end.

Lemma length_addresses next n : forall p, length (addresses next p n) = n.
Proof. induction n as [|n IH]; intros p; [done|]. cbn. by rewrite IH. Qed.

Lemma length_answers contents ops : forall mem, length (answers_of contents mem ops) = length ops.
Proof. induction ops as [|op ops IH]; intros mem; [done|]. cbn. by rewrite IH. Qed.

Section spec.
Context (m : sizes) (contents : list mem_op -> mem_op -> Z).

Definition in_file (cluster size n : Z) : bool := (FileStartBlock cluster <=? n) && (n <=? FileEndBlock cluster size).

Definition flash_addresses (cluster n : Z) : list Z :=
  addresses (fun p => flash_at m (p + 1)) (flash_at m ((n - FileStartBlock cluster) * SECTOR_SIZE_BYTES)) 512.
Definition eeprom_addresses (cluster n : Z) : list Z :=
  addresses (fun p => u16 (p + 1)) (u16 ((n - FileStartBlock cluster) * SECTOR_SIZE_BYTES)) 512.

(** The accesses for a block of each file. *)
Definition flash_reads (cluster n : Z) : list mem_op :=
  if in_file cluster (FLASH_FILE_SIZE_BYTES m) n then map FlashReadByte (flash_addresses cluster n) else [].
Definition eeprom_reads (cluster n : Z) : list mem_op :=
  if in_file cluster (EEPROM_FILE_SIZE_BYTES m) n then map EepromRead (eeprom_addresses cluster n) else [].

(** Words are programmed in order; a page is erased before its first word and written
    after its last, and the application section is enabled again after both. *)
Fixpoint flash_writes (p : Z) (bs : list Z) : list mem_op :=
  match bs with
  | lo :: hi :: rest =>
      let p' := flash_at m (p + 2) in
      (if p mod SPM_PAGESIZE m =? 0 then [Spm (PageErase p); RwwEnable] else []) ++
      [Spm (PageFill p (Z.lor (u16 (Z.shiftl hi 8)) lo))] ++
      (if p' mod SPM_PAGESIZE m =? 0 then [Spm (PageWrite (flash_at m (p' - SPM_PAGESIZE m))); RwwEnable] else []) ++
      flash_writes p' rest
  | _ => []
  end.
Definition eeprom_writes (ps bs : list Z) : list mem_op := zip_with EepromUpdate ps bs.

(** The bytes of block [n], and the state after they were read. *)
Definition block_read (a : disk_app) (n : Z) : option (list Z * disk_app) :=
  let entries := FirmwareFileEntries a in
  if n =? DISK_BLOCK_BootBlock then Some (BootBlock m ++ replicate 448 0 ++ [0x55; 0xAA], a)
  else if (n =? DISK_BLOCK_FATBlock1) || (n =? DISK_BLOCK_FATBlock2) then
    t ← of_res (fat_block m entries (replicate 512 (Some 0))); bs ← bytes_of t; Some (bs, a)
  else if n =? DISK_BLOCK_RootFilesBlock then
    bs ← bytes_of entries; Some (bs ++ replicate 352 0, a)
  else
    f ← of_res (FLASHFileStartCluster entries);
    e ← of_res (EEPROMFileStartCluster entries);
    let fo := flash_reads f n in
    let eo := eeprom_reads e n in
    let fb := answers_of contents (disk_mem a) fo in
    let eb := answers_of contents (disk_mem a ++ fo) eo in
    Some (if in_file e (EEPROM_FILE_SIZE_BYTES m) n then eb
          else if in_file f (FLASH_FILE_SIZE_BYTES m) n then fb else replicate 512 0,
          add_disk_mem eo (add_disk_mem fo a)).

(** The state after the bytes [bs] were written to block [n]. *)
Definition block_write (a : disk_app) (n : Z) (bs : list Z) : option disk_app :=
  let entries := FirmwareFileEntries a in
  if (n =? DISK_BLOCK_BootBlock) || (n =? DISK_BLOCK_FATBlock1) || (n =? DISK_BLOCK_FATBlock2) then Some a
  else if n =? DISK_BLOCK_RootFilesBlock then Some (set_entries (map Some (take 160 bs)) a)
  else
    f ← of_res (FLASHFileStartCluster entries);
    e ← of_res (EEPROMFileStartCluster entries);
    let fo := if in_file f (FLASH_FILE_SIZE_BYTES m) n then flash_writes (flash_at m ((n - FileStartBlock f) * SECTOR_SIZE_BYTES)) bs else [] in
    let eo := if in_file e (EEPROM_FILE_SIZE_BYTES m) n then eeprom_writes (eeprom_addresses e n) bs else [] in
    Some (add_disk_mem eo (add_disk_mem fo a)).

(** ** The blocks are implemented *)

Context {H : Type} `{HW : Hardware H} {out_ep in_ep : Z} {patience : nat} `{BH : !BulkHost H out_ep in_ep patience}.
Implicit Types s : usb H disk_app.

Lemma wp_disk {B} (f : disk_app -> B) b a (Q : B -> usb H disk_app -> Prop) E s : at_bulk b a s -> Q (f a) s -> wp (disk f) Q E s.
Proof. intros [_ <-] HQ. by apply wp_get_mem. Qed.

Lemma wp_on_disk f b a (Q : unit -> usb H disk_app -> Prop) E s :
  at_bulk b a s -> (forall s', at_bulk b (f a) s' -> Q tt s') -> wp (on_disk f) Q E s.
Proof. intros [Hb <-] HQ. unfold wp, on_disk. rewrite set_mem_run. by apply HQ. Qed.

Lemma wp_ask_disk op b a (Q : Z -> usb H disk_app -> Prop) E s :
  at_bulk b a s -> (forall s', at_bulk b (add_disk_mem [op] a) s' -> Q (contents (disk_mem a) op) s') -> wp (ask_disk contents op) Q E s.
Proof.
  intros Hs HQ. unfold ask_disk. eapply wp_bind, wp_disk; [done|]. eapply wp_bind, wp_on_disk; [done|]. intros s1 S1. by apply wp_ret, HQ.
Qed.

Lemma add_disk_nil a : add_disk_mem [] a = a.
Proof. destruct a. unfold add_disk_mem. cbn. by rewrite app_nil_r. Qed.

Lemma add_disk_add ops1 ops2 a : add_disk_mem ops2 (add_disk_mem ops1 a) = add_disk_mem (ops1 ++ ops2) a.
Proof. unfold add_disk_mem. cbn. by rewrite app_assoc. Qed.

(** Reading into a buffer that is empty from [length pre] on. *)
Lemma wp_read_bytes op next b E : forall n p a pre old s (Q : cells -> usb H disk_app -> Prop),
  length old = n -> at_bulk b a s ->
  (forall s', at_bulk b (add_disk_mem (map op (addresses next p n)) a) s' ->
     Q (pre ++ map Some (answers_of contents (disk_mem a) (map op (addresses next p n)))) s') ->
  wp (read_bytes (fun p => ask_disk contents (op p)) next n (length pre) p (pre ++ old)) Q E s.
Proof.
  induction n as [|n IH]; intros p a pre old s Q Hl Hs HQ; destruct old as [|o old]; try done; cbn [read_bytes addresses map answers_of] in *.
  - apply wp_ret, HQ. by rewrite add_disk_nil.
  - eapply wp_bind, wp_ask_disk; [done|]. intros s1 S1. eapply wp_bind, wp_lift; [apply store_middle|].
    replace (S (length pre)) with (length (pre ++ [Some (contents (disk_mem a) (op p))])) by (rewrite length_app; cbn; lia).
    replace (pre ++ Some (contents (disk_mem a) (op p)) :: old) with ((pre ++ [Some (contents (disk_mem a) (op p))]) ++ old) by (by rewrite <- app_assoc).
    eapply IH; [by injection Hl|exact S1|]. intros s2 S2. rewrite <- app_assoc. apply HQ. rewrite add_disk_add in S2. exact S2.
Qed.

Lemma wp_write_flash b E : forall bs n p a pre post s (Q : unit -> usb H disk_app -> Prop),
  length bs = (2 * n)%nat -> at_bulk b a s ->
  (forall s', at_bulk b (add_disk_mem (flash_writes p bs) a) s' -> Q tt s') ->
  wp (write_flash m n (length pre) p (pre ++ map Some bs ++ post)) Q E s.
Proof.
  assert (forall (c : bool) op b a s (Q : unit -> usb H disk_app -> Prop), at_bulk b a s ->
    (forall s', at_bulk b (add_disk_mem (if c then [Spm op; RwwEnable] else []) a) s' -> Q tt s') ->
    wp (when c (do_disk (Spm op) ;; do_disk RwwEnable)) Q E s) as Hpage.
  { intros [] op b' a s Q Hs HQ; cbn [when]; [|apply wp_ret, HQ; by rewrite add_disk_nil].
    eapply wp_bind, wp_on_disk; [done|]. intros s1 S1. eapply wp_on_disk; [done|]. intros s2 S2. apply HQ. by rewrite add_disk_add in S2. }
  induction bs as [|x|lo hi bs IH] using list_pair_ind; intros n p a pre post s Q Hl Hs HQ; [|cbn in Hl; lia|].
  - destruct n; [|done]. apply wp_ret, HQ. cbn [flash_writes]. by rewrite add_disk_nil.
  - destruct n as [|n]; [done|]. cbn [write_flash flash_writes] in *. unfold BootloaderAPI_ErasePage, BootloaderAPI_WritePage, BootloaderAPI_FillWord.
    eapply wp_bind, Hpage; [done|]. intros s1 S1. cbn [map].
    eapply wp_bind, wp_lift; [|eapply wp_bind, wp_lift; [|]].
    { replace (length pre + 1)%nat with (length (pre ++ [Some lo])) by (rewrite length_app; cbn; lia).
      change (pre ++ (Some lo :: Some hi :: map Some bs) ++ post) with (pre ++ [Some lo] ++ Some hi :: map Some bs ++ post). rewrite app_assoc.
      apply load_middle. }
    { apply (load_middle pre lo). }
    eapply wp_bind, wp_on_disk; [done|]. intros s2 S2. eapply wp_bind, Hpage; [done|]. intros s3 S3.
    replace (S (S (length pre))) with (length (pre ++ [Some lo; Some hi])) by (rewrite length_app; cbn; lia).
    change (pre ++ (Some lo :: Some hi :: map Some bs) ++ post) with (pre ++ [Some lo; Some hi] ++ map Some bs ++ post). rewrite app_assoc.
    eapply IH; [cbn in Hl; lia|exact S3|]. intros s4 S4. apply HQ. by rewrite !add_disk_add in S4.
Qed.

Lemma wp_write_eeprom b E : forall bs p a pre post s (Q : unit -> usb H disk_app -> Prop), at_bulk b a s ->
  (forall s', at_bulk b (add_disk_mem (eeprom_writes (addresses (fun p => u16 (p + 1)) p (length bs)) bs) a) s' -> Q tt s') ->
  wp (write_eeprom (length bs) (length pre) p (pre ++ map Some bs ++ post)) Q E s.
Proof.
  induction bs as [|x bs IH]; intros p a pre post s Q Hs HQ; cbn [length write_eeprom addresses map] in *.
  - apply wp_ret, HQ. cbn. by rewrite add_disk_nil.
  - eapply wp_bind, wp_lift; [apply (load_middle pre x)|]. unfold WriteEEPROMByte. eapply wp_bind, wp_on_disk; [done|]. intros s1 S1.
    replace (S (length pre)) with (length (pre ++ [Some x])) by (rewrite length_app; cbn; lia).
    change (pre ++ (Some x :: map Some bs) ++ post) with (pre ++ [Some x] ++ map Some bs ++ post). rewrite app_assoc.
    eapply IH; [exact S1|]. intros s2 S2. apply HQ. by rewrite add_disk_add in S2.
Qed.

(** Lists of 512 addresses are not to be computed. *)
#[local] Opaque addresses.

Context (fuel : nat) (Hfuel : (1024 <= fuel)%nat).

Lemma Hfuel_pos : (0 < fuel)%nat.
Proof using Hfuel. lia. Qed.

Lemma wp_flash_read n buf c b a (Q : cells -> usb H disk_app -> Prop) E s :
  FLASHFileStartCluster (FirmwareFileEntries a) = Ok c -> length buf = 512%nat -> at_bulk b a s ->
  (forall s', at_bulk b (add_disk_mem (flash_reads c n) a) s' ->
     Q (if in_file c (FLASH_FILE_SIZE_BYTES m) n then map Some (answers_of contents (disk_mem a) (flash_reads c n)) else buf) s') ->
  wp (ReadWriteFLASHFileBlock m contents n buf true) Q E s.
Proof.
  intros Hc Hl Hs HQ. unfold ReadWriteFLASHFileBlock. eapply wp_bind, wp_disk; [done|]. eapply wp_bind, wp_lift; [done|].
  unfold flash_reads in HQ. unfold in_file in *. destruct ((FileStartBlock c <=? n) && _); cbn [negb].
  - by eapply (wp_read_bytes FlashReadByte _ b E 512 _ a []).
  - apply wp_ret, HQ. by rewrite add_disk_nil.
Qed.

Lemma wp_eeprom_read n buf c b a (Q : cells -> usb H disk_app -> Prop) E s :
  EEPROMFileStartCluster (FirmwareFileEntries a) = Ok c -> length buf = 512%nat -> at_bulk b a s ->
  (forall s', at_bulk b (add_disk_mem (eeprom_reads c n) a) s' ->
     Q (if in_file c (EEPROM_FILE_SIZE_BYTES m) n then map Some (answers_of contents (disk_mem a) (eeprom_reads c n)) else buf) s') ->
  wp (ReadWriteEEPROMFileBlock m contents n buf true) Q E s.
Proof.
  intros Hc Hl Hs HQ. unfold ReadWriteEEPROMFileBlock. eapply wp_bind, wp_disk; [done|]. eapply wp_bind, wp_lift; [done|].
  unfold eeprom_reads in HQ. unfold in_file in *. destruct ((FileStartBlock c <=? n) && _); cbn [negb].
  - by eapply (wp_read_bytes EepromRead _ b E 512 _ a []).
  - apply wp_ret, HQ. by rewrite add_disk_nil.
Qed.

Lemma length_reads c n : (in_file c (FLASH_FILE_SIZE_BYTES m) n = true -> length (flash_reads c n) = 512%nat) /\
  (in_file c (EEPROM_FILE_SIZE_BYTES m) n = true -> length (eeprom_reads c n) = 512%nat).
Proof. unfold flash_reads, eeprom_reads. split; intros ->; rewrite length_map; apply length_addresses. Qed.

Lemma wp_block_contents n bs a' b a (Q : cells -> usb H disk_app -> Prop) E s :
  block_read a n = Some (bs, a') -> at_bulk b a s -> (forall s', at_bulk b a' s' -> Q (map Some bs) s') ->
  wp (block_contents m contents n (replicate 512 (Some 0))) Q E s.
Proof.
  unfold block_read, block_contents. intros Hr Hs HQ. destruct (n =? DISK_BLOCK_BootBlock).
  { injection Hr as <- <-. eapply wp_bind, wp_lift; [apply (store_block_spec _ [] (replicate 62 (Some 0)) (replicate 450 (Some 0))); done|].
    eapply wp_bind, wp_lift; [reflexivity|]. eapply wp_lift; [reflexivity|]. by apply HQ. }
  destruct (_ || _).
  { destruct (of_res (fat_block _ _ _)) as [t|] eqn:Et; [|done]. cbn in Hr. destruct (bytes_of t) as [l|] eqn:El; [|done]. injection Hr as <- <-.
    eapply wp_bind, wp_disk; [done|]. eapply wp_lift; [by apply of_res_ok|]. apply bytes_of_some in El as ->. by apply HQ. }
  destruct (n =? DISK_BLOCK_RootFilesBlock).
  { destruct (bytes_of _) as [l|] eqn:El; [|done]. injection Hr as <- <-. eapply wp_bind, wp_disk; [done|]. apply wp_ret.
    apply bytes_of_some in El as ->. replace (map Some l ++ _) with (map Some (l ++ replicate 352 0)); [by apply HQ|]. by rewrite map_app. }
  destruct (of_res (FLASHFileStartCluster _)) as [f|] eqn:Ef; [|done]. destruct (of_res (EEPROMFileStartCluster _)) as [e|] eqn:Ee; [|done].
  cbn [mbind option_bind] in Hr. injection Hr as <- <-. apply of_res_ok in Ef, Ee. destruct (length_reads f n) as [Lf _].
  eapply wp_bind, wp_flash_read; [done|done|done|]. intros s1 S1.
  eapply (wp_eeprom_read n _ e b (add_disk_mem (flash_reads f n) a)); [done| |exact S1|].
  - destruct (in_file f _ n); [|done]. by rewrite length_map, length_answers, Lf.
  - intros s2 S2. destruct (in_file e _ n); [by apply HQ|]. destruct (in_file f _ n); [by apply HQ|]. by apply (HQ s2).
Qed.

Lemma wp_read_disk_block n bs a' b a (Q : unit -> usb H disk_app -> Prop) E s :
  block_read a n = Some (bs, a') -> length bs = 512%nat -> b_sel b = in_ep -> at_bulk b a s ->
  (forall s', at_bulk (hand_over (put_all b (map (wrapu 8) bs))) a' s' -> Q tt s') -> wp (VirtualFAT_ReadBlock fuel m contents n) Q E s.
Proof.
  intros Hr Hl Hsel Hs HQ. unfold VirtualFAT_ReadBlock. eapply wp_bind, wp_block_contents; [done..|]. intros s1 S1.
  rewrite <- (app_nil_r (map Some bs)). eapply wp_bind, (wp_put_stream fuel Hfuel_pos a' b bs []); [by rewrite Hl|done|lia|done|done|]. intros s2 S2.
  eapply wp_bsend; [|done|done]. by rewrite put_all_sel.
Qed.

Lemma wp_write_disk_block n bs a' b b' a (Q : unit -> usb H disk_app -> Prop) E s :
  get_all 512 b = Some (bs, b') -> block_write a n bs = Some a' -> b_sel b = out_ep -> b_rx b <> [] -> at_bulk b a s ->
  (forall s', at_bulk (fetch_rx b') a' s' -> Q tt s') -> wp (VirtualFAT_WriteBlock fuel m contents n) Q E s.
Proof.
  intros Hg Hw Hsel Hrx Hs HQ. destruct (get_all_keeps _ _ _ _ Hg) as (Hl & Hsel' & _). unfold VirtualFAT_WriteBlock.
  eapply wp_bind, wp_disk; [done|].
  eapply wp_bind, (wp_get_stream fuel Hfuel_pos a b (stack_buffer m (disk_mem a))); [done|exact Hg|done|done|cbn; lia|done|done|]. intros s1 S1.
  eapply wp_bind, wp_brelease; [|done|]; [by rewrite Hsel'|]. intros s2 S2. cbn [fst snd]. unfold block_write in Hw.
  destruct (_ || _); [injection Hw as <-; by apply wp_ret, HQ|]. destruct (n =? DISK_BLOCK_RootFilesBlock).
  { injection Hw as <-. rewrite firstn_map. eapply wp_on_disk; [done|]. done. }
  destruct (of_res (FLASHFileStartCluster _)) as [f|] eqn:Ef; [|done]. destruct (of_res (EEPROMFileStartCluster _)) as [e|] eqn:Ee; [|done].
  cbn [mbind option_bind] in Hw. injection Hw as <-. apply of_res_ok in Ef, Ee. unfold ReadWriteFLASHFileBlock, ReadWriteEEPROMFileBlock.
  eapply wp_bind, wp_bind, wp_disk; [done|]. eapply wp_bind, wp_lift; [done|].
  assert (forall a1 s3, FirmwareFileEntries a1 = FirmwareFileEntries a -> at_bulk (fetch_rx b') a1 s3 ->
    (forall s', at_bulk (fetch_rx b') (add_disk_mem (if in_file e (EEPROM_FILE_SIZE_BYTES m) n then eeprom_writes (eeprom_addresses e n) bs else []) a1) s' -> Q tt s') ->
    wp (ReadWriteEEPROMFileBlock m contents n (map Some bs) false ;; mret tt) Q E s3) as Hee.
  { intros a1 s3 Ha1 S3 HQ'. unfold ReadWriteEEPROMFileBlock. eapply wp_bind, wp_bind, wp_disk; [done|]. rewrite Ha1. eapply wp_bind, wp_lift; [done|].
    unfold in_file in HQ'. destruct ((FileStartBlock e <=? n) && _); cbn [negb].
    - apply wp_bind. change (Z.to_nat SECTOR_SIZE_BYTES) with 512%nat. rewrite <- Hl. rewrite <- (app_nil_r (map Some bs)) at 1.
      eapply (wp_write_eeprom _ E bs _ a1 []); [done|]. intros s4 S4. apply wp_ret, wp_ret, HQ'. by rewrite Hl in S4.
    - apply wp_ret, wp_ret, HQ'. by rewrite add_disk_nil. }
  unfold in_file in HQ. destruct ((FileStartBlock f <=? n) && _); cbn [negb].
  - apply wp_bind. rewrite <- (app_nil_r (map Some bs)) at 1. eapply (wp_write_flash _ E bs 256 _ a []); [by rewrite Hl|done|]. intros s4 S4. apply wp_ret.
    eapply Hee; [|exact S4|]; done.
  - apply wp_ret. eapply (Hee a); [done|done|]. intros s' S'. apply HQ. by rewrite add_disk_nil.
Qed.
(** ** The interface of the class driver is not touched *)

Lemma block_read_interface a n bs a' : block_read a n = Some (bs, a') -> Disk_MS_Interface a' = Disk_MS_Interface a.
Proof.
  unfold block_read. destruct (n =? DISK_BLOCK_BootBlock); [by intros [= _ <-]|]. destruct (_ || _).
  { destruct (of_res _) as [t|]; [|done]. cbn [mbind option_bind]. destruct (bytes_of t); [|done]. by intros [= _ <-]. }
  destruct (n =? DISK_BLOCK_RootFilesBlock); [destruct (bytes_of _); [|done]; by intros [= _ <-]|].
  destruct (of_res (FLASHFileStartCluster _)); [|done]. destruct (of_res (EEPROMFileStartCluster _)); [|done]. by intros [= _ <-].
Qed.

Lemma block_write_interface a n bs a' : block_write a n bs = Some a' -> Disk_MS_Interface a' = Disk_MS_Interface a.
Proof.
  unfold block_write. destruct (_ || _); [by intros [= <-]|]. destruct (n =? DISK_BLOCK_RootFilesBlock); [by intros [= <-]|].
  destruct (of_res (FLASHFileStartCluster _)); [|done]. destruct (of_res (EEPROMFileStartCluster _)); [|done]. by intros [= <-].
Qed.
End spec.
