(* ===== verification/DiskMedium.v ===== *)
(** The SCSI commands of the Mass Storage bootloader as a function, [disk_medium], and
    that the callback of the class driver implements it: the instance of [Medium] that
    composes the bootloader with the driver. *)

From Stdlib Require Import ZArith Lia.
From stdpp Require Import base tactics list numbers.
From S2P Require Import Prelude Posix Avr Endpoint EndpointStream Device Cdc Rndis RndisProofs BulkHost MassStorage MassStorageProofs Board Flash VirtualFat DiskLoader DiskSpec.

Local Open Scope Z_scope.

(** * The commands *)

Section medium.
Context (m : sizes) (contents : list mem_op -> mem_op -> Z).
Context {H : Type} `{HW : Hardware H} {out_ep in_ep : Z} {patience : nat} `{BH : !BulkHost H out_ep in_ep patience}.

(** [n] blocks from block [lba] on, to the host. *)
Fixpoint blocks_read (n : nat) (lba : Z) (a : disk_app) (b : bulk) : option (disk_app * bulk) :=
  match n with
  | O => Some (a, b)
  | S n' =>
      match block_read m contents a (u16 lba) with
      | Some (bs, a') =>
          if decide (length bs = 512%nat) then blocks_read n' (lba + 1) a' (hand_over (put_all b (map (wrapu 8) bs))) else None
      | None => None
      end
  end.

(** [n] blocks from the host. *)
Fixpoint blocks_written (n : nat) (lba : Z) (a : disk_app) (b : bulk) : option (disk_app * bulk) :=
  match n with
  | O => Some (a, b)
  | S n' =>
      if decide (b_rx b = []) then None
      else
        match get_all 512 b with
        | Some (bs, b') =>
            match block_write m a (u16 lba) bs with
            | Some a' => blocks_written n' (lba + 1) a' (fetch_rx b')
            | None => None
            end
        | None => None
        end
  end.

(** DataTransferLength *)
Definition with_length (f : Z -> Z) (a : disk_app) : option disk_app :=
  n ← of_res (load32 (CommandBlock (Disk_MS_Interface a)) 8);
  c ← of_res (store32 (CommandBlock (Disk_MS_Interface a)) 8 (u32 (f n)));
  Some (upd Disk_MS_Interface put_disk_ms (set_block c) a).

Definition with_sense (Key Acode : Z) (a : disk_app) : option disk_app :=
  c ← of_res (SCSI_SET_SENSE Key Acode SCSI_ASENSEQ_NO_QUALIFIER (SenseData a));
  Some (set_sense c a).

(** A command that fails with a sense code. *)
Definition refuse (Acode : Z) (a : disk_app) (b : bulk) : option (bool * disk_app * bulk) :=
  a' ← with_sense SCSI_SENSE_KEY_ILLEGAL_REQUEST Acode a; Some (false, a', b).

(** A command that returns [n] bytes, [bs] and then zeros, of which [count] are
    reported. *)
Definition answer_bytes (bs : list Z) (n count : Z) (a : disk_app) (b : bulk) : option (bool * disk_app * bulk) :=
  if decide (b_sel b = in_ep) then
    a' ← with_length (fun l => l - count) a;
    Some (true, a', hand_over (put_all (put_all b bs) (replicate (Z.to_nat n - length bs) 0)))
  else None.

(** A command that returns a fixed answer, written without a look at the bank. *)
Definition answer_fixed (bs : list Z) (a : disk_app) (b : bulk) : option (bool * disk_app * bulk) :=
  if decide (b_sel b = in_ep /\ b_tx b = []) then
    a' ← with_length (fun l => l - Z.of_nat (length bs)) a;
    Some (true, a', hand_over (with_tx bs b))
  else None.

Definition be32 (v : Z) : list Z := [u8 (Z.shiftr v 24); u8 (Z.shiftr v 16); u8 (Z.shiftr v 8); Z.land v 255].

(** READ (10) and WRITE (10) *)
Definition transfer (IsDataRead : bool) (lba count : Z) (a : disk_app) (b : bulk) : option (bool * disk_app * bulk) :=
  if LUN_MEDIA_BLOCKS m <=? lba then refuse SCSI_ASENSE_LOGICAL_BLOCK_ADDRESS_OUT_OF_RANGE a b
  else if decide (b_sel b = if IsDataRead then in_ep else out_ep) then
    match (if IsDataRead then blocks_read else blocks_written) (Z.to_nat count) lba a b with
    | Some (a', b') => a'' ← with_length (fun l => l - count * SECTOR_SIZE_BYTES) a'; Some (true, a'', b')
    | None => None
    end
  else None.

(** The command with the bytes [cdb]. *)
Definition scsi_medium (cdb : list Z) (a : disk_app) (b : bulk) : option (bool * disk_app * bulk) :=
  let byte i := nth i cdb 0 in
  let word i := 256 * byte i + byte (i + 1)%nat in
  let c := byte 0%nat in
  if c =? SCSI_CMD_INQUIRY then
    if negb (Z.land (byte 1%nat) 3 =? 0) || negb (byte 2%nat =? 0) then refuse SCSI_ASENSE_INVALID_FIELD_IN_CDB a b
    else answer_bytes (take (Z.to_nat (Z.min (word 3%nat) 36)) InquiryData) (word 3%nat) (Z.min (word 3%nat) 36) a b
  else if c =? SCSI_CMD_REQUEST_SENSE then
    bs ← bytes_of (SenseData a);
    if decide (length bs = 18%nat) then
      answer_bytes (map (wrapu 8) (take (Z.to_nat (Z.min (byte 4%nat) 18)) bs)) (byte 4%nat) (Z.min (byte 4%nat) 18) a b
    else None
  else if c =? SCSI_CMD_READ_CAPACITY_10 then answer_fixed (be32 (LUN_MEDIA_BLOCKS m - 1) ++ be32 SECTOR_SIZE_BYTES) a b
  else if c =? SCSI_CMD_WRITE_10 then transfer false (word 4%nat) (word 7%nat) a b
  else if c =? SCSI_CMD_READ_10 then transfer true (word 4%nat) (word 7%nat) a b
  else if c =? SCSI_CMD_MODE_SENSE_6 then answer_fixed [0; 0; 0; 0] a b
  else if decide (c ∈ [SCSI_CMD_START_STOP_UNIT; SCSI_CMD_SEND_DIAGNOSTIC; SCSI_CMD_TEST_UNIT_READY; SCSI_CMD_PREVENT_ALLOW_MEDIUM_REMOVAL; SCSI_CMD_VERIFY_10]) then
    let a1 := if c =? SCSI_CMD_START_STOP_UNIT then set_running (negb (Z.land (byte 4%nat) 3 =? 2)) a else a in
    a' ← with_length (fun _ => 0) a1; Some (true, a', b)
  else refuse SCSI_ASENSE_INVALID_COMMAND a b.

(** What the callback does with the command in the command block. *)
Definition disk_medium (a : disk_app) (b : bulk) : option (bool * disk_app * bulk) :=
  cdb ← bytes_of (drop 15 (CommandBlock (Disk_MS_Interface a)));
  if decide (length cdb = 16%nat /\ Forall is_byte cdb) then
    match scsi_medium cdb a b with
    | Some (true, a', b') => a'' ← with_sense SCSI_SENSE_KEY_GOOD SCSI_ASENSE_NO_ADDITIONAL_INFORMATION a'; Some (true, set_ticks 0 a'', b')
    | Some (false, a', b') => Some (false, set_ticks 0 a', b')
    | None => None
    end
  else None.

(** * The functions *)

Context (fuel : nat) (Hfuel : 131072 <= Z.of_nat fuel) (Hsize : (8 <= bulk_size)%nat).
Implicit Types s : usb H disk_app.

Lemma fuel_blocks : (1024 <= fuel)%nat.
Proof using Hfuel. clear Hsize. lia. Qed.

Lemma fuel_some : (0 < fuel)%nat.
Proof using Hfuel. clear Hsize. lia. Qed.

(** Where [f] is defined, and with the command's bytes [cdb] in the command block, the
    program ends in the state and with the result that [f] gives. *)
Definition runs (cdb : list Z) (p : prog (usb H disk_app) bool) (f : disk_app -> bulk -> option (bool * disk_app * bulk)) : Prop :=
  forall b a s (Q : bool -> usb H disk_app -> Prop) E ok a' b',
    bytes_of (drop 15 (CommandBlock (Disk_MS_Interface a))) = Some cdb -> at_bulk b a s -> f a b = Some (ok, a', b') ->
    (forall s', at_bulk b' a' s' -> Q ok s') -> wp p Q E s.

Lemma wp_transfer_read E : forall n i lba b a b' a' s (Q : unit -> usb H disk_app -> Prop),
  blocks_read n (lba + i) a b = Some (a', b') -> b_sel b = in_ep -> at_bulk b a s -> (forall s', at_bulk b' a' s' -> Q tt s') ->
  wp (transfer_blocks fuel m contents n i lba true) Q E s.
Proof.
  induction n as [|n IH]; intros i lba b a b' a' s Q Hr Hsel Hs HQ; cbn [blocks_read transfer_blocks] in *.
  - injection Hr as <- <-. by apply wp_ret, HQ.
  - destruct (block_read m contents a _) as [[bs a1]|] eqn:Er; [|done]. case_decide as Hl; [|done].
    eapply wp_bind, (wp_read_disk_block m contents fuel fuel_blocks); [done..|]. intros s1 S1.
    rewrite <- Z.add_assoc in Hr. eapply IH; [exact Hr| |exact S1|exact HQ]. cbn. by rewrite put_all_sel.
Qed.

Lemma wp_transfer_write E : forall n i lba b a b' a' s (Q : unit -> usb H disk_app -> Prop),
  blocks_written n (lba + i) a b = Some (a', b') -> b_sel b = out_ep -> at_bulk b a s -> (forall s', at_bulk b' a' s' -> Q tt s') ->
  wp (transfer_blocks fuel m contents n i lba false) Q E s.
Proof.
  induction n as [|n IH]; intros i lba b a b' a' s Q Hr Hsel Hs HQ; cbn [blocks_written transfer_blocks] in *.
  - injection Hr as <- <-. by apply wp_ret, HQ.
  - case_decide as Hrx; [done|]. destruct (get_all 512 b) as [[bs b1]|] eqn:Eg; [|done]. destruct (block_write m a _ bs) as [a1|] eqn:Ew; [|done].
    eapply wp_bind, (wp_write_disk_block m contents fuel fuel_blocks); [done..|]. intros s1 S1.
    rewrite <- Z.add_assoc in Hr. eapply IH; [exact Hr| |exact S1|exact HQ]. cbn. by destruct (get_all_keeps _ _ _ _ Eg) as (_ & -> & _).
Qed.

Lemma wp_on_length f b a a' s (Q : unit -> usb H disk_app -> Prop) E :
  with_length f a = Some a' -> at_bulk b a s -> (forall s', at_bulk b a' s' -> Q tt s') -> wp (on_length f) Q E s.
Proof.
  unfold with_length. intros Hw Hs HQ. destruct (of_res (load32 _ 8)) as [n|] eqn:En; [|done]. cbn [mbind option_bind] in Hw.
  destruct (of_res (store32 _ 8 _)) as [c|] eqn:Ec; [|done]. injection Hw as <-. apply of_res_ok in En, Ec.
  unfold on_length. eapply wp_bind, wp_ms; [done|]. eapply wp_bind, wp_lift; [done|]. eapply wp_bind, wp_lift; [done|]. by eapply wp_on_ms.
Qed.

Lemma wp_sense Key Acode b a a' s (Q : unit -> usb H disk_app -> Prop) E :
  with_sense Key Acode a = Some a' -> at_bulk b a s -> (forall s', at_bulk b a' s' -> Q tt s') ->
  wp (set_disk_sense Key Acode SCSI_ASENSEQ_NO_QUALIFIER) Q E s.
Proof.
  unfold with_sense. intros Hw Hs HQ. destruct (of_res (SCSI_SET_SENSE _ _ _ _)) as [c|] eqn:Ec; [|done]. injection Hw as <-. apply of_res_ok in Ec.
  unfold set_disk_sense. eapply wp_bind, wp_disk; [done|]. eapply wp_bind, wp_lift; [done|]. by eapply wp_on_disk.
Qed.

Lemma runs_refuse cdb Acode :
  runs cdb (set_disk_sense SCSI_SENSE_KEY_ILLEGAL_REQUEST Acode SCSI_ASENSEQ_NO_QUALIFIER ;; mret false) (refuse Acode).
Proof.
  intros b a s Q E ok a' b' _ Hs Hf HQ. unfold refuse in Hf. destruct (with_sense _ _ a) as [a1|] eqn:Ew; [|done]. injection Hf as <- <- <-.
  eapply wp_bind, wp_sense; [done..|]. intros s1 S1. by apply wp_ret, HQ.
Qed.

(** The command's bytes. *)
Lemma wp_byte cdb i b a s (Q : Z -> usb H disk_app -> Prop) E :
  bytes_of (drop 15 (CommandBlock (Disk_MS_Interface a))) = Some cdb -> (i < length cdb)%nat -> at_bulk b a s -> Q (nth i cdb 0) s ->
  wp (command_byte i) Q E s.
Proof.
  intros Hc Hi Hs HQ. unfold command_byte. eapply wp_bind, wp_ms; [done|]. eapply wp_lift; [|exact HQ]. apply bytes_of_some in Hc.
  unfold load. rewrite <- lookup_drop, Hc, list_lookup_fmap. destruct (lookup_lt_is_Some_2 cdb i Hi) as [x Hx].
  rewrite Hx. by rewrite (nth_lookup_Some _ _ _ _ Hx).
Qed.

Lemma wp_word cdb i b a s (Q : Z -> usb H disk_app -> Prop) E :
  bytes_of (drop 15 (CommandBlock (Disk_MS_Interface a))) = Some cdb -> (i + 1 < length cdb)%nat -> at_bulk b a s ->
  Q (256 * nth i cdb 0 + nth (i + 1)%nat cdb 0) s -> wp (command_word i) Q E s.
Proof.
  intros Hc Hi Hs HQ. unfold command_word. eapply wp_bind, wp_byte; [done|lia|done|]. eapply wp_bind, wp_byte; [done|lia|done|]. by apply wp_ret.
Qed.

(** ** Answers *)

Lemma wp_answer_bytes bs post n b a s (Q : bool -> usb H disk_app -> Prop) E ok a' b' :
  answer_bytes (map (wrapu 8) bs) n (Z.of_nat (length bs)) a b = Some (ok, a', b') -> Z.of_nat (length bs) <= n < 65536 -> at_bulk b a s ->
  (forall s', at_bulk b' a' s' -> Q ok s') ->
  wp (Endpoint_Write_Stream_LE fuel (map Some bs ++ post) (Z.of_nat (length bs)) None ;;
      Endpoint_Null_Stream fuel (n - Z.of_nat (length bs)) None ;;
      Endpoint_ClearIN ;;
      on_length (fun l => l - Z.of_nat (length bs)) ;;
      mret true) Q E s.
Proof.
  unfold answer_bytes. intros Hf Hn Hs HQ. case_decide as Hsel; [|done]. destruct (with_length _ a) as [a1|] eqn:Ew; [|done]. injection Hf as <- <- <-.
  eapply wp_bind, (wp_put_stream fuel fuel_some a b bs post); [done|done|lia|lia|done|]. intros s1 S1.
  eapply wp_bind, (wp_null_stream fuel fuel_some a (put_all b (map (wrapu 8) bs))); [by rewrite put_all_sel|lia|lia|exact S1|]. intros s2 S2.
  eapply wp_bind, wp_bsend; [|exact S2|]; [by rewrite !put_all_sel|]. intros s3 S3.
  eapply wp_bind, wp_on_length; [exact Ew|exact S3|]. intros s4 S4. apply wp_ret, HQ. rewrite length_map.
  by replace (Z.to_nat n - length bs)%nat with (Z.to_nat (n - Z.of_nat (length bs))) by lia.
Qed.

Lemma wp_put_reg v tx b a s (Q : unit -> usb H disk_app -> Prop) E :
  b_sel b = in_ep -> (length tx < 8)%nat -> is_byte v -> at_bulk (with_tx tx b) a s ->
  (forall s', at_bulk (with_tx (tx ++ [v]) b) a s' -> Q tt s') -> wp (write_reg UEDATX v) Q E s.
Proof.
  intros Hsel Hl Hv [Hb Ha] HQ. apply wp_write_reg, HQ. split; [|done]. cbn. rewrite bulk_put; rewrite ?Hb; done || (cbn; lia).
Qed.

Lemma wp_answer_fixed p bs b a s (Q : bool -> usb H disk_app -> Prop) E ok a' b' :
  (forall (Q : unit -> usb H disk_app -> Prop) s, b_sel b = in_ep -> at_bulk (with_tx [] b) a s ->
     (forall s', at_bulk (with_tx bs b) a s' -> Q tt s') -> wp p Q E s) ->
  answer_fixed bs a b = Some (ok, a', b') -> at_bulk b a s -> (forall s', at_bulk b' a' s' -> Q ok s') ->
  wp (p ;; Endpoint_ClearIN ;; on_length (fun l => l - Z.of_nat (length bs)) ;; mret true) Q E s.
Proof.
  unfold answer_fixed. intros Hp Hf Hs HQ. case_decide as Hd; [|done]. destruct Hd as [Hsel Htx]. destruct (with_length _ a) as [a1|] eqn:Ew; [|done].
  injection Hf as <- <- <-. eapply wp_bind, Hp; [done| |].
  - replace (with_tx [] b) with b; [done|]. destruct b; cbn in *. by subst.
  - intros s1 S1. eapply wp_bind, wp_bsend; [|exact S1|]; [done|]. intros s2 S2. eapply wp_bind, wp_on_length; [exact Ew|exact S2|]. intros s3 S3. by apply wp_ret, HQ.
Qed.

Lemma land_byte v : is_byte (Z.land v 255).
Proof. change 255 with (Z.ones 8). rewrite Z.land_ones by lia. apply u8_is_byte. Qed.

Lemma wp_write_be32 v tx b a s (Q : unit -> usb H disk_app -> Prop) E :
  b_sel b = in_ep -> (length tx <= 4)%nat -> at_bulk (with_tx tx b) a s -> (forall s', at_bulk (with_tx (tx ++ be32 v) b) a s' -> Q tt s') ->
  wp (Endpoint_Write_32_BE v) Q E s.
Proof.
  intros Hsel Hl Hs HQ. unfold Endpoint_Write_32_BE.
  eapply wp_bind, (wp_put_reg _ tx b); [done|lia|apply u8_is_byte|done|]. intros s1 S1.
  eapply wp_bind, wp_put_reg; [| |apply u8_is_byte|exact S1|]; [done|rewrite length_app; cbn; lia|]. intros s2 S2.
  eapply wp_bind, wp_put_reg; [| |apply u8_is_byte|exact S2|]; [done|rewrite !length_app; cbn; lia|]. intros s3 S3.
  eapply wp_put_reg; [| |apply land_byte|exact S3|]; [done|rewrite !length_app; cbn; lia|]. intros s4 S4. apply HQ. by rewrite <- !app_assoc in S4.
Qed.

(** ** Commands *)

Context (cdb : list Z) (Hlen : length cdb = 16%nat) (Hcdb : Forall is_byte cdb).

Lemma byte_range i : (i < 16)%nat -> is_byte (nth i cdb 0).
Proof using Hlen Hcdb. clear Hsize Hfuel. intros Hi. apply List.Forall_nth; [done|lia]. Qed.

Lemma runs_inquiry : runs cdb (SCSI_Command_Inquiry fuel) (fun a b =>
  let n := 256 * nth 3 cdb 0 + nth (3 + 1) cdb 0 in
  if negb (Z.land (nth 1 cdb 0) 3 =? 0) || negb (nth 2 cdb 0 =? 0) then refuse SCSI_ASENSE_INVALID_FIELD_IN_CDB a b
  else answer_bytes (take (Z.to_nat (Z.min n 36)) InquiryData) n (Z.min n 36) a b).
Proof using All.
  intros b a s Q E ok a' b' Hc Hs Hf HQ. cbv zeta in Hf. pose proof (byte_range 3 ltac:(lia)) as B3. pose proof (byte_range (3 + 1) ltac:(lia)) as B4. unfold is_byte in *.
  unfold SCSI_Command_Inquiry. eapply wp_bind, wp_word; [done|lia|done|]. set (n := 256 * nth 3 cdb 0 + nth (3 + 1) cdb 0) in *.
  eapply wp_bind, wp_byte; [done|lia|done|].
  assert (wp (if negb ((if negb (Z.land (nth 1 cdb 0) 3 =? 0) then 1 else nth 2 cdb 0) =? 0) then
      set_disk_sense SCSI_SENSE_KEY_ILLEGAL_REQUEST SCSI_ASENSE_INVALID_FIELD_IN_CDB SCSI_ASENSEQ_NO_QUALIFIER ;; mret false
    else Endpoint_Write_Stream_LE fuel (map Some InquiryData) (Z.min n 36) None ;; Endpoint_Null_Stream fuel (n - Z.min n 36) None ;;
      Endpoint_ClearIN ;; on_length (fun l => l - Z.min n 36) ;; mret true) Q E s) as Hgo.
  { assert (negb ((if negb (Z.land (nth 1 cdb 0) 3 =? 0) then 1 else nth 2 cdb 0) =? 0) =
      negb (Z.land (nth 1 cdb 0) 3 =? 0) || negb (nth 2 cdb 0 =? 0)) as -> by (by destruct (negb (Z.land _ _ =? 0))).
    destruct (_ || _) eqn:Ec; [by eapply (runs_refuse cdb)|].
    set (k := Z.to_nat (Z.min n 36)) in *. assert (length (take k InquiryData) = k) as El by (rewrite length_take; change (length InquiryData) with 36%nat; lia).
    assert (Z.min n 36 = Z.of_nat (length (take k InquiryData))) as En by lia.
    rewrite <- (take_drop k InquiryData) at 1. rewrite map_app, En.
    eapply (wp_answer_bytes (take k InquiryData)); [|lia|done|done]. rewrite map_u8_bytes; [by rewrite <- En|].
    apply Forall_take. repeat constructor; done. }
  apply wp_bind. destruct (negb (Z.land (nth 1 cdb 0) 3 =? 0)); [by apply wp_ret|]. eapply wp_byte; [done|lia|done|]. exact Hgo.
Qed.

Lemma runs_sense : runs cdb (SCSI_Command_Request_Sense fuel) (fun a b =>
  bs ← bytes_of (SenseData a);
  if decide (length bs = 18%nat) then
    answer_bytes (map (wrapu 8) (take (Z.to_nat (Z.min (nth 4 cdb 0) 18)) bs)) (nth 4 cdb 0) (Z.min (nth 4 cdb 0) 18) a b
  else None).
Proof using All.
  intros b a s Q E ok a' b' Hc Hs Hf HQ. pose proof (byte_range 4 ltac:(lia)) as B4. unfold is_byte in *.
  destruct (bytes_of (SenseData a)) as [bs|] eqn:Eb; [|done]. cbn [mbind option_bind] in Hf. case_decide as Hl; [|done]. apply bytes_of_some in Eb.
  unfold SCSI_Command_Request_Sense. eapply wp_bind, wp_byte; [done|lia|done|]. eapply wp_bind, wp_disk; [done|]. rewrite Eb.
  set (n := nth 4 cdb 0) in *. set (k := Z.to_nat (Z.min n 18)) in *. assert (length (take k bs) = k) as El by (rewrite length_take; lia).
  assert (Z.min n 18 = Z.of_nat (length (take k bs))) as En by lia. rewrite <- (take_drop k bs) at 1. rewrite map_app, En.
  eapply (wp_answer_bytes (take k bs)); [|lia|done|done]. by rewrite <- En.
Qed.

Lemma runs_transfer IsDataRead : runs cdb (SCSI_Command_ReadWrite_10 fuel m contents IsDataRead)
  (transfer IsDataRead (256 * nth 4 cdb 0 + nth (4 + 1) cdb 0) (256 * nth 7 cdb 0 + nth (7 + 1) cdb 0)).
Proof using All.
  intros b a s Q E ok a' b' Hc Hs Hf HQ. unfold SCSI_Command_ReadWrite_10.
  pose proof (byte_range 4 ltac:(lia)) as B4. pose proof (byte_range (4 + 1) ltac:(lia)) as B5. unfold is_byte in *.
  eapply wp_bind, wp_word; [done|lia|done|]. eapply wp_bind, wp_word; [done|lia|done|]. eapply wp_bind, wp_word; [done|lia|done|].
  set (lba := 256 * nth 4 cdb 0 + nth (4 + 1) cdb 0) in *. set (n := 256 * nth 7 cdb 0 + nth (7 + 1) cdb 0) in *.
  assert (u16 (65536 * (256 * nth 2 cdb 0 + nth (2 + 1) cdb 0) + lba) = lba) as ->
    by (unfold wrapu; change (2 ^ 16) with 65536; rewrite Z.mul_comm, Z.add_comm, Z.mod_add, Z.mod_small; lia).
  unfold transfer in Hf. destruct (LUN_MEDIA_BLOCKS m <=? lba); [by eapply (runs_refuse cdb)|]. case_decide as Hsel; [|done].
  destruct ((if IsDataRead then blocks_read else blocks_written) (Z.to_nat n) lba a b) as [[a1 b1]|] eqn:Eb; [|done].
  destruct (with_length _ a1) as [a2|] eqn:Ew; [|done]. injection Hf as <- <- <-.
  assert (forall (Q : unit -> usb H disk_app -> Prop), (forall s', at_bulk b1 a1 s' -> Q tt s') ->
    wp (transfer_blocks fuel m contents (Z.to_nat n) 0 lba IsDataRead) Q E s) as Ht.
  { intros Q' HQ'. rewrite <- (Z.add_0_r lba) in Eb. destruct IsDataRead; [by eapply wp_transfer_read|by eapply wp_transfer_write]. }
  apply wp_bind, Ht. intros s1 S1. eapply wp_bind, wp_on_length; [exact Ew|exact S1|]. intros s2 S2. by apply wp_ret, HQ.
Qed.

Lemma runs_scsi : runs cdb (run_scsi fuel m contents (nth 0 cdb 0)) (scsi_medium cdb).
Proof using All.
  intros b a s Q E ok a' b' Hc Hs Hf HQ. unfold run_scsi, scsi_medium in *. set (c := nth 0 cdb 0) in *.
  destruct (c =? SCSI_CMD_INQUIRY); [by eapply runs_inquiry|]. destruct (c =? SCSI_CMD_REQUEST_SENSE); [by eapply runs_sense|].
  destruct (c =? SCSI_CMD_READ_CAPACITY_10).
  { pose proof (wp_answer_fixed (Endpoint_Write_32_BE (LUN_MEDIA_BLOCKS m - 1) ;; Endpoint_Write_32_BE SECTOR_SIZE_BYTES)
      (be32 (LUN_MEDIA_BLOCKS m - 1) ++ be32 SECTOR_SIZE_BYTES) b a s Q E ok a' b') as Hw.
    assert (wp ((Endpoint_Write_32_BE (LUN_MEDIA_BLOCKS m - 1) ;; Endpoint_Write_32_BE SECTOR_SIZE_BYTES) ;; Endpoint_ClearIN ;;
      on_length (fun l => l - 8) ;; mret true) Q E s) as Hw'.
    { apply Hw; [|done..]. intros Q' s' Hsel Hs' HQ'. eapply wp_bind, (wp_write_be32 _ []); [done|cbn; lia|done|]. intros s1 S1.
      eapply wp_write_be32; [|  |exact S1|]; [done|cbn; lia|]. exact HQ'. }
    unfold SCSI_Command_Read_Capacity_10. unfold wp, mbind, prog_bind in *. destruct (Endpoint_Write_32_BE (LUN_MEDIA_BLOCKS m - 1) s) as [[] s1]; done. }
  destruct (c =? SCSI_CMD_WRITE_10); [by eapply runs_transfer|]. destruct (c =? SCSI_CMD_READ_10); [by eapply runs_transfer|].
  destruct (c =? SCSI_CMD_MODE_SENSE_6).
  { eapply (wp_answer_fixed (Endpoint_Write_32_LE 0) [0; 0; 0; 0]); [|done..]. intros Q' s' Hsel Hs' HQ'. unfold Endpoint_Write_32_LE.
    eapply wp_bind, (wp_put_reg _ [] b); [done|cbn; lia|done|done|]. intros s1 S1. eapply wp_bind, wp_put_reg; [| | |exact S1|]; [done|cbn; lia|done|]. intros s2 S2.
    eapply wp_bind, wp_put_reg; [| | |exact S2|]; [done|cbn; lia|done|]. intros s3 S3. eapply wp_put_reg; [| | |exact S3|]; [done|cbn; lia|done|]. exact HQ'. }
  destruct ((c =? SCSI_CMD_START_STOP_UNIT) || _ || _ || _ || _) eqn:Ec.
  - rewrite decide_True in Hf.
    2: { rewrite !orb_true_iff, !Z.eqb_eq in Ec. rewrite !elem_of_cons. tauto. }
    destruct (with_length _ _) as [a1|] eqn:Ew; [|done]. injection Hf as <- <- <-. apply wp_bind.
    destruct (c =? SCSI_CMD_START_STOP_UNIT); cbn [when].
    + eapply wp_bind, wp_byte; [done|lia|done|]. eapply wp_on_disk; [done|]. intros s1 S1.
      eapply wp_bind, wp_on_length; [exact Ew|exact S1|]. intros s2 S2. by apply wp_ret, HQ.
    + apply wp_ret. eapply wp_bind, wp_on_length; [exact Ew|done|]. intros s2 S2. by apply wp_ret, HQ.
  - rewrite decide_False in Hf; [by eapply (runs_refuse cdb)|]. rewrite !orb_false_iff, !Z.eqb_neq in Ec. rewrite !elem_of_cons, elem_of_nil. tauto.
Qed.
End medium.

(** * The callback *)

Section callback.
Context (m : sizes) (contents : list mem_op -> mem_op -> Z).
Context {H : Type} `{HW : Hardware H} {out_ep in_ep : Z} {patience : nat} `{BH : !BulkHost H out_ep in_ep patience}.
Context (fuel : nat) (Hfuel : 131072 <= Z.of_nat fuel) (Hsize : (8 <= bulk_size)%nat).

Lemma wp_disk_command b a s (Q : bool -> usb H disk_app -> Prop) E ok a' b' :
  disk_medium m contents a b = Some (ok, a', b') -> at_bulk b a s -> (forall s', at_bulk b' a' s' -> Q ok s') -> wp (disk_command fuel m contents) Q E s.
Proof using Hfuel Hsize.
  unfold disk_medium. intros Hf Hs HQ. destruct (bytes_of _) as [cdb|] eqn:Ec; [|done]. cbn [mbind option_bind] in Hf.
  case_decide as Hd; [|done]. destruct Hd as [Hlen Hcdb]. destruct (scsi_medium m contents cdb a b) as [[[ok1 a1] b1]|] eqn:Em; [|done].
  unfold disk_command. eapply wp_bind, wp_leds; [done|]. intros s1 S1. unfold SCSI_DecodeSCSICommand. apply wp_bind.
  eapply wp_bind, wp_byte; [done|lia|done|]. eapply wp_bind, (runs_scsi m contents fuel Hfuel Hsize cdb Hlen Hcdb); [done..|]. intros s2 S2.
  assert (forall a2 ok' s3, at_bulk b1 a2 s3 -> (forall s', at_bulk b1 (set_ticks 0 a2) s' -> Q ok' s') ->
    wp (LEDs_SetAllLEDs DISK_LEDMASK_READY ;; on_disk (set_ticks 0) ;; mret ok') Q E s3) as Hend.
  { intros a2 ok' s3 S3 HQ'. eapply wp_bind, wp_leds; [done|]. intros s4 S4. eapply wp_bind, wp_on_disk; [done|]. intros s5 S5. by apply wp_ret, HQ'. }
  destruct ok1.
  - destruct (with_sense _ _ a1) as [a2|] eqn:Ew; [|done]. injection Hf as <- <- <-. eapply wp_bind, wp_sense; [exact Ew|done|]. intros s3 S3.
    apply wp_ret. by eapply Hend.
  - injection Hf as <- <- <-. apply wp_ret. by eapply Hend.
Qed.

(** ** What the commands leave alone *)

(** The interface keeps everything but DataTransferLength, and nothing is left unsent. *)
Definition spares (a : disk_app) (b : bulk) (a' : disk_app) (b' : bulk) : Prop :=
  (Disk_MS_Interface a' = Disk_MS_Interface a \/
   exists v c, store32 (CommandBlock (Disk_MS_Interface a)) 8 (u32 v) = Ok c /\ Disk_MS_Interface a' = set_block c (Disk_MS_Interface a)) /\
  (b_tx b = [] -> b_tx b' = []) /\ b_halt_out b' = b_halt_out b /\ b_halt_in b' = b_halt_in b.

Lemma spares_length f a b a' b' a'' :
  Disk_MS_Interface a' = Disk_MS_Interface a -> (b_tx b = [] -> b_tx b' = []) /\ b_halt_out b' = b_halt_out b /\ b_halt_in b' = b_halt_in b ->
  with_length f a' = Some a'' -> spares a b a'' b'.
Proof.
  unfold with_length. intros Hi Hb Hw. rewrite Hi in Hw. destruct (of_res (load32 _ 8)) as [n|] eqn:En; [|done]. cbn [mbind option_bind] in Hw.
  destruct (of_res (store32 _ 8 _)) as [c|] eqn:Ec; [|done]. injection Hw as <-. apply of_res_ok in Ec. split; [|done]. right. exists (f n), c. split; [done|].
  unfold upd. cbn. by rewrite Hi.
Qed.

Lemma spares_blocks n : forall lba a b a' b',
  (blocks_read m contents n lba a b = Some (a', b') \/ blocks_written m n lba a b = Some (a', b')) ->
  Disk_MS_Interface a' = Disk_MS_Interface a /\ (b_tx b = [] -> b_tx b' = []) /\ b_halt_out b' = b_halt_out b /\ b_halt_in b' = b_halt_in b.
Proof.
  induction n as [|n IH]; intros lba a b a' b'; cbn [blocks_read blocks_written]; [by intros [[= <- <-]|[= <- <-]]|]. intros [Hr|Hw].
  - destruct (block_read _ _ _ _) as [[bs a1]|] eqn:Er; [|done]. case_decide; [|done].
    destruct (IH _ _ _ _ _ (or_introl Hr)) as (-> & Ht & -> & ->). destruct (put_all_keeps (map (wrapu 8) bs) b) as (_ & _ & E1 & E2 & _). cbn. rewrite E1, E2.
    split; [by eapply block_read_interface|split; [intros _; by apply Ht|done]].
  - case_decide; [done|]. destruct (get_all 512 b) as [[bs b1]|] eqn:Eg; [|done]. destruct (block_write _ _ _ _) as [a1|] eqn:Ew; [|done].
    destruct (IH _ _ _ _ _ (or_intror Hw)) as (-> & Ht & -> & ->). apply get_all_keeps in Eg as (_ & _ & E0 & _ & E1 & E2). cbn in *. rewrite E1, E2.
    split; [by eapply block_write_interface|split; [intros Hb; apply Ht; by rewrite E0|done]].
Qed.

Lemma spares_refuse Acode a b ok a' b' : refuse Acode a b = Some (ok, a', b') -> spares a b a' b'.
Proof. unfold refuse, with_sense. intros Hr. simplify_option_eq. split; [by left|done]. Qed.

Lemma spares_bytes bs n count a b ok a' b' : answer_bytes (in_ep := in_ep) bs n count a b = Some (ok, a', b') -> spares a b a' b'.
Proof.
  unfold answer_bytes. intros Hr. simplify_option_eq. eapply spares_length; [done| |done].
  destruct (put_all_keeps bs b) as (_ & _ & E1 & E2 & _). destruct (put_all_keeps (replicate (Z.to_nat n - length bs) 0) (put_all b bs)) as (_ & _ & E3 & E4 & _).
  cbn. by rewrite E3, E4, E1, E2.
Qed.

Lemma spares_fixed bs a b ok a' b' : answer_fixed (in_ep := in_ep) bs a b = Some (ok, a', b') -> spares a b a' b'.
Proof. unfold answer_fixed. intros Hr. simplify_option_eq. by eapply spares_length. Qed.

Lemma spares_transfer IsDataRead lba count a b ok a' b' :
  transfer (out_ep := out_ep) (in_ep := in_ep) m contents IsDataRead lba count a b = Some (ok, a', b') -> spares a b a' b'.
Proof.
  unfold transfer. destruct (_ <=? _); [apply spares_refuse|]. case_decide; [|done]. intros Hr.
  destruct ((if IsDataRead then _ else _) _ _ _ _) as [[a1 b1]|] eqn:Eb; [|done].
  destruct (with_length _ a1) as [a2|] eqn:Ew; [|done]. injection Hr as <- <- <-.
  destruct (spares_blocks (Z.to_nat count) lba a b a1 b1) as (Hi & Hb); [destruct IsDataRead; by auto|]. by eapply spares_length.
Qed.

Lemma spares_medium a b ok a' b' : disk_medium (out_ep := out_ep) (in_ep := in_ep) m contents a b = Some (ok, a', b') -> spares a b a' b'.
Proof.
  unfold disk_medium. intros Hf. destruct (bytes_of _) as [cdb|]; [|done]. cbn [mbind option_bind] in Hf. case_decide; [|done].
  destruct (scsi_medium m contents cdb a b) as [[[ok1 a1] b1]|] eqn:Em; [|done].
  assert (spares a b a1 b1) as Hsp.
  { unfold scsi_medium in Em. destruct (_ =? SCSI_CMD_INQUIRY); [destruct (_ || _); [by eapply spares_refuse|by eapply spares_bytes]|].
    destruct (_ =? SCSI_CMD_REQUEST_SENSE).
    { destruct (bytes_of _) as [l|]; [|done]. cbn [mbind option_bind] in Em. case_decide; [|done]. by eapply spares_bytes. }
    destruct (_ =? SCSI_CMD_READ_CAPACITY_10); [by eapply spares_fixed|]. destruct (_ =? SCSI_CMD_WRITE_10); [by eapply spares_transfer|].
    destruct (_ =? SCSI_CMD_READ_10); [by eapply spares_transfer|]. destruct (_ =? SCSI_CMD_MODE_SENSE_6); [by eapply spares_fixed|].
    case_decide; [|by eapply spares_refuse]. destruct (with_length _ _) as [a2|] eqn:Ew; [|done]. injection Em as <- <- <-.
    eapply spares_length; [|done|exact Ew]. by destruct (_ =? SCSI_CMD_START_STOP_UNIT). }
  unfold with_sense in Hf. destruct ok1.
  - destruct (of_res _) as [c|]; [|done]. by injection Hf as <- <- <-.
  - by injection Hf as <- <- <-.
Qed.

#[export] Instance disk_medium_ok :
  Medium (out_ep := out_ep) (in_ep := in_ep) Disk_MS_Interface (disk_command fuel m contents) (disk_medium (out_ep := out_ep) (in_ep := in_ep) m contents).
Proof using Hfuel Hsize.
  split.
  - intros s ok a' b' Hm. destruct (wp_run _ _ _ _ (wp_disk_command (bulk_of (hw s)) (app s) s (fun ok' s' => ok' = ok /\ at_bulk b' a' s') (fun _ _ => False) ok a' b' Hm
      (conj eq_refl eq_refl) (fun s' Hs' => conj eq_refl Hs'))) as (o & s' & Er & [(x & -> & -> & Hb & Ha)|(? & _ & [])]). by exists s'.
  - intros a b ok a' b' sig tag len rest Hm Hr Hl Hb. destruct (spares_medium _ _ _ _ _ Hm) as [[->|(v & c & Hst & ->)] _].
    { split; [done|]. by exists len, rest. }
    rewrite Hb, (store32_words _ _ 2) in Hst by (cbn; lia). injection Hst as <-. split; [|].
    + destruct Hr as (? & ? & Hlen & ? & ?). split_and!; try done. cbn [CommandBlock set_block]. rewrite Hb in Hlen. by rewrite length_app in *.
    + exists (u32 v), rest. split; [apply wrapu_range; lia|done].
  - intros a b ok a' b' Hm Ht Ho Hi. destruct (spares_medium _ _ _ _ _ Hm) as (_ & Ht' & -> & ->). rewrite Ho, Hi. split; [by apply Ht'|lia].
Qed.
End callback.
