(* ===== verification/DiskProofs.v ===== *)
(** The Mass Storage bootloader from end to end: what a host writes to FLASH.BIN is in
    the flash memory, and is what it reads back. *)

From Stdlib Require Import ZArith Lia.
From stdpp Require Import base tactics list numbers.
From S2P Require Import Prelude Posix Avr Endpoint EndpointStream Device Cdc Rndis RndisProofs BulkHost MassStorage MassStorageProofs Board Flash VirtualFat DiskLoader DiskSpec DiskMedium.

Local Open Scope Z_scope.

(** * Packets *)

(** The endpoints when the packets [q] are to come, and nothing is unsent. *)
Definition incoming (sel : Z) (sent q : list (list Z)) : bulk := mk_bulk sel (default [] (head q)) [] sent 0 0 (tail q).

Lemma get_packet p : forall b rest, b_rx b = p ++ rest -> get_all (length p) b = Some (p, with_rx rest b).
Proof.
  induction p as [|x p IH]; intros b rest Hb; [destruct b; cbn in *; by subst|]. cbn [length get_all]. rewrite bool_decide_false by (by rewrite Hb).
  rewrite Hb. rewrite <- app_comm_cons. by rewrite (IH (with_rx (p ++ rest) b) rest).
Qed.

Lemma get_all_app n1 n2 : forall b x b1 y b2,
  get_all n1 b = Some (x, b1) -> get_all n2 b1 = Some (y, b2) -> get_all (n1 + n2) b = Some (x ++ y, b2).
Proof.
  induction n1 as [|n IH]; intros b x b1 y b2 H1 H2; [by injection H1 as <- <-|]. cbn [get_all Nat.add] in *.
  destruct (b_rx (if bool_decide (b_rx b = []) then _ else _)) as [|z rest]; [done|].
  destruct (get_all n (with_rx rest _)) as [[l b']|] eqn:E; [|done]. injection H1 as <- <-. by erewrite IH.
Qed.

Lemma get_all_fetch n b : b_rx b = [] -> b_rx (fetch_rx b) <> [] -> get_all (S n) b = get_all (S n) (fetch_rx b).
Proof. intros H1 H2. cbn [get_all]. by rewrite bool_decide_true, bool_decide_false. Qed.

Lemma get_packets ps q : forall b, b_next b = ps ++ q -> Forall (fun p => p <> []) ps ->
  get_all (length (b_rx b ++ concat ps)) b =
    Some (b_rx b ++ concat ps, mk_bulk (b_sel b) [] (b_tx b) (b_sent b) (b_halt_out b) (b_halt_in b) q).
Proof.
  induction ps as [|p ps IH]; intros b Hn Hps; cbn [concat].
  - rewrite !app_nil_r. erewrite get_packet by (by rewrite app_nil_r). unfold with_rx. by rewrite Hn.
  - apply Forall_cons_iff in Hps as [Hp Hps]. rewrite length_app.
    eapply get_all_app; [apply get_packet; by rewrite app_nil_r|]. destruct p as [|x p]; [done|]. change (length ((x :: p) ++ concat ps)) with (S (length (p ++ concat ps))).
    rewrite get_all_fetch by (cbn; by rewrite ?Hn). specialize (IH (fetch_rx (with_rx [] b))). cbn in IH. rewrite Hn in IH. by apply IH.
Qed.

Lemma length_packets n ps : Forall (fun p : list Z => length p = n) ps -> length (concat ps) = (n * length ps)%nat.
Proof. induction 1 as [|p ps Hp _ IH]; [cbn; lia|]. cbn [concat length]. rewrite length_app, Hp, IH. lia. Qed.

(** A block is eight packets. *)
Lemma get_block sel sent ps q : length ps = 8%nat -> Forall (fun p => length p = 64%nat) ps ->
  get_all 512 (incoming sel sent (ps ++ q)) = Some (concat ps, mk_bulk sel [] [] sent 0 0 q) /\ b_rx (incoming sel sent (ps ++ q)) <> [].
Proof.
  intros Hl Hps. pose proof (length_packets 64 ps Hps) as Hc. rewrite Hl in Hc. destruct ps as [|p ps]; [done|].
  apply Forall_cons_iff in Hps as [Hp Hps]. split; [|cbn; by destruct p].
  pose proof (get_packets ps q (incoming sel sent ((p :: ps) ++ q)) eq_refl) as Hg.
  change (b_rx (incoming sel sent ((p :: ps) ++ q))) with p in Hg. cbn [concat] in *. rewrite Hc in Hg. apply Hg. eapply Forall_impl; [|exact Hps]. by intros [|].
Qed.

Section put.
Context {H : Type} `{HW : Hardware H} {out_ep in_ep : Z} {patience : nat} `{BH : !BulkHost H out_ep in_ep patience}.

Lemma put_packet p : forall b, (length (b_tx b) + length p <= bulk_size)%nat -> put_all b p = with_tx (b_tx b ++ p) b.
Proof.
  induction p as [|x p IH]; intros b Hl; [cbn; rewrite app_nil_r; by destruct b|]. cbn [length] in Hl. unfold put_all in *. cbn [foldl].
  rewrite put_byte_room by lia. rewrite IH by (cbn; rewrite length_app; cbn; lia). cbn. by rewrite <- app_assoc.
Qed.

Lemma put_all_app b x y : put_all b (x ++ y) = put_all (put_all b x) y.
Proof. apply foldl_app. Qed.

Lemma put_packets ps : forall p b, b_tx b = [] -> length p = bulk_size -> Forall (fun p => length p = bulk_size) ps ->
  hand_over (put_all b (p ++ concat ps)) = mk_bulk (b_sel b) (b_rx b) [] (b_sent b ++ p :: ps) (b_halt_out b) (b_halt_in b) (b_next b).
Proof.
  induction ps as [|x ps IH]; intros p b Hb Hp Hps; rewrite put_all_app;
    rewrite (put_packet p) by (rewrite Hb; cbn; lia); rewrite Hb; [done|].
  apply Forall_cons_iff in Hps as [Hx Hps]. pose proof bulk_room as Hr. destruct x as [|y x]; [cbn in Hx; lia|].
  assert (put_all (with_tx ([] ++ p) b) (concat ((y :: x) :: ps)) = put_all (hand_over (with_tx p b)) ((y :: x) ++ concat ps)) as ->.
  { change (put_all (put_byte (with_tx p b) y) (x ++ concat ps) = put_all (put_byte (hand_over (with_tx p b)) y) (x ++ concat ps)).
    by rewrite put_byte_full by (cbn; lia). }
  rewrite IH by done. cbn. by rewrite <- app_assoc.
Qed.
End put.

(** * The flash memory *)

(** The bytes of a memory that holds the words of [bs]. *)
Lemma memory_bytes {F page} `{FM : !FlashMemory F page} (f : F) bs : forall a,
  Nat.even (length bs) = true -> Forall is_byte bs -> Z.even a = true ->
  (forall i w, words_of bs !! i = Some w -> flash_word f (a + 2 * Z.of_nat i) = w) ->
  map (flash_byte f) (addresses (fun p => p + 1) a (length bs)) = bs.
Proof.
  induction bs as [|y|lo hi bs IH] using list_pair_ind; intros a Hev Hb He Hw; [done|done|].
  apply Forall_cons_iff in Hb as [Hlo [Hhi Hb]%Forall_cons_iff]. destruct (word_bytes lo hi Hlo Hhi) as [E1 E2].
  assert (flash_word f a = hi * 256 + lo) as Ew by (rewrite <- (Hw 0%nat) by done; f_equal; lia).
  cbn [length addresses map]. f_equal; [unfold flash_byte; by rewrite He, Ew|].
  f_equal; [unfold flash_byte; rewrite Z.even_add, He; cbn; replace (a + 1 - 1) with a by lia; by rewrite Ew|].
  replace (a + 1 + 1) with (a + 2) by lia. apply IH; [done|done|by rewrite Z.even_add, He|].
  intros i w Hi. rewrite <- (Hw (S i) w Hi). f_equal. lia.
Qed.

(** * The writes *)

Lemma lor_word lo hi : is_byte lo -> is_byte hi -> Z.lor (u16 (Z.shiftl hi 8)) lo = hi * 256 + lo.
Proof.
  unfold is_byte. intros Hlo Hhi. assert (u16 (Z.shiftl hi 8) = Z.shiftl hi 8) as ->.
  { rewrite Z.shiftl_mul_pow2 by lia. unfold wrapu. apply Z.mod_small. lia. }
  rewrite lor_shiftl; lia.
Qed.

(** FLASH.BIN lies in the flash memory, whose size is that of a device of the family. *)
Definition disk_fits (m : sizes) : Prop :=
  0 <= FLASH_FILE_SIZE_BYTES m /\ 0 <= E2END m /\ 512 * FILE_SECTORS (FLASH_FILE_SIZE_BYTES m) <= FLASHEND m < 2 ^ 24.

Section writes.
Context (m : sizes) (Hm : disk_fits m).

Lemma flash_at_small z : 0 <= z <= FLASHEND m -> flash_at m z = z.
Proof using Hm.
  destruct Hm as (_ & _ & Hend). intros Hz. unfold flash_at, wrapu. destruct (Z.ltb_spec 0xFFFF (FLASHEND m)); apply Z.mod_small; lia.
Qed.

Lemma even_length_le {A} (bs : list A) : Nat.even (length bs) = true -> exists n, Z.of_nat (length bs) = 2 * n.
Proof. clear Hm. intros [x ->]%Nat.even_spec. exists (Z.of_nat x). lia. Qed.

Lemma flash_writes_app x : forall p y, Nat.even (length x) = true -> 0 <= p -> p + Z.of_nat (length x) <= FLASHEND m ->
  flash_writes m p (x ++ y) = flash_writes m p x ++ flash_writes m (p + Z.of_nat (length x)) y.
Proof using Hm.
  induction x as [|b|lo hi x IH] using list_pair_ind; intros p y He Hp Hend; [by rewrite Z.add_0_r|done|].
  rewrite <- !app_comm_cons. cbn [flash_writes length] in *. rewrite !Nat2Z.inj_succ in *. rewrite flash_at_small by lia.
  rewrite IH by (done || lia). replace (p + 2 + Z.of_nat (length x)) with (p + Z.succ (Z.succ (Z.of_nat (length x)))) by lia. by rewrite <- !app_assoc.
Qed.

Lemma flash_writes_ready bs : forall p, foldl rww_after true (flash_writes m p bs) = true.
Proof.
  induction bs as [|b|lo hi bs IH] using list_pair_ind; intros p; [done|done|]. cbn [flash_writes]. rewrite !foldl_app.
  destruct (_ =? 0), (_ =? 0); cbn; apply IH.
Qed.

Lemma flash_writes_image k bs : 1 <= k <= 13 -> SPM_PAGESIZE m = 2 ^ k -> forall p, Forall is_byte bs -> 0 <= p -> p + Z.of_nat (length bs) <= FLASHEND m ->
  spm_of (flash_writes m p bs) = image_ops k p (words_of bs).
Proof using Hm.
  intros Hk Hs. pose proof (page_pos k Hk) as Hpos. induction bs as [|b|lo hi bs IH] using list_pair_ind; intros p Hb Hp Hend; [done|done|].
  apply Forall_cons_iff in Hb as [Hlo [Hhi Hb]%Forall_cons_iff]. cbn [flash_writes words_of image_ops length] in *. rewrite !Nat2Z.inj_succ in *.
  rewrite flash_at_small, Hs, !spm_of_app, IH, lor_word by (done || lia). f_equal; [by destruct (_ =? 0)|]. f_equal.
  destruct (Z.eqb_spec ((p + 2) mod 2 ^ k) 0) as [E|E]; [|done]. f_equal. rewrite flash_at_small; [done|].
  apply Z.mod_divide in E as [z Ez]; [|lia]. clear -Ez Hpos Hp Hend. set (q := 2 ^ k) in *. clearbody q. assert (0 < z) by nia. nia.
Qed.

Lemma addresses_flash n : forall p, 0 <= p -> p + Z.of_nat n <= FLASHEND m ->
  addresses (fun p => flash_at m (p + 1)) p n = addresses (fun p => p + 1) p n.
Proof using Hm.
  induction n as [|n IH]; intros p Hp Hend; [done|]. cbn [addresses]. rewrite flash_at_small by lia. by rewrite IH by lia.
Qed.
End writes.

Section reads.
Context (k : Z) {F : Type} `{FM : !FlashMemory F (2 ^ k)} (f : F) (contents : list mem_op -> mem_op -> Z) (Hreads : reads_flash k contents f).

Lemma answers_flash ps : forall mem, rww_ready mem = true ->
  answers_of contents mem (map FlashReadByte ps) = map (flash_byte (spm_run k (spm_of mem) f)) ps.
Proof using Hreads.
  induction ps as [|p ps IH]; intros mem Hr; [done|]. cbn [map answers_of]. rewrite Hreads by done. f_equal.
  destruct (reads_keep mem [FlashReadByte p]) as [E1 E2]; [by repeat constructor|]. rewrite IH by (by rewrite E2). by rewrite E1.
Qed.
End reads.

(** * The blocks of FLASH.BIN *)

Lemma file_extent size : 0 <= size -> 0 <= FILE_SECTORS size /\ FILE_SECTORS size <= 4 * FILE_CLUSTERS size /\ size <= 512 * FILE_SECTORS size /\
  FILE_CLUSTERS size <= size / 2048 + 1.
Proof.
  intros Hs. unfold FILE_SECTORS, FILE_CLUSTERS. change CLUSTER_SIZE_BYTES with 2048. change SECTOR_SIZE_BYTES with 512.
  pose proof (Z.div_mod size 512 ltac:(lia)). pose proof (Z.mod_pos_bound size 512 ltac:(lia)). pose proof (Z.div_mod size 2048 ltac:(lia)).
  pose proof (Z.mod_pos_bound size 2048 ltac:(lia)). destruct (Z.eqb_spec (size mod 512) 0), (Z.eqb_spec (size mod 2048) 0); lia.
Qed.

Lemma le16_value v : 0 <= v < 65536 -> u8 v + 256 * u8 (Z.shiftr v 8) = v.
Proof.
  intros Hv. unfold wrapu. rewrite Z.shiftr_div_pow2 by lia. change (2 ^ 8) with 256. pose proof (Z.div_mod v 256 ltac:(lia)).
  rewrite (Z.mod_small (v / 256)); [lia|]. split; [apply Z.div_pos|apply Z.div_lt_upper_bound]; lia.
Qed.

Lemma eeprom_cluster_at m : 0 <= FILE_CLUSTERS (FLASH_FILE_SIZE_BYTES m) < 65534 ->
  EEPROMFileStartCluster (map Some (FirmwareFileEntries_init m)) = Ok (2 + FILE_CLUSTERS (FLASH_FILE_SIZE_BYTES m)).
Proof.
  intros Hc. set (c := 2 + FILE_CLUSTERS (FLASH_FILE_SIZE_BYTES m)). transitivity (Ok (u8 c + 256 * u8 (Z.shiftr c 8))); [reflexivity|].
  by rewrite le16_value by lia.
Qed.

Section flash_file.
Context (m : sizes) (Hm : disk_fits m) (contents : list mem_op -> mem_op -> Z).
Abbreviation sectors := (FILE_SECTORS (FLASH_FILE_SIZE_BYTES m)).
Abbreviation clusters := (FILE_CLUSTERS (FLASH_FILE_SIZE_BYTES m)).

Lemma flash_cluster : FLASHFileStartCluster (map Some (FirmwareFileEntries_init m)) = Ok 2.
Proof. reflexivity. Qed.

Lemma clusters_range : 0 <= sectors <= 4 * clusters /\ clusters < 16000 /\ 512 * sectors < 2 ^ 24.
Proof using Hm.
  destruct Hm as (Hs & _ & Hend). destruct (file_extent _ Hs) as (H0 & H1 & H2 & H3). split; [lia|]. split; [|lia].
  assert (FLASH_FILE_SIZE_BYTES m / 2048 < 8192); [|lia]. apply Z.div_lt_upper_bound; lia.
Qed.

Lemma eeprom_cluster : EEPROMFileStartCluster (map Some (FirmwareFileEntries_init m)) = Ok (2 + clusters).
Proof using Hm. pose proof clusters_range. apply eeprom_cluster_at. lia. Qed.

Lemma in_flash_file n : 4 <= n < 4 + sectors ->
  in_file 2 (FLASH_FILE_SIZE_BYTES m) n = true /\ in_file (2 + clusters) (EEPROM_FILE_SIZE_BYTES m) n = false.
Proof using Hm.
  intros Hn. pose proof clusters_range. unfold in_file, FileEndBlock, FileStartBlock, DISK_BLOCK_DataStartBlock, SECTOR_PER_CLUSTER.
  assert (forall z, 0 <= z < 65536 -> u16 z = z) as Hu by (intros; unfold wrapu; by rewrite Z.mod_small by lia).
  rewrite !(Hu (4 + (2 - 2) * 4)), (Hu (4 + (2 + clusters - 2) * 4)), (Hu (4 + _ + (sectors - 1))) by lia. split.
  - rewrite andb_true_iff, !Z.leb_le. lia.
  - by rewrite (proj2 (Z.leb_gt _ n)) by lia.
Qed.

Lemma flash_block_start n : 4 <= n < 4 + sectors -> flash_at m ((n - FileStartBlock 2) * SECTOR_SIZE_BYTES) = 512 * (n - 4).
Proof using Hm.
  intros Hn. change (FileStartBlock 2) with 4. change SECTOR_SIZE_BYTES with 512. rewrite flash_at_small; [lia|done|]. destruct Hm as (_ & _ & Hend). lia.
Qed.

Lemma not_system n : 4 <= n -> ((n =? DISK_BLOCK_BootBlock) = false) /\ ((n =? DISK_BLOCK_FATBlock1) = false) /\ ((n =? DISK_BLOCK_FATBlock2) = false) /\ ((n =? DISK_BLOCK_RootFilesBlock) = false).
Proof. intros Hn. unfold DISK_BLOCK_BootBlock, DISK_BLOCK_FATBlock1, DISK_BLOCK_FATBlock2, DISK_BLOCK_RootFilesBlock. rewrite !Z.eqb_neq. lia. Qed.

Lemma flash_block_write a n bs : FirmwareFileEntries a = map Some (FirmwareFileEntries_init m) -> 4 <= n < 4 + sectors ->
  block_write m a n bs = Some (add_disk_mem (flash_writes m (512 * (n - 4)) bs) a).
Proof using Hm.
  intros Ha Hn. destruct (in_flash_file n Hn) as [E1 E2]. destruct (not_system n ltac:(lia)) as (N1 & N2 & N3 & N4). unfold block_write.
  rewrite N1, N2, N3, N4, Ha, flash_cluster, eeprom_cluster. cbn [orb of_res mbind option_bind]. rewrite E1, E2, flash_block_start by done. by rewrite add_disk_nil.
Qed.

Definition block_reads (n : Z) : list mem_op := map FlashReadByte (addresses (fun p => p + 1) (512 * (n - 4)) 512).

Lemma flash_block_read a n : FirmwareFileEntries a = map Some (FirmwareFileEntries_init m) -> 4 <= n < 4 + sectors ->
  block_read m contents a n = Some (answers_of contents (disk_mem a) (block_reads n), add_disk_mem (block_reads n) a).
Proof using Hm.
  intros Ha Hn. destruct (in_flash_file n Hn) as [E1 E2]. destruct (not_system n ltac:(lia)) as (N1 & N2 & N3 & N4). unfold block_read.
  rewrite N1, N2, N3, N4, Ha, flash_cluster, eeprom_cluster. cbn [orb of_res mbind option_bind].
  unfold flash_reads, eeprom_reads, flash_addresses. rewrite E1, E2, flash_block_start by done. pose proof Hm as (_ & _ & Hend).
  rewrite addresses_flash by (done || lia). by rewrite add_disk_nil.
Qed.
End flash_file.

(** * Transfers *)

Section transfers.
Context (m : sizes) (Hm : disk_fits m) (contents : list mem_op -> mem_op -> Z) (out_ep : Z).
Abbreviation sectors := (FILE_SECTORS (FLASH_FILE_SIZE_BYTES m)).
Abbreviation packet := (fun p : list Z => length p = 64%nat).

Lemma even_of_nat n : Z.even (Z.of_nat (512 * n)) = true.
Proof. rewrite Nat2Z.inj_mul. by rewrite Z.even_mul. Qed.

(** The packets of the first block and the others. *)
Lemma first_block n packets : length packets = (8 * S n)%nat -> Forall packet packets ->
  exists ps rest, packets = ps ++ rest /\ length ps = 8%nat /\ length rest = (8 * n)%nat /\ Forall packet ps /\ Forall packet rest /\ length (concat ps) = 512%nat.
Proof.
  intros Hl Hp. exists (take 8 packets), (drop 8 packets). pose proof (Forall_take _ 8 _ Hp) as H1.
  pose proof (length_packets 64 _ H1) as H2. rewrite length_take in H2. split_and!.
  - by rewrite take_drop.
  - rewrite length_take. lia.
  - rewrite length_drop. lia.
  - done.
  - by apply Forall_drop.
  - lia.
Qed.

Lemma block_u16 lba : 4 <= lba < 4 + sectors -> u16 lba = lba.
Proof using Hm. intros Hl. pose proof (clusters_range m Hm). unfold wrapu. apply Z.mod_small. lia. Qed.

Lemma blocks_written_flash n : forall lba a packets q sent,
  length packets = (8 * n)%nat -> Forall packet packets -> FirmwareFileEntries a = map Some (FirmwareFileEntries_init m) ->
  4 <= lba -> lba + Z.of_nat n <= 4 + sectors ->
  blocks_written m n lba a (incoming out_ep sent (packets ++ q)) =
    Some (add_disk_mem (flash_writes m (512 * (lba - 4)) (concat packets)) a, incoming out_ep sent q).
Proof using Hm.
  induction n as [|n IH]; intros lba a packets q sent Hl Hp Ha Hlo Hhi.
  { destruct packets; [|cbn in Hl; lia]. cbn [blocks_written concat flash_writes]. by rewrite add_disk_nil. }
  destruct (first_block n packets Hl Hp) as (ps & rest & -> & L1 & L2 & P1 & P2 & L3). rewrite <- app_assoc.
  destruct (get_block out_ep sent ps (rest ++ q) L1 P1) as [Hg Hrx]. cbn [blocks_written]. rewrite decide_False, Hg, block_u16 by (done || lia).
  rewrite flash_block_write by (done || lia). change (fetch_rx (mk_bulk out_ep [] [] sent 0 0 (rest ++ q))) with (incoming out_ep sent (rest ++ q)).
  rewrite IH by (done || lia). rewrite add_disk_add, concat_app, flash_writes_app, L3; [|done|by rewrite L3|lia|].
  - by replace (512 * (lba + 1 - 4)) with (512 * (lba - 4) + Z.of_nat 512) by lia.
  - rewrite L3. pose proof Hm as (_ & _ & Hend). lia.
Qed.

Context (k : Z) {F : Type} `{FM : !FlashMemory F (2 ^ k)} (f : F) (Hreads : reads_flash k contents f).
Context {H : Type} `{HW : Hardware H} {in_ep : Z} {patience : nat} `{BH : !BulkHost H out_ep in_ep patience} (Hsize : bulk_size = 64%nat).

Lemma blocks_read_flash n : forall lba a packets rx nx sent,
  length packets = (8 * n)%nat -> Forall packet packets -> Forall (Forall is_byte) packets -> FirmwareFileEntries a = map Some (FirmwareFileEntries_init m) ->
  4 <= lba -> lba + Z.of_nat n <= 4 + sectors -> rww_ready (disk_mem a) = true ->
  (forall i w, words_of (concat packets) !! i = Some w -> flash_word (spm_run k (spm_of (disk_mem a)) f) (512 * (lba - 4) + 2 * Z.of_nat i) = w) ->
  exists reads, Forall is_read reads /\
    blocks_read m contents n lba a (mk_bulk in_ep rx [] sent 0 0 nx) = Some (add_disk_mem reads a, mk_bulk in_ep rx [] (sent ++ packets) 0 0 nx).
Proof using Hm Hreads Hsize.
  induction n as [|n IH]; intros lba a packets rx nx sent Hl Hp Hb Ha Hlo Hhi Hr Hw.
  { destruct packets; [|cbn in Hl; lia]. exists []. cbn [blocks_read]. by rewrite add_disk_nil, app_nil_r. }
  destruct (first_block n packets Hl Hp) as (ps & rest & -> & L1 & L2 & P1 & P2 & L3). apply Forall_app in Hb as [B1 B2]. apply Forall_concat in B1.
  rewrite concat_app, words_of_app in Hw by (rewrite L3; apply (even_of_nat 1)).
  assert (length (words_of (concat ps)) = 256%nat) as L4 by (pose proof (length_words_of (concat ps)) as E; rewrite L3 in E; specialize (E eq_refl); lia).
  assert (answers_of contents (disk_mem a) (block_reads lba) = concat ps) as Hans.
  { unfold block_reads. rewrite (answers_flash k f contents Hreads), <- L3 by done. apply memory_bytes; [by rewrite L3|done|by rewrite Z.even_mul|].
    intros i w Hi. apply Hw. rewrite lookup_app_l; [done|by eapply lookup_lt_Some]. }
  assert (Forall is_read (block_reads lba)) as Hrd by (unfold block_reads; apply Forall_map, Forall_forall; by intros).
  destruct (reads_keep (disk_mem a) (block_reads lba) Hrd) as [K1 K2]. rewrite Hr in K2.
  cbn [blocks_read]. rewrite block_u16 by lia. rewrite flash_block_read, Hans, decide_True by (done || lia). rewrite (map_u8_bytes (concat ps)) by done.
  destruct ps as [|p ps]; [done|]. apply Forall_cons_iff in P1 as [P0 P1]. cbn [concat].
  rewrite put_packets; [|done|by rewrite Hsize|by rewrite Hsize]. cbn [b_sel b_rx b_sent b_halt_out b_halt_in b_next].
  destruct (IH (lba + 1) (add_disk_mem (block_reads lba) a) rest rx nx (sent ++ p :: ps)) as (reads & R1 & R2); try done; try lia.
  { intros i w Hi. cbn [disk_mem add_disk_mem]. rewrite K1. rewrite <- (Hw (256 + i)%nat w); [f_equal; lia|].
    rewrite lookup_app_r by lia. by replace (256 + i - length (words_of (concat (p :: ps))))%nat with i by lia. }
  exists (block_reads lba ++ reads). split; [by apply Forall_app|]. rewrite R2, add_disk_add. by rewrite <- app_assoc.
Qed.
End transfers.

(** * Commands *)

(** READ (10) and WRITE (10) of [count] blocks from [lba] on, as hosts send them. *)
Definition transfer_cbw (IsDataRead : bool) (tag lba count : Z) : cbw :=
  mk_cbw MS_CBW_SIGNATURE tag (512 * count) (if IsDataRead then 128 else 0) 0 10
    ([if IsDataRead then SCSI_CMD_READ_10 else SCSI_CMD_WRITE_10; 0; 0; 0; lba / 256; lba mod 256; 0; count / 256; count mod 256; 0] ++ replicate 6 0).

(** A bootloader that has been configured and has not had its directory changed. *)
Definition disk_ready (m : sizes) (out_ep in_ep : Z) (a : disk_app) : Prop :=
  ms_ready out_ep in_ep (Disk_MS_Interface a) /\ TotalLUNs (Disk_MS_Interface a) = 1 /\
  (exists old, CommandBlock (Disk_MS_Interface a) = map Some old /\ Forall is_byte old) /\
  (exists old, SenseData a = map Some old /\ length old = 18%nat) /\
  FirmwareFileEntries a = map Some (FirmwareFileEntries_init m).

Lemma bytes16 v : 0 <= v < 65536 -> is_byte (v / 256) /\ is_byte (v mod 256) /\ 256 * (v / 256) + v mod 256 = v.
Proof.
  intros Hv. unfold is_byte. pose proof (Z.div_mod v 256 ltac:(lia)). pose proof (Z.mod_pos_bound v 256 ltac:(lia)).
  split_and!; [apply Z.div_pos; lia|apply Z.div_lt_upper_bound; lia|lia..].
Qed.

Lemma transfer_cbw_ok rd tag lba count : is_u32 tag -> 0 <= lba < 65536 -> 0 <= count < 65536 -> cbw_ok (transfer_cbw rd tag lba count).
Proof.
  intros Ht (L1 & L2 & _)%bytes16 Hc. pose proof (bytes16 count Hc) as (C1 & C2 & _). unfold cbw_ok, transfer_cbw, is_u32. cbn [cbw_signature cbw_tag cbw_length cbw_flags cbw_lun cbw_count cbw_command].
  split_and!; [|by destruct rd; repeat constructor| |done].
  - unfold is_u32 in Ht. rewrite !Forall_cons_iff. split_and!; done || lia.
  - apply Forall_app. split; [|by repeat constructor]. destruct rd; rewrite !Forall_cons_iff; by split_and!.
Qed.

Lemma sense_good ss : length ss = 18%nat ->
  exists ss', SCSI_SET_SENSE SCSI_SENSE_KEY_GOOD SCSI_ASENSE_NO_ADDITIONAL_INFORMATION SCSI_ASENSEQ_NO_QUALIFIER (map Some ss) = Ok (map Some ss') /\ length ss' = 18%nat.
Proof.
  intros Hl. do 18 (destruct ss as [|? ss]; [done|]). destruct ss; [|done].
  match goal with |- context [SCSI_SET_SENSE _ _ _ (map Some [?x0; ?x1; ?x2; ?x3; ?x4; ?x5; ?x6; ?x7; ?x8; ?x9; ?xa; ?xb; ?xc; ?xd; ?xe; ?xf; ?xg; ?xh])] =>
    by exists [x0; x1; Z.lor (Z.land x2 0xF0) SCSI_SENSE_KEY_GOOD; x3; x4; x5; x6; x7; x8; x9; xa; xb; SCSI_ASENSE_NO_ADDITIONAL_INFORMATION; SCSI_ASENSEQ_NO_QUALIFIER; xe; xf; xg; xh] end.
Qed.

Section commands.
Context (m : sizes) (Hm : disk_fits m) (contents : list mem_op -> mem_op -> Z) {out_ep in_ep : Z}.
Context {H : Type} `{HW : Hardware H} {patience : nat} `{BH : !BulkHost H out_ep in_ep patience}.
Context (rd : bool) (tag lba count : Z) (Htag : is_u32 tag) (Hlba : 0 <= lba < 65536) (Hcount : 0 <= count < 65536) (Hlun : lba < LUN_MEDIA_BLOCKS m).
Abbreviation c := (transfer_cbw rd tag lba count).

Definition with_command (a : disk_app) : disk_app :=
  upd Disk_MS_Interface put_disk_ms (set_block (read_cbw c (CommandBlock (Disk_MS_Interface a)))) a.

(** The command block with the command in it. *)
Lemma command_block a : disk_ready m out_ep in_ep a ->
  exists rest, Forall is_byte rest /\ length rest = 6%nat /\
    CommandBlock (Disk_MS_Interface (with_command a)) =
      words [MS_CBW_SIGNATURE; tag; 512 * count] ++ map Some ([if rd then 128 else 0; 0; 10] ++ take 10 (cbw_command c) ++ rest).
Proof.
  intros ((_ & _ & Hlen & _) & _ & (old & Ho & Hb) & _). exists (drop 25 old). rewrite Ho, length_map in Hlen. split; [by apply Forall_drop|].
  split; [by rewrite length_drop, Hlen|]. unfold with_command, upd. cbn [Disk_MS_Interface put_disk_ms CommandBlock set_block]. rewrite Ho. unfold read_cbw.
  rewrite cbw_head_words, <- app_assoc, !map_app. f_equal. f_equal. f_equal. by rewrite skipn_map.
Qed.

(** A transfer of which all blocks succeed. *)
Lemma medium_transfer a b ops b1 :
  disk_ready m out_ep in_ep a -> b_sel b = (if rd then in_ep else out_ep) ->
  (if rd then blocks_read m contents else blocks_written m) (Z.to_nat count) lba (with_command a) b = Some (add_disk_mem ops (with_command a), b1) ->
  exists a2, disk_medium (out_ep := out_ep) (in_ep := in_ep) m contents (with_command a) b = Some (true, a2, b1) /\
    (disk_ready m out_ep in_ep a2 /\ disk_mem a2 = disk_mem a ++ ops) /\ residue_of (Disk_MS_Interface a2) = 0.
Proof using All.
  intros Hr Hsel Hblocks. destruct (command_block a Hr) as (rest & Hrest & Lrest & Hc).
  destruct Hr as ((R1 & R2 & _ & R4 & R5) & Hluns & _ & (ss & Hss & Lss) & Hentries).
  pose proof (bytes16 lba Hlba) as (L1 & L2 & L3). pose proof (bytes16 count Hcount) as (C1 & C2 & C3).
  set (cdb := take 10 (cbw_command c) ++ rest) in *. unfold disk_medium. rewrite Hc.
  assert (drop 15 (words [MS_CBW_SIGNATURE; tag; 512 * count] ++ map Some ([if rd then 128 else 0; 0; 10] ++ cdb)) = map Some cdb) as -> by done.
  rewrite bytes_of_map. cbn [mbind option_bind].
  assert (length cdb = 16%nat /\ Forall is_byte cdb) as Hcdb.
  { split; [unfold cdb; rewrite length_app, Lrest; done|]. apply Forall_app. split; [|done]. 
    apply Forall_take. by destruct (transfer_cbw_ok rd tag lba count Htag Hlba Hcount) as (_ & _ & Hcmd & _). }
  rewrite decide_True by done.
  set (a1 := add_disk_mem ops (with_command a)) in *. set (blk := words [MS_CBW_SIGNATURE; tag; 0] ++ map Some ([if rd then 128 else 0; 0; 10] ++ cdb)).
  assert (with_length (fun l => l - count * SECTOR_SIZE_BYTES) a1 = Some (upd Disk_MS_Interface put_disk_ms (set_block blk) a1)) as Hlen.
  { unfold with_length. change (Disk_MS_Interface a1) with (Disk_MS_Interface (with_command a)). rewrite Hc.
    rewrite (load32_words _ _ 2 (512 * count)) by (done || unfold is_u32; lia). cbn [of_res mbind option_bind].
    replace (u32 (512 * count - count * SECTOR_SIZE_BYTES)) with 0 by (unfold SECTOR_SIZE_BYTES; by rewrite Z.mul_comm, Z.sub_diag).
    by rewrite (store32_words _ _ 2) by (cbn; lia). }
  assert (scsi_medium (out_ep := out_ep) (in_ep := in_ep) m contents cdb (with_command a) b = Some (true, upd Disk_MS_Interface put_disk_ms (set_block blk) a1, b1)) as ->.
  { transitivity (transfer (out_ep := out_ep) (in_ep := in_ep) m contents rd (256 * (lba / 256) + lba mod 256) (256 * (count / 256) + count mod 256) (with_command a) b); [by destruct rd|].
    rewrite L3, C3. unfold transfer. rewrite (proj2 (Z.leb_gt _ _)), decide_True by done.
    assert ((if rd then blocks_read m contents else blocks_written m) (Z.to_nat count) lba (with_command a) b = Some (a1, b1)) as -> by done.
    by rewrite Hlen. }
  destruct (sense_good ss Lss) as (ss' & Es & Ls'). unfold with_sense.
  change (SenseData (upd Disk_MS_Interface put_disk_ms (set_block blk) a1)) with (SenseData a). rewrite Hss, Es. cbn [of_res mbind option_bind].
  eexists. split; [reflexivity|]. split; [split; [split_and!|]|].
  - unfold ms_ready. split_and!; try done. change (length blk = 31%nat). unfold blk, cdb. by rewrite length_app, length_map, !length_app, Lrest.
  - done.
  - exists (concat (map le32 [MS_CBW_SIGNATURE; tag; 0]) ++ [if rd then 128 else 0; 0; 10] ++ cdb). cbn [Disk_MS_Interface set_ticks set_sense upd put_disk_ms CommandBlock set_block].
    split; [by rewrite map_app|]. apply Forall_app. split; [|by destruct rd; repeat (constructor; [done|])]. cbn [map concat]. rewrite !Forall_app. by split_and!; try apply le32_bytes.
  - by exists ss'.
  - done.
  - done.
  - by apply (load32_residue _ MS_CBW_SIGNATURE tag 0 (map Some ([if rd then 128 else 0; 0; 10] ++ cdb))).
Qed.
End commands.

(** * A session *)

Lemma session_range m lba count : disk_fits m -> 4 <= lba -> 0 <= count -> lba + count <= 4 + FILE_SECTORS (FLASH_FILE_SIZE_BYTES m) ->
  0 <= lba < 65536 /\ 0 <= count < 65536 /\ lba <= LUN_MEDIA_BLOCKS m - 1 /\ 0 <= 512 * (lba - 4) /\ 512 * (lba - 4) + 512 * count <= FLASHEND m.
Proof.
  intros Hm Hlba Hcount Hend. pose proof (clusters_range m Hm). pose proof Hm as (_ & He & Hfe). destruct (file_extent (E2END m) He) as [He0 _].
  unfold LUN_MEDIA_BLOCKS, EEPROM_FILE_SIZE_BYTES. lia.
Qed.

Section session.
Context (k : Z) (Hk : 1 <= k <= 9) (m : sizes) (Hpage : SPM_PAGESIZE m = 2 ^ k) (Hm : disk_fits m).
Context {F : Type} `{FM : !FlashMemory F (2 ^ k)} (f : F) (contents : list mem_op -> mem_op -> Z) (Hreads : reads_flash k contents f).
Context {H : Type} `{HW : Hardware H} {out_ep in_ep : Z} {patience : nat} `{BH : !BulkHost H out_ep in_ep patience} (Hsize : bulk_size = 64%nat).
Context (lba count : Z) (Hlba : 4 <= lba) (Hcount : 0 <= count) (Hend : lba + count <= 4 + FILE_SECTORS (FLASH_FILE_SIZE_BYTES m)).
Context (packets : list (list Z)) (Hlen : length packets = (8 * Z.to_nat count)%nat) (Hpackets : Forall (fun p => length p = 64%nat) packets) (Hbytes : Forall (Forall is_byte) packets).
Abbreviation medium := (disk_medium (out_ep := out_ep) (in_ep := in_ep) m contents).
Abbreviation protocol := (transact Disk_MS_Interface put_disk_ms out_ep in_ep patience medium).
Abbreviation A := (512 * (lba - 4)).
Abbreviation ready := (disk_ready m out_ep in_ep).

Lemma transfer_valid rd tag luns : luns = 1 -> cbw_valid luns (transfer_cbw rd tag lba count) = true.
Proof. intros ->. by destruct rd. Qed.

(** The end of a command that succeeded. *)
Lemma ready_status st a : length st = 13%nat -> ready a -> ready (upd Disk_MS_Interface put_disk_ms (set_status st) a).
Proof. intros Hl ((R1 & R2 & R3 & R4 & R5) & R). split; [|exact R]. by split_and!. Qed.

Lemma write_command tag a e rx sent q : is_u32 tag -> ready a -> exists a',
  protocol a (transfer_cbw false tag lba count) (mk_bulk e rx [] sent 0 0 (packets ++ q)) = Some (a', incoming in_ep (sent ++ [csw_bytes tag 0 true]) q) /\
  ready a' /\ disk_mem a' = disk_mem a ++ flash_writes m A (concat packets).
Proof using All.
  intros Htag Ha. destruct (session_range m lba count Hm Hlba Hcount Hend) as (L1 & C1 & L2 & _). pose proof Ha as (_ & Hluns & _ & _ & He).
  assert (blocks_written m (Z.to_nat count) lba (with_command false tag lba count a) (incoming out_ep sent (packets ++ q)) =
    Some (add_disk_mem (flash_writes m A (concat packets)) (with_command false tag lba count a), incoming out_ep sent q)) as Hb by (apply blocks_written_flash; done || lia).
  destruct (medium_transfer m Hm contents false tag lba count Htag L1 C1 ltac:(lia) a (incoming out_ep sent (packets ++ q)) _ _ Ha eq_refl Hb) as (a2 & Em & [Hr Hmem] & Hres).
  eexists. unfold transact. rewrite transfer_valid by done. cbn [b_next b_sent cbw_flags transfer_cbw].
  change (mk_bulk (if Z.testbit 0 7 then in_ep else out_ep) (default [] (head (packets ++ q))) [] sent 0 0 (tail (packets ++ q))) with (incoming out_ep sent (packets ++ q)).
  unfold with_command in Em. rewrite Em, Hres. split; [reflexivity|]. split; [by apply ready_status|done].
Qed.

Lemma read_command tag a e rx sent q : is_u32 tag -> ready a -> rww_ready (disk_mem a) = true ->
  (forall i w, words_of (concat packets) !! i = Some w -> flash_word (spm_run k (spm_of (disk_mem a)) f) (A + 2 * Z.of_nat i) = w) -> exists a' reads,
  protocol a (transfer_cbw true tag lba count) (mk_bulk e rx [] sent 0 0 q) = Some (a', incoming in_ep (sent ++ packets ++ [csw_bytes tag 0 true]) q) /\
  ready a' /\ disk_mem a' = disk_mem a ++ reads /\ Forall is_read reads.
Proof using All.
  intros Htag Ha Hrww Hw. destruct (session_range m lba count Hm Hlba Hcount Hend) as (L1 & C1 & L2 & _). pose proof Ha as (_ & Hluns & _ & _ & He).
  destruct (blocks_read_flash m Hm contents out_ep k f Hreads Hsize (in_ep := in_ep) (Z.to_nat count) lba (with_command true tag lba count a) packets (default [] (head q)) (tail q) sent) as (reads & Hrd & Hb);
    try done; try lia.
  destruct (medium_transfer m Hm contents true tag lba count Htag L1 C1 ltac:(lia) a (incoming in_ep sent q) _ _ Ha eq_refl Hb) as (a2 & Em & [Hr Hmem] & Hres).
  eexists _, reads. unfold transact. rewrite transfer_valid by done. cbn [b_next b_sent cbw_flags transfer_cbw].
  change (mk_bulk (if Z.testbit 128 7 then in_ep else out_ep) (default [] (head q)) [] sent 0 0 (tail q)) with (incoming in_ep sent q).
  unfold with_command in Em. rewrite Em, Hres. cbn [b_rx b_sent b_next]. rewrite <- app_assoc. split; [reflexivity|]. split; [by apply ready_status|done].
Qed.

(** The memory after the write. *)
Lemma disk_session_flash mem : (forall y, 0 <= y < 2 ^ k -> buffer_word (spm_run k (spm_of mem) f) y = 65535) ->
  let f' := spm_run k (spm_of (mem ++ flash_writes m A (concat packets))) f in
  (forall i w, words_of (concat packets) !! i = Some w -> flash_word f' (A + 2 * Z.of_nat i) = w) /\
  (forall x, ~ A <= x < A + 512 * count -> flash_word f' x = flash_word (spm_run k (spm_of mem) f) x).
Proof using All.
  intros Hfree. destruct (session_range m lba count Hm Hlba Hcount Hend) as (_ & _ & _ & A0 & A1). pose proof (length_packets 64 packets Hpackets) as Lc. rewrite Hlen in Lc.
  cbv zeta. rewrite spm_of_app, (flash_writes_image m Hm k), spm_run_app by (done || lia || by apply Forall_concat).
  assert (2 * Z.of_nat (length (words_of (concat packets))) = 512 * count) as Lw.
  { rewrite length_words_of; [lia|]. rewrite Lc, Nat.mul_assoc. apply even_of_nat. }
  assert (512 = 2 ^ (9 - k) * 2 ^ k) as E by (rewrite <- Z.pow_add_r by lia; by replace (9 - k + k) with 9 by lia).
  destruct (pages_flashed k ltac:(lia) (Z.to_nat (count * 2 ^ (9 - k))) A (words_of (concat packets)) (spm_run k (spm_of mem) f)) as (W & O & _); [lia| | |done|].
  - rewrite E. replace (2 ^ (9 - k) * 2 ^ k * (lba - 4)) with (2 ^ (9 - k) * (lba - 4) * 2 ^ k) by ring. apply Z.mod_mul. pose proof (page_pos k ltac:(lia)). lia.
  - pose proof (Z.pow_nonneg 2 (9 - k) ltac:(lia)). rewrite Z2Nat.id by nia. rewrite Lw, E. ring.
  - split; [done|]. intros x Hx. apply O. by rewrite Lw.
Qed.
End session.

Section task.
Context {H : Type} `{HW : Hardware H} {out_ep in_ep : Z} {patience : nat} `{BH : !BulkHost H out_ep in_ep patience}.

Lemma disk_task_runs fuel m contents tag rd lba count e sent nx a' b' (s : usb H disk_app) :
  (patience < fuel)%nat -> 131072 <= Z.of_nat fuel -> bulk_size = 64%nat -> is_u32 tag -> 0 <= lba < 65536 -> 0 <= count < 65536 ->
  disk_ready m out_ep in_ep (app s) -> bulk_of (hw s) = mk_bulk e (cbw_bytes (transfer_cbw rd tag lba count)) [] sent 0 0 nx ->
  transact Disk_MS_Interface put_disk_ms out_ep in_ep patience (disk_medium (out_ep := out_ep) (in_ep := in_ep) m contents) (app s) (transfer_cbw rd tag lba count)
    (mk_bulk e (cbw_bytes (transfer_cbw rd tag lba count)) [] sent 0 0 nx) = Some (a', b') ->
  exists s', MS_Device_USBTask fuel Disk_MS_Interface put_disk_ms (disk_command fuel m contents) s = (Done tt, s') /\ app s' = a' /\ bulk_of (hw s') = b'.
Proof.
  intros Hp Hf Hsize Htag Hl Hc (Hr & _) Hb Ht. pose proof (conj Hb eq_refl : at_bulk _ (app s) s) as Hs.
  destruct (wp_run _ _ _ _ (wp_task fuel Hp ltac:(lia) Disk_MS_Interface put_disk_ms ltac:(done) ltac:(done) (disk_command fuel m contents)
    (disk_medium (out_ep := out_ep) (in_ep := in_ep) m contents) (MD := disk_medium_ok m contents fuel Hf ltac:(rewrite Hsize; lia))
    (transfer_cbw rd tag lba count) (app s) e sent nx a' b' (fun _ _ => False) s (transfer_cbw_ok rd tag lba count Htag Hl Hc) Hr ltac:(rewrite Hsize; lia) Hs Ht))
    as (o & s' & E & [([] & -> & Hs1 & Hs2)|(? & _ & [])]).
  by exists s'.
Qed.
End task.

(** * Theorem *)

(** C24: a host writes [count] blocks, in packets of 64 bytes, to FLASH.BIN with WRITE
    (10) and then reads them with READ (10); the class driver runs once for each
    command.  Both runs end.  The host receives a status of success with no residue,
    then exactly its packets, then a second such status, and the packets after the two
    commands are still to come.  The flash memory holds the words of the packets from
    the place of the first block on, all its other words are as before, and the
    bootloader is ready for more.  This needs a page that divides a block, blocks
    inside the file, and a file inside the memory. *)
Theorem disk_write_then_read k {F} `{!FlashMemory F (2 ^ k)} (f : F) {H} `{Hardware H} {out_ep in_ep patience} `{!BulkHost H out_ep in_ep patience}
    fuel m contents lba count tag1 tag2 packets e sent q (s : usb H disk_app) :
  1 <= k <= 9 -> SPM_PAGESIZE m = 2 ^ k -> disk_fits m -> (patience < fuel)%nat -> 131072 <= Z.of_nat fuel -> bulk_size = 64%nat ->
  4 <= lba -> 0 <= count -> lba + count <= 4 + FILE_SECTORS (FLASH_FILE_SIZE_BYTES m) -> is_u32 tag1 -> is_u32 tag2 ->
  length packets = (8 * Z.to_nat count)%nat -> Forall (fun p => length p = 64%nat) packets -> Forall (Forall is_byte) packets ->
  disk_ready m out_ep in_ep (app s) -> reads_flash k contents f -> rww_ready (disk_mem (app s)) = true ->
  let old := spm_run k (spm_of (disk_mem (app s))) f in
  (forall y, 0 <= y < 2 ^ k -> buffer_word old y = 65535) ->
  bulk_of (hw s) = mk_bulk e (cbw_bytes (transfer_cbw false tag1 lba count)) [] sent 0 0 (packets ++ cbw_bytes (transfer_cbw true tag2 lba count) :: q) ->
  let task := MS_Device_USBTask fuel Disk_MS_Interface put_disk_ms (disk_command fuel m contents) in
  exists s1 s2, task s = (Done tt, s1) /\ task s1 = (Done tt, s2) /\
    bulk_of (hw s2) = incoming in_ep (sent ++ [csw_bytes tag1 0 true] ++ packets ++ [csw_bytes tag2 0 true]) q /\
    disk_ready m out_ep in_ep (app s2) /\
    let new := spm_run k (spm_of (disk_mem (app s2))) f in
    (forall i w, words_of (concat packets) !! i = Some w -> flash_word new (512 * (lba - 4) + 2 * Z.of_nat i) = w) /\
    (forall x, ~ 512 * (lba - 4) <= x < 512 * (lba - 4) + 512 * count -> flash_word new x = flash_word old x).
Proof.
  intros Hk Hpage Hm Hp Hf Hsize Hlba Hcount Hend Ht1 Ht2 Hlen Hpk Hby Hr Hreads Hrww old Hfree Hb task.
  destruct (session_range m lba count Hm Hlba Hcount Hend) as (L1 & C1 & _).
  destruct (write_command k Hk m Hpage Hm f contents Hreads Hsize lba count Hlba Hcount Hend packets Hlen Hpk Hby tag1 (app s) e
    (cbw_bytes (transfer_cbw false tag1 lba count)) sent (cbw_bytes (transfer_cbw true tag2 lba count) :: q) Ht1 Hr) as (a1 & T1 & R1 & M1).
  destruct (disk_task_runs fuel m contents tag1 false lba count e sent _ _ _ s Hp Hf Hsize Ht1 L1 C1 Hr Hb T1) as (s1 & E1 & <- & B1).
  destruct (disk_session_flash k Hk m Hpage Hm f contents Hreads Hsize lba count Hlba Hcount Hend packets Hlen Hpk Hby _ Hfree) as [W O]. rewrite <- M1 in W, O.
  assert (rww_ready (disk_mem (app s1)) = true) as Hrww1 by (rewrite M1; unfold rww_ready in *; rewrite foldl_app, Hrww; apply flash_writes_ready).
  destruct (read_command k Hk m Hpage Hm f contents Hreads Hsize lba count Hlba Hcount Hend packets Hlen Hpk Hby tag2 (app s1) in_ep
    (cbw_bytes (transfer_cbw true tag2 lba count)) (sent ++ [csw_bytes tag1 0 true]) q Ht2 R1 Hrww1 W) as (a2 & reads & T2 & R2 & M2 & Hrd).
  destruct (disk_task_runs fuel m contents tag2 true lba count in_ep _ _ _ _ s1 Hp Hf Hsize Ht2 L1 C1 R1 B1 T2) as (s2 & E2 & <- & B2).
  destruct (reads_keep (disk_mem (app s1)) reads Hrd) as [K _]. exists s1, s2. rewrite M2, K, B2. split_and!; try done. by rewrite <- app_assoc.
Qed.

(** An ATmega32U4 with a boot section of 4 KiB, and a simulated host. *)
Definition sim_sizes : sizes := mk_sizes 0x7FFF 0x3FF 128 0x7000 0 (fun _ _ => 0).
Definition sim_disk_app : disk_app := put_disk_ms sim_disk (disk_init sim_sizes 0).
Definition sim_packets : list (list Z) := map (fun i => replicate 64 (Z.of_nat i)) (seq 1 8).
Definition sim_disk_contents (ops : list mem_op) (op : mem_op) : Z :=
  match op with FlashReadByte x => flash_byte (page := 2 ^ 7) (spm_run 7 (spm_of ops) sim_flash_old) x | _ => 0 end.
Definition sim_disk_host : usb bulk disk_app :=
  mk_usb (mk_bulk 0 (cbw_bytes (transfer_cbw false 17 6 1)) [] [] 0 0 (sim_packets ++ [cbw_bytes (transfer_cbw true 18 6 1)])) core_init sim_disk_app [].

(** Witness of C24: one block, the third of the file; the host gets it back between the
    two statuses, and the word at 0x400 is 0x0101. *)
Lemma disk_write_then_read_witness :
  let task := MS_Device_USBTask (Z.to_nat 131072) Disk_MS_Interface put_disk_ms (disk_command (Z.to_nat 131072) sim_sizes sim_disk_contents) in
  exists s1 s2, task sim_disk_host = (Done tt, s1) /\ task s1 = (Done tt, s2) /\
    b_sent (hw s2) = [csw_bytes 17 0 true] ++ sim_packets ++ [csw_bytes 18 0 true] /\
    flash_word (page := 2 ^ 7) (spm_run 7 (spm_of (disk_mem (app s2))) sim_flash_old) 0x400 = 0x0101.
Proof.
  intros task. destruct (disk_write_then_read 7 sim_flash_old (Z.to_nat 131072) sim_sizes sim_disk_contents 6 1 17 18 sim_packets 0 [] [] sim_disk_host)
    as (s1 & s2 & E1 & E2 & B & _ & W & _); [lia|done|split_and!; done|lia|lia|done|lia|lia|by vm_compute|done|done|done|by repeat constructor| | |done|done|done|done|].
  - apply (bool_decide_unpack _). by vm_compute.
  - split_and!; try done; [by exists (replicate 31 0); split; [|repeat constructor]|by exists SenseData_init].
  - exists s1, s2. split_and!; [exact E1|exact E2|by change (hw s2) with (bulk_of (hw s2)); rewrite B|]. by apply (W 0%nat).
Defined.
