(* ===== verification/DiskSafety.v ===== *)
(** What the Mass Storage bootloader does to the memories at most: whatever the host
    sends, also to the directory of the disk, every access is to the two files. *)

From Stdlib Require Import ZArith Lia.
From stdpp Require Import base tactics list numbers.
From S2P Require Import Prelude Posix Avr Endpoint EndpointStream Within Device Cdc Rndis BulkHost MassStorage MassStorageProofs Board Flash VirtualFat DiskLoader DiskProofs.

Local Open Scope Z_scope.

(** * The class driver *)

Section driver.
Context {H A : Type} `{HW : Hardware H} `{IR : !Interrupts H A} (R : A -> A -> Prop) `{PR : !PreOrder R} (HI : within R interrupt) (fuel : nat).
Context (get_ms : A -> ms_info) (put_ms : ms_info -> A -> A) (Hput : forall i a, R a (put_ms i a)).

Lemma within_on_ms f : within R (on_ms get_ms put_ms f).
Proof using HI PR Hput. apply within_set; [done|done|]. intros s. apply Hput. Qed.
#[local] Hint Resolve within_on_ms : within.

Lemma within_read_block k : forall base n b, within R (read_block fuel get_ms put_ms k base n b).
Proof using All.
  induction k as [|k IH]; intros base n b; cbn [read_block]; [walk|].
  apply within_bind; [done|walk|intros i]. apply within_bind; [done|apply within_rw; intros; walk|intros r]. walk.
Qed.

Lemma within_unstalled k : within R (wait_unstalled get_ms k).
Proof using HI PR. induction k as [|k IH]; cbn [wait_unstalled]; walk. Qed.

Lemma within_write_status k : forall b, within R (write_status fuel get_ms k b).
Proof using HI PR. induction k as [|k IH]; intros b; cbn [write_status]; walk. Qed.
#[local] Hint Resolve within_read_block within_unstalled within_write_status : within.

Lemma within_ms_task callback : within R callback -> within R (MS_Device_USBTask fuel get_ms put_ms callback).
Proof using All. intros Hc. walk. Qed.

Lemma within_ms_control : within R (MS_Device_ProcessControlRequest fuel get_ms put_ms).
Proof using All. walk. Qed.
End driver.

(** * Accesses inside the files *)

Definition confined (m : sizes) (op : mem_op) : Prop :=
  let flash := 512 * FILE_SECTORS (FLASH_FILE_SIZE_BYTES m) in
  let eeprom := 512 * FILE_SECTORS (EEPROM_FILE_SIZE_BYTES m) in
  match op with
  | Spm (PageErase p) | Spm (PageWrite p) => 0 <= p /\ p + SPM_PAGESIZE m <= flash
  | Spm (PageFill p _) | FlashReadByte p => 0 <= p < flash
  | EepromRead p | EepromUpdate p _ => 0 <= p < eeprom
  | RwwEnable => True
  | _ => False
  end.

(** Only confined accesses are added. *)
Definition grows (m : sizes) (a a' : disk_app) : Prop := exists ops, disk_mem a' = disk_mem a ++ ops /\ Forall (confined m) ops.

#[export] Instance grows_preorder m : PreOrder (grows m).
Proof.
  split.
  - intros a. exists []. by rewrite app_nil_r.
  - intros a b c (o1 & E1 & F1) (o2 & E2 & F2). exists (o1 ++ o2). rewrite E2, E1, app_assoc. split; [done|]. by apply Forall_app.
Qed.

Lemma grows_same m a a' : disk_mem a' = disk_mem a -> grows m a a'.
Proof. intros E. exists []. by rewrite E, app_nil_r. Qed.

Section disk.
Context {H : Type} `{HW : Hardware H} `{IR : !Interrupts H disk_app} (fuel : nat) (m : sizes) (contents : list mem_op -> mem_op -> Z).
Context (HI : within (grows m) interrupt).
Context (Hm : disk_fits m) (Heeprom : 512 * FILE_SECTORS (EEPROM_FILE_SIZE_BYTES m) <= 65536) (Hpage : 0 < SPM_PAGESIZE m) (Hdiv : 512 mod SPM_PAGESIZE m = 0).
Abbreviation W := (within (H := H) (grows m)).

Lemma within_on_disk f : (forall a, disk_mem (f a) = disk_mem a) -> W (on_disk f).
Proof using HI. intros Hf. apply within_set; [typeclasses eauto|done|]. intros s. by apply grows_same, Hf. Qed.

Lemma within_do_disk op : confined m op -> W (do_disk op).
Proof using HI. intros Hc. apply within_set; [typeclasses eauto|done|]. intros s. exists [op]. by repeat constructor. Qed.

Lemma within_ask_disk op : confined m op -> W (ask_disk contents op).
Proof using HI. intros Hc. unfold ask_disk, disk. apply within_bind; [typeclasses eauto|walk|intros v]. apply within_bind; [typeclasses eauto|by apply within_do_disk|]. intros _. walk. Qed.

(** ** Addresses *)

Lemma file_block cluster size n : 0 < size ->
  (FileStartBlock cluster <=? n) && (n <=? FileEndBlock cluster size) = true -> 0 <= n - FileStartBlock cluster <= FILE_SECTORS size - 1.
Proof.
  clear. intros Hs Hn. rewrite andb_true_iff, !Z.leb_le in Hn. unfold FileEndBlock in Hn. assert (0 <= FileStartBlock cluster) by (apply wrapu_range; lia).
  destruct (file_extent size ltac:(lia)) as (H0 & _ & H2 & _). assert (u16 (FileStartBlock cluster + (FILE_SECTORS size - 1)) <= FileStartBlock cluster + (FILE_SECTORS size - 1)); [|lia].
  apply Z.mod_le; lia.
Qed.

Abbreviation F := (512 * FILE_SECTORS (FLASH_FILE_SIZE_BYTES m)).
Abbreviation E := (512 * FILE_SECTORS (EEPROM_FILE_SIZE_BYTES m)).

(** A page that begins in the file ends in it, and one that ends in it began in it. *)
Lemma page_in_file p : p mod SPM_PAGESIZE m = 0 -> 0 <= p < F -> p + SPM_PAGESIZE m <= F.
Proof using Hpage Hdiv.
  intros Hp Hr. apply Z.mod_divide in Hp as [x ->]; [|lia]. apply Z.mod_divide in Hdiv as [y Hy]; [|lia].
  clear HI Hm Heeprom. revert Hpage Hr Hy. generalize (SPM_PAGESIZE m) (FILE_SECTORS (FLASH_FILE_SIZE_BYTES m)). intros g c Hg Hr Hy.
  rewrite Hy in *. assert (x < y * c) by nia. nia.
Qed.

Lemma page_ends p : p mod SPM_PAGESIZE m = 0 -> 0 < p -> SPM_PAGESIZE m <= p.
Proof using Hpage. intros Hp Hr. apply Z.mod_divide in Hp as [x ->]; [|lia]. clear -Hpage Hr. assert (0 < x) by nia. nia. Qed.

Lemma within_write_flash n : forall i p buf, 0 <= p -> p + 2 * Z.of_nat n <= F -> W (write_flash m n i p buf).
Proof using HI Hm Hpage Hdiv.
  induction n as [|n IH]; intros i p buf Hp Hn; cbn [write_flash]; [walk|]. rewrite Nat2Z.inj_succ in Hn. pose proof Hm as (_ & _ & Hend).
  rewrite (flash_at_small m Hm (p + 2)) by lia. unfold BootloaderAPI_ErasePage, BootloaderAPI_WritePage, BootloaderAPI_FillWord.
  apply within_bind; [typeclasses eauto| |intros _].
  { destruct (Z.eqb_spec (p mod SPM_PAGESIZE m) 0) as [E0|E0]; cbn [when]; [|walk]. pose proof (page_in_file p E0 ltac:(lia)).
    apply within_bind; [typeclasses eauto|by apply within_do_disk|intros _; by apply within_do_disk]. }
  apply within_bind; [typeclasses eauto|walk|intros hi]. apply within_bind; [typeclasses eauto|walk|intros lo].
  apply within_bind; [typeclasses eauto|apply within_do_disk; cbn; lia|intros _]. cbv zeta. apply within_bind; [typeclasses eauto| |intros _; apply IH; lia].
  destruct (Z.eqb_spec ((p + 2) mod SPM_PAGESIZE m) 0) as [E0|E0]; cbn [when]; [|walk]. pose proof (page_ends (p + 2) E0 ltac:(lia)).
  rewrite flash_at_small by (done || lia). apply within_bind; [typeclasses eauto|apply within_do_disk; cbn; lia|intros _; by apply within_do_disk].
Qed.

Lemma within_read_bytes limit read next n : (forall p, 0 <= p < limit -> W (read p)) -> (forall p, 0 <= p < limit -> p + 1 < limit -> next p = p + 1) ->
  forall i p buf, 0 <= p -> p + Z.of_nat n <= limit -> W (read_bytes read next n i p buf).
Proof using HI.
  intros Hr Hx. induction n as [|n IH]; intros i p buf Hp Hn; cbn [read_bytes]; [walk|]. rewrite Nat2Z.inj_succ in Hn.
  apply within_bind; [typeclasses eauto|apply Hr; lia|intros b]. apply within_bind; [typeclasses eauto|walk|intros buf'].
  destruct n as [|n]; [cbn [read_bytes]; walk|]. rewrite Hx by lia. apply IH; lia.
Qed.

Lemma within_write_eeprom n : forall i p buf, 0 <= p -> p + Z.of_nat n <= E -> W (write_eeprom n i p buf).
Proof using HI Heeprom.
  induction n as [|n IH]; intros i p buf Hp Hn; cbn [write_eeprom]; [walk|]. rewrite Nat2Z.inj_succ in Hn.
  apply within_bind; [typeclasses eauto|walk|intros b]. apply within_bind; [typeclasses eauto|apply within_do_disk; cbn; lia|intros _].
  destruct n as [|n]; [cbn [write_eeprom]; walk|]. unfold wrapu. rewrite Z.mod_small by lia. apply IH; lia.
Qed.

(** ** Blocks *)

Context (Hflash0 : 0 < FLASH_FILE_SIZE_BYTES m) (Heeprom0 : 0 < EEPROM_FILE_SIZE_BYTES m).

Lemma within_flash_block n buf rd : W (ReadWriteFLASHFileBlock m contents n buf rd).
Proof using HI Hm Hpage Hdiv Hflash0.
  unfold ReadWriteFLASHFileBlock, disk. apply within_bind; [typeclasses eauto|walk|intros entries]. apply within_bind; [typeclasses eauto|walk|intros c].
  destruct (_ && _) eqn:En; cbn [negb]; [|walk]. apply (file_block c _ n Hflash0) in En. pose proof Hm as (_ & _ & Hend). change SECTOR_SIZE_BYTES with 512. cbv zeta.
  rewrite flash_at_small by (done || lia). destruct rd.
  - apply (within_read_bytes F); [| |lia|change (Z.to_nat 512) with 512%nat; lia].
    + intros p Hp. by apply within_ask_disk.
    + intros p Hp Hp1. apply flash_at_small; [done|lia].
  - apply within_bind; [typeclasses eauto|change (Z.to_nat (512 / 2)) with 256%nat; apply within_write_flash; lia|intros _; walk].
Qed.

Lemma within_eeprom_block n buf rd : W (ReadWriteEEPROMFileBlock m contents n buf rd).
Proof using HI Heeprom Heeprom0.
  unfold ReadWriteEEPROMFileBlock, disk. apply within_bind; [typeclasses eauto|walk|intros entries]. apply within_bind; [typeclasses eauto|walk|intros c].
  destruct (_ && _) eqn:En; cbn [negb]; [|walk]. apply (file_block c _ n Heeprom0) in En. change SECTOR_SIZE_BYTES with 512. cbv zeta.
  assert (forall z, 0 <= z < 65536 -> u16 z = z) as Hu by (intros; unfold wrapu; by rewrite Z.mod_small by lia). rewrite Hu by lia. destruct rd.
  - apply (within_read_bytes E); [| |lia|change (Z.to_nat 512) with 512%nat; lia].
    + intros p Hp. by apply within_ask_disk.
    + intros p Hp Hp1. apply Hu. lia.
  - apply within_bind; [typeclasses eauto|change (Z.to_nat 512) with 512%nat; apply within_write_eeprom; lia|intros _; walk].
Qed.
#[local] Hint Resolve within_flash_block within_eeprom_block : within.
#[local] Hint Extern 2 (within _ (on_disk _)) => (by apply within_on_disk) : within.

Lemma within_blocks n : forall i lba rd, W (transfer_blocks fuel m contents n i lba rd).
Proof using All. induction n as [|n IH]; intros i lba rd; cbn [transfer_blocks]; unfold disk; walk. Qed.
#[local] Hint Resolve within_blocks : within.

(** ** Commands *)

Lemma put_grows i a : grows m a (put_disk_ms i a).
Proof. by apply grows_same. Qed.

Lemma within_disk_ms f : W (on_ms Disk_MS_Interface put_disk_ms f).
Proof using HI. apply within_on_ms; [typeclasses eauto|done|apply put_grows]. Qed.
#[local] Hint Resolve within_disk_ms : within.

Lemma within_disk_command : W (disk_command fuel m contents).
Proof using All. walk. Qed.
#[local] Hint Resolve within_disk_command : within.

Lemma within_disk_task : W (MS_Device_USBTask fuel Disk_MS_Interface put_disk_ms (disk_command fuel m contents)).
Proof using All. apply within_ms_task; [typeclasses eauto|done|apply put_grows|apply within_disk_command]. Qed.

Lemma within_disk_control : W (disk_ControlRequest fuel).
Proof using HI. apply within_ms_control; [typeclasses eauto|done|apply put_grows]. Qed.
#[local] Hint Resolve within_disk_task : within.

Context (USB_Init USB_USBTask : prog (usb H disk_app) unit) (Hinit : W USB_Init) (Htask : W USB_USBTask).

Lemma within_disk_loop k : W (disk_loop fuel m contents USB_USBTask k).
Proof using All. induction k as [|k IH]; cbn [disk_loop]; walk. Qed.
#[local] Hint Resolve within_disk_loop : within.

Lemma within_disk_main : W (disk_main fuel m contents USB_Init USB_USBTask).
Proof using All. walk. Qed.
End disk.

(** * Theorem *)

(** C21: whatever the hardware, the host and the interrupts do, and whatever the host
    has written to the directory of the disk, from which the places of the files are
    taken, the bootloader's main program accesses only the two files, however it ends:
    every page that is erased or written lies in the blocks of FLASH.BIN, every word
    that is filled and every byte of flash memory that is read too, every byte of
    EEPROM is in the blocks of EEPROM.BIN, and lock bits are never set.  As the file
    ends where the boot section starts, if that is a multiple of 512, the bootloader
    cannot change or reveal itself.  The handlers of interrupts and the library's
    USB_Init and USB_USBTask are assumed to be confined in the same way. *)
Theorem disk_confined {H} `{Hardware H} `{!Interrupts H disk_app} fuel m contents USB_Init USB_USBTask (s : usb H disk_app) :
  within (grows m) interrupt -> within (grows m) USB_Init -> within (grows m) USB_USBTask ->
  disk_fits m -> 0 < FLASH_FILE_SIZE_BYTES m -> 0 < EEPROM_FILE_SIZE_BYTES m -> 512 * FILE_SECTORS (EEPROM_FILE_SIZE_BYTES m) <= 65536 ->
  0 < SPM_PAGESIZE m -> 512 mod SPM_PAGESIZE m = 0 ->
  exists ops, disk_mem (app (disk_main fuel m contents USB_Init USB_USBTask s).2) = disk_mem (app s) ++ ops /\ Forall (confined m) ops.
Proof. intros HI Hinit Htask Hm Hf He He' Hp Hd. by apply (within_disk_main fuel m contents HI). Qed.

(** A host that has moved FLASH.BIN to cluster 10 and writes a block of it. *)
Definition sim_moved : disk_app :=
  set_entries (<[90%nat := Some 10]> (map Some (FirmwareFileEntries_init sim_sizes))) sim_disk_app.
Definition sim_moved_host : usb bulk disk_app :=
  mk_usb (mk_bulk 0 (cbw_bytes (transfer_cbw false 17 80 1)) [] [] 0 0 sim_packets) core_init sim_moved [].

(** Witness of C21: that host. *)
Lemma disk_confined_witness :
  exists ops, disk_mem (app (disk_main 2000 sim_sizes sim_disk_contents (mret tt) (disk_ControlRequest 2000) sim_moved_host).2) = ops /\ Forall (confined sim_sizes) ops.
Proof.
  destruct (disk_confined 2000 sim_sizes sim_disk_contents (mret tt) (disk_ControlRequest 2000) sim_moved_host) as (ops & E & Hops);
    [intros s; reflexivity|apply within_ret; typeclasses eauto|apply within_disk_control; intros s; reflexivity|split_and!; done|done|done|done|done|done|].
  exists ops. split; [exact E|exact Hops].
Defined.
