(* ===== verification/FatProofs.v ===== *)
(** The FAT12 table of the virtual disk, as a host decodes it. *)

From Stdlib Require Import ZArith Lia.
From stdpp Require Import base tactics list numbers.
From S2P Require Import Prelude Posix Rndis VirtualFat DiskProofs.

Local Open Scope Z_scope.

(** * Decoding *)

Definition fat_byte (t : list Z) (p : Z) : Z := nth (Z.to_nat p) t 0.

(** An entry has twelve bits: an even one starts at a byte, an odd one in its upper
    half. *)
Definition fat_entry (t : list Z) (i : Z) : Z :=
  let p := i + i / 2 in
  if Z.even i then fat_byte t p + 256 * (fat_byte t (p + 1) mod 16) else fat_byte t p / 16 + 16 * fat_byte t (p + 1).

(** The clusters of a file that starts at cluster [c]. *)
Fixpoint fat_chain (n : nat) (t : list Z) (c : Z) : list Z :=
  match n with
  | O => []
  | S n' => c :: if 0xFF8 <=? fat_entry t c then [] else fat_chain n' t (fat_entry t c)
  end.

(** * Updates *)

Definition put_fat (p v : Z) (t : list Z) : list Z := <[Z.to_nat p := v]> t.

Lemma fat_byte_put p q v t : 0 <= p < Z.of_nat (length t) -> 0 <= q -> fat_byte (put_fat p v t) q = if decide (q = p) then v else fat_byte t q.
Proof.
  intros Hp Hq. unfold fat_byte, put_fat. rewrite !nth_lookup. case_decide as E.
  - subst q. by rewrite list_lookup_insert_eq by lia.
  - by rewrite list_lookup_insert_ne by lia.
Qed.

(** What UpdateFAT12ClusterEntry does to the bytes. *)
Definition update_entry (i v : Z) (t : list Z) : list Z :=
  let p := i + i / 2 in
  if Z.even i then put_fat (p + 1) (v mod 256 / 16 * 16 + v / 256) (put_fat p (v mod 256) t)
  else put_fat (p + 1) (v / 16) (put_fat p (fat_byte t p mod 16 + 16 * (v mod 16)) t).

Lemma length_update i v t : length (update_entry i v t) = length t.
Proof. unfold update_entry, put_fat. destruct (Z.even i); by rewrite !length_insert. Qed.

Lemma load_byte t p : 0 <= p < Z.of_nat (length t) -> load (map Some t) (Z.to_nat p) = Ok (fat_byte t p).
Proof.
  intros Hp. unfold load, fat_byte. rewrite list_lookup_fmap. destruct (lookup_lt_is_Some_2 t (Z.to_nat p)) as [x Hx]; [lia|].
  rewrite Hx. by rewrite (nth_lookup_Some _ _ _ _ Hx).
Qed.

Lemma store_byte t p v : 0 <= p < Z.of_nat (length t) -> store (map Some t) (Z.to_nat p) v = Ok (map Some (put_fat p v t)).
Proof.
  intros Hp. unfold store, put_fat. rewrite list_lookup_fmap. destruct (lookup_lt_is_Some_2 t (Z.to_nat p)) as [x Hx]; [lia|].
  rewrite Hx. by rewrite (list_fmap_insert Some).
Qed.

(** The nibbles. *)
Lemma low_nibble v : Z.land v 0x0F = v mod 16.
Proof. change 0x0F with (Z.ones 4). by rewrite Z.land_ones by lia. Qed.

Lemma high_nibble v : is_byte v -> Z.land v 0xF0 = v / 16 * 16.
Proof. intros Hv. apply Z.eqb_eq. revert v Hv. apply (byte_forall (fun v => Z.land v 0xF0 =? v / 16 * 16)). by vm_compute. Qed.

Lemma lor_nibbles hi lo : 0 <= lo < 16 -> Z.lor (hi * 16) lo = hi * 16 + lo.
Proof. intros Hlo. replace (hi * 16) with (Z.shiftl hi 4) at 1 by (rewrite Z.shiftl_mul_pow2; lia). rewrite lor_shiftl; lia. Qed.

Lemma entry_parts v : 0 <= v < 4096 -> 0 <= v / 256 < 16 /\ 0 <= v / 16 < 256 /\ 0 <= v mod 256 / 16 < 16 /\ v mod 256 + 256 * (v / 256) = v /\
  v mod 16 + 16 * (v / 16) = v /\ 0 <= v mod 16 < 16 /\ 0 <= v mod 256 < 256 /\ v mod 256 / 16 = v / 16 mod 16.
Proof.
  intros Hv. pose proof (Z.div_mod v 256 ltac:(lia)). pose proof (Z.div_mod v 16 ltac:(lia)). pose proof (Z.mod_pos_bound v 256 ltac:(lia)).
  pose proof (Z.mod_pos_bound v 16 ltac:(lia)). pose proof (Z.div_mod (v mod 256) 16 ltac:(lia)). pose proof (Z.mod_pos_bound (v mod 256) 16 ltac:(lia)).
  pose proof (Z.div_mod (v / 16) 16 ltac:(lia)). pose proof (Z.mod_pos_bound (v / 16) 16 ltac:(lia)). lia.
Qed.

Lemma update_entry_spec t i v : length t = 512%nat -> Forall is_byte t -> 0 <= i <= 170 -> 0 <= v < 4096 ->
  UpdateFAT12ClusterEntry (map Some t) i v = Ok (map Some (update_entry i v t)) /\ Forall is_byte (update_entry i v t).
Proof.
  intros Hl Hb Hi Hv. destruct (entry_parts v Hv) as (V1 & V2 & V3 & _ & _ & V6 & V7 & _).
  pose proof (Z.div_mod i 2 ltac:(lia)). pose proof (Z.mod_pos_bound i 2 ltac:(lia)). set (p := i + i / 2).
  assert (0 <= p < 256) as Hp by (unfold p; lia). unfold UpdateFAT12ClusterEntry, update_entry. rewrite !Z.shiftr_div_pow2 by lia.
  change (2 ^ 1) with 2. change (2 ^ 4) with 16. change (2 ^ 8) with 256. fold p. rewrite u8_small by (unfold is_byte; lia).
  replace (Z.to_nat p + 1)%nat with (Z.to_nat (p + 1)) by lia. change 1 with (Z.ones 1) at 1. rewrite Z.land_ones by lia. change (2 ^ 1) with 2. rewrite Zmod_even.
  assert (forall q x s, is_byte x -> Forall is_byte s -> Forall is_byte (put_fat q x s)) as Hput by (intros; by apply Forall_insert).
  assert (is_byte (fat_byte t p)) as Hx by (unfold fat_byte; apply List.Forall_nth; [done|lia]).
  destruct (Z.even i); cbn [negb Z.eqb].
  - rewrite store_byte, res_bind_ok by lia. rewrite load_byte, res_bind_ok by (unfold put_fat; rewrite length_insert; lia).
    rewrite fat_byte_put, decide_True by (done || lia). change (u8 v) with (v mod 256). rewrite high_nibble, lor_nibbles by (done || lia).
    rewrite (u8_small (v mod 256 / 16 * 16 + v / 256)) by (unfold is_byte; lia). rewrite store_byte by (unfold put_fat; rewrite length_insert; lia).
    split; [done|]. apply Hput; [unfold is_byte; lia|]. by apply Hput.
  - rewrite load_byte, res_bind_ok by lia. pose proof (Z.mod_pos_bound (fat_byte t p) 16 ltac:(lia)).
    rewrite !low_nibble, Z.lor_comm, Z.shiftl_mul_pow2 by lia. change (2 ^ 4) with 16. rewrite lor_nibbles, u8_small by (unfold is_byte; lia).
    rewrite store_byte, res_bind_ok by lia. rewrite u8_small by (unfold is_byte; lia). rewrite store_byte by (unfold put_fat; rewrite length_insert; lia).
    replace (v mod 16 * 16 + fat_byte t p mod 16) with (fat_byte t p mod 16 + 16 * (v mod 16)) by lia.
    split; [done|]. apply Hput; [done|]. apply Hput; [unfold is_byte; lia|done].
Qed.

(** * Tables that are filled in order *)

(** The entries before [n] are [vs], and the rest is zero, but for what the last entry
    has left in the byte that it shares with the next. *)
Record fat_upto (vs : Z -> Z) (n : Z) (t : list Z) : Prop := {
  upto_length : length t = 512%nat;
  upto_bytes : Forall is_byte t;
  upto_entries : forall j, 0 <= j < n -> fat_entry t j = vs j;
  upto_next : if Z.even n then fat_byte t (n + n / 2) = 0 else fat_byte t (n + n / 2) / 16 = vs (n - 1) / 16 mod 16;
  upto_rest : forall p, n + n / 2 < p -> fat_byte t p = 0 }.

Lemma even_half h : Z.even (2 * h) = true /\ 2 * h + 2 * h / 2 = 3 * h.
Proof. rewrite Z.even_mul, (Z.mul_comm 2 h), Z.div_mul by lia. split; [done|lia]. Qed.

Lemma odd_half h : Z.even (2 * h + 1) = false /\ 2 * h + 1 + (2 * h + 1) / 2 = 3 * h + 1.
Proof.
  rewrite Z.even_add, Z.even_mul. replace ((2 * h + 1) / 2) with h; [split; [done|lia]|].
  rewrite Z.add_comm, Z.mul_comm, Z.div_add by lia. by change (1 / 2) with 0.
Qed.

(** An entry depends on its bytes only, an even one on half of the second. *)
Lemma fat_entry_same t t' j : 0 <= j ->
  (forall q, 0 <= q <= j + j / 2 -> fat_byte t' q = fat_byte t q) ->
  (if Z.even j then fat_byte t' (j + j / 2 + 1) mod 16 = fat_byte t (j + j / 2 + 1) mod 16 else fat_byte t' (j + j / 2 + 1) = fat_byte t (j + j / 2 + 1)) ->
  fat_entry t' j = fat_entry t j.
Proof.
  intros Hj Hq Hn. unfold fat_entry. pose proof (Z.div_pos j 2 Hj ltac:(lia)). rewrite (Hq (j + j / 2)) by lia. destruct (Z.even j); by rewrite Hn.
Qed.

Lemma div_nibble hi lo : 0 <= lo < 16 -> (lo + 16 * hi) / 16 = hi /\ (lo + 16 * hi) mod 16 = lo.
Proof. intros Hl. rewrite Z.mul_comm, Z.div_add, Z.mod_add, Z.div_small, Z.mod_small by lia. lia. Qed.

Lemma fat_upto_even vs h t : fat_upto vs (2 * h) t -> 0 <= h <= 85 -> 0 <= vs (2 * h) < 4096 ->
  fat_upto vs (2 * h + 1) (update_entry (2 * h) (vs (2 * h)) t).
Proof.
  intros [Hl Hb He _ Hr] Hh Hv. destruct (even_half h) as [E1 E2], (odd_half h) as [O1 O2]. rewrite E2 in *. set (v := vs (2 * h)) in *.
  destruct (entry_parts v Hv) as (V1 & V2 & V3 & V4 & V5 & V6 & V7 & V8). destruct (update_entry_spec t (2 * h) v Hl Hb ltac:(lia) Hv) as [_ Hb'].
  assert (forall q, 0 <= q -> fat_byte (update_entry (2 * h) v t) q =
    if decide (q = 3 * h + 1) then v / 256 + 16 * (v mod 256 / 16) else if decide (q = 3 * h) then v mod 256 else fat_byte t q) as Hq.
  { intros q Hq. unfold update_entry. rewrite E1, E2, fat_byte_put by (unfold put_fat; rewrite ?length_insert; lia). case_decide; [lia|]. by rewrite fat_byte_put by lia. }
  clear Hb. split; [by rewrite length_update|done| |rewrite O1, O2|rewrite O2].
  - intros j Hj. destruct (decide (j = 2 * h)) as [->|Hne].
    + unfold fat_entry. rewrite E1, E2, !Hq, decide_False, !decide_True by lia. rewrite (proj2 (div_nibble _ _ V1)). by rewrite V4.
    + rewrite <- He by lia. pose proof (Z.div_mod j 2 ltac:(lia)). pose proof (Z.mod_pos_bound j 2 ltac:(lia)).
      apply fat_entry_same; [lia|intros q Hqj; rewrite Hq, !decide_False by lia; done|]. rewrite Hq, !decide_False by lia. by destruct (Z.even j).
  - rewrite Hq, decide_True by lia. rewrite (proj1 (div_nibble _ _ V1)), V8. by replace (2 * h + 1 - 1) with (2 * h) by lia.
  - intros q Hlt. rewrite Hq, !decide_False by lia. apply Hr. lia.
Qed.

Lemma fat_upto_odd vs h t : fat_upto vs (2 * h + 1) t -> 0 <= h <= 84 -> 0 <= vs (2 * h + 1) < 4096 ->
  fat_upto vs (2 * (h + 1)) (update_entry (2 * h + 1) (vs (2 * h + 1)) t).
Proof.
  intros [Hl Hb He _ Hr] Hh Hv. destruct (even_half h) as [E1 E2], (even_half (h + 1)) as [F1 F2], (odd_half h) as [O1 O2]. rewrite O2 in *. set (v := vs (2 * h + 1)) in *.
  destruct (entry_parts v Hv) as (V1 & V2 & V3 & V4 & V5 & V6 & V7 & V8). destruct (update_entry_spec t (2 * h + 1) v Hl Hb ltac:(lia) Hv) as [_ Hb'].
  set (x := fat_byte t (3 * h + 1)). pose proof (Z.mod_pos_bound x 16 ltac:(lia)) as Hx.
  assert (forall q, 0 <= q -> fat_byte (update_entry (2 * h + 1) v t) q =
    if decide (q = 3 * h + 2) then v / 16 else if decide (q = 3 * h + 1) then x mod 16 + 16 * (v mod 16) else fat_byte t q) as Hq.
  { intros q Hq. unfold update_entry. rewrite O1, O2. replace (3 * h + 1 + 1) with (3 * h + 2) by lia.
    rewrite fat_byte_put by (unfold put_fat; rewrite ?length_insert; lia). case_decide; [done|]. by rewrite fat_byte_put by lia. }
  clear Hb. split; [by rewrite length_update|done| |rewrite F1, F2|rewrite F2].
  - intros j Hj. destruct (decide (j = 2 * h + 1)) as [->|Hne].
    + unfold fat_entry. rewrite O1, O2, !Hq by lia. rewrite decide_False, !decide_True by lia. rewrite (proj1 (div_nibble _ _ Hx)). by rewrite V5.
    + rewrite <- He by lia. pose proof (Z.div_mod j 2 ltac:(lia)). pose proof (Z.mod_pos_bound j 2 ltac:(lia)). destruct (decide (j = 2 * h)) as [->|Hne'].
      * apply fat_entry_same; rewrite ?E1, ?E2; [lia|intros q Hqj; rewrite Hq, !decide_False by lia; done|].
        rewrite Hq, decide_False, decide_True by lia. by apply div_nibble.
      * apply fat_entry_same; [lia|intros q Hqj; rewrite Hq, !decide_False by lia; done|]. rewrite Hq, !decide_False by lia. by destruct (Z.even j).
  - rewrite Hq, !decide_False by lia. apply Hr. lia.
  - intros q Hlt. rewrite Hq, !decide_False by lia. apply Hr. lia.
Qed.

Lemma fat_upto_next vs n t : fat_upto vs n t -> 0 <= n <= 170 -> 0 <= vs n < 4096 ->
  exists t', UpdateFAT12ClusterEntry (map Some t) n (vs n) = Ok (map Some t') /\ fat_upto vs (n + 1) t'.
Proof.
  intros Ht Hn Hv. exists (update_entry n (vs n) t). split; [apply update_entry_spec; [apply Ht|apply Ht|lia|lia]|].
  destruct (Z.Even_or_Odd n) as [[h ->]|[h ->]]; [apply fat_upto_even; done || lia|].
  replace (2 * h + 1 + 1) with (2 * (h + 1)) by lia. apply fat_upto_odd; done || lia.
Qed.

Lemma fat_upto_chain vs Index ChainLength n : forall i t,
  fat_upto vs (Index + i) t -> 0 <= i -> 0 <= Index -> Index + i + Z.of_nat n <= 171 ->
  (forall j, i <= j < i + Z.of_nat n -> vs (Index + j) = if j =? ChainLength - 1 then 0xFFF else Index + j + 1) ->
  exists t', update_chain n i Index ChainLength (map Some t) = Ok (map Some t') /\ fat_upto vs (Index + i + Z.of_nat n) t'.
Proof.
  induction n as [|n IH]; intros i t Ht Hi Hx Hn Hvs; [exists t; by rewrite Z.add_0_r|]. cbn [update_chain].
  assert (forall z, 0 <= z < 65536 -> u16 z = z) as Hu by (intros; unfold wrapu; by rewrite Z.mod_small by lia).
  rewrite (Hu (Index + i)), (Hu (Index + i + 1)) by lia. rewrite <- Hvs by lia.
  destruct (fat_upto_next vs (Index + i) t Ht) as (t1 & E1 & T1); [lia|rewrite Hvs by lia; destruct (_ =? _); lia|]. rewrite E1, res_bind_ok.
  destruct (IH (i + 1) t1) as (t' & E' & T'); [by rewrite Z.add_assoc|lia..|intros j Hj; apply Hvs; lia|].
  exists t'. split; [done|]. by replace (Index + i + Z.of_nat (S n)) with (Index + (i + 1) + Z.of_nat n) by lia.
Qed.

(** A chain of consecutive clusters. *)
Lemma fat_chain_linear t k : forall fuel c, (S k <= fuel)%nat -> 0 <= c -> c + Z.of_nat (S k) < 0xFF8 ->
  (forall j, c <= j < c + Z.of_nat k -> fat_entry t j = j + 1) -> fat_entry t (c + Z.of_nat k) = 0xFFF ->
  fat_chain fuel t c = seqZ c (Z.of_nat (S k)).
Proof.
  induction k as [|k IH]; intros [|fuel] c Hf Hc Hlt Hj Hend; try lia; cbn [fat_chain]; rewrite seqZ_cons by lia; f_equal.
  - rewrite Z.add_0_r in Hend. by rewrite Hend.
  - rewrite Hj by lia. rewrite (proj2 (Z.leb_gt _ _)) by lia. replace (c + 1) with (Z.succ c) by lia. rewrite (IH fuel (Z.succ c)); [f_equal; lia|lia..| |].
    + intros j Hj'. apply Hj. lia.
    + rewrite <- Hend. f_equal. lia.
Qed.

(** * Theorem *)

(** The entries of the table for two files of [fc] and [ec] clusters. *)
Definition fat_value (fc ec j : Z) : Z :=
  if j =? 0 then 0xFF8 else if (j =? 1) || (j =? 1 + fc) || (j =? 1 + fc + ec) then 0xFFF else j + 1.

Lemma fat_table_filled m :
  let fc := FILE_CLUSTERS (FLASH_FILE_SIZE_BYTES m) in
  let ec := FILE_CLUSTERS (EEPROM_FILE_SIZE_BYTES m) in
  1 <= fc -> 1 <= ec -> 2 + fc + ec <= 171 ->
  exists t, fat_block m (map Some (FirmwareFileEntries_init m)) (replicate 512 (Some 0)) = Ok (map Some t) /\ fat_upto (fat_value fc ec) (2 + fc + ec) t.
Proof.
  intros fc ec Hf He Hn. set (vs := fat_value fc ec).
  assert (fat_upto vs 0 (replicate 512 0)) as T.
  { assert (forall p, fat_byte (replicate 512 0) p = 0) as Hz.
    { intros p. unfold fat_byte. rewrite nth_lookup. destruct (replicate 512 0 !! Z.to_nat p) as [x|] eqn:E; [|done]. by apply lookup_replicate in E as [-> _]. }
    split; [done|by apply Forall_replicate|lia|apply Hz|intros; apply Hz]. }
  unfold fat_block. change (replicate 512 (Some 0)) with (map Some (replicate 512 0)).
  destruct (fat_upto_next vs 0 _ T) as (t0 & E0 & T0); [lia|done|]. change (vs 0) with (Z.lor 0xF00 MediaDescriptor) in E0. rewrite E0, res_bind_ok.
  destruct (fat_upto_next vs (0 + 1) _ T0) as (t1 & E1 & T1); [lia|done|]. change (vs (0 + 1)) with 0xFFF in E1. change (0 + 1) with 1 in E1. rewrite E1, res_bind_ok.
  rewrite flash_cluster, res_bind_ok. unfold UpdateFAT12ClusterChain. fold fc ec. rewrite !u8_small by (unfold is_byte; lia).
  destruct (fat_upto_chain vs 2 fc (Z.to_nat fc) 0 t1) as (t2 & E2 & T2); [done|lia..| |].
  { intros j Hj. unfold vs, fat_value. rewrite (proj2 (Z.eqb_neq (2 + j) 0)), (proj2 (Z.eqb_neq (2 + j) 1)), (proj2 (Z.eqb_neq (2 + j) (1 + fc + ec))), orb_false_r by lia.
    cbn [orb]. destruct (Z.eqb_spec (2 + j) (1 + fc)), (Z.eqb_spec j (fc - 1)); done || lia. }
  rewrite E2, res_bind_ok, eeprom_cluster_at, res_bind_ok by (fold fc; lia). fold fc.
  destruct (fat_upto_chain vs (2 + fc) ec (Z.to_nat ec) 0 t2) as (t3 & E3 & T3).
  - by replace (2 + fc + 0) with (2 + 0 + Z.of_nat (Z.to_nat fc)) by lia.
  - lia.
  - lia.
  - lia.
  - intros j Hj. unfold vs, fat_value. rewrite (proj2 (Z.eqb_neq (2 + fc + j) 0)), (proj2 (Z.eqb_neq (2 + fc + j) 1)), (proj2 (Z.eqb_neq (2 + fc + j) (1 + fc))) by lia.
    cbn [orb]. destruct (Z.eqb_spec (2 + fc + j) (1 + fc + ec)), (Z.eqb_spec j (ec - 1)); done || lia.
  - exists t3. split; [done|]. by replace (2 + fc + ec) with (2 + fc + 0 + Z.of_nat (Z.to_nat ec)) by lia.
Qed.

(** C27: the FAT12 table of the virtual disk, for memories whose files have at most 169
    clusters together, which is more than any device of the family needs.  A host that
    follows the chain from the first cluster of FLASH.BIN, in its directory entry,
    visits exactly the file's clusters in order, and likewise for EEPROM.BIN after it.
    The entry after the last cluster is free only if its number is even; else it is
    0x00F, since the update of an even entry takes the upper half of its second byte
    from the first.  All later entries are free. *)
Theorem fat_table_chains m n :
  let fc := FILE_CLUSTERS (FLASH_FILE_SIZE_BYTES m) in
  let ec := FILE_CLUSTERS (EEPROM_FILE_SIZE_BYTES m) in
  let entries := map Some (FirmwareFileEntries_init m) in
  1 <= fc -> 1 <= ec -> 2 + fc + ec <= 171 -> (171 <= n)%nat ->
  exists t, fat_block m entries (replicate 512 (Some 0)) = Ok (map Some t) /\ length t = 512%nat /\ Forall is_byte t /\
    (FLASHFileStartCluster entries = Ok 2 /\ fat_chain n t 2 = seqZ 2 fc) /\
    (EEPROMFileStartCluster entries = Ok (2 + fc) /\ fat_chain n t (2 + fc) = seqZ (2 + fc) ec) /\
    fat_entry t (2 + fc + ec) = (if Z.even (fc + ec) then 0 else 0x00F) /\
    forall j, 2 + fc + ec < j -> fat_entry t j = 0.
Proof.
  intros fc ec entries Hf He Hn Hfuel. destruct (fat_table_filled m Hf He Hn) as (t & Et & [Hl Hb Hv Hx Hr]). fold fc ec in Hv, Hx, Hr. exists t.
  split_and!; [exact Et|done|done|apply flash_cluster| |apply eeprom_cluster_at; fold fc; lia| | |].
  - replace fc with (Z.of_nat (S (Z.to_nat (fc - 1)))) at 1 by lia. apply fat_chain_linear; [lia..| |].
    + intros j Hj. rewrite Hv by lia. unfold fat_value. by rewrite !(proj2 (Z.eqb_neq j _)) by lia.
    + rewrite Hv by lia. unfold fat_value. replace (2 + Z.of_nat (Z.to_nat (fc - 1))) with (1 + fc) by lia.
      by rewrite (proj2 (Z.eqb_neq (1 + fc) 0)), Z.eqb_refl, orb_true_r by lia.
  - replace ec with (Z.of_nat (S (Z.to_nat (ec - 1)))) at 1 by lia. apply fat_chain_linear; [lia..| |].
    + intros j Hj. rewrite Hv by lia. unfold fat_value. by rewrite !(proj2 (Z.eqb_neq j _)) by lia.
    + rewrite Hv by lia. unfold fat_value. replace (2 + fc + Z.of_nat (Z.to_nat (ec - 1))) with (1 + fc + ec) by lia.
      by rewrite (proj2 (Z.eqb_neq (1 + fc + ec) 0)), Z.eqb_refl, orb_true_r by lia.
  - assert (Z.even (2 + fc + ec) = Z.even (fc + ec)) as Ee by (by rewrite <- Z.add_assoc, Z.even_add; destruct (Z.even (fc + ec))).
    unfold fat_entry. rewrite Ee in *. rewrite (Hr (_ + 1)) by lia. destruct (Z.even (fc + ec)); rewrite Hx; [done|].
    unfold fat_value. replace (2 + fc + ec - 1) with (1 + fc + ec) by lia. by rewrite (proj2 (Z.eqb_neq (1 + fc + ec) 0)), Z.eqb_refl, orb_true_r by lia.
  - intros j Hj. unfold fat_entry. pose proof (Z.div_le_mono (2 + fc + ec) j 2 ltac:(lia) ltac:(lia)). rewrite !Hr by lia. by destruct (Z.even j).
Qed.

(** Witness of C27: an ATmega32U4, whose last cluster is 16; cluster 17 is not free. *)
Lemma fat_table_chains_witness :
  exists t, fat_block sim_sizes (map Some (FirmwareFileEntries_init sim_sizes)) (replicate 512 (Some 0)) = Ok (map Some t) /\
    fat_chain 200 t 2 = [2; 3; 4; 5; 6; 7; 8; 9; 10; 11; 12; 13; 14; 15] /\ fat_chain 200 t 16 = [16] /\ fat_entry t 17 = 15.
Proof.
  destruct (fat_table_chains sim_sizes 200) as (t & E & _ & _ & (_ & C1) & (_ & C2) & X & _); [by vm_compute|by vm_compute|by vm_compute|lia|].
  exists t. split; [exact E|]. split; [exact C1|]. split; [exact C2|exact X].
Defined.
