(* ===== verification/HexFile.v ===== *)
(** The host side of the HID bootloader, Bootloaders/HID/HostLoaderApp/
    hid_bootloader_cli.c: reading an Intel HEX file.

    Characters are their codes, a line is the characters before the terminator of the
    buffer that fgets fills, and a read behind the terminator is a fault.  The arrays
    firmware_image and firmware_mask are maps from the places that were assigned since
    read_intel_hex cleared them.  An int that sscanf did not assign is
    indeterminate. *)

From Stdlib Require Import ZArith Lia.
From stdpp Require Import base tactics list numbers gmap.
From S2P Require Import Prelude.

Local Open Scope Z_scope.

(** * sscanf with a hexadecimal conversion *)

(** EOF, 0, or 1 and the value. *)
Inductive scanned : Type :=
  | ScanEnd
  | ScanNone
  | Scan (v : Z).

Definition is_space (c : Z) : bool := (c =? 32) || (9 <=? c) && (c <=? 13).

Definition hex_value (c : Z) : option Z :=
  if (48 <=? c) && (c <=? 57) then Some (c - 48)
  else if (65 <=? c) && (c <=? 70) then Some (c - 55)
  else if (97 <=? c) && (c <=? 102) then Some (c - 87)
  else None.

Fixpoint skip_space (s : list Z) : list Z :=
  match s with
  | c :: r => if is_space c then skip_space r else s
  | [] => []
  end.

(** At most [w] digits after the number [v]. *)
Fixpoint more_digits (w : nat) (s : list Z) (v : Z) : Z :=
  match w, s with
  | S w', c :: r => match hex_value c with Some d => more_digits w' r (16 * v + d) | None => v end
  | _, _ => v
  end.

(** At least one digit, with the prefix that hexadecimal numbers may have. *)
Definition some_digits (w : nat) (s : list Z) : option Z :=
  let digits w s := match w, s with
                    | S w', c :: r => match hex_value c with Some d => Some (more_digits w' r d) | None => None end
                    | _, _ => None
                    end in
  match w, s with
  | S (S w'), 48 :: x :: r => if (x =? 88) || (x =? 120) then digits w' r else digits w s
  | _, _ => digits w s
  end.

(** sscanf(s, "%0wx", &v) *)
Definition scan_hex (w : nat) (s : list Z) : scanned :=
  match skip_space s with
  | [] => ScanEnd
  | c :: r =>
      let (neg, d) := if c =? 45 then (true, some_digits (pred w) r)
                      else if c =? 43 then (false, some_digits (pred w) r)
                      else (false, some_digits w (c :: r)) in
      match d with Some v => Scan (if neg : bool then - v else v) | None => ScanNone end
  end.

(** * The image *)

Definition MAX_MEMORY_SIZE : Z := 0x10000.

Record ihex : Type := mk_ihex {
  firmware_image : gmap Z Z;
  firmware_mask : gmap Z Z;
  end_record_seen : bool;
  byte_count : Z;
  extended_addr : Z }.

(** What read_intel_hex sets at its start. *)
Definition ihex_init : ihex := mk_ihex ∅ ∅ false 0 0.

Definition image_at (h : ihex) (i : Z) : Z := default 0xFF (firmware_image h !! i).
Definition mask_at (h : ihex) (i : Z) : Z := default 0 (firmware_mask h !! i).

Definition end_record (h : ihex) : ihex := mk_ihex (firmware_image h) (firmware_mask h) true (byte_count h) (extended_addr h).
Definition set_extended (a : Z) (h : ihex) : ihex := mk_ihex (firmware_image h) (firmware_mask h) (end_record_seen h) (byte_count h) a.
Definition add_byte_count (n : Z) (h : ihex) : ihex :=
  mk_ihex (firmware_image h) (firmware_mask h) (end_record_seen h) (wraps 32 (byte_count h + n)) (extended_addr h).

(** firmware_image[i] = v; firmware_mask[i] = 1; *)
Definition put_image (i v : Z) (h : ihex) : res ihex :=
  if (0 <=? i) && (i <? MAX_MEMORY_SIZE) then
    Ok (mk_ihex (<[i := v]> (firmware_image h)) (<[i := 1]> (firmware_mask h)) (end_record_seen h) (byte_count h) (extended_addr h))
  else Fault OutOfBounds.

(** The string at [ptr]. *)
Definition at_ptr (line : list Z) (ptr : nat) : res (list Z) :=
  if decide (ptr <= length line)%nat then Ok (drop ptr line) else Fault OutOfBounds.

(** if (!sscanf(...)) return ..: nothing where the function returns, else the variable,
    which was not assigned at the end of the string. *)
Definition scan_or_return (w : nat) (s : list Z) : option (res Z) :=
  match scan_hex w s with
  | ScanEnd => Some (Fault Indeterminate)
  | ScanNone => None
  | Scan v => Some (Ok v)
  end.

(** ((sum & 255) + (cksum & 255)) & 255 *)
Definition bad_checksum (sum cksum : Z) : bool := negb (Z.land (Z.land sum 255 + Z.land cksum 255) 255 =? 0).

(** Records of the types 2 and 4, with the number of places the address is shifted by. *)
Definition extended_record (line : list Z) (sum shift : Z) (h : ihex) : res (bool * ihex) :=
  s ← at_ptr line 9;
  match scan_or_return 4 s with
  | None => Ok (true, h)
  | Some ri =>
      i ← ri;
      s' ← at_ptr line 13;
      let sum' := sum + (Z.land (Z.shiftr i 8) 255 + Z.land i 255) in
      match scan_or_return 2 s' with
      | None => Ok (true, h)
      | Some rc =>
          cksum ← rc;
          Ok (true, if bad_checksum sum' cksum then h else set_extended (u32 (Z.shiftl i shift)) h)
      end
  end.

(** while (num != len), with [k] rounds left before num is 256; the sum of the bytes and
    the place of the next one, or nothing when the line is refused. *)
Fixpoint data_bytes (k : nat) (line : list Z) (ptr : nat) (addr len num sum : Z) (h : ihex) : res (option (nat * Z) * ihex) :=
  if num =? len then Ok (Some (ptr, sum), h)
  else
    match k with
    | O => Ok (None, h)
    | S k' =>
        s ← at_ptr line ptr;
        match scan_hex 2 s with
        | Scan v =>
            let i := Z.land v 255 in
            h' ← put_image (u32 (addr + extended_addr h + num)) i h;
            if (k' =? 0)%nat then Ok (None, h')
            else data_bytes k' line (ptr + 2) addr len (num + 1) (sum + i) h'
        | _ => Ok (None, h)
        end
    end.

(** A data record. *)
Definition data_record (line : list Z) (addr len sum : Z) (h : ihex) : res (bool * ihex) :=
  r ← data_bytes 256 line 9 addr len 0 sum (add_byte_count len h);
  match r with
  | (None, h') => Ok (false, h')
  | (Some (ptr, sum'), h') =>
      s ← at_ptr line ptr;
      match scan_or_return 2 s with
      | None => Ok (false, h')
      | Some rc => cksum ← rc; Ok (negb (bad_checksum sum' cksum), h')
      end
  end.

(** [false] is the error code. *)
Definition parse_hex_line (line : list Z) (h : ihex) : res (bool * ihex) :=
  if negb (nth 0 line 0 =? 58) then Ok (false, h)
  else if Z.of_nat (length line) <? 11 then Ok (false, h)
  else
    s1 ← at_ptr line 1;
    match scan_or_return 2 s1 with
    | None => Ok (false, h)
    | Some rl =>
        len ← rl;
        if Z.of_nat (length line) <? 11 + len * 2 then Ok (false, h)
        else
          s3 ← at_ptr line 3;
          match scan_or_return 4 s3 with
          | None => Ok (false, h)
          | Some ra =>
              s7 ← at_ptr line 7;
              match scan_or_return 2 s7 with
              | None => Ok (false, h)
              | Some rc =>
                  addr ← ra;
                  if MAX_MEMORY_SIZE <=? u32 (addr + extended_addr h + len) then Ok (false, h)
                  else
                    code ← rc;
                    let sum := Z.land len 255 + Z.land (Z.shiftr addr 8) 255 + Z.land addr 255 + Z.land code 255 in
                    if negb (code =? 0) then
                      if code =? 1 then Ok (true, end_record h)
                      else if (code =? 2) && (len =? 2) then extended_record line sum 4 h
                      else if (code =? 4) && (len =? 2) then extended_record line sum 16 h
                      else Ok (true, h)
                    else data_record line addr len sum h
              end
          end
    end.

(** * The file *)

(** fgets with a buffer of [n + 1] characters. *)
Fixpoint fgets (n : nat) (file : list Z) : list Z * list Z :=
  match n, file with
  | S n', c :: r => if c =? 10 then ([c], r) else let (l, rest) := fgets n' r in (c :: l, rest)
  | _, _ => ([], file)
  end.

(** The string in a buffer. *)
Fixpoint c_string (l : list Z) : list Z :=
  match l with
  | c :: r => if c =? 0 then [] else c :: c_string r
  | [] => []
  end.

(** The loop of read_intel_hex; [stdin_ended] is feof(stdin). *)
Fixpoint read_lines (stdin_ended : bool) (k : nat) (file : list Z) (h : ihex) : res (Z * ihex) :=
  match file with
  | [] => Ok (byte_count h, h)
  | _ =>
      match k with
      | O => Fault OutOfFuel
      | S k' =>
          let (buf, rest) := fgets 1023 file in
          let line := c_string buf in
          r ← (if (length line =? 0)%nat then Ok (true, h) else parse_hex_line line h);
          let (ok, h') := r : bool * ihex in
          if negb ok then Ok (-2, h')
          else if end_record_seen h' || stdin_ended then Ok (byte_count h', h')
          else read_lines stdin_ended k' rest h'
      end
  end.

(** [None] is a file that cannot be opened. *)
Definition read_intel_hex (stdin_ended : bool) (file : option (list Z)) : res (Z * ihex) :=
  match file with
  | None => Ok (-1, ihex_init)
  | Some l => read_lines stdin_ended (length l) l ihex_init
  end.

(** ** Reading the image *)

(** The rest of the range from [begin], of [n] places. *)
Fixpoint any_mask (h : ihex) (n : nat) (i : Z) : bool :=
  match n with O => false | S n' => negb (mask_at h i =? 0) || any_mask h n' (i + 1) end.

Definition ihex_bytes_within_range (h : ihex) (first last : Z) : bool :=
  if (first <? 0) || (MAX_MEMORY_SIZE <=? first) || (last <? 0) || (MAX_MEMORY_SIZE <=? last) then false
  else any_mask h (Z.to_nat (last - first + 1)) first.

Fixpoint get_bytes (h : ihex) (n : nat) (addr : Z) : list Z :=
  match n with O => [] | S n' => (if negb (mask_at h addr =? 0) then image_at h addr else 255) :: get_bytes h n' (addr + 1) end.

Definition ihex_get_data (h : ihex) (addr len : Z) : list Z :=
  if (addr <? 0) || (len <? 0) || (MAX_MEMORY_SIZE <=? addr + len) then replicate (Z.to_nat len) 255
  else get_bytes h (Z.to_nat len) addr.
