(* ===== verification/HidCli.v ===== *)
(** The host side of the HID bootloader, Bootloaders/HID/HostLoaderApp/
    hid_bootloader_cli.c: the command line and the main program.

    The USB access of the operating systems (libusb, Windows, Mac OS), the file and the
    passing of time are operations on a world, [UsbAccess]; what is printed is not
    modelled. *)

From Stdlib Require Import ZArith Lia String.
From stdpp Require Import base tactics list numbers gmap.
From S2P Require Import Prelude Posix HexFile.

Local Open Scope string_scope.
Local Open Scope list_scope.
Local Open Scope Z_scope.

(** * Options *)

Record options : Type := mk_options {
  wait_for_device_to_appear : bool;
  hard_reboot_device : bool;
  reboot_after_programming : bool;
  verbose : bool;
  code_size : Z;
  block_size : Z;
  filename : option string }.

Definition options_init : options := mk_options false false true false 0 0 None.

Definition wait_for_device (o : options) : options := mk_options true (hard_reboot_device o) (reboot_after_programming o) (verbose o) (code_size o) (block_size o) (filename o).
Definition set_hard_reboot (b : bool) (o : options) : options :=
  mk_options (wait_for_device_to_appear o) b (reboot_after_programming o) (verbose o) (code_size o) (block_size o) (filename o).
Definition set_no_reboot (o : options) : options := mk_options (wait_for_device_to_appear o) (hard_reboot_device o) false (verbose o) (code_size o) (block_size o) (filename o).
Definition set_verbose (o : options) : options := mk_options (wait_for_device_to_appear o) (hard_reboot_device o) (reboot_after_programming o) true (code_size o) (block_size o) (filename o).
Definition set_sizes (c b : Z) (o : options) : options := mk_options (wait_for_device_to_appear o) (hard_reboot_device o) (reboot_after_programming o) (verbose o) c b (filename o).
Definition set_filename (f : string) (o : options) : options :=
  mk_options (wait_for_device_to_appear o) (hard_reboot_device o) (reboot_after_programming o) (verbose o) (code_size o) (block_size o) (Some f).

(** arg += n *)
Definition skip (n : nat) (s : string) : string := substring n (String.length s - n) s.

(** The sizes of a microcontroller: [None] is "Unknown MCU type". *)
Definition mcu_sizes (arg : string) : option (Z * Z) :=
  match (if String.prefix "at90usb" arg then Some (skip 7 arg) else if String.prefix "atmega" arg then Some (skip 6 arg) else None) with
  | None => None
  | Some n =>
      if String.prefix "128" n then Some (128 * 1024, 256)
      else if String.prefix "64" n then Some (64 * 1024, 256)
      else if String.prefix "32" n then Some (32 * 1024, 128)
      else if String.prefix "16" n then Some (16 * 1024, 128)
      else if String.prefix "8" n then Some (8 * 1024, 128)
      else None
  end.

(** One argument; [None] ends the program. *)
Definition parse_option (o : options) (arg : string) : option options :=
  if String.prefix "-" arg then
    if String.eqb arg "-w" then Some (wait_for_device o)
    else if String.eqb arg "-r" then Some (set_hard_reboot true o)
    else if String.eqb arg "-n" then Some (set_no_reboot o)
    else if String.eqb arg "-v" then Some (set_verbose o)
    else if String.prefix "-mmcu=" arg then match mcu_sizes (skip 6 arg) with Some (c, b) => Some (set_sizes c b o) | None => None end
    else Some o
  else Some (set_filename arg o).

Fixpoint parse_options (args : list string) (o : options) : option options :=
  match args with
  | [] => Some o
  | arg :: rest => match parse_option o arg with Some o' => parse_options rest o' | None => None end
  end.

(** * The outside *)

(** teensy_open, teensy_write (with its timeout in milliseconds), teensy_close,
    hard_reboot, delay (in milliseconds), the contents of a file, and feof(stdin). *)
Class UsbAccess (W : Type) : Type := {
  teensy_open : W -> bool * W;
  teensy_write : list Z -> Z -> W -> bool * W;
  teensy_close : W -> W;
  hard_reboot : W -> bool * W;
  delay : Z -> W -> W;
  file_of : string -> W -> option (list Z);
  stdin_ended : W -> bool }.

(** * The main program *)

Record cli (W : Type) : Type := mk_cli { world : W; opts : options; hexfile : ihex }.
Arguments mk_cli {W} _ _ _.
Arguments world {W} _.
Arguments opts {W} _.
Arguments hexfile {W} _.

Section main.
Context {W : Type} `{UsbAccess W} (fuel : nat).

Abbreviation run := (prog (cli W)).

Definition on_opts (f : options -> options) : run unit := modify (fun s => mk_cli (world s) (f (opts s)) (hexfile s)).
Definition outside {B} (f : W -> B * W) : run B := fun s => let (b, w) := f (world s) in (Done b, mk_cli w (opts s) (hexfile s)).

(** die and usage *)
Definition die {B} : run B := exits 1.

(** num = read_intel_hex(filename); if (num < 0) die(..); *)
Definition load_file (name : string) : run unit :=
  s ← gets id;
  r ← lift (read_intel_hex (stdin_ended (world s)) (file_of name (world s)));
  modify (fun s => mk_cli (world s) (opts s) r.2) ;;
  when (r.1 <? 0) die.

(** The loop that opens the device; the result is the variable waited. *)
Fixpoint open_usb (k : nat) (waited : bool) : run bool :=
  match k with
  | O => lift (Fault OutOfFuel)
  | S k' =>
      ok ← outside teensy_open;
      if (ok : bool) then mret waited
      else
        hard ← gets (fun s => hard_reboot_device (opts s));
        when hard (
          found ← outside hard_reboot;
          when (negb found) die ;;
          on_opts (set_hard_reboot false) ;;
          on_opts wait_for_device) ;;
        wait ← gets (fun s => wait_for_device_to_appear (opts s));
        when (negb wait) die ;;
        outside (fun w => (tt, delay 250 w)) ;;
        open_usb k' true
  end.

(** The buffer for the block at [addr]: its address, then its data. *)
Definition block_report (o : options) (h : ihex) (addr : Z) : list Z :=
  (if code_size o <? 0x10000 then [Z.land addr 255; Z.land (Z.shiftr addr 8) 255]
   else [Z.land (Z.shiftr addr 8) 255; Z.land (Z.shiftr addr 16) 255]) ++ ihex_get_data h addr (block_size o).

(** for (addr = 0; addr < code_size; addr += block_size) *)
Fixpoint program_blocks (k : nat) (addr : Z) (first_block : bool) : run unit :=
  s ← gets id;
  let o := opts s in
  if addr <? code_size o then
    match k with
    | O => lift (Fault OutOfFuel)
    | S k' =>
        if (0 <? addr) && negb (ihex_bytes_within_range (hexfile s) addr (addr + block_size o - 1)) then
          program_blocks k' (addr + block_size o) first_block
        else
          r ← outside (teensy_write (block_report o (hexfile s) addr) (if first_block then 3000 else 250));
          when (negb r) die ;;
          program_blocks k' (addr + block_size o) false
    end
  else mret tt.

(** The buffer that starts the application. *)
Definition boot_report (o : options) : list Z := [0xFF; 0xFF] ++ replicate (Z.to_nat (block_size o)) 0.

Definition cli_main (argv : list string) : run Z :=
  o0 ← gets opts;
  match parse_options argv o0 with
  | None => die
  | Some o =>
      on_opts (fun _ => o) ;;
      match filename o with
      | None => die
      | Some name =>
          when (code_size o =? 0) die ;;
          load_file name ;;
          waited ← open_usb fuel false;
          when waited (load_file name) ;;
          program_blocks fuel 0 true ;;
          when (reboot_after_programming o) (outside (teensy_write (boot_report o) 250) ;; mret tt) ;;
          outside (fun w => (tt, teensy_close w)) ;;
          mret 0
      end
  end.
End main.
