(* ===== verification/LibUsb.v ===== *)
(** The host side of the HID bootloader, Bootloaders/HID/HostLoaderApp/
    hid_bootloader_cli.c: the USB access on Linux (USE_LIBUSB).

    libusb is a parameter, [LibUsb], together with the clock and the file system of the
    operating system; [LIBUSB_HAS_GET_DRIVER_NP] says how libusb was built.  [UsbAccess]
    of the main program is [libusb_access]. *)

From Stdlib Require Import ZArith Lia String.
From stdpp Require Import base tactics list numbers gmap.
From S2P Require Import Prelude HidCli.

Local Open Scope Z_scope.

(** A device in the lists of libusb: the fields of its descriptor, and its identity. *)
Record usb_device : Type := mk_usb_device { idVendor : Z; idProduct : Z; device : nat }.

(** [usb_busses] is what usb_init, usb_find_busses and usb_find_devices leave in the
    list of usb_get_busses; handles are numbers. *)
Class LibUsb (X : Type) : Type := {
  usb_busses : X -> list (list usb_device) * X;
  usb_open : usb_device -> X -> option nat * X;
  usb_close : nat -> X -> X;
  usb_get_driver_np : nat -> Z -> X -> Z * X;
  usb_detach_kernel_driver_np : nat -> Z -> X -> Z * X;
  usb_claim_interface : nat -> Z -> X -> Z * X;
  usb_release_interface : nat -> Z -> X -> X;
  usb_control_msg : nat -> Z -> Z -> Z -> Z -> list Z -> Z -> X -> Z * X;
  os_sleep : Z -> X -> X;
  os_files : X -> string -> option (list Z);
  os_stdin_ended : X -> bool }.

Record usb_world (X : Type) : Type := mk_world { system : X; libusb_teensy_handle : option nat }.
Arguments mk_world {X} _ _.
Arguments system {X} _.
Arguments libusb_teensy_handle {X} _.

Section libusb.
Context {X : Type} `{LibUsb X} (LIBUSB_HAS_GET_DRIVER_NP : bool).

(** Whether the interface is free of a kernel driver. *)
Definition detach_driver (h : nat) (x : X) : bool * X :=
  if LIBUSB_HAS_GET_DRIVER_NP then
    let (r, x1) := usb_get_driver_np h 0 x in
    if 0 <=? r then
      let (r', x2) := usb_detach_kernel_driver_np h 0 x1 in
      if r' <? 0 then (false, usb_close h x2) else (true, x2)
    else (true, x1)
  else (true, x).

(** The devices of a bus. *)
Fixpoint open_on_bus (vid pid : Z) (devs : list usb_device) (x : X) : option nat * X :=
  match devs with
  | [] => (None, x)
  | dev :: rest =>
      if negb (idVendor dev =? vid) then open_on_bus vid pid rest x
      else if negb (idProduct dev =? pid) then open_on_bus vid pid rest x
      else
        match usb_open dev x with
        | (None, x1) => open_on_bus vid pid rest x1
        | (Some h, x1) =>
            let (free, x2) := detach_driver h x1 in
            if negb free then open_on_bus vid pid rest x2
            else
              let (r, x3) := usb_claim_interface h 0 x2 in
              if r <? 0 then open_on_bus vid pid rest (usb_close h x3) else (Some h, x3)
        end
  end.

Fixpoint open_on_busses (vid pid : Z) (busses : list (list usb_device)) (x : X) : option nat * X :=
  match busses with
  | [] => (None, x)
  | bus :: rest => match open_on_bus vid pid bus x with (Some h, x') => (Some h, x') | (None, x') => open_on_busses vid pid rest x' end
  end.

Definition open_usb_device (vid pid : Z) (x : X) : option nat * X :=
  let (busses, x1) := usb_busses x in open_on_busses vid pid busses x1.

(** The first of two kinds of devices. *)
Definition open_either (vid1 pid1 vid2 pid2 : Z) (x : X) : option nat * X :=
  match open_usb_device vid1 pid1 x with
  | (Some h, x1) => (Some h, x1)
  | (None, x1) => open_usb_device vid2 pid2 x1
  end.

Definition libusb_close (w : usb_world X) : usb_world X :=
  match libusb_teensy_handle w with
  | None => w
  | Some h => mk_world (usb_close h (usb_release_interface h 0 (system w))) None
  end.

Definition libusb_open (w : usb_world X) : bool * usb_world X :=
  let (h, x) := open_either 0x16C0 0x0478 0x03EB 0x2067 (system (libusb_close w)) in
  (match h with Some _ => true | None => false end, mk_world x h).

(** The timeout is in milliseconds. *)
Definition libusb_write (buf : list Z) (timeout : Z) (w : usb_world X) : bool * usb_world X :=
  match libusb_teensy_handle w with
  | None => (false, w)
  | Some h =>
      let (r, x) := usb_control_msg h 0x21 9 0x0200 0 buf timeout (system w) in
      (negb (r <? 0), mk_world x (Some h))
  end.

(** "reboot" *)
Definition reboot_message : list Z := [114; 101; 98; 111; 111; 116].

Definition libusb_hard_reboot (w : usb_world X) : bool * usb_world X :=
  match open_either 0x16C0 0x0477 0x03EB 0x2067 (system w) with
  | (None, x) => (false, mk_world x (libusb_teensy_handle w))
  | (Some rebootor, x) =>
      let (r, x1) := usb_control_msg rebootor 0x21 9 0x0200 0 reboot_message 100 x in
      (negb (r <? 0), mk_world (usb_close rebootor (usb_release_interface rebootor 0 x1)) (libusb_teensy_handle w))
  end.

Definition libusb_access : UsbAccess (usb_world X) := {|
  teensy_open := libusb_open;
  teensy_write := libusb_write;
  teensy_close := libusb_close;
  hard_reboot := libusb_hard_reboot;
  delay t w := mk_world (os_sleep t (system w)) (libusb_teensy_handle w);
  file_of n w := os_files (system w) n;
  stdin_ended w := os_stdin_ended (system w) |}.
End libusb.

(** * A device that is plugged in *)

(** A control message: the type, the request, the value, the index and the data. *)
Definition message : Type := Z * Z * Z * Z * list Z.

(** [lu_wait x] more delays have to pass before a device is there; [lu_messages x] are the
    messages that devices have got. *)
Class Plugged (X : Type) `{LibUsb X} : Type := {
  lu_wait : X -> nat;
  lu_messages : X -> list message }.

Definition view {X} `{Plugged X} (x : X) : nat * list message * (string -> option (list Z)) * bool :=
  (lu_wait x, lu_messages x, os_files x, os_stdin_ended x).

(** The kinds of devices that the program looks for. *)
Definition bootloader_ids (dev : usb_device) : Prop :=
  idVendor dev = 0x16C0 /\ idProduct dev = 0x0478 \/ idVendor dev = 0x03EB /\ idProduct dev = 0x2067.

(** libusb with a bootloader to be plugged in: before, no device has its identifiers;
    then there is one of the second kind, and calls succeed. *)
Class HidAttached (X : Type) `{Plugged X} : Type := {
  busses_view x : view (usb_busses x).2 = view x;
  busses_none x dev : lu_wait x <> 0%nat -> dev ∈ concat (usb_busses x).1 -> ~ bootloader_ids dev;
  busses_some x : lu_wait x = 0%nat -> exists dev, dev ∈ concat (usb_busses x).1 /\ idVendor dev = 0x03EB /\ idProduct dev = 0x2067;
  open_ok dev x : exists h x', usb_open dev x = (Some h, x') /\ view x' = view x;
  driver_view h i x : view (usb_get_driver_np h i x).2 = view x;
  detach_ok h i x : 0 <= (usb_detach_kernel_driver_np h i x).1 /\ view (usb_detach_kernel_driver_np h i x).2 = view x;
  claim_ok h i x : 0 <= (usb_claim_interface h i x).1 /\ view (usb_claim_interface h i x).2 = view x;
  release_view h i x : view (usb_release_interface h i x) = view x;
  close_view h x : view (usb_close h x) = view x;
  control_ok h rt rq v i b t x : 0 <= (usb_control_msg h rt rq v i b t x).1 /\
    view (usb_control_msg h rt rq v i b t x).2 = (lu_wait x, lu_messages x ++ [(rt, rq, v, i, b)], os_files x, os_stdin_ended x);
  sleep_view t x : view (os_sleep t x) = (pred (lu_wait x), lu_messages x, os_files x, os_stdin_ended x) }.

Section attached.
Context {X : Type} `{HA : HidAttached X} (np : bool).

Lemma detach_free h x : exists x', detach_driver np h x = (true, x') /\ view x' = view x.
Proof.
  unfold detach_driver. destruct np; [|by exists x]. pose proof (driver_view h 0 x) as Hv. destruct (usb_get_driver_np h 0 x) as [r x1]. cbn [snd] in Hv.
  destruct (0 <=? r); [|by exists x1]. destruct (detach_ok h 0 x1) as [Hr Hv']. destruct (usb_detach_kernel_driver_np h 0 x1) as [r' x2]. cbn [fst snd] in *.
  rewrite (proj2 (Z.ltb_ge _ _)) by done. exists x2. by rewrite Hv'.
Qed.

(** The first device with the identifiers is opened. *)
Lemma open_on_bus_spec vid pid devs : forall x, exists r x', open_on_bus np vid pid devs x = (r, x') /\ view x' = view x /\
  (r = None <-> forall dev, dev ∈ devs -> ~ (idVendor dev = vid /\ idProduct dev = pid)).
Proof.
  induction devs as [|dev devs IH]; intros x.
  { exists None, x. split; [done|]. split; [done|]. split; [|done]. intros _ dev []%elem_of_nil. }
  cbn [open_on_bus]. destruct (IH x) as (r & x' & E & V & Hr).
  assert (~ (idVendor dev = vid /\ idProduct dev = pid) -> r = None <-> forall d, d ∈ dev :: devs -> ~ (idVendor d = vid /\ idProduct d = pid)) as Hskip.
  { intros Hne. rewrite Hr. split; intros Hall d; [intros [->|Hd]%elem_of_cons; auto|intros Hd; apply Hall, elem_of_cons; by right]. }
  destruct (Z.eqb_spec (idVendor dev) vid) as [Ev|Ev]; cbn [negb]; [|exists r, x'; split_and!; [done|done|apply Hskip; tauto..]].
  destruct (Z.eqb_spec (idProduct dev) pid) as [Ep|Ep]; cbn [negb]; [|exists r, x'; split_and!; [done|done|apply Hskip; tauto..]].
  destruct (open_ok dev x) as (h & x1 & -> & V1). destruct (detach_free h x1) as (x2 & -> & V2). cbn [negb]. destruct (claim_ok h 0 x2) as [Hc V3].
  destruct (usb_claim_interface h 0 x2) as [rc x3]. cbn [fst snd] in *. rewrite (proj2 (Z.ltb_ge _ _)) by done. exists (Some h), x3.
  split; [done|]. split; [by rewrite V3, V2|]. split; [done|]. intros Hall. destruct (Hall dev); [apply elem_of_cons; by left|done].
Qed.

Lemma open_on_busses_spec vid pid busses : forall x, exists r x', open_on_busses np vid pid busses x = (r, x') /\ view x' = view x /\
  (r = None <-> forall dev, dev ∈ concat busses -> ~ (idVendor dev = vid /\ idProduct dev = pid)).
Proof.
  induction busses as [|bus busses IH]; intros x.
  { exists None, x. split; [done|]. split; [done|]. split; [|done]. intros _ dev []%elem_of_nil. }
  cbn [open_on_busses concat]. destruct (open_on_bus_spec vid pid bus x) as ([h|] & x1 & -> & V1 & H1).
  - exists (Some h), x1. split; [done|]. split; [done|]. split; [done|]. intros Hall. apply H1. intros dev Hd. apply Hall, elem_of_app. by left.
  - destruct (IH x1) as (r & x2 & E & V2 & H2). exists r, x2. split; [done|]. split; [by rewrite V2|]. rewrite H2. destruct H1 as [H1 _].
    split; intros Hall dev; [intros [Hd|Hd]%elem_of_app; [by apply H1|by apply Hall]|intros Hd; apply Hall, elem_of_app; by right].
Qed.

Lemma open_usb_device_spec vid pid x : exists r x', open_usb_device np vid pid x = (r, x') /\ view x' = view x /\
  (r = None <-> forall dev, dev ∈ concat (usb_busses x).1 -> ~ (idVendor dev = vid /\ idProduct dev = pid)).
Proof.
  unfold open_usb_device. pose proof (busses_view x) as Hv. destruct (usb_busses x) as [busses x1]. cbn [fst snd] in *.
  destruct (open_on_busses_spec vid pid busses x1) as (r & x' & E & V & Hr). exists r, x'. by rewrite V.
Qed.

(** The device is opened exactly when it is there. *)
Lemma open_either_spec x : exists r x', open_either np 0x16C0 0x0478 0x03EB 0x2067 x = (r, x') /\ view x' = view x /\ (r = None <-> lu_wait x <> 0%nat).
Proof.
  unfold open_either. destruct (open_usb_device_spec 0x16C0 0x0478 x) as ([h|] & x1 & -> & V1 & H1).
  - exists (Some h), x1. split; [done|]. split; [done|]. split; [done|]. intros Hw. apply H1. intros dev Hd Hid. apply (busses_none x dev Hw Hd). by left.
  - destruct (open_usb_device_spec 0x03EB 0x2067 x1) as (r & x2 & -> & V2 & H2). exists r, x2. split; [done|]. split; [by rewrite V2|].
    assert (lu_wait x1 = lu_wait x) as <- by (unfold view in V1; congruence). rewrite H2. split.
    + intros Hall Hw. destruct (busses_some x1 Hw) as (dev & Hd & Hid). by apply (Hall dev).
    + intros Hw dev Hd Hid. apply (busses_none x1 dev Hw Hd). by right.
Qed.

Lemma libusb_close_view w : view (system (libusb_close w)) = view (system w).
Proof. unfold libusb_close. destruct (libusb_teensy_handle w); [|done]. cbn [system]. by rewrite close_view, release_view. Qed.

Lemma libusb_open_spec w : exists h x', libusb_open np w = (match h with Some _ => true | None => false end, mk_world x' h) /\
  view x' = view (system w) /\ (h = None <-> lu_wait (system w) <> 0%nat).
Proof.
  unfold libusb_open. pose proof (libusb_close_view w) as Vc. set (x := system (libusb_close w)) in *.
  destruct (open_either_spec x) as (h & x' & E & V & Hh). exists h, x'. rewrite E. split; [done|]. split; [by rewrite V|].
  rewrite Hh. assert (lu_wait x = lu_wait (system w)) as -> by (unfold view in Vc; congruence). done.
Qed.

(** A report that is written. *)
Lemma libusb_write_spec b t w h : libusb_teensy_handle w = Some h -> exists x', libusb_write b t w = (true, mk_world x' (Some h)) /\
  view x' = (lu_wait (system w), lu_messages (system w) ++ [(0x21, 9, 0x0200, 0, b)], os_files (system w), os_stdin_ended (system w)).
Proof.
  intros Hh. unfold libusb_write. rewrite Hh. destruct (control_ok h 0x21 9 0x0200 0 b t (system w)) as [Hr Hv].
  destruct (usb_control_msg _ _ _ _ _ _ _ _) as [r x']. cbn [fst snd] in *. rewrite (proj2 (Z.ltb_ge _ _)) by done. by exists x'.
Qed.
End attached.
