(* ===== verification/HidCliProofs.v ===== *)
(** The host program and the HID bootloader together: the image of a HEX file ends up in
    the flash memory. *)

From Stdlib Require Import ZArith Lia String.
From stdpp Require Import base tactics list numbers gmap.
From S2P Require Import Prelude Posix Avr Device Flash HexLoader HexProofs DownloadHost HidLoader HexFile HidCli.

Local Open Scope list_scope.
Local Open Scope Z_scope.

(** * Numbers in text *)

Lemma digit_value d : 0 <= d < 16 -> hex_value (hex_digit d) = Some d /\ is_space (hex_digit d) = false /\
  (hex_digit d =? 45) = false /\ (hex_digit d =? 43) = false /\ (hex_digit d =? 88) || (hex_digit d =? 120) = false /\ (hex_digit d =? 10) = false /\ (hex_digit d =? 0) = false.
Proof.
  intros Hd. assert (Forall (fun d => hex_value (hex_digit d) = Some d /\ is_space (hex_digit d) = false /\
    (hex_digit d =? 45) = false /\ (hex_digit d =? 43) = false /\ (hex_digit d =? 88) || (hex_digit d =? 120) = false /\ (hex_digit d =? 10) = false /\ (hex_digit d =? 0) = false) (seqZ 0 16)) as Hall.
  { apply (bool_decide_unpack _). by vm_compute. }
  rewrite Forall_forall in Hall. apply Hall, elem_of_seqZ. lia.
Qed.

Lemma byte_digits b : is_byte b -> 0 <= b / 16 < 16 /\ 0 <= b mod 16 < 16 /\ 16 * (b / 16) + b mod 16 = b.
Proof.
  unfold is_byte. intros Hb. pose proof (Z.div_mod b 16 ltac:(lia)). pose proof (Z.mod_pos_bound b 16 ltac:(lia)).
  split; [split; [apply Z.div_pos; lia|apply Z.div_lt_upper_bound; lia]|lia].
Qed.

(** Two digits at least are no prefix. *)
Lemma some_digits_plain w d1 d2 rest : 0 <= d1 < 16 -> 0 <= d2 < 16 ->
  some_digits (S (S w)) (hex_digit d1 :: hex_digit d2 :: rest) = Some (more_digits (S w) (hex_digit d2 :: rest) d1).
Proof.
  intros H1 H2. destruct (digit_value d1 H1) as (V1 & _). destruct (digit_value d2 H2) as (_ & _ & _ & _ & X2 & _).
  assert (match hex_value (hex_digit d1) with Some d => Some (more_digits (S w) (hex_digit d2 :: rest) d) | None => None end =
    Some (more_digits (S w) (hex_digit d2 :: rest) d1)) as E by (by rewrite V1).
  unfold some_digits. destruct (hex_digit d1) as [|p|p] eqn:Ed; try exact E.
  rewrite X2. do 6 (destruct p as [p|p|]; try exact E).
Qed.

Lemma scan_start w d1 d2 rest : 0 <= d1 < 16 -> 0 <= d2 < 16 ->
  scan_hex (S (S w)) (hex_digit d1 :: hex_digit d2 :: rest) = Scan (more_digits (S w) (hex_digit d2 :: rest) d1).
Proof.
  intros H1 H2. unfold scan_hex. cbn [skip_space]. destruct (digit_value d1 H1) as (_ & -> & -> & -> & _).
  by rewrite some_digits_plain.
Qed.

Lemma more_digits_step w d rest v : 0 <= d < 16 -> more_digits (S w) (hex_digit d :: rest) v = more_digits w rest (16 * v + d).
Proof. intros Hd. cbn [more_digits]. by destruct (digit_value d Hd) as (-> & _). Qed.

Lemma scan_byte b rest : is_byte b -> scan_hex 2 (hex_byte b ++ rest) = Scan b.
Proof.
  intros (H1 & H2 & E)%byte_digits. change (hex_byte b ++ rest) with (hex_digit (b / 16) :: hex_digit (b mod 16) :: rest).
  rewrite scan_start, more_digits_step by done. cbn [more_digits]. by rewrite E.
Qed.

Lemma scan_word hi lo rest : is_byte hi -> is_byte lo -> scan_hex 4 (hex_byte hi ++ hex_byte lo ++ rest) = Scan (256 * hi + lo).
Proof.
  intros (H1 & H2 & E1)%byte_digits (H3 & H4 & E2)%byte_digits.
  change (hex_byte hi ++ hex_byte lo ++ rest) with (hex_digit (hi / 16) :: hex_digit (hi mod 16) :: hex_digit (lo / 16) :: hex_digit (lo mod 16) :: rest).
  rewrite scan_start, !more_digits_step by done. cbn [more_digits]. f_equal. lia.
Qed.

(** * Records *)

Definition text (bs : list Z) : list Z := concat (map hex_byte bs).

Lemma length_text bs : length (text bs) = (2 * length bs)%nat.
Proof. induction bs as [|b bs IH]; [done|]. unfold text in *. cbn [map concat length]. rewrite length_app, IH. cbn. lia. Qed.

Lemma text_app x y : text (x ++ y) = text x ++ text y.
Proof. unfold text. by rewrite map_app, concat_app. Qed.

Lemma text_cons b y : text (b :: y) = hex_byte b ++ text y.
Proof. done. Qed.

(** The text of a line from a byte on. *)
Lemma at_byte x y tl n : n = (1 + 2 * length x)%nat -> at_ptr (58 :: text (x ++ y) ++ tl) n = Ok (text y ++ tl).
Proof.
  intros ->. unfold at_ptr. rewrite decide_True by (cbn [length]; rewrite length_app, length_text, length_app; lia).
  rewrite text_app, <- app_assoc. change (58 :: text x ++ text y ++ tl) with ((58 :: text x) ++ text y ++ tl).
  replace (1 + 2 * length x)%nat with (length (58 :: text x)) by (cbn [length]; rewrite length_text; lia). by rewrite drop_app_length.
Qed.

(** The bytes [bs] have been read from address 0 on, and nothing else. *)
Record holds (bs : list Z) (h : ihex) : Prop := {
  holds_image : forall i, firmware_image h !! i = if decide (0 <= i) then bs !! Z.to_nat i else None;
  holds_mask : forall i, firmware_mask h !! i = if decide (0 <= i < Z.of_nat (length bs)) then Some 1 else None;
  holds_end : end_record_seen h = false;
  holds_base : extended_addr h = 0 }.

Lemma holds_put bs b h : holds bs h -> Z.of_nat (length bs) < MAX_MEMORY_SIZE ->
  exists h', put_image (Z.of_nat (length bs)) b h = Ok h' /\ holds (bs ++ [b]) h' /\ byte_count h' = byte_count h.
Proof.
  intros [H1 H2 H3 H4] Hl. unfold put_image. rewrite (proj2 (Z.leb_le _ _)), (proj2 (Z.ltb_lt _ _)) by lia. cbn [andb].
  eexists. split; [reflexivity|]. split; [|done]. split; cbn [firmware_image firmware_mask end_record_seen extended_addr]; [| |done..]; intros i.
  - rewrite lookup_insert. destruct (decide (Z.of_nat (length bs) = i)) as [<-|Hne].
    + rewrite decide_True by lia. rewrite Nat2Z.id, lookup_app_r, Nat.sub_diag by lia. done.
    + rewrite H1. case_decide; [|done]. rewrite lookup_app. destruct (bs !! Z.to_nat i) eqn:E; [done|].
      rewrite lookup_ge_None in E. rewrite list_lookup_singleton. destruct (_ - _)%nat eqn:En; [lia|done].
  - rewrite lookup_insert. destruct (decide (Z.of_nat (length bs) = i)) as [<-|Hne].
    + by rewrite length_app, decide_True by (cbn; lia).
    + rewrite H2, length_app. cbn [length]. destruct (decide (0 <= i < Z.of_nat (length bs))); [by rewrite decide_True by lia|by rewrite decide_False by lia].
Qed.

Lemma byte_masked b : is_byte b -> Z.land b 255 = b.
Proof. intros Hb. change 255 with (Z.ones 8). rewrite Z.land_ones by lia. by apply Z.mod_small. Qed.

Lemma data_bytes_run c : forall k x ck tl bs sum h num,
  Forall is_byte c -> (length c < k)%nat -> holds bs h -> num + Z.of_nat (length c) <= Z.of_nat (length bs) + Z.of_nat (length c) -> 0 <= num ->
  Z.of_nat (length bs) + Z.of_nat (length c) < MAX_MEMORY_SIZE ->
  exists h', data_bytes k (58 :: text (x ++ c ++ [ck]) ++ tl) (1 + 2 * length x) (Z.of_nat (length bs) - num) (num + Z.of_nat (length c)) num sum h =
      Ok (Some ((1 + 2 * length (x ++ c))%nat, sum + sum_bytes c), h') /\
    holds (bs ++ c) h' /\ byte_count h' = byte_count h.
Proof.
  induction c as [|b c IH]; intros k x ck tl bs sum h num Hc Hk Hh Hn Hn0 Hmax.
  - exists h. rewrite !app_nil_r. split; [|done]. cbn [length Z.of_nat sum_bytes foldr]. rewrite !Z.add_0_r. destruct k; cbn [data_bytes]; by rewrite Z.eqb_refl.
  - apply Forall_cons_iff in Hc as [Hb Hc]. cbn [length] in *. destruct k as [|k]; [lia|]. cbn [data_bytes]. rewrite (proj2 (Z.eqb_neq _ _)) by lia.
    rewrite at_byte, res_bind_ok by done. change ((b :: c) ++ [ck]) with (b :: c ++ [ck]). rewrite text_cons, <- app_assoc, scan_byte, byte_masked by done.
    rewrite (holds_base _ _ Hh). replace (u32 (Z.of_nat (length bs) - num + 0 + num)) with (Z.of_nat (length bs))
      by (rewrite u32_small by (unfold MAX_MEMORY_SIZE in Hmax; lia); lia).
    destruct (holds_put bs b h Hh ltac:(lia)) as (h1 & -> & H1 & B1). rewrite res_bind_ok. destruct k as [|k]; [lia|]. cbn [Nat.eqb].
    destruct (IH (S k) (x ++ [b]) ck tl (bs ++ [b]) (sum + b) h1 (num + 1)) as (h' & E & H' & B'); [done|lia|done|rewrite length_app; cbn; lia|lia|rewrite length_app; cbn; lia|].
    exists h'. rewrite <- !app_assoc in *. change ([b] ++ c) with (b :: c) in *. split; [|by rewrite B'].
    replace (1 + 2 * length x + 2)%nat with (1 + 2 * length (x ++ [b]))%nat by (rewrite length_app; cbn; lia).
    replace (Z.of_nat (length bs) - num) with (Z.of_nat (length (bs ++ [b])) - (num + 1)) by (rewrite length_app; cbn; lia).
    replace (num + Z.of_nat (S (length c))) with (num + 1 + Z.of_nat (length c)) by lia.
    cbn [sum_bytes foldr]. fold (sum_bytes c). rewrite Z.add_assoc. exact E.
Qed.

(** The checksum of a record is right. *)
Lemma good_checksum sum : bad_checksum sum (u8 (- sum)) = false.
Proof.
  unfold bad_checksum. change 255 with (Z.ones 8). rewrite !Z.land_ones by lia. unfold wrapu. rewrite Z.mod_mod, <- Z.add_mod, Z.add_opp_diag_r by lia. done.
Qed.

(** A record with any byte in the place of its checksum. *)
Definition print_with (ck : Z) (r : hex_record) : list Z := 58 :: text (record_bytes r ++ [ck]) ++ [13; 10].

Lemma printed_line r : print_record r = print_with (u8 (- sum_bytes (record_bytes r))) r.
Proof. done. Qed.

Lemma parse_data_line a c ck h bs :
  is_byte ck -> Forall is_byte c -> Z.of_nat (length c) < 256 -> holds bs h -> a = Z.of_nat (length bs) -> a + Z.of_nat (length c) < MAX_MEMORY_SIZE ->
  0 <= byte_count h -> byte_count h + Z.of_nat (length c) < 2 ^ 31 ->
  exists h', parse_hex_line (print_with ck (mk_record a 0 c)) h =
      Ok (negb (bad_checksum (sum_bytes (record_bytes (mk_record a 0 c))) ck), h') /\ holds (bs ++ c) h' /\ byte_count h' = byte_count h + Z.of_nat (length c).
Proof.
  intros Hck Hc Hl Hh Ha Hmax Hn Hn'. set (n := Z.of_nat (length c)) in *. unfold MAX_MEMORY_SIZE in Hmax.
  assert (is_byte n) as Bn by (unfold is_byte; lia). assert (is_byte (a / 256) /\ is_byte (a mod 256) /\ 256 * (a / 256) + a mod 256 = a) as (Ba1 & Ba2 & Ea).
  { unfold is_byte. pose proof (Z.div_mod a 256 ltac:(lia)). pose proof (Z.mod_pos_bound a 256 ltac:(lia)). split_and!; [apply Z.div_pos; lia|apply Z.div_lt_upper_bound; lia|lia..]. }
  unfold print_with. change (record_bytes (mk_record a 0 c) ++ [ck]) with ([n; a / 256; a mod 256; 0] ++ c ++ [ck]).
  unfold parse_hex_line. cbn [nth]. change (negb (58 =? 58)) with false. cbv iota.
  set (line := 58 :: text ([n; a / 256; a mod 256; 0] ++ c ++ [ck]) ++ [13; 10]).
  assert (Z.of_nat (length line) = 11 + 2 * n + 2) as El.
  { unfold line. cbn [length]. rewrite length_app, length_text, !length_app. cbn [length]. unfold n. lia. }
  assert (forall x y p, [n; a / 256; a mod 256; 0] ++ c ++ [ck] = x ++ y -> p = (1 + 2 * length x)%nat -> at_ptr line p = Ok (text y ++ [13; 10])) as Hat
    by (intros x y p E Hp; unfold line; rewrite E; by apply at_byte).
  rewrite (proj2 (Z.ltb_ge (Z.of_nat (length line)) 11)) by lia. unfold scan_or_return.
  rewrite (Hat [] ([n; a / 256; a mod 256; 0] ++ c ++ [ck]) 1%nat), res_bind_ok by done. change ([n; a / 256; a mod 256; 0] ++ c ++ [ck]) with (n :: [a / 256; a mod 256; 0] ++ c ++ [ck]). rewrite text_cons, <- app_assoc, scan_byte, res_bind_ok by done.
  rewrite (proj2 (Z.ltb_ge (Z.of_nat (length line)) (11 + n * 2))) by lia.
  rewrite (Hat [n] ([a / 256; a mod 256; 0] ++ c ++ [ck]) 3%nat), res_bind_ok by done. change ([a / 256; a mod 256; 0] ++ c ++ [ck]) with (a / 256 :: a mod 256 :: [0] ++ c ++ [ck]). rewrite !text_cons, <- !app_assoc, scan_word, Ea by done.
  rewrite (Hat [n; a / 256; a mod 256] ([0] ++ c ++ [ck]) 7%nat), res_bind_ok by done. change ([0] ++ c ++ [ck]) with (0 :: c ++ [ck]). rewrite text_cons, <- app_assoc, scan_byte, !res_bind_ok by done.
  rewrite (holds_base _ _ Hh), u32_small by lia. unfold MAX_MEMORY_SIZE. rewrite (proj2 (Z.leb_gt _ _)) by lia. cbn [Z.eqb negb]. cbv zeta.
  unfold data_record. set (h0 := add_byte_count n h). assert (holds bs h0) as H0 by (destruct Hh; by split).
  destruct (data_bytes_run c 256 [n; a / 256; a mod 256; 0] ck [13; 10] bs (Z.land n 255 + Z.land (Z.shiftr a 8) 255 + Z.land a 255 + Z.land 0 255) h0 0)
    as (h' & E & H' & B'); [done|lia|done|lia|lia|unfold MAX_MEMORY_SIZE; lia|].
  cbn [length Nat.mul Nat.add] in E. rewrite Z.sub_0_r, <- Ha in E. change (0 + Z.of_nat (length c)) with n in E. fold line in E.
  rewrite E, res_bind_ok. rewrite (Hat ([n; a / 256; a mod 256; 0] ++ c) [ck]), res_bind_ok by (done || by rewrite <- app_assoc).
  unfold scan_or_return. rewrite text_cons, <- app_assoc, scan_byte, res_bind_ok by done. exists h'. split; [|split; [done|]].
  - f_equal. f_equal. rewrite byte_masked, Z.shiftr_div_pow2 by (done || lia). change (2 ^ 8) with 256. rewrite byte_masked by done.
    change (Z.land a 255) with (Z.land a (Z.ones 8)). rewrite Z.land_ones by lia. change (2 ^ 8) with 256.
    replace (n + a / 256 + a mod 256 + Z.land 0 255 + sum_bytes c) with (sum_bytes (record_bytes (mk_record a 0 c))) 
      by (change (sum_bytes (record_bytes (mk_record a 0 c))) with (n + (a / 256 + (a mod 256 + (0 + sum_bytes c)))); rewrite Z.land_0_l; lia).
    done.
  - rewrite B'. unfold h0, add_byte_count. cbn [byte_count]. unfold wraps. rewrite Z.mod_small; lia.
Qed.

Lemma parse_end_line h bs : holds bs h -> parse_hex_line (print_record end_of_file) h = Ok (true, end_record h).
Proof. intros Hh. unfold parse_hex_line. cbn -[data_record extended_record]. by rewrite (holds_base _ _ Hh). Qed.

(** * Files *)

Lemma text_chars bs : Forall is_byte bs -> Forall (fun c => (c =? 10) = false /\ (c =? 0) = false) (text bs).
Proof.
  induction 1 as [|b bs Hb _ IH]; [constructor|]. rewrite text_cons. apply Forall_app. split; [|done]. apply byte_digits in Hb as (H1 & H2 & _).
  destruct (digit_value _ H1) as (_ & _ & _ & _ & _ & N1 & Z1), (digit_value _ H2) as (_ & _ & _ & _ & _ & N2 & Z2). by repeat constructor.
Qed.

Lemma fgets_line l : forall n rest, Forall (fun c => (c =? 10) = false) l -> (length l < n)%nat -> fgets n (l ++ 10 :: rest) = (l ++ [10], rest).
Proof.
  induction l as [|c l IH]; intros n rest Hl Hn; cbn [length] in Hn; (destruct n as [|n]; [lia|]); [done|].
  apply Forall_cons_iff in Hl as [Hc Hl]. change ((c :: l) ++ 10 :: rest) with (c :: (l ++ 10 :: rest)). cbn [fgets]. rewrite Hc, IH by (done || lia). done.
Qed.

Lemma c_string_all l : Forall (fun c => (c =? 0) = false) l -> c_string l = l.
Proof. induction 1 as [|c l Hc _ IH]; [done|]. cbn [c_string]. by rewrite Hc, IH. Qed.

(** A printed record is one line. *)
Lemma record_line ck r rest : is_byte ck -> Forall is_byte (record_bytes r) -> (length (record_bytes r) < 400)%nat ->
  fgets 1023 (print_with ck r ++ rest) = (print_with ck r, rest) /\ c_string (print_with ck r) = print_with ck r.
Proof.
  intros Hck Hr Hl. set (bs := record_bytes r ++ [ck]).
  assert (Forall is_byte bs) as Hbs by (apply Forall_app; split; [done|by apply Forall_singleton]).
  pose proof (text_chars bs Hbs) as Ht.
  assert (print_with ck r = (58 :: text bs ++ [13]) ++ [10]) as -> by (unfold print_with; fold bs; rewrite <- app_comm_cons, <- app_assoc; done).
  assert (Forall (fun c => (c =? 10) = false /\ (c =? 0) = false) (58 :: text bs ++ [13])) as Ha.
  { constructor; [done|]. apply Forall_app. split; [done|by repeat constructor]. }
  assert (length (58%Z :: text bs ++ [13%Z]) < 1023)%nat as Hlen.
  { cbn [length]. rewrite length_app, length_text. unfold bs. rewrite length_app. cbn [length]. lia. }
  split.
  - rewrite <- app_assoc. apply fgets_line; [eapply Forall_impl; [exact Ha|]; by intros c [? _]|exact Hlen].
  - apply c_string_all. apply Forall_app. split; [|by repeat constructor]. eapply Forall_impl; [exact Ha|]. by intros c [_ ?].
Qed.

Definition data_ok (c : list Z) : Prop := Forall is_byte c /\ Z.of_nat (length c) < 256.

Lemma record_bytes_ok a c : 0 <= a < 65536 -> data_ok c ->
  Forall is_byte (record_bytes (mk_record a 0 c)) /\ (length (record_bytes (mk_record a 0 c)) < 400)%nat.
Proof.
  intros Ha [Hc Hl]. unfold record_bytes. cbn [r_addr r_type r_data]. split; [|rewrite length_app; cbn [length]; lia].
  pose proof (Z.mod_pos_bound a 256 ltac:(lia)). assert (0 <= a / 256 < 256) by (split; [apply Z.div_pos; lia|apply Z.div_lt_upper_bound; lia]).
  apply Forall_app. split; [|done]. repeat (apply Forall_cons; split; [unfold is_byte; lia|]). by apply Forall_nil.
Qed.

(** A line of the file that is a record. *)
Lemma read_record ck r rest k h :
  is_byte ck -> Forall is_byte (record_bytes r) -> (length (record_bytes r) < 400)%nat ->
  read_lines false (S k) (print_with ck r ++ rest) h =
  (o ← parse_hex_line (print_with ck r) h;
   let (ok, h') := o : bool * ihex in
   if negb ok then Ok (-2, h') else if end_record_seen h' || false then Ok (byte_count h', h') else read_lines false k rest h').
Proof.
  intros Hck Hr Hl. destruct (record_line ck r rest Hck Hr Hl) as [E1 E2].
  assert (print_with ck r ++ rest = 58 :: (text (record_bytes r ++ [ck]) ++ [13; 10]) ++ rest) as Ep by done.
  rewrite Ep in *. cbn [read_lines]. rewrite E1, E2. done.
Qed.

(** The data records of a file. *)
Lemma read_pieces pieces : forall k tail h bs,
  Forall data_ok pieces -> holds bs h -> byte_count h = Z.of_nat (length bs) -> Z.of_nat (length bs) + Z.of_nat (length (concat pieces)) < MAX_MEMORY_SIZE ->
  exists h', read_lines false (length pieces + k) (print_file (data_records (Z.of_nat (length bs)) pieces) ++ tail) h = read_lines false k tail h' /\
    holds (bs ++ concat pieces) h' /\ byte_count h' = Z.of_nat (length (bs ++ concat pieces)).
Proof.
  unfold MAX_MEMORY_SIZE. induction pieces as [|c pieces IH]; intros k tail h bs Hp Hh Hb Hmax.
  { exists h. by rewrite app_nil_r. }
  apply Forall_cons_iff in Hp as [Hc Hp]. cbn [concat data_records length Nat.add] in *. rewrite length_app in Hmax.
  destruct (record_bytes_ok (Z.of_nat (length bs)) c) as [R1 R2]; [lia|done|]. set (r := mk_record (Z.of_nat (length bs)) 0 c) in *.
  change (print_file (mk_record (Z.of_nat (length bs)) HEX_RECORD_TYPE_Data c :: ?l)) with (print_record r ++ print_file l). rewrite <- app_assoc, printed_line.
  rewrite read_record by (done || apply u8_is_byte). destruct Hc as [Hc1 Hc2].
  destruct (parse_data_line (Z.of_nat (length bs)) c (u8 (- sum_bytes (record_bytes r))) h bs) as (h1 & E & H1 & B1); [apply u8_is_byte|done..|unfold MAX_MEMORY_SIZE; lia|lia|lia|].
  fold r in E. rewrite good_checksum in E. rewrite E, res_bind_ok. cbn [negb]. rewrite (holds_end _ _ H1). cbn [orb].
  destruct (IH k tail h1 (bs ++ c)) as (h' & E' & H' & B'); [done|done|rewrite length_app; lia|rewrite length_app; lia|].
  exists h'. rewrite <- !app_assoc in *. rewrite length_app, Nat2Z.inj_add in E'. split; [exact E'|]. split; [done|done].
Qed.

Lemma holds_init : holds [] ihex_init.
Proof. split; try done; intros i; cbn; repeat case_decide; try done; lia. Qed.

(** The image as the arrays have it. *)
Definition imaged (bs : list Z) (h : ihex) : Prop := exists h0, holds bs h0 /\ h = end_record h0.

Lemma length_print_file rs : (length rs <= length (print_file rs))%nat.
Proof. induction rs as [|r rs IH]; [done|]. change (print_file (r :: rs)) with (print_record r ++ print_file rs). rewrite length_app. cbn [length]. unfold print_record. cbn. lia. Qed.

Lemma length_data_records pieces : forall a, length (data_records a pieces) = length pieces.
Proof. induction pieces as [|c pieces IH]; intros a; [done|]. cbn. by rewrite IH. Qed.

(** A whole file. *)
Lemma read_file pieces : Forall data_ok pieces -> Z.of_nat (length (concat pieces)) < MAX_MEMORY_SIZE ->
  exists h, read_intel_hex false (Some (print_file (data_records 0 pieces ++ [end_of_file]))) = Ok (Z.of_nat (length (concat pieces)), h) /\ imaged (concat pieces) h.
Proof.
  intros Hp Hmax. unfold read_intel_hex. rewrite print_file_snoc. set (file := _ ++ _).
  assert (exists k, length file = (length pieces + S k)%nat) as [k ->].
  { exists (length file - length pieces - 1)%nat. unfold file. rewrite length_app. pose proof (length_print_file (data_records 0 pieces)) as Hl.
    rewrite length_data_records in Hl. unfold print_record at 2. cbn [length]. unfold print_record. cbn. lia. }
  destruct (read_pieces pieces (S k) (print_record end_of_file) ihex_init []) as (h & E & H & B); [done|apply holds_init|done|done|].
  unfold file. change (Z.of_nat (length ([] : list Z))) with 0 in E. rewrite E. exists (end_record h). split; [|by exists h].
  assert (Forall is_byte (record_bytes end_of_file)) as He by (apply (bool_decide_unpack _); by vm_compute).
  rewrite <- (app_nil_r (print_record end_of_file)), printed_line, read_record by (done || apply u8_is_byte || (cbn; lia)).
  rewrite <- printed_line, (parse_end_line _ _ H), res_bind_ok. cbn. by rewrite B.
Qed.
