(* ===== verification/HidProgram.v ===== *)
(** Programming a device with the host program: [UsbDevice], a device that appears in
    its time and takes every report, the reports that the host program sends for a file,
    and what the bootloader in the device makes of them. *)

From Stdlib Require Import ZArith Lia String.
From stdpp Require Import base tactics list numbers gmap.
From S2P Require Import Prelude Posix Avr Device Flash HidDevice HexLoader HexProofs DownloadHost HidLoader HexFile HidCli LibUsb HidCliProofs.

Local Open Scope list_scope.
Local Open Scope Z_scope.

(** * The image in blocks *)

Lemma imaged_at bs h i : imaged bs h -> 0 <= i ->
  mask_at h i = (if decide (i < Z.of_nat (length bs)) then 1 else 0) /\ (i < Z.of_nat (length bs) -> bs !! Z.to_nat i = Some (image_at h i)).
Proof.
  intros (h0 & [H1 H2 _ _] & ->) Hi. unfold mask_at, image_at, end_record. cbn [firmware_mask firmware_image]. rewrite H1, H2. split.
  - destruct (decide (i < _)); [by rewrite decide_True by lia|by rewrite decide_False by lia].
  - intros Hl. rewrite decide_True by done. destruct (lookup_lt_is_Some_2 bs (Z.to_nat i)) as [x ->]; [lia|done].
Qed.

(** Whether a block that begins at [a] is used. *)
Lemma any_mask_used bs h n a : imaged bs h -> 0 <= a < Z.of_nat (length bs) -> any_mask h (S n) a = true.
Proof. intros Hh Ha. cbn [any_mask]. destruct (imaged_at bs h a Hh) as [-> _]; [lia|]. by rewrite decide_True by lia. Qed.

Lemma any_mask_unused bs h n : forall a, imaged bs h -> 0 <= a -> Z.of_nat (length bs) <= a -> any_mask h n a = false.
Proof.
  induction n as [|n IH]; intros a Hh Ha Hl; [done|]. cbn [any_mask]. destruct (imaged_at bs h a Hh Ha) as [-> _]. rewrite decide_False by lia.
  apply IH; [done|lia..].
Qed.

(** The bytes of a block: the image, filled up with ones. *)
Lemma get_bytes_image bs h m n : forall a, imaged bs h -> 0 <= a -> (Z.to_nat a + n <= length (bs ++ replicate m 255%Z))%nat ->
  get_bytes h n a = take n (drop (Z.to_nat a) (bs ++ replicate m 255)).
Proof.
  set (p := bs ++ replicate m 255). induction n as [|n IH]; intros a Hh Ha Hn; [done|]. cbn [get_bytes].
  destruct (lookup_lt_is_Some_2 p (Z.to_nat a)) as [x Ex]; [lia|]. rewrite (drop_S _ _ _ Ex). cbn [take].
  rewrite IH by (done || lia). replace (Z.to_nat (a + 1)) with (S (Z.to_nat a)) by lia. f_equal.
  destruct (imaged_at bs h a Hh Ha) as [-> Hx]. unfold p in Ex. destruct (decide (a < Z.of_nat (length bs))) as [Hlt|Hge].
  - rewrite lookup_app_l in Ex by lia. rewrite Hx in Ex by done. cbn. congruence.
  - rewrite lookup_app_r in Ex by lia. apply lookup_replicate in Ex as [-> _]. done.
Qed.

(** An image of whole blocks in pieces, with their addresses. *)
Fixpoint blocks_of (n : nat) (size a : Z) (p : list Z) : list (Z * list Z) :=
  match n with
  | O => []
  | S n' => (a, take (Z.to_nat size) p) :: blocks_of n' size (a + size) (drop (Z.to_nat size) p)
  end.

(** The blocks that the host programs for an image of [n] bytes, the first one always. *)
Definition used_blocks (size n : Z) : nat := Z.to_nat (Z.max 1 ((n + size - 1) / size)).

Definition filled_up (size : Z) (bs : list Z) : list Z :=
  bs ++ replicate (Z.to_nat (Z.of_nat (used_blocks size (Z.of_nat (length bs))) * size - Z.of_nat (length bs))) 255.

Lemma used_blocks_spec size n : 0 < size -> 0 <= n ->
  let u := Z.of_nat (used_blocks size n) in
  1 <= u /\ n <= u * size /\ (forall j, 0 <= j < u -> j * size = 0 \/ j * size < n) /\ forall c, 1 <= c -> n <= c * size -> u <= c.
Proof.
  intros Hs Hn. cbv zeta. unfold used_blocks. rewrite Z2Nat.id by lia. set (q := (n + size - 1) / size).
  pose proof (Z.div_mod (n + size - 1) size ltac:(lia)) as Ed. fold q in Ed. pose proof (Z.mod_pos_bound (n + size - 1) size ltac:(lia)).
  split_and!; [lia|nia| |].
  - intros j Hj. destruct (decide (j = 0)) as [->|Hne]; [by left|right]. nia.
  - intros c Hc Hnc. assert (q <= c); [|lia]. apply Z.lt_succ_r. apply Z.div_lt_upper_bound; nia.
Qed.

Lemma length_filled_up size bs : 0 < size -> Z.of_nat (length (filled_up size bs)) = Z.of_nat (used_blocks size (Z.of_nat (length bs))) * size.
Proof.
  intros Hs. destruct (used_blocks_spec size (Z.of_nat (length bs)) Hs ltac:(lia)) as (_ & H & _). unfold filled_up. rewrite length_app, length_replicate. lia.
Qed.

(** The bytes of a report for the block at an address. *)
Definition address_bytes (o : options) (addr : Z) : list Z :=
  if code_size o <? 0x10000 then [Z.land addr 255; Z.land (Z.shiftr addr 8) 255] else [Z.land (Z.shiftr addr 8) 255; Z.land (Z.shiftr addr 16) 255].

Definition report_of (o : options) (b : Z * list Z) : list Z := address_bytes o b.1 ++ b.2.

(** * A device *)

(** [appears w] more delays have to pass before the device can be opened; [sent w] are the
    reports that it has got. *)
Class UsbDevice (W : Type) `{UsbAccess W} : Type := {
  appears : W -> nat;
  opened : W -> bool;
  sent : W -> list (list Z);
  open_result w : (teensy_open w).1 = bool_decide (appears w = 0%nat);
  open_keeps w : appears (teensy_open w).2 = appears w /\ sent (teensy_open w).2 = sent w;
  open_files w : (forall n, file_of n (teensy_open w).2 = file_of n w) /\ stdin_ended (teensy_open w).2 = stdin_ended w;
  delay_counts t w : appears (delay t w) = pred (appears w) /\ sent (delay t w) = sent w;
  delay_files t w : (forall n, file_of n (delay t w) = file_of n w) /\ stdin_ended (delay t w) = stdin_ended w;
  open_opened w : appears w = 0%nat -> opened (teensy_open w).2 = true;
  write_result b t w : opened w = true -> (teensy_write b t w).1 = true /\ opened (teensy_write b t w).2 = true;
  write_sent b t w : opened w = true -> sent (teensy_write b t w).2 = sent w ++ [b];
  close_sent w : sent (teensy_close w) = sent w }.

(** The reports among the control messages. *)
Definition set_reports (l : list message) : list (list Z) :=
  omap (fun '(rt, rq, v, i, b) => if (rt =? 0x21) && (rq =? HID_REQ_SetReport) && (v =? 0x0200) && (i =? 0) then Some b else None) l.

Ltac open_view V :=
  let V1 := fresh in let V2 := fresh in let V3 := fresh in let V4 := fresh in
  cbn in *; unfold view in V; injection V as V1 V2 V3 V4; rewrite ?V1, ?V2, ?V3, ?V4.

(** On Linux, with a bootloader that is plugged in. *)
#[export] Instance libusb_device {X} `{HA : HidAttached X} (np : bool) : @UsbDevice (usb_world X) (libusb_access np).
Proof.
  refine {| appears w := lu_wait (system w); opened w := bool_decide (is_Some (libusb_teensy_handle w)); sent w := set_reports (lu_messages (system w)) |}; cbn.
  - intros w. destruct (libusb_open_spec np w) as (h & x' & -> & _ & Hh). cbn. destruct h; [rewrite bool_decide_true|rewrite bool_decide_false]; [done| |done|by apply Hh].
    destruct (decide (lu_wait (system w) = 0%nat)); [done|]. by discriminate (proj2 Hh).
  - intros w. destruct (libusb_open_spec np w) as (h & x' & -> & V & _). by open_view V.
  - intros w. destruct (libusb_open_spec np w) as (h & x' & -> & V & _). by open_view V.
  - intros t w. pose proof (sleep_view t (system w)) as V. by open_view V.
  - intros t w. pose proof (sleep_view t (system w)) as V. by open_view V.
  - intros w Hw. destruct (libusb_open_spec np w) as ([h|] & x' & -> & _ & Hh); [done|]. by destruct (proj1 Hh eq_refl).
  - intros b t w [h Hh]%bool_decide_eq_true. by destruct (libusb_write_spec b t w h Hh) as (x' & -> & _).
  - intros b t w [h Hh]%bool_decide_eq_true. destruct (libusb_write_spec b t w h Hh) as (x' & -> & V). open_view V. unfold set_reports. by rewrite omap_app.
  - intros w. pose proof (libusb_close_view w) as V. by open_view V.
Defined.

Section host.
Context {W : Type} `{UD : UsbDevice W}.
Abbreviation run := (prog (cli W)).

Lemma wp_outside {B} (f : W -> B * W) (Q : B -> cli W -> Prop) E s :
  Q (f (world s)).1 (mk_cli (f (world s)).2 (opts s) (hexfile s)) -> wp (outside f) Q E s.
Proof. unfold wp, outside. by destruct (f (world s)) as [b w]. Qed.

Lemma wp_when (b : bool) (m : run unit) (Q : unit -> cli W -> Prop) E s : (if b then wp m Q E s else Q tt s) -> wp (when b m) Q E s.
Proof. by destruct b. Qed.

(** The same files and reports. *)
Definition same_world (w w' : W) : Prop := sent w' = sent w /\ (forall n, file_of n w' = file_of n w) /\ stdin_ended w' = stdin_ended w.

Lemma wp_open_usb n : forall k waited (Q : bool -> cli W -> Prop) E s,
  appears (world s) = n -> (n < k)%nat -> hard_reboot_device (opts s) = false -> n = 0%nat \/ wait_for_device_to_appear (opts s) = true ->
  (forall b w', same_world (world s) w' -> opened w' = true -> Q b (mk_cli w' (opts s) (hexfile s))) -> wp (open_usb k waited) Q E s.
Proof.
  induction n as [|n IH]; intros k waited Q E s Hn Hk Hr Hw HQ; (destruct k as [|k]; [lia|]); cbn [open_usb]; apply wp_bind, wp_outside;
    rewrite open_result, Hn; destruct (open_keeps (world s)) as [Ka Ks], (open_files (world s)) as [Kf Ki].
  - rewrite bool_decide_true by done. apply wp_ret, HQ; [by split|]. by apply open_opened.
  - rewrite bool_decide_false by done. apply wp_bind, wp_gets. cbn [opts]. rewrite Hr. apply wp_bind, wp_ret. apply wp_bind, wp_gets.
    cbn [opts]. destruct Hw as [|Hw]; [done|]. rewrite Hw. apply wp_bind, wp_ret, wp_bind, wp_outside. cbn [fst snd world opts hexfile].
    destruct (delay_counts 250 (teensy_open (world s)).2) as [Da Ds], (delay_files 250 (teensy_open (world s)).2) as [Df Di].
    apply IH; cbn [world opts hexfile]; [rewrite Da, Ka, Hn; done|lia|done|by right|]. intros b w' (S1 & S2 & S3) O1. apply HQ; [split_and!|exact O1].
    + by rewrite S1, Ds, Ks.
    + intros x. by rewrite S2, Df, Kf.
    + by rewrite S3, Di, Ki.
Qed.

(** The blocks of the image. *)
Lemma wp_program_used bs m u : forall kf addr first (Q : unit -> cli W -> Prop) E s,
  opened (world s) = true -> imaged bs (hexfile s) -> 0 < block_size (opts s) -> 0 <= addr -> addr + Z.of_nat u * block_size (opts s) <= code_size (opts s) ->
  addr + Z.of_nat u * block_size (opts s) < MAX_MEMORY_SIZE -> addr + Z.of_nat u * block_size (opts s) <= Z.of_nat (length (bs ++ replicate m 255)) ->
  (forall j, 0 <= j < Z.of_nat u -> addr + j * block_size (opts s) = 0 \/ addr + j * block_size (opts s) < Z.of_nat (length bs)) ->
  (forall w' first', opened w' = true -> sent w' = sent (world s) ++ map (report_of (opts s)) (blocks_of u (block_size (opts s)) addr (drop (Z.to_nat addr) (bs ++ replicate m 255))) ->
    wp (program_blocks kf (addr + Z.of_nat u * block_size (opts s)) first') Q E (mk_cli w' (opts s) (hexfile s))) ->
  wp (program_blocks (u + kf) addr first) Q E s.
Proof.
  set (p := bs ++ replicate m 255). induction u as [|u IH]; intros kf addr first Q E s Hop Hh Hs Ha Hc Hm Hl Hu HQ.
  { specialize (HQ (world s) first Hop). rewrite app_nil_r, Z.mul_0_l, Z.add_0_r in HQ. specialize (HQ eq_refl). by destruct s. }
  rewrite Nat2Z.inj_succ, Z.mul_succ_l in *. assert (0 <= Z.of_nat u * block_size (opts s)) by (apply Z.mul_nonneg_nonneg; lia).
  cbn [program_blocks Nat.add]. apply wp_bind, wp_gets. cbv beta zeta. change (id s) with s. rewrite (proj2 (Z.ltb_lt _ _)) by lia.
  assert ((0 <? addr) && negb (ihex_bytes_within_range (hexfile s) addr (addr + block_size (opts s) - 1)) = false) as ->.
  { destruct (Z.ltb_spec 0 addr); [|done]. destruct (Hu 0) as [|Hu0]; [lia..|]. rewrite Z.mul_0_l, Z.add_0_r in Hu0.
    unfold ihex_bytes_within_range. rewrite !(proj2 (Z.ltb_ge _ _)), !(proj2 (Z.leb_gt _ _)) by lia. cbn [orb].
    replace (Z.to_nat _) with (S (Z.to_nat (block_size (opts s) - 1))) by lia. by rewrite (any_mask_used bs) by (done || lia). }
  assert (block_report (opts s) (hexfile s) addr = report_of (opts s) (addr, take (Z.to_nat (block_size (opts s))) (drop (Z.to_nat addr) p))) as ->.
  { unfold block_report, report_of, address_bytes. cbn [fst snd]. f_equal. unfold ihex_get_data. rewrite !(proj2 (Z.ltb_ge _ _)), !(proj2 (Z.leb_gt _ _)) by lia.
    cbn [orb]. apply (get_bytes_image bs (hexfile s) m); [done|done|fold p; lia]. }
  apply wp_bind, wp_outside. set (rep := report_of _ _). set (t := if first then 3000 else 250). destruct (write_result rep t (world s) Hop) as [-> Hop']. apply wp_bind, wp_ret.
  apply IH; cbn [opts hexfile world]; [done|done|done|lia|lia|lia|lia| |].
  - intros j Hj. destruct (Hu (j + 1)) as [|Hu']; [lia..|]. right. lia.
  - intros w' first' Hop2 Hw'. replace (addr + block_size (opts s) + Z.of_nat u * block_size (opts s))
      with (addr + (Z.of_nat u * block_size (opts s) + block_size (opts s))) by lia. apply HQ; [done|]. rewrite Hw', write_sent, <- app_assoc by done. cbn [blocks_of map].
    rewrite drop_drop. by replace (Z.to_nat (addr + block_size (opts s))) with (Z.to_nat addr + Z.to_nat (block_size (opts s)))%nat by lia.
Qed.

(** The blocks above it. *)
Lemma wp_program_unused bs r : forall kf addr first (Q : unit -> cli W -> Prop) E s,
  imaged bs (hexfile s) -> 0 < block_size (opts s) -> 0 < addr -> Z.of_nat (length bs) <= addr -> code_size (opts s) = addr + Z.of_nat r * block_size (opts s) ->
  (r <= kf)%nat -> Q tt s -> wp (program_blocks kf addr first) Q E s.
Proof.
  induction r as [|r IH]; intros kf addr first Q E s Hh Hs Ha Hl Hc Hk HQ.
  - assert (wp (program_blocks 0 addr first) Q E s /\ forall k, wp (program_blocks (S k) addr first) Q E s) as [H1 H2]; [|by destruct kf].
    split; [|intros k]; cbn [program_blocks]; apply wp_bind, wp_gets; cbv beta zeta; change (id s) with s; rewrite (proj2 (Z.ltb_ge _ _)) by lia; by apply wp_ret.
  - destruct kf as [|kf]; [lia|]. cbn [program_blocks]. apply wp_bind, wp_gets. cbv beta zeta. change (id s) with s.
    rewrite Nat2Z.inj_succ, Z.mul_succ_l in Hc. assert (0 <= Z.of_nat r * block_size (opts s)) by (apply Z.mul_nonneg_nonneg; lia).
    rewrite (proj2 (Z.ltb_lt addr _)), (proj2 (Z.ltb_lt 0 addr)) by lia.
    assert (ihex_bytes_within_range (hexfile s) addr (addr + block_size (opts s) - 1) = false) as ->.
    { unfold ihex_bytes_within_range. destruct (_ || _); [done|]. by apply (any_mask_unused bs); [|lia..]. }
    cbn [negb andb]. apply IH; [done|done|lia|lia|lia|lia|done].
Qed.

Lemma wp_load_file name pieces (Q : unit -> cli W -> Prop) E s :
  file_of name (world s) = Some (print_file (data_records 0 pieces ++ [end_of_file])) -> stdin_ended (world s) = false ->
  Forall data_ok pieces -> Z.of_nat (length (concat pieces)) < MAX_MEMORY_SIZE ->
  (forall h, imaged (concat pieces) h -> Q tt (mk_cli (world s) (opts s) h)) -> wp (load_file name) Q E s.
Proof.
  intros Hf Hi Hp Hm HQ. destruct (read_file pieces Hp Hm) as (h & Er & Hh). unfold load_file. apply wp_bind, wp_gets. change (id s) with s.
  eapply wp_bind, wp_lift; [rewrite Hi, Hf; exact Er|]. apply wp_bind, wp_modify. cbn [fst snd]. rewrite (proj2 (Z.ltb_ge _ _)) by lia. by apply wp_ret, HQ.
Qed.

(** The reports for a file. *)
Definition reports_for (o : options) (bs : list Z) : list (list Z) :=
  map (report_of o) (blocks_of (used_blocks (block_size o) (Z.of_nat (length bs))) (block_size o) 0 (filled_up (block_size o) bs)).

Lemma wp_cli_main fuel argv o name pieces c s :
  parse_options argv (opts s) = Some o -> filename o = Some name -> hard_reboot_device o = false ->
  appears (world s) = 0%nat \/ wait_for_device_to_appear o = true -> (appears (world s) < fuel)%nat ->
  file_of name (world s) = Some (print_file (data_records 0 pieces ++ [end_of_file])) -> stdin_ended (world s) = false ->
  Forall data_ok pieces -> 0 < block_size o -> 1 <= c <= Z.of_nat fuel -> code_size o = c * block_size o -> Z.of_nat (length (concat pieces)) <= code_size o ->
  Z.of_nat (used_blocks (block_size o) (Z.of_nat (length (concat pieces)))) * block_size o < MAX_MEMORY_SIZE ->
  wp (cli_main fuel argv) (fun r s' => r = 0 /\
    sent (world s') = sent (world s) ++ reports_for o (concat pieces) ++ (if reboot_after_programming o then [boot_report o] else [])) (fun _ _ => False) s.
Proof.
  intros Ho Hname Hr Hw Hfuel Hf Hi Hp Hs Hc Hcs Hn Hm. set (bs := concat pieces) in *.
  destruct (used_blocks_spec (block_size o) (Z.of_nat (length bs)) Hs ltac:(lia)) as (U1 & U2 & U3 & U4). set (u := used_blocks _ _) in *. specialize (U4 c ltac:(lia) ltac:(lia)).
  assert (Z.of_nat (length bs) < MAX_MEMORY_SIZE) as Hmax by lia. assert (Z.of_nat u * block_size o <= c * block_size o) by (apply Z.mul_le_mono_nonneg_r; lia).
  unfold cli_main. apply wp_bind, wp_gets. rewrite Ho. apply wp_bind, wp_modify. rewrite Hname. cbn [world hexfile].
  rewrite (proj2 (Z.eqb_neq (code_size o) 0)) by nia. apply wp_bind, wp_ret.
  eapply wp_bind, wp_load_file; [exact Hf|done|done|done|]. intros h0 Hh0. cbn [world opts]. apply wp_bind.
  eapply wp_open_usb; [reflexivity|done|done|done|]. cbn [world opts hexfile]. intros waited w1 (S1 & F1 & I1) O1. apply wp_bind.
  assert (forall h, imaged bs h -> wp (program_blocks fuel 0 true ;; when (reboot_after_programming o) (outside (teensy_write (boot_report o) 250) ;; mret tt) ;;
    outside (fun w => (tt, teensy_close w)) ;; mret 0) (fun r s' => r = 0 /\
    sent (world s') = sent (world s) ++ reports_for o bs ++ (if reboot_after_programming o then [boot_report o] else [])) (fun _ _ => False) (mk_cli w1 o h)) as Hrest.
  { intros h Hh. apply wp_bind. replace fuel with (u + (fuel - u))%nat by lia.
    apply (wp_program_used bs (Z.to_nat (Z.of_nat u * block_size o - Z.of_nat (length bs)))); cbn [world opts hexfile]; rewrite ?Z.add_0_l; [done..|lia|lia|lia| | |].
    - rewrite length_app, length_replicate. lia.
    - intros j Hj. rewrite Z.add_0_l. by apply U3.
    - intros w2 first O2 Hw2. eapply (wp_program_unused bs (Z.to_nat c - u)%nat); cbn [world opts hexfile]; [done|done|nia|done|nia|lia|]. apply wp_bind, wp_when.
      cbn [Z.to_nat] in Hw2. rewrite drop_0 in Hw2. fold (filled_up (block_size o) bs) in Hw2. change (map _ _) with (reports_for o bs) in Hw2. rewrite S1 in Hw2.
      destruct (reboot_after_programming o); [apply wp_bind, wp_outside, wp_ret|]; (apply wp_bind, wp_outside, wp_ret); (split; [done|]); cbn [world fst snd];
        rewrite close_sent, ?write_sent, Hw2 by done; rewrite ?app_nil_r, <- ?app_assoc; done. }
  destruct waited; [|by apply wp_ret, Hrest]. cbn [when]. eapply wp_load_file; cbn [world opts hexfile]; [rewrite F1; exact Hf|by rewrite I1|done|done|].
  intros h Hh. by apply Hrest.
Qed.
End host.

(** * The bootloader in the device *)

(** The sizes of the parts that parse_options knows: the size of the memory, of a page and
    its logarithm, and whether the bootloader of the part expects addresses without their
    low byte, which it does when FLASHEND is above 0xFFFF. *)
Definition parts : list (Z * Z * Z * bool) :=
  [(8192, 128, 7, false); (16384, 128, 7, false); (32768, 128, 7, false); (65536, 256, 8, false); (131072, 256, 8, true)].

(** The host program sends such addresses unless the memory is below 64 KB; it disagrees
    with the bootloader on the parts of 64 KB. *)
Definition agrees (o : options) (far : bool) : Prop := (code_size o <? 0x10000) = negb far.

Lemma parts_agree : map (fun '(cs, _, _, far) => Bool.eqb (cs <? 0x10000) (negb far)) parts = [true; true; true; false; true].
Proof. done. Qed.

Lemma parts_sizes cs size k far : (cs, size, k, far) ∈ parts ->
  1 <= k <= 8 /\ size = 2 ^ k /\ (exists c, 1 <= c <= 512 /\ cs = c * size) /\ (exists c, 0xFF00 = c * size) /\
  (far = true -> size = 256).
Proof.
  unfold parts. rewrite !elem_of_cons.
  intros [E|[E|[E|[E|[E|[]%elem_of_nil]]]]]; injection E as -> -> -> ->; (split; [lia|]); (split; [done|]);
    [split; [by exists 64|split; [by exists 510|done]]|split; [by exists 128|split; [by exists 510|done]]|
     split; [by exists 256|split; [by exists 510|done]]|split; [by exists 256|split; [by exists 255|done]]|
     split; [by exists 512|split; [by exists 255|done]]].
Qed.

(** The bootloader understands the address. *)
Lemma address_sent o k far a : (code_size o, block_size o, k, far) ∈ parts -> agrees o far -> 0 <= a < 0xFF00 -> a mod 2 ^ k = 0 ->
  exists lo hi, address_bytes o a = [lo; hi] /\ is_byte lo /\ is_byte hi /\ report_address far lo hi = a /\ hi * 256 + lo <> COMMAND_STARTAPPLICATION.
Proof.
  intros (Hk & Es & _ & _ & Hfar)%parts_sizes Hag Ha Hm. unfold address_bytes. change 255 with (Z.ones 8). rewrite !Z.land_ones, !Z.shiftr_div_pow2 by lia.
  change (2 ^ 8) with 256. change (2 ^ 16) with 65536.
  assert (0 <= a / 256 < 255) as Hd by (split; [apply Z.div_pos; lia|apply Z.div_lt_upper_bound; lia]). pose proof (Z.div_mod a 256 ltac:(lia)) as Ed.
  pose proof (Z.mod_pos_bound a 256 ltac:(lia)). rewrite (Z.mod_small (a / 256) 256) by lia. unfold COMMAND_STARTAPPLICATION, report_address, is_byte.
  rewrite Hag. destruct far; cbn [negb]; [assert (block_size o = 256) as Es' by auto|].
  - rewrite <- Es, Es' in Hm. rewrite (Z.div_small a 65536) by lia. eexists _, _. split; [reflexivity|]. change (0 mod 256) with 0. lia.
  - eexists _, _. split; [reflexivity|]. lia.
Qed.

(** The operations for a block. *)
Definition block_mem (b : Z * list Z) : list mem_op :=
  map Spm (PageErase b.1 :: fill_ops b.1 (words_of b.2) ++ [PageWrite b.1]) ++ [RwwEnable].

(** The device has been asked for a report, and the host is about to send it. *)
Definition awaits {H} `{Hardware H} {size patience} `{!DownloadHost H size patience} (report : list Z) (d : usb H hl_app) : Prop :=
  (exists value index n, USB_ControlRequest (lib d) = hid_request value index n) /\ dl_stage (hw d) = mk_stage report 0 /\ dl_wait (hw d) = 0%nat.

Section device.
Context {H : Type} `{HW : Hardware H} {half patience : nat} `{DH : !DownloadHost H (2 * S half) patience}.
Context (fuel : nat) (Hfuel : (patience < fuel)%nat) (H256 : (256 <= fuel)%nat).

Definition answered (size : Z) (far : bool) (report : list Z) (ops : list mem_op) : Prop :=
  forall d : usb H hl_app, awaits report d -> exists d', hid_ControlRequest fuel size far d = (Done tt, d') /\ app d' = hl_mems ops (app d).

Lemma block_answered o k far b : (code_size o, block_size o, k, far) ∈ parts -> agrees o far -> 0 <= b.1 < 0xFF00 -> b.1 mod 2 ^ k = 0 -> Z.of_nat (length b.2) = 2 ^ k ->
  answered (block_size o) far (report_of o b) (block_mem b).
Proof.
  destruct b as [a bs]. cbn [fst snd]. intros Hp Hag Ha Hm Hl d ((value & index & n & Hreq) & Hst & Hw). destruct (address_sent o k far a Hp Hag Ha Hm) as (lo & hi & Ea & Hlo & Hhi & Er & Hne).
  apply parts_sizes in Hp as (Hk & -> & _). unfold report_of in Hst. cbn [fst snd] in Hst. rewrite Ea in Hst.
  assert (wp (hid_ControlRequest fuel (2 ^ k) far) (fun _ d' => app d' = hl_mems (block_mem (a, bs)) (app d)) (fun _ _ => False) d)
    as (r & d' & E & [([] & -> & Hd)|(? & _ & [])])%wp_run; [|by exists d'].
  unfold hid_ControlRequest, get_request. apply wp_bind, wp_get_mem. rewrite Hreq. cbn [bmRequestType bRequest hid_request Z.land Pos.land negb Z.eqb Pos.eqb when HID_REQ_SetReport].
  apply (wp_set_report k Hk (lib d) fuel Hfuel far lo hi bs (app d)); try done; [by rewrite Er|by rewrite Hreq|]. intros d' ->. unfold block_mem. cbn [fst snd]. by rewrite Er.
Qed.
End device.

(** The operations of all blocks are those of the image. *)
Lemma blocks_image k n : 1 <= k <= 13 -> forall a p, 0 <= a -> a mod 2 ^ k = 0 -> Z.of_nat (length p) = Z.of_nat n * 2 ^ k ->
  spm_of (concat (map block_mem (blocks_of n (2 ^ k) a p))) = image_ops k a (words_of p) /\
  Forall (fun b => 0 <= b.1 < a + Z.of_nat n * 2 ^ k /\ b.1 mod 2 ^ k = 0 /\ Z.of_nat (length b.2) = 2 ^ k) (blocks_of n (2 ^ k) a p).
Proof.
  intros Hk. pose proof (page_pos k Hk) as Hp. induction n as [|n IH]; intros a p Ha Hm Hl; [by destruct p; [|cbn in Hl; lia]|].
  rewrite Nat2Z.inj_succ, Z.mul_succ_l in *. cbn [blocks_of map concat]. set (h := Z.to_nat (2 ^ k)). assert (0 <= Z.of_nat n * 2 ^ k) by (apply Z.mul_nonneg_nonneg; lia).
  assert (Z.of_nat (length (take h p)) = 2 ^ k) as L1 by (rewrite length_take; lia). assert (Z.even (2 ^ k) = true) as Hev by (apply (even_page k Hk); apply Z_mod_same; lia).
  assert (2 * Z.of_nat (length (words_of (take h p))) = 2 ^ k) as L2 by (rewrite length_words_of; rewrite L1; done).
  destruct (IH (a + 2 ^ k) (drop h p)) as [E1 E2]; [lia| |rewrite length_drop; lia|].
  { rewrite <- (Z.mul_1_l (2 ^ k)) at 1. by rewrite Z.mod_add by lia. }
  split.
  - rewrite spm_of_app, E1. unfold block_mem at 1. cbn [fst snd]. rewrite spm_of_app, spm_of_spm, app_nil_r, <- (page_image k Hk) by done.
    rewrite <- (take_drop h p) at 3. rewrite words_of_app, image_ops_app, L2 by (by rewrite L1). done.
  - constructor; [cbn [fst snd]; lia|]. eapply Forall_impl; [exact E2|]. cbn beta. lia.
Qed.

(** C25: a file becomes a program.  For the parts on which the host program and the
    bootloader agree about addresses, those of 8, 16, 32 and 128 KB but not of 64 KB, and
    an image of at most 0xFF00 bytes that fits into the memory, printed as data records
    from address 0 on without gaps and an end record: once the device appears, the host program ends with 0, having
    sent one report for each block that holds a byte of the image (the first one at
    least) and the report that starts the application.  The bootloader completes the
    request of each of these reports, and the operations of all of them leave the image,
    filled up with ones to a whole block, in the flash memory, and the rest of the memory
    as it was. *)
Theorem hid_file_programmed {W} `{UA : UsbAccess W} `{UD : !UsbDevice W} {H} `{HW : Hardware H} half patience `{!DownloadHost H (2 * S half) patience}
    fuel argv o name pieces k far (s : cli W) :
  parse_options argv (opts s) = Some o -> filename o = Some name -> hard_reboot_device o = false -> reboot_after_programming o = true ->
  (code_size o, block_size o, k, far) ∈ parts -> agrees o far ->
  appears (world s) = 0%nat \/ wait_for_device_to_appear o = true -> (appears (world s) < fuel)%nat -> (patience < fuel)%nat -> (512 <= fuel)%nat ->
  file_of name (world s) = Some (print_file (data_records 0 pieces ++ [end_of_file])) -> stdin_ended (world s) = false ->
  Forall data_ok pieces -> Z.of_nat (length (concat pieces)) <= Z.min (code_size o) 0xFF00 ->
  exists s' reports ops, cli_main fuel argv s = (Done 0, s') /\ sent (world s') = sent (world s) ++ reports ++ [boot_report o] /\
    Forall2 (answered (H := H) (half := half) (patience := patience) fuel (block_size o) far) reports ops /\
    forall F (FM : FlashMemory F (2 ^ k)) (f : F), (forall y, 0 <= y < 2 ^ k -> buffer_word f y = 65535) ->
      let f' := spm_run k (spm_of (concat ops)) f in let image := filled_up (block_size o) (concat pieces) in
      (forall i w, words_of image !! i = Some w -> flash_word f' (2 * Z.of_nat i) = w) /\
      (forall x, ~ 0 <= x < Z.of_nat (length image) -> flash_word f' x = flash_word f x).
Proof.
  intros Ho Hname Hr Hreb Hpart Hag Hap Hf1 Hf2 Hf3 Hfile Hin Hp Hn. destruct (parts_sizes _ _ _ _ Hpart) as (Hk & Es & (c & Hc & Ec) & (q & Eq) & _).
  pose proof (page_pos k ltac:(lia)) as Hpos. set (bs := concat pieces) in *. set (u := used_blocks (block_size o) (Z.of_nat (length bs))).
  destruct (used_blocks_spec (block_size o) (Z.of_nat (length bs)) ltac:(lia) ltac:(lia)) as (U1 & _ & _ & U4). fold u in U1, U4.
  assert (0 < block_size o) as Hbs by lia. assert (1 <= q) as Hq by (clear -Eq Hbs; nia).
  assert (Z.of_nat u * block_size o <= 0xFF00) as Hu by (rewrite Eq; apply Z.mul_le_mono_nonneg_r; [lia|apply U4; lia]).
  pose proof (length_filled_up (block_size o) bs ltac:(lia)) as Hlen. fold u in Hlen. set (image := filled_up _ _) in *.
  destruct (wp_run _ _ _ _ (wp_cli_main fuel argv o name pieces c s Ho Hname Hr Hap Hf1 Hfile Hin Hp Hbs ltac:(lia) Ec ltac:(fold bs; lia)
    ltac:(fold bs u; unfold MAX_MEMORY_SIZE; lia))) as (r & s' & E & [(a & -> & -> & Hsent)|(? & _ & [])]).
  rewrite Es in Hlen. assert (0 mod 2 ^ k = 0) as Hz by (apply Z.mod_0_l; lia).
  destruct (blocks_image k u ltac:(lia) 0 image ltac:(lia) Hz Hlen) as [Eops Hall].
  exists s', (reports_for o bs), (map block_mem (blocks_of u (2 ^ k) 0 image)). split; [done|]. rewrite Hreb in Hsent. split; [done|]. split.
  - unfold reports_for. fold u image. rewrite Es. apply Forall2_fmap. apply Forall_Forall2_diag. eapply Forall_impl; [exact Hall|].
    intros b (B1 & B2 & B3). rewrite <- Es. apply (block_answered fuel ltac:(lia) ltac:(lia) o k far b Hpart Hag); [lia|done..].
  - intros F FM f Hfree. cbv zeta. rewrite Eops. assert (Z.even (Z.of_nat (length image)) = true) as Hev.
    { rewrite Hlen, Z.even_mul, (even_page k ltac:(lia) (2 ^ k)), orb_true_r; [done|]. apply Z_mod_same. lia. }
    pose proof (length_words_of image Hev) as Hw. destruct (pages_flashed k ltac:(lia) u 0 (words_of image) f) as (W1 & O1 & _); [lia|done|lia|done|].
    split; [done|]. intros x Hx. apply O1. lia.
Qed.

(** A simulated system: the devices of a kind come first, then the bootloader. *)
Record sim_system : Type := mk_sim_system { ss_wait : nat; ss_file : list Z; ss_messages : list message }.

#[export] Instance sim_libusb : LibUsb sim_system := {
  usb_busses x := ([[mk_usb_device 0x1D6B 2 1]; mk_usb_device 0x03EB 0x2FF4 2 :: (if (ss_wait x =? 0)%nat then [mk_usb_device 0x03EB 0x2067 3] else [])], x);
  usb_open dev x := (Some (device dev), x);
  usb_close _ x := x;
  usb_get_driver_np _ _ x := (0, x);
  usb_detach_kernel_driver_np _ _ x := (0, x);
  usb_claim_interface _ _ x := (0, x);
  usb_release_interface _ _ x := x;
  usb_control_msg _ rt rq v i b _ x := (Z.of_nat (length b), mk_sim_system (ss_wait x) (ss_file x) (ss_messages x ++ [(rt, rq, v, i, b)]));
  os_sleep _ x := mk_sim_system (pred (ss_wait x)) (ss_file x) (ss_messages x);
  os_files x _ := Some (ss_file x);
  os_stdin_ended _ := false }.

#[export] Instance sim_plugged : Plugged sim_system := { lu_wait := ss_wait; lu_messages := ss_messages }.

#[export] Instance sim_attached : HidAttached sim_system.
Proof.
  split; try done; cbn.
  - intros x dev Hw. rewrite (proj2 (Nat.eqb_neq _ _)) by done. cbn. unfold bootloader_ids. rewrite !elem_of_cons, elem_of_nil. intros [->|[->|[]]] [[]|[]]; done.
  - intros x ->. cbn. exists (mk_usb_device 0x03EB 0x2067 3). split; [|done]. rewrite !elem_of_cons. tauto.
  - intros dev x. by eexists _, _.
  - intros. split; [lia|done].
Qed.

Definition sim_records : list (list Z) := [[12; 148; 52; 0; 12]; [148; 62]; []; [0; 255; 207]].

Definition sim_cli : cli (usb_world sim_system) :=
  mk_cli (mk_world (mk_sim_system 3 (print_file (data_records 0 sim_records ++ [end_of_file])) []) None) options_init ihex_init.

Definition sim_options : options := mk_options true false true false 32768 128 (Some "blink.hex"%string).

(** Witness of C25: ten bytes in four records, and an atmega32u4 that is to appear. *)
Lemma hid_file_programmed_witness :
  exists s' reports ops, cli_main (H := libusb_access true) 512 ["-mmcu=atmega32u4"; "-w"; "blink.hex"]%string sim_cli = (Done 0, s') /\
    sent (UsbDevice := libusb_device true) (world s') = sent (UsbDevice := libusb_device true) (world sim_cli) ++ reports ++ [boot_report sim_options] /\
    Forall2 (answered (H := sim_dl 8) (half := 3) (patience := 2) 512 128 false) reports ops /\
    forall F (FM : FlashMemory F (2 ^ 7)) (f : F), (forall y, 0 <= y < 2 ^ 7 -> buffer_word f y = 65535) ->
      let f' := spm_run 7 (spm_of (concat ops)) f in let image := filled_up 128 (concat sim_records) in
      (forall i w, words_of image !! i = Some w -> flash_word f' (2 * Z.of_nat i) = w) /\
      (forall x, ~ 0 <= x < Z.of_nat (length image) -> flash_word f' x = flash_word f x).
Proof.
  apply (hid_file_programmed (UA := libusb_access true) (UD := libusb_device true) (H := sim_dl 8) 3 2 512 ["-mmcu=atmega32u4"; "-w"; "blink.hex"]%string sim_options "blink.hex" sim_records 7 false sim_cli); try done.
  - apply (bool_decide_unpack _). by vm_compute.
  - by right.
  - cbn. lia.
  - lia.
  - repeat constructor; unfold is_byte; cbn; lia.
Defined.

(** ** A damaged file *)

Lemma wrong_checksum sum ck : is_byte ck -> ck <> u8 (- sum) -> bad_checksum sum ck = true.
Proof.
  intros Hck Hne. unfold bad_checksum. rewrite (byte_masked ck Hck). change 255 with (Z.ones 8). rewrite !Z.land_ones by lia. change (2 ^ 8) with 256.
  apply negb_true_iff, Z.eqb_neq. intros E. apply Hne. unfold wrapu, is_byte in *. change (2 ^ 8) with 256. apply (Z.mod_unique_pos _ _ (- (sum / 256) - (sum mod 256 + ck) / 256)); [done|].
  pose proof (Z.div_mod sum 256 ltac:(lia)). pose proof (Z.div_mod (sum mod 256 + ck) 256 ltac:(lia)). lia.
Qed.

(** C38: a damaged file.  When a data record of the file has another checksum than its
    own, after any number of good records, the host program ends with the error code,
    before it has done anything to the device. *)
Theorem damaged_file_refused {W} `{UA : UsbAccess W} fuel argv o name pieces c ck rest (s : cli W) :
  let a := Z.of_nat (length (concat pieces)) in let r := mk_record a 0 c in
  parse_options argv (opts s) = Some o -> filename o = Some name -> code_size o <> 0 ->
  file_of name (world s) = Some (print_file (data_records 0 pieces) ++ print_with ck r ++ rest) -> stdin_ended (world s) = false ->
  Forall data_ok pieces -> data_ok c -> a + Z.of_nat (length c) < MAX_MEMORY_SIZE -> is_byte ck -> ck <> u8 (- sum_bytes (record_bytes r)) ->
  exists s', cli_main fuel argv s = (Exit 1, s') /\ world s' = world s.
Proof.
  intros a r Ho Hname Hc Hfile Hin Hp Hcok Hmax Hck Hne. unfold MAX_MEMORY_SIZE in Hmax.
  destruct (record_bytes_ok a c) as [R1 R2]; [lia|done|]. fold r in R1, R2. set (file := _ ++ _ ++ rest) in Hfile.
  assert (exists k, length file = (length pieces + S k)%nat) as [k Hk].
  { exists (length file - length pieces - 1)%nat. unfold file. rewrite !length_app. pose proof (length_print_file (data_records 0 pieces)) as Hl.
    rewrite length_data_records in Hl. unfold print_with. cbn [length]. lia. }
  destruct (read_pieces pieces (S k) (print_with ck r ++ rest) ihex_init []) as (h & E & Hh & Hb); [done|apply holds_init|done|unfold MAX_MEMORY_SIZE; cbn; lia|].
  destruct Hcok as [C1 C2]. destruct (parse_data_line a c ck h (concat pieces)) as (h' & E' & _); [done..|unfold MAX_MEMORY_SIZE; lia|rewrite Hb; lia|rewrite Hb; cbn; lia|].
  fold r in E'. rewrite wrong_checksum in E' by done.
  assert (read_intel_hex false (Some file) = Ok (-2, h')) as Er.
  { unfold read_intel_hex. rewrite Hk. unfold file. change (Z.of_nat (length ([] : list Z))) with 0 in E. rewrite E, read_record, E' by done. done. }
  assert (wp (cli_main fuel argv) (fun _ _ => False) (fun code s' => code = 1 /\ world s' = world s) s) as (x & s' & Ex & [(? & _ & [])|(? & -> & -> & Hw)])%wp_run; [|by exists s'].
  unfold cli_main. apply wp_bind, wp_gets. rewrite Ho. apply wp_bind, wp_modify. rewrite Hname, (proj2 (Z.eqb_neq _ _)) by done. apply wp_bind, wp_ret, wp_bind.
  unfold load_file. apply wp_bind, wp_gets. eapply wp_bind, wp_lift; [cbn [id world]; rewrite Hin, Hfile; exact Er|]. apply wp_bind, wp_modify. by apply wp_exits.
Qed.

(** Witness of C38: a good record and one with a wrong checksum. *)
Lemma damaged_file_refused_witness :
  let w := mk_world (mk_sim_system 0 (print_file (data_records 0 [[12; 148]]) ++ print_with 7 (mk_record 2 0 [52; 0]) ++ [65; 66]) []) None in
  exists s', cli_main (H := libusb_access false) 512 ["-mmcu=at90usb1287"; "blink.hex"]%string (mk_cli w options_init ihex_init) = (Exit 1, s') /\ world s' = w.
Proof.
  intros w. apply (damaged_file_refused (UA := libusb_access false) 512 _ (mk_options false false true false 131072 256 (Some "blink.hex"%string)) "blink.hex" [[12; 148]] [52; 0] 7 [65; 66]);
    (done || (repeat constructor; unfold is_byte; cbn; lia)).
Defined.

(** ** Parts of 64 KB *)

(** The host program leaves out the low byte of the address, which a bootloader for a
    memory that ends at 0xFFFF does not expect: it takes the block for another page. *)
Lemma address_mistaken o addr : code_size o = 0x10000 -> 0 < addr < 0x10000 -> addr mod 256 = 0 ->
  exists lo hi, address_bytes o addr = [lo; hi] /\ report_address false lo hi = addr / 256 /\ addr / 256 <> addr.
Proof.
  intros Hc Ha Hm. unfold address_bytes. rewrite Hc. cbn [Z.ltb Z.compare Pos.compare Pos.compare_cont]. change 255 with (Z.ones 8).
  rewrite !Z.land_ones, !Z.shiftr_div_pow2 by lia. change (2 ^ 8) with 256. change (2 ^ 16) with 65536.
  pose proof (Z.div_mod addr 256 ltac:(lia)). assert (0 <= addr / 256 < 256) by (split; [apply Z.div_pos; lia|apply Z.div_lt_upper_bound; lia]).
  rewrite (Z.mod_small (addr / 256)), (Z.div_small addr 65536) by lia. eexists _, _. split; [reflexivity|]. unfold report_address. change (0 mod 256) with 0. lia.
Qed.

(** ** Lines that are accepted *)

(** A line with the address "-004", which sscanf accepts, stores outside of the image. *)
Lemma negative_address_overruns : parse_hex_line ([58; 48; 53; 45; 48; 48; 52; 48; 48] ++ replicate 12 48 ++ [10]) ihex_init = Fault OutOfBounds.
Proof. by vm_compute. Qed.

(** A record with white space in the place of its checksum is not refused: the checksum
    that it is compared with was never assigned. *)
Lemma missing_checksum_unset : parse_hex_line ([58; 48; 49; 48; 48; 48; 48; 48; 48; 65; 65; 13; 10]) ihex_init = Fault Indeterminate.
Proof. by vm_compute. Qed.

(** The last block of the image that can be loaded is programmed as if it were empty. *)
Lemma last_block_empty h : ihex_get_data h 0xFF00 256 = replicate 256 255.
Proof. done. Qed.
